(* ===== verification/_CoqProject ===== *)
-Q . S2P
Prelude.v
GoStrings.v
GoFlags.v
Types.v
Util.v
Provider.v
ZooKeeperProvider.v
MonitoringProvider.v
BackupDaemonProvider.v
Platform.v
Conditions.v
Reconciler.v
Bounds.v
Vault.v
ZooKeeperVault.v
Fragments.v
Frames.v
ZooKeeperReconciler.v
MonitoringReconciler.v
BackupDaemonReconciler.v
Quiescence.v
Controller.v
Operator.v
Live.v
LiveCycle.v
Converge.v
Cycle.v
Desired.v
Steady.v
Sim.v
Pinned.v
Ideal.v
OperatorRuns.v
BackupServer.v
Memory.v
DeepCopyV1.v
DeepCopyV1alpha1.v
DeepCopyRuns.v
Scenarios.v
Witnesses.v
