(* ===== verification/Prelude.v ===== *)
(** * Verification of the ZooKeeper operator

    The program is a Kubernetes operator written in Go.  It watches resources
    of kind ZooKeeperService and drives the cluster towards them: the servers
    of a ZooKeeper ensemble (services, volume claims, one deployment per
    server), a monitoring component, a backup daemon, integration tests, and,
    when enabled, credentials kept in HashiCorp Vault.  A second program, the
    assistant inside the ZooKeeper container, checks the health of a server
    and copies its transaction logs.  This library is a shallow embedding of
    the Go code of both, with the theorems that make it correct.

    ** Parts of the program and files of the library

    The controller ([Reconcile] in zookeeperservice_controller.go) fetches the
    resource, decides by a hash whether it changed, logs in to Vault, runs the
    sub-reconcilers in order, waits for the pods, reports the outcome in the
    status and records the hashes.  Each sub-reconciler watches its secrets,
    decides by hashes and secret versions whether anything changed, builds its
    objects with a provider and applies them with the shared operations.

    - [Prelude]: results of Go code ([Ok], [Err], [Panic] with its cause), maps
      that may be nil, integers at their width, loops, tactics and hints.
    - [GoStrings], [GoFlags]: the part of strings, strconv and flag that the
      code uses.
    - [Types]: api/v1/zookeeperservice_types.go and the Kubernetes objects the
      code builds or reads.
    - [Util]: operator/util: [JoinMaps], [Min] and [Hash], with SHA-256
      written out.
    - [Provider]: provider/zookeeperservice_provider.go, secrets_provider.go
      and vault_provider.go.
    - [ZooKeeperProvider], [MonitoringProvider], [BackupDaemonProvider]: the
      builders of the three components (modules [ZK], [Mon], [Backup]).
    - [Platform]: the operator's state [St] (the caches ResourceHashes and
      ResourceVersions of the Go struct, the package variables globalSpecHash
      and vaultClient, the resource every reconciler shares by pointer, and a
      ghost trace of the calls made), the state-and-error monad [M], the
      parameters for third-party code, and the program logic [holds].
    - [Conditions]: condition.go.
    - [Reconciler]: zookeeperservice_reconciler.go and
      deployment_secret_restart.go.
    - [Vault]: vault_client.go and util/password.go.
    - [ZooKeeperVault]: zookeeper_vault.go.
    - [Fragments]: the steps every sub-reconciler repeats, one definition each.
    - [Bounds]: how many calls the writes of deployments make.
    - [Frames]: the laws of the API client ([KubeLaws]) and the contracts
      [OpFrame], [ReconcileFrame], [ControllerFrame]: every operation is proved
      once against the contract of its layer, and a property of whole cycles
      is an instance of a contract.
    - [ZooKeeperReconciler]: zookeeper_reconciler.go.
    - [MonitoringReconciler]: monitoring_reconciler.go, monitoring_vault.go.
    - [BackupDaemonReconciler]: backupdaemon_reconciler.go and
      backupdaemon_vault.go.
    - [Quiescence]: theorems on the skip condition of the three reconcilers.
    - [Controller]: zookeeperservice_controller.go and
      integrationtests_reconciler.go.
    - [Operator]: operator/main.go, SetupWithManager and the two
      groupversion_info.go: the start-up of the process, and the running
      operator as a state machine over [Reconcile] (events, queue, worker,
      retries, restarts).
    - [Live], [LiveCycle]: a logic of total correctness, the healthy cluster
      [Healthy] and the valid resource [Valid], and progress of a cycle.
    - [Converge], [Cycle], [Desired], [Steady]: several cycles of one resource.
      [Stored] and [Undisturbed] say that nobody edits the resource and its
      secrets; [Desired] holds the abstract specification [deployed] of what a
      resource stands for and its refinement; [Steady] the idempotence.
    - [BackupServer]: docker-zookeeper/main.go.
    - [Memory], [DeepCopyV1], [DeepCopyV1alpha1]: a heap of maps, slices and
      pointers, and the deep copies of api/v1/zz_generated.deepcopy.go and
      api/v1alpha1/zz_generated.deepcopy.go over the types of the two
      versions; [DeepCopyRuns] runs them.
    - [Sim], [Pinned], [Ideal]: concrete platforms that satisfy the laws, so
      that whole cycles can be evaluated: one that stores what it is sent, one
      whose resource and secrets nobody edits, one that is always healthy.
    - [OperatorRuns], [Scenarios], [Witnesses]: the theorems applied to
      concrete runs, and the scenario of a lost credentials refresh.

    ** How Go is modelled

    A function that can fail returns [Res]: a value, a non-nil error, or a
    run-time panic.  Operations on the outside are in [M W], which keeps the
    state reached on an error or a panic.  A pointer that may be nil is an
    option and dereferencing it panics; a nil map is [None] and writing to it
    panics; an index out of range panics.  A secret or deployment passed by
    pointer and changed is returned by the operation that changes it.  A
    status update replaces the shared resource by the server's reply, as the
    client does.  Logging is left out.

    ** Parameters

    The API client, the polling and retry helpers, the Vault client, the
    password generator, the quantity parser and the JSON encoder are classes
    over an abstract world; so are controller-runtime's start-up calls
    ([Runtime]) and the host of the assistant ([Host]).  Four sets of laws
    are assumed of them:
    [WaitLaws] (a poll evaluates its condition until true, error or timeout; a
    retry runs again only on a conflict, at most four times, the steps of
    client-go's default backoff), [KubeLaws] (a read returns the object asked
    for, a write keeps names, setting the owner changes owner references
    only), [HostLaws] for the file operations of the assistant, and
    [KubeCopyLaws] for the deep copies of the Kubernetes structs.  [Sim] and
    [Scenarios] give instances and prove the laws for them.  How often a poll
    evaluates its condition depends on a clock, so [WaitLaws] describes
    polls by a relation that bounds nothing; the retry bound is four.  The
    concrete platform polls three times, and its deployments are ready at
    once.  No definition needs fuel.  The theorems on several cycles assume
    [Stored] or [Undisturbed] in addition, the progress theorem [Healthy];
    [Pinned] and [Ideal] are instances.  The state machine of [Operator] takes
    the documented defaults of controller-runtime: one worker, recovered
    panics, a queue without duplicates, a failed request queued again.

    ** What the theorems show

    - The specification ([Desired]): a successful cycle has had every service
      and deployment the spec stands for accepted, section by section.
    - Idempotence and progress: cycles after a successful one leave the
      cluster alone; on a healthy cluster the cycle of a valid resource
      succeeds; and the limit of the caches, a second resource with the same
      spec, which is not deployed.
    - The life of the operator ([Operator]): over any interleaving of events,
      cycles and restarts it stays in its namespace, loses no request and
      records only hashes it has read; what wakes it; its start-up, command
      line and exits.
    - Whole cycles ([Controller]): writes stay in the namespace and on owned
      deployments; every deployment update follows a read and carries its
      version; the hashes are recorded exactly by successful cycles; a failed
      sub-reconciler is reported, and the outcome agrees with the conditions.
    - The ensemble ([ZooKeeperReconciler]): servers are rolled one at a time,
      each ready before the next; a readiness report of Ready means all
      servers were read ready; a downscale zeroes exactly the excess servers.
    - Quiescence: the exact skip condition, and that an unchanged component is
      left alone; the exception, the backup daemon's secret, whose version the
      monitoring reconciler records first.
    - Credentials ([ZooKeeperVault], [Vault]): when they are rotated, that
      users keep their names, that a cleaned secret is not rotated again.
    - Objects ([Provider] and the three providers): selectors match exactly
      the right pods, mounts match volumes, the data volume is the claim
      built for it, when builders panic, references to Vault read back.
    - Conditions and annotations: the list of conditions refines a map, restart
      annotations settle, the merge of claim annotations; the writes of a
      deployment end after a bounded number of calls.
    - Deep copies: every generated copy has the value of its original and
      shares no memory with it.
    - The assistant: a backup is exact, a failed one loses the old one, what
      the server answers, the exit codes, and that the health check uses the
      configured kind of connection.

    ** What is not modelled

    Logging, and the parts of the repository in other languages (the Python
    monitoring, backup scripts, Helm charts, tests).  The HTTP router is
    reduced to its table of routes, the compression of answers is left out; a
    slice in [Memory] is its whole array.  Affinity terms,
    tolerations, resources and pod security contexts that the operator only
    copies are opaque values. *)

From stdpp Require Export base tactics gmap strings list pretty fin_maps.
From Stdlib Require Export ZArith Lia.

#[global] Open Scope Z_scope.

(** ** Results of Go code

    A Go call either returns normally, returns a non-nil [error], or panics.
    [Reason] is the part of an error the code inspects ([errors.IsNotFound],
    [errors.IsConflict]). *)
Inductive Reason : Set :=
| NotFound | Conflict | AlreadyExists | Timeout | OtherReason.

Record error : Set := mkError { err_reason : Reason; err_msg : string }.

(** Causes of a Go run-time panic that the modelled code can meet. *)
Inductive PanicCause : Set :=
| NilMapWrite        (* assignment to entry in nil map *)
| NilDereference     (* nil pointer dereference *)
| IndexOutOfRange    (* slice index out of range *)
| TypeAssertion      (* interface conversion failure *)
| MustParse          (* resource.MustParse on a malformed quantity *)
| ProcessExit.       (* os.Exit / log.Fatal / GetConfigOrDie *)

Inductive Res (A : Type) : Type :=
| Ok (a : A)
| Err (e : error)
| Panic (p : PanicCause).
Arguments Ok {A} a.
Arguments Err {A} e.
Arguments Panic {A} p.

#[global] Instance Res_ret : MRet Res := fun A a => Ok a.
#[global] Instance Res_bind : MBind Res := fun A B f m =>
  match m with Ok a => f a | Err e => Err e | Panic p => Panic p end.

Definition is_Ok {A} (r : Res A) : bool :=
  match r with Ok _ => true | _ => false end.

(** [fmt.Errorf] and errors raised by the operator itself. *)
Definition Errorf (msg : string) : error := mkError OtherReason msg.

(** [errors.IsNotFound] on a returned error ([None] is nil). *)
Definition IsNotFound (e : error) : bool :=
  match err_reason e with NotFound => true | _ => false end.

#[global] Instance Reason_eq_dec : EqDecision Reason.
Proof. solve_decision. Defined.
#[global] Instance error_eq_dec : EqDecision error.
Proof. solve_decision. Defined.
#[global] Instance PanicCause_eq_dec : EqDecision PanicCause.
Proof. solve_decision. Defined.
#[global] Instance Res_eq_dec {A} `{EqDecision A} : EqDecision (Res A).
Proof. solve_decision. Defined.

(** [*p] for a pointer that may be nil. *)
Definition deref {A} (p : option A) : Res A :=
  match p with Some a => Ok a | None => Panic NilDereference end.

(** [l[i]] for a Go slice: panics outside [0 <= i < len l]. *)
Definition index {A} (l : list A) (i : Z) : Res A :=
  if decide (0 <= i) then
    match l !! Z.to_nat i with Some a => Ok a | None => Panic IndexOutOfRange end
  else Panic IndexOutOfRange.

(** ** Go maps

    A [map[string]V] may be nil.  Reading a nil map yields the zero value,
    ranging over or deleting from it does nothing, writing to it panics. *)
Abbreviation gomap V := (option (gmap string V)).

Definition gm {V} (m : gomap V) : gmap string V := default ∅ m.

(** [m[k]] for a [map[string]string]. *)
Definition gm_str (m : gomap string) (k : string) : string := default "" (gm m !! k).

(** [m[k] = v]. *)
Definition gm_set {V} (m : gomap V) (k : string) (v : V) : Res (gomap V) :=
  match m with Some m' => Ok (Some (<[k:=v]> m')) | None => Panic NilMapWrite end.

(** [delete(m, k)]. *)
Definition gm_delete {V} (m : gomap V) (k : string) : gomap V := delete k <$> m.

(** [for k, v := range src { dst[k] = v }] on a non-nil [dst]. *)
Definition range_insert {V} (src dst : gmap string V) : gmap string V :=
  map_fold (fun k v acc => <[k:=v]> acc) dst src.

(** [maps.Copy(dst, src)]: panics when [dst] is nil and [src] has an entry. *)
Definition maps_Copy {V} (dst src : gomap V) : Res (gomap V) :=
  match dst with
  | Some d => Ok (Some (range_insert (gm src) d))
  | None => if decide (gm src = ∅) then Ok None else Panic NilMapWrite
  end.

(** [maps.Equal]: same length and same entries; nil equals the empty map. *)
Definition maps_Equal {V} `{EqDecision V} (a b : gomap V) : bool :=
  bool_decide (gm a = gm b).

(** ** Machine integers *)
Definition wrap (w : Z) (x : Z) : Z :=
  let m := x mod 2 ^ w in if decide (m < 2 ^ (w - 1)) then m else m - 2 ^ w.

(** Go [int] and [int64] on the operator's 64-bit platform, and [int32]. *)
Definition int64 (x : Z) : Z := wrap 64 x.
Definition int32 (x : Z) : Z := wrap 32 x.

Definition second : Z := 1000000000.

(** [time.Duration(n) * time.Second], an [int64] product. *)
Definition seconds (n : Z) : Z := int64 (int64 n * second).

(** [for i := lo; i <= hi; i++]: the values [i] takes. *)
Definition upto (lo hi : Z) : list Z := seqZ lo (hi - lo + 1).

(** Run a loop body over the values of a range, stopping at the first
    early return. *)
Fixpoint for_each {M : Type -> Type} `{MRet M, MBind M} {A}
    (l : list A) (body : A -> M unit) : M unit :=
  match l with
  | [] => mret tt
  | x :: l => body x ;; for_each l body
  end.

(** ** Notation and automation *)
Create HintDb zk.

(** Split the [Res] monad's matches and conditionals in hypotheses. *)
Ltac res_step :=
  match goal with
  | H : Ok _ = Ok _ |- _ => injection H as H; subst
  | H : Err _ = Err _ |- _ => injection H as H; subst
  | H : Ok _ = Err _ |- _ => discriminate H
  | H : Err _ = Ok _ |- _ => discriminate H
  | H : Panic _ = Ok _ |- _ => discriminate H
  | H : Ok _ = Panic _ |- _ => discriminate H
  | H : Some _ = Some _ |- _ => injection H as H; subst
  | H : (_, _) = (_, _) |- _ => injection H as H; subst
  end.

(** Case on the scrutinee of the outermost match of a hypothesis, with its
    equation. *)
Ltac case_in H :=
  match type of H with
  | context [match ?x with _ => _ end] => let E := fresh "E" in destruct x eqn:E
  end.

(** ** Generic lemmas *)

Lemma Ok_inj {A} (a b : A) : Ok a = Ok b -> a = b.
Proof. congruence. Qed.

Lemma bind_Ok {A B} (m : Res A) (f : A -> Res B) b :
  (m ≫= f) = Ok b <-> exists a, m = Ok a /\ f a = Ok b.
Proof. destruct m; naive_solver. Qed.

Lemma deref_Ok {A} (p : option A) a : deref p = Ok a <-> p = Some a.
Proof. destruct p; naive_solver. Qed.

Lemma index_Ok {A} (l : list A) i a :
  index l i = Ok a <-> 0 <= i /\ l !! Z.to_nat i = Some a.
Proof. unfold index. case_decide; [destruct (l !! _)|]; naive_solver. Qed.

Lemma index_in_range {A} (l : list A) i :
  0 <= i < Z.of_nat (length l) -> exists a, index l i = Ok a.
Proof.
  intros [Hi Hl]. destruct (lookup_lt_is_Some_2 l (Z.to_nat i)) as [a Ha]; [lia|].
  exists a. by apply index_Ok.
Qed.

Lemma index_out_of_range {A} (l : list A) i :
  ~ 0 <= i < Z.of_nat (length l) -> index l i = Panic IndexOutOfRange.
Proof.
  intros Hn. unfold index. case_decide; [|done].
  rewrite lookup_ge_None_2; [done|lia].
Qed.

Lemma range_insert_union {V} (src dst : gmap string V) :
  range_insert src dst = src ∪ dst.
Proof.
  unfold range_insert. revert dst. induction src as [|k v m Hk Hfold IH] using map_first_key_ind.
  - intros dst. by rewrite map_fold_empty, (left_id_L ∅ (∪)).
  - intros dst. rewrite map_fold_insert_first_key by done. rewrite IH. by rewrite insert_union_l.
Qed.

Lemma gm_str_insert (m : gmap string string) k k' v :
  gm_str (Some (<[k:=v]> m)) k' = if decide (k = k') then v else gm_str (Some m) k'.
Proof. unfold gm_str, gm. simpl. rewrite lookup_insert. by case_decide. Qed.

Lemma gm_str_singleton k v : gm_str (Some {[k:=v]}) k = v.
Proof. unfold gm_str, gm. simpl. by rewrite lookup_singleton_eq. Qed.

Lemma upto_lookup lo hi i :
  i ∈ upto lo hi <-> lo <= i <= hi.
Proof. unfold upto. rewrite elem_of_seqZ. lia. Qed.

Lemma upto_cons lo hi : lo <= hi -> upto lo hi = lo :: upto (lo + 1) hi.
Proof.
  intros H. unfold upto. rewrite seqZ_cons by lia. repeat f_equal; lia.
Qed.

Lemma upto_nil lo hi : hi < lo -> upto lo hi = [].
Proof. intros H. unfold upto. by rewrite seqZ_nil by lia. Qed.

Lemma wrap_small w x : 0 < w -> - 2 ^ (w - 1) <= x < 2 ^ (w - 1) -> wrap w x = x.
Proof.
  intros Hw Hx. unfold wrap.
  assert (2 ^ w = 2 * 2 ^ (w - 1)) as Hp.
  { rewrite <- Z.pow_succ_r by lia. f_equal. lia. }
  destruct (decide (0 <= x)).
  - rewrite Z.mod_small by lia. case_decide; lia.
  - replace (x mod 2 ^ w) with (x + 2 ^ w).
    + case_decide; lia.
    + rewrite <- (Z.mod_add x 1), Z.mul_1_l by lia. rewrite Z.mod_small; lia.
Qed.

(** Split a chain of [Res] binds that returned [Ok] into its steps. *)
Ltac inv_binds H :=
  repeat match type of H with
  | (_ ≫= _) = Ok _ =>
      let a := fresh "a" in let Ha := fresh "Ha" in
      apply bind_Ok in H as (a & Ha & H)
  | mret _ = Ok _ => apply Ok_inj in H; subst
  | Ok _ = Ok _ => apply Ok_inj in H; subst
  end.

(** Case analysis on membership in an explicit list. *)
Ltac case_elem H :=
  repeat (apply elem_of_cons in H as [->|H]); try (by apply elem_of_nil in H).
