(* ===== verification/GoStrings.v ===== *)
(** * Go's [strings], [strconv] and [fmt] as far as the operator uses them

    A Go string is a byte sequence; it is a [string] of 8-bit characters here.
    [Split], [SplitN2], [Join], [TrimSpace], [HasPrefix], [ToLower], [Itoa],
    [FormatBool] and [ParseInt64] follow the standard library on every byte
    string ([ToLower] on the ASCII letters only). *)

From S2P Require Import Prelude.
From Stdlib Require Import Ascii.

(** ** Characters *)
Definition chr (n : nat) : string := String (ascii_of_nat n) "".

(** The characters a Rocq string literal cannot hold, or that read badly. *)
Definition dquote : string := chr 34.
Definition newline : string := chr 10.
Definition tab : string := chr 9.

Definition comma : ascii := ",".
Definition colon : ascii := ":".
Definition equals : ascii := "=".
Definition hash_sign : ascii := "#".
Definition lf : ascii := ascii_of_nat 10.

Fixpoint has_char (c : ascii) (s : string) : bool :=
  match s with
  | "" => false
  | String a s => bool_decide (a = c) || has_char c s
  end.

(** Number of occurrences of [c] in [s]. *)
Fixpoint count_char (c : ascii) (s : string) : nat :=
  match s with
  | "" => 0
  | String a s => (if bool_decide (a = c) then 1 else 0) + count_char c s
  end%nat.

(** ** Splitting and joining *)

(** [strings.Split(s, c)] for a one-byte separator. *)
Fixpoint Split (c : ascii) (s : string) : list string :=
  match s with
  | "" => [""]
  | String a s =>
      if decide (a = c) then "" :: Split c s
      else match Split c s with
           | w :: ws => String a w :: ws
           | [] => [String a ""]
           end
  end.

(** The text before and after the first [c] of [s]. *)
Fixpoint cut (c : ascii) (s : string) : option (string * string) :=
  match s with
  | "" => None
  | String a s =>
      if decide (a = c) then Some ("", s)
      else (fun '(x, y) => (String a x, y)) <$> cut c s
  end.

(** [strings.SplitN(s, c, 2)] for a one-byte separator. *)
Definition SplitN2 (c : ascii) (s : string) : list string :=
  match cut c s with Some (x, y) => [x; y] | None => [s] end.

(** [strings.Join(l, sep)]. *)
Fixpoint Join (sep : string) (l : list string) : string :=
  match l with
  | [] => ""
  | [w] => w
  | w :: l => w +:+ sep +:+ Join sep l
  end.

(** [strings.HasPrefix(s, p)], returning the rest of [s]. *)
Fixpoint strip_prefix (p s : string) : option string :=
  match p, s with
  | "", _ => Some s
  | String a p, String b s => if decide (a = b) then strip_prefix p s else None
  | String _ _, "" => None
  end.

Definition HasPrefix (s p : string) : bool := bool_decide (is_Some (strip_prefix p s)).

(** ** White space *)

(** The UTF-8 encodings of the code points for which [unicode.IsSpace] holds. *)
Definition space_encodings : list string :=
  [chr 9; chr 10; chr 11; chr 12; chr 13; chr 32;
   chr 194 +:+ chr 133; chr 194 +:+ chr 160; chr 225 +:+ chr 154 +:+ chr 128]
  ++ ((fun n => chr 226 +:+ chr 128 +:+ chr n) <$> seq 128 11)
  ++ [chr 226 +:+ chr 128 +:+ chr 168; chr 226 +:+ chr 128 +:+ chr 169;
      chr 226 +:+ chr 128 +:+ chr 175; chr 226 +:+ chr 129 +:+ chr 159;
      chr 227 +:+ chr 128 +:+ chr 128].

Fixpoint strip_any (ps : list string) (s : string) : option string :=
  match ps with
  | [] => None
  | p :: ps => match strip_prefix p s with Some r => Some r | None => strip_any ps s end
  end.

(** Strip prefixes from [ps] as long as one matches; [fuel] bounds the number
    of rounds, and the length of [s] is always enough. *)
Fixpoint trim_left (fuel : nat) (ps : list string) (s : string) : string :=
  match fuel with
  | O => s
  | S fuel => match strip_any ps s with Some r => trim_left fuel ps r | None => s end
  end.

(** [strings.TrimSpace(s)]. *)
Definition TrimSpace (s : string) : string :=
  let l := trim_left (String.length s) space_encodings s in
  String.rev (trim_left (String.length l) (String.rev <$> space_encodings) (String.rev l)).

(** [strings.ToLower] on ASCII letters. *)
Definition lower_ascii (a : ascii) : ascii :=
  let n := nat_of_ascii a in
  if decide (65 <= n <= 90)%nat then ascii_of_nat (n + 32) else a.

Fixpoint ToLower (s : string) : string :=
  match s with "" => "" | String a s => String (lower_ascii a) (ToLower s) end.

(** ** Numbers *)

(** [strconv.Itoa] and the [%d] verb. *)
Definition Itoa (n : Z) : string := pretty n.

(** [strconv.FormatBool]. *)
Definition FormatBool (b : bool) : string := if b then "true" else "false".

Definition digit (a : ascii) : option Z :=
  let n := Z.of_nat (nat_of_ascii a) in
  if decide (48 <= n <= 57) then Some (n - 48) else None.

Fixpoint digits (acc : Z) (s : string) : option Z :=
  match s with
  | "" => Some acc
  | String a s => d ← digit a; digits (acc * 10 + d) s
  end.

(** [json.Number(s).Int64()]: [strconv.ParseInt(s, 10, 64)]. *)
Definition ParseInt64 (s : string) : Res Z :=
  let parse neg t :=
    match t with
    | "" => None
    | _ => n ← digits 0 t; Some (if neg : bool then - n else n)
    end in
  let r := match s with
           | String "-"%char t => parse true t
           | String "+"%char t => parse false t
           | t => parse false t
           end in
  match r with
  | Some n => if decide (- 2 ^ 63 <= n < 2 ^ 63) then Ok n
              else Err (Errorf ("strconv.ParseInt: parsing " +:+ s +:+ ": value out of range"))
  | None => Err (Errorf ("strconv.ParseInt: parsing " +:+ s +:+ ": invalid syntax"))
  end.

(** ** Lemmas *)

Lemma app_cons a s t : String a s +:+ t = String a (s +:+ t).
Proof. done. Qed.

Lemma app_nil_l' t : "" +:+ t = t.
Proof. done. Qed.

Lemma app_nil_r' s : s +:+ "" = s.
Proof. induction s; [done|]. by rewrite app_cons, IHs. Qed.

Lemma app_assoc' s t u : (s +:+ t) +:+ u = s +:+ (t +:+ u).
Proof. induction s; [done|]. by rewrite !app_cons, IHs. Qed.

Lemma app_inj_l s t u : s +:+ t = s +:+ u -> t = u.
Proof. apply (inj (String.append s)). Qed.

Lemma app_length' s t :
  String.length (s +:+ t) = (String.length s + String.length t)%nat.
Proof. induction s; [done|]. rewrite app_cons. simpl. by rewrite IHs. Qed.

Lemma app_inj_r s t u : s +:+ u = t +:+ u -> s = t.
Proof.
  revert t. induction s as [|a s IH]; intros [|b t] H; [done| | |].
  - apply (f_equal String.length) in H. rewrite app_cons in H. simpl in H.
    rewrite app_nil_l', app_length' in H. lia.
  - apply (f_equal String.length) in H. rewrite app_cons in H. simpl in H.
    rewrite app_nil_l', app_length' in H. lia.
  - rewrite !app_cons in H. injection H as -> H. f_equal. by apply IH.
Qed.

Lemma has_char_app c s t : has_char c (s +:+ t) = has_char c s || has_char c t.
Proof. induction s; [done|]. rewrite app_cons. simpl. by rewrite IHs, orb_assoc. Qed.

Lemma count_char_app c s t : count_char c (s +:+ t) = (count_char c s + count_char c t)%nat.
Proof. induction s; [done|]. rewrite app_cons. simpl. rewrite IHs. lia. Qed.

Lemma count_char_none c s : has_char c s = false -> count_char c s = 0%nat.
Proof.
  induction s; simpl; [done|]. intros [H1 H2]%orb_false_elim. by rewrite H1, IHs.
Qed.

Lemma Itoa_inj m n : Itoa m = Itoa n -> m = n.
Proof. apply (inj (pretty : Z -> string)). Qed.

Lemma pretty_N_go_digit x (acc : string) :
  has_char "s" acc = false -> has_char "s" (pretty_N_go x acc) = false.
Proof.
  revert acc. induction (N.lt_wf_0 x) as [x _ IH]; intros acc Hacc.
  destruct (decide (x = 0)%N) as [->|Hx]; [by rewrite pretty_N_go_0|].
  rewrite pretty_N_go_step by lia. apply IH; [by apply N.div_lt; lia|].
  simpl. rewrite Hacc, orb_false_r. apply bool_decide_eq_false.
  unfold pretty_N_char. by repeat case_match.
Qed.

(** The decimal text of a number is never a word such as [server]. *)
Lemma Itoa_no_s n : has_char "s" (Itoa n) = false.
Proof.
  unfold Itoa, pretty, pretty_Z. destruct n as [|p|p]; [done| |].
  - unfold pretty, pretty_N. simpl. by apply pretty_N_go_digit.
  - rewrite has_char_app. simpl. unfold pretty, pretty_N. simpl. by apply pretty_N_go_digit.
Qed.

Lemma Split_nonempty c s : Split c s <> [].
Proof. destruct s; simpl; [done|]. case_decide; [done|]. by destruct (Split c s). Qed.

Lemma Split_no_sep c w : has_char c w = false -> Split c w = [w].
Proof.
  induction w as [|a w IH]; simpl; [done|]. intros [H1 H2]%orb_false_elim.
  apply bool_decide_eq_false in H1. rewrite decide_False by done. by rewrite IH.
Qed.

Lemma Split_cons_sep c w s :
  has_char c w = false -> Split c (w +:+ String c s) = w :: Split c s.
Proof.
  induction w as [|a w IH]; intros H.
  - rewrite app_nil_l'. simpl. by rewrite decide_True.
  - rewrite app_cons. simpl in *. apply orb_false_elim in H as [H1 H2].
    apply bool_decide_eq_false in H1. rewrite decide_False by done. by rewrite IH.
Qed.

Lemma Split_Join c ws :
  ws <> [] -> Forall (fun w => has_char c w = false) ws ->
  Split c (Join (String c "") ws) = ws.
Proof.
  intros Hne Hall. induction Hall as [|w ws Hw Hall IH]; [done|].
  destruct ws as [|w' ws]; simpl; [by apply Split_no_sep|].
  rewrite app_cons, app_nil_l', Split_cons_sep by done. f_equal. by apply IH.
Qed.

Lemma Join_Split c s : Join (String c "") (Split c s) = s.
Proof.
  induction s as [|a s IH]; [done|]. simpl. pose proof (Split_nonempty c s).
  case_decide; subst; destruct (Split c s) as [|w [|w' ws]]; try done;
    rewrite <- IH; simpl; rewrite ?app_cons, ?app_nil_l'; done.
Qed.

Lemma cut_no_sep c s : has_char c s = false -> cut c s = None.
Proof.
  induction s as [|a s IH]; simpl; [done|]. intros [H1 H2]%orb_false_elim.
  apply bool_decide_eq_false in H1. rewrite decide_False, IH by done. done.
Qed.

Lemma cut_first c w s : has_char c w = false -> cut c (w +:+ String c s) = Some (w, s).
Proof.
  induction w as [|a w IH]; intros H.
  - rewrite app_nil_l'. simpl. by rewrite decide_True.
  - rewrite app_cons. simpl in *. apply orb_false_elim in H as [H1 H2].
    apply bool_decide_eq_false in H1. rewrite decide_False, IH by done. done.
Qed.

Lemma cut_Some c s x y :
  cut c s = Some (x, y) -> s = x +:+ String c y /\ has_char c x = false.
Proof.
  revert x. induction s as [|a s IH]; intros x; simpl; [done|].
  case_decide as Ha; subst; [naive_solver|].
  destruct (cut c s) as [[x' y']|]; simpl; [|done]. intros [= <- <-].
  destruct (IH x' eq_refl) as [-> H2]. rewrite app_cons. split; [done|].
  simpl. rewrite H2, orb_false_r. by apply bool_decide_eq_false.
Qed.

Lemma Split_head c s : exists ws, Split c s = default s (fst <$> cut c s) :: ws.
Proof.
  induction s as [|a s [ws IH]]; simpl; [by eexists|].
  case_decide; simpl; [by eexists|]. rewrite IH.
  destruct (cut c s) as [[x y]|]; simpl; by eexists.
Qed.

Lemma strip_prefix_app p s : strip_prefix p (p +:+ s) = Some s.
Proof. induction p; [done|]. rewrite app_cons. simpl. by rewrite decide_True. Qed.

Lemma strip_prefix_Some p s r : strip_prefix p s = Some r -> s = p +:+ r.
Proof.
  revert s. induction p as [|a p IH]; intros [|b s]; simpl; try naive_solver.
  case_decide; [|done]. intros H'. subst. rewrite app_cons. f_equal. by apply IH.
Qed.

Lemma HasPrefix_app p s : HasPrefix (p +:+ s) p = true.
Proof. apply bool_decide_eq_true. rewrite strip_prefix_app. by eexists. Qed.
