(* ===== verification/GoFlags.v ===== *)
(** * The Go package [flag]

    What the two programs use of it: string and boolean flags on the command
    line of the process, read by [flag.Parse].  A flag is its name, whether it
    is boolean (it may then stand alone), and its setter, which refuses a value
    or returns it in normal form.  [flag.Parse] ends the process on an error,
    with code 0 when help was asked for and 2 otherwise. *)

From Stdlib Require Import Ascii.
From S2P Require Import Prelude GoStrings.

Record Flag : Type := mkFlag {
  fl_Name : string;
  fl_IsBool : bool;
  fl_Set : string -> option string }.

(** [strconv.ParseBool]. *)
Definition ParseBool (s : string) : option bool :=
  if decide (s ∈ ["1"; "t"; "T"; "TRUE"; "true"; "True"]) then Some true
  else if decide (s ∈ ["0"; "f"; "F"; "FALSE"; "false"; "False"]) then Some false
  else None.

(** [flag.StringVar] and [flag.BoolVar]. *)
Definition StringVar (name : string) : Flag := mkFlag name false Some.
Definition BoolVar (name : string) : Flag :=
  mkFlag name true (fun v => FormatBool <$> ParseBool v).

Inductive FlagError : Set :=
| ErrHelp
| BadSyntax (word : string)
| NotDefined (name : string)
| InvalidValue (name value : string)
| NeedsArgument (name : string).

(** What a word of the command line is. *)
Inductive Word : Set :=
| Operand
| EndOfFlags
| Malformed
| FlagWord (name : string) (value : option string).

Definition minus : ascii := "-".

(** The name after the dashes, split at the first [=] that is not at its
    start. *)
Definition flagName (name : string) : Word :=
  match name with
  | EmptyString => Malformed
  | String c _ =>
      if decide (c = minus \/ c = equals) then Malformed
      else match cut equals name with
           | Some (n, v) => FlagWord n (Some v)
           | None => FlagWord name None
           end
  end.

Definition flagWord (s : string) : Word :=
  match s with
  | String a (String b rest) =>
      if decide (a = minus) then
        if decide (b = minus) then
          match rest with EmptyString => EndOfFlags | _ => flagName rest end
        else flagName (String b rest)
      else Operand
  | _ => Operand
  end.

Definition findFlag (flags : list Flag) (name : string) : option Flag :=
  head (filter (fun f => fl_Name f = name) flags).

(** The values that were set, and the words that were left. *)
Fixpoint parseFlags (flags : list Flag) (args : list string) (actual : gmap string string)
  : FlagError + gmap string string * list string :=
  match args with
  | [] => inr (actual, [])
  | s :: rest =>
      match flagWord s with
      | Operand => inr (actual, args)
      | EndOfFlags => inr (actual, rest)
      | Malformed => inl (BadSyntax s)
      | FlagWord name value =>
          match findFlag flags name with
          | None => inl (if decide (name = "help" \/ name = "h") then ErrHelp else NotDefined name)
          | Some f =>
              let set_ (v : string)
                  (continue : gmap string string -> FlagError + gmap string string * list string) :=
                match fl_Set f v with
                | Some v => continue (<[name := v]> actual)
                | None => inl (InvalidValue name v)
                end in
              if fl_IsBool f then
                set_ (default "true" value) (parseFlags flags rest)
              else
                match value, rest with
                | Some v, _ => set_ v (parseFlags flags rest)
                | None, v :: rest => set_ v (parseFlags flags rest)
                | None, [] => inl (NeedsArgument name)
                end
          end
      end
  end.

(** How a process ends: with a code, or by a panic. *)
Inductive Exit : Set := ExitCode (n : Z) | Panicked.

(** The exit code of [flag.Parse] on an error. *)
Definition flagExit (e : FlagError) : Z := match e with ErrHelp => 0 | _ => 2 end.

(** The value of a flag: the one set, or its default. *)
Definition flagValue (actual : gmap string string) (name default_ : string) : string :=
  default default_ (actual !! name).

(** ** Lemmas *)

(** A name that can be written as a flag. *)
Definition flag_name (n : string) : Prop :=
  has_char equals n = false /\ match n with String c _ => c <> minus | EmptyString => False end.

(** The word that sets a flag. *)
Definition setWord (nv : string * string) : string := "--" +:+ fst nv +:+ "=" +:+ snd nv.

Lemma flagName_set n v :
  flag_name n -> flagName (n +:+ String equals v) = FlagWord n (Some v).
Proof.
  intros [He Hn]. destruct n as [|c n]; [done|]. unfold flagName. rewrite app_cons.
  rewrite decide_False.
  - rewrite <- app_cons. by rewrite cut_first.
  - intros [-> | ->]; done.
Qed.

Lemma flagWord_set n v : flag_name n -> flagWord (setWord (n, v)) = FlagWord n (Some v).
Proof.
  intros Hn. unfold setWord. simpl fst. simpl snd.
  change ("--" +:+ n +:+ "=" +:+ v) with (String minus (String minus (n +:+ String equals v))).
  pose proof (flagName_set n v Hn) as Hf. unfold flagWord. rewrite !decide_True by done.
  destruct (n +:+ String equals v) eqn:E; [|done]. by destruct n.
Qed.

(** Setting flags word by word gives exactly their normal values, the last one
    winning. *)
Lemma parseFlags_set flags l actual :
  Forall (fun nv => flag_name (fst nv) /\ exists f v, findFlag flags (fst nv) = Some f /\
                      fl_Set f (snd nv) = Some v) l ->
  exists vs, Forall2 (fun nv v => exists f, findFlag flags (fst nv) = Some f /\
                                    fl_Set f (snd nv) = Some v) l vs /\
    parseFlags flags (setWord <$> l) actual =
      inr (foldl (fun m nv => <[fst nv := snd nv]> m) actual (zip l.*1 vs), []).
Proof.
  revert actual. induction l as [|[n v] l IH]; intros actual Hl; [by exists []|].
  apply Forall_cons in Hl as [[Hn (f & v' & Hf & Hv)] Hl]. simpl in Hn, Hf, Hv.
  destruct (IH (<[n := v']> actual) Hl) as (vs & Hvs & Hp).
  exists (v' :: vs). split; [constructor; [by exists f|done]|].
  rewrite fmap_cons. cbn [parseFlags]. rewrite flagWord_set by done. rewrite Hf. simpl. rewrite Hv.
  by destruct (fl_IsBool f).
Qed.
