(* ===== verification/Types.v ===== *)
(** * Data: Kubernetes objects and the ZooKeeperService resource

    The first part holds the fields of the Kubernetes API types that the
    operator reads or writes; a field it only carries through (resource
    requirements, tolerations, pod security context, pod affinity) has type
    [Opaque].  The second part is [src/operator/api/v1/zookeeperservice_types.go]
    field by field: a pointer is an [option], a map a [gomap], a slice a
    [list], [int] and [int32] are [Z]. *)

From S2P Require Import Prelude.

(** A value that is copied and never inspected, in its serialised form. *)
Definition Opaque : Set := string.

(** ** Object metadata *)
Record OwnerReference : Set := mkOwner {
  or_APIVersion : string; or_Kind : string; or_Name : string; or_Controller : bool }.

Record ObjectMeta : Set := mkMeta {
  m_Name : string;
  m_Namespace : string;
  m_Labels : gomap string;
  m_Annotations : gomap string;
  m_ResourceVersion : string;
  m_OwnerReferences : list OwnerReference;
  m_Generation : Z }.

(** [metav1.ObjectMeta{Name: n, Namespace: ns, Labels: l}]. *)
Definition newMeta (n ns : string) (l : gomap string) : ObjectMeta :=
  mkMeta n ns l None "" [] 0.

Definition set_ResourceVersion (rv : string) (m : ObjectMeta) : ObjectMeta :=
  mkMeta (m_Name m) (m_Namespace m) (m_Labels m) (m_Annotations m) rv
    (m_OwnerReferences m) (m_Generation m).
Definition set_Annotations (a : gomap string) (m : ObjectMeta) : ObjectMeta :=
  mkMeta (m_Name m) (m_Namespace m) (m_Labels m) a (m_ResourceVersion m)
    (m_OwnerReferences m) (m_Generation m).
Definition set_OwnerReferences (o : list OwnerReference) (m : ObjectMeta) : ObjectMeta :=
  mkMeta (m_Name m) (m_Namespace m) (m_Labels m) (m_Annotations m)
    (m_ResourceVersion m) o (m_Generation m).

(** ** Services and service accounts *)
Inductive Protocol : Set := ProtocolTCP | ProtocolUDP.

Record ServicePort : Set := mkPort { sp_Name : string; sp_Port : Z; sp_Protocol : Protocol }.

Record Service : Set := mkService {
  svc_Meta : ObjectMeta;
  svc_Ports : list ServicePort;
  svc_Selector : gomap string;
  svc_ClusterIP : string;
  svc_Type : string;
  svc_ExternalIPs : list string;
  svc_PublishNotReadyAddresses : bool }.

Record ServiceAccount : Set := mkServiceAccount { sa_Meta : ObjectMeta }.

(** ** Volumes and claims *)

(** A [resource.Quantity], by the text it was parsed from. *)
Record Quantity : Set := mkQuantity { q_Text : string }.

Inductive AccessMode : Set := ReadWriteOnce | ReadWriteMany.

Record PersistentVolumeClaim : Set := mkPVC {
  pvc_Meta : ObjectMeta;
  pvc_AccessModes : list AccessMode;
  pvc_Storage : Quantity;
  pvc_VolumeName : string;
  pvc_Selector : option (gmap string string);
  pvc_StorageClassName : option string }.

Record KeyToPath : Set := mkKeyToPath { kp_Key : string; kp_Path : string }.

Record SecretProjection : Set := mkSecretProjection {
  prj_Name : string; prj_Items : list KeyToPath }.

(** The one member of [corev1.VolumeSource] that is set. *)
Inductive VolumeSource : Set :=
| VEmptyDir (sizeLimit : option Quantity)
| VPersistentVolumeClaim (claimName : string)
| VSecret (secretName : string)
| VProjected (defaultMode : Z) (sources : list SecretProjection)
| VConfigMap (name : string) (items : list KeyToPath).

Record Volume : Set := mkVolume { vol_Name : string; vol_Source : VolumeSource }.

Record VolumeMount : Set := mkMount {
  vm_Name : string; vm_MountPath : string; vm_ReadOnly : bool }.

(** ** Pods and deployments *)

(** An environment variable: a literal value or a downward-API field path. *)
Record EnvVar : Set := mkEnv {
  env_Name : string; env_Value : string; env_FieldPath : option string }.

(** [corev1.EnvVar{Name: n, Value: v}]. *)
Definition env (n v : string) : EnvVar := mkEnv n v None.
(** [corev1.EnvVar{Name: n, ValueFrom: ...FieldPath: p}]. *)
Definition envField (n p : string) : EnvVar := mkEnv n "" (Some p).

Inductive URIScheme : Set := URISchemeHTTP | URISchemeHTTPS.

Inductive ProbeHandler : Set :=
| ExecAction (command : list string)
| HTTPGetAction (path : string) (port : Z) (scheme : URIScheme)
| TCPSocketAction (port : Z).

Record Probe : Set := mkProbe {
  pb_Handler : option ProbeHandler;
  pb_InitialDelaySeconds : Z; pb_TimeoutSeconds : Z; pb_PeriodSeconds : Z;
  pb_SuccessThreshold : Z; pb_FailureThreshold : Z }.

Record SecurityContext : Set := mkSecurityContext {
  sc_AllowPrivilegeEscalation : option bool;
  sc_ReadOnlyRootFilesystem : option bool;
  sc_DropCapabilities : list string }.

Inductive PullPolicy : Set := PullAlways | PullIfNotPresent.

Record ContainerPort : Set := mkContainerPort {
  cp_Name : string; cp_ContainerPort : Z; cp_Protocol : Protocol }.

Record Container : Set := mkContainer {
  c_Name : string;
  c_Image : string;
  c_Command : list string;
  c_Args : list string;
  c_Ports : list ContainerPort;
  c_Env : list EnvVar;
  c_Resources : Opaque;
  c_VolumeMounts : list VolumeMount;
  c_LivenessProbe : option Probe;
  c_ReadinessProbe : option Probe;
  c_ImagePullPolicy : PullPolicy;
  c_SecurityContext : option SecurityContext }.

Record NodeSelectorRequirement : Set := mkNodeReq {
  nr_Key : string; nr_Operator : string; nr_Values : list string }.

(** [corev1.NodeAffinity]: the required terms, the preferred ones opaque. *)
Record NodeAffinity : Set := mkNodeAffinity {
  na_Required : option (list (list NodeSelectorRequirement));
  na_Preferred : Opaque }.

Record Affinity : Set := mkAffinity {
  af_NodeAffinity : option NodeAffinity;
  af_PodAffinity : Opaque;
  af_PodAntiAffinity : Opaque }.

Record PodSpec : Set := mkPodSpec {
  ps_Volumes : list Volume;
  ps_InitContainers : list Container;
  ps_Containers : list Container;
  ps_SecurityContext : Opaque;
  ps_Hostname : string;
  ps_ServiceAccountName : string;
  ps_Subdomain : string;
  ps_Affinity : option Affinity;
  ps_Tolerations : list Opaque;
  ps_PriorityClassName : string }.

Inductive DeploymentStrategy : Set := RecreateStrategy | RollingUpdateStrategy.

Record Deployment : Set := mkDeployment {
  d_Meta : ObjectMeta;
  d_Strategy : DeploymentStrategy;
  d_Replicas : option Z;
  d_Selector : gomap string;
  d_TemplateMeta : ObjectMeta;
  d_PodSpec : PodSpec;
  d_ReadyReplicas : Z;
  d_UpdatedReplicas : Z }.

Record Secret : Set := mkSecret { sec_Meta : ObjectMeta; sec_Data : gomap string }.

Record Pod : Set := mkPod { pod_Meta : ObjectMeta; pod_Phase : string }.

(** [&corev1.Secret{}]. *)
Definition emptyMeta : ObjectMeta := newMeta "" "" None.
Definition emptySecret : Secret := mkSecret emptyMeta None.

Definition set_svc_Meta (m : ObjectMeta) (s : Service) : Service :=
  mkService m (svc_Ports s) (svc_Selector s) (svc_ClusterIP s) (svc_Type s)
    (svc_ExternalIPs s) (svc_PublishNotReadyAddresses s).
Definition set_svc_ClusterIP (ip : string) (s : Service) : Service :=
  mkService (svc_Meta s) (svc_Ports s) (svc_Selector s) ip (svc_Type s)
    (svc_ExternalIPs s) (svc_PublishNotReadyAddresses s).
Definition set_svc_PublishNotReady (b : bool) (s : Service) : Service :=
  mkService (svc_Meta s) (svc_Ports s) (svc_Selector s) (svc_ClusterIP s) (svc_Type s)
    (svc_ExternalIPs s) b.
Definition set_pvc_Meta (m : ObjectMeta) (p : PersistentVolumeClaim) : PersistentVolumeClaim :=
  mkPVC m (pvc_AccessModes p) (pvc_Storage p) (pvc_VolumeName p) (pvc_Selector p)
    (pvc_StorageClassName p).
Definition set_d_Meta (m : ObjectMeta) (d : Deployment) : Deployment :=
  mkDeployment m (d_Strategy d) (d_Replicas d) (d_Selector d) (d_TemplateMeta d)
    (d_PodSpec d) (d_ReadyReplicas d) (d_UpdatedReplicas d).
Definition set_d_TemplateMeta (m : ObjectMeta) (d : Deployment) : Deployment :=
  mkDeployment (d_Meta d) (d_Strategy d) (d_Replicas d) (d_Selector d) m
    (d_PodSpec d) (d_ReadyReplicas d) (d_UpdatedReplicas d).
Definition set_d_Replicas (n : option Z) (d : Deployment) : Deployment :=
  mkDeployment (d_Meta d) (d_Strategy d) n (d_Selector d) (d_TemplateMeta d)
    (d_PodSpec d) (d_ReadyReplicas d) (d_UpdatedReplicas d).

(** ** The ZooKeeperService custom resource (api/v1) *)
Record Storage : Set := mkStorage {
  st_Volumes : list string; st_Nodes : list string; st_Labels : list string;
  st_ClassName : list string; st_Size : string }.

Record SnapshotStorage : Set := mkSnapshotStorage {
  ss_PersistentVolumeType : string;
  ss_PersistentVolumeName : string;
  ss_PersistentVolumeClaimName : string;
  ss_NodeName : string;
  ss_VolumeSize : string;
  ss_PersistentVolumeLabel : string;
  ss_StorageClass : option string;
  ss_NfsServer : string;
  ss_NfsPath : string }.

Record Ssl : Set := mkSsl {
  ssl_CipherSuites : list string;
  ssl_EnableTwoWaySsl : bool;
  ssl_AllowNonencryptedAccess : bool }.

Record Diagnostics : Set := mkDiagnostics { dg_Mode : string; dg_AgentService : string }.

Record ZooKeeper : Set := mkZooKeeper {
  zk_DockerImage : string;
  zk_Affinity : Affinity;
  zk_Tolerations : list Opaque;
  zk_PriorityClassName : string;
  zk_Replicas : Z;
  zk_Storage : Storage;
  zk_SnapshotStorage : SnapshotStorage;
  zk_HeapSize : Z;
  zk_Resources : Opaque;
  zk_SecretName : string;
  zk_QuorumAuthEnabled : bool;
  zk_Ssl : Ssl;
  zk_SecurityContext : Opaque;
  zk_JolokiaPort : Z;
  zk_EnvironmentVariables : list string;
  zk_RollingUpdate : bool;
  zk_CustomLabels : gomap string;
  zk_Diagnostics : Diagnostics;
  zk_AuditEnabled : bool }.

Record S3 : Set := mkS3 {
  s3_Enabled : bool; s3_Url : string; s3_Bucket : string; s3_SecretName : string;
  s3_SslVerify : bool; s3_SslSecretName : string; s3_SslCert : string }.

Record Monitoring : Set := mkMonitoring {
  mon_DockerImage : string;
  mon_Affinity : Affinity;
  mon_Tolerations : list Opaque;
  mon_PriorityClassName : string;
  mon_Resources : Opaque;
  mon_MonitoringType : string;
  mon_ZooKeeperHost : string;
  mon_ZooKeeperBackupDaemonHost : string;
  mon_SecretName : string;
  mon_ZooKeeperJolokiaPort : Z;
  mon_SecurityContext : Opaque;
  mon_CustomLabels : gomap string;
  mon_ZooKeeperVolumes : string;
  mon_NeedToCleanInfluxDb : bool;
  mon_SmDbHost : string;
  mon_SmDbName : string }.

Record SecretPaths : Set := mkSecretPaths { sp_Monitoring : gomap string }.

Record VaultSecretManagement : Set := mkVaultSM {
  v_DockerImage : string;
  v_Enabled : bool;
  v_Path : string;
  v_Url : string;
  v_Role : string;
  v_Method : string;
  v_PasswordGenerationMechanism : string;
  v_WritePolicies : bool;
  v_SecretPaths : SecretPaths }.

(** [Global], [ZooKeeperSsl], [BackupDaemonSsl] and the PVC metadata block. *)
Record SslSecret : Set := mkSslSecret { ssls_Enabled : bool; ssls_SecretName : string }.

Record Global : Set := mkGlobal {
  g_WaitForPodsReady : bool;
  g_PodsReadyTimeout : Z;
  g_CustomLabels : gomap string;
  g_DefaultLabels : gomap string;
  g_ZooKeeperSsl : SslSecret;
  g_PVCAnnotations : gomap string }.

Record IntegrationTests : Set := mkIntegrationTests {
  it_ServiceName : string; it_WaitForResult : bool; it_Timeout : Z;
  it_RandomRunTrigger : string }.

Record BackupDaemon : Set := mkBackupDaemon {
  bd_DockerImage : string;
  bd_Affinity : Affinity;
  bd_Tolerations : list Opaque;
  bd_PriorityClassName : string;
  bd_BackupStorage : SnapshotStorage;
  bd_Resources : Opaque;
  bd_BackupSchedule : string;
  bd_S3 : option S3;
  bd_EvictionPolicy : string;
  bd_IPv6 : bool;
  bd_ZooKeeperHost : string;
  bd_ZooKeeperPort : Z;
  bd_SecretName : string;
  bd_SecurityContext : Opaque;
  bd_CustomLabels : gomap string;
  bd_BackupDaemonSsl : SslSecret }.

Record ZooKeeperServiceSpec : Set := mkSpec {
  sp_Global : option Global;
  sp_ZooKeeper : option ZooKeeper;
  sp_MonitoringSpec : option Monitoring;
  sp_BackupDaemon : option BackupDaemon;
  sp_VaultSecretManagement : option VaultSecretManagement;
  sp_IntegrationTests : option IntegrationTests }.

Record StatusCondition : Set := mkCondition {
  cond_Type : string; cond_Status : string; cond_Reason : string;
  cond_Message : string; cond_LastTransitionTime : string }.

Record ZooKeeperServiceStatus : Set := mkStatus {
  stt_Servers : list string;
  stt_MonitoringNodes : list string;
  stt_BackupDaemonNodes : list string;
  stt_PVCAnnotations : gomap string;
  stt_SecretVersions : gomap Z;
  stt_Conditions : list StatusCondition }.

Record ZooKeeperService : Set := mkCR {
  cr_APIVersion : string;
  cr_Kind : string;
  cr_Meta : ObjectMeta;
  cr_Spec : ZooKeeperServiceSpec;
  cr_Status : ZooKeeperServiceStatus }.

Definition cr_Name (cr : ZooKeeperService) : string := m_Name (cr_Meta cr).
Definition cr_Namespace (cr : ZooKeeperService) : string := m_Namespace (cr_Meta cr).

(** Field assignments on the resource, as the reconcilers make them. *)
Definition set_Status (s : ZooKeeperServiceStatus) (cr : ZooKeeperService) : ZooKeeperService :=
  mkCR (cr_APIVersion cr) (cr_Kind cr) (cr_Meta cr) (cr_Spec cr) s.
Definition set_Spec (s : ZooKeeperServiceSpec) (cr : ZooKeeperService) : ZooKeeperService :=
  mkCR (cr_APIVersion cr) (cr_Kind cr) (cr_Meta cr) s (cr_Status cr).
Definition set_Conditions (c : list StatusCondition) (cr : ZooKeeperService) : ZooKeeperService :=
  let s := cr_Status cr in
  set_Status (mkStatus (stt_Servers s) (stt_MonitoringNodes s) (stt_BackupDaemonNodes s)
    (stt_PVCAnnotations s) (stt_SecretVersions s) c) cr.
Definition set_Servers (l : list string) (cr : ZooKeeperService) : ZooKeeperService :=
  let s := cr_Status cr in
  set_Status (mkStatus l (stt_MonitoringNodes s) (stt_BackupDaemonNodes s)
    (stt_PVCAnnotations s) (stt_SecretVersions s) (stt_Conditions s)) cr.
Definition set_MonitoringNodes (l : list string) (cr : ZooKeeperService) : ZooKeeperService :=
  let s := cr_Status cr in
  set_Status (mkStatus (stt_Servers s) l (stt_BackupDaemonNodes s)
    (stt_PVCAnnotations s) (stt_SecretVersions s) (stt_Conditions s)) cr.
Definition set_BackupDaemonNodes (l : list string) (cr : ZooKeeperService) : ZooKeeperService :=
  let s := cr_Status cr in
  set_Status (mkStatus (stt_Servers s) (stt_MonitoringNodes s) l
    (stt_PVCAnnotations s) (stt_SecretVersions s) (stt_Conditions s)) cr.
Definition set_PVCStatus (a : gomap string) (cr : ZooKeeperService) : ZooKeeperService :=
  let s := cr_Status cr in
  set_Status (mkStatus (stt_Servers s) (stt_MonitoringNodes s) (stt_BackupDaemonNodes s)
    a (stt_SecretVersions s) (stt_Conditions s)) cr.
Definition set_SecretVersions (v : gomap Z) (cr : ZooKeeperService) : ZooKeeperService :=
  let s := cr_Status cr in
  set_Status (mkStatus (stt_Servers s) (stt_MonitoringNodes s) (stt_BackupDaemonNodes s)
    (stt_PVCAnnotations s) v (stt_Conditions s)) cr.

(** [r.cr.Spec.ZooKeeper.RollingUpdate = b]. *)
Definition set_zk_RollingUpdate (b : bool) (z : ZooKeeper) : ZooKeeper :=
  mkZooKeeper (zk_DockerImage z) (zk_Affinity z) (zk_Tolerations z)
    (zk_PriorityClassName z) (zk_Replicas z) (zk_Storage z) (zk_SnapshotStorage z)
    (zk_HeapSize z) (zk_Resources z) (zk_SecretName z) (zk_QuorumAuthEnabled z)
    (zk_Ssl z) (zk_SecurityContext z) (zk_JolokiaPort z) (zk_EnvironmentVariables z)
    b (zk_CustomLabels z) (zk_Diagnostics z) (zk_AuditEnabled z).
Definition set_RollingUpdate (b : bool) (cr : ZooKeeperService) : ZooKeeperService :=
  let s := cr_Spec cr in
  set_Spec (mkSpec (sp_Global s) (set_zk_RollingUpdate b <$> sp_ZooKeeper s)
    (sp_MonitoringSpec s) (sp_BackupDaemon s) (sp_VaultSecretManagement s)
    (sp_IntegrationTests s)) cr.

(** ** Untyped values ([interface{}]) exchanged with Vault *)
Inductive iface : Set :=
| INil
| IString (s : string)
| INumber (s : string)                 (* json.Number *)
| IStrings (l : list string)
| IMap (m : list (string * iface)).

(** [m[k]] for a [map[string]interface{}], nil when absent. *)
Fixpoint im_get (m : list (string * iface)) (k : string) : iface :=
  match m with
  | [] => INil
  | (k', v) :: m => if decide (k' = k) then v else im_get m k
  end.

(** ** Kinds of API objects and their common metadata *)
Inductive Kind : Set :=
| KService | KServiceAccount | KPVC | KDeployment | KSecret | KPod | KCR.

Definition Obj (k : Kind) : Set :=
  match k with
  | KService => Service
  | KServiceAccount => ServiceAccount
  | KPVC => PersistentVolumeClaim
  | KDeployment => Deployment
  | KSecret => Secret
  | KPod => Pod
  | KCR => ZooKeeperService
  end.

Definition meta_of {k : Kind} : Obj k -> ObjectMeta :=
  match k return Obj k -> ObjectMeta with
  | KService => svc_Meta
  | KServiceAccount => sa_Meta
  | KPVC => pvc_Meta
  | KDeployment => d_Meta
  | KSecret => sec_Meta
  | KPod => pod_Meta
  | KCR => cr_Meta
  end.

#[global] Instance StatusCondition_eq_dec : EqDecision StatusCondition.
Proof. solve_decision. Defined.
#[global] Instance OwnerReference_eq_dec : EqDecision OwnerReference.
Proof. solve_decision. Defined.
#[global] Instance ObjectMeta_eq_dec : EqDecision ObjectMeta.
Proof. solve_decision. Defined.
#[global] Instance Kind_eq_dec : EqDecision Kind.
Proof. solve_decision. Defined.

(** The status writers leave the metadata and the spec alone. *)
Lemma set_Status_spec s cr : cr_Spec (set_Status s cr) = cr_Spec cr.
Proof. done. Qed.

Lemma set_Status_meta s cr : cr_Meta (set_Status s cr) = cr_Meta cr.
Proof. done. Qed.
