(* ===== verification/Util.v ===== *)
(** * [src/operator/util]: maps, numbers, hashes

    [JoinMaps] (util.go), [Min] (numbers.go) and [Hash] (hash.go).  [Hash] is
    the hexadecimal SHA-256 of the JSON encoding of its argument; SHA-256 is
    written out on 32-bit words, the JSON encoder of the hashed type is an
    argument. *)

From S2P Require Import Prelude GoStrings.
From Stdlib Require Import Ascii.

(** ** util.go *)
Definition JoinMaps (sideMap mainMap : gomap string) : gmap string string :=
  let resMap := ∅ in
  let resMap := range_insert (gm sideMap) resMap in
  range_insert (gm mainMap) resMap.

(** ** numbers.go *)
Definition Min (a b : Z) : Z := if decide (a < b) then a else b.

(** ** SHA-256 (FIPS 180-4) on lists of bytes *)
Module Sha256.

Definition mask (x : Z) : Z := Z.land x 4294967295.
Definition add32 (x y : Z) : Z := mask (x + y).
Definition rotr (x n : Z) : Z := mask (Z.lor (Z.shiftr x n) (Z.shiftl x (32 - n))).

Definition Ch (x y z : Z) : Z := Z.lxor (Z.land x y) (Z.land (Z.lxor x 4294967295) z).
Definition Maj (x y z : Z) : Z := Z.lxor (Z.lxor (Z.land x y) (Z.land x z)) (Z.land y z).
Definition Sigma0 (x : Z) : Z := Z.lxor (Z.lxor (rotr x 2) (rotr x 13)) (rotr x 22).
Definition Sigma1 (x : Z) : Z := Z.lxor (Z.lxor (rotr x 6) (rotr x 11)) (rotr x 25).
Definition sigma0 (x : Z) : Z := Z.lxor (Z.lxor (rotr x 7) (rotr x 18)) (Z.shiftr x 3).
Definition sigma1 (x : Z) : Z := Z.lxor (Z.lxor (rotr x 17) (rotr x 19)) (Z.shiftr x 10).

(** The constants are the first 32 bits of the fractional parts of roots of
    the first primes. *)
Definition primes : list Z :=
  filter (fun n => forallb (fun d => negb (n mod d =? 0)) (upto 2 (n - 1)) = true) (upto 2 311).

(** The largest [r] of at most [n] bits above the bits already in [r] whose
    cube is at most [x]. *)
Fixpoint cbrt (n : nat) (x r : Z) : Z :=
  match n with
  | O => r
  | S n =>
      let r' := r + 2 ^ Z.of_nat n in
      if r' * r' * r' <=? x then cbrt n x r' else cbrt n x r
  end.

Definition cbrt_frac (p : Z) : Z := mask (cbrt 40 (p * 2 ^ 96) 0).
Definition sqrt_frac (p : Z) : Z := mask (Z.sqrt (p * 2 ^ 64)).

Definition K : list Z := Eval vm_compute in cbrt_frac <$> primes.

(** The eight working variables. *)
Record words8 : Set := W8 {
  wa : Z; wb : Z; wc : Z; wd : Z; we : Z; wf : Z; wg : Z; wh : Z }.

Definition H0 : words8 :=
  Eval vm_compute in
  W8 (sqrt_frac 2) (sqrt_frac 3) (sqrt_frac 5) (sqrt_frac 7)
     (sqrt_frac 11) (sqrt_frac 13) (sqrt_frac 17) (sqrt_frac 19).

(** Big-endian bytes of an [n]-byte integer. *)
Fixpoint be_bytes (n : nat) (x : Z) : list Z :=
  match n with
  | O => []
  | S n => be_bytes n (Z.shiftr x 8) ++ [Z.land x 255]
  end.

Definition pad (msg : list Z) : list Z :=
  let len := Z.of_nat (length msg) in
  let zeros := Z.to_nat ((55 - len) mod 64) in
  msg ++ [128] ++ replicate zeros 0 ++ be_bytes 8 (Z.land (8 * len) (2 ^ 64 - 1)).

(** Group the bytes of a block into 32-bit words, most significant first. *)
Fixpoint words_of (bs : list Z) : list Z :=
  match bs with
  | a :: b :: c :: d :: bs =>
      Z.lor (Z.shiftl a 24) (Z.lor (Z.shiftl b 16) (Z.lor (Z.shiftl c 8) d)) :: words_of bs
  | _ => []
  end.

(** The message schedule, kept newest word first: [n] more words. *)
Fixpoint extend (n : nat) (w : list Z) : list Z :=
  match n with
  | O => w
  | S n =>
      let at_ i := nth i w 0 in
      extend n (add32 (add32 (sigma1 (at_ 1%nat)) (at_ 6%nat))
                      (add32 (sigma0 (at_ 14%nat)) (at_ 15%nat)) :: w)
  end.

Definition schedule (block : list Z) : list Z := rev (extend 48 (rev (words_of block))).

Definition round (v : words8) (kw : Z * Z) : words8 :=
  let '(k, w) := kw in
  let t1 := add32 (add32 (add32 (wh v) (Sigma1 (we v))) (add32 (Ch (we v) (wf v) (wg v)) k)) w in
  let t2 := add32 (Sigma0 (wa v)) (Maj (wa v) (wb v) (wc v)) in
  W8 (add32 t1 t2) (wa v) (wb v) (wc v) (add32 (wd v) t1) (we v) (wf v) (wg v).

Definition compress (h : words8) (block : list Z) : words8 :=
  let v := fold_left round (combine K (schedule block)) h in
  W8 (add32 (wa h) (wa v)) (add32 (wb h) (wb v)) (add32 (wc h) (wc v)) (add32 (wd h) (wd v))
     (add32 (we h) (we v)) (add32 (wf h) (wf v)) (add32 (wg h) (wg v)) (add32 (wh h) (wh v)).

(** [n] blocks of 64 bytes. *)
Fixpoint blocks (n : nat) (bs : list Z) : list (list Z) :=
  match n with
  | O => []
  | S n => take 64 bs :: blocks n (drop 64 bs)
  end.

Definition digest (msg : list Z) : list Z :=
  let p := pad msg in
  let h := fold_left compress (blocks (length p / 64) p) H0 in
  mjoin (be_bytes 4 <$> [wa h; wb h; wc h; wd h; we h; wf h; wg h; wh h]).

End Sha256.

(** ** hash.go *)

Fixpoint string_bytes (s : string) : list Z :=
  match s with "" => [] | String a s => Z.of_nat (nat_of_ascii a) :: string_bytes s end.

(** The [%x] verb on a byte slice. *)
Definition hex_digit (n : Z) : ascii :=
  ascii_of_nat (Z.to_nat (if decide (n < 10) then 48 + n else 87 + n)).

Fixpoint hex (bs : list Z) : string :=
  match bs with
  | [] => ""
  | b :: bs => String (hex_digit (Z.shiftr b 4)) (String (hex_digit (Z.land b 15)) (hex bs))
  end.

Section hash.
Context {A : Type} (Marshal : A -> Res string).

Definition Hash (o : A) : Res string :=
  cr ← Marshal o;
  mret (hex (Sha256.digest (string_bytes cr))).
End hash.

(** ** Lemmas *)

Lemma JoinMaps_union side main : JoinMaps side main = gm main ∪ gm side.
Proof.
  unfold JoinMaps. rewrite !range_insert_union. by rewrite (right_id_L ∅ (∪)).
Qed.

Lemma JoinMaps_main side main k v :
  gm main !! k = Some v -> JoinMaps side main !! k = Some v.
Proof. rewrite JoinMaps_union. apply lookup_union_Some_l. Qed.

Lemma JoinMaps_side side main k :
  gm main !! k = None -> JoinMaps side main !! k = gm side !! k.
Proof. rewrite JoinMaps_union. apply lookup_union_r. Qed.

Lemma Min_spec a b : Min a b = Z.min a b.
Proof. unfold Min. case_decide; lia. Qed.

Lemma be_bytes_length n x : length (Sha256.be_bytes n x) = n.
Proof. revert x. induction n; intros x; simpl; [done|]. rewrite length_app, IHn. simpl. lia. Qed.

Lemma hex_length bs : String.length (hex bs) = (2 * length bs)%nat.
Proof. induction bs; simpl; lia. Qed.

Lemma digest_length msg : length (Sha256.digest msg) = 32%nat.
Proof.
  unfold Sha256.digest. cbv zeta. generalize (fold_left Sha256.compress
    (Sha256.blocks (length (Sha256.pad msg) / 64) (Sha256.pad msg)) Sha256.H0).
  intros h. cbn [fmap list_fmap mjoin list_join]. rewrite !length_app, !be_bytes_length. done.
Qed.

(** The padded message is a whole number of 64-byte blocks, so that the
    [length / 64] blocks of [digest] cover every byte of it. *)
Lemma pad_blocks msg : (Z.of_nat (length (Sha256.pad msg)) mod 64 = 0)%Z.
Proof.
  unfold Sha256.pad. rewrite !length_app, length_replicate, be_bytes_length.
  set (len := Z.of_nat (length msg)).
  replace (Z.of_nat (length msg + _)) with (len + 9 + (55 - len) mod 64);
    [|unfold len; change (length [128]) with 1%nat; 
     rewrite !Nat2Z.inj_add, Z2Nat.id by (apply Z.mod_pos_bound; lia); lia].
  pose proof (Z.div_mod (55 - len) 64 ltac:(lia)).
  replace (len + 9 + (55 - len) mod 64) with ((1 - (55 - len) / 64) * 64) by lia.
  apply Z.mod_mul. lia.
Qed.

Lemma Hash_not_empty {A} (Marshal : A -> Res string) o h :
  Hash Marshal o = Ok h -> h <> "".
Proof.
  unfold Hash. rewrite bind_Ok. intros (b & _ & Hh) ->.
  apply Ok_inj, (f_equal String.length) in Hh. by rewrite hex_length, digest_length in Hh.
Qed.

(** FIPS 180-4 test vectors for the written-out SHA-256. *)
Example sha256_abc :
  hex (Sha256.digest (string_bytes "abc"))
  = "ba7816bf8f01cfea414140de5dae2223b00361a396177a9cb410ff61f20015ad".
Proof. vm_compute. reflexivity. Qed.

Example sha256_two_blocks :
  hex (Sha256.digest (string_bytes "abcdbcdecdefdefgefghfghighijhijkijkljklmklmnlmnomnopnopq"))
  = "248d6a61d20638b8e5c026930c3e6039a33ce45964ff2167f6ecedd419db06c1".
Proof. vm_compute. reflexivity. Qed.
