(* ===== verification/Provider.v ===== *)
(** * Shared resource builders

    [src/operator/controllers/provider]: [zookeeperservice_provider.go]
    (labels, services, claims, environment), [secrets_provider.go] (projected
    secret volumes) and [vault_provider.go] (Vault references, roles and
    policies).  [resource.ParseQuantity] is a parameter; a builder that calls
    [resource.MustParse] panics where it rejects its argument. *)

From S2P Require Import Prelude GoStrings Types Util.
From Stdlib Require Import Ascii.

(** [k8s.io/apimachinery/pkg/api/resource], outside the repository. *)
Class Quantities : Set := { ParseQuantity : string -> option Quantity }.

Definition MustParseQuantity `{Quantities} (s : string) : Res Quantity :=
  match ParseQuantity s with Some q => Ok q | None => Panic MustParse end.

(** ** zookeeperservice_provider.go *)

(** [fmt.Sprintf("pvc-%s-snapshots", name)]. *)
Definition SnapshotsPersistentVolumeClaim (name : string) : string :=
  "pvc-" +:+ name +:+ "-snapshots".

Definition GetZooKeeperSelectorLabels (serviceName : string) : gmap string string :=
  <["component" := "zookeeper"]> (<["clusterName" := serviceName]> ∅).

Definition GetZooKeeperLabels (serviceName : string) (defaultLabels : gomap string)
  : gmap string string :=
  let labels := <["name" := serviceName]> (<["app.kubernetes.io/name" := serviceName]> ∅) in
  JoinMaps (Some (JoinMaps (Some labels) (Some (GetZooKeeperSelectorLabels serviceName))))
    defaultLabels.

Definition newServiceForCR (serviceName namespace : string)
    (labels selectorLabels : gmap string string) (ports : list ServicePort) : Service :=
  mkService (newMeta serviceName namespace (Some labels)) ports (Some selectorLabels)
    "" "" [] false.

Definition NewServiceAccount (serviceAccountName namespace : string) : ServiceAccount :=
  mkServiceAccount (newMeta serviceAccountName namespace None).

Section claims.
Context `{Quantities}.

Definition NewPersistentVolumeClaim (persistentVolumeClaimName namespace : string)
    (labels : gmap string string) (annotations : gomap string) (shared : bool)
    (persistentVolumeName : string) (labelSelector : option (gmap string string))
    (storageClassName : option string) (volumeSize : string) : Res PersistentVolumeClaim :=
  let accessMode := if shared then ReadWriteMany else ReadWriteOnce in
  size ← MustParseQuantity volumeSize;
  let meta := set_Annotations annotations
                (newMeta persistentVolumeClaimName namespace (Some labels)) in
  let named := negb (bool_decide (persistentVolumeName = "")) in
  let volumeName := if named then persistentVolumeName else "" in
  let selector := if named then None else labelSelector in
  let className :=
    if named || bool_decide (is_Some labelSelector) then
      match storageClassName with Some c => Some c | None => Some "" end
    else storageClassName in
  mret (mkPVC meta [accessMode] size volumeName selector className).

(** [nil] is [None]; the log text it assembles is not part of the result. *)
Definition ProcessNonSharedPersistentVolumeClaim (persistentVolumeClaimName
    persistentVolumeName persistentVolumeLabel : string) (storageClassName : option string)
    (storageSize namespace : string) (labels : gmap string string)
    (annotations : gomap string) : Res (option PersistentVolumeClaim) :=
  let build labelSelector :=
    p ← NewPersistentVolumeClaim persistentVolumeClaimName namespace labels annotations
          false persistentVolumeName labelSelector storageClassName storageSize;
    mret (Some p) in
  if negb (bool_decide (persistentVolumeName = "")) then build None
  else if negb (bool_decide (persistentVolumeLabel = "")) then
    let keyValue := Split equals persistentVolumeLabel in
    k ← index keyValue 0;
    v ← index keyValue 1;
    build (Some {[k := v]})
  else match storageClassName with
       | None => mret None
       | Some _ => build None
       end.

Definition getTmpVolume (sizeLimitQuantity : string) : Res Volume :=
  sizeLimit ← MustParseQuantity sizeLimitQuantity;
  mret (mkVolume "tmp" (VEmptyDir (Some sizeLimit))).

Definition getVarLogVolume : Res Volume :=
  sizeLimit ← MustParseQuantity "10Mi";
  mret (mkVolume "var-log" (VEmptyDir (Some sizeLimit))).

End claims.

Definition getTmpVolumeMount : VolumeMount := mkMount "tmp" "/tmp" false.
Definition getVarLogVolumeMount : VolumeMount := mkMount "var-log" "/var/log" false.

(** One entry of [additionalEnvs], [None] when the loop logs it as incorrect. *)
Definition parseEnv (envVar : string) : option EnvVar :=
  match SplitN2 equals envVar with
  | [n; v] =>
      let name := TrimSpace n in
      if decide (0 < String.length name)%nat then Some (env name (TrimSpace v)) else None
  | _ => None
  end.

Fixpoint buildEnvs (envVars : list EnvVar) (additionalEnvs : list string) : list EnvVar :=
  match additionalEnvs with
  | [] => envVars
  | envVar :: rest =>
      match parseEnv envVar with
      | Some e => buildEnvs (envVars ++ [e]) rest
      | None => buildEnvs envVars rest
      end
  end.

Definition getDefaultContainerSecurityContext : SecurityContext :=
  mkSecurityContext (Some false) (Some true) ["ALL"].

(** ** secrets_provider.go *)
Definition AutoRestartAnnotation : string := "zookeeperservice.netcracker.com/auto-restart".

(** [fmt.Sprintf("%s/resource-version", name)]. *)
Definition ResourceVersionAnnotation (secretName : string) : string :=
  secretName +:+ "/resource-version".

Definition GetPodSecretsMountPath (service : string) : string :=
  "/etc/secrets/" +:+ service +:+ "-pod-secrets".

(** The octal literal 0644. *)
Definition getPodSecretsDefaultMode : Z := 420.

Record ProjectedSecretSource : Set := mkProjectedSource {
  pss_SecretName : string; pss_Items : list KeyToPath }.

Definition NewPodSecretsProjectedVolume (volumeName : string)
    (sources : list ProjectedSecretSource) : Volume :=
  let keep source :=
    if bool_decide (pss_SecretName source = "") || bool_decide (pss_Items source = [])
    then None
    else Some (mkSecretProjection (pss_SecretName source) (pss_Items source)) in
  mkVolume volumeName (VProjected getPodSecretsDefaultMode (omap keep sources)).

Definition NewPodSecretsVolumeMount (volumeName mountPath : string) : VolumeMount :=
  mkMount volumeName mountPath true.

Definition SecretKeyToPath (key path : string) : KeyToPath := mkKeyToPath key path.

(** ** vault_provider.go *)
Definition IsVaultSecretManagementEnabled (cr : ZooKeeperService) : bool :=
  match sp_VaultSecretManagement (cr_Spec cr) with
  | Some v => v_Enabled v
  | None => false
  end.

(** [cr.Spec.VaultSecretManagement], dereferenced. *)
Definition vaultOf (cr : ZooKeeperService) : Res VaultSecretManagement :=
  deref (sp_VaultSecretManagement (cr_Spec cr)).

(** [cr.Spec.Global], dereferenced. *)
Definition globalOf (cr : ZooKeeperService) : Res Global := deref (sp_Global (cr_Spec cr)).

Definition getVaultSecretEnvVarSource (serviceName : string) (cr : ZooKeeperService)
    (secret key : string) : Res string :=
  v ← vaultOf cr;
  mret ("vault:/" +:+ v_Path v +:+ "/data/" +:+ serviceName +:+ "." +:+ cr_Namespace cr
        +:+ "/" +:+ secret +:+ "#" +:+ key).

Definition getVaultConnectionEnvVars (serviceName : string) (cr : ZooKeeperService)
  : Res (list EnvVar) :=
  v ← vaultOf cr;
  mret [env "VAULT_SKIP_VERIFY" "True";
        env "VAULT_ADDR" (v_Url v);
        env "VAULT_PATH" (v_Method v);
        env "VAULT_ROLE" (serviceName +:+ "." +:+ cr_Namespace cr +:+ "-role");
        env "VAULT_IGNORE_MISSING_SECRETS" "False"].

Definition getVaultInitContainer (cr : ZooKeeperService) : Res Container :=
  v ← vaultOf cr;
  mret (mkContainer "copy-vault-env" (v_DockerImage v)
          ["sh"; "-c"; "cp /usr/local/bin/vault-env /vault/"] [] [] [] ""
          [mkMount "vault-env" "/vault" false] None None PullIfNotPresent
          (Some getDefaultContainerSecurityContext)).

Definition BuildVaultRole (serviceAccountName : string) (cr : ZooKeeperService)
    (policyNames : list string) : list (string * iface) :=
  [("bound_service_account_names", IString serviceAccountName);
   ("bound_service_account_namespaces", IString (cr_Namespace cr));
   ("policies", IStrings policyNames);
   ("ttl", IString "30m")].

(** One stanza of a policy document, granting read and list on [path]. *)
Definition policyFor (path : string) : string :=
  "path " +:+ dquote +:+ path +:+ dquote +:+ " " +:+ newline +:+ "{" +:+ newline +:+ tab
  +:+ "capabilities = [" +:+ dquote +:+ "read" +:+ dquote +:+ ", " +:+ dquote +:+ "list"
  +:+ dquote +:+ "]" +:+ newline +:+ "}".

Definition BuildVaultPolicy (serviceName : string) (cr : ZooKeeperService)
    (secretNamePatterns : list string) : Res string :=
  match secretNamePatterns with
  | [] => mret ""
  | _ =>
      v ← vaultOf cr;
      mret (Join newline
        ((fun pattern => policyFor (v_Path v +:+ "/data/" +:+ serviceName +:+ "."
            +:+ cr_Namespace cr +:+ "/" +:+ pattern)) <$> secretNamePatterns))
  end.

Definition BuildVaultPolicyForPath (paths : list string) : string :=
  Join newline (policyFor <$> paths).

Definition passwordPolicyText : string :=
  "length = 10"
  +:+ "rule " +:+ dquote +:+ "charset" +:+ dquote +:+ " {"
  +:+ tab +:+ "charset = " +:+ dquote +:+ "abcdefghijklmnopqrstuvwxyz" +:+ dquote
  +:+ tab +:+ "min-chars = 3"
  +:+ "}"
  +:+ "rule " +:+ dquote +:+ "charset" +:+ dquote +:+ " {"
  +:+ tab +:+ "charset = " +:+ dquote +:+ "ABCDEFGHIJKLMNOPQRSTUVWXYZ" +:+ dquote
  +:+ tab +:+ "min-chars = 3"
  +:+ "}"
  +:+ "rule " +:+ dquote +:+ "charset" +:+ dquote +:+ " {"
  +:+ tab +:+ tab +:+ "charset = " +:+ dquote +:+ "0123456789" +:+ dquote
  +:+ tab +:+ "min-chars = 1"
  +:+ "}"
  +:+ "rule " +:+ dquote +:+ "charset" +:+ dquote +:+ " {"
  +:+ tab +:+ "charset = " +:+ dquote +:+ "_!"
  +:+ tab +:+ "min-chars = 1"
  +:+ "}".

Definition BuildVaultPasswordPolicy : list (string * iface) :=
  [("policy", IString passwordPolicyText)].

(** The text before and after the first occurrence of [p] in [s]. *)
Fixpoint find_sub (p s : string) : option (string * string) :=
  match strip_prefix p s with
  | Some rest => Some ("", rest)
  | None => match s with
            | "" => None
            | String a s => (fun '(x, y) => (String a x, y)) <$> find_sub p s
            end
  end.

(** The text before the last [c] of [s]. *)
Fixpoint before_last (c : ascii) (s : string) : option string :=
  match s with
  | "" => None
  | String a s =>
      match before_last c s with
      | Some x => Some (String a x)
      | None => if decide (a = c) then Some "" else None
      end
  end.

(** The regular expression (vault:/) (.* ) (#.* ) replaced by its second
    group, on one line: a match starts at the first occurrence of the prefix
    and runs to the end of the line, the greedy group ending at the last
    hash sign. *)
Definition replace_vault_line (line : string) : string :=
  match find_sub "vault:/" line with
  | Some (pre, rest) =>
      match before_last hash_sign rest with
      | Some g2 => pre +:+ g2
      | None => line
      end
  | None => line
  end.

Definition GetVaultSecretForPath (secretPathsForComponent : gomap string) (key : string) : string :=
  match secretPathsForComponent with
  | None => ""
  | Some _ =>
      let path := gm_str secretPathsForComponent key in
      if HasPrefix path "vault:/"
      then Join newline (replace_vault_line <$> Split lf path)
      else ""
  end.

(** ** Lemmas on the builders *)

Lemma SplitN2_index1 s :
  index (Split equals s) 1 = Panic IndexOutOfRange <-> has_char equals s = false.
Proof.
  split.
  - intros Hp. destruct (cut equals s) as [[x y]|] eqn:Hc.
    + apply cut_Some in Hc as [-> Hx]. rewrite Split_cons_sep in Hp by done.
      destruct (Split equals y) eqn:Hy; [by apply Split_nonempty in Hy|]. done.
    + clear Hp. revert Hc. induction s as [|a s IH]; simpl; [done|].
      case_decide; [done|]. intros Hc%fmap_None. rewrite IH by done.
      by rewrite bool_decide_eq_false_2.
  - intros Hs. by rewrite Split_no_sep.
Qed.

Lemma Split_index0 s : exists k, index (Split equals s) 0 = Ok k.
Proof. destruct (Split_head equals s) as [ws ->]. by eexists. Qed.

Lemma NewPersistentVolumeClaim_Ok `{Quantities} n ns l a sh vn sel sc size q :
  ParseQuantity size = Some q ->
  exists p, NewPersistentVolumeClaim n ns l a sh vn sel sc size = Ok p
    /\ pvc_Meta p = set_Annotations a (newMeta n ns (Some l))
    /\ pvc_AccessModes p = [if sh then ReadWriteMany else ReadWriteOnce]
    /\ pvc_Storage p = q
    /\ pvc_VolumeName p = vn
    /\ pvc_Selector p = (if decide (vn = "") then sel else None)
    /\ pvc_StorageClassName p =
         (if decide (vn = "" /\ sel = None) then sc else Some (default "" sc)).
Proof.
  intros Hq. unfold NewPersistentVolumeClaim, MustParseQuantity. rewrite Hq.
  eexists; split; [reflexivity|]; simpl.
  destruct (decide (vn = "")) as [->|Hne]; simpl; split_and!; try done.
  - destruct sel, sc; simpl; repeat case_decide; naive_solver.
  - by rewrite bool_decide_eq_false_2.
  - by rewrite bool_decide_eq_false_2.
  - rewrite bool_decide_eq_false_2 by done. simpl.
    rewrite decide_False by naive_solver. by destruct sc.
Qed.

Lemma NewPersistentVolumeClaim_meta `{Quantities} n ns l a sh vn sel sc size p :
  NewPersistentVolumeClaim n ns l a sh vn sel sc size = Ok p ->
  pvc_Meta p = set_Annotations a (newMeta n ns (Some l)).
Proof. unfold NewPersistentVolumeClaim. cbv zeta. intros Hp. by inv_binds Hp. Qed.

Lemma nonshared_claim_meta `{Quantities} n vn label sc size ns l a p :
  ProcessNonSharedPersistentVolumeClaim n vn label sc size ns l a = Ok (Some p) ->
  pvc_Meta p = set_Annotations a (newMeta n ns (Some l)) /\ ~ (vn = "" /\ label = "" /\ sc = None).
Proof.
  unfold ProcessNonSharedPersistentVolumeClaim. cbv zeta. intros Hp.
  repeat case_match; inv_binds Hp; simplify_eq;
    (split; [by eapply NewPersistentVolumeClaim_meta|]); by intros (-> & -> & ?).
Qed.

Lemma vault_enabled_inv cr :
  IsVaultSecretManagementEnabled cr = true -> exists v, vaultOf cr = Ok v.
Proof.
  unfold IsVaultSecretManagementEnabled, vaultOf. destruct (sp_VaultSecretManagement _); [|done].
  by eexists.
Qed.

Lemma buildEnvs_app envs l : buildEnvs envs l = envs ++ omap parseEnv l.
Proof.
  revert envs. induction l as [|e l IH]; intros envs; simpl; [by rewrite app_nil_r|].
  destruct (parseEnv e); rewrite IH; [by rewrite <- app_assoc|done].
Qed.

Lemma parseEnv_Some s e :
  parseEnv s = Some e ->
  exists n v, s = n +:+ "=" +:+ v /\ has_char equals n = false
    /\ e = env (TrimSpace n) (TrimSpace v) /\ env_Name e <> "".
Proof.
  unfold parseEnv, SplitN2. destruct (cut equals s) as [[n v]|] eqn:Hc; [|done].
  apply cut_Some in Hc as [-> Hn]. case_decide as Hl; [|done]. intros [= <-].
  exists n, v. split_and!; [done..|]. simpl. intros He. rewrite He in Hl. simpl in Hl. lia.
Qed.

Lemma find_sub_prefix p s : find_sub p (p +:+ s) = Some ("", s).
Proof.
  destruct (p +:+ s) eqn:He; simpl; rewrite <- He, strip_prefix_app; done.
Qed.

Lemma before_last_no_sep c b : has_char c b = false -> before_last c b = None.
Proof.
  induction b as [|a b IH]; simpl; [done|]. intros [H1 H2]%orb_false_elim.
  apply bool_decide_eq_false in H1. by rewrite IH, decide_False.
Qed.

Lemma before_last_app c a b :
  has_char c b = false -> before_last c (a +:+ String c b) = Some a.
Proof.
  intros Hb. induction a as [|x a IH].
  - rewrite app_nil_l'. simpl. by rewrite before_last_no_sep, decide_True.
  - rewrite app_cons. simpl. by rewrite IH.
Qed.

(** Double quotes in a policy document come in pairs. *)
Lemma policyFor_quotes path :
  count_char (Ascii.ascii_of_nat 34) (policyFor path)
  = (6 + count_char (Ascii.ascii_of_nat 34) path)%nat.
Proof. unfold policyFor. rewrite !count_char_app. simpl. lia. Qed.

(** ** Properties *)

(** A claim for one server: none when nothing names a volume, a label or a
    storage class; a run-time panic when the label has no equals sign; a
    ReadWriteOnce claim otherwise, bound by the volume name if there is one,
    else by the label, with a storage class set whenever it is bound. *)
Theorem nonshared_claim_outcome `{Quantities} n vn label sc size ns l a q :
  ParseQuantity size = Some q ->
  let r := ProcessNonSharedPersistentVolumeClaim n vn label sc size ns l a in
  (r = Ok None <-> vn = "" /\ label = "" /\ sc = None) /\
  (r = Panic IndexOutOfRange <->
     vn = "" /\ label <> "" /\ has_char equals label = false) /\
  (forall p, r = Ok (Some p) ->
     pvc_VolumeName p = vn /\ pvc_AccessModes p = [ReadWriteOnce] /\ pvc_Storage p = q /\
     (is_Some (pvc_Selector p) <-> vn = "" /\ label <> "") /\
     (vn <> "" \/ label <> "" -> pvc_StorageClassName p = Some (default "" sc))).
Proof.
  intros Hq r. subst r. unfold ProcessNonSharedPersistentVolumeClaim.
  destruct (decide (vn = "")) as [->|Hvn].
  - rewrite (bool_decide_eq_true_2 (_ = "")) by done. simpl.
    destruct (decide (label = "")) as [->|Hl].
    + rewrite (bool_decide_eq_true_2 (_ = "")) by done. simpl.
      destruct sc as [c|]; [|naive_solver].
      destruct (NewPersistentVolumeClaim_Ok n ns l a false "" None (Some c) size q Hq)
        as (p & -> & ? & ? & ? & ? & Hs & Hc). simpl. rewrite decide_True in Hs by done. rewrite decide_True in Hc by done.
      split_and!; try naive_solver. intros p' [= <-]. rewrite Hs.
      split_and!; naive_solver.
    + rewrite (bool_decide_eq_false_2 (label = "")) by done. simpl.
      destruct (Split_index0 label) as [k ->]. simpl.
      destruct (has_char equals label) eqn:Hc.
      * destruct (index (Split equals label) 1) as [v| |pc] eqn:Hi.
        -- destruct (NewPersistentVolumeClaim_Ok n ns l a false "" (Some {[k := v]}) sc size q Hq)
             as (p & Hp & ? & ? & ? & ? & Hs & Hcl). simpl. rewrite Hp. simpl.
           rewrite decide_True in Hs by done. rewrite decide_False in Hcl by naive_solver.
           split_and!; try naive_solver. intros p' [= <-]. rewrite Hs.
           split_and!; naive_solver.
        -- exfalso. unfold index in Hi. case_decide; [|done]. by destruct (_ !! _).
        -- exfalso. assert (pc = IndexOutOfRange) as ->.
           { unfold index in Hi. case_decide; [destruct (_ !! _)|]; congruence. }
           apply SplitN2_index1 in Hi. congruence.
      * assert (index (Split equals label) 1 = Panic IndexOutOfRange) as ->
          by (by apply SplitN2_index1). simpl. naive_solver.
  - rewrite (bool_decide_eq_false_2 (vn = "")) by done. simpl.
    destruct (NewPersistentVolumeClaim_Ok n ns l a false vn None sc size q Hq)
      as (p & -> & ? & ? & ? & ? & Hs & Hc). simpl.
    rewrite decide_False in Hs by done. rewrite decide_False in Hc by naive_solver.
    split_and!; try naive_solver. intros p' [= <-].
    split_and!; try done. rewrite Hs. split; [by intros []|naive_solver].
Qed.


(** C35: Reading a Vault reference back: the path of the reference that
    [getVaultSecretEnvVarSource] writes is recovered by
    [GetVaultSecretForPath], for a key with no hash sign and values with no
    line break. *)
Theorem vault_reference_roundtrip svc cr secret key ref name v :
  getVaultSecretEnvVarSource svc cr secret key = Ok ref ->
  sp_VaultSecretManagement (cr_Spec cr) = Some v ->
  has_char hash_sign key = false ->
  has_char lf ref = false ->
  GetVaultSecretForPath (Some {[name := ref]}) name
  = v_Path v +:+ "/data/" +:+ svc +:+ "." +:+ cr_Namespace cr +:+ "/" +:+ secret.
Proof.
  intros Hr Hv Hkey Hlf. unfold getVaultSecretEnvVarSource, vaultOf in Hr.
  rewrite Hv in Hr. apply Ok_inj in Hr as <-.
  unfold GetVaultSecretForPath. rewrite gm_str_singleton. cbv zeta.
  rewrite HasPrefix_app, Split_no_sep by done. simpl.
  unfold replace_vault_line. rewrite find_sub_prefix.
  set (path := v_Path v +:+ "/data/" +:+ svc +:+ "." +:+ cr_Namespace cr +:+ "/" +:+ secret).
  replace (v_Path v +:+ _) with (path +:+ String hash_sign key)
    by (unfold path; rewrite !app_assoc'; done).
  by rewrite before_last_app, app_nil_l'.
Qed.

(** The password policy sent to Vault has an odd number of double quotes: the
    last charset string is never closed. *)
Theorem password_policy_unbalanced_quotes :
  im_get BuildVaultPasswordPolicy "policy" = IString passwordPolicyText /\
  Nat.odd (count_char (Ascii.ascii_of_nat 34) passwordPolicyText) = true.
Proof. split; vm_compute; reflexivity. Qed.

(** Every policy document built for secret paths has its quotes paired,
    whatever the paths, as long as they hold no quote themselves. *)
Theorem vault_policies_balanced_quotes paths :
  Forall (fun p => has_char (Ascii.ascii_of_nat 34) p = false) paths ->
  Nat.even (count_char (Ascii.ascii_of_nat 34) (BuildVaultPolicyForPath paths)) = true.
Proof.
  intros Hall. unfold BuildVaultPolicyForPath.
  induction Hall as [|p ps Hp Hall IH]; [done|].
  destruct ps as [|p' ps]; cbn [fmap list_fmap Join] in *.
  - by rewrite policyFor_quotes, count_char_none.
  - rewrite !count_char_app, policyFor_quotes, count_char_none by done.
    exact IH.
Qed.
