(* ===== verification/ZooKeeperProvider.v ===== *)
(** * Resources of the ZooKeeper servers

    [src/operator/controllers/provider/zookeeper_provider.go]: the services,
    the claim and the deployment of every server of the ensemble.  A provider
    holds the custom resource and reads its spec through it, as the Go struct
    does; a builder panics where the Go code would (nil [Global], a storage
    list that is shorter than the ensemble, a malformed quantity). *)

From S2P Require Import Prelude GoStrings Types Util Provider.

Definition devMode : string := "dev".
Definition prodMode : string := "prod".

(** [fmt.Sprintf("pvc-%s-%d", name, id)] and [fmt.Sprintf("%s-%d", name, id)]. *)
Definition persistentVolumeClaimFor (name : string) (serverId : Z) : string :=
  "pvc-" +:+ name +:+ "-" +:+ Itoa serverId.
Definition serverName (name : string) (serverId : Z) : string :=
  name +:+ "-" +:+ Itoa serverId.

Record ZooKeeperResourceProvider : Set := mkZRP {
  zrp_cr : ZooKeeperService; zrp_spec : option ZooKeeper }.

Definition NewZooKeeperResourceProvider (cr : ZooKeeperService) : ZooKeeperResourceProvider :=
  mkZRP cr (sp_ZooKeeper (cr_Spec cr)).

Definition tcp (name : string) (port : Z) : ServicePort := mkPort name port ProtocolTCP.
Definition tcpPort (port : Z) : ContainerPort := mkContainerPort "" port ProtocolTCP.

Module ZK.
Section provider.
Context `{Quantities} (zrp : ZooKeeperResourceProvider).
#[local] Abbreviation cr := (zrp_cr zrp).

Definition GetServiceName : string := cr_Name cr.
Definition GetServiceAccountName : string := GetServiceName.

Definition NewZooKeeperClientServiceForCR : Res Service :=
  g ← globalOf cr;
  let zooKeeperLabels := GetZooKeeperLabels (cr_Name cr) (g_DefaultLabels g) in
  let selectorLabels := GetZooKeeperSelectorLabels (cr_Name cr) in
  let ports := [tcp "zookeeper-client" 2181; tcp "nonencrypted-zookeeper-client" 2182] in
  mret (newServiceForCR (cr_Name cr) (cr_Namespace cr) zooKeeperLabels selectorLabels ports).

Definition NewZooKeeperDomainServiceForCR : Res Service :=
  let serviceName := cr_Name cr +:+ "-server" in
  g ← globalOf cr;
  let zooKeeperLabels := <["app.kubernetes.io/instance" := "zookeper-" +:+ cr_Namespace cr]>
                           (GetZooKeeperLabels (cr_Name cr) (g_DefaultLabels g)) in
  let selectorLabels := GetZooKeeperSelectorLabels (cr_Name cr) in
  let ports := [tcp "zookeeper-client" 2181; tcp "nonencrypted-zookeeper-client" 2182;
                tcp "zookeeper-followers" 2888; tcp "zookeeper-election" 3888;
                tcp "zookeeper-backup" 8081] in
  let domainService := newServiceForCR serviceName (cr_Namespace cr) zooKeeperLabels
                         selectorLabels ports in
  mret (set_svc_PublishNotReady true (set_svc_ClusterIP "None" domainService)).

Definition NewZooKeeperServerServiceForCR (serverId : Z) : Res Service :=
  let serviceName := serverName (cr_Name cr) serverId in
  g ← globalOf cr;
  let zooKeeperLabels := <["name" := serviceName]>
                           (GetZooKeeperLabels (cr_Name cr) (g_DefaultLabels g)) in
  let selectorLabels := <["name" := serviceName]> (GetZooKeeperSelectorLabels (cr_Name cr)) in
  spec ← deref (zrp_spec zrp);
  let ports := [tcp "zookeeper-client" 2181; tcp "nonencrypted-zookeeper-client" 2182;
                tcp "zookeeper-followers" 2888; tcp "zookeeper-election" 3888;
                tcp "zookeeper-backup" 8081; tcp "zookeeper-jolokia" (zk_JolokiaPort spec);
                tcp "prometheus-http" 8080] in
  mret (newServiceForCR serviceName (cr_Namespace cr) zooKeeperLabels selectorLabels ports).

(** [l[serverId-1]] when the list is not empty, the zero value otherwise. *)
Definition perServer (l : list string) (serverId : Z) : Res string :=
  match l with [] => mret "" | _ => index l (serverId - 1) end.

(** The storage class of a server: the first of the list, or the server's own
    when the list has one entry per replica. *)
Definition storageClassFor (l : list string) (replicas serverId : Z) : Res (option string) :=
  match l with
  | [] => mret None
  | c :: _ =>
      if decide (Z.of_nat (length l) = replicas)
      then c' ← index l (serverId - 1); mret (Some c')
      else mret (Some c)
  end.

Definition NewZooKeeperPersistentVolumeClaimForCR (serverId : Z)
  : Res (option PersistentVolumeClaim) :=
  spec ← deref (zrp_spec zrp);
  let storage := zk_Storage spec in
  persistentVolumeName ← perServer (st_Volumes storage) serverId;
  persistentVolumeLabel ← perServer (st_Labels storage) serverId;
  storageClassName ← storageClassFor (st_ClassName storage) (zk_Replicas spec) serverId;
  let persistentVolumeClaimName := persistentVolumeClaimFor (cr_Name cr) serverId in
  g ← globalOf cr;
  let labels := <["cloud-backuper.netcracker.com/exclude-from-physical-backup" := "true"]>
                  (GetZooKeeperLabels (cr_Name cr) (g_DefaultLabels g)) in
  ProcessNonSharedPersistentVolumeClaim persistentVolumeClaimName persistentVolumeName
    persistentVolumeLabel storageClassName (st_Size storage) (cr_Namespace cr) labels
    (g_PVCAnnotations g).

Definition GetZooKeeperCustomLabels (zooKeeperLabels : gmap string string)
  : Res (gmap string string) :=
  g ← globalOf cr;
  spec ← deref (zrp_spec zrp);
  mret (JoinMaps (Some (JoinMaps (g_CustomLabels g) (zk_CustomLabels spec)))
          (Some zooKeeperLabels)).

Definition getCommand : list string :=
  if IsVaultSecretManagementEnabled cr then ["/vault/vault-env"] else [].

Definition getArgs : list string :=
  if IsVaultSecretManagementEnabled cr
  then ["/sbin/tini"; "--"; "/docker-entrypoint.sh"; "start"] else [].

Definition getInitContainers : Res (list Container) :=
  if IsVaultSecretManagementEnabled cr
  then c ← getVaultInitContainer cr; mret [c] else mret [].

Definition getExecCommand (originalCommand : list string) : ProbeHandler :=
  if IsVaultSecretManagementEnabled cr
  then ExecAction ("/vault/vault-env" :: originalCommand)
  else ExecAction originalCommand.

Definition getSecretEnvs : Res (list EnvVar) :=
  if IsVaultSecretManagementEnabled cr then
    let ref secret key := getVaultSecretEnvVarSource GetServiceName cr secret key in
    adminUser ← ref "admin-credentials" "username";
    adminPassword ← ref "admin-credentials" "password";
    clientUser ← ref "client-credentials" "username";
    clientPassword ← ref "client-credentials" "password";
    users ← ref "additional-users" "users";
    mret [env "ADMIN_USERNAME" adminUser; env "ADMIN_PASSWORD" adminPassword;
          env "CLIENT_USERNAME" clientUser; env "CLIENT_PASSWORD" clientPassword;
          env "ADDITIONAL_USERS" users]
  else mret [].

Definition getZooKeeperAffinityRules (serverId : Z) : Res Affinity :=
  spec ← deref (zrp_spec zrp);
  let affinityRules := zk_Affinity spec in
  match st_Nodes (zk_Storage spec) with
  | [] => mret affinityRules
  | nodes =>
      node ← index nodes (serverId - 1);
      mret (mkAffinity
              (Some (mkNodeAffinity
                       (Some [[mkNodeReq "kubernetes.io/hostname" "In" [node]]]) ""))
              (af_PodAffinity affinityRules) (af_PodAntiAffinity affinityRules))
  end.

(** The labels of a server's deployment. *)
Definition serverLabels (g : Global) (serverId : Z) : gmap string string :=
  <["app.kubernetes.io/instance" := cr_Name cr +:+ "-" +:+ cr_Namespace cr]>
  (<["app.kubernetes.io/technology" := "java-others"]>
  (<["name" := serverName (cr_Name cr) serverId]>
     (GetZooKeeperLabels (cr_Name cr) (g_DefaultLabels g)))).

Definition serverSelector (serverId : Z) : gmap string string :=
  <["name" := serverName (cr_Name cr) serverId]> (GetZooKeeperSelectorLabels (cr_Name cr)).

Definition livenessProbe : Probe :=
  mkProbe (Some (getExecCommand ["./bin/zkHealth.sh"; "liveness-probe"])) 20 20 20 1 5.
Definition readinessProbe : Probe :=
  mkProbe (Some (getExecCommand ["./bin/zkHealth.sh"; "readiness-probe"])) 40 20 20 1 5.

Definition dataVolumeSource (spec : ZooKeeper) (serverId : Z) : VolumeSource :=
  match st_Volumes (zk_Storage spec), st_Labels (zk_Storage spec),
        st_ClassName (zk_Storage spec) with
  | [], [], [] => VEmptyDir None
  | _, _, _ => VPersistentVolumeClaim (persistentVolumeClaimFor (cr_Name cr) serverId)
  end.

Definition backupVolumeSource (spec : ZooKeeper) : VolumeSource :=
  let s := zk_SnapshotStorage spec in
  if bool_decide (ss_PersistentVolumeType s = "")
     || bool_decide (ss_PersistentVolumeType s = "standalone")
  then VEmptyDir None
  else
    let claim := ss_PersistentVolumeClaimName s in
    VPersistentVolumeClaim
      (if decide (claim = "") then SnapshotsPersistentVolumeClaim (cr_Name cr) else claim).

Definition baseEnvVars (spec : ZooKeeper) (serverId : Z) : list EnvVar :=
  [env "SERVER_NAME" (cr_Name cr);
   env "SERVER_ID" (Itoa serverId);
   env "SERVER_DOMAIN" (cr_Name cr +:+ "-server");
   envField "SERVER_NAMESPACE" "metadata.namespace";
   env "SERVER_COUNT" (Itoa (zk_Replicas spec));
   env "HEAP_OPTS" ("-Xms" +:+ Itoa (zk_HeapSize spec) +:+ "m -Xmx"
                    +:+ Itoa (zk_HeapSize spec) +:+ "m");
   env "QUORUM_AUTH_ENABLED" (FormatBool (zk_QuorumAuthEnabled spec));
   env "JOLOKIA_PORT" (Itoa (zk_JolokiaPort spec));
   env "AUDIT_ENABLED" (FormatBool (zk_AuditEnabled spec))].

(** What one optional block of the deployment adds: variables, volumes, mounts. *)
Definition Additions : Set := list EnvVar * list Volume * list VolumeMount.
Definition nothing : Additions := ([], [], []).

Definition podSecrets (spec : ZooKeeper) : Additions :=
  if negb (IsVaultSecretManagementEnabled cr) && negb (bool_decide (zk_SecretName spec = ""))
  then
    let podSecretsMount := GetPodSecretsMountPath "zookeeper" in
    ([env "ZOOKEEPER_SECRETS_DIR" podSecretsMount],
     [NewPodSecretsProjectedVolume "zookeeper-pod-secrets"
        [mkProjectedSource (zk_SecretName spec)
           [SecretKeyToPath "admin-username" "admin-username";
            SecretKeyToPath "admin-password" "admin-password";
            SecretKeyToPath "client-username" "client-username";
            SecretKeyToPath "client-password" "client-password";
            SecretKeyToPath "additional-users" "additional-users"]]],
     [NewPodSecretsVolumeMount "zookeeper-pod-secrets" podSecretsMount])
  else nothing.

Definition diagnostics (spec : ZooKeeper) : Additions :=
  let diagnosticMode := dg_Mode (zk_Diagnostics spec) in
  if bool_decide (diagnosticMode = devMode) || bool_decide (diagnosticMode = prodMode)
  then ([envField "CLOUD_NAMESPACE" "metadata.namespace";
         env "MICROSERVICE_NAME" GetServiceName;
         env "NC_DIAGNOSTIC_MODE" diagnosticMode;
         env "NC_DIAGNOSTIC_AGENT_SERVICE" (dg_AgentService (zk_Diagnostics spec))], [], [])
  else nothing.

Definition vaultEnv : Res Additions :=
  if IsVaultSecretManagementEnabled cr then
    envs ← getVaultConnectionEnvVars GetServiceName cr;
    mret (envs, [mkVolume "vault-env" (VEmptyDir None)], [mkMount "vault-env" "/vault" false])
  else mret nothing.

Definition sslCerts (g : Global) (spec : ZooKeeper) : Additions :=
  let s := g_ZooKeeperSsl g in
  if ssls_Enabled s && negb (bool_decide (ssls_SecretName s = "")) then
    ([env "ENABLE_SSL" "true";
      env "SSL_CIPHER_SUITES" (Join "," (ssl_CipherSuites (zk_Ssl spec)));
      env "ENABLE_2WAY_SSL" (FormatBool (ssl_EnableTwoWaySsl (zk_Ssl spec)));
      env "ALLOW_NONENCRYPTED_ACCESS" (FormatBool (ssl_AllowNonencryptedAccess (zk_Ssl spec)))],
     [mkVolume "ssl-certs" (VSecret (ssls_SecretName s))],
     [mkMount "ssl-certs" "/opt/zookeeper/tls" false])
  else nothing.

(** The appends of one block to the lists built so far. *)
Definition extend (acc add : Additions) : Additions :=
  let '(e, v, m) := acc in
  let '(e', v', m') := add in
  (e ++ e', v ++ v', m ++ m').

Definition serverContainer (spec : ZooKeeper) (envVars : list EnvVar)
    (volumeMounts : list VolumeMount) : Container :=
  mkContainer "zookeeper" (zk_DockerImage spec) getCommand getArgs
    [tcpPort 2181; tcpPort 2182; tcpPort 2888; tcpPort 3888;
     tcpPort (zk_JolokiaPort spec); tcpPort 8080]
    (buildEnvs envVars (zk_EnvironmentVariables spec)) (zk_Resources spec) volumeMounts
    (Some livenessProbe) (Some readinessProbe) PullAlways
    (Some getDefaultContainerSecurityContext).

Definition NewServerDeploymentForCR (serverId : Z) : Res Deployment :=
  let deploymentName := serverName (cr_Name cr) serverId in
  let domainName := cr_Name cr +:+ "-server" in
  g ← globalOf cr;
  let zooKeeperLabels := serverLabels g serverId in
  let selectorLabels := serverSelector serverId in
  zooKeeperCustomLabels ← GetZooKeeperCustomLabels zooKeeperLabels;
  spec ← deref (zrp_spec zrp);
  secretEnvs ← getSecretEnvs;
  tmp ← getTmpVolume "32Mi";
  vault ← vaultEnv;
  let base : Additions :=
    (baseEnvVars spec serverId ++ secretEnvs,
     [mkVolume "data" (dataVolumeSource spec serverId);
      mkVolume "log" (VEmptyDir None);
      mkVolume "backup-storage" (backupVolumeSource spec);
      tmp],
     [mkMount "data" "/var/opt/zookeeper/data" false;
      mkMount "log" "/opt/zookeeper/log" false;
      mkMount "backup-storage" "/opt/zookeeper/backup-storage" false;
      getTmpVolumeMount]) in
  let '(envVars, volumes, volumeMounts) :=
    extend (extend (extend (extend base (podSecrets spec)) (diagnostics spec)) vault)
      (sslCerts g spec) in
  initContainers ← getInitContainers;
  affinity ← getZooKeeperAffinityRules serverId;
  mret (mkDeployment
    (newMeta deploymentName (cr_Namespace cr) (Some zooKeeperLabels))
    RecreateStrategy (Some 1) (Some selectorLabels)
    (newMeta "" "" (Some zooKeeperCustomLabels))
    (mkPodSpec volumes initContainers [serverContainer spec envVars volumeMounts]
       (zk_SecurityContext spec) deploymentName GetServiceAccountName domainName
       (Some affinity) (zk_Tolerations spec) (zk_PriorityClassName spec))
    0 0).

End provider.
End ZK.

(** ** Lemmas *)

(** What a deployment that was built holds, field by field. *)
Lemma server_deployment_inv `{Quantities} zrp id d :
  ZK.NewServerDeploymentForCR zrp id = Ok d ->
  exists g spec,
    sp_Global (cr_Spec (zrp_cr zrp)) = Some g /\ zrp_spec zrp = Some spec /\
    d_Meta d = newMeta (serverName (cr_Name (zrp_cr zrp)) id) (cr_Namespace (zrp_cr zrp))
                 (Some (ZK.serverLabels zrp g id)) /\
    d_Selector d = Some (ZK.serverSelector zrp id) /\
    d_TemplateMeta d = newMeta "" "" (Some (JoinMaps
      (Some (JoinMaps (g_CustomLabels g) (zk_CustomLabels spec)))
      (Some (ZK.serverLabels zrp g id)))) /\
    ZK.getZooKeeperAffinityRules zrp id = Ok (default (zk_Affinity spec)
      (ps_Affinity (d_PodSpec d))) /\
    exists envs mounts,
      ps_Containers (d_PodSpec d) = [ZK.serverContainer zrp spec envs mounts] /\
      head (ps_Volumes (d_PodSpec d)) = Some (mkVolume "data" (ZK.dataVolumeSource zrp spec id)) /\
      vm_Name <$> mounts = vol_Name <$> ps_Volumes (d_PodSpec d).
Proof.
  intros Hd. unfold ZK.NewServerDeploymentForCR in Hd. cbv zeta in Hd.
  apply bind_Ok in Hd as (g & Hg & Hd). apply bind_Ok in Hd as (cl & Hcl & Hd).
  apply bind_Ok in Hd as (spec & Hspec & Hd). apply bind_Ok in Hd as (se & Hse & Hd).
  apply bind_Ok in Hd as (tmp & Htmp & Hd). apply bind_Ok in Hd as (va & Hva & Hd).
  unfold globalOf in Hg. apply deref_Ok in Hg, Hspec.
  unfold ZK.GetZooKeeperCustomLabels, globalOf in Hcl. rewrite Hg, Hspec in Hcl.
  apply Ok_inj in Hcl as <-.
  unfold getTmpVolume in Htmp. inv_binds Htmp.
  assert (exists ve vv vm, va = (ve, vv, vm) /\ vm_Name <$> vm = vol_Name <$> vv)
    as (ve & vv & vm & -> & Hvm).
  { unfold ZK.vaultEnv in Hva. destruct (IsVaultSecretManagementEnabled _); inv_binds Hva;
      by repeat eexists. }
  unfold ZK.extend, ZK.podSecrets, ZK.diagnostics, ZK.sslCerts, ZK.nothing in Hd.
  exists g, spec.
  destruct (negb (IsVaultSecretManagementEnabled (zrp_cr zrp)) && _) in Hd;
    destruct (bool_decide (dg_Mode (zk_Diagnostics spec) = devMode) || _) in Hd;
    destruct (ssls_Enabled (g_ZooKeeperSsl g) && _) in Hd;
    cbv iota beta zeta in Hd; inv_binds Hd; simpl; split_and!; try done;
    eexists _, _; split_and!; try done; rewrite ?fmap_cons, ?fmap_app, ?fmap_cons, ?Hvm; done.
Qed.

Lemma labels_lookup name (dl : gomap string) k :
  gm dl !! k = None ->
  GetZooKeeperLabels name dl !! k =
    (GetZooKeeperSelectorLabels name ∪
       <["name" := name]> (<["app.kubernetes.io/name" := name]> ∅)) !! k.
Proof. intros Hk. unfold GetZooKeeperLabels. rewrite JoinMaps_side by done. simpl. by rewrite JoinMaps_union. Qed.

(** The labels that tie the pods of the ensemble to its services are not
    overridden by the user's default labels. *)
Definition default_labels_ok (g : Global) : Prop :=
  gm (g_DefaultLabels g) !! "component" = None /\
  gm (g_DefaultLabels g) !! "clusterName" = None.

(** The labels of a server's pods that carry a selector. *)
Definition template_labels (d : Deployment) : gmap string string :=
  gm (m_Labels (d_TemplateMeta d)).

(** Kubernetes label matching: every pair of the selector is a label. *)
Definition selects (selector : gomap string) (labels : gmap string string) : Prop :=
  gm selector ⊆ labels.

Lemma serverName_inj n i j : serverName n i = serverName n j -> i = j.
Proof. unfold serverName. intros ?%app_inj_l%app_inj_l. by apply Itoa_inj. Qed.

Lemma server_label_lookup `{Quantities} zrp id d g k :
  ZK.NewServerDeploymentForCR zrp id = Ok d ->
  sp_Global (cr_Spec (zrp_cr zrp)) = Some g -> default_labels_ok g ->
  k ∈ ["name"; "component"; "clusterName"] ->
  template_labels d !! k = ZK.serverSelector zrp id !! k.
Proof.
  intros Hd Hg [Hc Hn] Hk.
  destruct (server_deployment_inv zrp id d Hd) as (g' & spec & Hg' & _ & _ & _ & Ht & _).
  rewrite Hg in Hg'. injection Hg' as <-. unfold template_labels. rewrite Ht. simpl.
  assert (is_Some (ZK.serverSelector zrp id !! k)) as [v Hv].
  { unfold ZK.serverSelector, GetZooKeeperSelectorLabels.
    case_elem Hk; simplify_map_eq; by eexists. }
  rewrite Hv. apply JoinMaps_main. simpl. rewrite <- Hv.
  unfold ZK.serverLabels, ZK.serverSelector, GetZooKeeperSelectorLabels.
  case_elem Hk; [by simplify_map_eq| |];
    rewrite !lookup_insert_ne by done; rewrite labels_lookup by done;
    unfold GetZooKeeperSelectorLabels; by simplify_map_eq.
Qed.

Lemma selector_dom `{Quantities} zrp id k :
  is_Some (ZK.serverSelector zrp id !! k) -> k ∈ ["name"; "component"; "clusterName"].
Proof.
  unfold ZK.serverSelector, GetZooKeeperSelectorLabels.
  rewrite !lookup_insert_is_Some', lookup_empty. set_unfold. intros. naive_solver.
Qed.

(** ** Properties *)

(** The deployment of every server is accepted by the API server's selector
    check: its selector matches the labels of its own pod template, whatever
    the custom labels, when the default labels leave [component] and
    [clusterName] alone. *)
Theorem server_selector_matches_template `{Quantities} zrp id d g :
  ZK.NewServerDeploymentForCR zrp id = Ok d ->
  sp_Global (cr_Spec (zrp_cr zrp)) = Some g -> default_labels_ok g ->
  selects (d_Selector d) (template_labels d).
Proof.
  intros Hd Hg Hok. unfold selects.
  destruct (server_deployment_inv zrp id d Hd) as (? & ? & _ & _ & _ & -> & _). simpl.
  apply map_subseteq_spec. intros k v Hv.
  by rewrite (server_label_lookup zrp id d g) by eauto using selector_dom.
Qed.

(** C24: Traffic isolation: the service of server [i] selects the pods of server
    [j] exactly when [i = j]; the client service and the domain service
    select the pods of every server. *)
Theorem services_select_servers `{Quantities} zrp i j s c dom d g :
  ZK.NewZooKeeperServerServiceForCR zrp i = Ok s ->
  ZK.NewZooKeeperClientServiceForCR zrp = Ok c ->
  ZK.NewZooKeeperDomainServiceForCR zrp = Ok dom ->
  ZK.NewServerDeploymentForCR zrp j = Ok d ->
  sp_Global (cr_Spec (zrp_cr zrp)) = Some g -> default_labels_ok g ->
  (selects (svc_Selector s) (template_labels d) <-> i = j) /\
  selects (svc_Selector c) (template_labels d) /\
  selects (svc_Selector dom) (template_labels d).
Proof.
  intros Hs Hc Hdom Hd Hg Hok.
  assert (forall k, k ∈ ["name"; "component"; "clusterName"] ->
    template_labels d !! k = ZK.serverSelector zrp j !! k) as Hl
    by (intros; by eapply server_label_lookup).
  assert (GetZooKeeperSelectorLabels (cr_Name (zrp_cr zrp)) ⊆ template_labels d) as Hbase.
  { apply map_subseteq_spec. intros k v Hv. rewrite Hl.
    - unfold ZK.serverSelector. destruct (decide (k = "name")) as [->|];
        [unfold GetZooKeeperSelectorLabels in Hv; by simplify_map_eq|by simplify_map_eq].
    - eapply (selector_dom zrp j). unfold ZK.serverSelector.
      destruct (decide (k = "name")) as [->|]; simplify_map_eq; by eexists. }
  unfold ZK.NewZooKeeperServerServiceForCR in Hs. unfold ZK.NewZooKeeperClientServiceForCR in Hc.
  unfold ZK.NewZooKeeperDomainServiceForCR in Hdom. cbv zeta in Hs, Hc, Hdom.
  inv_binds Hs. inv_binds Hc. inv_binds Hdom. unfold selects. simpl.
  split; [|by split]. split.
  - intros Hsub. apply serverName_inj with (cr_Name (zrp_cr zrp)).
    assert (template_labels d !! "name" = Some (serverName (cr_Name (zrp_cr zrp)) i)) as Hn.
    { eapply lookup_weaken, Hsub. apply lookup_insert_eq. }
    rewrite Hl in Hn by set_solver. unfold ZK.serverSelector in Hn. by simplify_map_eq.
  - intros ->. apply map_subseteq_spec. intros k v Hv.
    rewrite Hl; [done|]. eapply (selector_dom zrp j). by eexists.
Qed.

(** Every volume mount of a server's container names a volume of its pod, and
    every volume is mounted, in the same order. *)
Theorem server_mounts_match_volumes `{Quantities} zrp id d :
  ZK.NewServerDeploymentForCR zrp id = Ok d ->
  exists c, ps_Containers (d_PodSpec d) = [c] /\
    vm_Name <$> c_VolumeMounts c = vol_Name <$> ps_Volumes (d_PodSpec d).
Proof.
  intros Hd. destruct (server_deployment_inv zrp id d Hd)
    as (? & ? & _ & _ & _ & _ & _ & _ & envs & mounts & -> & _ & Hm).
  by eexists.
Qed.

(** C25: A server's data volume is the claim built for it: when a claim is built,
    the deployment mounts exactly that claim; when no storage is configured,
    no claim is built and the data volume is an empty directory. *)
Theorem server_data_volume_is_its_claim `{Quantities} zrp id d pvc spec :
  ZK.NewServerDeploymentForCR zrp id = Ok d ->
  ZK.NewZooKeeperPersistentVolumeClaimForCR zrp id = Ok pvc ->
  zrp_spec zrp = Some spec ->
  (forall p, pvc = Some p ->
     head (ps_Volumes (d_PodSpec d))
     = Some (mkVolume "data" (VPersistentVolumeClaim (m_Name (pvc_Meta p))))) /\
  (st_Volumes (zk_Storage spec) = [] -> st_Labels (zk_Storage spec) = [] ->
   st_ClassName (zk_Storage spec) = [] ->
     pvc = None /\ head (ps_Volumes (d_PodSpec d)) = Some (mkVolume "data" (VEmptyDir None))).
Proof.
  intros Hd Hp Hspec. destruct (server_deployment_inv zrp id d Hd)
    as (g & spec' & Hg & Hs' & _ & _ & _ & _ & envs & mounts & _ & -> & _).
  rewrite Hspec in Hs'. injection Hs' as <-.
  unfold ZK.NewZooKeeperPersistentVolumeClaimForCR in Hp. cbv zeta in Hp.
  rewrite Hspec in Hp. apply bind_Ok in Hp as (? & [= <-] & Hp).
  apply bind_Ok in Hp as (vn & Hvn & Hp). apply bind_Ok in Hp as (lb & Hlb & Hp).
  apply bind_Ok in Hp as (sc & Hsc & Hp). apply bind_Ok in Hp as (g' & Hg' & Hp).
  unfold ZK.dataVolumeSource. split.
  - intros p ->. apply nonshared_claim_meta in Hp as [-> Hne]. simpl.
    revert Hvn Hlb Hsc. destruct (st_Volumes _), (st_Labels _), (st_ClassName _); try done.
    intros <-%Ok_inj <-%Ok_inj <-%Ok_inj. by destruct Hne.
  - intros Hv Hl Hc. rewrite Hv in Hvn. rewrite Hl in Hlb. rewrite Hc in Hsc.
    rewrite Hv, Hl, Hc. apply Ok_inj in Hvn as <-, Hlb as <-, Hsc as <-.
    by apply Ok_inj in Hp as <-.
Qed.

(** C26: Bounds: with a global section, the deployment of server [id] is built
    exactly when no node list is given or the list has an entry for it; a
    shorter list makes the operator panic with an index out of range. *)
Theorem server_deployment_bounds `{Quantities} zrp id g spec q :
  sp_Global (cr_Spec (zrp_cr zrp)) = Some g -> zrp_spec zrp = Some spec ->
  ParseQuantity "32Mi" = Some q ->
  let nodes := st_Nodes (zk_Storage spec) in
  if decide (nodes = [] \/ 1 <= id <= Z.of_nat (length nodes))
  then exists d, ZK.NewServerDeploymentForCR zrp id = Ok d
  else ZK.NewServerDeploymentForCR zrp id = Panic IndexOutOfRange.
Proof.
  intros Hg Hspec Hq nodes.
  assert (exists se, ZK.getSecretEnvs zrp = Ok se) as [se Hse].
  { unfold ZK.getSecretEnvs. destruct (IsVaultSecretManagementEnabled _) eqn:Hv; [|by eexists].
    apply vault_enabled_inv in Hv as [v Hv]. unfold getVaultSecretEnvVarSource.
    rewrite Hv. by eexists. }
  assert (exists e v m, ZK.vaultEnv zrp = Ok (e, v, m)) as (ve & vv & vm & Hva).
  { unfold ZK.vaultEnv, getVaultConnectionEnvVars. destruct (IsVaultSecretManagementEnabled _) eqn:Hv; [|by repeat eexists].
    apply vault_enabled_inv in Hv as [v Hv]. rewrite Hv. by repeat eexists. }
  assert (exists ic, ZK.getInitContainers zrp = Ok ic) as [ic Hic].
  { unfold ZK.getInitContainers, getVaultInitContainer. destruct (IsVaultSecretManagementEnabled _) eqn:Hv; [|by eexists].
    apply vault_enabled_inv in Hv as [v Hv]. rewrite Hv. by eexists. }
  unfold ZK.NewServerDeploymentForCR, globalOf, getTmpVolume, MustParseQuantity. cbv zeta.
  rewrite Hg. simpl. unfold ZK.GetZooKeeperCustomLabels, globalOf. rewrite Hg, Hspec. simpl.
  rewrite Hse. simpl. rewrite Hq. simpl. rewrite Hva. simpl.
  destruct (ZK.podSecrets zrp spec) as [[? ?] ?], (ZK.diagnostics zrp spec) as [[? ?] ?],
    (ZK.sslCerts g spec) as [[? ?] ?]. simpl.
  rewrite Hic. simpl. unfold ZK.getZooKeeperAffinityRules. rewrite Hspec. simpl.
  fold nodes. destruct nodes as [|n ns] eqn:Hn.
  - rewrite decide_True by auto. by eexists.
  - case_decide as Hb.
    + destruct Hb as [|Hb]; [done|].
      destruct (index_in_range (n :: ns) (id - 1)) as [x Hx]; [lia|]. rewrite Hx. by eexists.
    + rewrite index_out_of_range; [done|]. intros ?. destruct Hb. right. lia.
Qed.

(** The services of one ensemble have pairwise distinct names: the client
    service, the domain service and one service per server. *)
Theorem service_names_distinct name n :
  NoDup (name :: (name +:+ "-server") :: (serverName name <$> upto 1 n)).
Proof.
  apply NoDup_cons. split; [|apply NoDup_cons; split].
  - intros [Hs|(i & Hi & _)%list_elem_of_fmap]%elem_of_cons.
    + rewrite <- (app_nil_r' name) in Hs at 1. by apply app_inj_l in Hs.
    + unfold serverName in Hi. rewrite <- (app_nil_r' name) in Hi at 1.
      by apply app_inj_l in Hi.
  - intros (i & Hi & Hin)%list_elem_of_fmap. unfold serverName in Hi.
    apply app_inj_l in Hi. apply upto_lookup in Hin.
    apply (app_inj_l "-" "server") in Hi. pose proof (Itoa_no_s i) as Hs. by rewrite <- Hi in Hs.
  - apply NoDup_fmap_2; [|apply NoDup_seqZ]. intros i j. apply serverName_inj.
Qed.
