(* ===== verification/MonitoringProvider.v ===== *)
(** * Resources of the monitoring component

    [src/operator/controllers/provider/monitoring_provider.go]: the client
    service and the deployment of the monitoring pod. *)

From S2P Require Import Prelude GoStrings Types Util Provider ZooKeeperProvider.

Record MonitoringResourceProvider : Set := mkMRP {
  mrp_cr : ZooKeeperService; mrp_spec : option Monitoring; mrp_serviceName : string }.

Definition NewMonitoringResourceProvider (cr : ZooKeeperService) : MonitoringResourceProvider :=
  mkMRP cr (sp_MonitoringSpec (cr_Spec cr)) (cr_Name cr +:+ "-monitoring").

Definition udp (name : string) (port : Z) : ServicePort := mkPort name port ProtocolUDP.

Module Mon.
Section provider.
Context `{Quantities} (mrp : MonitoringResourceProvider).
#[local] Abbreviation cr := (mrp_cr mrp).
#[local] Abbreviation serviceName := (mrp_serviceName mrp).

Definition GetServiceName : string := serviceName.
Definition GetServiceAccountName : string := GetServiceName.

Definition GetMonitoringSelectorLabels : gmap string string :=
  <["name" := serviceName]> (<["component" := "zookeeper-monitoring"]> ∅).

Definition GetMonitoringLabels : Res (gmap string string) :=
  g ← globalOf cr;
  mret (JoinMaps (Some (JoinMaps (Some (<["app.kubernetes.io/name" := serviceName]> ∅))
                          (Some GetMonitoringSelectorLabels)))
          (g_DefaultLabels g)).

Definition GetMonitoringCustomLabels (monitoringLabels : gmap string string)
  : Res (gmap string string) :=
  g ← globalOf cr;
  spec ← deref (mrp_spec mrp);
  mret (JoinMaps (Some (JoinMaps (g_CustomLabels g) (mon_CustomLabels spec)))
          (Some monitoringLabels)).

Definition NewMonitoringClientService : Res Service :=
  monitoringLabels ← GetMonitoringLabels;
  spec ← deref (mrp_spec mrp);
  let ports := [tcp "zookeeper-monitoring-statsd" 8125; tcp "zookeeper-monitoring-tcp" 8094;
                udp "zookeeper-monitoring-udp" 8092] in
  let ports := if bool_decide (mon_MonitoringType spec = "prometheus")
               then ports ++ [tcp "prometheus-cli" 8096] else ports in
  mret (newServiceForCR serviceName (cr_Namespace cr) monitoringLabels
          GetMonitoringSelectorLabels ports).

Definition getMonitoringVolumes : Res (list Volume) :=
  tmp ← getTmpVolume "8Mi";
  mret [mkVolume "config" (VConfigMap (serviceName +:+ "-configuration")
          [mkKeyToPath "config" "telegraf.conf"]); tmp].

Definition getMonitoringVolumeMounts : list VolumeMount :=
  [mkMount "config" "/etc/telegraf" false; getTmpVolumeMount].

Definition getMonitoringEnvironmentVariables : Res (list EnvVar) :=
  spec ← deref (mrp_spec mrp);
  g ← globalOf cr;
  let environmentVariables :=
    [envField "OS_PROJECT" "metadata.namespace";
     env "ZOOKEEPER_HOST" (mon_ZooKeeperHost spec);
     env "ZOOKEEPER_ENABLE_SSL" (FormatBool (ssls_Enabled (g_ZooKeeperSsl g)))] in
  mret (match sp_BackupDaemon (cr_Spec cr) with
        | None => environmentVariables
        | Some bd =>
            let s3Enabled := match bd_S3 bd with Some s => s3_Enabled s | None => false end in
            environmentVariables ++
              [env "ZOOKEEPER_BACKUP_DAEMON_HOST" (mon_ZooKeeperBackupDaemonHost spec);
               env "S3_ENABLED" (FormatBool s3Enabled)]
        end).

Definition getCommand : list string :=
  if IsVaultSecretManagementEnabled cr then ["/vault/vault-env"] else [].

Definition getArgs : list string :=
  if IsVaultSecretManagementEnabled cr then ["/docker-entrypoint.sh"] else [].

Definition getInitContainers : Res (list Container) :=
  if IsVaultSecretManagementEnabled cr
  then c ← getVaultInitContainer cr; mret [c] else mret [].

Definition getZooKeeperCredentialsEnvs : Res (list EnvVar) :=
  if IsVaultSecretManagementEnabled cr then
    clientUser ← getVaultSecretEnvVarSource (cr_Name cr) cr "client-credentials" "username";
    clientPassword ← getVaultSecretEnvVarSource (cr_Name cr) cr "client-credentials" "password";
    mret [env "ZOOKEEPER_CLIENT_USERNAME" clientUser;
          env "ZOOKEEPER_CLIENT_PASSWORD" clientPassword]
  else mret [].

Definition getProbe : Probe := mkProbe None 30 5 10 1 5.
Definition getLivenessProbe : Probe := mkProbe (Some (TCPSocketAction 8096)) 30 5 10 1 5.
Definition getReadinessProbe : Probe := getLivenessProbe.

(** The sources of the projected volume. *)
Definition projectedSources (spec : Monitoring) : list ProjectedSecretSource :=
  (if bool_decide (mon_SecretName spec = "") then []
   else [mkProjectedSource (mon_SecretName spec)
           [SecretKeyToPath "zookeeper-client-username" "ZOOKEEPER_CLIENT_USERNAME";
            SecretKeyToPath "zookeeper-client-password" "ZOOKEEPER_CLIENT_PASSWORD"]]) ++
  match sp_BackupDaemon (cr_Spec cr) with
  | None => []
  | Some bd =>
      if bool_decide (bd_SecretName bd = "") then []
      else [mkProjectedSource (bd_SecretName bd)
              [SecretKeyToPath "username" "ZOOKEEPER_BACKUP_DAEMON_USERNAME";
               SecretKeyToPath "password" "ZOOKEEPER_BACKUP_DAEMON_PASSWORD"]]
  end.

Definition podSecrets (spec : Monitoring) : ZK.Additions :=
  if IsVaultSecretManagementEnabled cr then ZK.nothing
  else
    let podSecretsMount := GetPodSecretsMountPath "monitoring" in
    let envs := [env "MONITORING_SECRETS_DIR" podSecretsMount] in
    match projectedSources spec with
    | [] => (envs, [], [])
    | sources =>
        (envs, [NewPodSecretsProjectedVolume "monitoring-pod-secrets" sources],
         [NewPodSecretsVolumeMount "monitoring-pod-secrets" podSecretsMount])
    end.

Definition vaultEnv : Res ZK.Additions :=
  if IsVaultSecretManagementEnabled cr then
    envs ← getVaultConnectionEnvVars GetServiceName cr;
    mret (envs, [mkVolume "vault-env" (VEmptyDir None)], [mkMount "vault-env" "/vault" false])
  else mret ZK.nothing.

Definition sslCerts (g : Global) : ZK.Additions :=
  let s := g_ZooKeeperSsl g in
  if ssls_Enabled s && negb (bool_decide (ssls_SecretName s = "")) then
    ([], [mkVolume "ssl-certs" (VSecret (ssls_SecretName s))], [mkMount "ssl-certs" "/tls" false])
  else ZK.nothing.

Definition backupTls : ZK.Additions :=
  match sp_BackupDaemon (cr_Spec cr) with
  | None => ZK.nothing
  | Some bd =>
      if ssls_Enabled (bd_BackupDaemonSsl bd) then
        ([env "BACKUP_DAEMON_TLS_ENABLED" "true"],
         [mkVolume "backup-daemon-tls-certs" (VSecret (ssls_SecretName (bd_BackupDaemonSsl bd)))],
         [mkMount "backup-daemon-tls-certs" "/tls/backup" false])
      else ZK.nothing
  end.

Definition containerPorts (spec : Monitoring) : list ContainerPort :=
  [tcpPort 8125; tcpPort 8094; mkContainerPort "" 8092 ProtocolUDP] ++
  if bool_decide (mon_MonitoringType spec = "prometheus")
  then [mkContainerPort "prometheus-cli" 8096 ProtocolTCP] else [].

Definition NewMonitoringDeployment : Res Deployment :=
  labels ← GetMonitoringLabels;
  let monitoringLabels :=
    <["app.kubernetes.io/instance" := serviceName +:+ "-" +:+ cr_Namespace cr]>
      (<["app.kubernetes.io/technology" := "python"]> labels) in
  monitoringCustomLabels ← GetMonitoringCustomLabels monitoringLabels;
  volumes ← getMonitoringVolumes;
  envVars ← getMonitoringEnvironmentVariables;
  credentials ← getZooKeeperCredentialsEnvs;
  spec ← deref (mrp_spec mrp);
  vault ← vaultEnv;
  g ← globalOf cr;
  let base : ZK.Additions := (envVars ++ credentials, volumes, getMonitoringVolumeMounts) in
  let '(envVars, volumes, volumeMounts) :=
    ZK.extend (ZK.extend (ZK.extend (ZK.extend base (podSecrets spec)) vault) (sslCerts g))
      backupTls in
  initContainers ← getInitContainers;
  mret (mkDeployment
    (newMeta serviceName (cr_Namespace cr) (Some monitoringLabels))
    RecreateStrategy (Some 1) (Some GetMonitoringSelectorLabels)
    (newMeta "" "" (Some monitoringCustomLabels))
    (mkPodSpec volumes initContainers
       [mkContainer serviceName (mon_DockerImage spec) getCommand getArgs (containerPorts spec)
          envVars (mon_Resources spec) volumeMounts (Some getLivenessProbe)
          (Some getReadinessProbe) PullAlways (Some getDefaultContainerSecurityContext)]
       (mon_SecurityContext spec) serviceName GetServiceAccountName ""
       (Some (mon_Affinity spec)) (mon_Tolerations spec) (mon_PriorityClassName spec))
    0 0).
End provider.
End Mon.

(** ** Lemmas *)

(** What a deployment that was built holds. *)
Lemma monitoring_deployment_inv `{Quantities} mrp d :
  Mon.NewMonitoringDeployment mrp = Ok d ->
  exists labels custom spec c,
    Mon.GetMonitoringLabels mrp = Ok labels /\ mrp_spec mrp = Some spec /\
    m_Name (d_Meta d) = mrp_serviceName mrp /\
    d_Selector d = Some (Mon.GetMonitoringSelectorLabels mrp) /\
    d_TemplateMeta d = newMeta "" "" (Some (JoinMaps custom (Some
      (<["app.kubernetes.io/instance" := mrp_serviceName mrp +:+ "-" +:+ cr_Namespace (mrp_cr mrp)]>
         (<["app.kubernetes.io/technology" := "python"]> labels))))) /\
    ps_Containers (d_PodSpec d) = [c] /\
    vm_Name <$> c_VolumeMounts c = vol_Name <$> ps_Volumes (d_PodSpec d).
Proof.
  intros Hd. unfold Mon.NewMonitoringDeployment in Hd. cbv zeta in Hd.
  apply bind_Ok in Hd as (labels & Hl & Hd). apply bind_Ok in Hd as (cl & Hcl & Hd).
  apply bind_Ok in Hd as (vols & Hvols & Hd). apply bind_Ok in Hd as (evs & Hevs & Hd).
  apply bind_Ok in Hd as (cred & Hcred & Hd). apply bind_Ok in Hd as (spec & Hspec & Hd).
  apply bind_Ok in Hd as (va & Hva & Hd). apply bind_Ok in Hd as (g & Hg & Hd).
  apply deref_Ok in Hspec. unfold Mon.GetMonitoringCustomLabels in Hcl.
  rewrite Hg, Hspec in Hcl. apply Ok_inj in Hcl as <-.
  unfold Mon.getMonitoringVolumes, getTmpVolume in Hvols. inv_binds Hvols. inv_binds Ha.
  assert (exists ve vv vm, va = (ve, vv, vm) /\ vm_Name <$> vm = vol_Name <$> vv)
    as (ve & vv & vm & -> & Hvm).
  { unfold Mon.vaultEnv in Hva. destruct (IsVaultSecretManagementEnabled _); inv_binds Hva;
      by repeat eexists. }
  unfold ZK.extend, Mon.podSecrets, Mon.sslCerts, Mon.backupTls, ZK.nothing in Hd.
  exists labels. eexists _, spec.
  destruct (IsVaultSecretManagementEnabled _) in Hd;
    [|destruct (Mon.projectedSources mrp spec) in Hd];
    destruct (ssls_Enabled (g_ZooKeeperSsl g) && _) in Hd;
    (destruct (sp_BackupDaemon (cr_Spec (mrp_cr mrp))) as [bd|] eqn:Hbd in Hd;
      [destruct (ssls_Enabled (bd_BackupDaemonSsl bd)) in Hd|]);
    cbv iota beta zeta in Hd; inv_binds Hd; eexists; split_and!; try done; simpl;
    rewrite ?fmap_cons, ?fmap_app, ?fmap_cons, ?Hvm; done.
Qed.

(** The default labels leave the labels of the selector alone. *)
Definition aux_labels_ok (g : Global) : Prop :=
  gm (g_DefaultLabels g) !! "name" = None /\ gm (g_DefaultLabels g) !! "component" = None.

(** Joined labels keep the pairs of a selector that the later maps do not
    mention: shared by the monitoring and the backup daemon components. *)
Lemma aux_selector_matches (selector base : gmap string string) (dl custom : gomap string)
    (f : gmap string string -> gmap string string) :
  (forall k, is_Some (selector !! k) -> gm dl !! k = None) ->
  (forall m k, is_Some (selector !! k) -> f m !! k = m !! k) ->
  selector ⊆ JoinMaps custom
    (Some (f (JoinMaps (Some (JoinMaps (Some base) (Some selector))) dl))).
Proof.
  intros Hdl Hf. apply map_subseteq_spec. intros k v Hv.
  assert (is_Some (selector !! k)) as Hs by by eexists.
  apply JoinMaps_main. simpl. rewrite Hf by done. rewrite JoinMaps_side by auto. simpl.
  by apply JoinMaps_main.
Qed.

(** ** Properties *)

(** C27: Monitoring: the deployment's selector and the client service's selector
    match the labels of the pod template, whatever the custom labels, when the
    default labels do not override [name] or [component]; the pod's mounts
    are exactly its volumes. *)
Theorem monitoring_deployment_consistent `{Quantities} mrp d svc g :
  Mon.NewMonitoringDeployment mrp = Ok d ->
  Mon.NewMonitoringClientService mrp = Ok svc ->
  sp_Global (cr_Spec (mrp_cr mrp)) = Some g -> aux_labels_ok g ->
  selects (d_Selector d) (template_labels d) /\
  selects (svc_Selector svc) (template_labels d) /\
  m_Name (d_Meta d) = m_Name (svc_Meta svc) /\
  exists c, ps_Containers (d_PodSpec d) = [c] /\
    vm_Name <$> c_VolumeMounts c = vol_Name <$> ps_Volumes (d_PodSpec d).
Proof.
  intros Hd Hs Hg [Hn Hc].
  destruct (monitoring_deployment_inv mrp d Hd)
    as (labels & custom & spec & c & Hl & _ & Hname & Hsel & Ht & Hcont & Hm).
  assert (gm (Some (Mon.GetMonitoringSelectorLabels mrp)) ⊆ template_labels d) as Hsub.
  { unfold template_labels. rewrite Ht. unfold Mon.GetMonitoringLabels, globalOf in Hl.
    rewrite Hg in Hl. apply Ok_inj in Hl as <-. simpl.
    apply (aux_selector_matches _ _ _ _ (fun m => <["app.kubernetes.io/instance" := _]>
             (<["app.kubernetes.io/technology" := "python"]> m)));
      unfold Mon.GetMonitoringSelectorLabels;
      intros; rewrite ?lookup_insert_is_Some', ?lookup_empty in *;
      [naive_solver|rewrite !lookup_insert_ne; [done|naive_solver..]]. }
  unfold Mon.NewMonitoringClientService in Hs. inv_binds Hs.
  unfold selects. rewrite Hsel, Hname. split_and!; try done. eauto.
Qed.
