(* ===== verification/BackupDaemonProvider.v ===== *)
(** * Resources of the backup daemon

    [src/operator/controllers/provider/backupdaemon_provider.go]: the client
    service and the deployment of the backup daemon. *)

From S2P Require Import Prelude GoStrings Types Util Provider ZooKeeperProvider MonitoringProvider.

Record BackupDaemonResourceProvider : Set := mkBRP {
  brp_cr : ZooKeeperService; brp_spec : option BackupDaemon; brp_serviceName : string }.

Definition NewBackupDaemonResourceProvider (cr : ZooKeeperService) : BackupDaemonResourceProvider :=
  mkBRP cr (sp_BackupDaemon (cr_Spec cr)) (cr_Name cr +:+ "-backup-daemon").

Module Backup.
Section provider.
Context `{Quantities} (bdrp : BackupDaemonResourceProvider).
#[local] Abbreviation cr := (brp_cr bdrp).
#[local] Abbreviation serviceName := (brp_serviceName bdrp).

Definition GetServiceName : string := serviceName.
Definition GetServiceAccountName : string := GetServiceName.

Definition getBackupDaemonPort (spec : BackupDaemon) : Z :=
  if ssls_Enabled (bd_BackupDaemonSsl spec) then 8443 else 8080.

Definition getS3AliasesSecretName : string := cr_Name cr +:+ "-backup-daemon-s3-aliases".

Definition GetBackupDaemonSelectorLabels : gmap string string :=
  <["name" := serviceName]> (<["component" := "zookeeper-backup-daemon"]> ∅).

Definition GetBackupDaemonLabels : Res (gmap string string) :=
  g ← globalOf cr;
  mret (JoinMaps (Some (JoinMaps (Some (<["app.kubernetes.io/name" := serviceName]> ∅))
                          (Some GetBackupDaemonSelectorLabels)))
          (g_DefaultLabels g)).

Definition GetBackupDaemonCustomLabels (backupDaemonLabels : gmap string string)
  : Res (gmap string string) :=
  g ← globalOf cr;
  spec ← deref (brp_spec bdrp);
  mret (JoinMaps (Some (JoinMaps (g_CustomLabels g) (bd_CustomLabels spec)))
          (Some backupDaemonLabels)).

Definition NewBackupDaemonClientService : Res Service :=
  labels ← GetBackupDaemonLabels;
  let backupDaemonLabels := <["cloud-backuper.netcracker.com/use-backup-daemon" := "true"]> labels in
  spec ← deref (brp_spec bdrp);
  mret (newServiceForCR serviceName (cr_Namespace cr) backupDaemonLabels
          GetBackupDaemonSelectorLabels [tcp "http" (getBackupDaemonPort spec)]).

Definition getBackupDaemonVolumes (spec : BackupDaemon) : Res (list Volume) :=
  let s := bd_BackupStorage spec in
  let volumeSource :=
    if bool_decide (ss_PersistentVolumeType s = "") then VEmptyDir None
    else
      let claim := ss_PersistentVolumeClaimName s in
      VPersistentVolumeClaim
        (if bool_decide (claim = "") then SnapshotsPersistentVolumeClaim (cr_Name cr) else claim) in
  tmp ← getTmpVolume "50Mi";
  varLog ← getVarLogVolume;
  mret [mkVolume "backup-storage" volumeSource; tmp; varLog].

Definition getBackupDaemonVolumeMounts : list VolumeMount :=
  [mkMount "backup-storage" "/opt/zookeeper/backup-storage" false;
   getTmpVolumeMount; getVarLogVolumeMount].

(** [getProbe] with the handler of [getHTTPProbe] set. *)
Definition getHTTPProbe (spec : BackupDaemon) (path : string) : Probe :=
  let scheme := if ssls_Enabled (bd_BackupDaemonSsl spec)
                then URISchemeHTTPS else URISchemeHTTP in
  mkProbe (Some (HTTPGetAction path (getBackupDaemonPort spec) scheme)) 30 5 5 1 3.
Definition getLivenessProbe (spec : BackupDaemon) : Probe := getHTTPProbe spec "/health/live".
Definition getReadinessProbe (spec : BackupDaemon) : Probe := getHTTPProbe spec "/health/ready".

Definition getBackupDaemonAffinityRules (spec : BackupDaemon) : Affinity :=
  let affinityRules := bd_Affinity spec in
  let node := ss_NodeName (bd_BackupStorage spec) in
  if bool_decide (node = "") then affinityRules
  else mkAffinity
         (Some (mkNodeAffinity (Some [[mkNodeReq "kubernetes.io/hostname" "In" [node]]]) ""))
         (af_PodAffinity affinityRules) (af_PodAntiAffinity affinityRules).

Definition getCommand : list string :=
  if IsVaultSecretManagementEnabled cr then ["/vault/vault-env"] else [].

Definition getArgs : list string :=
  if IsVaultSecretManagementEnabled cr then ["python3"; "/opt/backup/backup-daemon.py"] else [].

Definition getInitContainers : Res (list Container) :=
  if IsVaultSecretManagementEnabled cr
  then c ← getVaultInitContainer cr; mret [c] else mret [].

Definition getZooKeeperCredentialsEnvs : Res (list EnvVar) :=
  if IsVaultSecretManagementEnabled cr then
    user ← getVaultSecretEnvVarSource serviceName cr "credentials" "username";
    password ← getVaultSecretEnvVarSource serviceName cr "credentials" "password";
    adminUser ← getVaultSecretEnvVarSource (cr_Name cr) cr "admin-credentials" "username";
    adminPassword ← getVaultSecretEnvVarSource (cr_Name cr) cr "admin-credentials" "password";
    mret [env "BACKUP_DAEMON_API_CREDENTIALS_USERNAME" user;
          env "BACKUP_DAEMON_API_CREDENTIALS_PASSWORD" password;
          env "ZOOKEEPER_ADMIN_USERNAME" adminUser;
          env "ZOOKEEPER_ADMIN_PASSWORD" adminPassword]
  else mret [].

Definition baseEnvVars (spec : BackupDaemon) (g : Global) : list EnvVar :=
  [env "SERVICE_NAME" serviceName;
   env "ZOOKEEPER_HOST" (bd_ZooKeeperHost spec);
   env "ZOOKEEPER_PORT" (Itoa (bd_ZooKeeperPort spec));
   env "PV_TYPE" (ss_PersistentVolumeType (bd_BackupStorage spec));
   envField "NAMESPACE" "metadata.namespace";
   env "ZOOKEEPER_ENABLE_SSL" (FormatBool (ssls_Enabled (g_ZooKeeperSsl g)));
   env "PYTHONDONTWRITEBYTECODE" "1"] ++
  (if bool_decide (bd_BackupSchedule spec = "") then []
   else [env "BACKUP_SCHEDULE" (bd_BackupSchedule spec)]) ++
  (if bool_decide (bd_EvictionPolicy spec = "") then []
   else [env "EVICTION_POLICY" (bd_EvictionPolicy spec)]) ++
  (if bd_IPv6 spec then [env "BROADCAST_ADDRESS" "::"] else []).

(** The S3 section, when there is one and it is enabled. *)
Definition enabledS3 (spec : BackupDaemon) : option S3 :=
  match bd_S3 spec with
  | Some s => if s3_Enabled s then Some s else None
  | None => None
  end.

Definition s3Envs (spec : BackupDaemon) : list EnvVar :=
  match enabledS3 spec with
  | Some s => [env "S3_ENABLED" (FormatBool (s3_Enabled s)); env "S3_URL" (s3_Url s);
               env "S3_BUCKET" (s3_Bucket s); env "S3_SSL_VERIFY" (FormatBool (s3_SslVerify s))]
  | None => []
  end.

Definition projectedSources (spec : BackupDaemon) : list ProjectedSecretSource :=
  (if bool_decide (bd_SecretName spec = "") then []
   else [mkProjectedSource (bd_SecretName spec)
           [SecretKeyToPath "username" "BACKUP_DAEMON_API_CREDENTIALS_USERNAME";
            SecretKeyToPath "password" "BACKUP_DAEMON_API_CREDENTIALS_PASSWORD";
            SecretKeyToPath "zookeeper-admin-username" "ZOOKEEPER_ADMIN_USERNAME";
            SecretKeyToPath "zookeeper-admin-password" "ZOOKEEPER_ADMIN_PASSWORD"]]) ++
  match enabledS3 spec with
  | Some s => if bool_decide (s3_SecretName s = "") then []
              else [mkProjectedSource (s3_SecretName s)
                      [SecretKeyToPath "s3-key-id" "S3_KEY_ID";
                       SecretKeyToPath "s3-key-secret" "S3_KEY_SECRET"]]
  | None => []
  end.

Definition podSecrets (spec : BackupDaemon) : ZK.Additions :=
  if IsVaultSecretManagementEnabled cr then ZK.nothing
  else
    let podSecretsMount := GetPodSecretsMountPath "backup-daemon" in
    let envs := [env "BACKUP_DAEMON_SECRETS_DIR" podSecretsMount] in
    match projectedSources spec with
    | [] => (envs, [], [])
    | sources =>
        (envs, [NewPodSecretsProjectedVolume "backup-daemon-pod-secrets" sources],
         [NewPodSecretsVolumeMount "backup-daemon-pod-secrets" podSecretsMount])
    end.

Definition vaultEnv : Res ZK.Additions :=
  if IsVaultSecretManagementEnabled cr then
    envs ← getVaultConnectionEnvVars GetServiceName cr;
    mret (envs, [mkVolume "vault-env" (VEmptyDir None)], [mkMount "vault-env" "/vault" false])
  else mret ZK.nothing.

Definition sslCerts (g : Global) : ZK.Additions :=
  let s := g_ZooKeeperSsl g in
  if ssls_Enabled s && negb (bool_decide (ssls_SecretName s = "")) then
    ([], [mkVolume "ssl-certs" (VSecret (ssls_SecretName s))], [mkMount "ssl-certs" "/tls" false])
  else ZK.nothing.

Definition backupTls (spec : BackupDaemon) : ZK.Additions :=
  let s := bd_BackupDaemonSsl spec in
  if ssls_Enabled s && negb (bool_decide (ssls_SecretName s = "")) then
    ([env "TLS_ENABLED" "true"; env "CERTS_PATH" "/backupTLS"],
     [mkVolume "backup-ssl-certs" (VSecret (ssls_SecretName s))],
     [mkMount "backup-ssl-certs" "/backupTLS" false])
  else ZK.nothing.

Definition s3Certs (spec : BackupDaemon) : ZK.Additions :=
  match enabledS3 spec with
  | Some s =>
      if s3_SslVerify s && negb (bool_decide (s3_SslCert s = "")) then
        ([env "S3_CERTS_PATH" "/s3Certs"],
         [mkVolume "s3-ssl-certs" (VSecret (s3_SslSecretName s))],
         [mkMount "s3-ssl-certs" "/s3Certs" false])
      else ZK.nothing
  | None => ZK.nothing
  end.

Definition s3Aliases (s3AliasesEnabled : bool) : ZK.Additions :=
  if s3AliasesEnabled then
    ([env "S3_ALIASES_USED" "true"],
     [mkVolume getS3AliasesSecretName (VSecret getS3AliasesSecretName)],
     [mkMount getS3AliasesSecretName "/aliases/" true])
  else ([env "S3_ALIASES_USED" "false"], [], []).

Definition NewBackupDaemonDeployment (s3AliasesEnabled : bool) : Res Deployment :=
  labels ← GetBackupDaemonLabels;
  let backupDaemonLabels :=
    <["app.kubernetes.io/technology" := "python"]>
      (<["app.kubernetes.io/instance" := serviceName +:+ "-" +:+ cr_Namespace cr]> labels) in
  backupDaemonCustomLabels ← GetBackupDaemonCustomLabels backupDaemonLabels;
  spec ← deref (brp_spec bdrp);
  volumes ← getBackupDaemonVolumes spec;
  g ← globalOf cr;
  credentials ← getZooKeeperCredentialsEnvs;
  vault ← vaultEnv;
  daemon ← deref (sp_BackupDaemon (cr_Spec cr));
  let base : ZK.Additions :=
    (baseEnvVars spec g ++ s3Envs spec ++ credentials, volumes, getBackupDaemonVolumeMounts) in
  let '(envVars, volumes, volumeMounts) :=
    ZK.extend (ZK.extend (ZK.extend (ZK.extend (ZK.extend (ZK.extend base
      (podSecrets spec)) vault) (sslCerts g)) (backupTls daemon)) (s3Certs spec))
      (s3Aliases s3AliasesEnabled) in
  initContainers ← getInitContainers;
  mret (mkDeployment
    (newMeta serviceName (cr_Namespace cr) (Some backupDaemonLabels))
    RecreateStrategy (Some 1) (Some GetBackupDaemonSelectorLabels)
    (newMeta "" "" (Some backupDaemonCustomLabels))
    (mkPodSpec volumes initContainers
       [mkContainer serviceName (bd_DockerImage spec) getCommand getArgs
          [tcpPort (getBackupDaemonPort spec)]
          envVars (bd_Resources spec) volumeMounts (Some (getLivenessProbe spec))
          (Some (getReadinessProbe spec)) PullAlways (Some getDefaultContainerSecurityContext)]
       (bd_SecurityContext spec) serviceName GetServiceAccountName ""
       (Some (getBackupDaemonAffinityRules spec)) (bd_Tolerations spec) (bd_PriorityClassName spec))
    0 0).
End provider.
End Backup.

(** ** Lemmas *)

(** Optional blocks that mount exactly the volumes they add, and a list built
    from such blocks. *)
Definition mounts_match (a : ZK.Additions) : Prop :=
  let '(_, v, m) := a in vm_Name <$> m = vol_Name <$> v.

Lemma mounts_match_extend a b : mounts_match a -> mounts_match b -> mounts_match (ZK.extend a b).
Proof.
  destruct a as [[? ?] ?], b as [[? ?] ?]. unfold mounts_match, ZK.extend.
  intros Ha Hb. by rewrite !fmap_app, Ha, Hb.
Qed.

(** Closes the goal that a block's mounts match its volumes. *)
Ltac solve_mounts := unfold mounts_match, ZK.nothing; repeat case_match; simplify_eq; done.

Lemma backup_blocks_match `{Quantities} bdrp spec g va b :
  Backup.vaultEnv bdrp = Ok va ->
  mounts_match (Backup.podSecrets bdrp spec) /\ mounts_match va /\
  mounts_match (Backup.sslCerts g) /\ mounts_match (Backup.backupTls spec) /\
  mounts_match (Backup.s3Certs spec) /\ mounts_match (Backup.s3Aliases bdrp b).
Proof.
  intros Hva. split_and!.
  - unfold Backup.podSecrets. solve_mounts.
  - unfold Backup.vaultEnv in Hva. destruct (IsVaultSecretManagementEnabled _); inv_binds Hva; done.
  - unfold Backup.sslCerts. solve_mounts.
  - unfold Backup.backupTls. solve_mounts.
  - unfold Backup.s3Certs. solve_mounts.
  - unfold Backup.s3Aliases. solve_mounts.
Qed.

Lemma backup_deployment_inv `{Quantities} bdrp b d :
  Backup.NewBackupDaemonDeployment bdrp b = Ok d ->
  exists labels custom spec c,
    Backup.GetBackupDaemonLabels bdrp = Ok labels /\ brp_spec bdrp = Some spec /\
    m_Name (d_Meta d) = brp_serviceName bdrp /\
    d_Selector d = Some (Backup.GetBackupDaemonSelectorLabels bdrp) /\
    d_TemplateMeta d = newMeta "" "" (Some (JoinMaps custom (Some
      (<["app.kubernetes.io/technology" := "python"]>
         (<["app.kubernetes.io/instance" :=
              brp_serviceName bdrp +:+ "-" +:+ cr_Namespace (brp_cr bdrp)]> labels))))) /\
    ps_Containers (d_PodSpec d) = [c] /\
    c_Ports c = [tcpPort (Backup.getBackupDaemonPort spec)] /\
    c_LivenessProbe c = Some (Backup.getLivenessProbe spec) /\
    c_ReadinessProbe c = Some (Backup.getReadinessProbe spec) /\
    vm_Name <$> c_VolumeMounts c = vol_Name <$> ps_Volumes (d_PodSpec d).
Proof.
  intros Hd. unfold Backup.NewBackupDaemonDeployment in Hd. cbv zeta in Hd.
  apply bind_Ok in Hd as (labels & Hl & Hd). apply bind_Ok in Hd as (cl & Hcl & Hd).
  apply bind_Ok in Hd as (spec & Hspec & Hd). apply bind_Ok in Hd as (vols & Hvols & Hd).
  apply bind_Ok in Hd as (g & Hg & Hd). apply bind_Ok in Hd as (cred & Hcred & Hd).
  apply bind_Ok in Hd as (va & Hva & Hd). apply bind_Ok in Hd as (bd & Hbd & Hd).
  apply deref_Ok in Hspec. unfold Backup.GetBackupDaemonCustomLabels in Hcl.
  rewrite Hg, Hspec in Hcl. apply Ok_inj in Hcl as <-.
  destruct (backup_blocks_match bdrp spec g va b Hva) as (H1 & H2 & H3 & _ & H5 & H6).
  destruct (backup_blocks_match bdrp bd g va b Hva) as (_ & _ & _ & H4 & _).
  assert (mounts_match (ZK.extend (ZK.extend (ZK.extend (ZK.extend (ZK.extend (ZK.extend
    (Backup.baseEnvVars bdrp spec g ++ Backup.s3Envs spec ++ cred, vols,
     Backup.getBackupDaemonVolumeMounts)
      (Backup.podSecrets bdrp spec)) va) (Backup.sslCerts g)) (Backup.backupTls bd))
      (Backup.s3Certs spec)) (Backup.s3Aliases bdrp b))) as Hm.
  { repeat apply mounts_match_extend; try done.
    unfold Backup.getBackupDaemonVolumes, getTmpVolume, getVarLogVolume in Hvols.
    cbv zeta in Hvols. inv_binds Hvols. inv_binds Ha. inv_binds Ha0. done. }
  destruct (ZK.extend _ (Backup.s3Aliases bdrp b)) as [[envs vs] ms].
  inv_binds Hd. exists labels. eexists _, spec, _. split_and!; try done.
Qed.

(** ** Properties *)

(** C28: Backup daemon: the deployment's selector and the client service's selector
    match the labels of the pod template when the default labels do not
    override [name] or [component]; the service, the container and both
    probes use one port; the pod's mounts are exactly its volumes. *)
Theorem backup_deployment_consistent `{Quantities} bdrp b d svc g :
  Backup.NewBackupDaemonDeployment bdrp b = Ok d ->
  Backup.NewBackupDaemonClientService bdrp = Ok svc ->
  sp_Global (cr_Spec (brp_cr bdrp)) = Some g -> aux_labels_ok g ->
  selects (d_Selector d) (template_labels d) /\
  selects (svc_Selector svc) (template_labels d) /\
  m_Name (d_Meta d) = m_Name (svc_Meta svc) /\
  exists c port scheme live ready, ps_Containers (d_PodSpec d) = [c] /\
    vm_Name <$> c_VolumeMounts c = vol_Name <$> ps_Volumes (d_PodSpec d) /\
    cp_ContainerPort <$> c_Ports c = [port] /\ sp_Port <$> svc_Ports svc = [port] /\
    (pb_Handler <$> c_LivenessProbe c) = Some (Some (HTTPGetAction live port scheme)) /\
    (pb_Handler <$> c_ReadinessProbe c) = Some (Some (HTTPGetAction ready port scheme)).
Proof.
  intros Hd Hs Hg [Hn Hc].
  destruct (backup_deployment_inv bdrp b d Hd) as (labels & custom & spec & c & Hl & Hspec &
    Hname & Hsel & Ht & Hcont & Hports & Hlive & Hready & Hm).
  assert (gm (Some (Backup.GetBackupDaemonSelectorLabels bdrp)) ⊆ template_labels d) as Hsub.
  { unfold template_labels. rewrite Ht. unfold Backup.GetBackupDaemonLabels, globalOf in Hl.
    rewrite Hg in Hl. apply Ok_inj in Hl as <-. simpl.
    apply (aux_selector_matches _ _ _ _ (fun m => <["app.kubernetes.io/technology" := "python"]>
             (<["app.kubernetes.io/instance" := _]> m)));
      unfold Backup.GetBackupDaemonSelectorLabels;
      intros; rewrite ?lookup_insert_is_Some', ?lookup_empty in *;
      [naive_solver|rewrite !lookup_insert_ne; [done|naive_solver..]]. }
  unfold Backup.NewBackupDaemonClientService in Hs. rewrite Hspec in Hs. inv_binds Hs.
  apply Ok_inj in Ha0 as <-.
  unfold selects. rewrite Hsel, Hname. split_and!; try done.
  exists c. rewrite Hports, Hlive, Hready. by repeat eexists.
Qed.

(** TLS of the backup daemon with no secret named: the service and the probes
    use HTTPS on port 8443 while the container is not told to enable TLS. *)
Lemma backup_tls_without_secret spec :
  ssls_Enabled (bd_BackupDaemonSsl spec) = true ->
  ssls_SecretName (bd_BackupDaemonSsl spec) = "" ->
  pb_Handler (Backup.getReadinessProbe spec)
  = Some (HTTPGetAction "/health/ready" 8443 URISchemeHTTPS) /\
  Backup.backupTls spec = ZK.nothing.
Proof.
  intros He Hs. unfold Backup.getReadinessProbe, Backup.getHTTPProbe, Backup.getBackupDaemonPort,
    Backup.backupTls. rewrite He, Hs. done.
Qed.
