(* ===== verification/Platform.v ===== *)
(** * What the operator runs on, and the monad it is written in

    The controller-runtime client, the polling and retry helpers of client-go,
    the Vault client, the password generator and the JSON encoder are not part
    of the repository.  They are parameters here: the operations of the
    classes [KubeClient], [WaitLib], [VaultApi], [Passwords] and [Encoders]
    over an abstract world [W].  [WaitLaws] states the documented behaviour of
    the two control-flow helpers, polling and retrying, that the operator
    relies on.

    The operator's own state is the record [St]: the reconciler's two caches
    ([ResourceHashes], [ResourceVersions]), the package variables
    [globalSpecHash] and [vaultClient], the custom resource that all
    reconcilers share through one pointer, and a ghost trace of the calls made.
    [M W] is state passing over it with Go's results; the state reached
    survives an error or a panic. *)

From S2P Require Import Prelude GoStrings Types Util.

(** ** State *)
Record VaultClient : Set := mkVaultClient { vc_Address : string; vc_Token : string }.

(** One call to the outside, with its reply where a property needs it. *)
Inductive Event : Type :=
| EvGet (k : Kind) (ns name : string) (r : Res (Obj k))
| EvList (k : Kind) (ns : string) (selector : gmap string string)
| EvCreate (k : Kind) (o : Obj k)
| EvUpdate (k : Kind) (o : Obj k)
| EvStatusUpdate (cr : ZooKeeperService)
| EvVaultRead (path : string)
| EvVaultWrite (path : string) (data : list (string * iface))
| EvPolicyRead (name : string)
| EvPolicyWrite (name policy : string)
| EvVaultRequest (method path : string) (body : option (list (string * iface)))
| EvSleep (d : Z).

Record St (W : Type) : Type := mkSt {
  st_world : W;
  st_cr : ZooKeeperService;
  st_hashes : gmap string string;
  st_versions : gmap string string;
  st_globalHash : string;
  st_vault : option VaultClient;
  st_trace : list Event }.
Arguments mkSt {W}.
Arguments st_world {W}.
Arguments st_cr {W}.
Arguments st_hashes {W}.
Arguments st_versions {W}.
Arguments st_globalHash {W}.
Arguments st_vault {W}.
Arguments st_trace {W}.

Definition M (W A : Type) : Type := St W -> Res A * St W.

Section state.
Context {W : Type}.
Implicit Types s : St W.

Definition set_world (w : W) s : St W :=
  mkSt w (st_cr s) (st_hashes s) (st_versions s) (st_globalHash s) (st_vault s) (st_trace s).
Definition set_cr (c : ZooKeeperService) s : St W :=
  mkSt (st_world s) c (st_hashes s) (st_versions s) (st_globalHash s) (st_vault s) (st_trace s).
Definition set_hashes (h : gmap string string) s : St W :=
  mkSt (st_world s) (st_cr s) h (st_versions s) (st_globalHash s) (st_vault s) (st_trace s).
Definition set_versions (v : gmap string string) s : St W :=
  mkSt (st_world s) (st_cr s) (st_hashes s) v (st_globalHash s) (st_vault s) (st_trace s).
Definition set_globalHash (h : string) s : St W :=
  mkSt (st_world s) (st_cr s) (st_hashes s) (st_versions s) h (st_vault s) (st_trace s).
Definition set_vault (v : option VaultClient) s : St W :=
  mkSt (st_world s) (st_cr s) (st_hashes s) (st_versions s) (st_globalHash s) v (st_trace s).
Definition log_event (e : Event) s : St W :=
  mkSt (st_world s) (st_cr s) (st_hashes s) (st_versions s) (st_globalHash s) (st_vault s)
    (st_trace s ++ [e]).
End state.

(** ** The monad *)
#[global] Instance M_ret {W} : MRet (M W) := fun A a s => (Ok a, s).
#[global] Instance M_bind {W} : MBind (M W) := fun A B f m s =>
  match m s with
  | (Ok a, s') => f a s'
  | (Err e, s') => (Err e, s')
  | (Panic p, s') => (Panic p, s')
  end.

Section monad.
Context {W : Type}.

(** A pure builder that may fail or panic. *)
Definition lift {A} (r : Res A) : M W A := fun s => (r, s).
Definition throw {A} (e : error) : M W A := fun s => (Err e, s).

(** [x, err := m]: the call's error as a value; a panic still propagates. *)
Definition try_ {A} (m : M W A) : M W (error + A) := fun s =>
  match m s with
  | (Ok a, s') => (Ok (inr a), s')
  | (Err e, s') => (Ok (inl e), s')
  | (Panic p, s') => (Panic p, s')
  end.

(** Read a component of the state; assign one. *)
Definition gets {A} (f : St W -> A) : M W A := fun s => (Ok (f s), s).
Definition modify (f : St W -> St W) : M W unit := fun s => (Ok tt, f s).

Definition get_cr : M W ZooKeeperService := gets st_cr.
Definition modify_cr (f : ZooKeeperService -> ZooKeeperService) : M W unit :=
  modify (fun s => set_cr (f (st_cr s)) s).

Definition when (b : bool) (m : M W unit) : M W unit := if b then m else mret tt.

(** [r.ResourceHashes[k]], [r.ResourceVersions[k]] and assignments to them. *)
Definition hashOf (k : string) : M W string := gets (fun s => default "" (st_hashes s !! k)).
Definition setHash (k v : string) : M W unit :=
  modify (fun s => set_hashes (<[k:=v]> (st_hashes s)) s).
Definition setVersion (k v : string) : M W unit :=
  modify (fun s => set_versions (<[k:=v]> (st_versions s)) s).
End monad.

(** ** Parameters *)

(** The controller-runtime client.  A write returns the object as the server
    stored it, which the client copies into the caller's object. *)
Class KubeClient (W : Type) : Type := {
  kc_get : forall k : Kind, string -> string -> W -> Res (Obj k) * W;
  kc_list : forall k : Kind, string -> gmap string string -> W -> Res (list (Obj k)) * W;
  kc_create : forall k : Kind, Obj k -> W -> Res (Obj k) * W;
  kc_update : forall k : Kind, Obj k -> W -> Res (Obj k) * W;
  kc_status_update : ZooKeeperService -> W -> Res ZooKeeperService * W;
  (* metav1.Now().String() *)
  kc_now : W -> string * W;
  (* metav1.GetControllerOf, controllerutil.SetControllerReference,
     schema.ParseGroupVersion (group, version) *)
  kc_getControllerOf : ObjectMeta -> option OwnerReference;
  kc_setControllerReference : ZooKeeperService -> ObjectMeta -> Res ObjectMeta;
  kc_parseGroupVersion : string -> Res (string * string) }.

(** [wait.PollUntilContextTimeout] (interval, timeout, immediate, condition),
    [retry.RetryOnConflict] with the default backoff, and [time.Sleep]. *)
Class WaitLib (W : Type) : Type := {
  wl_poll : Z -> Z -> bool -> M W bool -> M W unit;
  wl_retry : M W unit -> M W unit;
  wl_sleep : Z -> W -> W }.

(** A reply to a raw Vault request: status code and decoded JSON body. *)
Record Response : Set := mkResponse { rs_StatusCode : Z; rs_Body : Res (list (string * iface)) }.

(** The HashiCorp Vault client.  [Logical().Read] and [Logical().Write] return
    a possibly nil secret; [va_login] is a write whose reply carries the token
    ([None]: no [Auth] block); [va_raw] returns the response and the error, each
    possibly nil, as [RawRequestWithContext] does. *)
Class VaultApi (W : Type) : Type := {
  va_newClient : string -> W -> Res unit * W;
  va_bearerToken : W -> Res string * W;
  va_login : string -> string -> list (string * iface) -> W -> Res (option string) * W;
  va_read : VaultClient -> string -> W -> Res (option (list (string * iface))) * W;
  va_write : VaultClient -> string -> list (string * iface) -> W
             -> Res (option (list (string * iface))) * W;
  va_getPolicy : VaultClient -> string -> W -> Res string * W;
  va_putPolicy : VaultClient -> string -> string -> W -> Res unit * W;
  (* request.SetJSONBody *)
  va_setJSONBody : list (string * iface) -> Res unit;
  va_raw : VaultClient -> string -> string -> option (list (string * iface)) -> W
           -> (option Response * option error) * W }.

(** github.com/sethvargo/go-password: the generator with symbols [_!], asked for
    10 characters, 1 digit, 1 symbol. *)
Class Passwords (W : Type) : Type := {
  pw_newGenerator : string -> Res unit;
  pw_generate : Z -> Z -> Z -> bool -> bool -> W -> Res string * W }.

(** [json.Marshal] on the hashed sections of the resource. *)
Class Encoders : Type := {
  marshalSpec : ZooKeeperServiceSpec -> Res string;
  marshalGlobal : option Global -> Res string;
  marshalZooKeeper : option ZooKeeper -> Res string;
  marshalMonitoring : option Monitoring -> Res string;
  marshalBackupDaemon : option BackupDaemon -> Res string }.

(** ** Calls, as the operator makes them *)
Section calls.
Context {W : Type}.

(** Apply an operation of the world. *)
Definition on_world {A} (f : W -> Res A * W) : M W A := fun s =>
  let '(r, w) := f (st_world s) in (r, set_world w s).

Definition emit (e : Event) : M W unit := modify (log_event e).

Context `{KubeClient W}.

Definition client_Get (k : Kind) (ns name : string) : M W (Obj k) := fun s =>
  let '(r, w) := kc_get k ns name (st_world s) in
  (r, log_event (EvGet k ns name r) (set_world w s)).

Definition client_List (k : Kind) (ns : string) (selector : gmap string string)
  : M W (list (Obj k)) :=
  emit (EvList k ns selector) ;; on_world (kc_list k ns selector).

Definition client_Create (k : Kind) (o : Obj k) : M W (Obj k) :=
  emit (EvCreate k o) ;; on_world (kc_create k o).

Definition client_Update (k : Kind) (o : Obj k) : M W (Obj k) :=
  emit (EvUpdate k o) ;; on_world (kc_update k o).

(** [r.Client.Status().Update(ctx, cr)] on the shared resource. *)
Definition client_StatusUpdate : M W unit :=
  cr ← get_cr;
  emit (EvStatusUpdate cr) ;;
  cr' ← on_world (kc_status_update cr);
  modify (set_cr cr').

Definition now : M W string := on_world (fun w => let '(t, w) := kc_now w in (Ok t, w)).

Definition SetControllerReference (cr : ZooKeeperService) (m : ObjectMeta) : M W ObjectMeta :=
  lift (kc_setControllerReference cr m).

Context `{WaitLib W}.

Definition PollUntilContextTimeout (interval timeout : Z) (immediate : bool)
    (condition : M W bool) : M W unit := wl_poll interval timeout immediate condition.

Definition RetryOnConflict (fn : M W unit) : M W unit := wl_retry fn.

Definition Sleep (d : Z) : M W unit :=
  emit (EvSleep d) ;; on_world (fun w => (Ok tt, wl_sleep d w)).

End calls.

(** ** Documented behaviour of the waiting helpers

    Polling evaluates the condition, over a world that moves on by itself,
    until it is true, until it fails, or until the timeout, and returns nil,
    the condition's error or a timeout error accordingly. *)
Inductive PollRun {W} (condition : M W bool) : St W -> Res unit -> St W -> Prop :=
| poll_done s w s' :
    condition (set_world w s) = (Ok true, s') -> PollRun condition s (Ok tt) s'
| poll_error s w e s' :
    condition (set_world w s) = (Err e, s') -> PollRun condition s (Err e) s'
| poll_panic s w p s' :
    condition (set_world w s) = (Panic p, s') -> PollRun condition s (Panic p) s'
| poll_again s w s1 r s' :
    condition (set_world w s) = (Ok false, s1) -> PollRun condition s1 r s' ->
    PollRun condition s r s'
| poll_timeout s w e :
    err_reason e = Timeout -> PollRun condition s (Err e) (set_world w s).

(** Retrying runs the function again as long as it reports a conflict, at most
    [n] times in all, and returns the outcome of the last run. *)
Inductive RetryRun {W} (fn : M W unit) : nat -> St W -> Res unit -> St W -> Prop :=
| retry_stop n s w r s' :
    fn (set_world w s) = (r, s') ->
    (forall e, r = Err e -> err_reason e <> Conflict) -> RetryRun fn (S n) s r s'
| retry_last s w e s' :
    fn (set_world w s) = (Err e, s') -> err_reason e = Conflict -> RetryRun fn 1 s (Err e) s'
| retry_again n s w e s1 r s' :
    fn (set_world w s) = (Err e, s1) -> err_reason e = Conflict ->
    RetryRun fn n s1 r s' -> RetryRun fn (S n) s r s'.

(** [retry.DefaultBackoff] has four steps. *)
Class WaitLaws (W : Type) `{WaitLib W} : Prop := {
  wl_poll_law : forall i t im c s r s', wl_poll i t im c s = (r, s') -> PollRun c s r s';
  wl_retry_law : forall fn s r s', wl_retry fn s = (r, s') -> RetryRun fn 4 s r s' }.

(** ** A program logic

    [holds I R Q m]: from a state that satisfies the invariant [I], every run
    of [m], whatever its result, ends in a state that satisfies [I] and is
    related to the first one by [R], and a value it returns satisfies [Q].
    [Frame] is what the rules need: [R] composes and neither [I] nor [R] looks
    at the world. *)
Class Frame {W} (I : St W -> Prop) (R : St W -> St W -> Prop) : Prop := {
  frame_preorder :: PreOrder R;
  frame_world : forall s w, R s (set_world w s);
  frame_inv_world : forall s w, I s -> I (set_world w s) }.

Definition holds {W A} (I : St W -> Prop) (R : St W -> St W -> Prop) (Q : A -> Prop)
    (m : M W A) : Prop :=
  forall s r s', I s -> m s = (r, s') -> I s' /\ R s s' /\ (forall a, r = Ok a -> Q a).

(** No claim on the value. *)
Abbreviation any := (fun _ => True).

(** Emitted events: the trace grows by events that satisfy [P]. *)
Definition emits {W} (P : Event -> Prop) (s s' : St W) : Prop :=
  exists evs, st_trace s' = st_trace s ++ evs /\ Forall P evs.

(** ** Lemmas *)

Lemma emits_preorder {W} (P : Event -> Prop) : PreOrder (emits (W:=W) P).
Proof.
  split.
  - intros s. exists []. split; [by rewrite app_nil_r|constructor].
  - intros s1 s2 s3 (e1 & H1 & F1) (e2 & H2 & F2). exists (e1 ++ e2).
    rewrite H2, H1, app_assoc. split; [done|by apply Forall_app].
Qed.
#[global] Existing Instance emits_preorder.

Lemma emits_nil {W} P (s s' : St W) : st_trace s' = st_trace s -> emits P s s'.
Proof. intros Ht. exists []. split; [by rewrite app_nil_r|constructor]. Qed.

Lemma emits_one {W} (P : Event -> Prop) e (s : St W) : P e -> emits P s (log_event e s).
Proof. intros He. exists [e]. split; [done|by constructor]. Qed.

(** The run of a bind: the first part returned and the rest ran, or the first
    part's error or panic is the result. *)
Lemma M_bind_inv {W A B} (m : M W A) (f : A -> M W B) s r s' :
  (m ≫= f) s = (r, s') ->
  (exists a s1, m s = (Ok a, s1) /\ f a s1 = (r, s')) \/
  (exists e, m s = (Err e, s') /\ r = Err e) \/
  (exists p, m s = (Panic p, s') /\ r = Panic p).
Proof.
  unfold mbind, M_bind. destruct (m s) as [[a|e|p] s1] eqn:E; intros Hr; simplify_eq; eauto 10.
Qed.

Lemma run_bind {W A B} (m : M W A) (f : A -> M W B) s a s1 :
  m s = (Ok a, s1) -> (m ≫= f) s = f a s1.
Proof. unfold mbind, M_bind. by intros ->. Qed.

Lemma M_bind_Ok {W A B} (m : M W A) (f : A -> M W B) s b s' :
  (m ≫= f) s = (Ok b, s') <-> exists a s1, m s = (Ok a, s1) /\ f a s1 = (Ok b, s').
Proof.
  unfold mbind, M_bind. destruct (m s) as [[a|e|p] s1] eqn:E; naive_solver.
Qed.

Section rules.
Context {W : Type} (I : St W -> Prop) (R : St W -> St W -> Prop) `{!Frame I R}.

Lemma holds_ret {A} (Q : A -> Prop) a : Q a -> holds I R Q (mret a).
Proof. intros HQ s r s' Hs [= <- <-]. split_and!; [done|reflexivity|]. intros ? [= <-]. done. Qed.

Lemma holds_weaken {A} (P Q : A -> Prop) (m : M W A) :
  holds I R P m -> (forall a, P a -> Q a) -> holds I R Q m.
Proof. intros Hm HPQ s r s' Hs Hr. destruct (Hm s r s' Hs Hr) as (? & ? & ?). eauto. Qed.

Lemma holds_bind {A B} (P : A -> Prop) (Q : B -> Prop) (m : M W A) (f : A -> M W B) :
  holds I R P m -> (forall a, P a -> holds I R Q (f a)) -> holds I R Q (m ≫= f).
Proof.
  intros Hm Hf s r s' Hs [(a & s1 & H1 & H2)|[(e & H1 & ->)|(p & H1 & ->)]]%M_bind_inv.
  - destruct (Hm s _ s1 Hs H1) as (Hs1 & HR1 & Ha).
    destruct (Hf a (Ha a eq_refl) s1 r s' Hs1 H2) as (Hs' & HR2 & Hb).
    split_and!; [done|by etrans|done].
  - destruct (Hm s _ s' Hs H1) as (? & ? & _). by split_and!.
  - destruct (Hm s _ s' Hs H1) as (? & ? & _). by split_and!.
Qed.

Lemma holds_bind_any {A B} (Q : B -> Prop) (m : M W A) (f : A -> M W B) :
  holds I R any m -> (forall a, holds I R Q (f a)) -> holds I R Q (m ≫= f).
Proof. intros Hm Hf. by eapply holds_bind. Qed.

Lemma holds_lift {A} (Q : A -> Prop) (r : Res A) :
  (forall a, r = Ok a -> Q a) -> holds I R Q (lift r).
Proof. intros HQ s r' s' Hs [= <- <-]. split_and!; [done|reflexivity|done]. Qed.

Lemma holds_bind_lift {A B} (Q : B -> Prop) (r : Res A) (f : A -> M W B) :
  (forall a, r = Ok a -> holds I R Q (f a)) -> holds I R Q (lift r ≫= f).
Proof. intros Hf. by eapply holds_bind; [apply (holds_lift (fun a => r = Ok a))|]. Qed.

Lemma holds_throw {A} (Q : A -> Prop) e : holds I R Q (throw e).
Proof. intros s r s' Hs [= <- <-]. by split_and!. Qed.

Lemma holds_gets {A} (Q : A -> Prop) (f : St W -> A) :
  (forall s, I s -> Q (f s)) -> holds I R Q (gets f).
Proof. intros HQ s r s' Hs [= <- <-]. split_and!; [done|reflexivity|]. intros ? [= <-]. auto. Qed.

Lemma holds_bind_gets {A B} (Q : B -> Prop) (g : St W -> A) (f : A -> M W B) :
  (forall s, I s -> holds I R Q (f (g s))) -> holds I R Q (gets g ≫= f).
Proof.
  intros Hf. eapply (holds_bind (fun a => exists s, I s /\ a = g s)).
  - apply holds_gets. eauto.
  - intros a (s & Hs & ->). auto.
Qed.

Lemma holds_bind_try {A B} (P : A -> Prop) (Q : B -> Prop) (m : M W A) (f : error + A -> M W B) :
  holds I R P m -> (forall e, holds I R Q (f (inl e))) ->
  (forall a, P a -> holds I R Q (f (inr a))) -> holds I R Q (try_ m ≫= f).
Proof.
  intros Hm He Ha. eapply (holds_bind (fun x => match x with inl _ => True | inr a => P a end)).
  - intros s r s' Hs Hr. unfold try_ in Hr.
    destruct (m s) as [[a|e|p] s1] eqn:E; simplify_eq;
      destruct (Hm _ _ _ Hs E) as (? & ? & HP); split_and!; try done; naive_solver.
  - intros [e|a]; auto.
Qed.

Lemma holds_modify f : (forall s, I s -> I (f s) /\ R s (f s)) -> holds I R any (modify f).
Proof. intros Hf s r s' Hs [= <- <-]. destruct (Hf s Hs). by split_and!. Qed.

Lemma holds_when b (m : M W unit) : holds I R any m -> holds I R any (when b m).
Proof. intros Hm. destruct b; [done|]. by apply holds_ret. Qed.

Lemma holds_on_world {A} (Q : A -> Prop) (f : W -> Res A * W) :
  (forall w a w', f w = (Ok a, w') -> Q a) -> holds I R Q (on_world f).
Proof.
  intros HQ s r s' Hs Hr. unfold on_world in Hr. destruct (f (st_world s)) as [r0 w] eqn:E.
  simplify_eq. split_and!; [by apply frame_inv_world|by apply frame_world|].
  intros a ->. by eapply HQ.
Qed.

Lemma holds_for_each {A} (l : list A) (body : A -> M W unit) :
  (forall x, x ∈ l -> holds I R any (body x)) -> holds I R any (for_each l body).
Proof.
  induction l as [|x l IH]; intros Hb; simpl; [by apply holds_ret|].
  eapply holds_bind; [apply Hb; constructor|]. intros _ _. apply IH. intros y Hy. apply Hb.
  by constructor.
Qed.

Lemma holds_poll `{WaitLaws W} (Q : unit -> Prop) i t im (P : bool -> Prop) (c : M W bool) :
  holds I R P c -> (forall u, Q u) -> holds I R Q (PollUntilContextTimeout i t im c).
Proof.
  intros Hc HQ s r s' Hs Hrun%wl_poll_law.
  enough (I s' /\ R s s') as [? ?] by (split_and!; auto).
  assert (forall s w r s', I s -> c (set_world w s) = (r, s') -> I s' /\ R s s') as Hstep.
  { intros s0 w r0 s0' Hs0 Hr0. destruct (Hc _ _ _ (frame_inv_world s0 w Hs0) Hr0) as (? & HR & _).
    split; [done|]. etrans; [apply frame_world|done]. }
  induction Hrun as [s w s' Hr|s w e s' Hr|s w p s' Hr|s w s1 r s' Hr _ IH|s w e _]; eauto.
  - destruct (Hstep _ _ _ _ Hs Hr) as [Hs1 HR]. destruct (IH Hs1) as [? ?].
    split; [done|by etrans].
  - split; [by apply frame_inv_world|by apply frame_world].
Qed.

Lemma holds_retry `{WaitLaws W} (Q : unit -> Prop) (fn : M W unit) :
  holds I R Q fn -> holds I R Q (RetryOnConflict fn).
Proof.
  intros Hf s r s' Hs Hrun%wl_retry_law.
  assert (forall s w r s', I s -> fn (set_world w s) = (r, s') ->
    I s' /\ R s s' /\ (forall a, r = Ok a -> Q a)) as Hstep.
  { intros s0 w r0 s0' Hs0 Hr0. destruct (Hf _ _ _ (frame_inv_world s0 w Hs0) Hr0) as (? & HR & ?).
    split_and!; [done| |done]. etrans; [apply frame_world|done]. }
  induction Hrun as [n s w r s' Hr _|s w e s' Hr _|n s w e s1 r s' Hr _ _ IH]; eauto.
  destruct (Hstep _ _ _ _ Hs Hr) as (Hs1 & HR & _). destruct (IH Hs1) as (? & ? & ?).
  split_and!; [done|by etrans|done].
Qed.
End rules.

(** Apply a rule at the invariant and the relation of the goal. *)
Tactic Notation "rule" uconstr(l) :=
  lazymatch goal with |- holds ?I ?R _ _ => eapply (l I R _) end;
  try lazymatch goal with |- WaitLaws _ => typeclasses eauto end.

(** One structural step on a [holds] goal; binds of known shape keep what they
    bind, other binds are left to lemmas in [zk]. *)
Ltac holds_step :=
  cbv beta zeta;
  lazymatch goal with
  | |- holds _ _ _ (mret _) => rule holds_ret; [try done]
  | |- holds _ _ _ (throw _) => rule holds_throw
  | |- holds _ _ _ (lift _) => rule holds_lift; [try done]
  | |- holds _ _ _ (gets _) => rule holds_gets; [try done]
  | |- holds _ _ _ (lift _ ≫= _) =>
      rule holds_bind_lift; let a := fresh "a" in let Ha := fresh "Ha" in intros a Ha
  | |- holds _ _ _ (gets _ ≫= _) =>
      rule holds_bind_gets; let a := fresh "s" in let Ha := fresh "Hs" in intros a Ha
  | |- holds _ _ _ (get_cr ≫= _) =>
      rule holds_bind_gets; let a := fresh "s" in let Ha := fresh "Hs" in intros a Ha
  | |- holds _ _ _ (try_ _ ≫= _) =>
      rule holds_bind_try; [solve [eauto with zk]|intros ?|
        let x := fresh "x" in let Hx := fresh "Hx" in intros x Hx]
  | |- holds _ _ _ (when _ _ ≫= _) =>
      rule holds_bind; [rule holds_when|intros ? _]
  | |- holds _ _ _ (_ ≫= _) =>
      rule holds_bind; [solve [eauto with zk]|];
      let x := fresh "x" in let Hx := fresh "Hx" in intros x Hx
  | |- holds _ _ _ (when _ _) => rule holds_when
  | |- holds _ _ _ (for_each _ _) =>
      rule holds_for_each; let x := fresh "x" in let Hx := fresh "Hx" in intros x Hx
  | |- holds _ _ _ (RetryOnConflict _) => rule holds_retry
  | |- holds _ _ _ (match ?x with _ => _ end) => destruct x eqn:?
  | |- holds _ _ _ _ => solve [eauto with zk]
  end.
Ltac holds := repeat (holds_step; cbn beta iota).
