(* ===== verification/Conditions.v ===== *)
(** * Status conditions

    [src/operator/controllers/condition.go]: the list of conditions in the
    status of the resource, one per reason, and its update through the status
    subresource. *)

From S2P Require Import Prelude GoStrings Types Util Platform.

Definition statusTrue : string := "True".
Definition statusFalse : string := "False".
Definition typeSuccessful : string := "Successful".
Definition typeReady : string := "Ready".
Definition typeFailed : string := "Failed".
Definition typeInProgress : string := "In progress".
(** [10 * time.Second]. *)
Definition waitingInterval : Z := 10 * second.

Definition NewCondition (conditionStatus conditionType conditionReason conditionMessage : string)
  : StatusCondition :=
  mkCondition conditionType conditionStatus conditionReason conditionMessage "".

Definition set_LastTransitionTime (t : string) (c : StatusCondition) : StatusCondition :=
  mkCondition (cond_Type c) (cond_Status c) (cond_Reason c) (cond_Message c) t.

(** The guard of the in-place replacement. *)
Definition condition_differs (c cur : StatusCondition) : bool :=
  negb (bool_decide (cond_Type c = cond_Type cur))
  || negb (bool_decide (cond_Status c = cond_Status cur))
  || negb (bool_decide (cond_Message c = cond_Message cur)).

Fixpoint addCondition (currentConditions : list StatusCondition) (condition : StatusCondition)
  : list StatusCondition :=
  match currentConditions with
  | [] => [condition]
  | cur :: rest =>
      if decide (cond_Reason condition = cond_Reason cur) then
        (if condition_differs condition cur then condition else cur) :: rest
      else cur :: addCondition rest condition
  end.

Definition hasFailedConditions (cr : ZooKeeperService) : bool :=
  existsb (fun c => bool_decide (cond_Type c = "Failed")) (stt_Conditions (cr_Status cr)).

Section conditions.
Context {W : Type} `{KubeClient W}.

Definition updateConditions (condition : StatusCondition) : M W unit :=
  cr ← get_cr;
  let currentConditions := stt_Conditions (cr_Status cr) in
  t ← now;
  let condition := set_LastTransitionTime t condition in
  let currentConditions := addCondition currentConditions condition in
  modify_cr (set_Conditions currentConditions) ;;
  client_StatusUpdate.
End conditions.

(** ** Lemmas *)

Lemma addCondition_reasons l c :
  cond_Reason <$> addCondition l c =
  if decide (cond_Reason c ∈ cond_Reason <$> l) then cond_Reason <$> l
  else (cond_Reason <$> l) ++ [cond_Reason c].
Proof.
  induction l as [|cur l IH]; [done|]. simpl.
  destruct (decide (cond_Reason c = cond_Reason cur)) as [He|Hne].
  - rewrite decide_True by (rewrite He; constructor). simpl. f_equal.
    by destruct (condition_differs c cur).
  - simpl. change (list_fmap _ _ cond_Reason (addCondition l c)) with (cond_Reason <$> addCondition l c).
    rewrite IH. case_decide as H1; case_decide as H2; try done;
      rewrite elem_of_cons in *; naive_solver.
Qed.

Lemma addCondition_lookup_other l c r :
  r <> cond_Reason c ->
  filter (fun x => cond_Reason x = r) (addCondition l c)
  = filter (fun x => cond_Reason x = r) l.
Proof.
  intros Hr. induction l as [|cur l IH]; simpl.
  - rewrite filter_cons_False by (simpl; congruence). done.
  - case_decide as He.
    + destruct (condition_differs c cur); [|done].
      by rewrite !filter_cons_False by (simpl; congruence).
    + rewrite !filter_cons, IH. done.
Qed.

Lemma condition_differs_false c cur :
  condition_differs c cur = false ->
  cond_Type c = cond_Type cur /\ cond_Status c = cond_Status cur
  /\ cond_Message c = cond_Message cur.
Proof.
  unfold condition_differs. rewrite !orb_false_iff, !negb_false_iff, !bool_decide_eq_true. tauto.
Qed.

(** The condition for the reason just written is in the list. *)
Lemma addCondition_in l c :
  exists x, x ∈ addCondition l c /\ cond_Reason x = cond_Reason c /\ cond_Type x = cond_Type c
    /\ cond_Status x = cond_Status c /\ cond_Message x = cond_Message c.
Proof.
  induction l as [|cur l (x & Hx & IH)]; simpl.
  - exists c. split_and!; try done. constructor.
  - case_decide as He; [|exists x; split; [by constructor|done]].
    destruct (condition_differs c cur) eqn:Hd.
    + exists c. split_and!; try done. constructor.
    + apply condition_differs_false in Hd as (? & ? & ?).
      exists cur. split_and!; try done. constructor.
Qed.

(** Nothing else enters the list. *)
Lemma addCondition_elem l c x : x ∈ addCondition l c -> x = c \/ x ∈ l.
Proof.
  induction l as [|cur l IH]; simpl; [set_solver|].
  case_decide; [case_match|]; rewrite !elem_of_cons; naive_solver.
Qed.

Lemma hasFailed_spec cr :
  hasFailedConditions cr = true <->
  exists c, c ∈ stt_Conditions (cr_Status cr) /\ cond_Type c = "Failed".
Proof.
  unfold hasFailedConditions. rewrite existsb_exists.
  setoid_rewrite bool_decide_eq_true. setoid_rewrite list_elem_of_In. naive_solver.
Qed.

(** What an update of the conditions sends, whatever the reply. *)
Lemma updateConditions_run {W} `{KubeClient W} c (s : St W) r s' :
  updateConditions c s = (r, s') ->
  exists t, st_trace s' = st_trace s ++ [EvStatusUpdate (set_Conditions
    (addCondition (stt_Conditions (cr_Status (st_cr s))) (set_LastTransitionTime t c)) (st_cr s))].
Proof.
  unfold updateConditions, client_StatusUpdate, now, modify_cr, get_cr, gets, emit, modify, on_world,
    mbind, M_bind. simpl. destruct (kc_now (st_world s)) as [t w]. simpl. exists t.
  destruct (kc_status_update _ _) as [[?|?|?] ?]; by simplify_eq/=.
Qed.

(** The condition just written is in the resource that is sent. *)
Lemma updateConditions_sent {W} `{KubeClient W} c (s : St W) r s' :
  updateConditions c s = (r, s') ->
  exists cr' x, st_trace s' = st_trace s ++ [EvStatusUpdate cr'] /\
    cr_Spec cr' = cr_Spec (st_cr s) /\ x ∈ stt_Conditions (cr_Status cr') /\
    cond_Reason x = cond_Reason c /\ cond_Type x = cond_Type c /\
    cond_Status x = cond_Status c /\ cond_Message x = cond_Message c.
Proof.
  intros [t Htr]%updateConditions_run.
  destruct (addCondition_in (stt_Conditions (cr_Status (st_cr s))) (set_LastTransitionTime t c))
    as (x & Hx). eexists _, x. split; [exact Htr|]. by split.
Qed.

(** *** The abstract status: one condition per reason *)

(** The map a list of conditions stands for. *)
Definition conditionMap (l : list StatusCondition) : gmap string StatusCondition :=
  list_to_map ((fun c => (cond_Reason c, c)) <$> l).

(** Report a condition: replace the one of its reason when it says something
    new. *)
Definition report (m : gmap string StatusCondition) (c : StatusCondition)
  : gmap string StatusCondition :=
  match m !! cond_Reason c with
  | Some cur => if condition_differs c cur then <[cond_Reason c := c]> m else m
  | None => <[cond_Reason c := c]> m
  end.

Lemma addCondition_NoDup l c :
  NoDup (cond_Reason <$> l) -> NoDup (cond_Reason <$> addCondition l c).
Proof.
  intros Hl. rewrite addCondition_reasons. case_decide as Hc; [done|].
  apply NoDup_app. split_and!; [done|set_solver|apply NoDup_singleton].
Qed.

Lemma conditionMap_cons c l :
  conditionMap (c :: l) = <[cond_Reason c := c]> (conditionMap l).
Proof. done. Qed.

Lemma conditionMap_addCondition l c :
  NoDup (cond_Reason <$> l) -> conditionMap (addCondition l c) = report (conditionMap l) c.
Proof.
  induction l as [|cur l IH]; intros Hnd; [done|].
  rewrite fmap_cons in Hnd. apply NoDup_cons in Hnd as [Hnot Hnd]. cbn [addCondition].
  rewrite conditionMap_cons. unfold report. destruct (decide (cond_Reason c = cond_Reason cur)) as [He|Hne].
  - rewrite He, lookup_insert_eq. destruct (condition_differs c cur); [|done].
    by rewrite conditionMap_cons, insert_insert_eq, <- He.
  - rewrite conditionMap_cons, lookup_insert_ne, IH by done. unfold report.
    destruct (conditionMap l !! cond_Reason c) as [x|]; [destruct (condition_differs c x); [|done]|];
      by rewrite insert_insert_ne.
Qed.

(** ** Properties *)

(** C14: Refinement: the list of conditions, built by any sequence of updates,
    implements a map with one condition per reason, in which a report changes
    the entry of its reason only when its type, status or message differ; the
    list holds exactly the conditions of the map, so the failed conditions
    that decide the outcome are those of the map. *)
Theorem conditions_refine_map cr (cs : list StatusCondition) :
  stt_Conditions (cr_Status cr) = foldl addCondition [] cs ->
  NoDup (cond_Reason <$> stt_Conditions (cr_Status cr)) /\
  conditionMap (stt_Conditions (cr_Status cr)) = foldl report ∅ cs /\
  (forall c, c ∈ stt_Conditions (cr_Status cr) <->
     foldl report ∅ cs !! cond_Reason c = Some c) /\
  (hasFailedConditions cr = true <->
     exists r c, foldl report ∅ cs !! r = Some c /\ cond_Type c = "Failed").
Proof.
  intros Hl.
  assert (forall l m, NoDup (cond_Reason <$> l) -> conditionMap l = m ->
    NoDup (cond_Reason <$> foldl addCondition l cs) /\
    conditionMap (foldl addCondition l cs) = foldl report m cs) as Hrun.
  { clear Hl. induction cs as [|c cs IH]; intros l m Hnd Hm; [done|]. cbn [foldl]. apply IH.
    - by apply addCondition_NoDup.
    - by rewrite conditionMap_addCondition, Hm. }
  destruct (Hrun [] ∅ NoDup_nil_2 eq_refl) as [Hnd Hm]. rewrite <- Hl in Hnd, Hm.
  change (conditionMap (stt_Conditions (cr_Status cr)) = foldl report ∅ cs) in Hm.
  assert (forall r c, foldl report ∅ cs !! r = Some c <->
    c ∈ stt_Conditions (cr_Status cr) /\ cond_Reason c = r) as Hin.
  { intros r c. rewrite <- Hm. unfold conditionMap. rewrite <- elem_of_list_to_map.
    - rewrite list_elem_of_fmap. naive_solver.
    - by rewrite <- list_fmap_compose. }
  refine (conj Hnd (conj Hm (conj _ _))).
  - intros c. rewrite Hin. naive_solver.
  - rewrite hasFailed_spec. setoid_rewrite Hin. naive_solver.
Qed.

(** Invariant: the conditions have pairwise distinct reasons, and every update
    keeps it so; the reasons keep their order and a new reason is appended. *)
Theorem addCondition_unique_reasons l c :
  NoDup (cond_Reason <$> l) ->
  NoDup (cond_Reason <$> addCondition l c) /\
  cond_Reason c ∈ cond_Reason <$> addCondition l c /\
  (cond_Reason <$> l) `prefix_of` (cond_Reason <$> addCondition l c).
Proof.
  intros Hl. split; [by apply addCondition_NoDup|]. rewrite addCondition_reasons.
  case_decide as Hc; [done|]. split; [set_solver|by eexists].
Qed.

(** Transition time: adding a condition replaces the entry of its reason only
    when type, status or message change, so the recorded time is that of the
    last transition; the entries of other reasons are untouched, and adding
    the same condition again, at any later time, changes nothing. *)
Theorem addCondition_transition_time l c t :
  NoDup (cond_Reason <$> l) ->
  addCondition (addCondition l c) (set_LastTransitionTime t c) = addCondition l c /\
  (forall r, r <> cond_Reason c ->
     filter (fun x => cond_Reason x = r) (addCondition l c)
     = filter (fun x => cond_Reason x = r) l) /\
  (forall x, x ∈ l -> cond_Reason x = cond_Reason c -> condition_differs c x = false ->
     addCondition l c = l).
Proof.
  intros Hnd. split_and!.
  - clear Hnd. induction l as [|cur l IH]; simpl.
    + rewrite decide_True by done. simpl.
      destruct (condition_differs (set_LastTransitionTime t c) c) eqn:Hd; [|done].
      exfalso. unfold condition_differs in Hd. simpl in Hd.
      by rewrite !bool_decide_eq_true_2 in Hd by done.
    + case_decide as He; simpl.
      * destruct (condition_differs c cur) eqn:Hd; simpl.
        -- rewrite decide_True by done. unfold condition_differs. simpl.
           by rewrite !bool_decide_eq_true_2 by done.
        -- rewrite decide_True by done.
           assert (condition_differs (set_LastTransitionTime t c) cur = false) as ->; [|done].
           unfold condition_differs in *. done.
      * rewrite decide_False by done. by rewrite IH.
  - intros r Hr. by apply addCondition_lookup_other.
  - intros x Hx Hr Hd. induction l as [|cur l IH]; [by apply elem_of_nil in Hx|].
    simpl. apply NoDup_cons in Hnd as [Hnot Hnd]. apply elem_of_cons in Hx as [->|Hx].
    + rewrite decide_True by done. by rewrite Hd.
    + rewrite decide_False; [by rewrite IH|]. intros Hc. apply Hnot. rewrite <- Hc, <- Hr.
      by apply list_elem_of_fmap_2.
Qed.
