(* ===== verification/Reconciler.v ===== *)
(** * The shared operations of the reconciler

    [src/operator/controllers/zookeeperservice_reconciler.go] and
    [deployment_secret_restart.go]: create-or-update of services, service
    accounts, claims and deployments, secrets and their ownership, deployment
    readiness, and the restart annotations that tie a deployment to the
    versions of its secrets.  Logging is left out. *)

From S2P Require Import Prelude GoStrings Types Util Provider Platform Conditions.

(** ** deployment_secret_restart.go *)
Definition secretVersionChanged (versions : gmap string string) (secret : option Secret) : bool :=
  match secret with
  | None => false
  | Some sec =>
      let m := sec_Meta sec in
      negb (bool_decide (m_Name m = ""))
      && negb (bool_decide (default "" (versions !! m_Name m) = m_ResourceVersion m))
  end.

(** One round of the loop over the secrets. *)
Definition applySecretAnnotation (acc : bool * Deployment) (secret : option Secret)
  : bool * Deployment :=
  let '(modified, deployment) := acc in
  match secret with
  | None => acc
  | Some sec =>
      let m := sec_Meta sec in
      if bool_decide (m_Name m = "") then acc
      else if negb (bool_decide (gm_str (m_Annotations m) AutoRestartAnnotation = "true")) then acc
      else
        let annotationName := ResourceVersionAnnotation (m_Name m) in
        let annotations := gm (m_Annotations (d_TemplateMeta deployment)) in
        let deployment := set_d_TemplateMeta
              (set_Annotations (Some annotations) (d_TemplateMeta deployment)) deployment in
        if bool_decide (gm_str (Some annotations) annotationName = m_ResourceVersion m)
        then (modified, deployment)
        else (true, set_d_TemplateMeta
                (set_Annotations (Some (<[annotationName := m_ResourceVersion m]> annotations))
                   (d_TemplateMeta deployment)) deployment)
  end.

Definition applyAutoRestartSecretAnnotations (deployment : Deployment)
    (secrets : list (option Secret)) : bool * Deployment :=
  fold_left applySecretAnnotation secrets (false, deployment).

(** ** Pure helpers *)
Definition secretContainsKey (zooKeeperSecret : Secret) (key : string) : bool :=
  match sec_Data zooKeeperSecret with
  | None => false
  | Some data => match data !! key with
                 | Some v => negb (bool_decide (v = ""))
                 | None => false
                 end
  end.

Definition getPodNames (pods : list Pod) : list string :=
  (fun pod => gm_str (m_Labels (pod_Meta pod)) "name") <$> pods.

(** The annotations of the found claim after the copy and the deletions. *)
Definition mergePVCAnnotations (found desired status : gomap string) : Res (gomap string) :=
  copied ← maps_Copy found desired;
  mret (map_fold (fun key _ acc =>
          match gm desired !! key with Some _ => acc | None => gm_delete acc key end)
        copied (gm status)).

Section reconciler.
Context {W : Type} `{KubeClient W} `{WaitLib W} `{Quantities}.

Definition createOrUpdateService (service : Service) : M W unit :=
  r ← try_ (client_Get KService (m_Namespace (svc_Meta service)) (m_Name (svc_Meta service)));
  match r with
  | inl err => if IsNotFound err then client_Create KService service ;; mret tt else throw err
  | inr foundService =>
      let service := set_svc_Meta
            (set_ResourceVersion (m_ResourceVersion (svc_Meta foundService)) (svc_Meta service))
            service in
      let service := if bool_decide (svc_Type foundService = "ClusterIP")
                     then set_svc_ClusterIP (svc_ClusterIP foundService) service else service in
      client_Update KService service ;; mret tt
  end.

Definition createServiceAccount (serviceAccount : ServiceAccount) : M W unit :=
  r ← try_ (client_Get KServiceAccount (m_Namespace (sa_Meta serviceAccount))
              (m_Name (sa_Meta serviceAccount)));
  match r with
  | inl err => if IsNotFound err then client_Create KServiceAccount serviceAccount ;; mret tt
               else throw err
  | inr _ => mret tt
  end.

Definition updatePersistentVolumeClaim (found claim : PersistentVolumeClaim) : M W unit :=
  cr ← get_cr;
  let desired := m_Annotations (pvc_Meta claim) in
  let status := stt_PVCAnnotations (cr_Status cr) in
  if maps_Equal desired status then mret tt
  else
    annotations ← lift (mergePVCAnnotations (m_Annotations (pvc_Meta found)) desired status);
    client_Update KPVC (set_pvc_Meta (set_Annotations annotations (pvc_Meta found)) found) ;;
    mret tt.

Definition createPersistentVolumeClaim (claim : PersistentVolumeClaim) : M W unit :=
  r ← try_ (client_Get KPVC (m_Namespace (pvc_Meta claim)) (m_Name (pvc_Meta claim)));
  match r with
  | inl err => if IsNotFound err then client_Create KPVC claim ;; mret tt else throw err
  | inr found => updatePersistentVolumeClaim found claim
  end.

Definition findPersistentVolumeClaim (name namespace : string) : M W PersistentVolumeClaim :=
  client_Get KPVC namespace name.

Definition createOrUpdateDeployment (deployment : Deployment) : M W unit :=
  let ns := m_Namespace (d_Meta deployment) in
  let name := m_Name (d_Meta deployment) in
  r ← try_ (client_Get KDeployment ns name);
  match r with
  | inl err => if IsNotFound err then client_Create KDeployment deployment ;; mret tt
               else throw err
  | inr _ =>
      RetryOnConflict
        (foundDeployment ← client_Get KDeployment ns name;
         client_Update KDeployment (set_d_Meta
           (set_ResourceVersion (m_ResourceVersion (d_Meta foundDeployment)) (d_Meta deployment))
           deployment) ;;
         mret tt)
  end.

Definition findDeployment (name namespace : string) : M W Deployment :=
  client_Get KDeployment namespace name.

Definition findDeploymentList (namespace : string) (deploymentLabels : gmap string string)
  : M W (list Deployment) := client_List KDeployment namespace deploymentLabels.

(** The secret as the server stored it: the client copies it into the object. *)
Definition updateSecret (secret : Secret) : M W Secret :=
  r ← try_ (client_Get KSecret (m_Namespace (sec_Meta secret)) (m_Name (sec_Meta secret)));
  match r with
  | inl err => throw err
  | inr _ => client_Update KSecret secret
  end.

Definition findSecret (name namespace : string) : M W Secret := client_Get KSecret namespace name.

Definition cleanSecretData (secret : Secret) : M W Secret :=
  client_Update KSecret (mkSecret (sec_Meta secret) None).

Definition findPodList (namespace : string) (podLabels : gmap string string) : M W (list Pod) :=
  client_List KPod namespace podLabels.

(** The second list replaces the first; it has no namespace. *)
Definition getPodsForDeployment (deploymentName : string) : M W (list Pod) :=
  cr ← get_cr;
  g ← lift (globalOf cr);
  _ ← findPodList (cr_Namespace cr) (GetZooKeeperLabels (cr_Name cr) (g_DefaultLabels g));
  client_List KPod "" {["name" := deploymentName]}.

Definition referSameObject (aName aGroup aKind bName bGroup bKind : string) : bool :=
  match kc_parseGroupVersion aGroup with
  | Ok (aG, _) =>
      match kc_parseGroupVersion bGroup with
      | Ok (bG, _) => bool_decide (aG = bG) && bool_decide (aKind = bKind)
                      && bool_decide (aName = bName)
      | _ => false
      end
  | _ => false
  end.

Definition watchSecret (secretName : string) : M W Secret :=
  cr ← get_cr;
  secret ← findSecret secretName (cr_Namespace cr);
  let meta := sec_Meta secret in
  let meta :=
    match kc_getControllerOf meta with
    | Some existing =>
        if referSameObject (or_Name existing) (or_APIVersion existing) (or_Kind existing)
             (cr_Name cr) (cr_APIVersion cr) (cr_Kind cr)
        then meta else set_OwnerReferences [] meta
    | None => meta
    end in
  meta ← SetControllerReference cr meta;
  updateSecret (mkSecret meta (sec_Data secret)).

(** [nil] is [None]. *)
Definition processSnapshotsPersistentVolumeClaim (snapshotStorage : SnapshotStorage)
  : M W (option PersistentVolumeClaim) :=
  cr ← get_cr;
  let persistentVolumeClaimName :=
    if bool_decide (ss_PersistentVolumeClaimName snapshotStorage = "")
    then SnapshotsPersistentVolumeClaim (cr_Name cr)
    else ss_PersistentVolumeClaimName snapshotStorage in
  g ← lift (globalOf cr);
  let snapshotsLabels := GetZooKeeperLabels (cr_Name cr) (g_DefaultLabels g) in
  let newClaim volumeName :=
    lift (p ← NewPersistentVolumeClaim persistentVolumeClaimName (cr_Namespace cr)
           snapshotsLabels (g_PVCAnnotations g) true volumeName None
           (ss_StorageClass snapshotStorage) (ss_VolumeSize snapshotStorage);
          mret (Some p)) in
  let type := ss_PersistentVolumeType snapshotStorage in
  if bool_decide (type = "standalone") then
    lift (ProcessNonSharedPersistentVolumeClaim persistentVolumeClaimName
            (ss_PersistentVolumeName snapshotStorage) (ss_PersistentVolumeLabel snapshotStorage)
            (ss_StorageClass snapshotStorage) (ss_VolumeSize snapshotStorage)
            (cr_Namespace cr) snapshotsLabels (g_PVCAnnotations g))
  else if bool_decide (type = "predefined_claim") then
    p ← findPersistentVolumeClaim persistentVolumeClaimName (cr_Namespace cr); mret (Some p)
  else if bool_decide (type = "predefined") then
    if bool_decide (ss_PersistentVolumeName snapshotStorage = "")
    then throw (Errorf "parameter 'persistentVolumeName' must be specified for 'predefined' persistent volume type")
    else newClaim (ss_PersistentVolumeName snapshotStorage)
  else if bool_decide (type = "storage_class") then newClaim ""
  else mret None.

Definition isDeploymentReady (deploymentName namespace : string) : M W bool :=
  r ← try_ (findDeployment deploymentName namespace);
  match r with
  | inl _ => mret false
  | inr deployment =>
      let availableReplicas := Min (d_ReadyReplicas deployment) (d_UpdatedReplicas deployment) in
      replicas ← lift (deref (d_Replicas deployment));
      mret (bool_decide (replicas = availableReplicas))
  end.

Definition scaleDeployment (name : string) (replicas : Z) (namespace : string) : M W unit :=
  RetryOnConflict
    (foundDeployment ← findDeployment name namespace;
     client_Update KDeployment (set_d_Replicas (Some replicas) foundDeployment) ;;
     mret tt).

Definition updateDeploymentSecretRestartAnnotations (namespace deploymentName : string)
    (secrets : list (option Secret)) : M W unit :=
  RetryOnConflict
    (r ← try_ (client_Get KDeployment namespace deploymentName);
     match r with
     | inl err => if IsNotFound err then mret tt else throw err
     | inr deployment =>
         let '(modified, deployment) := applyAutoRestartSecretAnnotations deployment secrets in
         if modified then client_Update KDeployment deployment ;; mret tt else mret tt
     end).

End reconciler.

(** ** Lemmas: claim annotations *)

Lemma delete_stale_lookup (desired : gmap string string) (status : gmap string string)
    (m : gmap string string) :
  exists m',
    map_fold (fun key _ acc =>
        match desired !! key with Some _ => acc | None => gm_delete acc key end)
      (Some m) status = Some m' /\
    forall k, m' !! k =
      if decide (is_Some (status !! k) /\ desired !! k = None) then None else m !! k.
Proof.
  induction status as [|key v st Hkey Hfold IH] using map_first_key_ind.
  - exists m. split; [done|]. intros k. rewrite decide_False; [done|].
    rewrite lookup_empty. by intros [[] _].
  - destruct IH as (m' & Hm' & Hl). rewrite map_fold_insert_first_key by done. rewrite Hm'.
    destruct (desired !! key) as [d|] eqn:Hd.
    + exists m'. split; [done|]. intros k. rewrite Hl.
      destruct (decide (k = key)) as [->|Hne].
      * rewrite !decide_False; [done|naive_solver|naive_solver].
      * by rewrite lookup_insert_ne by done.
    + exists (delete key m'). split; [done|]. intros k.
      destruct (decide (k = key)) as [->|Hne].
      * rewrite lookup_delete_eq, decide_True; [done|]. rewrite lookup_insert_eq. by split.
      * rewrite lookup_delete_ne, lookup_insert_ne by done. apply Hl.
Qed.

Lemma delete_stale_nil (desired status : gmap string string) :
  map_fold (fun key _ acc =>
      match desired !! key with Some _ => acc | None => gm_delete acc key end)
    (None : gomap string) status = None.
Proof.
  induction status as [|key v st Hkey Hfold IH] using map_first_key_ind; [done|].
  rewrite map_fold_insert_first_key, IH by done. by destruct (desired !! key).
Qed.

(** ** Lemmas: restart annotations *)

(** A secret whose changes restart the pods that use it. *)
Definition auto_restart (sec : Secret) : Prop :=
  m_Name (sec_Meta sec) <> "" /\
  gm_str (m_Annotations (sec_Meta sec)) AutoRestartAnnotation = "true".

#[global] Instance auto_restart_dec sec : Decision (auto_restart sec).
Proof. unfold auto_restart. apply _. Defined.

Definition template_annotation (d : Deployment) (secretName : string) : string :=
  gm_str (m_Annotations (d_TemplateMeta d)) (ResourceVersionAnnotation secretName).

Lemma annotation_name_inj a b :
  ResourceVersionAnnotation a = ResourceVersionAnnotation b -> a = b.
Proof. apply app_inj_r. Qed.

Lemma applySecretAnnotation_spec b d sec b' d' :
  applySecretAnnotation (b, d) (Some sec) = (b', d') ->
  (forall n, template_annotation d' n =
     if decide (auto_restart sec /\ n = m_Name (sec_Meta sec))
     then m_ResourceVersion (sec_Meta sec) else template_annotation d n) /\
  (b' = true <-> b = true \/ auto_restart sec /\
     template_annotation d (m_Name (sec_Meta sec)) <> m_ResourceVersion (sec_Meta sec)) /\
  (forall k, (forall n, k <> ResourceVersionAnnotation n) ->
     gm (m_Annotations (d_TemplateMeta d')) !! k = gm (m_Annotations (d_TemplateMeta d)) !! k) /\
  set_d_TemplateMeta (set_Annotations None (d_TemplateMeta d')) d'
  = set_d_TemplateMeta (set_Annotations None (d_TemplateMeta d)) d.
Proof.
  unfold applySecretAnnotation, auto_restart, template_annotation. cbv zeta.
  destruct (decide (m_Name (sec_Meta sec) = "")) as [Hn|Hn].
  { rewrite bool_decide_eq_true_2 by done. intros [= <- <-].
    split; [|split; [naive_solver|done]]. intros n. by rewrite decide_False by naive_solver. }
  rewrite bool_decide_eq_false_2 by done.
  destruct (decide (gm_str (m_Annotations (sec_Meta sec)) AutoRestartAnnotation = "true")) as [Ha|Ha].
  2: { rewrite bool_decide_eq_false_2 by done. simpl. intros [= <- <-].
    split; [|split; [naive_solver|done]]. intros n. by rewrite decide_False by naive_solver. }
  rewrite (bool_decide_eq_true_2 (gm_str (m_Annotations (sec_Meta sec)) _ = _)) by done. simpl.
  assert (forall k, gm_str (Some (gm (m_Annotations (d_TemplateMeta d)))) k
                    = gm_str (m_Annotations (d_TemplateMeta d)) k) as Hgm by done.
  case_bool_decide as Hv; intros [= <- <-]; simpl; rewrite Hgm in Hv;
    (split; [|split; [naive_solver|split; [|done]]]); [|done| |].
  - intros n. case_decide as Hd; [|done]. destruct Hd as [_ ->]. done.
  - intros n. rewrite gm_str_insert, Hgm. case_decide as He.
    + apply annotation_name_inj in He as <-. by rewrite decide_True.
    + rewrite decide_False; [done|]. intros [_ ->]. done.
  - intros k Hk. rewrite lookup_insert_ne by (intros <-; by eapply Hk). done.
Qed.

(** Secrets of one list that share a name share their version. *)
Definition consistent_versions (secrets : list (option Secret)) : Prop :=
  forall a b, Some a ∈ secrets -> Some b ∈ secrets ->
    m_Name (sec_Meta a) = m_Name (sec_Meta b) ->
    m_ResourceVersion (sec_Meta a) = m_ResourceVersion (sec_Meta b).

(** Does this entry annotate for the secret named [n]? *)
Definition hits (n : string) (o : option Secret) : bool :=
  match o with
  | Some y => bool_decide (auto_restart y) && bool_decide (m_Name (sec_Meta y) = n)
  | None => false
  end.

Lemma hits_true n o :
  hits n o = true <-> exists y, o = Some y /\ auto_restart y /\ m_Name (sec_Meta y) = n.
Proof.
  destruct o as [y|]; simpl; [|naive_solver].
  rewrite andb_true_iff, !bool_decide_eq_true. naive_solver.
Qed.

(** The annotations a round leaves settled stay so. *)
Lemma apply_settled secrets b d :
  (forall sec, Some sec ∈ secrets -> auto_restart sec ->
     template_annotation d (m_Name (sec_Meta sec)) = m_ResourceVersion (sec_Meta sec)) ->
  fst (fold_left applySecretAnnotation secrets (b, d)) = b /\
  forall n, template_annotation (snd (fold_left applySecretAnnotation secrets (b, d))) n
            = template_annotation d n.
Proof.
  revert b d. induction secrets as [|[sec|] secrets IH]; intros b d Hs; cbn [fold_left]; [done| |].
  - destruct (applySecretAnnotation (b, d) (Some sec)) as [b1 d1] eqn:E.
    apply applySecretAnnotation_spec in E as (Ht & Hb & _).
    assert (b1 = b) as ->.
    { destruct b, b1; try done; [by apply Hb; left|].
      destruct (proj1 Hb eq_refl) as [|[Har Hne]]; [done|]. destruct Hne.
      apply Hs; [constructor|done]. }
    assert (forall n, template_annotation d1 n = template_annotation d n) as Hsame.
    { intros n. rewrite Ht. case_decide as Hd; [|done]. destruct Hd as [Har ->].
      symmetry. apply Hs; [constructor|done]. }
    destruct (IH b d1) as [-> Hn].
    { intros sec' Hin Har. rewrite Hsame. apply Hs; [by constructor|done]. }
    split; [done|]. intros n. by rewrite Hn.
  - apply IH. intros sec Hin. apply Hs. by constructor.
Qed.

Lemma apply_all secrets b d :
  consistent_versions secrets ->
  let '(b', d') := fold_left applySecretAnnotation secrets (b, d) in
  (forall sec, Some sec ∈ secrets -> auto_restart sec ->
     template_annotation d' (m_Name (sec_Meta sec)) = m_ResourceVersion (sec_Meta sec)) /\
  (forall n, (forall sec, Some sec ∈ secrets -> auto_restart sec -> n <> m_Name (sec_Meta sec)) ->
     template_annotation d' n = template_annotation d n).
Proof.
  revert b d. induction secrets as [|[sec|] secrets IH]; intros b d Hc; cbn [fold_left].
  - split; [intros sec Hin; by apply elem_of_nil in Hin|done].
  - destruct (applySecretAnnotation (b, d) (Some sec)) as [b1 d1] eqn:E.
    apply applySecretAnnotation_spec in E as (Ht & _).
    assert (consistent_versions secrets) as Hc'
      by (intros x y Hx Hy; apply Hc; by constructor).
    specialize (IH b1 d1 Hc'). destruct (fold_left _ _ _) as [b' d']. destruct IH as [IH1 IH2].
    split.
    + intros x Hx Har. apply elem_of_cons in Hx as [Heq|Hx]; [|by apply IH1].
      injection Heq as ->.
      destruct (decide (Exists (fun o => hits (m_Name (sec_Meta sec)) o = true) secrets))
        as [Hex|Hno].
      * apply Exists_exists in Hex as (o & Ho & (y & -> & Hy & Hn)%hits_true).
        rewrite <- Hn, IH1 by done. apply Hc; [by constructor|constructor|done].
      * rewrite IH2.
        -- rewrite Ht. by rewrite decide_True.
        -- intros y Hy Hary Hn. apply Hno, Exists_exists. exists (Some y).
           rewrite hits_true. eauto.
    + intros n Hn. rewrite IH2, Ht.
      * rewrite decide_False; [done|]. intros [Har ->]. by eapply Hn; [constructor|..].
      * intros y Hy. apply Hn. by constructor.
  - assert (consistent_versions secrets) as Hc'
      by (intros x y Hx Hy; apply Hc; by constructor).
    specialize (IH b d Hc'). destruct (fold_left _ _ _) as [b' d']. destruct IH as [IH1 IH2].
    split.
    + intros x Hx. apply elem_of_cons in Hx as [|Hx]; [done|by apply IH1].
    + intros n Hn. apply IH2. intros y Hy. apply Hn. by constructor.
Qed.

(** ** Properties *)

(** C19: Merging the annotations of an existing claim: a desired key gets its
    desired value, a key that was managed before and is no longer desired is
    removed, any other key keeps the value it had. *)
Theorem pvc_annotations_merge found desired status k :
  exists m, mergePVCAnnotations (Some found) desired status = Ok (Some m) /\
    m !! k = match gm desired !! k with
             | Some v => Some v
             | None => if decide (is_Some (gm status !! k)) then None else found !! k
             end.
Proof.
  unfold mergePVCAnnotations. simpl.
  destruct (delete_stale_lookup (gm desired) (gm status) (range_insert (gm desired) found))
    as (m & -> & Hl).
  exists m. split; [done|]. rewrite Hl, range_insert_union.
  destruct (gm desired !! k) as [v|] eqn:Hd.
  - rewrite decide_False by naive_solver. by apply lookup_union_Some_l.
  - rewrite lookup_union_r by done. repeat case_decide; naive_solver.
Qed.

(** C39: A claim whose annotation map is nil: merging a non-empty set of desired
    annotations into it makes the operator panic on the nil map. *)
Theorem pvc_nil_annotations_panic desired status :
  mergePVCAnnotations None desired status
  = if decide (gm desired = ∅) then Ok None else Panic NilMapWrite.
Proof.
  unfold mergePVCAnnotations, maps_Copy. do 2 case_decide; try done.
  cbn [mbind Res_bind]. rewrite delete_stale_nil. done.
Qed.

(** C18: Restart annotations: after the loop every auto-restart secret has its
    current version in the pod template, annotations of other secrets are
    untouched, and a second run over the same secrets reports no change. *)
Theorem restart_annotations_settle secrets d :
  consistent_versions secrets ->
  let '(modified, d') := applyAutoRestartSecretAnnotations d secrets in
  (forall sec, Some sec ∈ secrets -> auto_restart sec ->
     template_annotation d' (m_Name (sec_Meta sec)) = m_ResourceVersion (sec_Meta sec)) /\
  (forall n, (forall sec, Some sec ∈ secrets -> auto_restart sec -> n <> m_Name (sec_Meta sec)) ->
     template_annotation d' n = template_annotation d n) /\
  fst (applyAutoRestartSecretAnnotations d' secrets) = false.
Proof.
  intros Hc. unfold applyAutoRestartSecretAnnotations.
  pose proof (apply_all secrets false d Hc) as Hall.
  destruct (fold_left applySecretAnnotation secrets (false, d)) as [b' d']. destruct Hall as [H1 H2].
  split_and!; try done. by apply apply_settled.
Qed.
