(* ===== verification/Bounds.v ===== *)
(** * The writes of deployments come to an end

    Every operation that updates a deployment retries on a conflict.  With the
    four steps of the default backoff the number of its calls is bounded,
    whatever the API server answers. *)

From S2P Require Import Prelude GoStrings Types Util Provider Platform Conditions Reconciler.

Definition is_update (e : Event) : Prop :=
  match e with EvUpdate _ _ => True | _ => False end.
#[global] Instance is_update_dec e : Decision (is_update e).
Proof. destruct e; apply _. Defined.

(** The run adds at most [n] calls, at most [u] of them updates. *)
Definition adds {W} (n u : nat) (s s' : St W) : Prop :=
  exists evs, st_trace s' = st_trace s ++ evs /\ (length evs <= n)%nat /\
    (length (filter is_update evs) <= u)%nat.

(** ** Lemmas *)

Lemma adds_trans {W} n1 u1 n2 u2 (s1 s2 s3 : St W) :
  adds n1 u1 s1 s2 -> adds n2 u2 s2 s3 -> adds (n1 + n2) (u1 + u2) s1 s3.
Proof.
  intros (e1 & H1 & N1 & U1) (e2 & H2 & N2 & U2). exists (e1 ++ e2).
  rewrite H2, H1, app_assoc, filter_app, !length_app. split_and!; [done|lia|lia].
Qed.

Lemma adds_weaken {W} n u n' u' (s s' : St W) :
  adds n u s s' -> (n <= n')%nat -> (u <= u')%nat -> adds n' u' s s'.
Proof. intros (e & H & N & U) Hn Hu. exists e. split_and!; [done|lia|lia]. Qed.

Lemma adds_one {W} e u (s s' : St W) :
  st_trace s' = st_trace s ++ [e] -> (length (filter is_update [e]) <= u)%nat -> adds 1 u s s'.
Proof. intros Ht Hu. by exists [e]. Qed.

Section bounds.
Context {W : Type} `{!KubeClient W} `{!WaitLib W} `{!WaitLaws W}.

Lemma get_adds k ns n (s : St W) r s' : client_Get k ns n s = (r, s') -> adds 1 0 s s'.
Proof.
  unfold client_Get. destruct (kc_get k ns n (st_world s)) as [r0 w]. intros [= _ <-].
  eapply adds_one; [reflexivity|simpl; lia].
Qed.

Lemma create_adds k (o : Obj k) (s : St W) r s' : client_Create k o s = (r, s') -> adds 1 0 s s'.
Proof.
  unfold client_Create, emit, modify, on_world, mbind, M_bind. simpl.
  destruct (kc_create k o (st_world s)) as [r0 w]. intros [= _ <-]. eapply adds_one; [reflexivity|simpl; lia].
Qed.

Lemma update_adds k (o : Obj k) (s : St W) r s' : client_Update k o s = (r, s') -> adds 1 1 s s'.
Proof.
  unfold client_Update, emit, modify, on_world, mbind, M_bind. simpl.
  destruct (kc_update k o (st_world s)) as [r0 w]. intros [= _ <-]. eapply adds_one; [reflexivity|simpl; lia].
Qed.

(** A retried function multiplies its bounds by the number of steps. *)
Lemma retry_adds fn n u (s : St W) r s' :
  (forall s r s', fn s = (r, s') -> adds n u s s') ->
  RetryOnConflict fn s = (r, s') -> adds (4 * n) (4 * u) s s'.
Proof.
  intros Hfn Hrun%wl_retry_law.
  assert (forall m s r s', RetryRun fn m s r s' -> adds (m * n) (m * u) s s') as Hind.
  { clear Hrun s r s'. intros m s r s' Hrun.
    induction Hrun as [m s w r s' Hr _|s w e s' Hr _|m s w e s1 r s' Hr _ _ IH].
    - eapply adds_weaken; [exact (Hfn (set_world w s) r s' Hr)|lia|lia].
    - eapply adds_weaken; [exact (Hfn (set_world w s) _ s' Hr)|lia|lia].
    - eapply adds_weaken; [eapply adds_trans; [exact (Hfn (set_world w s) _ s1 Hr)|exact IH]|lia|lia]. }
  by apply Hind in Hrun.
Qed.

(** Read, then go on. *)
Lemma get_then_adds {A} k ns n (f : Obj k -> M W A) m u (s : St W) r s' :
  (forall o s r s', f o s = (r, s') -> adds m u s s') ->
  (client_Get k ns n ≫= f) s = (r, s') -> adds (1 + m) u s s'.
Proof.
  intros Hf [(o & s1 & Hg & Hr)|[(e & Hg & _)|(p & Hg & _)]]%M_bind_inv; apply get_adds in Hg;
    try (eapply adds_weaken; [exact Hg|lia|lia]).
  apply Hf in Hr. by apply (adds_trans _ _ _ _ _ _ _ Hg Hr).
Qed.

Lemma try_get_adds {A} k ns n (f : error + Obj k -> M W A) m u (s : St W) r s' :
  (forall x s r s', f x s = (r, s') -> adds m u s s') ->
  (try_ (client_Get k ns n) ≫= f) s = (r, s') -> adds (1 + m) u s s'.
Proof.
  intros Hf. unfold try_, mbind, M_bind.
  destruct (client_Get k ns n s) as [[o|e|p] s1] eqn:Hg; apply get_adds in Hg; intros Hr;
    [| |injection Hr as _ <-; eapply adds_weaken; [exact Hg|lia|lia]];
    apply Hf in Hr; by apply (adds_trans _ _ _ _ _ _ _ Hg Hr).
Qed.

Lemma update_last k (o : Obj k) (s : St W) r s' :
  (client_Update k o ;; mret tt) s = (r, s') -> adds 1 1 s s'.
Proof.
  by intros [(? & ? & Hu & [= _ <-])|[(? & Hu & _)|(? & Hu & _)]]%M_bind_inv; apply update_adds in Hu.
Qed.

Lemma create_last k (o : Obj k) (s : St W) r s' :
  (client_Create k o ;; mret tt) s = (r, s') -> adds 1 0 s s'.
Proof.
  by intros [(? & ? & Hu & [= _ <-])|[(? & Hu & _)|(? & Hu & _)]]%M_bind_inv; apply create_adds in Hu.
Qed.

Lemma nothing_adds n u (s : St W) : adds n u s s.
Proof. exists []. rewrite app_nil_r. split_and!; [done|simpl; lia..]. Qed.

(** ** Properties *)

(** C13: The write of a deployment terminates after a bounded number of calls,
    whatever the API server answers: applying a deployment makes at most nine
    calls, at most four of them updates; scaling one and refreshing its
    restart annotations at most eight, at most four of them updates. *)
Theorem deployment_writes_bounded :
  (forall d (s : St W) r s', createOrUpdateDeployment d s = (r, s') -> adds 9 4 s s') /\
  (forall n replicas ns (s : St W) r s', scaleDeployment n replicas ns s = (r, s') -> adds 8 4 s s') /\
  (forall ns n secrets (s : St W) r s',
     updateDeploymentSecretRestartAnnotations ns n secrets s = (r, s') -> adds 8 4 s s').
Proof.
  split_and!.
  - intros d s r s'. apply (try_get_adds KDeployment _ _ _ 8 4).
    intros [e|o] s1 r1 s1' Hr.
    + destruct (IsNotFound e); [|injection Hr as _ <-; apply nothing_adds].
      apply create_last in Hr. eapply adds_weaken; [exact Hr|lia|lia].
    + eapply (retry_adds _ 2 1), Hr. intros s2 r2 s2'. apply (get_then_adds KDeployment).
      intros o'. apply update_last.
  - intros n replicas ns s r s'. apply (retry_adds _ 2 1). intros s2 r2 s2'. apply (get_then_adds KDeployment).
    intros o'. apply update_last.
  - intros ns n secrets s r s'. apply (retry_adds _ 2 1). intros s2 r2 s2'.
    apply (try_get_adds KDeployment _ _ _ 1 1). intros [e|o] s3 r3 s3' Hr.
    + destruct (IsNotFound e); injection Hr as _ <-; apply nothing_adds.
    + destruct (applyAutoRestartSecretAnnotations o secrets) as [[|] d'];
        [by apply update_last in Hr|injection Hr as _ <-; apply nothing_adds].
Qed.
End bounds.
