(* ===== verification/Vault.v ===== *)
(** * Vault client and password generation

    [src/operator/controllers/vault_client.go] and [src/operator/util/password.go]:
    login, key-value secrets, policies, auth roles, the password policy and
    the two password generators.  The package variable [vaultClient] is the
    field [st_vault]; using it while nil panics. *)

From S2P Require Import Prelude GoStrings Types Util Provider Platform.

(** The [PasswordGenerator] interface and its two implementations. *)
Inductive PasswordGenerator : Set :=
| OperatorPasswordGenerator
| VaultPasswordGenerator (passwordPolicyName : string).

(** A type assertion to a string map, and to a string. *)
Definition as_map (v : iface) : Res (list (string * iface)) :=
  match v with IMap m => Ok m | _ => Panic TypeAssertion end.
Definition as_string (v : iface) : Res string :=
  match v with IString s => Ok s | _ => Panic TypeAssertion end.
Definition as_number (v : iface) : Res string :=
  match v with INumber s => Ok s | _ => Panic TypeAssertion end.

(** [DecodeJSON] into a [map[string]string]: null is the empty string, any
    other value that is not a string is a type error. *)
Fixpoint decodeStringMap (body : list (string * iface)) : Res (gmap string string) :=
  match body with
  | [] => mret ∅
  | (k, v) :: body =>
      m ← decodeStringMap body;
      match v with
      | IString s => mret (<[k := s]> m)
      | INil => mret (<[k := ""]> m)
      | _ => Err (Errorf "json: cannot unmarshal value into Go value of type string")
      end
  end.

Definition checkVaultConnectionParameters (cr : ZooKeeperService) : Res unit :=
  v ← vaultOf cr;
  if bool_decide (v_Url v = "") then Err (Errorf "vault: Vault connection URL is empty")
  else if bool_decide (v_Method v = "") then
    Err (Errorf "vault: Vault authentication method is empty")
  else if bool_decide (v_Role v = "") then Err (Errorf "vault: Vault operator role is empty")
  else if bool_decide (v_Path v = "") then Err (Errorf "vault: Vault secret store path is empty")
  else mret tt.

Section vault.
Context {W : Type} `{VaultApi W} `{Passwords W}.

(** The package variable, dereferenced by every call on it. *)
Definition vaultClient : M W VaultClient :=
  c ← gets st_vault; lift (deref c).

Definition login : M W string :=
  jwtToken ← on_world va_bearerToken;
  cr ← get_cr;
  v ← lift (vaultOf cr);
  let options := [("jwt", IString jwtToken); ("role", IString (v_Role v))] in
  let loginPath := "/auth/" +:+ v_Method v +:+ "/login" in
  on_world (va_newClient (v_Url v)) ;;
  clientToken ← on_world (va_login (v_Url v) loginPath options);
  lift (deref clientToken).

Definition InitVaultClient : M W unit :=
  cr ← get_cr;
  lift (checkVaultConnectionParameters cr) ;;
  v ← lift (vaultOf cr);
  on_world (va_newClient (v_Url v)) ;;
  clientToken ← login;
  modify (set_vault (Some (mkVaultClient (v_Url v) clientToken))).

Definition WriteVaultSecret (path secretName : string) (secret : list (string * iface)) : M W Z :=
  let secretPath := path +:+ "/data/" +:+ secretName in
  client ← vaultClient;
  let data := [("data", IMap secret)] in
  emit (EvVaultWrite secretPath data) ;;
  vaultSecret ← on_world (va_write client secretPath data);
  reply ← lift (deref vaultSecret);
  version ← lift (as_number (im_get reply "version"));
  lift (ParseInt64 version).

(** [nil] is [None]. *)
Definition ReadVaultSecret (path secretName : string) : M W (option (list (string * iface))) :=
  let secretPath := path +:+ "/data/" +:+ secretName in
  client ← vaultClient;
  emit (EvVaultRead secretPath) ;;
  vaultSecret ← on_world (va_read client secretPath);
  match vaultSecret with
  | None => mret None
  | Some data => m ← lift (as_map (im_get data "data")); mret (Some m)
  end.

Definition ReadVaultPolicy (policyName : string) : M W string :=
  client ← vaultClient;
  emit (EvPolicyRead policyName) ;;
  on_world (va_getPolicy client policyName).

Definition WriteVaultPolicy (policyName policy : string) : M W unit :=
  client ← vaultClient;
  emit (EvPolicyWrite policyName policy) ;;
  on_world (va_putPolicy client policyName policy).

(** A raw request: response and error, each possibly nil. *)
Definition rawRequest (method path : string) (body : option (list (string * iface)))
  : M W (option Response * option error) :=
  client ← vaultClient;
  emit (EvVaultRequest method path body) ;;
  on_world (fun w => let '(r, w) := va_raw client method path body w in (Ok r, w)).

(** The error of the request itself is logged and dropped: [err] of the inner
    scope shadows the one that is returned. *)
Definition WriteVaultPasswordPolicy (policyName : string) (policy : list (string * iface))
  : M W unit :=
  _ ← vaultClient;
  match va_setJSONBody policy with
  | Err e => throw e
  | Panic p => lift (Panic p)
  | Ok _ =>
      _ ← rawRequest "PUT" ("/v1/sys/policies/password/" +:+ policyName) (Some policy);
      mret tt
  end.

Definition GeneratePasswordForPolicy (policyName : string) : M W string :=
  '(response, err) ← rawRequest "GET"
     ("/v1/sys/policies/password/" +:+ policyName +:+ "/generate") None;
  match err with
  | Some e => throw e
  | None =>
      match response with
      | None => throw (Errorf ("vault: Cannot generate password for policy: " +:+ policyName))
      | Some r =>
          body ← lift (rs_Body r);
          respJson ← lift (decodeStringMap body);
          mret (default "" (respJson !! "password"))
      end
  end.

Definition WriteVaultAuthRole (roleName : string) (role : list (string * iface)) : M W unit :=
  cr ← get_cr;
  _ ← vaultClient;
  v ← lift (vaultOf cr);
  lift (va_setJSONBody role) ;;
  '(_, err) ← rawRequest "POST" ("/v1/auth/" +:+ v_Method v +:+ "/role/" +:+ roleName) (Some role);
  match err with Some e => throw e | None => mret tt end.

(** [nil] is [None]. *)
Definition ReadVaultAuthRole (roleName : string) : M W (option (list (string * iface))) :=
  cr ← get_cr;
  _ ← vaultClient;
  v ← lift (vaultOf cr);
  '(response, err) ← rawRequest "GET" ("/v1/auth/" +:+ v_Method v +:+ "/role/" +:+ roleName) None;
  match response with
  | Some r =>
      if bool_decide (rs_StatusCode r = 404) then mret None
      else match err with
           | Some e => throw e
           | None => role ← lift (rs_Body r); mret (Some role)
           end
  | None => match err with Some e => throw e | None => lift (Panic NilDereference) end
  end.

(** ** Password generators *)
Definition NewVaultPasswordGenerator : M W PasswordGenerator :=
  cr ← get_cr;
  let passwordGenerationPolicyName :=
    cr_Name cr +:+ "." +:+ cr_Namespace cr +:+ "-password-policy" in
  WriteVaultPasswordPolicy passwordGenerationPolicyName BuildVaultPasswordPolicy ;;
  mret (VaultPasswordGenerator passwordGenerationPolicyName).

Definition NewOperatorPasswordGenerator : M W PasswordGenerator :=
  lift (pw_newGenerator "_!") ;;
  mret OperatorPasswordGenerator.

Definition Generate (generator : PasswordGenerator) : M W string :=
  match generator with
  | OperatorPasswordGenerator => on_world (pw_generate 10 1 1 false false)
  | VaultPasswordGenerator policyName => GeneratePasswordForPolicy policyName
  end.
End vault.

(** ** Properties *)

(** C37: A failed write of the password policy is not reported: once the request
    body is encoded, the call succeeds whatever Vault answers. *)
Theorem password_policy_write_error_lost {W} `{VaultApi W} name policy s :
  va_setJSONBody policy = Ok tt -> is_Some (st_vault s) ->
  exists s', WriteVaultPasswordPolicy name policy s = (Ok tt, s').
Proof.
  intros Hj [c Hc]. unfold WriteVaultPasswordPolicy, rawRequest, vaultClient, gets, lift, emit,
    modify, on_world, mbind, M_bind. simpl. rewrite Hc. simpl. rewrite Hj, Hc. simpl.
  destruct (va_raw _ _ _ _ _) as [r w]. by eexists.
Qed.

(** Login is attempted only with a complete configuration: when any of URL,
    method, role and path is empty, the client is not initialised, nothing is
    sent and the previous client stays in place. *)
Theorem vault_init_requires_parameters {W} `{VaultApi W} (s : St W) v :
  sp_VaultSecretManagement (cr_Spec (st_cr s)) = Some v ->
  v_Url v = "" \/ v_Method v = "" \/ v_Role v = "" \/ v_Path v = "" ->
  exists e, InitVaultClient s = (Err e, s).
Proof.
  intros Hv Hempty.
  assert (exists e, checkVaultConnectionParameters (st_cr s) = Err e) as [e He].
  { unfold checkVaultConnectionParameters, vaultOf. rewrite Hv. simpl.
    repeat case_bool_decide; try by eexists. naive_solver. }
  exists e. unfold InitVaultClient, get_cr, gets, lift, mbind, M_bind. by rewrite He.
Qed.
