(* ===== verification/ZooKeeperVault.v ===== *)
(** * Vault secrets of the ZooKeeper servers

    [src/operator/controllers/zookeeper_vault.go]: policies, roles and the
    rotation of the admin, client and additional users' credentials.  A secret
    is passed by pointer in the code; here the operation that changes it
    returns it. *)

From S2P Require Import Prelude GoStrings Types Util Provider Platform Conditions Reconciler Vault.
From S2P Require Import ZooKeeperProvider.

Definition refreshCredentialsAnnotation : string := "vault.netcracker.com/refresh-credentials".

Definition needToRefreshCredentials (zooKeeperSecret : Secret) : bool :=
  match m_Annotations (sec_Meta zooKeeperSecret) with
  | None => false
  | Some _ => bool_decide (gm_str (m_Annotations (sec_Meta zooKeeperSecret))
                refreshCredentialsAnnotation = "true")
  end.

Definition needToCleanSecret (secret : Secret) : bool :=
  negb (bool_decide (m_Name (sec_Meta secret) = ""))
  && (bool_decide (is_Some (sec_Data secret)) || needToRefreshCredentials secret).

(** The loop replaces every element by its part before the first colon. *)
Definition userNameOf (v : string) : string := default "" (head (Split colon v)).

Definition extractUserNames (userNamesString : string) : list string :=
  userNameOf <$> Split comma userNamesString.

(** The user name to write: from the secret, else from Vault, else none. *)
Definition chooseUsername (secret : Secret) (key : string)
    (vaultSecret : option (list (string * iface))) : Res string :=
  if secretContainsKey secret key then mret (gm_str (sec_Data secret) key)
  else match vaultSecret with
       | None => mret ""
       | Some data =>
           match im_get data "username" with
           | INil => mret ""
           | v => as_string v
           end
       end.

Definition chooseUserNames (secret : Secret) (vaultSecret : option (list (string * iface)))
  : Res (list string) :=
  if secretContainsKey secret "additional-users"
  then mret (extractUserNames (gm_str (sec_Data secret) "additional-users"))
  else match vaultSecret with
       | None => mret []
       | Some data =>
           match im_get data "users" with
           | INil => mret []
           | v => s ← as_string v; mret (extractUserNames s)
           end
       end.

Section zookeeper_vault.
Context {W : Type} `{KubeClient W} `{VaultApi W} `{Passwords W}.

(** [r.cr.Status.VaultSecretManagementStatus.SecretVersions[name] = version]. *)
Definition setSecretVersion (name : string) (version : Z) : M W unit :=
  cr ← get_cr;
  versions ← lift (gm_set (stt_SecretVersions (cr_Status cr)) name version);
  modify_cr (set_SecretVersions versions).

(** A username and password pair, rotated when Vault has none or when the
    secret asks for it: the common body of the admin, the client and the
    backup daemon's credentials. *)
Definition rotateCredentials (credentialsSecretName usernameKey : string) (secret : Secret)
    (passwordGenerator : PasswordGenerator) : M W unit :=
  cr ← get_cr;
  v ← lift (vaultOf cr);
  vaultSecret ← ReadVaultSecret (v_Path v) credentialsSecretName;
  if bool_decide (vaultSecret = None) || needToRefreshCredentials secret then
    username ← lift (chooseUsername secret usernameKey vaultSecret);
    password ← (if bool_decide (username = "") then mret "" else Generate passwordGenerator);
    let credentialsSecret := [("username", IString username); ("password", IString password)] in
    version ← WriteVaultSecret (v_Path v) credentialsSecretName credentialsSecret;
    setSecretVersion credentialsSecretName version
  else mret tt.

Definition credentialsName (serviceName : string) (cr : ZooKeeperService) (kind : string)
  : string := serviceName +:+ "." +:+ cr_Namespace cr +:+ "/" +:+ kind.

Definition processAdminCredentials (zooKeeperSecret : Secret)
    (passwordGenerator : PasswordGenerator) : M W unit :=
  cr ← get_cr;
  rotateCredentials (credentialsName (cr_Name cr) cr "admin-credentials") "admin-username"
    zooKeeperSecret passwordGenerator.

Definition processClientCredentials (zooKeeperSecret : Secret)
    (passwordGenerator : PasswordGenerator) : M W unit :=
  cr ← get_cr;
  rotateCredentials (credentialsName (cr_Name cr) cr "client-credentials") "client-username"
    zooKeeperSecret passwordGenerator.

(** The entries [user:password], one fresh password per non-empty name. *)
Fixpoint generateUsers (passwordGenerator : PasswordGenerator) (userNames : list string)
  : M W (list string) :=
  match userNames with
  | [] => mret []
  | username :: rest =>
      if bool_decide (username = "") then generateUsers passwordGenerator rest
      else
        pass ← Generate passwordGenerator;
        users ← generateUsers passwordGenerator rest;
        mret ((username +:+ ":" +:+ pass) :: users)
  end.

Definition processAdditionalUsersCredentials (zooKeeperSecret : Secret)
    (passwordGenerator : PasswordGenerator) : M W unit :=
  cr ← get_cr;
  let additionalUsersSecretName := credentialsName (cr_Name cr) cr "additional-users" in
  v ← lift (vaultOf cr);
  additionalUsersSecret ← ReadVaultSecret (v_Path v) additionalUsersSecretName;
  if bool_decide (additionalUsersSecret = None) || needToRefreshCredentials zooKeeperSecret then
    userNames ← lift (chooseUserNames zooKeeperSecret additionalUsersSecret);
    additionalUsers ← generateUsers passwordGenerator userNames;
    version ← WriteVaultSecret (v_Path v) additionalUsersSecretName
                [("users", IString (Join "," additionalUsers))];
    setSecretVersion additionalUsersSecretName version
  else mret tt.

(** Write a policy when Vault has none or the secret asks for a refresh. *)
Definition ensurePolicy (policyName : string) (secret : Secret) (policy : Res string) : M W unit :=
  current ← ReadVaultPolicy policyName;
  if bool_decide (current = "") || needToRefreshCredentials secret then
    text ← lift policy;
    WriteVaultPolicy policyName text
  else mret tt.

Definition ensureRole (roleName : string) (secret : Secret) (role : list (string * iface))
  : M W unit :=
  current ← ReadVaultAuthRole roleName;
  if bool_decide (current = None) || needToRefreshCredentials secret then
    WriteVaultAuthRole roleName role
  else mret tt.

Definition scopedName (serviceName : string) (cr : ZooKeeperService) (suffix : string) : string :=
  serviceName +:+ "." +:+ cr_Namespace cr +:+ suffix.

Definition newPasswordGenerator : M W PasswordGenerator :=
  cr ← get_cr;
  v ← lift (vaultOf cr);
  if bool_decide (v_PasswordGenerationMechanism v = "vault")
  then NewVaultPasswordGenerator else NewOperatorPasswordGenerator.

(** Empty the secret once its credentials are in Vault. *)
Definition cleanSecret (secret : Secret) : M W Secret :=
  if needToCleanSecret secret then
    annotations ← lift (gm_set (m_Annotations (sec_Meta secret))
                          refreshCredentialsAnnotation "false");
    secret ← cleanSecretData
               (mkSecret (set_Annotations annotations (sec_Meta secret)) (sec_Data secret));
    setVersion (m_Name (sec_Meta secret)) (m_ResourceVersion (sec_Meta secret)) ;;
    mret secret
  else mret secret.

Definition writeZooKeeperPolicies (zooKeeperSecret : Secret) : M W unit :=
  cr ← get_cr;
  let adminPolicyName := scopedName (cr_Name cr) cr "-admin-policy" in
  ensurePolicy adminPolicyName zooKeeperSecret (BuildVaultPolicy (cr_Name cr) cr ["*"]) ;;
  ensureRole (scopedName (cr_Name cr) cr "-role") zooKeeperSecret
    (BuildVaultRole (ZK.GetServiceAccountName (NewZooKeeperResourceProvider cr)) cr
       [adminPolicyName]) ;;
  ensurePolicy (scopedName (cr_Name cr) cr "-client-policy") zooKeeperSecret
    (BuildVaultPolicy (cr_Name cr) cr ["client-credentials"]).

Definition processVaultSecrets (zooKeeperSecret : Secret) : M W Secret :=
  modify_cr (fun cr => match stt_SecretVersions (cr_Status cr) with
                       | None => set_SecretVersions (Some ∅) cr
                       | Some _ => cr
                       end) ;;
  cr ← get_cr;
  v ← lift (vaultOf cr);
  when (v_WritePolicies v) (writeZooKeeperPolicies zooKeeperSecret) ;;
  passwordGenerator ← newPasswordGenerator;
  processAdminCredentials zooKeeperSecret passwordGenerator ;;
  processClientCredentials zooKeeperSecret passwordGenerator ;;
  processAdditionalUsersCredentials zooKeeperSecret passwordGenerator ;;
  cleanSecret zooKeeperSecret.
End zookeeper_vault.

(** The user names that are not empty. *)
Definition named_users (l : list string) : list string := filter (fun n => n <> "") l.

(** ** Lemmas *)

Lemma userNameOf_entry n p : has_char colon n = false -> userNameOf (n +:+ ":" +:+ p) = n.
Proof.
  intros Hn. unfold userNameOf. change (":" +:+ p) with (String colon p).
  by rewrite Split_cons_sep.
Qed.

Section lemmas.
Context {W : Type} `{KubeClient W} `{VaultApi W} `{Passwords W}.

Lemma generateUsers_entries g names (s : St W) users s' :
  generateUsers g names s = (Ok users, s') ->
  Forall2 (fun n u => exists p, u = n +:+ ":" +:+ p) (named_users names) users.
Proof.
  revert s users s'. induction names as [|n names IH]; intros s users s' Hr; simpl in Hr.
  - injection Hr as <- <-. constructor.
  - unfold named_users. case_bool_decide as Hn.
    + rewrite filter_cons_False by naive_solver. by eapply IH.
    + rewrite filter_cons_True by done.
      apply M_bind_Ok in Hr as (p & s1 & _ & Hr). apply M_bind_Ok in Hr as (us & s2 & Hus & Hr).
      injection Hr as <- <-. constructor; [by exists p|by eapply IH].
Qed.

Lemma setSecretVersion_run name v (s s' : St W) :
  setSecretVersion name v s = (Ok tt, s') ->
  gm (stt_SecretVersions (cr_Status (st_cr s'))) !! name = Some v /\ st_trace s' = st_trace s.
Proof.
  unfold setSecretVersion. intros (cr & ? & [= <- <-] & Hr)%M_bind_Ok.
  apply M_bind_Ok in Hr as (m & ? & [= Hm <-] & Hr). injection Hr as <-.
  destruct (stt_SecretVersions (cr_Status (st_cr s))) as [m0|] eqn:E; [|done].
  injection Hm as <-. simpl. split; [by rewrite lookup_insert_eq|done].
Qed.

Lemma WriteVaultSecret_trace path name data (s : St W) v s' :
  WriteVaultSecret path name data s = (Ok v, s') ->
  st_trace s' = st_trace s ++ [EvVaultWrite (path +:+ "/data/" +:+ name) [("data", IMap data)]] /\
  st_cr s' = st_cr s.
Proof.
  unfold WriteVaultSecret. intros (c & s1 & Hc & Hr)%M_bind_Ok.
  assert (s1 = s) as ->.
  { unfold vaultClient in Hc. apply M_bind_Ok in Hc as (? & ? & [= <- <-] & [= _ <-]). done. }
  apply M_bind_Ok in Hr as (? & ? & [= <- <-] & Hr). apply M_bind_Ok in Hr as (rep & s2 & Hw & Hr).
  unfold on_world in Hw. destruct (va_write _ _ _ _) as [? w]. injection Hw as -> <-.
  apply M_bind_Ok in Hr as (? & ? & [= _ <-] & Hr). apply M_bind_Ok in Hr as (? & ? & [= _ <-] & Hr).
  by injection Hr as _ <-.
Qed.

(** ** Properties *)

(** C17: Rotating the additional users keeps them: the user names read back from
    the entry written to Vault are the non-empty names the rotation started
    from, for names free of colons and entries free of commas. *)
Theorem rotated_users_keep_names g names (s : St W) users s' :
  Forall (fun n => has_char colon n = false) names ->
  generateUsers g names s = (Ok users, s') ->
  Forall (fun u => has_char comma u = false) users ->
  named_users (extractUserNames (Join "," users)) = named_users names.
Proof.
  intros Hnames Hgen Hcomma. apply generateUsers_entries in Hgen.
  assert (Forall (fun n => has_char colon n = false /\ n <> "") (named_users names)) as Hgood.
  { apply Forall_forall. intros n [Hne Hin]%list_elem_of_filter.
    rewrite Forall_forall in Hnames. auto. }
  destruct users as [|u users].
  - apply Forall2_nil_inv_r in Hgen as ->. done.
  - unfold extractUserNames. rewrite Split_Join by done. remember (u :: users) as us. clear Hequs.
    induction Hgen as [|n e ns es [p ->] Hrest IH]; [done|].
    apply Forall_cons in Hgood as [[Hc Hn] Hgood]. apply Forall_cons in Hcomma as [_ Hcomma].
    rewrite fmap_cons, userNameOf_entry by done. unfold named_users in *.
    rewrite filter_cons_True by done. f_equal. by apply IH.
Qed.


(** No rotation loop: once a secret has been cleaned, the copy the server
    returns asks neither for cleaning nor for a refresh, and its version is
    the recorded one, so the next cycle does not see it as changed.  The
    server is assumed to store the data and annotations it is sent. *)
Theorem cleaned_secret_is_settled sec (s : St W) sec' s' :
  (forall o w o' w', kc_update KSecret o w = (Ok o', w') ->
     sec_Data o' = sec_Data o /\ m_Annotations (sec_Meta o') = m_Annotations (sec_Meta o)) ->
  needToCleanSecret sec = true -> cleanSecret sec s = (Ok sec', s') ->
  needToCleanSecret sec' = false /\ needToRefreshCredentials sec' = false /\
  secretVersionChanged (st_versions s') (Some sec') = false.
Proof.
  intros Hstore Hneed Hrun. unfold cleanSecret, cleanSecretData in Hrun. rewrite Hneed in Hrun.
  apply M_bind_Ok in Hrun as (ann & ? & [= Hann <-] & Hrun).
  apply M_bind_Ok in Hrun as (o & s1 & Hup & Hrun). injection Hrun as <- <-.
  unfold client_Update, emit, modify, on_world, mbind, M_bind in Hup. simpl in Hup.
  destruct (kc_update KSecret _ _) as [ro w] eqn:E. injection Hup as -> <-.
  apply Hstore in E as [Hdata Ha]. simpl in Hdata, Ha.
  assert (needToRefreshCredentials o = false) as Href.
  { unfold needToRefreshCredentials. rewrite Ha.
    destruct (m_Annotations (sec_Meta sec)) as [m|]; [|done]. injection Hann as <-.
    rewrite gm_str_insert. by rewrite decide_True. }
  split_and!; [|done|].
  - unfold needToCleanSecret. rewrite Hdata, Href. simpl. by rewrite andb_false_r.
  - unfold secretVersionChanged. simpl. rewrite lookup_insert_eq. simpl.
    rewrite (bool_decide_eq_true_2 (_ = m_ResourceVersion _)) by done. by rewrite andb_false_r.
Qed.

(** C40: A secret with data but no annotations at all: cleaning it panics on the
    nil annotation map. *)
Theorem clean_secret_nil_annotations sec (s : St W) :
  m_Name (sec_Meta sec) <> "" -> is_Some (sec_Data sec) ->
  m_Annotations (sec_Meta sec) = None -> cleanSecret sec s = (Panic NilMapWrite, s).
Proof.
  intros Hn Hd Ha. unfold cleanSecret, needToCleanSecret.
  rewrite bool_decide_eq_false_2, (bool_decide_eq_true_2 (is_Some _)) by done. simpl.
  by rewrite Ha.
Qed.
End lemmas.
