(* ===== verification/Fragments.v ===== *)
(** * What the sub-reconcilers have in common

    [zookeeper_reconciler.go], [monitoring_reconciler.go],
    [backupdaemon_reconciler.go] and [integrationtests_reconciler.go] repeat
    the same steps: watch a secret, decide whether anything changed, apply an
    owned service or deployment, and report the readiness of the pods.  Each
    step is one definition here, used by the file of every sub-reconciler.
    [ReconcileService] is the interface they implement. *)

From S2P Require Import Prelude GoStrings Types Util Provider Platform Conditions Reconciler Vault.
From S2P Require Import ZooKeeperProvider ZooKeeperVault.

Definition globalHashName : string := "spec.global".
Definition specHashName : string := "spec".

(** The interface [ReconcileService]; [rs_Name] is the type name that appears
    in the messages. *)
Record ReconcileService (W : Type) : Type := mkReconcileService {
  rs_Name : string;
  rs_Reconcile : M W unit;
  rs_Status : M W unit }.
Arguments mkReconcileService {W}.
Arguments rs_Name {W}.
Arguments rs_Reconcile {W}.
Arguments rs_Status {W}.

Section fragments.
Context {W : Type} `{KubeClient W} `{WaitLib W} `{Quantities}.

(** The secret of the component; when Vault manages the secrets it may have
    been removed, and then an empty one stands for it. *)
Definition watchOwnSecret (secretName : string) : M W Secret :=
  r ← try_ (watchSecret secretName);
  match r with
  | inr secret => mret secret
  | inl err =>
      cr ← get_cr;
      if IsVaultSecretManagementEnabled cr && IsNotFound err then mret emptySecret else throw err
  end.

(** A further secret that may be missing: nil is [None]. *)
Definition watchOptionalSecret (secretName : string) : M W (option Secret) :=
  r ← try_ (watchSecret secretName);
  match r with
  | inr secret => mret (Some secret)
  | inl err => if IsNotFound err then mret None else throw err
  end.

(** The condition under which a component is reconciled. *)
Definition configurationChanged (hashName specHash : string) (secrets : list (option Secret))
  : M W bool :=
  hash ← hashOf hashName;
  recordedGlobal ← hashOf globalHashName;
  globalSpecHash ← gets st_globalHash;
  versions ← gets st_versions;
  mret (negb (bool_decide (hash = specHash))
        || negb (bool_decide (recordedGlobal = globalSpecHash))
        || existsb (secretVersionChanged versions) secrets).

(** Own and apply a service; own, annotate and apply a deployment. *)
Definition applyService (service : Res Service) : M W unit :=
  service ← lift service;
  cr ← get_cr;
  meta ← SetControllerReference cr (svc_Meta service);
  createOrUpdateService (set_svc_Meta meta service).

Definition applyDeployment (deployment : Res Deployment) (secrets : list (option Secret))
  : M W unit :=
  deployment ← lift deployment;
  cr ← get_cr;
  meta ← SetControllerReference cr (d_Meta deployment);
  createOrUpdateDeployment
    (snd (applyAutoRestartSecretAnnotations (set_d_Meta meta deployment) secrets)).

(** List the pods, store their names in the status, write the status. *)
Definition updateNodes (labels : gmap string string)
    (set_Nodes : list string -> ZooKeeperService -> ZooKeeperService) : M W unit :=
  cr ← get_cr;
  pods ← findPodList (cr_Namespace cr) labels;
  modify_cr (set_Nodes (getPodNames pods)) ;;
  client_StatusUpdate.

(** [r.reconciler.ResourceVersions[secret.Name] = secret.ResourceVersion]. *)
Definition recordVersion (secret : option Secret) : M W unit :=
  match secret with
  | None => mret tt
  | Some sec => setVersion (m_Name (sec_Meta sec)) (m_ResourceVersion (sec_Meta sec))
  end.

(** The body of every [Status] method: announce the check, poll, report. *)
Definition reportReadiness (reason started failed ready : string) (timeout : M W Z)
    (condition : M W bool) : M W unit :=
  updateConditions (NewCondition statusFalse typeInProgress reason started) ;;
  seconds_ ← timeout;
  r ← try_ (PollUntilContextTimeout (10 * second) (seconds seconds_) true condition);
  match r with
  | inl _ => updateConditions (NewCondition statusFalse typeFailed reason failed)
  | inr _ => updateConditions (NewCondition statusTrue typeReady reason ready)
  end.

(** [r.cr.Spec.Global.PodsReadyTimeout]. *)
Definition podsReadyTimeout : M W Z :=
  cr ← get_cr;
  g ← lift (globalOf cr);
  mret (g_PodsReadyTimeout g).

(** Is the named deployment of the resource's namespace ready? *)
Definition deploymentReady (deploymentName : string) : M W bool :=
  cr ← get_cr;
  isDeploymentReady deploymentName (cr_Namespace cr).
End fragments.
