(* ===== verification/Frames.v ===== *)
(** * Contracts of the shared operations

    [KubeLaws] is the documented behaviour of the API client the proofs rely
    on.  [OpFrame] is a contract between the shared operations and the
    properties proved about whole reconciliations: it lists what a relation
    between states has to tolerate (reads, status changes, version caches, and
    writes that stay in the namespace of the resource, hit an allowed
    deployment, and update a deployment only right after reading it at the
    same version).  Every operation is proved once against the contract; a
    property is then an instance of it. *)

From S2P Require Import Prelude GoStrings Types Util Provider Platform Conditions Reconciler Vault.
From S2P Require Import ZooKeeperProvider ZooKeeperVault Fragments.

(** Reading returns the object stored under the name that was asked for;
    a write's reply is the same object; setting an owner changes the owner
    references only; a status update returns the same resource. *)
Class KubeLaws (W : Type) `{KubeClient W} : Prop := {
  kl_get : forall k ns n w o w', kc_get k ns n w = (Ok o, w') ->
    m_Namespace (meta_of o) = ns /\ m_Name (meta_of o) = n;
  kl_update : forall k o w o' w', kc_update k o w = (Ok o', w') ->
    m_Namespace (meta_of o') = m_Namespace (meta_of o) /\
    m_Name (meta_of o') = m_Name (meta_of o);
  kl_owner : forall cr m m', kc_setControllerReference cr m = Ok m' ->
    exists o, m' = set_OwnerReferences o m;
  kl_status : forall cr w cr' w', kc_status_update cr w = (Ok cr', w') ->
    cr_Namespace cr' = cr_Namespace cr /\ cr_Name cr' = cr_Name cr }.

(** The custom resource at hand is [ns]/[nm]. *)
Definition named {W} (ns nm : string) (s : St W) : Prop :=
  cr_Namespace (st_cr s) = ns /\ cr_Name (st_cr s) = nm.

(** An event that writes nothing to the API server. *)
Definition quiet (e : Event) : Prop :=
  match e with EvCreate _ _ | EvUpdate _ _ => False | _ => True end.

(** A secret that is absent or lives in the namespace. *)
Definition secret_in (ns : string) (sec : Secret) : Prop :=
  m_Name (sec_Meta sec) = "" \/ m_Namespace (sec_Meta sec) = ns.

(** The secret as the API server returned it at some point. *)
Definition from_server (W : Type) `{KubeClient W} (sec : Secret) : Prop :=
  exists w w' : W, (exists o, kc_update KSecret o w = (Ok sec, w')) \/
                   (exists ns n, kc_get KSecret ns n w = (Ok sec, w')).
Definition server_secret (W : Type) `{KubeClient W} (ns : string) (sec : Secret) : Prop :=
  m_Name (sec_Meta sec) = "" \/ m_Namespace (sec_Meta sec) = ns /\ from_server W sec.
Definition opt_server_secret (W : Type) `{KubeClient W} (ns : string) (o : option Secret) : Prop :=
  match o with Some sec => server_secret W ns sec | None => True end.

(** The same secret, or what the server returned for it. *)
Definition descends (W : Type) `{KubeClient W} (ns : string) (sec sec' : Secret) : Prop :=
  m_Name (sec_Meta sec') = m_Name (sec_Meta sec) /\
  (sec' = sec \/ m_Namespace (sec_Meta sec') = ns /\ from_server W sec').

Class OpFrame {W} `{KubeClient W} (ns nm : string) (D : string -> Prop) (R : St W -> St W -> Prop) : Prop := {
  of_preorder :: PreOrder R;
  of_world : forall s w, R s (set_world w s);
  of_status : forall s t, R s (set_cr (set_Status t (st_cr s)) s);
  of_version : forall s sec, server_secret W ns sec ->
    R s (set_versions (<[m_Name (sec_Meta sec) := m_ResourceVersion (sec_Meta sec)]>
                         (st_versions s)) s);
  of_quiet : forall s e, quiet e -> R s (log_event e s);
  of_write : forall s k (o : Obj k), k <> KDeployment -> m_Namespace (meta_of o) = ns ->
    R s (log_event (EvCreate k o) s) /\ R s (log_event (EvUpdate k o) s);
  of_create : forall s (d : Obj KDeployment), m_Namespace (d_Meta d) = ns ->
    D (m_Name (d_Meta d)) -> R s (log_event (EvCreate KDeployment d) s);
  of_update : forall s (d d' : Obj KDeployment), m_Namespace (d_Meta d') = ns ->
    D (m_Name (d_Meta d')) -> m_ResourceVersion (d_Meta d') = m_ResourceVersion (d_Meta d) ->
    R s (log_event (EvUpdate KDeployment d')
           (log_event (EvGet KDeployment ns (m_Name (d_Meta d')) (Ok d)) s)) }.

(** The contract of a sub-reconciler adds what its own steps do: status
    updates, which bring back the server's copy of the resource, and the
    rolling update flag. *)
Class ReconcileFrame {W} `{KubeClient W} (ns nm : string) (D : string -> Prop)
    (R : St W -> St W -> Prop) : Prop := {
  rf_op :: OpFrame ns nm D R;
  rf_reply : forall s c w w', kc_status_update (st_cr s) w = (Ok c, w') -> R s (set_cr c s);
  rf_rolling : forall s b, R s (set_cr (set_RollingUpdate b (st_cr s)) s) }.

(** The relation allows recording a hash under the name [k]. *)
Definition records {W} (R : St W -> St W -> Prop) (k : string) : Prop :=
  forall s h, R s (set_hashes (<[k := h]> (st_hashes s)) s).

(** The contract of a whole cycle adds the package variables and the hashes of
    the sections. *)
Class ControllerFrame {W} `{KubeClient W} (ns nm : string) (D : string -> Prop)
    (R : St W -> St W -> Prop) : Prop := {
  cf_reconcile :: ReconcileFrame ns nm D R;
  cf_hash : forall k, k <> specHashName -> k <> globalHashName -> records R k;
  cf_vault : forall s v, R s (set_vault v s);
  cf_globalHash : forall s h, R s (set_globalHash h s) }.

(** ** Lemmas *)
Section secrets.
Context {W : Type} `{!KubeClient W}.

Lemma server_secret_in ns sec : server_secret W ns sec -> secret_in ns sec.
Proof. intros [?|[? _]]; [by left|by right]. Qed.

Lemma descends_in ns sec sec' : descends W ns sec sec' -> secret_in ns sec -> secret_in ns sec'.
Proof. by intros [_ [->|[? _]]]; [|right]. Qed.

Lemma descends_server ns sec sec' :
  descends W ns sec sec' -> server_secret W ns sec -> server_secret W ns sec'.
Proof. by intros [_ [->|?]]; [|right]. Qed.

Lemma descends_refl ns sec : descends W ns sec sec.
Proof. split; [done|by left]. Qed.

Lemma descends_trans ns a b c : descends W ns a b -> descends W ns b c -> descends W ns a c.
Proof. intros [H1 H2] [H3 H4]. split; [congruence|]. destruct H4 as [->|?]; [done|by right]. Qed.
End secrets.
#[export] Hint Resolve descends_refl server_secret_in : zk.

#[global] Instance OpFrame_Frame {W} `{!KubeClient W} ns nm D (R : St W -> St W -> Prop) :
  OpFrame ns nm D R -> Frame (named ns nm) R.
Proof. intros HR. split; [apply _|apply of_world|done]. Qed.

Section operations.
Context {W : Type} `{!KubeClient W} `{!KubeLaws W} `{!WaitLib W} `{!WaitLaws W}.
Context `{!Quantities} `{!VaultApi W} `{!Passwords W}.
Context (ns nm : string) (D : string -> Prop) (R : St W -> St W -> Prop) `{!OpFrame ns nm D R}.
#[local] Abbreviation hold := (holds (named ns nm) R).

Lemma emit_quiet e : quiet e -> hold any (emit e).
Proof.
  intros He. rule holds_modify. intros s Hs. split; [exact Hs|by eapply of_quiet].
Qed.
#[local] Hint Resolve emit_quiet : zk.
#[local] Hint Extern 1 (quiet _) => exact I : zk.

Lemma get_ok k n' n : hold (fun o : Obj k => m_Namespace (meta_of o) = n' /\ m_Name (meta_of o) = n)
    (client_Get k n' n).
Proof.
  intros s r s' Hs Hr. unfold client_Get in Hr.
  destruct (kc_get k n' n (st_world s)) as [r0 w] eqn:E. simplify_eq. split_and!.
  - exact Hs.
  - etrans; [eapply (of_world s w)|by eapply of_quiet].
  - intros a ->. by eapply kl_get.
Qed.
#[local] Hint Resolve get_ok : zk.

Lemma get_failed {A} k n' n s r s' (x : Res A) (Q : A -> Prop) :
  named ns nm s -> client_Get k n' n s = (r, s') -> is_Ok x = false ->
  named ns nm s' /\ R s s' /\ (forall a, x = Ok a -> Q a).
Proof.
  intros Hs Hget Hx. destruct (get_ok k n' n s r s' Hs Hget) as (? & ? & _).
  split_and!; [done..|]. by intros a ->.
Qed.

Lemma on_world_any {A} (f : W -> Res A * W) : hold any (on_world f).
Proof. by rule holds_on_world. Qed.
#[local] Hint Resolve on_world_any : zk.

Lemma list_ok k n l : hold any (client_List k n l).
Proof. unfold client_List. holds. Qed.
#[local] Hint Resolve list_ok : zk.

Lemma findPodList_ok n l : hold any (findPodList n l).
Proof. apply (list_ok KPod). Qed.

Lemma findDeploymentList_ok n l : hold any (findDeploymentList n l).
Proof. apply (list_ok KDeployment). Qed.
#[local] Hint Resolve findPodList_ok findDeploymentList_ok : zk.

Lemma getPodsForDeployment_ok n : hold any (getPodsForDeployment n).
Proof. unfold getPodsForDeployment. holds. Qed.

Lemma create_ok k (o : Obj k) :
  k <> KDeployment -> m_Namespace (meta_of o) = ns -> hold any (client_Create k o).
Proof.
  intros Hk Ho. unfold client_Create. rule holds_bind; [|intros _ _; holds].
  rule holds_modify. intros s Hs. split; [exact Hs|]. by destruct (of_write (R:=R) s k o Hk Ho).
Qed.

Lemma update_ok k (o : Obj k) :
  k <> KDeployment -> m_Namespace (meta_of o) = ns ->
  hold (fun o' : Obj k => m_Namespace (meta_of o') = m_Namespace (meta_of o) /\
                          m_Name (meta_of o') = m_Name (meta_of o)) (client_Update k o).
Proof.
  intros Hk Ho. unfold client_Update.
  rule holds_bind; [|intros _ _; rule holds_on_world; intros; by eapply kl_update].
  rule holds_modify. intros s Hs. split; [exact Hs|]. by destruct (of_write (R:=R) s k o Hk Ho).
Qed.

Lemma create_deployment_ok (d : Deployment) :
  m_Namespace (d_Meta d) = ns -> D (m_Name (d_Meta d)) -> hold any (client_Create KDeployment d).
Proof.
  intros Hn Hd. unfold client_Create. rule holds_bind; [|intros _ _; holds].
  rule holds_modify. intros s Hs. split; [exact Hs|]. by eapply of_create.
Qed.

(** Read a deployment and write it back changed, at the version read. *)
Lemma get_update_ok {A} n (g : Deployment -> Deployment) (k : Obj KDeployment -> M W A)
    (Q : A -> Prop) d :
  m_Namespace (d_Meta (g d)) = ns -> D n -> m_Name (d_Meta (g d)) = n ->
  m_ResourceVersion (d_Meta (g d)) = m_ResourceVersion (d_Meta d) ->
  (forall o, hold Q (k o)) ->
  forall s s1 r s', named ns nm s -> client_Get KDeployment ns n s = (Ok d, s1) ->
  (client_Update KDeployment (g d) ≫= k) s1 = (r, s') ->
  named ns nm s' /\ R s s' /\ (forall a, r = Ok a -> Q a).
Proof.
  intros Hns HD Hn Hrv Hk s s1 r s' Hs Hget Hrest.
  unfold client_Get in Hget. destruct (kc_get KDeployment ns n (st_world s)) as [r0 w] eqn:E.
  injection Hget as -> <-.
  assert (R s (log_event (EvUpdate KDeployment (g d))
                 (log_event (EvGet KDeployment ns n (Ok d)) (set_world w s)))) as HR.
  { etrans; [eapply (of_world s w)|].
    rewrite <- Hn in *. by eapply of_update. }
  unfold client_Update in Hrest.
  assert (hold Q (on_world (kc_update KDeployment (g d)) ≫= k)) as Hrun.
  { rule holds_bind; [apply on_world_any|]. auto. }
  destruct (Hrun (log_event (EvUpdate KDeployment (g d))
                 (log_event (EvGet KDeployment ns n (Ok d)) (set_world w s))) r s')
    as (? & ? & ?); [done| |split_and!; [done|by etrans|done]].
  rewrite <- Hrest. unfold mbind, M_bind, emit, modify. simpl.
  destruct (on_world _ _) as [[| |] ?]; done.
Qed.

Lemma owner_ok cr m :
  hold (fun m' => m_Namespace m' = m_Namespace m /\ m_Name m' = m_Name m)
    (SetControllerReference cr m).
Proof.
  rule holds_lift. intros m' Hm. destruct (kl_owner _ _ _ Hm) as [o ->]. done.
Qed.
#[local] Hint Resolve owner_ok : zk.

Lemma status_ok f :
  (forall c, exists t, f c = set_Status t c) -> hold any (modify_cr f).
Proof.
  intros Hf. rule holds_modify. intros s Hs. destruct (Hf (st_cr s)) as [t ->].
  split; [exact Hs|by eapply of_status].
Qed.

Lemma createOrUpdateService_ok svc :
  m_Namespace (svc_Meta svc) = ns -> hold any (createOrUpdateService svc).
Proof.
  intros Hs. unfold createOrUpdateService. holds.
  - rule holds_bind; [by apply create_ok|]. intros; holds.
  - rule holds_bind; [|intros; holds]. apply update_ok; [done|]. by case_match.
Qed.

Lemma createServiceAccount_ok sa :
  m_Namespace (sa_Meta sa) = ns -> hold any (createServiceAccount sa).
Proof.
  intros Hs. unfold createServiceAccount. holds.
  rule holds_bind; [by apply create_ok|]. intros; holds.
Qed.

Lemma createPersistentVolumeClaim_ok claim :
  m_Namespace (pvc_Meta claim) = ns -> hold any (createPersistentVolumeClaim claim).
Proof.
  intros Hs. unfold createPersistentVolumeClaim. holds.
  - rule holds_bind; [by apply create_ok|]. intros; holds.
  - unfold updatePersistentVolumeClaim. holds.
    rule holds_bind; [|intros; holds]. apply update_ok; [done|]. naive_solver.
Qed.

(** One attempt to replace a deployment. *)
Lemma replace_attempt_ok d :
  m_Namespace (d_Meta d) = ns -> D (m_Name (d_Meta d)) ->
  hold any (foundDeployment ← client_Get KDeployment ns (m_Name (d_Meta d));
            client_Update KDeployment (set_d_Meta (set_ResourceVersion
              (m_ResourceVersion (d_Meta foundDeployment)) (d_Meta d)) d) ;; mret tt).
Proof.
  intros Hn Hd s r s' Hs [(d0 & s1 & Hget & Hrest)|[(e & Hget & ->)|(p & Hget & ->)]]%M_bind_inv.
  - eapply (get_update_ok (m_Name (d_Meta d)) (fun d0 => set_d_Meta (set_ResourceVersion
      (m_ResourceVersion (d_Meta d0)) (d_Meta d)) d)); try done; intros; holds.
  - by apply (get_failed KDeployment _ _ _ _ _ _ _ Hs Hget).
  - by apply (get_failed KDeployment _ _ _ _ _ _ _ Hs Hget).
Qed.

Lemma createOrUpdateDeployment_ok d :
  m_Namespace (d_Meta d) = ns -> D (m_Name (d_Meta d)) -> hold any (createOrUpdateDeployment d).
Proof.
  intros Hn Hd. unfold createOrUpdateDeployment. rewrite Hn. cbv zeta.
  rule holds_bind_try; [apply get_ok|intros e|intros _ _].
  - case_match; [|holds]. rule holds_bind; [by apply create_deployment_ok|]. intros; holds.
  - rule holds_retry. by apply replace_attempt_ok.
Qed.

Lemma scaleDeployment_ok n replicas : D n -> hold any (scaleDeployment n replicas ns).
Proof.
  intros Hd. unfold scaleDeployment. rule holds_retry.
  intros s r s' Hs [(d0 & s1 & Hget & Hrest)|[(e & Hget & ->)|(p & Hget & ->)]]%M_bind_inv.
  - destruct (get_ok KDeployment _ _ _ _ _ Hs Hget) as (_ & _ & Hd0). destruct (Hd0 _ eq_refl) as [Hn Hnm].
    eapply (get_update_ok n (set_d_Replicas (Some replicas)));
      [exact Hn|exact Hd|exact Hnm|try done..]; intros; holds.
  - by apply (get_failed KDeployment _ _ _ _ _ _ _ Hs Hget).
  - by apply (get_failed KDeployment _ _ _ _ _ _ _ Hs Hget).
Qed.

Lemma applyAnnotations_meta d secrets :
  d_Meta (snd (applyAutoRestartSecretAnnotations d secrets)) = d_Meta d.
Proof.
  unfold applyAutoRestartSecretAnnotations. generalize false. revert d.
  induction secrets as [|o secrets IH]; intros d b; [done|]. cbn [fold_left].
  destruct (applySecretAnnotation (b, d) o) as [b1 d1] eqn:E. rewrite IH.
  unfold applySecretAnnotation in E. repeat case_match; by simplify_eq.
Qed.

Lemma restartAnnotations_ok n secrets :
  D n -> hold any (updateDeploymentSecretRestartAnnotations ns n secrets).
Proof.
  intros Hd. unfold updateDeploymentSecretRestartAnnotations. holds_step.
  intros s r s' Hs Hrun. apply M_bind_inv in Hrun.
  destruct Hrun as [(x & s1 & Htry & Hrest)|[(e & Htry & ->)|(p & Htry & ->)]];
    unfold try_ in Htry;
    destruct (client_Get KDeployment ns n s) as [[d|e'|p'] s2] eqn:Hget; simplify_eq;
    pose proof (get_ok KDeployment _ _ _ _ _ Hs Hget) as (Hs2 & HR & Hd0); try by split_and!.
  - destruct (Hd0 _ eq_refl) as [Hn Hnm].
    pose proof (applyAnnotations_meta d secrets) as Hmeta.
    destruct (applyAutoRestartSecretAnnotations d secrets) as [[|] d'] eqn:E; simpl in Hmeta.
    + eapply (get_update_ok n (fun _ => d') (fun _ => mret tt) any d); rewrite ?Hmeta;
        [exact Hn|exact Hd|exact Hnm|try done..]; intros; holds.
    + injection Hrest as <- <-. by split_and!.
  - destruct (IsNotFound e'); injection Hrest as <- <-; by split_and!.
Qed.

Lemma findSecret_ok n n' :
  hold (fun o : Secret => m_Namespace (sec_Meta o) = n' /\ m_Name (sec_Meta o) = n /\
                          from_server W o) (findSecret n n').
Proof.
  intros s r s' Hs Hr. destruct (get_ok KSecret n' n s r s' Hs Hr) as (? & ? & Ho).
  split_and!; [done..|]. intros o ->. destruct (Ho o eq_refl). split_and!; [done..|].
  unfold findSecret, client_Get in Hr. destruct (kc_get KSecret n' n (st_world s)) as [r0 w] eqn:E.
  injection Hr as -> _. exists (st_world s), w. right. by exists n', n.
Qed.

Lemma findDeployment_ok n n' :
  hold (fun o : Deployment => m_Namespace (d_Meta o) = n' /\ m_Name (d_Meta o) = n)
    (findDeployment n n').
Proof. apply (get_ok KDeployment). Qed.

Lemma findClaim_ok n n' :
  hold (fun o : PersistentVolumeClaim => m_Namespace (pvc_Meta o) = n' /\ m_Name (pvc_Meta o) = n)
    (findPersistentVolumeClaim n n').
Proof. apply (get_ok KPVC). Qed.
#[local] Hint Resolve findSecret_ok findDeployment_ok findClaim_ok : zk.

(** A secret the server stored comes back under its name. *)
Lemma update_secret_ok sec :
  m_Namespace (sec_Meta sec) = ns ->
  hold (fun o => m_Name (sec_Meta o) = m_Name (sec_Meta sec) /\
                 m_Namespace (sec_Meta o) = ns /\ from_server W o) (client_Update KSecret sec).
Proof.
  intros Hs. unfold client_Update. rule holds_bind.
  - rule holds_modify. intros s Hn. split; [exact Hn|].
    by destruct (of_write (R:=R) s KSecret sec) as [_ ?].
  - intros _ _. rule holds_on_world. intros w o w' Ho.
    pose proof Ho as [E1 E2]%kl_update. split_and!; [done|by rewrite <- Hs|].
    exists w, w'. left. by exists sec.
Qed.
#[local] Hint Resolve update_secret_ok : zk.

Lemma updateSecret_ok sec :
  m_Namespace (sec_Meta sec) = ns ->
  hold (fun o => m_Name (sec_Meta o) = m_Name (sec_Meta sec) /\
                 m_Namespace (sec_Meta o) = ns /\ from_server W o) (updateSecret sec).
Proof. intros Hs. unfold updateSecret. holds. Qed.

Lemma watchSecret_ok n :
  hold (fun sec => m_Name (sec_Meta sec) = n /\ m_Namespace (sec_Meta sec) = ns /\
                   from_server W sec) (watchSecret n).
Proof.
  unfold watchSecret. do 3 holds_step.
  destruct Hs as [Hns _], Hx as (Hx & Hxn & _). rewrite Hns in Hx. destruct Hx0 as [Hm Hmn].
  eapply holds_weaken; [apply updateSecret_ok; simpl; rewrite Hm; repeat case_match; done|].
  intros o [Ho ?]. split; [|done]. rewrite Ho. simpl. rewrite Hmn. repeat case_match; done.
Qed.
#[local] Hint Resolve watchSecret_ok : zk.

Lemma isDeploymentReady_ok n n' : hold any (isDeploymentReady n n').
Proof. unfold isDeploymentReady. holds. Qed.

Lemma snapshotsClaim_ok storage :
  hold (fun o => forall p, o = Some p -> m_Namespace (pvc_Meta p) = ns)
    (processSnapshotsPersistentVolumeClaim storage).
Proof.
  unfold processSnapshotsPersistentVolumeClaim. holds;
    destruct Hs as [Hns _].
  - intros o Ho p ->. apply nonshared_claim_meta in Ho as [-> _]. done.
  - intros p [= <-]. naive_solver.
  - intros o Ho p ->. inv_binds Ho. simplify_eq.
    apply NewPersistentVolumeClaim_meta in Ha0 as ->. done.
  - intros o Ho p ->. inv_binds Ho. simplify_eq.
    apply NewPersistentVolumeClaim_meta in Ha0 as ->. done.
Qed.

(** *** Vault *)
Lemma vaultClient_ok : hold any vaultClient.
Proof. unfold vaultClient. holds. Qed.
#[local] Hint Resolve vaultClient_ok : zk.

Lemma rawRequest_ok m p b : hold any (rawRequest m p b).
Proof. unfold rawRequest. holds. Qed.
#[local] Hint Resolve rawRequest_ok : zk.

Lemma ReadVaultSecret_ok p n : hold any (ReadVaultSecret p n).
Proof. unfold ReadVaultSecret. holds. Qed.

Lemma WriteVaultSecret_ok p n sec : hold any (WriteVaultSecret p n sec).
Proof. unfold WriteVaultSecret. holds. Qed.

Lemma ReadVaultPolicy_ok n : hold any (ReadVaultPolicy n).
Proof. unfold ReadVaultPolicy. holds. Qed.

Lemma WriteVaultPolicy_ok n p : hold any (WriteVaultPolicy n p).
Proof. unfold WriteVaultPolicy. holds. Qed.

Lemma WriteVaultAuthRole_ok n r : hold any (WriteVaultAuthRole n r).
Proof. unfold WriteVaultAuthRole. holds. Qed.

Lemma ReadVaultAuthRole_ok n : hold any (ReadVaultAuthRole n).
Proof. unfold ReadVaultAuthRole. holds. Qed.

Lemma WriteVaultPasswordPolicy_ok n p : hold any (WriteVaultPasswordPolicy n p).
Proof. unfold WriteVaultPasswordPolicy. holds. Qed.
#[local] Hint Resolve ReadVaultSecret_ok WriteVaultSecret_ok ReadVaultPolicy_ok
  WriteVaultPolicy_ok WriteVaultAuthRole_ok ReadVaultAuthRole_ok WriteVaultPasswordPolicy_ok : zk.

Lemma Generate_ok g : hold any (Generate g).
Proof. unfold Generate, GeneratePasswordForPolicy. holds. Qed.

Lemma newPasswordGenerator_ok : hold any newPasswordGenerator.
Proof.
  unfold newPasswordGenerator, NewVaultPasswordGenerator, NewOperatorPasswordGenerator. holds.
Qed.

Lemma setSecretVersion_ok n v : hold any (setSecretVersion n v).
Proof. unfold setSecretVersion. holds. apply status_ok. intros c. by eexists. Qed.
#[local] Hint Resolve Generate_ok newPasswordGenerator_ok setSecretVersion_ok : zk.

Lemma rotateCredentials_ok n k sec g : hold any (rotateCredentials n k sec g).
Proof.
  unfold rotateCredentials. holds. rule holds_bind_any; [|intros; holds].
  destruct (bool_decide _); holds.
Qed.
#[local] Hint Resolve rotateCredentials_ok : zk.

Lemma generateUsers_ok g l : hold any (generateUsers g l).
Proof. induction l; simpl; holds. Qed.
#[local] Hint Resolve generateUsers_ok : zk.

Lemma ensurePolicy_ok n sec p : hold any (ensurePolicy n sec p).
Proof. unfold ensurePolicy. holds. Qed.

Lemma ensureRole_ok n sec r : hold any (ensureRole n sec r).
Proof. unfold ensureRole. holds. Qed.
#[local] Hint Resolve ensurePolicy_ok ensureRole_ok : zk.

Lemma recordVersion_ok o : opt_server_secret W ns o -> hold any (recordVersion o).
Proof.
  intros Ho. destruct o as [sec|]; [|by rule holds_ret]. rule holds_modify. intros s Hs.
  split; [exact Hs|]. by eapply (of_version (nm:=nm) (D:=D) (R:=R)).
Qed.
#[local] Hint Resolve recordVersion_ok : zk.

Lemma cleanSecret_ok sec : secret_in ns sec -> hold (descends W ns sec) (cleanSecret sec).
Proof.
  intros Hin. unfold cleanSecret, cleanSecretData.
  destruct (needToCleanSecret sec) eqn:Hc; [|holds; apply descends_refl].
  assert (m_Namespace (sec_Meta sec) = ns) as Hns.
  { destruct Hin as [Hn|]; [|done]. unfold needToCleanSecret in Hc.
    by rewrite bool_decide_eq_true_2 in Hc. }
  holds_step. rule holds_bind; [by apply update_secret_ok|]. intros o [Ho ?].
  rule holds_bind_any; [|intros _; holds; by split; [|right]].
  apply (recordVersion_ok (Some o)). by right.
Qed.
#[local] Hint Resolve cleanSecret_ok : zk.

Lemma processAdminCredentials_ok sec g : hold any (processAdminCredentials sec g).
Proof. unfold processAdminCredentials. holds. Qed.

Lemma processClientCredentials_ok sec g : hold any (processClientCredentials sec g).
Proof. unfold processClientCredentials. holds. Qed.

Lemma processAdditionalUsers_ok sec g : hold any (processAdditionalUsersCredentials sec g).
Proof. unfold processAdditionalUsersCredentials. holds. Qed.
#[local] Hint Resolve processAdminCredentials_ok processClientCredentials_ok
  processAdditionalUsers_ok : zk.

Lemma processVaultSecrets_ok sec :
  secret_in ns sec -> hold (descends W ns sec) (processVaultSecrets sec).
Proof.
  intros Hin. unfold processVaultSecrets, writeZooKeeperPolicies.
  rule holds_bind; [|intros _ _; holds].
  apply status_ok. intros c. destruct (stt_SecretVersions (cr_Status c)); [|by eexists].
  exists (cr_Status c). by destruct c.
Qed.

(** *** Shared steps *)
Lemma watchOwnSecret_ok n : hold (server_secret W ns) (watchOwnSecret n).
Proof. unfold watchOwnSecret. holds; [by left|right; apply Hx]. Qed.

Lemma watchOptionalSecret_ok n : hold (opt_server_secret W ns) (watchOptionalSecret n).
Proof. unfold watchOptionalSecret. holds. right. apply Hx. Qed.

Lemma hashOf_ok k : hold any (hashOf k).
Proof. by rule holds_gets. Qed.
#[local] Hint Resolve hashOf_ok : zk.

Lemma configurationChanged_ok n h l : hold any (configurationChanged n h l).
Proof. unfold configurationChanged. holds. Qed.

Lemma applyService_ok r :
  (forall svc, r = Ok svc -> m_Namespace (svc_Meta svc) = ns) -> hold any (applyService r).
Proof.
  intros Hr. unfold applyService. holds. apply createOrUpdateService_ok. simpl.
  destruct Hx as [-> _]. by apply Hr.
Qed.

Lemma applyDeployment_ok r secrets :
  (forall d, r = Ok d -> m_Namespace (d_Meta d) = ns /\ D (m_Name (d_Meta d))) ->
  hold any (applyDeployment r secrets).
Proof.
  intros Hr. unfold applyDeployment. holds. destruct (Hr _ Ha) as [Hns HD], Hx as [Hx1 Hx2].
  apply createOrUpdateDeployment_ok; rewrite applyAnnotations_meta; simpl; congruence.
Qed.

End operations.

#[export] Hint Extern 0 (OpFrame _ _ _ _) => typeclasses eauto : zk.
#[export] Hint Extern 0 (KubeLaws _) => typeclasses eauto : zk.
#[export] Hint Extern 0 (WaitLaws _) => typeclasses eauto : zk.
#[export] Hint Extern 1 (quiet _) => exact I : zk.
#[export] Hint Resolve emit_quiet on_world_any get_ok list_ok findPodList_ok
  findDeploymentList_ok getPodsForDeployment_ok owner_ok
  findSecret_ok findDeployment_ok findClaim_ok watchSecret_ok isDeploymentReady_ok
  snapshotsClaim_ok newPasswordGenerator_ok setSecretVersion_ok rotateCredentials_ok
  ensurePolicy_ok ensureRole_ok cleanSecret_ok processVaultSecrets_ok watchOwnSecret_ok
  watchOptionalSecret_ok configurationChanged_ok recordVersion_ok hashOf_ok : zk.

Section reconciler_steps.
Context {W : Type} `{!KubeClient W} `{!KubeLaws W} `{!WaitLib W} `{!WaitLaws W}.
Context (ns nm : string) (D : string -> Prop) (R : St W -> St W -> Prop)
  `{!ReconcileFrame ns nm D R}.
#[local] Abbreviation hold := (holds (named ns nm) R).

Lemma client_StatusUpdate_ok : hold any client_StatusUpdate.
Proof.
  intros s r s' Hs Hrun. unfold client_StatusUpdate, mbind, M_bind in Hrun. simpl in Hrun.
  unfold on_world in Hrun. simpl in Hrun.
  assert (R s (log_event (EvStatusUpdate (st_cr s)) s)) as He by (by eapply of_quiet).
  destruct (kc_status_update (st_cr s) (st_world s)) as [[c|e|p] w] eqn:E;
    unfold modify in Hrun; simplify_eq/=.
  - split_and!; [apply kl_status in E as [E1 E2]; split; simpl; rewrite ?E1, ?E2; apply Hs| |done].
    etrans; [exact He|]. etrans; [by eapply (of_world _ w)|].
    by eapply (rf_reply (set_world w (log_event (EvStatusUpdate (st_cr s)) s))).
  - split_and!; [exact Hs| |done]. etrans; [exact He|by eapply of_world].
  - split_and!; [exact Hs| |done]. etrans; [exact He|by eapply of_world].
Qed.
#[local] Hint Resolve client_StatusUpdate_ok : zk.

Lemma updateConditions_ok c : hold any (updateConditions c).
Proof.
  unfold updateConditions, now. holds. rule holds_bind_any; [|intros; holds].
  apply (status_ok ns nm D R). intros cr. by eexists.
Qed.
#[local] Hint Resolve updateConditions_ok : zk.

Lemma updateNodes_ok labels f :
  (forall l c, exists t, f l c = set_Status t c) -> hold any (updateNodes labels f).
Proof.
  intros Hf. unfold updateNodes. holds. rule holds_bind_any; [|intros; holds].
  apply (status_ok ns nm D R). intros c. apply Hf.
Qed.

Lemma reportReadiness_ok reason m1 m2 m3 timeout condition :
  hold any timeout -> hold any condition ->
  hold any (reportReadiness reason m1 m2 m3 timeout condition).
Proof.
  intros Ht Hc. unfold reportReadiness. holds.
  eapply (holds_bind_try _ _ any); [|intros; holds..].
  by rule holds_poll.
Qed.

Lemma podsReadyTimeout_ok : hold any podsReadyTimeout.
Proof. unfold podsReadyTimeout. holds. Qed.

Lemma deploymentReady_ok n : hold any (deploymentReady n).
Proof. unfold deploymentReady. holds. Qed.

Lemma setHash_ok k h : records R k -> hold any (setHash k h).
Proof. intros Hk. rule holds_modify. intros s Hs. split; [exact Hs|apply Hk]. Qed.
End reconciler_steps.

#[export] Hint Extern 0 (ReconcileFrame _ _ _ _) => typeclasses eauto : zk.
#[export] Hint Resolve client_StatusUpdate_ok updateConditions_ok podsReadyTimeout_ok
  deploymentReady_ok : zk.
