(* ===== verification/ZooKeeperReconciler.v ===== *)
(** * The reconciler of the ZooKeeper servers

    [src/operator/controllers/zookeeper_reconciler.go]: services, claims,
    credentials and deployments of the ensemble, one server after another,
    with the downscale and the rolling update; the readiness report. *)

From S2P Require Import Prelude GoStrings Types Util Provider Platform Conditions Reconciler Vault.
From S2P Require Import ZooKeeperProvider ZooKeeperVault Fragments Frames.

Definition zooKeeperConditionReason : string := "ZooKeeperReadinessStatus".
Definition zooKeeperHashName : string := "spec.zookeeper".

(** [cr.Spec.ZooKeeper], dereferenced. *)
Definition zooKeeperOf (cr : ZooKeeperService) : Res ZooKeeper :=
  deref (sp_ZooKeeper (cr_Spec cr)).

(** The loop of [getCurrentDeploymentsCount]. *)
Fixpoint countActive (deployments : list Deployment) : Res Z :=
  match deployments with
  | [] => mret 0
  | d :: rest =>
      replicas ← deref (d_Replicas d);
      n ← countActive rest;
      mret (if decide (0 < replicas) then n + 1 else n)
  end.

Definition allRunning (pods : list Pod) : bool :=
  forallb (fun pod => bool_decide (pod_Phase pod = "Running")) pods.

Section zookeeper.
Context {W : Type} `{KubeClient W} `{WaitLib W} `{Quantities} `{VaultApi W} `{Passwords W}
  `{Encoders}.

(** The body of the readiness poll: stops at the first server not ready. *)
Fixpoint serversReady (ids : list Z) : M W bool :=
  match ids with
  | [] => mret true
  | i :: ids =>
      cr ← get_cr;
      ready ← isDeploymentReady (serverName (cr_Name cr) i) (cr_Namespace cr);
      if (ready : bool) then serversReady ids else mret false
  end.

Definition zooKeeperStatus : M W unit :=
  reportReadiness zooKeeperConditionReason "ZooKeeper health check"
    "ZooKeeper pods are not ready" "ZooKeeper pods are ready" podsReadyTimeout
    (cr ← get_cr; zk ← lift (zooKeeperOf cr); serversReady (upto 1 (zk_Replicas zk))).

Definition findZookeperDeployments : M W (list Deployment) :=
  cr ← get_cr;
  findDeploymentList (cr_Namespace cr) (GetZooKeeperSelectorLabels (cr_Name cr)).

Definition getCurrentDeploymentsCount : M W Z :=
  deployments ← findZookeperDeployments;
  lift (countActive deployments).

Definition isPodRunning (deploymentName : string) : M W bool :=
  pods ← getPodsForDeployment deploymentName;
  mret (allRunning pods).

Definition updateZooKeeperStatus : M W unit :=
  cr ← get_cr;
  updateNodes (GetZooKeeperSelectorLabels (cr_Name cr)) set_Servers.

(** The builders read the resource through the pointer they hold. *)
Definition zkProvider : M W ZooKeeperResourceProvider :=
  cr ← get_cr; mret (NewZooKeeperResourceProvider cr).

Definition createSnapshotsClaim (zookeeperSpec : ZooKeeper) : M W unit :=
  let type := ss_PersistentVolumeType (zk_SnapshotStorage zookeeperSpec) in
  when (negb (bool_decide (type = "")) && negb (bool_decide (type = "standalone")))
    (claim ← processSnapshotsPersistentVolumeClaim (zk_SnapshotStorage zookeeperSpec);
     match claim with
     | Some claim => createPersistentVolumeClaim claim
     | None => mret tt
     end).

(** Scale the deployments beyond the wanted number down to zero. *)
Definition scaleDownExcess (currentReplicas replicas : Z) : M W unit :=
  when (bool_decide (replicas < currentReplicas))
    (cr ← get_cr;
     for_each (upto (replicas + 1) currentReplicas) (fun i =>
       scaleDeployment (serverName (cr_Name cr) i) 0 (cr_Namespace cr))).

Definition waitForPod (deploymentName : string) : M W unit :=
  PollUntilContextTimeout waitingInterval (seconds 300) true (isPodRunning deploymentName).

(** The wait between servers of a rolling update. *)
Definition waitForDeployment (serverId : Z) : M W unit :=
  cr ← get_cr;
  let deploymentName := serverName (cr_Name cr) serverId in
  Sleep waitingInterval ;;
  PollUntilContextTimeout waitingInterval (seconds 300) true
    (isDeploymentReady deploymentName (cr_Namespace cr)).

(** One round of the loop over the servers, up to the wait of a rolling
    update; the secret is threaded through, since cleaning it changes it for
    the rounds that follow. *)
Definition deployServer (zooKeeperSecret : Secret) (serverId : Z) : M W Secret :=
  zrp ← zkProvider;
  applyService (ZK.NewZooKeeperServerServiceForCR zrp serverId) ;;
  persistentVolumeClaim ← lift (ZK.NewZooKeeperPersistentVolumeClaimForCR zrp serverId);
  match persistentVolumeClaim with
  | Some claim => createPersistentVolumeClaim claim
  | None => mret tt
  end ;;
  cr ← get_cr;
  createServiceAccount (NewServiceAccount (ZK.GetServiceAccountName zrp) (cr_Namespace cr)) ;;
  zooKeeperSecret ← (if IsVaultSecretManagementEnabled cr
                     then processVaultSecrets zooKeeperSecret else mret zooKeeperSecret);
  zrp ← zkProvider;
  applyDeployment (ZK.NewServerDeploymentForCR zrp serverId) [Some zooKeeperSecret] ;;
  waitForPod (serverName (cr_Name cr) serverId) ;;
  mret zooKeeperSecret.

(** The whole round. *)
Definition reconcileServer (zooKeeperSecret : Secret) (serverId : Z) : M W Secret :=
  zooKeeperSecret ← deployServer zooKeeperSecret serverId;
  cr ← get_cr;
  zk ← lift (zooKeeperOf cr);
  when (zk_RollingUpdate zk) (waitForDeployment serverId) ;;
  mret zooKeeperSecret.

Fixpoint reconcileServers (zooKeeperSecret : Secret) (ids : list Z) : M W Secret :=
  match ids with
  | [] => mret zooKeeperSecret
  | serverId :: ids =>
      zooKeeperSecret ← reconcileServer zooKeeperSecret serverId;
      reconcileServers zooKeeperSecret ids
  end.

(** The body of [if zookeeperSpec.Replicas > 0]. *)
Definition reconcileEnsemble (zookeeperSpec : ZooKeeper) (zooKeeperSecret : Secret)
  : M W Secret :=
  createSnapshotsClaim zookeeperSpec ;;
  zrp ← zkProvider;
  applyService (ZK.NewZooKeeperClientServiceForCR zrp) ;;
  applyService (ZK.NewZooKeeperDomainServiceForCR zrp) ;;
  currentReplicas ← getCurrentDeploymentsCount;
  let replicas := zk_Replicas zookeeperSpec in
  when (bool_decide (currentReplicas <= 2) || negb (bool_decide (currentReplicas = replicas)))
    (modify_cr (set_RollingUpdate false)) ;;
  scaleDownExcess currentReplicas replicas ;;
  reconcileServers zooKeeperSecret (upto 1 replicas).

(** The body of the branch taken when something changed. *)
Definition reconcileZooKeeper (zookeeperSpec : ZooKeeper) (zooKeeperSecret : Secret)
  : M W Secret :=
  zooKeeperSecret ← (if bool_decide (0 < zk_Replicas zookeeperSpec)
                     then reconcileEnsemble zookeeperSpec zooKeeperSecret
                     else mret zooKeeperSecret);
  updateZooKeeperStatus ;;
  mret zooKeeperSecret.

Definition zooKeeperReconcile : M W unit :=
  cr ← get_cr;
  zk ← lift (zooKeeperOf cr);
  zooKeeperSecret ← watchOwnSecret (zk_SecretName zk);
  zooKeeperSpecHash ← lift (Hash marshalZooKeeper (sp_ZooKeeper (cr_Spec cr)));
  changed ← configurationChanged zooKeeperHashName zooKeeperSpecHash [Some zooKeeperSecret];
  zooKeeperSecret ← (if (changed : bool) then reconcileZooKeeper zk zooKeeperSecret
                     else mret zooKeeperSecret);
  cr ← get_cr;
  zk ← lift (zooKeeperOf cr);
  for_each (upto 1 (zk_Replicas zk)) (fun serverId =>
    updateDeploymentSecretRestartAnnotations (cr_Namespace cr)
      (serverName (cr_Name cr) serverId) [Some zooKeeperSecret]) ;;
  recordVersion (Some zooKeeperSecret) ;;
  setHash zooKeeperHashName zooKeeperSpecHash.

Definition NewReconcileZooKeeper : ReconcileService W :=
  mkReconcileService "controllers.ReconcileZooKeeper" zooKeeperReconcile zooKeeperStatus.
End zookeeper.

(** A deployment that reports all its replicas ready and up to date. *)
Definition deployment_ready (d : Deployment) : Prop :=
  d_Replicas d = Some (Z.min (d_ReadyReplicas d) (d_UpdatedReplicas d)).

(** An event that leaves every deployment but [n] alone. *)
Definition writes_only (n : string) (e : Event) : Prop :=
  match e with
  | EvCreate KDeployment d | EvUpdate KDeployment d => m_Name (d_Meta d) = n
  | _ => True
  end.

(** The run adds events that write at most the deployment [n] and does not
    touch the spec. *)
Definition serves {W} (n : string) (s s' : St W) : Prop :=
  emits (writes_only n) s s' /\ cr_Spec (st_cr s') = cr_Spec (st_cr s).

(** An event that reads a deployment or scales one of the servers in [ids] to
    zero. *)
Definition scales_down (nm : string) (ids : list Z) (e : Event) : Prop :=
  match e with
  | EvGet KDeployment _ _ _ => True
  | EvUpdate KDeployment d =>
      d_Replicas d = Some 0 /\ exists i, i ∈ ids /\ m_Name (d_Meta d) = serverName nm i
  | _ => False
  end.

(** The events scale the deployment of server [i] to zero. *)
Definition scaled (nm : string) (i : Z) (evs : list Event) : Prop :=
  exists d, EvUpdate KDeployment d ∈ evs /\
    m_Name (d_Meta d) = serverName nm i /\ d_Replicas d = Some 0.

(** The events a run adds scale down servers of [ids] only and, when it
    succeeds, every server of [l]. *)
Definition scaling {W} (nm : string) (ids l : list Z) (r : Res unit) (s s' : St W) : Prop :=
  exists evs, st_trace s' = st_trace s ++ evs /\ Forall (scales_down nm ids) evs /\
    (r = Ok tt -> forall i, i ∈ l -> scaled nm i evs).

(** ** Lemmas: what the builders name *)

Lemma server_service_ns `{Quantities} zrp i svc :
  ZK.NewZooKeeperServerServiceForCR zrp i = Ok svc ->
  m_Namespace (svc_Meta svc) = cr_Namespace (zrp_cr zrp).
Proof. unfold ZK.NewZooKeeperServerServiceForCR. cbv zeta. intros Hs. by inv_binds Hs. Qed.

Lemma client_service_ns `{Quantities} zrp svc :
  ZK.NewZooKeeperClientServiceForCR zrp = Ok svc ->
  m_Namespace (svc_Meta svc) = cr_Namespace (zrp_cr zrp).
Proof. unfold ZK.NewZooKeeperClientServiceForCR. cbv zeta. intros Hs. by inv_binds Hs. Qed.

Lemma domain_service_ns `{Quantities} zrp svc :
  ZK.NewZooKeeperDomainServiceForCR zrp = Ok svc ->
  m_Namespace (svc_Meta svc) = cr_Namespace (zrp_cr zrp).
Proof. unfold ZK.NewZooKeeperDomainServiceForCR. cbv zeta. intros Hs. by inv_binds Hs. Qed.

Lemma server_claim_ns `{Quantities} zrp i p :
  ZK.NewZooKeeperPersistentVolumeClaimForCR zrp i = Ok (Some p) ->
  m_Namespace (pvc_Meta p) = cr_Namespace (zrp_cr zrp).
Proof.
  unfold ZK.NewZooKeeperPersistentVolumeClaimForCR. cbv zeta. intros Hs. inv_binds Hs.
  by apply nonshared_claim_meta in Hs as [-> _].
Qed.

Lemma server_deployment_name `{Quantities} zrp i d :
  ZK.NewServerDeploymentForCR zrp i = Ok d ->
  m_Namespace (d_Meta d) = cr_Namespace (zrp_cr zrp) /\
  m_Name (d_Meta d) = serverName (cr_Name (zrp_cr zrp)) i.
Proof. intros Hd. apply server_deployment_inv in Hd as (? & ? & _ & _ & -> & _). done. Qed.

(** ** Lemmas: the steps respect the contracts *)
Section frames.
Context {W : Type} `{!KubeClient W} `{!KubeLaws W} `{!WaitLib W} `{!WaitLaws W}.
Context `{!Quantities} `{!VaultApi W} `{!Passwords W} `{!Encoders}.
Context (ns nm : string) (D : string -> Prop) (R : St W -> St W -> Prop).
#[local] Abbreviation hold := (holds (named ns nm) R).

Lemma zkProvider_ok `{!OpFrame ns nm D R} :
  hold (fun zrp => cr_Namespace (zrp_cr zrp) = ns /\ cr_Name (zrp_cr zrp) = nm) zkProvider.
Proof. unfold zkProvider. holds. Qed.
#[local] Hint Resolve zkProvider_ok : zk.

Lemma waitForPod_ok `{!OpFrame ns nm D R} n : hold any (waitForPod n).
Proof.
  eapply (holds_poll _ _ any _ _ _ any); [|done]. unfold isPodRunning. holds.
Qed.

Lemma waitForDeployment_ok `{!OpFrame ns nm D R} i : hold any (waitForDeployment i).
Proof.
  unfold waitForDeployment, Sleep. holds. rule holds_bind_any; [holds|intros _].
  eapply (holds_poll _ _ any _ _ _ any); [|done]. holds.
Qed.
#[local] Hint Resolve waitForPod_ok waitForDeployment_ok : zk.

Lemma deployServer_ok `{!OpFrame ns nm D R} sec i :
  D (serverName nm i) -> secret_in ns sec -> hold (descends W ns sec) (deployServer sec i).
Proof.
  intros HD Hsec. unfold deployServer. holds_step. destruct Hx as [Hns Hnm].
  rule holds_bind_any.
  { apply (applyService_ok ns nm D R). intros svc Hsvc. by apply server_service_ns in Hsvc as ->. }
  intros _. holds_step. rule holds_bind_any.
  { case_match; [|holds]. apply (createPersistentVolumeClaim_ok ns nm D R).
    subst. by eapply server_claim_ns in Ha as ->. }
  intros _. holds_step. rule holds_bind_any.
  { apply (createServiceAccount_ok ns nm D R). apply Hs. }
  intros _. eapply (holds_bind _ _ (descends W ns sec)).
  { case_match; [by apply (processVaultSecrets_ok ns nm D R)|rule holds_ret; apply descends_refl]. }
  intros sec' Hsec'. holds_step. destruct Hx as [Hns' Hnm']. rule holds_bind_any.
  { apply (applyDeployment_ok ns nm D R). intros d Hd.
    apply server_deployment_name in Hd as [-> ->]. by rewrite Hnm'. }
  intros _. holds.
Qed.

Lemma reconcileServer_ok `{!OpFrame ns nm D R} sec i :
  D (serverName nm i) -> secret_in ns sec -> hold (descends W ns sec) (reconcileServer sec i).
Proof.
  intros HD Hsec. unfold reconcileServer. rule holds_bind; [by apply deployServer_ok|].
  intros sec' Hsec'. holds.
Qed.

Lemma reconcileServers_ok `{!OpFrame ns nm D R} sec ids :
  (forall i, i ∈ ids -> D (serverName nm i)) -> secret_in ns sec ->
  hold (descends W ns sec) (reconcileServers sec ids).
Proof.
  revert sec. induction ids as [|i ids IH]; intros sec HD Hsec; simpl; [rule holds_ret; apply descends_refl|].
  rule holds_bind; [apply reconcileServer_ok; [apply HD; constructor|done]|].
  intros sec' Hsec'. eapply holds_weaken.
  - apply IH; [|by eapply descends_in]. intros j Hj. apply HD. by constructor.
  - intros sec''. by apply descends_trans.
Qed.

Lemma scaleDownExcess_ok `{!OpFrame ns nm D R} current replicas :
  (forall i, D (serverName nm i)) -> hold any (scaleDownExcess current replicas).
Proof.
  intros HD. unfold scaleDownExcess. holds. destruct Hs as [-> ->].
  by apply (scaleDeployment_ok ns nm D R).
Qed.

Lemma reconcileEnsemble_ok `{!ReconcileFrame ns nm D R} spec sec :
  (forall i, D (serverName nm i)) -> secret_in ns sec ->
  hold (descends W ns sec) (reconcileEnsemble spec sec).
Proof.
  intros HD Hsec. unfold reconcileEnsemble. rule holds_bind_any.
  { unfold createSnapshotsClaim. holds. apply (createPersistentVolumeClaim_ok ns nm D R). naive_solver. }
  intros _. holds_step. destruct Hx as [Hns Hnm]. rule holds_bind_any.
  { apply (applyService_ok ns nm D R). intros svc Hsvc. by apply client_service_ns in Hsvc as ->. }
  intros _. rule holds_bind_any.
  { apply (applyService_ok ns nm D R). intros svc Hsvc. by apply domain_service_ns in Hsvc as ->. }
  intros _. rule holds_bind_any.
  { unfold getCurrentDeploymentsCount, findZookeperDeployments. rule holds_bind_any; [|intros l]; holds. }
  intros current. holds_step.
  { rule holds_modify. intros s Hs. split; [exact Hs|by eapply rf_rolling]. }
  rule holds_bind_any; [by apply scaleDownExcess_ok|].
  intros _. by apply reconcileServers_ok.
Qed.

Lemma reconcileZooKeeper_ok `{!ReconcileFrame ns nm D R} spec sec :
  (forall i, D (serverName nm i)) -> secret_in ns sec ->
  hold (descends W ns sec) (reconcileZooKeeper spec sec).
Proof.
  intros HD Hsec. unfold reconcileZooKeeper. eapply (holds_bind _ _ (descends W ns sec)).
  - case_match; [by apply reconcileEnsemble_ok|rule holds_ret; apply descends_refl].
  - intros sec' Hsec'. rule holds_bind_any; [|intros _; by rule holds_ret].
    unfold updateZooKeeperStatus. holds. apply (updateNodes_ok ns nm D R). by eexists.
Qed.

(** What follows the branch of a sub-reconciler. *)
Lemma zooKeeperFinish_ok `{!ReconcileFrame ns nm D R} sec h :
  records R zooKeeperHashName -> (forall i, D (serverName nm i)) -> server_secret W ns sec ->
  hold any (cr ← get_cr;
            zk ← lift (zooKeeperOf cr);
            for_each (upto 1 (zk_Replicas zk)) (fun serverId =>
              updateDeploymentSecretRestartAnnotations (cr_Namespace cr)
                (serverName (cr_Name cr) serverId) [Some sec]) ;;
            recordVersion (Some sec) ;;
            setHash zooKeeperHashName h).
Proof.
  intros Hrec HD Hsec. holds. rule holds_bind_any.
  - holds. destruct Hs as [-> ->]. by apply (restartAnnotations_ok ns nm D R).
  - intros _. rule holds_bind_any; [|intros _; by apply (setHash_ok ns nm R)].
    by apply (recordVersion_ok ns nm D R).
Qed.

Lemma zooKeeperReconcile_ok `{!ReconcileFrame ns nm D R} :
  records R zooKeeperHashName ->
  (forall i, D (serverName nm i)) -> hold any zooKeeperReconcile.
Proof.
  intros Hrec HD. unfold zooKeeperReconcile. holds. eapply (holds_bind _ _ (descends W ns x)).
  - case_match; [apply reconcileZooKeeper_ok; eauto with zk|rule holds_ret; apply descends_refl].
  - intros sec Hsec. apply zooKeeperFinish_ok; [done..|]. by apply (descends_server _ x).
Qed.

Lemma serversReady_ok `{!OpFrame ns nm D R} ids : hold any (serversReady ids).
Proof. induction ids; simpl; holds. Qed.
#[local] Hint Resolve serversReady_ok : zk.

Lemma zooKeeperStatus_ok `{!ReconcileFrame ns nm D R} : hold any zooKeeperStatus.
Proof. apply (reportReadiness_ok ns nm D R); holds. Qed.
End frames.

(** ** Lemmas: the waits *)

#[global] Instance serves_frame {W} `{!KubeClient W} ns nm n :
  OpFrame ns nm (fun n' => n' = n) (serves (W:=W) n).
Proof.
  split; intros.
  - split; [intros s; split; [reflexivity|done]|].
    intros s1 s2 s3 [H1 E1] [H2 E2]. split; [by etrans|congruence].
  - split; [by apply emits_nil|done].
  - split; [by apply emits_nil|done].
  - split; [by apply emits_nil|done].
  - split; [|done]. apply emits_one. by destruct e.
  - split; (split; [|done]); apply emits_one; by destruct k.
  - split; [by apply emits_one|done].
  - split; [|done]. eexists [_; _]. split; [simpl; by rewrite <- app_assoc|].
    rewrite !Forall_cons. by repeat split.
Qed.

Section waits.
Context {W : Type} `{!KubeClient W} `{!WaitLib W} `{!WaitLaws W}.

Lemma isDeploymentReady_true n ns (s s' : St W) :
  isDeploymentReady n ns s = (Ok true, s') ->
  exists d, deployment_ready d /\
    st_trace s' = st_trace s ++ [EvGet KDeployment ns n (Ok d)] /\ st_cr s' = st_cr s.
Proof.
  unfold isDeploymentReady, findDeployment, client_Get, try_, mbind, M_bind.
  destruct (kc_get KDeployment ns n (st_world s)) as [[d|e|p] w]; [|done..].
  unfold lift. destruct (d_Replicas d) as [k|] eqn:Hd; [|done]. simpl. intros [= Hb <-].
  apply bool_decide_eq_true in Hb. exists d. split; [|done].
  unfold deployment_ready. rewrite Hd, Hb. f_equal. apply Min_spec.
Qed.

(** The last check of a poll that succeeded, and what came before it. *)
Lemma poll_last (I : St W -> Prop) (R : St W -> St W -> Prop) `{!Frame I R}
    i t im (c : M W bool) s s' :
  holds I R any c -> I s -> PollUntilContextTimeout i t im c s = (Ok tt, s') ->
  exists s1, I s1 /\ R s s1 /\ c s1 = (Ok true, s').
Proof.
  intros Hc Hs Hrun%wl_poll_law. remember (Ok tt) as r.
  induction Hrun as [s w s' Hr| | |s w s1 r s' Hr _ IH|]; simplify_eq.
  - exists (set_world w s). split_and!; [by apply frame_inv_world|apply frame_world|done].
  - destruct (Hc _ _ _ (frame_inv_world s w Hs) Hr) as (Hs1 & HR & _).
    destruct (IH Hs1 eq_refl) as (s2 & ? & HR2 & ?). exists s2. split_and!; [done| |done].
    etrans; [apply (frame_world s w)|]. by etrans.
Qed.

Lemma waitForDeployment_Ok `{!KubeLaws W} ns nm i (s s' : St W) :
  named ns nm s -> waitForDeployment i s = (Ok tt, s') ->
  exists pre d, deployment_ready d /\ st_trace s' =
    st_trace s ++ pre ++ [EvGet KDeployment ns (serverName nm i) (Ok d)].
Proof.
  intros Hn. unfold waitForDeployment. intros (cr & s0 & [= <- <-] & Hr)%M_bind_Ok.
  apply M_bind_Ok in Hr as (? & s2 & Hsleep & Hr).
  eapply (poll_last (named ns nm) (serves (serverName nm i))) in Hr as (s3 & _ & [(e & He & _) _] & Hr).
  - apply isDeploymentReady_true in Hr as (d & Hd & -> & _). destruct Hn as [-> ->].
    injection Hsleep as _ <-. exists (EvSleep waitingInterval :: e), d. split; [done|].
    rewrite He. simpl. by rewrite <- !app_assoc.
  - apply (isDeploymentReady_ok ns nm (fun n => n = serverName nm i)); apply _.
  - by injection Hsleep as _ <-.
Qed.
End waits.

Section rolling.
Context {W : Type} `{!KubeClient W} `{!KubeLaws W} `{!WaitLib W} `{!WaitLaws W}.
Context `{!Quantities} `{!VaultApi W} `{!Passwords W}.

(** One server's round: its events write only its own deployment, and when the
    round succeeds under a rolling update the last thing it did was to read
    that deployment ready. *)
Lemma reconcileServer_round ns nm sec i zk (s : St W) r s' :
  named ns nm s -> secret_in ns sec ->
  sp_ZooKeeper (cr_Spec (st_cr s)) = Some zk -> zk_RollingUpdate zk = true ->
  reconcileServer sec i s = (r, s') ->
  named ns nm s' /\ cr_Spec (st_cr s') = cr_Spec (st_cr s) /\
  exists seg, st_trace s' = st_trace s ++ seg /\
    Forall (writes_only (serverName nm i)) seg /\
    forall sec', r = Ok sec' -> secret_in ns sec' /\
      exists pre d, deployment_ready d /\
        seg = pre ++ [EvGet KDeployment ns (serverName nm i) (Ok d)].
Proof.
  intros Hn Hsec Hzk Hroll Hrun.
  set (D := fun n => n = serverName nm i).
  destruct (reconcileServer_ok ns nm D (serves (serverName nm i)) sec i eq_refl Hsec s r s' Hn Hrun)
    as (Hn' & [(seg & Htr & Hseg) Hspec] & Hval).
  split_and!; [done..|]. exists seg. split_and!; [done..|]. intros sec' ->.
  split; [by apply (descends_in ns sec); [apply Hval|]|].
  unfold reconcileServer in Hrun. apply M_bind_Ok in Hrun as (sec1 & s1 & Hdep & Hrun).
  destruct (deployServer_ok ns nm D (serves (serverName nm i)) sec i eq_refl Hsec s _ s1 Hn Hdep)
    as (Hn1 & [(seg1 & Htr1 & _) Hspec1] & _).
  apply M_bind_Ok in Hrun as (cr & ? & [= <- <-] & Hrun).
  unfold zooKeeperOf in Hrun. rewrite Hspec1, Hzk in Hrun.
  apply M_bind_Ok in Hrun as (zk' & ? & [= <- <-] & Hrun). rewrite Hroll in Hrun.
  apply M_bind_Ok in Hrun as ([] & s2 & Hwait & [= _ ->]).
  destruct (waitForDeployment_Ok ns nm i s1 s' Hn1 Hwait) as (pre & d & Hd & Hlast).
  exists (seg1 ++ pre), d. split; [done|].
  rewrite Htr1, Htr, <- app_assoc in Hlast. apply app_inv_head in Hlast.
  by rewrite <- app_assoc.
Qed.

(** ** Properties *)

(** C6: Rolling update: the events of the loop over the servers fall into one
    segment per server, in order; the segment of a server writes no deployment
    but that server's, and every segment that is followed by another one (and
    the last one too, when the loop succeeds) ends with reading that server's
    deployment with all replicas ready and updated.  So the next server is
    touched only after the previous one is back. *)
Theorem rolling_update_order ns nm sec ids zk (s : St W) r s' :
  named ns nm s -> secret_in ns sec ->
  sp_ZooKeeper (cr_Spec (st_cr s)) = Some zk -> zk_RollingUpdate zk = true ->
  reconcileServers sec ids s = (r, s') ->
  exists segs, st_trace s' = st_trace s ++ concat segs /\
    (length segs <= length ids)%nat /\ (is_Ok r = true -> length segs = length ids) /\
    forall j seg i, segs !! j = Some seg -> ids !! j = Some i ->
      Forall (writes_only (serverName nm i)) seg /\
      ((S j < length segs)%nat \/ is_Ok r = true ->
         exists pre d, deployment_ready d /\
           seg = pre ++ [EvGet KDeployment ns (serverName nm i) (Ok d)]).
Proof.
  revert sec s. induction ids as [|i ids IH]; intros sec s Hn Hsec Hzk Hroll Hrun; simpl in Hrun.
  { injection Hrun as <- <-. exists []. rewrite app_nil_r. split_and!; done. }
  apply M_bind_inv in Hrun as [(sec1 & s1 & Hone & Hrun)|Hfail].
  - destruct (reconcileServer_round _ _ _ _ _ _ _ _ Hn Hsec Hzk Hroll Hone)
      as (Hn1 & Hspec & seg & Htr & Hseg & Hok). destruct (Hok _ eq_refl) as [Hsec1 Hready].
    rewrite <- Hspec in Hzk.
    destruct (IH sec1 s1 Hn1 Hsec1 Hzk Hroll Hrun) as (segs & Htr' & Hle & Hlen & Hsegs).
    exists (seg :: segs). simpl. split_and!.
    + by rewrite Htr', Htr, <- app_assoc.
    + lia.
    + intros Hr. by rewrite Hlen.
    + intros [|j] sg i' Hj Hi; [|specialize (Hsegs j sg i' Hj Hi) as [? ?]].
      * by simplify_eq/=.
      * split; [done|]. intros [?|?]; [|by auto]. eauto with lia.
  - assert (is_Ok r = false /\ reconcileServer sec i s = (r, s')) as [Hr Hone].
    { by destruct Hfail as [(e & ? & ->)|(p & ? & ->)]. }
    destruct (reconcileServer_round _ _ _ _ _ _ _ _ Hn Hsec Hzk Hroll Hone)
      as (_ & _ & seg & Htr & Hseg & _).
    exists [seg]. simpl. rewrite app_nil_r. split_and!; [done|lia|by rewrite Hr|].
    intros [|j] sg i' Hj Hi; [|by destruct j]. simplify_eq/=. split; [done|].
    rewrite Hr. intros [?|?]; [lia|done].
Qed.
End rolling.

(** ** Downscale *)
#[global] Instance emits_named_frame {W} ns nm P : Frame (named (W:=W) ns nm) (emits P).
Proof. split; [apply _| |done]. intros s w. by apply emits_nil. Qed.

Section downscale.
Context {W : Type} `{!KubeClient W} `{!KubeLaws W} `{!WaitLib W} `{!WaitLaws W}.

(** The last attempt of a retried function that succeeded. *)
Lemma retry_success (I : St W -> Prop) (R : St W -> St W -> Prop) `{!Frame I R} fn s s' :
  holds I R any fn -> I s -> RetryOnConflict fn s = (Ok tt, s') ->
  exists s1, I s1 /\ R s s1 /\ fn s1 = (Ok tt, s').
Proof.
  intros Hf Hs Hrun%wl_retry_law. remember (Ok tt) as r.
  induction Hrun as [n s w r s' Hr _| |n s w e s1 r s' Hr _ _ IH]; simplify_eq.
  - exists (set_world w s). split_and!; [by apply frame_inv_world|apply frame_world|done].
  - destruct (Hf _ _ _ (frame_inv_world s w Hs) Hr) as (Hs1 & HR & _).
    destruct (IH Hs1 eq_refl) as (s2 & ? & HR2 & ?). exists s2. split_and!; [done| |done].
    etrans; [apply (frame_world s w)|]. by etrans.
Qed.

(** One attempt: read, and write back with no replicas. *)
Lemma scale_attempt ns nm ids i (s : St W) r s' :
  named ns nm s -> i ∈ ids ->
  (d ← findDeployment (serverName nm i) ns;
   client_Update KDeployment (set_d_Replicas (Some 0) d) ;; mret tt) s = (r, s') ->
  named ns nm s' /\ scaling nm ids [i] r s s'.
Proof.
  intros Hn Hi. unfold findDeployment, client_Get, client_Update, emit, modify, on_world, mbind, M_bind.
  destruct (kc_get KDeployment ns (serverName nm i) (st_world s)) as [[d|e|p] w] eqn:E.
  - apply kl_get in E as [_ Hname]. simpl in Hname.
    destruct (kc_update KDeployment _ _) as [ru w'] eqn:Eu. intros Hr.
    assert (exists x, s' = set_world x (log_event (EvUpdate KDeployment (set_d_Replicas (Some 0) d))
      (log_event (EvGet KDeployment ns (serverName nm i) (Ok d)) s))) as [x ->].
    { exists w'. destruct ru; by injection Hr as _ <-. }
    split; [done|]. eexists [_; _]. split_and!; [simpl; by rewrite <- app_assoc| |].
    + rewrite !Forall_cons. split_and!; [done| |constructor]. split; [done|]. by exists i.
    + intros _ j ->%list_elem_of_singleton. exists (set_d_Replicas (Some 0) d).
      split_and!; [set_solver|done..].
  - intros [= <- <-]. split; [done|]. eexists [_]. split_and!; [done|by constructor|done].
  - intros [= <- <-]. split; [done|]. eexists [_]. split_and!; [done|by constructor|done].
Qed.

Lemma scaling_app nm ids l1 l2 r (s s1 s' : St W) :
  scaling nm ids l1 (Ok tt) s s1 -> scaling nm ids l2 r s1 s' -> scaling nm ids (l1 ++ l2) r s s'.
Proof.
  intros (e1 & T1 & F1 & S1) (e2 & T2 & F2 & S2). exists (e1 ++ e2).
  split_and!; [by rewrite T2, T1, app_assoc|by apply Forall_app|].
  intros Hr i [Hi|Hi]%elem_of_app.
  - destruct (S1 eq_refl i Hi) as (d & ? & ?). exists d. set_solver.
  - destruct (S2 Hr i Hi) as (d & ? & ?). exists d. set_solver.
Qed.

Lemma scaleDeployment_run ns nm ids i (s : St W) r s' :
  named ns nm s -> i ∈ ids -> scaleDeployment (serverName nm i) 0 ns s = (r, s') ->
  named ns nm s' /\ scaling nm ids [i] r s s'.
Proof.
  intros Hn Hi Hrun.
  assert (holds (named ns nm) (emits (scales_down nm ids)) any
    (d ← findDeployment (serverName nm i) ns;
     client_Update KDeployment (set_d_Replicas (Some 0) d) ;; mret tt)) as Hbody.
  { intros s0 r0 s0' Hs0 Hr0.
    destruct (scale_attempt ns nm ids i s0 r0 s0' Hs0 Hi Hr0) as (? & e & ? & ? & _).
    split_and!; [done| |done]. by exists e. }
  destruct (holds_retry _ _ _ _ Hbody s r s' Hn Hrun) as (? & (e & He & Hf) & _).
  split; [done|]. destruct (decide (r = Ok tt)) as [->|]; [|by exists e].
  destruct (retry_success _ _ _ _ _ Hbody Hn Hrun) as (s1 & Hn1 & (e1 & He1 & Hf1) & Hlast).
  destruct (scale_attempt ns nm ids i s1 _ s' Hn1 Hi Hlast) as (_ & Hsc).
  apply (scaling_app nm ids [] [i] _ s s1 s'); [|done]. exists e1. split_and!; [done..|].
  intros _ j Hj. by apply elem_of_nil in Hj.
Qed.

Lemma scale_all ns nm ids l (s : St W) r s' :
  named ns nm s -> l ⊆ ids ->
  for_each l (fun i => scaleDeployment (serverName nm i) 0 ns) s = (r, s') ->
  scaling nm ids l r s s'.
Proof.
  revert s. induction l as [|i l IH]; intros s Hn Hsub Hrun; simpl in Hrun.
  { injection Hrun as <- <-. exists []. rewrite app_nil_r. split_and!; [done|done|].
    intros _ i Hi. by apply elem_of_nil in Hi. }
  assert (i ∈ ids) as Hi by (apply Hsub; constructor).
  apply M_bind_inv in Hrun as [([] & s1 & H1 & H2)|Hfail].
  - destruct (scaleDeployment_run ns nm ids i s _ s1 Hn Hi H1) as (Hn1 & Hone).
    apply (scaling_app nm ids [i] l r s s1 s'); [done|]. apply IH; [done|set_solver|done].
  - assert (r <> Ok tt /\ scaleDeployment (serverName nm i) 0 ns s = (r, s')) as [Hr Hone].
    { by destruct Hfail as [(e & ? & ->)|(p & ? & ->)]. }
    destruct (scaleDeployment_run ns nm ids i s _ s' Hn Hi Hone) as (_ & e & ? & ? & _).
    by exists e.
Qed.

(** C12: Downscale: from a namespace [ns] and a resource [nm], the step writes only
    deployments of servers above the wanted number, always with zero replicas,
    and when it succeeds every server above the wanted number has been scaled
    to zero; when there is no excess it does nothing. *)
Theorem downscale_zeroes_excess ns nm current replicas (s : St W) r s' :
  named ns nm s -> scaleDownExcess current replicas s = (r, s') ->
  let excess := upto (replicas + 1) current in
  scaling nm excess excess r s s' /\
  (forall i, i ∈ excess <-> replicas < i <= current) /\
  (current <= replicas -> (r, s') = (Ok tt, s)).
Proof.
  intros Hn Hrun excess.
  assert (forall i, i ∈ excess <-> replicas < i <= current) as Hids
    by (intros i; unfold excess; rewrite upto_lookup; lia).
  unfold scaleDownExcess in Hrun. case_bool_decide as Hex; simpl in Hrun.
  - apply M_bind_inv in Hrun as [(cr & ? & [= <- <-] & Hrun)|[(? & [=] & _)|(? & [=] & _)]].
    pose proof Hn as [Hns Hnm]. rewrite Hns, Hnm in Hrun.
    split_and!; [|done|lia]. by eapply scale_all.
  - injection Hrun as <- <-. split_and!; [|done..]. exists []. rewrite app_nil_r.
    split_and!; [done|constructor|]. intros _ i Hi%Hids. lia.
Qed.
End downscale.

(** ** Readiness *)
Section readiness.
Context {W : Type} `{!KubeClient W} `{!KubeLaws W} `{!WaitLib W} `{!WaitLaws W}.

Lemma serversReady_true ids (s s' : St W) :
  serversReady ids s = (Ok true, s') ->
  st_cr s' = st_cr s /\ exists ds, length ds = length ids /\ Forall deployment_ready ds /\
    st_trace s' = st_trace s ++ zip_with (fun i d => EvGet KDeployment (cr_Namespace (st_cr s))
      (serverName (cr_Name (st_cr s)) i) (Ok d)) ids ds.
Proof.
  revert s. induction ids as [|i ids IH]; intros s Hr; simpl in Hr.
  - injection Hr as <-. split; [done|]. exists []. simpl. rewrite app_nil_r. by split_and!.
  - apply M_bind_Ok in Hr as (cr & ? & [= <- <-] & Hr).
    apply M_bind_Ok in Hr as ([|] & s1 & Hone & Hr); [|done].
    apply isDeploymentReady_true in Hone as (d & Hd & Htr & Hcr).
    apply IH in Hr as (Hcr' & ds & Hlen & Hds & Htr'). split; [congruence|].
    exists (d :: ds). simpl. split_and!; [by rewrite Hlen|by constructor|].
    rewrite Htr', Htr, Hcr, <- app_assoc. done.
Qed.

#[local] Instance true_frame ns nm :
  ReconcileFrame ns nm (fun _ => True) (fun _ _ : St W => True).
Proof. by repeat split. Qed.

(** C11: The readiness report can be trusted: a status check that completes ends by
    sending a status that says either Failed or Ready for the servers, and it
    says Ready only when the calls right before it read the deployment of
    every server, from 1 to the number of replicas, with all replicas ready
    and updated. *)
Theorem readiness_report_sound ns nm (s : St W) s' :
  named ns nm s -> zooKeeperStatus s = (Ok tt, s') ->
  exists pre cr' c, st_trace s' = pre ++ [EvStatusUpdate cr'] /\
    c ∈ stt_Conditions (cr_Status cr') /\ cond_Reason c = zooKeeperConditionReason /\
    (cond_Type c = typeFailed \/
     cond_Type c = typeReady /\ exists zk pre0 ds, sp_ZooKeeper (cr_Spec cr') = Some zk /\
       length ds = length (upto 1 (zk_Replicas zk)) /\ Forall deployment_ready ds /\
       pre = pre0 ++ zip_with (fun i d => EvGet KDeployment ns (serverName nm i) (Ok d))
                      (upto 1 (zk_Replicas zk)) ds).
Proof.
  intros Hn Hrun. set (D := fun _ : string => True). set (R := fun _ _ : St W => True).
  unfold zooKeeperStatus, reportReadiness in Hrun.
  apply M_bind_Ok in Hrun as ([] & s1 & Hup & Hrun).
  destruct (updateConditions_ok ns nm D R _ _ _ _ Hn Hup) as (Hn1 & _).
  apply M_bind_Ok in Hrun as (t & s2 & Ht & Hrun).
  destruct (podsReadyTimeout_ok ns nm D R _ _ _ Hn1 Ht) as (Hn2 & _).
  apply M_bind_Ok in Hrun as (res & s3 & Hpoll & Hrun). unfold try_ in Hpoll.
  destruct (PollUntilContextTimeout _ _ _ _ s2) as [[[]|e|p] s4] eqn:Hp; simplify_eq/=;
    destruct (updateConditions_sent _ _ _ _ Hrun)
      as (cr' & c & Htr & Hspec & Hc & Hreason & Htype & _);
    exists (st_trace s3), cr', c; (split_and!; [done..|]).
  - right. split; [done|].
    eapply (poll_last (named ns nm) R) in Hp as (s5 & Hn5 & _ & Hlast); [| |exact Hn2].
    2: { holds. apply (serversReady_ok ns nm D R). }
    apply M_bind_Ok in Hlast as (cr & ? & [= <- <-] & Hlast).
    apply M_bind_Ok in Hlast as (zk & ? & [= Hzk <-] & Hlast). apply deref_Ok in Hzk.
    apply serversReady_true in Hlast as (Hcr & ds & Hlen & Hds & Hgets). destruct Hn5 as [Hns Hnm].
    exists zk, (st_trace s5), ds. rewrite Hspec, Hcr. split_and!; try done.
    by rewrite Hgets, Hns, Hnm.
  - by left.
Qed.

(** The wait for the pod of a server accepts a deployment that has no pod yet:
    with an empty list of pods the check answers that the pod is running. *)
Lemma pod_running_no_pods n (s s' : St W) :
  getPodsForDeployment n s = (Ok [], s') -> isPodRunning n s = (Ok true, s').
Proof. intros Hp. unfold isPodRunning. by rewrite (run_bind _ _ _ _ _ Hp). Qed.
End readiness.
