(* ===== verification/MonitoringReconciler.v ===== *)
(** * The reconciler of the monitoring component

    [src/operator/controllers/monitoring_reconciler.go] and
    [monitoring_vault.go]. *)

From S2P Require Import Prelude GoStrings Types Util Provider Platform Conditions Reconciler Vault.
From S2P Require Import ZooKeeperProvider MonitoringProvider ZooKeeperVault Fragments Frames.

Definition monitoringConditionReason : string := "ZooKeeperMonitoringReadinessStatus".
Definition monitoringHashName : string := "spec.monitoring".

(** [cr.Spec.Monitoring], dereferenced. *)
Definition monitoringOf (cr : ZooKeeperService) : Res Monitoring :=
  deref (sp_MonitoringSpec (cr_Spec cr)).

Section monitoring.
Context {W : Type} `{KubeClient W} `{WaitLib W} `{Quantities} `{VaultApi W} `{Encoders}.

Definition monitoringProvider : M W MonitoringResourceProvider :=
  cr ← get_cr; mret (NewMonitoringResourceProvider cr).

Definition monitoringStatus : M W unit :=
  mrp ← monitoringProvider;
  reportReadiness monitoringConditionReason "ZooKeeper Monitoring health check"
    "ZooKeeper Monitoring pod is not ready" "ZooKeeper Monitoring pod is ready"
    podsReadyTimeout (deploymentReady (Mon.GetServiceName mrp)).

Definition writeMonitoringPolicies (monitoringSecret : Secret) : M W unit :=
  cr ← get_cr;
  mrp ← monitoringProvider;
  let monitoringPolicyName := scopedName (Mon.GetServiceName mrp) cr "-policy" in
  ensurePolicy monitoringPolicyName monitoringSecret
    (BuildVaultPolicy (Mon.GetServiceName mrp) cr ["*"]) ;;
  let zooKeeperClientPolicyName := scopedName (cr_Name cr) cr "-client-policy" in
  ensureRole (scopedName (Mon.GetServiceName mrp) cr "-role") monitoringSecret
    (BuildVaultRole (Mon.GetServiceAccountName mrp) cr
       [monitoringPolicyName; zooKeeperClientPolicyName]).

Definition monitoringVaultSecrets (monitoringSecret : Secret) : M W Secret :=
  cr ← get_cr;
  v ← lift (vaultOf cr);
  when (v_WritePolicies v) (writeMonitoringPolicies monitoringSecret) ;;
  cleanSecret monitoringSecret.

Definition updateMonitoringStatus : M W unit :=
  mrp ← monitoringProvider;
  updateNodes (Mon.GetMonitoringSelectorLabels mrp) set_MonitoringNodes.

(** The secret of the backup daemon, when there is a backup daemon. *)
Definition watchBackupDaemonSecret : M W (option Secret) :=
  cr ← get_cr;
  match sp_BackupDaemon (cr_Spec cr) with
  | Some bd => if bool_decide (bd_SecretName bd = "") then mret None
               else watchOptionalSecret (bd_SecretName bd)
  | None => mret None
  end.

(** The body of the branch taken when something changed. *)
Definition reconcileMonitoring (monitoringSecret : Secret) (backupDaemonSecret : option Secret)
  : M W Secret :=
  mrp ← monitoringProvider;
  applyService (Mon.NewMonitoringClientService mrp) ;;
  cr ← get_cr;
  createServiceAccount (NewServiceAccount (Mon.GetServiceAccountName mrp) (cr_Namespace cr)) ;;
  monitoringSecret ← (if IsVaultSecretManagementEnabled cr
                      then monitoringVaultSecrets monitoringSecret else mret monitoringSecret);
  mrp ← monitoringProvider;
  applyDeployment (Mon.NewMonitoringDeployment mrp) [Some monitoringSecret; backupDaemonSecret] ;;
  updateMonitoringStatus ;;
  mret monitoringSecret.

Definition monitoringReconcile : M W unit :=
  cr ← get_cr;
  spec ← lift (monitoringOf cr);
  monitoringSecret ← watchOwnSecret (mon_SecretName spec);
  backupDaemonSecret ← watchBackupDaemonSecret;
  monitoringSpecHash ← lift (Hash marshalMonitoring (sp_MonitoringSpec (cr_Spec cr)));
  changed ← configurationChanged monitoringHashName monitoringSpecHash
              [Some monitoringSecret; backupDaemonSecret];
  monitoringSecret ← (if (changed : bool)
                      then reconcileMonitoring monitoringSecret backupDaemonSecret
                      else mret monitoringSecret);
  cr ← get_cr;
  mrp ← monitoringProvider;
  updateDeploymentSecretRestartAnnotations (cr_Namespace cr) (Mon.GetServiceName mrp)
    [Some monitoringSecret; backupDaemonSecret] ;;
  recordVersion (Some monitoringSecret) ;;
  recordVersion backupDaemonSecret ;;
  setHash monitoringHashName monitoringSpecHash.

Definition NewReconcileMonitoring : ReconcileService W :=
  mkReconcileService "controllers.ReconcileMonitoring" monitoringReconcile monitoringStatus.
End monitoring.

(** ** Lemmas *)

Lemma monitoring_service_ns `{Quantities} mrp svc :
  Mon.NewMonitoringClientService mrp = Ok svc ->
  m_Namespace (svc_Meta svc) = cr_Namespace (mrp_cr mrp).
Proof. unfold Mon.NewMonitoringClientService. intros Hs. by inv_binds Hs. Qed.

Lemma monitoring_deployment_name `{Quantities} mrp d :
  Mon.NewMonitoringDeployment mrp = Ok d ->
  m_Namespace (d_Meta d) = cr_Namespace (mrp_cr mrp) /\ m_Name (d_Meta d) = mrp_serviceName mrp.
Proof.
  unfold Mon.NewMonitoringDeployment. cbv zeta. intros Hd.
  do 8 apply bind_Ok in Hd as (? & ? & Hd). destruct (ZK.extend _ _) as [[? ?] ?]. by inv_binds Hd.
Qed.

Section frames.
Context {W : Type} `{!KubeClient W} `{!KubeLaws W} `{!WaitLib W} `{!WaitLaws W}.
Context `{!Quantities} `{!VaultApi W} `{!Encoders}.
Context (ns nm : string) (D : string -> Prop) (R : St W -> St W -> Prop).
#[local] Abbreviation hold := (holds (named ns nm) R).

Lemma monitoringProvider_ok `{!OpFrame ns nm D R} :
  hold (fun mrp => cr_Namespace (mrp_cr mrp) = ns /\ mrp_serviceName mrp = nm +:+ "-monitoring")
    monitoringProvider.
Proof. unfold monitoringProvider. holds. destruct Hs as [Hns <-]. by split. Qed.
#[local] Hint Resolve monitoringProvider_ok : zk.

Lemma monitoringVaultSecrets_ok `{!OpFrame ns nm D R} sec :
  secret_in ns sec -> hold (descends W ns sec) (monitoringVaultSecrets sec).
Proof. intros Hsec. unfold monitoringVaultSecrets, writeMonitoringPolicies. holds. Qed.

Lemma watchBackupDaemonSecret_ok `{!OpFrame ns nm D R} :
  hold (opt_server_secret W ns) watchBackupDaemonSecret.
Proof. unfold watchBackupDaemonSecret. holds. Qed.
#[local] Hint Resolve watchBackupDaemonSecret_ok : zk.

Lemma updateMonitoringStatus_ok `{!ReconcileFrame ns nm D R} : hold any updateMonitoringStatus.
Proof. unfold updateMonitoringStatus. holds. apply (updateNodes_ok ns nm D R). by eexists. Qed.

Lemma reconcileMonitoring_ok `{!ReconcileFrame ns nm D R} sec bsec :
  D (nm +:+ "-monitoring") -> secret_in ns sec ->
  hold (descends W ns sec) (reconcileMonitoring sec bsec).
Proof.
  intros HD Hsec. unfold reconcileMonitoring. holds_step. destruct Hx as [Hns Hnm].
  rule holds_bind_any.
  { apply (applyService_ok ns nm D R). intros svc Hsvc. by apply monitoring_service_ns in Hsvc as ->. }
  intros _. holds_step. rule holds_bind_any.
  { apply (createServiceAccount_ok ns nm D R). apply Hs. }
  intros _. eapply (holds_bind _ _ (descends W ns sec)).
  { case_match; [by apply monitoringVaultSecrets_ok|rule holds_ret; apply descends_refl]. }
  intros sec' Hsec'. holds_step. destruct Hx as [Hns' Hnm']. rule holds_bind_any.
  { apply (applyDeployment_ok ns nm D R). intros d Hd.
    apply monitoring_deployment_name in Hd as [-> ->]. by rewrite Hnm'. }
  intros _. rule holds_bind_any; [apply updateMonitoringStatus_ok|intros _; by rule holds_ret].
Qed.

(** What follows the branch. *)
Lemma monitoringFinish_ok `{!ReconcileFrame ns nm D R} sec bsec h :
  records R monitoringHashName -> D (nm +:+ "-monitoring") -> opt_server_secret W ns bsec ->
  server_secret W ns sec ->
  hold any (cr ← get_cr;
            mrp ← monitoringProvider;
            updateDeploymentSecretRestartAnnotations (cr_Namespace cr) (Mon.GetServiceName mrp)
              [Some sec; bsec] ;;
            recordVersion (Some sec) ;;
            recordVersion bsec ;;
            setHash monitoringHashName h).
Proof.
  intros Hrec HD Hb Hsec. holds. destruct Hs as [-> _], Hx as [_ Hn]. rule holds_bind_any.
  - apply (restartAnnotations_ok ns nm D R). unfold Mon.GetServiceName. by rewrite Hn.
  - intros _. rule holds_bind_any; [by apply (recordVersion_ok ns nm D R)|].
    intros _. holds. by apply (setHash_ok ns nm R).
Qed.

Lemma monitoringReconcile_ok `{!ReconcileFrame ns nm D R} :
  records R monitoringHashName ->
  D (nm +:+ "-monitoring") -> hold any monitoringReconcile.
Proof.
  intros Hrec HD. unfold monitoringReconcile. holds. eapply (holds_bind _ _ (descends W ns x)).
  - case_match; [apply reconcileMonitoring_ok; eauto with zk|rule holds_ret; apply descends_refl].
  - intros sec Hsec. apply monitoringFinish_ok; [done..|]. by apply (descends_server _ x).
Qed.

Lemma monitoringStatus_ok `{!ReconcileFrame ns nm D R} : hold any monitoringStatus.
Proof. unfold monitoringStatus. holds. apply (reportReadiness_ok ns nm D R); holds. Qed.
End frames.
