(* ===== verification/BackupDaemonReconciler.v ===== *)
(** * The reconciler of the backup daemon

    [src/operator/controllers/backupdaemon_reconciler.go] and
    [backupdaemon_vault.go]. *)

From S2P Require Import Prelude GoStrings Types Util Provider Platform Conditions Reconciler Vault.
From S2P Require Import ZooKeeperProvider MonitoringProvider BackupDaemonProvider.
From S2P Require Import ZooKeeperVault Fragments Frames.

Definition backupDaemonConditionReason : string := "ZooKeeperBackupDaemonReadinessStatus".
Definition backupDaemonHashName : string := "spec.backupDaemon".

(** [cr.Spec.BackupDaemon], dereferenced. *)
Definition backupDaemonOf (cr : ZooKeeperService) : Res BackupDaemon :=
  deref (sp_BackupDaemon (cr_Spec cr)).

(** [backupStorage.PersistentVolumeClaimName = name] on the copy. *)
Definition set_ClaimName (name : string) (s : SnapshotStorage) : SnapshotStorage :=
  mkSnapshotStorage (ss_PersistentVolumeType s) (ss_PersistentVolumeName s) name
    (ss_NodeName s) (ss_VolumeSize s) (ss_PersistentVolumeLabel s) (ss_StorageClass s)
    (ss_NfsServer s) (ss_NfsPath s).

Section backup_daemon.
Context {W : Type} `{KubeClient W} `{WaitLib W} `{Quantities} `{VaultApi W} `{Passwords W}
  `{Encoders}.

Definition backupDaemonProvider : M W BackupDaemonResourceProvider :=
  cr ← get_cr; mret (NewBackupDaemonResourceProvider cr).

Definition backupDaemonStatus : M W unit :=
  bdrp ← backupDaemonProvider;
  reportReadiness backupDaemonConditionReason "ZooKeeper Backup Daemon health check"
    "ZooKeeper Backup Daemon pod is not ready" "ZooKeeper Backup Daemon pod is ready"
    podsReadyTimeout (deploymentReady (Backup.GetServiceName bdrp)).

Definition writeBackupDaemonPolicies (backupDaemonSecret : Secret) : M W unit :=
  cr ← get_cr;
  bdrp ← backupDaemonProvider;
  let backupDaemonPolicyName := scopedName (Backup.GetServiceName bdrp) cr "-policy" in
  ensurePolicy backupDaemonPolicyName backupDaemonSecret
    (BuildVaultPolicy (Backup.GetServiceName bdrp) cr ["*"]) ;;
  let zooKeeperAdminPolicyName := scopedName (cr_Name cr) cr "-admin-policy" in
  ensureRole (scopedName (Backup.GetServiceName bdrp) cr "-role") backupDaemonSecret
    (BuildVaultRole (Backup.GetServiceAccountName bdrp) cr
       [backupDaemonPolicyName; zooKeeperAdminPolicyName]).

Definition processCredentials (backupDaemonSecret : Secret)
    (passwordGenerator : PasswordGenerator) : M W unit :=
  cr ← get_cr;
  bdrp ← backupDaemonProvider;
  rotateCredentials (credentialsName (Backup.GetServiceName bdrp) cr "credentials") "username"
    backupDaemonSecret passwordGenerator.

Definition backupDaemonVaultSecrets (backupDaemonSecret : Secret) : M W Secret :=
  cr ← get_cr;
  v ← lift (vaultOf cr);
  when (v_WritePolicies v) (writeBackupDaemonPolicies backupDaemonSecret) ;;
  passwordGenerator ← newPasswordGenerator;
  processCredentials backupDaemonSecret passwordGenerator ;;
  cleanSecret backupDaemonSecret.

Definition updateBackupDaemonStatus : M W unit :=
  bdrp ← backupDaemonProvider;
  updateNodes (Backup.GetBackupDaemonSelectorLabels bdrp) set_BackupDaemonNodes.

Definition watchS3Secret (spec : BackupDaemon) : M W (option Secret) :=
  match bd_S3 spec with
  | Some s => if s3_Enabled s && negb (bool_decide (s3_SecretName s = ""))
              then watchOptionalSecret (s3_SecretName s) else mret None
  | None => mret None
  end.

(** [findSecret] returns the empty object beside its error. *)
Definition findS3AliasesSecret : M W (Secret * bool) :=
  cr ← get_cr;
  r ← try_ (findSecret (cr_Name cr +:+ "-backup-daemon-s3-aliases") (cr_Namespace cr));
  mret (match r with inl _ => (emptySecret, false) | inr secret => (secret, true) end).

Definition createBackupClaim (spec : BackupDaemon) : M W unit :=
  when (negb (bool_decide (ss_PersistentVolumeType (bd_BackupStorage spec) = "")))
    (cr ← get_cr;
     let backupStorage :=
       if bool_decide (ss_PersistentVolumeClaimName (bd_BackupStorage spec) = "")
       then set_ClaimName (SnapshotsPersistentVolumeClaim (cr_Name cr)) (bd_BackupStorage spec)
       else bd_BackupStorage spec in
     claim ← processSnapshotsPersistentVolumeClaim backupStorage;
     match claim with
     | Some claim => createPersistentVolumeClaim claim
     | None => mret tt
     end).

(** The body of the branch taken when something changed. *)
Definition reconcileBackupDaemon (spec : BackupDaemon) (backupDaemonSecret : Secret)
    (s3Secret : option Secret) (s3AliasesSecret : Secret) (s3AliasesEnabled : bool) : M W Secret :=
  createBackupClaim spec ;;
  bdrp ← backupDaemonProvider;
  applyService (Backup.NewBackupDaemonClientService bdrp) ;;
  cr ← get_cr;
  createServiceAccount (NewServiceAccount (Backup.GetServiceAccountName bdrp) (cr_Namespace cr)) ;;
  backupDaemonSecret ← (if IsVaultSecretManagementEnabled cr
                        then backupDaemonVaultSecrets backupDaemonSecret
                        else mret backupDaemonSecret);
  bdrp ← backupDaemonProvider;
  applyDeployment (Backup.NewBackupDaemonDeployment bdrp s3AliasesEnabled)
    [Some backupDaemonSecret; s3Secret; Some s3AliasesSecret] ;;
  updateBackupDaemonStatus ;;
  mret backupDaemonSecret.

Definition backupDaemonReconcile : M W unit :=
  cr ← get_cr;
  spec ← lift (backupDaemonOf cr);
  backupDaemonSecret ← watchOwnSecret (bd_SecretName spec);
  s3Secret ← watchS3Secret spec;
  aliases ← findS3AliasesSecret;
  let '(s3AliasesSecret, s3AliasesEnabled) := (fst aliases, snd aliases) in
  backupDaemonSpecHash ← lift (Hash marshalBackupDaemon (sp_BackupDaemon (cr_Spec cr)));
  changed ← configurationChanged backupDaemonHashName backupDaemonSpecHash
              [Some backupDaemonSecret; s3Secret; Some s3AliasesSecret];
  backupDaemonSecret ←
    (if (changed : bool)
     then reconcileBackupDaemon spec backupDaemonSecret s3Secret s3AliasesSecret s3AliasesEnabled
     else mret backupDaemonSecret);
  cr ← get_cr;
  bdrp ← backupDaemonProvider;
  updateDeploymentSecretRestartAnnotations (cr_Namespace cr) (Backup.GetServiceName bdrp)
    [Some backupDaemonSecret; s3Secret; Some s3AliasesSecret] ;;
  recordVersion (Some backupDaemonSecret) ;;
  recordVersion s3Secret ;;
  recordVersion (Some s3AliasesSecret) ;;
  setHash backupDaemonHashName backupDaemonSpecHash.

Definition NewReconcileBackupDaemon : ReconcileService W :=
  mkReconcileService "controllers.ReconcileBackupDaemon" backupDaemonReconcile backupDaemonStatus.
End backup_daemon.

(** ** Lemmas *)

Lemma backup_service_ns `{Quantities} bdrp svc :
  Backup.NewBackupDaemonClientService bdrp = Ok svc ->
  m_Namespace (svc_Meta svc) = cr_Namespace (brp_cr bdrp).
Proof. unfold Backup.NewBackupDaemonClientService. intros Hs. by inv_binds Hs. Qed.

Lemma backup_deployment_name `{Quantities} bdrp b d :
  Backup.NewBackupDaemonDeployment bdrp b = Ok d ->
  m_Namespace (d_Meta d) = cr_Namespace (brp_cr bdrp) /\ m_Name (d_Meta d) = brp_serviceName bdrp.
Proof.
  unfold Backup.NewBackupDaemonDeployment. cbv zeta. intros Hd.
  do 8 apply bind_Ok in Hd as (? & ? & Hd).
  destruct (ZK.extend _ (Backup.s3Aliases bdrp b)) as [[? ?] ?]. by inv_binds Hd.
Qed.

Section frames.
Context {W : Type} `{!KubeClient W} `{!KubeLaws W} `{!WaitLib W} `{!WaitLaws W}.
Context `{!Quantities} `{!VaultApi W} `{!Passwords W} `{!Encoders}.
Context (ns nm : string) (D : string -> Prop) (R : St W -> St W -> Prop).
#[local] Abbreviation hold := (holds (named ns nm) R).

Lemma backupDaemonProvider_ok `{!OpFrame ns nm D R} :
  hold (fun b => cr_Namespace (brp_cr b) = ns /\ brp_serviceName b = nm +:+ "-backup-daemon")
    backupDaemonProvider.
Proof. unfold backupDaemonProvider. holds. destruct Hs as [Hns <-]. by split. Qed.
#[local] Hint Resolve backupDaemonProvider_ok : zk.

Lemma processCredentials_ok `{!OpFrame ns nm D R} sec g : hold any (processCredentials sec g).
Proof. unfold processCredentials. holds. Qed.
#[local] Hint Resolve processCredentials_ok : zk.

Lemma backupDaemonVaultSecrets_ok `{!OpFrame ns nm D R} sec :
  secret_in ns sec -> hold (descends W ns sec) (backupDaemonVaultSecrets sec).
Proof. intros Hsec. unfold backupDaemonVaultSecrets, writeBackupDaemonPolicies. holds. Qed.

Lemma watchS3Secret_ok `{!OpFrame ns nm D R} spec : hold (opt_server_secret W ns) (watchS3Secret spec).
Proof. unfold watchS3Secret. holds. Qed.

Lemma findS3AliasesSecret_ok `{!OpFrame ns nm D R} :
  hold (fun x => server_secret W ns (fst x)) findS3AliasesSecret.
Proof.
  unfold findS3AliasesSecret. holds; [by left|]. right. simpl. destruct Hx as (-> & _ & ?). by destruct Hs.
Qed.
#[local] Hint Resolve watchS3Secret_ok findS3AliasesSecret_ok : zk.

Lemma updateBackupDaemonStatus_ok `{!ReconcileFrame ns nm D R} : hold any updateBackupDaemonStatus.
Proof. unfold updateBackupDaemonStatus. holds. apply (updateNodes_ok ns nm D R). by eexists. Qed.

Lemma reconcileBackupDaemon_ok `{!ReconcileFrame ns nm D R} spec sec s3 al b :
  D (nm +:+ "-backup-daemon") -> secret_in ns sec ->
  hold (descends W ns sec) (reconcileBackupDaemon spec sec s3 al b).
Proof.
  intros HD Hsec. unfold reconcileBackupDaemon. rule holds_bind_any.
  { unfold createBackupClaim. holds. apply (createPersistentVolumeClaim_ok ns nm D R). naive_solver. }
  intros _. holds_step. destruct Hx as [Hns Hnm]. rule holds_bind_any.
  { apply (applyService_ok ns nm D R). intros svc Hsvc. by apply backup_service_ns in Hsvc as ->. }
  intros _. holds_step. rule holds_bind_any.
  { apply (createServiceAccount_ok ns nm D R). apply Hs. }
  intros _. eapply (holds_bind _ _ (descends W ns sec)).
  { case_match; [by apply backupDaemonVaultSecrets_ok|rule holds_ret; apply descends_refl]. }
  intros sec' Hsec'. holds_step. destruct Hx as [Hns' Hnm']. rule holds_bind_any.
  { apply (applyDeployment_ok ns nm D R). intros d Hd.
    apply backup_deployment_name in Hd as [-> ->]. by rewrite Hnm'. }
  intros _. rule holds_bind_any; [apply updateBackupDaemonStatus_ok|intros _; by rule holds_ret].
Qed.

(** What follows the branch. *)
Lemma backupDaemonFinish_ok `{!ReconcileFrame ns nm D R} sec s3 al h :
  records R backupDaemonHashName -> D (nm +:+ "-backup-daemon") -> opt_server_secret W ns s3 ->
  server_secret W ns al -> server_secret W ns sec ->
  hold any (cr ← get_cr;
            bdrp ← backupDaemonProvider;
            updateDeploymentSecretRestartAnnotations (cr_Namespace cr) (Backup.GetServiceName bdrp)
              [Some sec; s3; Some al] ;;
            recordVersion (Some sec) ;;
            recordVersion s3 ;;
            recordVersion (Some al) ;;
            setHash backupDaemonHashName h).
Proof.
  intros Hrec HD H3 Hal Hsec. holds. destruct Hs as [-> _], Hx as [_ Hn]. rule holds_bind_any.
  - apply (restartAnnotations_ok ns nm D R). unfold Backup.GetServiceName. by rewrite Hn.
  - intros _. rule holds_bind_any; [by apply (recordVersion_ok ns nm D R)|].
    intros _. holds. by apply (setHash_ok ns nm R).
Qed.

Lemma backupDaemonReconcile_ok `{!ReconcileFrame ns nm D R} :
  records R backupDaemonHashName ->
  D (nm +:+ "-backup-daemon") -> hold any backupDaemonReconcile.
Proof.
  intros Hrec HD. unfold backupDaemonReconcile. holds. eapply (holds_bind _ _ (descends W ns x)).
  - case_match; [apply reconcileBackupDaemon_ok; eauto with zk|rule holds_ret; apply descends_refl].
  - intros sec Hsec. apply backupDaemonFinish_ok; [done..|]. by apply (descends_server _ x).
Qed.

Lemma backupDaemonStatus_ok `{!ReconcileFrame ns nm D R} : hold any backupDaemonStatus.
Proof. unfold backupDaemonStatus. holds. apply (reportReadiness_ok ns nm D R); holds. Qed.
End frames.
