(* ===== verification/Quiescence.v ===== *)
(** * An unchanged configuration is left alone

    When the recorded hashes and secret versions match, a sub-reconciler skips
    its resources: all it does is to watch its secrets and to refresh the
    restart annotations.  This file proves it for the three sub-reconcilers,
    from two facts about the shared operations: watching a secret changes
    nothing of the operator's own state, and the refresh of the annotations
    reads a deployment and writes back at most its restart annotations. *)

From S2P Require Import Prelude GoStrings Types Util Provider Platform Conditions Reconciler Vault.
From S2P Require Import ZooKeeperProvider MonitoringProvider BackupDaemonProvider.
From S2P Require Import ZooKeeperVault Fragments Frames ZooKeeperReconciler MonitoringReconciler.
From S2P Require Import BackupDaemonReconciler.

(** Equal up to the annotations of the pod template. *)
Definition same_but_annotations (d d' : Deployment) : Prop :=
  set_d_TemplateMeta (set_Annotations None (d_TemplateMeta d')) d'
  = set_d_TemplateMeta (set_Annotations None (d_TemplateMeta d)) d.

(** Reads of deployments, each possibly followed by a write of what was read
    with other annotations. *)
Inductive annotation_rounds : list Event -> Prop :=
| ar_nil : annotation_rounds []
| ar_read ns n r evs : annotation_rounds evs ->
    annotation_rounds (EvGet KDeployment ns n r :: evs)
| ar_write ns n d d' evs : same_but_annotations d d' -> annotation_rounds evs ->
    annotation_rounds (EvGet KDeployment ns n (Ok d) :: EvUpdate KDeployment d' :: evs).

(** The operator's own state, all but the world and the trace. *)
Definition same_memory {W} (s s' : St W) : Prop :=
  st_cr s' = st_cr s /\ st_hashes s' = st_hashes s /\ st_versions s' = st_versions s /\
  st_globalHash s' = st_globalHash s /\ st_vault s' = st_vault s.

(** The resource and the recorded hashes stay as they are, and the calls are
    annotation rounds. *)
Definition idle {W} (s s' : St W) : Prop :=
  st_cr s' = st_cr s /\ st_hashes s' = st_hashes s /\
  exists evs, st_trace s' = st_trace s ++ evs /\ annotation_rounds evs.

(** A relation that tolerates what watching secrets does: calls that write
    nothing, and updates of secrets. *)
Class WatchFrame {W} (R : St W -> St W -> Prop) : Prop := {
  wf_frame :: Frame (fun _ : St W => True) R;
  wf_read : forall s k ns n (r : Res (Obj k)), R s (log_event (EvGet k ns n r) s);
  wf_secret : forall s sec, R s (log_event (EvUpdate KSecret sec) s) }.

(** Nothing changed since the last successful run over these secrets. *)
Definition up_to_date {W} (hashName h : string) (secrets : list (option Secret)) (s : St W)
  : Prop :=
  st_hashes s !! hashName = Some h /\
  st_hashes s !! globalHashName = Some (st_globalHash s) /\
  Forall (fun o => secretVersionChanged (st_versions s) o = false) secrets.

(** ** Lemmas *)

Lemma annotation_rounds_app e1 e2 :
  annotation_rounds e1 -> annotation_rounds e2 -> annotation_rounds (e1 ++ e2).
Proof. intros H1 H2. induction H1; simpl; [done|by constructor|by constructor]. Qed.

#[global] Instance idle_preorder {W} : PreOrder (idle (W:=W)).
Proof.
  split.
  - intros s. split_and!; [done..|]. exists []. rewrite app_nil_r. split; [done|constructor].
  - intros s1 s2 s3 (C1 & D1 & e1 & H1 & F1) (C2 & D2 & e2 & H2 & F2).
    split_and!; [congruence..|]. exists (e1 ++ e2).
    rewrite H2, H1, app_assoc. split; [done|by apply annotation_rounds_app].
Qed.

Lemma idle_same {W} (s s' : St W) :
  st_cr s' = st_cr s -> st_hashes s' = st_hashes s -> st_trace s' = st_trace s -> idle s s'.
Proof.
  intros Hc Hh Ht. split_and!; [done..|]. exists []. rewrite app_nil_r. split; [done|constructor].
Qed.

#[global] Instance same_memory_frame {W} : WatchFrame (W:=W) same_memory.
Proof.
  split; [|by repeat split..]. split; [|by repeat split|done]. split; [by repeat split|].
  intros s1 s2 s3 (? & ? & ? & ? & ?) (? & ? & ? & ? & ?). repeat split; congruence.
Qed.

(** The hash [h] is recorded under [k]. *)
Definition has_hash {W} (k h : string) (s : St W) : Prop := st_hashes s !! k = Some h.

#[global] Instance idle_frame {W} k h : Frame (has_hash (W:=W) k h) idle.
Proof. split; [apply _|intros; by apply idle_same|done]. Qed.

Lemma apply_same_but_annotations secrets b d :
  same_but_annotations d (snd (fold_left applySecretAnnotation secrets (b, d))).
Proof.
  revert b d. induction secrets as [|[sec|] secrets IH]; intros b d; cbn [fold_left]; [done| |].
  - destruct (applySecretAnnotation (b, d) (Some sec)) as [b1 d1] eqn:E.
    apply applySecretAnnotation_spec in E as (_ & _ & _ & Heq).
    specialize (IH b1 d1). unfold same_but_annotations in *. congruence.
  - apply IH.
Qed.

Lemma annotations_only secrets d m d' :
  applyAutoRestartSecretAnnotations d secrets = (m, d') -> same_but_annotations d d'.
Proof.
  intros E. pose proof (apply_same_but_annotations secrets false d) as Hsame.
  unfold applyAutoRestartSecretAnnotations in E. by rewrite E in Hsame.
Qed.

(** *** Watching secrets *)
Section watching.
Context {W : Type} `{!KubeClient W} `{!WaitLib W} (R : St W -> St W -> Prop) `{!WatchFrame R}.
#[local] Abbreviation keep := (holds (fun _ : St W => True) R).

Lemma get_watched k ns n : keep any (client_Get k ns n).
Proof.
  intros s r s' _. unfold client_Get. destruct (kc_get _ _ _ _) as [r0 w].
  intros [= _ <-]. split_and!; [done| |done]. etrans; [apply (frame_world s w)|apply wf_read].
Qed.

Lemma update_watched sec : keep any (client_Update KSecret sec).
Proof.
  unfold client_Update. rule holds_bind_any; [|intros _; by rule holds_on_world].
  rule holds_modify. intros s _. split; [done|apply wf_secret].
Qed.

Lemma watchSecret_watched n : keep any (watchSecret n).
Proof.
  unfold watchSecret, updateSecret, findSecret, SetControllerReference. holds_step.
  rule holds_bind_any; [apply (get_watched KSecret)|intros sec]. holds_step.
  eapply (holds_bind_try _ _ any); [apply get_watched|intros e|intros o _]; [holds|].
  apply update_watched.
Qed.

Lemma watchOwnSecret_watched n : keep any (watchOwnSecret n).
Proof.
  unfold watchOwnSecret.
  eapply (holds_bind_try _ _ any); [apply watchSecret_watched|intros e|intros o _]; holds.
Qed.

Lemma watchOptionalSecret_watched n : keep any (watchOptionalSecret n).
Proof.
  unfold watchOptionalSecret.
  eapply (holds_bind_try _ _ any); [apply watchSecret_watched|intros e|intros o _]; holds.
Qed.

Lemma watchBackupDaemonSecret_watched `{!Quantities} : keep any watchBackupDaemonSecret.
Proof.
  unfold watchBackupDaemonSecret. holds_step. repeat case_match; [holds| |holds].
  eapply holds_weaken; [apply watchOptionalSecret_watched|done].
Qed.

Lemma watchS3Secret_watched `{!Quantities} spec : keep any (watchS3Secret spec).
Proof.
  unfold watchS3Secret. repeat case_match; [|holds..].
  eapply holds_weaken; [apply watchOptionalSecret_watched|done].
Qed.

Lemma findS3AliasesSecret_watched : keep any findS3AliasesSecret.
Proof.
  unfold findS3AliasesSecret, findSecret. holds_step.
  eapply (holds_bind_try _ _ any); [apply (get_watched KSecret)|intros e|intros o _]; holds.
Qed.
End watching.

Section quiescence.
Context {W : Type} `{!KubeClient W} `{!WaitLib W} `{!WaitLaws W}.
Context `{!Quantities} `{!VaultApi W} `{!Passwords W} `{!Encoders}.

(** *** The refresh of the annotations *)
Lemma refresh_attempt ns n secrets (s : St W) r s' :
  (r ← try_ (client_Get KDeployment ns n);
   match r with
   | inl err => if IsNotFound err then mret tt else throw err
   | inr deployment =>
       let '(modified, deployment) := applyAutoRestartSecretAnnotations deployment secrets in
       if modified then client_Update KDeployment deployment ;; mret tt else mret tt
   end) s = (r, s') ->
  idle s s'.
Proof.
  unfold try_, client_Get, mbind, M_bind.
  destruct (kc_get KDeployment ns n (st_world s)) as [[d|e|p] w].
  - destruct (applyAutoRestartSecretAnnotations d secrets) as [[|] d'] eqn:E;
      apply annotations_only in E.
    + unfold client_Update, emit, modify, on_world, mbind, M_bind. cbn beta iota.
      destruct (kc_update KDeployment d' _) as [[?|?|?] w']; intros [= _ <-]; (split_and!; [done..|]);
        (eexists [_; _]; split; [simpl; by rewrite <- app_assoc|by repeat constructor]).
    + intros [= _ <-]. split_and!; [done..|]. eexists [_]. split; [done|by repeat constructor].
  - destruct (IsNotFound e); intros [= _ <-]; (split_and!; [done..|]);
      (eexists [_]; split; [done|by repeat constructor]).
  - intros [= _ <-]. split_and!; [done..|]. eexists [_]. split; [done|by repeat constructor].
Qed.

Lemma refresh_idle k h ns n secrets :
  holds (has_hash (W:=W) k h) idle any (updateDeploymentSecretRestartAnnotations ns n secrets).
Proof.
  unfold updateDeploymentSecretRestartAnnotations. rule holds_retry.
  intros s r s' Hs Hr. apply refresh_attempt in Hr. split_and!; [|done..].
  unfold has_hash. destruct Hr as (_ & -> & _). done.
Qed.

Lemma unchanged_skips hashName h secrets (s : St W) :
  up_to_date hashName h secrets s -> configurationChanged hashName h secrets s = (Ok false, s).
Proof.
  intros (Hh & Hg & Hv). unfold configurationChanged, hashOf, gets, mbind, M_bind.
  rewrite Hh, Hg. simpl. rewrite !bool_decide_eq_true_2 by done. simpl.
  replace (existsb (secretVersionChanged (st_versions s)) secrets) with false; [done|].
  symmetry. apply not_true_iff_false. rewrite existsb_exists. intros (o & Ho & Hc).
  rewrite Forall_forall in Hv. rewrite Hv in Hc; [done|]. by apply list_elem_of_In.
Qed.

Lemma recordVersion_idle k h o : holds (has_hash (W:=W) k h) idle any (recordVersion o).
Proof.
  destruct o as [sec|]; [|by rule holds_ret]. rule holds_modify. intros s Hs.
  split; [done|by apply idle_same].
Qed.

Lemma setHash_idle k h : holds (has_hash (W:=W) k h) idle any (setHash k h).
Proof.
  rule holds_modify. intros s Hs. split; [apply lookup_insert_eq|].
  apply idle_same; [done| |done]. by apply insert_id.
Qed.

Lemma up_to_date_memory hashName h secrets (s s' : St W) :
  same_memory s s' -> up_to_date hashName h secrets s -> up_to_date hashName h secrets s'.
Proof. intros (_ & Hh & Hv & Hg & _). unfold up_to_date. by rewrite Hh, Hv, Hg. Qed.

(** ** Properties *)

(** The skip condition: a component is skipped exactly when the recorded hash
    of its section and of the global section are the current ones and no
    watched secret changed its version; without a recorded hash, as after a
    restart of the operator, it is never skipped. *)
Theorem skip_exactly_when_up_to_date {A} (Marshal : A -> Res string) (o : A)
    hashName h secrets (s : St W) :
  Hash Marshal o = Ok h ->
  exists changed, configurationChanged hashName h secrets s = (Ok changed, s) /\
    (changed = false <-> default "" (st_hashes s !! hashName) = h /\
       default "" (st_hashes s !! globalHashName) = st_globalHash s /\
       Forall (fun o => secretVersionChanged (st_versions s) o = false) secrets) /\
    (st_hashes s !! hashName = None -> changed = true).
Proof.
  intros Hh. eexists. split; [reflexivity|]. split.
  - rewrite !orb_false_iff, !negb_false_iff, !bool_decide_eq_true.
    rewrite <- (not_true_iff_false (existsb _ _)), existsb_exists, Forall_forall.
    setoid_rewrite <- list_elem_of_In. setoid_rewrite <- not_true_iff_false. naive_solver.
  - intros Hn. rewrite Hn. simpl. apply Hash_not_empty in Hh.
    by rewrite bool_decide_eq_false_2.
Qed.

(** Quiescence of the servers: when the hash of the section, the hash of the
    global section and the version of the secret are the recorded ones, all
    the reconciler does after watching the secret is to read the servers'
    deployments and to write back restart annotations: it creates nothing,
    changes no pod template otherwise, and does not touch the resource. *)
Theorem zookeeper_quiescent zk sec h (s s1 : St W) r s' :
  sp_ZooKeeper (cr_Spec (st_cr s)) = Some zk ->
  Hash marshalZooKeeper (Some zk) = Ok h ->
  watchOwnSecret (zk_SecretName zk) s = (Ok sec, s1) ->
  up_to_date zooKeeperHashName h [Some sec] s ->
  zooKeeperReconcile s = (r, s') -> idle s1 s'.
Proof.
  intros Hzk Hh Hw Hup Hrun.
  destruct (watchOwnSecret_watched same_memory (zk_SecretName zk) s _ s1 I Hw) as (_ & Hmem & _).
  pose proof (proj1 Hmem) as Hcr.
  apply (up_to_date_memory _ _ _ _ _ Hmem) in Hup. pose proof (proj1 Hup) as Hkey.
  unfold zooKeeperReconcile in Hrun. rewrite (run_bind _ _ s (st_cr s) s) in Hrun by done.
  rewrite (run_bind _ _ s zk s) in Hrun by (unfold zooKeeperOf; by rewrite Hzk).
  rewrite (run_bind _ _ _ _ _ Hw) in Hrun.
  rewrite (run_bind _ _ s1 h s1) in Hrun by (unfold lift; by rewrite Hzk, Hh).
  rewrite (run_bind _ _ s1 false s1) in Hrun.
  2: { by apply unchanged_skips. }
  rewrite (run_bind _ _ s1 sec s1) in Hrun by done.
  rewrite (run_bind _ _ s1 (st_cr s1) s1) in Hrun by done.
  rewrite (run_bind _ _ s1 zk s1) in Hrun by (unfold zooKeeperOf; by rewrite Hcr, Hzk).
  assert (holds (has_hash (W:=W) zooKeeperHashName h) idle any
    (for_each (upto 1 (zk_Replicas zk)) (fun serverId =>
       updateDeploymentSecretRestartAnnotations (cr_Namespace (st_cr s1))
         (serverName (cr_Name (st_cr s1)) serverId) [Some sec]) ;;
     recordVersion (Some sec) ;; setHash zooKeeperHashName h)) as Hidle.
  { rule holds_bind_any; [rule holds_for_each; intros; apply refresh_idle|intros _].
    rule holds_bind_any; [apply recordVersion_idle|intros _; apply setHash_idle]. }
  by destruct (Hidle s1 r s' Hkey Hrun) as (_ & ? & _).
Qed.

(** Quiescence of the monitoring component: the same, with the secret of the
    backup daemon watched as well. *)
Theorem monitoring_quiescent mon sec bsec h (s s1 s2 : St W) r s' :
  sp_MonitoringSpec (cr_Spec (st_cr s)) = Some mon ->
  Hash marshalMonitoring (Some mon) = Ok h ->
  watchOwnSecret (mon_SecretName mon) s = (Ok sec, s1) ->
  watchBackupDaemonSecret s1 = (Ok bsec, s2) ->
  up_to_date monitoringHashName h [Some sec; bsec] s ->
  monitoringReconcile s = (r, s') -> idle s2 s'.
Proof.
  intros Hmon Hh Hw Hb Hup Hrun.
  destruct (watchOwnSecret_watched same_memory (mon_SecretName mon) s _ s1 I Hw) as (_ & Hm1 & _).
  destruct (watchBackupDaemonSecret_watched same_memory s1 _ s2 I Hb) as (_ & Hm2 & _).
  apply (up_to_date_memory _ _ _ _ _ Hm1), (up_to_date_memory _ _ _ _ _ Hm2) in Hup.
  pose proof (proj1 Hup) as Hkey.
  unfold monitoringReconcile in Hrun. rewrite (run_bind _ _ s (st_cr s) s) in Hrun by done.
  rewrite (run_bind _ _ s mon s) in Hrun by (unfold monitoringOf; by rewrite Hmon).
  rewrite (run_bind _ _ _ _ _ Hw), (run_bind _ _ _ _ _ Hb) in Hrun.
  rewrite (run_bind _ _ s2 h s2) in Hrun by (unfold lift; by rewrite Hmon, Hh).
  rewrite (run_bind _ _ s2 false s2) in Hrun.
  2: { by apply unchanged_skips. }
  assert (holds (has_hash (W:=W) monitoringHashName h) idle any
    (sec' ← mret sec; cr ← get_cr; mrp ← monitoringProvider;
     updateDeploymentSecretRestartAnnotations (cr_Namespace cr) (Mon.GetServiceName mrp)
       [Some sec'; bsec] ;;
     recordVersion (Some sec') ;; recordVersion bsec ;; setHash monitoringHashName h)) as Hidle.
  { rule holds_bind_any; [holds|intros sec']. holds_step.
    rule holds_bind_any; [unfold monitoringProvider; holds|intros mrp].
    rule holds_bind_any; [apply refresh_idle|intros _].
    do 2 (rule holds_bind_any; [apply recordVersion_idle|intros _]). apply setHash_idle. }
  by destruct (Hidle s2 r s' Hkey Hrun) as (_ & ? & _).
Qed.

(** Quiescence of the backup daemon: the same, with the S3 secret and the S3
    aliases secret looked up as well. *)
Theorem backup_quiescent bd sec s3 aliases h (s s1 s2 s3' : St W) r s' :
  sp_BackupDaemon (cr_Spec (st_cr s)) = Some bd ->
  Hash marshalBackupDaemon (Some bd) = Ok h ->
  watchOwnSecret (bd_SecretName bd) s = (Ok sec, s1) ->
  watchS3Secret bd s1 = (Ok s3, s2) ->
  findS3AliasesSecret s2 = (Ok aliases, s3') ->
  up_to_date backupDaemonHashName h [Some sec; s3; Some (fst aliases)] s ->
  backupDaemonReconcile s = (r, s') -> idle s3' s'.
Proof.
  intros Hbd Hh Hw Hs3 Hal Hup Hrun.
  destruct (watchOwnSecret_watched same_memory (bd_SecretName bd) s _ s1 I Hw) as (_ & Hm1 & _).
  destruct (watchS3Secret_watched same_memory bd s1 _ s2 I Hs3) as (_ & Hm2 & _).
  destruct (findS3AliasesSecret_watched same_memory s2 _ s3' I Hal) as (_ & Hm3 & _).
  apply (up_to_date_memory _ _ _ _ _ Hm1), (up_to_date_memory _ _ _ _ _ Hm2),
    (up_to_date_memory _ _ _ _ _ Hm3) in Hup.
  pose proof (proj1 Hup) as Hkey.
  unfold backupDaemonReconcile in Hrun. rewrite (run_bind _ _ s (st_cr s) s) in Hrun by done.
  rewrite (run_bind _ _ s bd s) in Hrun by (unfold backupDaemonOf; by rewrite Hbd).
  rewrite (run_bind _ _ _ _ _ Hw), (run_bind _ _ _ _ _ Hs3), (run_bind _ _ _ _ _ Hal) in Hrun.
  cbv beta zeta iota in Hrun.
  rewrite (run_bind _ _ s3' h s3') in Hrun by (unfold lift; by rewrite Hbd, Hh).
  rewrite (run_bind _ _ s3' false s3') in Hrun.
  2: { by apply unchanged_skips. }
  assert (holds (has_hash (W:=W) backupDaemonHashName h) idle any
    (sec' ← mret sec; cr ← get_cr; bdrp ← backupDaemonProvider;
     updateDeploymentSecretRestartAnnotations (cr_Namespace cr) (Backup.GetServiceName bdrp)
       [Some sec'; s3; Some (fst aliases)] ;;
     recordVersion (Some sec') ;; recordVersion s3 ;; recordVersion (Some (fst aliases)) ;;
     setHash backupDaemonHashName h)) as Hidle.
  { rule holds_bind_any; [holds|intros sec']. holds_step.
    rule holds_bind_any; [unfold backupDaemonProvider; holds|intros mrp].
    rule holds_bind_any; [apply refresh_idle|intros _].
    do 3 (rule holds_bind_any; [apply recordVersion_idle|intros _]). apply setHash_idle. }
  by destruct (Hidle s3' r s' Hkey Hrun) as (_ & ? & _).
Qed.

(** A successful run of the monitoring reconciler records the version of the
    backup daemon's secret: the backup daemon's own reconciler, which runs
    after it in the same cycle, then no longer sees that secret as changed. *)
Theorem monitoring_masks_backup_secret mon msec bsec (s s1 s2 s' : St W) :
  sp_MonitoringSpec (cr_Spec (st_cr s)) = Some mon ->
  watchOwnSecret (mon_SecretName mon) s = (Ok msec, s1) ->
  watchBackupDaemonSecret s1 = (Ok (Some bsec), s2) ->
  monitoringReconcile s = (Ok tt, s') ->
  secretVersionChanged (st_versions s') (Some bsec) = false.
Proof.
  intros Hmon Hw Hb Hrun.
  unfold monitoringReconcile in Hrun. rewrite (run_bind _ _ s (st_cr s) s) in Hrun by done.
  rewrite (run_bind _ _ s mon s) in Hrun by (unfold monitoringOf; by rewrite Hmon).
  rewrite (run_bind _ _ _ _ _ Hw), (run_bind _ _ _ _ _ Hb) in Hrun.
  do 6 apply M_bind_Ok in Hrun as (? & ? & _ & Hrun).
  apply M_bind_Ok in Hrun as (? & s5 & _ & Hrun). cbv beta in Hrun.
  rewrite (run_bind _ _ s5 tt (set_versions (<[m_Name (sec_Meta bsec) :=
    m_ResourceVersion (sec_Meta bsec)]> (st_versions s5)) s5)) in Hrun by done.
  injection Hrun as <-. simpl. unfold secretVersionChanged. simpl.
  rewrite lookup_insert_eq. simpl. rewrite (bool_decide_eq_true_2 (_ = m_ResourceVersion _)) by done.
  by rewrite andb_false_r.
Qed.
End quiescence.
