(* ===== verification/Controller.v ===== *)
(** * The controller

    [src/operator/controllers/zookeeperservice_controller.go]: one
    reconciliation of a ZooKeeperService, the sub-reconcilers it runs, the
    status it reports and the event filters; and
    [integrationtests_reconciler.go]. *)

From S2P Require Import Prelude GoStrings Types Util Provider Platform Conditions Reconciler Vault.
From S2P Require Import ZooKeeperProvider MonitoringProvider BackupDaemonProvider.
From S2P Require Import ZooKeeperVault Fragments Frames ZooKeeperReconciler MonitoringReconciler.
From S2P Require Import BackupDaemonReconciler.

Definition zooKeeperServiceConditionReason : string := "ReconcileCycleStatus".
Definition integrationTestsConditionReason : string := "ZooKeeperIntegrationTestsStatus".

(** ** Event filters of [SetupWithManager] *)
Record UpdateEvent : Set := mkUpdateEvent { ObjectOld : ObjectMeta; ObjectNew : ObjectMeta }.
Record DeleteEvent : Set := mkDeleteEvent { DeleteStateUnknown : bool }.

Definition statusPredicate_Update (e : UpdateEvent) : bool :=
  negb (bool_decide (m_Generation (ObjectOld e) = m_Generation (ObjectNew e))).
Definition statusPredicate_Delete (e : DeleteEvent) : bool := negb (DeleteStateUnknown e).
Definition secretPredicate_Update (e : UpdateEvent) : bool :=
  negb (bool_decide (m_ResourceVersion (ObjectNew e) = m_ResourceVersion (ObjectOld e))).

Section controller.
Context {W : Type} `{KubeClient W} `{WaitLib W} `{Quantities} `{VaultApi W} `{Passwords W}
  `{Encoders}.

(** ** integrationtests_reconciler.go *)
Definition integrationTestsOf (cr : ZooKeeperService) : Res IntegrationTests :=
  deref (sp_IntegrationTests (cr_Spec cr)).

Definition integrationTestsStatus : M W unit :=
  cr ← get_cr;
  tests ← lift (integrationTestsOf cr);
  if it_WaitForResult tests then
    reportReadiness integrationTestsConditionReason
      "Start checking for ZooKeeper Integration Tests"
      "ZooKeeper Integration Tests failed. See more details in integration test logs."
      "ZooKeeper Integration Tests performed successfully"
      (cr ← get_cr; tests ← lift (integrationTestsOf cr); mret (it_Timeout tests))
      (cr ← get_cr; tests ← lift (integrationTestsOf cr);
       isDeploymentReady (it_ServiceName tests) (cr_Namespace cr))
  else mret tt.

Definition integrationTestsReconcile : M W unit := mret tt.

Definition NewReconcileIntegrationTests : ReconcileService W :=
  mkReconcileService "controllers.ReconcileIntegrationTests" integrationTestsReconcile
    integrationTestsStatus.

(** ** zookeeperservice_controller.go *)
Definition buildReconcilers (cr : ZooKeeperService) : list (ReconcileService W) :=
  let spec := cr_Spec cr in
  (if bool_decide (is_Some (sp_ZooKeeper spec)) then [NewReconcileZooKeeper] else []) ++
  (if bool_decide (is_Some (sp_MonitoringSpec spec)) then [NewReconcileMonitoring] else []) ++
  (if bool_decide (is_Some (sp_BackupDaemon spec)) then [NewReconcileBackupDaemon] else []) ++
  (if bool_decide (is_Some (sp_IntegrationTests spec)) then [NewReconcileIntegrationTests] else []).

Definition updateStatus : M W unit :=
  cr ← get_cr;
  g ← lift (globalOf cr);
  if maps_Equal (stt_PVCAnnotations (cr_Status cr)) (g_PVCAnnotations g) then mret tt
  else modify_cr (set_PVCStatus (g_PVCAnnotations g)) ;; client_StatusUpdate.

(** The error of the update is logged and dropped. *)
Definition writeFailedStatus (errorMessage : string) : M W unit :=
  _ ← try_ (updateConditions (NewCondition statusFalse typeFailed
              zooKeeperServiceConditionReason errorMessage));
  mret tt.

(** Run [m]; on an error write the failed status and return the error. *)
Definition orWriteFailed {A} (m : M W A) (message : error -> string) : M W A :=
  r ← try_ m;
  match r with
  | inr a => mret a
  | inl err => writeFailedStatus (message err) ;; throw err
  end.

Definition startCycle (isCustomResourceChanged : bool) : M W unit :=
  when isCustomResourceChanged
    (modify_cr (set_Conditions []) ;;
     updateConditions (NewCondition statusFalse typeInProgress
       zooKeeperServiceConditionReason "Reconciliation cycle started")).

Definition initVault : M W unit :=
  cr ← get_cr;
  when (IsVaultSecretManagementEnabled cr)
    (orWriteFailed InitVaultClient (fun err =>
       "An error occurred while creating Vault client: " +:+ err_msg err)).

Definition runReconcilers (reconcilers : list (ReconcileService W)) : M W unit :=
  for_each reconcilers (fun reconciler =>
    orWriteFailed (rs_Reconcile reconciler) (fun err =>
      "Reconciliation cycle failed for " +:+ rs_Name reconciler +:+ " due to: " +:+ err_msg err)).

Definition checkReadiness (reconcilers : list (ReconcileService W)) : M W unit :=
  updateConditions (NewCondition statusFalse typeInProgress zooKeeperServiceConditionReason
    "Checking deployment readiness status") ;;
  Sleep (10 * second) ;;
  for_each reconcilers (fun reconciler =>
    orWriteFailed (rs_Status reconciler) (fun err =>
      "The status reconciliation cycle failed for " +:+ rs_Name reconciler +:+ " due to: "
      +:+ err_msg err)).

Definition reportOutcome : M W unit :=
  cr ← get_cr;
  if hasFailedConditions cr then
    updateConditions (NewCondition statusFalse typeFailed zooKeeperServiceConditionReason
      "The deployment readiness status check failed")
  else
    updateConditions (NewCondition statusTrue typeSuccessful zooKeeperServiceConditionReason
      "The deployment readiness status check is successful").

(** [instance.Spec.Global != nil && instance.Spec.Global.WaitForPodsReady]. *)
Definition waitsForPods (cr : ZooKeeperService) : bool :=
  match sp_Global (cr_Spec cr) with Some g => g_WaitForPodsReady g | None => false end.

Definition finishCycle (isCustomResourceChanged : bool) (reconcilers : list (ReconcileService W))
  : M W unit :=
  when isCustomResourceChanged
    (cr ← get_cr;
     when (waitsForPods cr) (checkReadiness reconcilers) ;;
     reportOutcome).

(** [globalSpecHash, err = util.Hash(instance.Spec.Global)]: the variable is
    assigned on an error too. *)
Definition hashGlobalSection (cr : ZooKeeperService) : M W unit :=
  match Hash marshalGlobal (sp_Global (cr_Spec cr)) with
  | Ok h => modify (set_globalHash h)
  | Err err => modify (set_globalHash EmptyString) ;; throw err
  | Panic p => lift (Panic p)
  end.

(** The cycle on the resource that was fetched, up to the recording of the
    hashes; returns the hash of the spec. *)
Definition runCycle : M W string :=
  cr ← get_cr;
  specHash ← lift (Hash marshalSpec (cr_Spec cr));
  hashGlobalSection cr ;;
  recorded ← hashOf specHashName;
  let isCustomResourceChanged := negb (bool_decide (recorded = specHash)) in
  startCycle isCustomResourceChanged ;;
  initVault ;;
  cr ← get_cr;
  let reconcilers := buildReconcilers cr in
  runReconcilers reconcilers ;;
  updateStatus ;;
  finishCycle isCustomResourceChanged reconcilers ;;
  mret specHash.

Definition recordHashes (specHash : string) : M W unit :=
  setHash specHashName specHash ;;
  globalSpecHash ← gets st_globalHash;
  setHash globalHashName globalSpecHash.

Definition reconcileInstance : M W unit :=
  specHash ← runCycle;
  recordHashes specHash.

(** [Reconcile]: the request names the resource; a missing one is not an
    error. *)
Definition Reconcile (namespace name : string) : M W unit :=
  r ← try_ (client_Get KCR namespace name);
  match r with
  | inl err => if IsNotFound err then mret tt else throw err
  | inr instance => modify (set_cr instance) ;; reconcileInstance
  end.
End controller.

(** The deployments a ZooKeeperService named [nm] owns. *)
Definition owned_deployment (nm n : string) : Prop :=
  (exists i, n = serverName nm i) \/ n = nm +:+ "-monitoring" \/ n = nm +:+ "-backup-daemon".

(** Every update of a deployment in a list of events comes right after a read
    of that deployment and carries the version that was read. *)
Definition fresh_updates (ns : string) (evs : list Event) : Prop :=
  forall pre d' post, evs = pre ++ EvUpdate KDeployment d' :: post ->
  exists pre' d, pre = pre' ++ [EvGet KDeployment ns (m_Name (d_Meta d')) (Ok d)] /\
    m_ResourceVersion (d_Meta d') = m_ResourceVersion (d_Meta d).

(** A write that stays in the namespace and hits an owned deployment. *)
Definition confined (ns nm : string) (e : Event) : Prop :=
  match e with
  | EvCreate k o | EvUpdate k o =>
      m_Namespace (meta_of o) = ns /\ (k = KDeployment -> owned_deployment nm (m_Name (meta_of o)))
  | _ => True
  end.

(** The deployment an event updates. *)
Definition updated_deployment (e : Event) : option Deployment :=
  match e with EvUpdate KDeployment d => Some d | _ => None end.

(** The events a run adds have only fresh updates. *)
Definition adds_fresh {W} (ns : string) (s s' : St W) : Prop :=
  exists evs, st_trace s' = st_trace s ++ evs /\ fresh_updates ns evs.

(** The recorded hashes of the spec and of the global section stay. *)
Definition hashes_kept {W} (s s' : St W) : Prop :=
  st_hashes s' !! specHashName = st_hashes s !! specHashName /\
  st_hashes s' !! globalHashName = st_hashes s !! globalHashName.

(** ** Lemmas: a cycle respects the contracts *)
Section frames.
Context {W : Type} `{!KubeClient W} `{!KubeLaws W} `{!WaitLib W} `{!WaitLaws W}.
Context `{!Quantities} `{!VaultApi W} `{!Passwords W} `{!Encoders}.
Context (ns nm : string) (D : string -> Prop) (R : St W -> St W -> Prop).
#[local] Abbreviation hold := (holds (named ns nm) R).

Lemma integrationTestsStatus_ok `{!ReconcileFrame ns nm D R} : hold any integrationTestsStatus.
Proof.
  unfold integrationTestsStatus. holds. apply (reportReadiness_ok ns nm D R); holds.
Qed.

Lemma writeFailedStatus_ok `{!ReconcileFrame ns nm D R} m : hold any (writeFailedStatus m).
Proof. unfold writeFailedStatus. holds. Qed.
#[local] Hint Resolve writeFailedStatus_ok : zk.

Lemma orWriteFailed_ok `{!ReconcileFrame ns nm D R} {A} (m : M W A) msg :
  hold any m -> hold any (orWriteFailed m msg).
Proof.
  intros Hm. unfold orWriteFailed. eapply (holds_bind_try _ _ any); [done|intros e|intros a _]; holds.
Qed.

Lemma updateStatus_ok `{!ReconcileFrame ns nm D R} : hold any updateStatus.
Proof.
  unfold updateStatus. holds. rule holds_bind_any; [|intros _; holds].
  apply (status_ok ns nm D R). intros c. by eexists.
Qed.
#[local] Hint Resolve updateStatus_ok : zk.

Lemma buildReconcilers_ok `{!ControllerFrame ns nm D R} cr r :
  (forall n, owned_deployment nm n -> D n) ->
  r ∈ buildReconcilers cr -> hold any (rs_Reconcile r).
Proof.
  intros HD. unfold buildReconcilers. rewrite !elem_of_app.
  intros [Hr|[Hr|[Hr|Hr]]]; case_bool_decide; case_elem Hr; simpl.
  - apply (zooKeeperReconcile_ok ns nm D R); [by apply cf_hash|].
    intros i. apply HD. left. by eexists.
  - apply (monitoringReconcile_ok ns nm D R); [by apply cf_hash|].
    apply HD. right. by left.
  - apply (backupDaemonReconcile_ok ns nm D R); [by apply cf_hash|].
    apply HD. right. by right.
  - by rule holds_ret.
Qed.

Lemma buildReconcilers_status_ok `{!ReconcileFrame ns nm D R} cr r :
  r ∈ buildReconcilers cr -> hold any (rs_Status r).
Proof.
  unfold buildReconcilers. rewrite !elem_of_app.
  intros [Hr|[Hr|[Hr|Hr]]]; case_bool_decide; case_elem Hr; simpl.
  - apply (zooKeeperStatus_ok ns nm D R).
  - apply (monitoringStatus_ok ns nm D R).
  - apply (backupDaemonStatus_ok ns nm D R).
  - apply integrationTestsStatus_ok.
Qed.

Lemma initVault_ok `{!ReconcileFrame ns nm D R} :
  (forall s v, R s (set_vault v s)) -> hold any initVault.
Proof.
  intros Hv. unfold initVault. holds. apply orWriteFailed_ok.
  unfold InitVaultClient, login. holds. rule holds_bind_any; [holds|intros t].
  rule holds_modify. intros s1 Hs1. split; [exact Hs1|apply Hv].
Qed.

Lemma startCycle_ok `{!ReconcileFrame ns nm D R} b : hold any (startCycle b).
Proof.
  unfold startCycle. holds. rule holds_bind_any; [|intros _; holds].
  apply (status_ok ns nm D R). intros c. by eexists.
Qed.

Lemma finishCycle_ok `{!ReconcileFrame ns nm D R} b cr :
  hold any (finishCycle b (buildReconcilers cr)).
Proof.
  unfold finishCycle, checkReadiness, reportOutcome, Sleep. holds.
  rule holds_bind_any; [holds|intros _]. holds. apply orWriteFailed_ok.
  by apply (buildReconcilers_status_ok cr).
Qed.
#[local] Hint Resolve startCycle_ok finishCycle_ok : zk.

Lemma runCycle_ok `{!ControllerFrame ns nm D R} :
  (forall n, owned_deployment nm n -> D n) -> hold any runCycle.
Proof.
  intros HD. unfold runCycle. do 2 holds_step. rule holds_bind_any.
  { unfold hashGlobalSection. case_match; [|rule holds_bind_any; [|intros _; holds]|holds];
      (rule holds_modify; intros s0 Hs0; split; [exact Hs0|by eapply cf_globalHash]). }
  intros _. holds_step. rule holds_bind_any; [apply startCycle_ok|intros _].
  rule holds_bind_any; [apply initVault_ok; intros; by eapply cf_vault|intros _].
  holds_step. rule holds_bind_any.
  { unfold runReconcilers. holds. apply orWriteFailed_ok. by apply (buildReconcilers_ok _ _ HD) in Hx0. }
  intros _. holds_step. rule holds_bind_any; [apply finishCycle_ok|intros _; by rule holds_ret].
Qed.
End frames.

(** ** Lemmas: a cycle, from its request *)
Section cycle.
Context {W : Type} `{!KubeClient W} `{!KubeLaws W} `{!WaitLib W} `{!WaitLaws W}.
Context `{!Quantities} `{!VaultApi W} `{!Passwords W} `{!Encoders}.

(** The resource was fetched and its cycle ran, or the fetch failed. *)
Lemma Reconcile_inv ns nm (s : St W) r s' :
  Reconcile ns nm s = (r, s') ->
  (exists inst s1, client_Get KCR ns nm s = (Ok inst, s1) /\
     reconcileInstance (set_cr inst s1) = (r, s')) \/
  (exists e, client_Get KCR ns nm s = (Err e, s') /\ r = if IsNotFound e then Ok tt else Err e) \/
  (exists p, client_Get KCR ns nm s = (Panic p, s') /\ r = Panic p).
Proof.
  unfold Reconcile, try_, mbind, M_bind.
  destruct (client_Get KCR ns nm s) as [[inst|e|p] s1] eqn:Hget.
  - intros Hr. left. eauto.
  - intros Hr. right. left. exists e. destruct (IsNotFound e); by injection Hr as <- <-.
  - intros [= <- <-]. right. right. eauto.
Qed.

Lemma fetched_named ns nm (s : St W) inst s1 :
  client_Get KCR ns nm s = (Ok inst, s1) -> named ns nm (set_cr inst s1).
Proof.
  unfold client_Get. destruct (kc_get KCR ns nm (st_world s)) as [r w] eqn:E.
  intros [= -> _]. by apply kl_get in E.
Qed.

Lemma Get_related ns nm D (R : St W -> St W -> Prop) `{!OpFrame ns nm D R} k n' n s r s' :
  client_Get k n' n s = (r, s') -> R s s'.
Proof.
  unfold client_Get. destruct (kc_get k n' n (st_world s)) as [r0 w]. intros [= _ <-].
  etrans; [eapply (of_world s w)|by eapply of_quiet].
Qed.

Lemma recordHashes_run h (s : St W) :
  recordHashes h s = (Ok tt, set_hashes (<[globalHashName := st_globalHash s]>
                                   (<[specHashName := h]> (st_hashes s))) s).
Proof. done. Qed.

(** A cycle that completes returns the hash of the spec it started with. *)
Lemma runCycle_hash (s : St W) h s' :
  runCycle s = (Ok h, s') -> Hash marshalSpec (cr_Spec (st_cr s)) = Ok h.
Proof.
  unfold runCycle. intros (? & ? & [= <- <-] & E)%M_bind_Ok.
  apply M_bind_Ok in E as (h' & ? & [= Hh <-] & E).
  do 8 apply M_bind_Ok in E as (? & ? & _ & E). by injection E as -> _.
Qed.

(** A relation that tolerates everything a cycle does relates its ends. *)
Lemma Reconcile_related ns nm (R : St W -> St W -> Prop)
    `{!ControllerFrame ns nm (owned_deployment nm) R} s r s' :
  (forall s h, R s (set_hashes h s)) -> (forall s c, R s (set_cr c s)) ->
  Reconcile ns nm s = (r, s') -> R s s'.
Proof.
  intros Hh Hcr [(inst & s1 & Hget & Hrun)|[(e & Hget & _)|(p & Hget & _)]]%Reconcile_inv;
    try by apply (Get_related ns nm (owned_deployment nm) R KCR _ _ _ _ _ Hget).
  etrans; [by apply (Get_related ns nm (owned_deployment nm) R KCR _ _ _ _ _ Hget)|].
  etrans; [apply (Hcr s1 inst)|].
  pose proof (fetched_named _ _ _ _ _ Hget) as Hn. unfold reconcileInstance in Hrun.
  destruct (runCycle (set_cr inst s1)) as [r2 s2] eqn:E.
  destruct (runCycle_ok ns nm _ R (fun _ H => H) _ _ _ Hn E) as (_ & HR & _).
  unfold mbind, M_bind in Hrun. rewrite E in Hrun.
  destruct r2; [rewrite recordHashes_run in Hrun|..]; injection Hrun as <- <-; [|done..].
  etrans; [exact HR|apply Hh].
Qed.
End cycle.

(** *** Instances of the contract *)

#[global] Instance hashes_kept_preorder {W} : PreOrder (hashes_kept (W:=W)).
Proof. split; [done|]. intros s1 s2 s3 [? ?] [? ?]. split; congruence. Qed.

#[global] Instance hashes_kept_frame {W} `{!KubeClient W} ns nm D : ControllerFrame ns nm D (hashes_kept (W:=W)).
Proof.
  split; [split; [split|..]|..]; try apply _; try done; intros; try (by repeat split);
    by (split; simpl; rewrite lookup_insert_ne).
Qed.

#[global] Instance confined_frame {W} `{!KubeClient W} ns nm :
  ControllerFrame ns nm (owned_deployment nm) (emits (W:=W) (confined ns nm)).
Proof.
  split; [split; [split|..]|..]; repeat intro; try apply _; try (by apply emits_nil);
    try (split; by apply emits_one); try (by apply emits_one).
  - apply emits_one. by destruct e.
  - eexists [_; _]. split; [simpl; by rewrite <- app_assoc|].
    rewrite !Forall_cons. by repeat split.
Qed.

Lemma fresh_app ns e1 e2 :
  fresh_updates ns e1 -> fresh_updates ns e2 -> fresh_updates ns (e1 ++ e2).
Proof.
  intros H1 H2 pre d' post Heq. apply app_eq_app in Heq as (l & [[-> Hl]|[-> Hl]]).
  - destruct l as [|x l]; simpl in Hl.
    + destruct (H2 [] d' post) as (pre' & d & Hp & _); [done|]. by destruct pre'.
    + injection Hl as <- Hl. by apply (H1 pre d' l).
  - destruct (H2 l d' post Hl) as (pre' & d & -> & Hrv). exists (e1 ++ pre'), d.
    by rewrite <- app_assoc.
Qed.

Lemma fresh_nil ns : fresh_updates ns [].
Proof. intros [|] d' post [=]. Qed.

Lemma fresh_one ns e : (forall d, e <> EvUpdate KDeployment d) -> fresh_updates ns [e].
Proof.
  intros He [|x [|]] d' post [=]. by destruct (He d').
Qed.

Lemma fresh_pair ns d d' :
  m_ResourceVersion (d_Meta d') = m_ResourceVersion (d_Meta d) ->
  fresh_updates ns [EvGet KDeployment ns (m_Name (d_Meta d')) (Ok d); EvUpdate KDeployment d'].
Proof.
  intros Hrv [|x [|y [|]]] d2 post Heq; try discriminate Heq.
  assert (Some d' = Some d2) as [= <-].
  { pose proof (f_equal (fun l => l !! 1%nat ≫= updated_deployment) Heq) as Hu. exact Hu. }
  apply (f_equal head) in Heq. injection Heq as <-. by exists [], d.
Qed.

Lemma adds_fresh_one {W} ns e (s : St W) :
  (forall d, e <> EvUpdate KDeployment d) -> adds_fresh ns s (log_event e s).
Proof. intros He. exists [e]. split; [done|by apply fresh_one]. Qed.

Lemma adds_fresh_same {W} ns (s s' : St W) : st_trace s' = st_trace s -> adds_fresh ns s s'.
Proof. intros Ht. exists []. rewrite app_nil_r. split; [done|apply fresh_nil]. Qed.

#[global] Instance adds_fresh_preorder {W} ns : PreOrder (adds_fresh (W:=W) ns).
Proof.
  split; [by intros s; apply adds_fresh_same|].
  intros s1 s2 s3 (e1 & H1 & F1) (e2 & H2 & F2). exists (e1 ++ e2).
  rewrite H2, H1, app_assoc. split; [done|by apply fresh_app].
Qed.

#[global] Instance fresh_frame {W} `{!KubeClient W} ns nm D : ControllerFrame ns nm D (adds_fresh (W:=W) ns).
Proof.
  split; [split; [split|..]|..]; repeat intro; try apply _; try (by apply adds_fresh_same);
    try (by apply adds_fresh_one).
  - apply adds_fresh_one. intros d ->. done.
  - split; apply adds_fresh_one; intros d Heq;
      by apply (f_equal updated_deployment) in Heq; destruct k.
  - eexists [_; _]. split; [simpl; by rewrite <- app_assoc|]. by apply fresh_pair.
Qed.

(** ** Lemmas: the reported status *)

Lemma writeFailedStatus_run {W} `{!KubeClient W} msg (s : St W) u s' :
  writeFailedStatus msg s = (Ok u, s') ->
  exists cr' c, st_trace s' = st_trace s ++ [EvStatusUpdate cr'] /\
    c ∈ stt_Conditions (cr_Status cr') /\ cond_Reason c = zooKeeperServiceConditionReason /\
    cond_Type c = typeFailed /\ cond_Message c = msg.
Proof.
  unfold writeFailedStatus. intros (x & s1 & Ht & Hr)%M_bind_Ok. injection Hr as _ <-.
  unfold try_ in Ht. destruct (updateConditions _ s) as [[[]|e|p] s2] eqn:E; simplify_eq;
    apply updateConditions_sent in E as (cr' & c & ? & _ & ? & ? & ? & _ & ?); by exists cr', c.
Qed.

(** An error that comes out of [orWriteFailed] is the error of the step, and
    the failed status was sent last. *)
Lemma orWriteFailed_Err {W A} `{!KubeClient W} (m : M W A) msg (s : St W) e s' :
  orWriteFailed m msg s = (Err e, s') ->
  exists s1 cr' c, m s = (Err e, s1) /\ st_trace s' = st_trace s1 ++ [EvStatusUpdate cr'] /\
    c ∈ stt_Conditions (cr_Status cr') /\ cond_Reason c = zooKeeperServiceConditionReason /\
    cond_Type c = typeFailed /\ cond_Message c = msg e.
Proof.
  unfold orWriteFailed. intros [(x & s1 & Ht & Hr)|[(e1 & Ht & _)|(p & _ & [=])]]%M_bind_inv;
    unfold try_ in Ht; destruct (m s) as [[a|e0|p] s2] eqn:E; simplify_eq.
  apply M_bind_inv in Hr as [(u & s3 & Hw & Hth)|[(e1 & Hw & _)|(p & _ & [=])]].
  - injection Hth as <- <-. apply writeFailedStatus_run in Hw as (cr' & c & Hc).
    by exists s1, cr', c.
  - unfold writeFailedStatus in Hw.
    apply M_bind_inv in Hw as [(? & ? & _ & [=])|[(? & Ht & _)|(? & _ & [=])]].
    unfold try_ in Ht. by destruct (updateConditions _ _) as [[| |] ?].
Qed.

(** ** Properties *)
Section properties.
Context {W : Type} `{!KubeClient W} `{!KubeLaws W} `{!WaitLib W} `{!WaitLaws W}.
Context `{!Quantities} `{!VaultApi W} `{!Passwords W} `{!Encoders}.

(** Confinement: whatever happens in a cycle for the resource [ns]/[nm], every
    object it creates or updates lives in [ns], and every deployment it writes
    is one of the servers', the monitoring's or the backup daemon's. *)
Theorem reconcile_writes_confined ns nm (s : St W) r s' :
  Reconcile ns nm s = (r, s') ->
  exists evs, st_trace s' = st_trace s ++ evs /\
    forall k (o : Obj k), EvCreate k o ∈ evs \/ EvUpdate k o ∈ evs ->
      m_Namespace (meta_of o) = ns /\
      (k = KDeployment -> owned_deployment nm (m_Name (meta_of o))).
Proof.
  intros Hrun. eapply (Reconcile_related ns nm (emits (confined ns nm))) in Hrun
    as (evs & Htr & Hall); [|intros; by apply emits_nil..].
  exists evs. split; [done|]. rewrite Forall_forall in Hall.
  intros k o [Hin|Hin]; exact (Hall _ Hin).
Qed.

(** C5: Optimistic concurrency: whatever happens in a cycle, every update of a
    deployment is sent right after that deployment was read, and carries the
    resource version that was read, so a concurrent change is never
    overwritten. *)
Theorem reconcile_updates_fresh ns nm (s : St W) r s' :
  Reconcile ns nm s = (r, s') ->
  exists evs, st_trace s' = st_trace s ++ evs /\ fresh_updates ns evs.
Proof.
  intros Hrun. eapply (Reconcile_related ns nm (adds_fresh ns)) in Hrun; [done|..];
    intros; by apply adds_fresh_same.
Qed.


(** C10: A failure is reported where it happened: when the loop over the
    sub-reconcilers returns an error, the error is that of one of them, those
    before it succeeded, those after it did not run, and the last call made
    was a status update that says Failed with that error's message. *)
Theorem failed_reconciler_reported reconcilers (s : St W) e s' :
  runReconcilers reconcilers s = (Err e, s') ->
  exists before rc after s1 s2 cr' c, reconcilers = before ++ rc :: after /\
    runReconcilers before s = (Ok tt, s1) /\ rs_Reconcile rc s1 = (Err e, s2) /\
    st_trace s' = st_trace s2 ++ [EvStatusUpdate cr'] /\
    c ∈ stt_Conditions (cr_Status cr') /\ cond_Reason c = zooKeeperServiceConditionReason /\
    cond_Type c = typeFailed /\
    cond_Message c = "Reconciliation cycle failed for " +:+ rs_Name rc +:+ " due to: " +:+ err_msg e.
Proof.
  unfold runReconcilers. revert s. induction reconcilers as [|rc rest IH]; intros s Hrun; [done|].
  cbn [for_each] in Hrun. apply M_bind_inv in Hrun as [([] & s1 & Hone & Hrun)|[(e' & Hone & [= <-])|(p & _ & [=])]].
  - destruct (IH s1 Hrun) as (before & rc' & after & s2 & s3 & cr' & c & -> & Hb & Hrest).
    exists (rc :: before), rc', after, s2, s3, cr', c. split; [done|]. split; [|done].
    cbn [for_each]. by rewrite (run_bind _ _ _ _ _ Hone).
  - apply orWriteFailed_Err in Hone as (s1 & cr' & c & Hrc & Hrest).
    exists [], rc, rest, s, s1, cr', c. split; [done|]. by split.
Qed.

(** The outcome of a changed resource tells the truth about its parts: the
    report sends one status update, which carries a failed condition exactly
    when a part had failed, and whose cycle condition is Failed or Successful
    accordingly. *)
Theorem outcome_matches_conditions (s : St W) r s' :
  reportOutcome s = (r, s') ->
  exists cr' c, st_trace s' = st_trace s ++ [EvStatusUpdate cr'] /\
    hasFailedConditions cr' = hasFailedConditions (st_cr s) /\
    c ∈ stt_Conditions (cr_Status cr') /\ cond_Reason c = zooKeeperServiceConditionReason /\
    cond_Type c = if hasFailedConditions (st_cr s) then typeFailed else typeSuccessful.
Proof.
  unfold reportOutcome. rewrite (run_bind _ _ s (st_cr s) s) by done.
  destruct (hasFailedConditions (st_cr s)) eqn:Hf; intros Hrun.
  - apply updateConditions_sent in Hrun as (cr' & c & Htr & _ & Hc & Hr & Ht & _).
    exists cr', c. split_and!; [done| |done..]. apply hasFailed_spec. by exists c.
  - pose proof Hrun as Hrun'. apply updateConditions_run in Hrun' as [t Htr].
    destruct (addCondition_in (stt_Conditions (cr_Status (st_cr s)))
      (set_LastTransitionTime t (NewCondition statusTrue typeSuccessful
         zooKeeperServiceConditionReason "The deployment readiness status check is successful")))
      as (c & Hc & Hr & Ht & _).
    eexists _, c. split_and!; [exact Htr| |exact Hc|done|done].
    apply not_true_iff_false. intros (x & Hx & Hxf)%hasFailed_spec. simpl in Hx.
    apply addCondition_elem in Hx as [->|Hx]; [done|].
    apply not_true_iff_false in Hf. destruct Hf. apply hasFailed_spec. by exists x.
Qed.

(** A resource without a global section: the global status update dereferences
    it and panics, while the readiness wait of the same cycle guards it. *)
Lemma update_status_nil_global (s : St W) :
  sp_Global (cr_Spec (st_cr s)) = None ->
  updateStatus s = (Panic NilDereference, s) /\ waitsForPods (st_cr s) = false.
Proof.
  intros Hg. unfold updateStatus, waitsForPods, globalOf, mbind, M_bind, lift. simpl. by rewrite Hg.
Qed.

End properties.
