(* ===== verification/Operator.v ===== *)
(** * The operator process

    [src/operator/main.go], [SetupWithManager] of
    [controllers/zookeeperservice_controller.go] and the registrations of
    [api/v1/groupversion_info.go] and [api/v1alpha1/groupversion_info.go]:
    from the command line and the environment to a running manager.  The
    manager is controller-runtime's; its calls are parameters ([Runtime]).

    The second part is the running operator as a state machine: the manager
    watches resources and secrets of one namespace, filters their events with
    the predicates of the controller, queues requests and has one worker run
    [Reconcile] on them; a request whose cycle failed or panicked is queued
    again; a restart loses the memory of the reconciler and lists the resources
    anew.  These are the documented defaults of controller-runtime (one
    concurrent reconcile, panics recovered, requests deduplicated). *)

From S2P Require Import Prelude GoStrings GoFlags Types Util Provider Platform Conditions.
From S2P Require Import Reconciler Vault ZooKeeperVault Fragments Frames ZooKeeperReconciler.
From S2P Require Import Controller.

(** ** Start-up *)

(** What is added to the scheme. *)
Record GroupVersion : Set := mkGV { gv_Group : string; gv_Version : string }.
Inductive Registration : Set := ClientGoScheme | Group (gv : GroupVersion).

Definition GroupVersion_v1 : GroupVersion := mkGV "netcracker.com" "v1".
Definition GroupVersion_v1alpha1 : GroupVersion := mkGV "netcracker.com" "v1alpha1".

(** [ctrl.Options], as far as it is set. *)
Record ManagerOptions : Set := mkOptions {
  mo_DefaultNamespaces : list string;
  mo_MetricsBindAddress : string;
  mo_WebhookPort : Z;
  mo_HealthProbeBindAddress : string;
  mo_LeaderElection : bool;
  mo_LeaderElectionNamespace : string;
  mo_LeaderElectionID : string }.

(** What a controller watches, with its filters; an absent function of
    [predicate.Funcs] lets the event pass. *)
Record Watch : Type := mkWatch {
  wt_Kind : Kind;
  wt_Update : UpdateEvent -> bool;
  wt_Delete : DeleteEvent -> bool }.
Record ControllerSpec : Type := mkController { cs_For : Watch; cs_Owns : list Watch }.

Definition controllerSpec : ControllerSpec :=
  mkController (mkWatch KCR statusPredicate_Update statusPredicate_Delete)
    [mkWatch KSecret secretPredicate_Update (fun _ => true)].

(** The calls of the start-up, in the order they are made. *)
Inductive BootCall : Type :=
| CallConfig
| CallNewManager (o : ManagerOptions)
| CallComplete (c : ControllerSpec)
| CallHealthz (name : string)
| CallReadyz (name : string)
| CallStart.

(** controller-runtime: registration, configuration, manager. *)
Class Runtime : Type := {
  rt_addToScheme : Registration -> Res unit;
  rt_getConfig : Res unit;
  rt_newManager : ManagerOptions -> Res unit;
  rt_complete : ControllerSpec -> Res unit;
  rt_addHealthzCheck : string -> Res unit;
  rt_addReadyzCheck : string -> Res unit;
  rt_start : Res unit;
  (* the flags zap.Options.BindFlags adds *)
  rt_zapFlags : list Flag }.

(** Calls made so far, and the process may have ended. *)
Definition Boot (A : Type) : Type := list BootCall -> (Exit + A) * list BootCall.
#[global] Instance Boot_ret : MRet Boot := fun A a calls => (inr a, calls).
#[global] Instance Boot_bind : MBind Boot := fun A B f m calls =>
  match m calls with
  | (inl e, calls) => (inl e, calls)
  | (inr a, calls) => f a calls
  end.

Definition exit {A} (e : Exit) : Boot A := fun calls => (inl e, calls).

(** A call whose error ends the process with code 1. *)
Definition orExit1 (c : BootCall) (r : Res unit) : Boot unit := fun calls =>
  (match r with
   | Ok _ => inr tt
   | Err _ => inl (ExitCode 1)
   | Panic _ => inl Panicked
   end, calls ++ [c]).

(** [utilruntime.Must]. *)
Definition Must (r : Res unit) : Boot unit :=
  match r with Ok _ => mret tt | _ => exit Panicked end.

Definition operatorFlags `{Runtime} : list Flag :=
  [StringVar "metrics-bind-address"; StringVar "health-probe-bind-address"; BoolVar "leader-elect"]
  ++ rt_zapFlags.

(** [os.LookupEnv]: the environment is a map. *)
Definition getWatchNamespace (env : gmap string string) : Res string :=
  match env !! "WATCH_NAMESPACE" with
  | None => Err (Errorf "WATCH_NAMESPACE must be set")
  | Some ns => Ok ns
  end.

Definition managerOptions (actual : gmap string string) (namespace : string) : ManagerOptions :=
  mkOptions [namespace] (flagValue actual "metrics-bind-address" ":8080") 9443
    (flagValue actual "health-probe-bind-address" ":8081")
    (bool_decide (flagValue actual "leader-elect" "false" = "true"))
    namespace ("zookeeperservice." +:+ namespace +:+ ".netcracker.com").

Section startup.
Context `{Runtime}.

Definition init : Boot unit :=
  Must (rt_addToScheme ClientGoScheme) ;;
  Must (rt_addToScheme (Group GroupVersion_v1alpha1)) ;;
  Must (rt_addToScheme (Group GroupVersion_v1)).

Definition SetupWithManager : Boot unit :=
  orExit1 (CallComplete controllerSpec) (rt_complete controllerSpec).

Definition main (args : list string) (env : gmap string string) : Boot unit :=
  match parseFlags operatorFlags args ∅ with
  | inl e => exit (ExitCode (flagExit e))
  | inr (actual, _) =>
      match getWatchNamespace env with
      | Ok namespace =>
          let options := managerOptions actual namespace in
          orExit1 CallConfig rt_getConfig ;;
          orExit1 (CallNewManager options) (rt_newManager options) ;;
          SetupWithManager ;;
          orExit1 (CallHealthz "healthz") (rt_addHealthzCheck "healthz") ;;
          orExit1 (CallReadyz "readyz") (rt_addReadyzCheck "readyz") ;;
          orExit1 CallStart rt_start
      | Err _ => exit (ExitCode 1)
      | Panic _ => exit Panicked
      end
  end.

(** The package's [init] runs before [main]. *)
Definition process (args : list string) (env : gmap string string) : Boot unit :=
  init ;; main args env.
End startup.

(** ** The running operator *)

(** A request: namespace and name of a resource. *)
Abbreviation Request := (string * string)%type.

(** What the manager sees of a watched object. *)
Inductive WatchEvent : Set :=
| Created (m : ObjectMeta)
| Updated (old new : ObjectMeta)
| Deleted (m : ObjectMeta) (unknown : bool).

Definition eventMetas (e : WatchEvent) : list ObjectMeta :=
  match e with Created m => [m] | Updated old new => [old; new] | Deleted m _ => [m] end.

(** Does the watch let the event pass? *)
Definition passes (w : Watch) (e : WatchEvent) : bool :=
  match e with
  | Created _ => true
  | Updated old new => wt_Update w (mkUpdateEvent old new)
  | Deleted _ unknown => wt_Delete w (mkDeleteEvent unknown)
  end.

(** The request for an object itself, and for its controller when that is a
    ZooKeeperService. *)
Definition requestFor (m : ObjectMeta) : Request := (m_Namespace m, m_Name m).

Definition ownerRequest {W} `{KubeClient W} (m : ObjectMeta) : option Request :=
  match kc_getControllerOf m with
  | Some o =>
      match kc_parseGroupVersion (or_APIVersion o) with
      | Ok (g, _) =>
          if decide (g = gv_Group GroupVersion_v1 /\ or_Kind o = "ZooKeeperService")
          then Some (m_Namespace m, or_Name o) else None
      | _ => None
      end
  | None => None
  end.

(** The requests an event of a kind puts into the queue. *)
Definition enqueued {W} `{KubeClient W} (k : Kind) (e : WatchEvent) : gset Request :=
  if decide (k = wt_Kind (cs_For controllerSpec)) then
    if passes (cs_For controllerSpec) e then list_to_set (requestFor <$> eventMetas e) else ∅
  else
    list_to_set (w ← cs_Owns controllerSpec;
                 if decide (k = wt_Kind w) then
                   if passes w e then omap (ownerRequest (W:=W)) (eventMetas e) else []
                 else []).

(** The operator's memory and trace over the world, and the queue. *)
Record Sys (W : Type) : Type := mkSys { sys_op : St W; sys_queue : gset Request }.
Arguments mkSys {W}.
Arguments sys_op {W}.
Arguments sys_queue {W}.

(** A new process: empty caches, no Vault client; the ghost trace goes on. *)
Definition fresh {W} (s : St W) : St W :=
  mkSt (st_world s) (st_cr s) ∅ ∅ "" None (st_trace s).

(** The manager's cache covers the watched namespace; the empty one stands for
    all of them. *)
Definition in_scope (watch ns : string) : Prop := watch = "" \/ ns = watch.

Inductive Label : Type :=
| Environment
| Observed (k : Kind) (e : WatchEvent)
| Worked (r : Request) (result : Res unit)
| Restarted.

Section machine.
Context {W : Type} `{KubeClient W} `{WaitLib W} `{Quantities} `{VaultApi W} `{Passwords W}
  `{Encoders}.
Context (watch : string).

Inductive step : Sys W -> Label -> Sys W -> Prop :=
| step_environment s q w :
    step (mkSys s q) Environment (mkSys (set_world w s) q)
| step_event s q k e :
    Forall (fun m => in_scope watch (m_Namespace m)) (eventMetas e) ->
    step (mkSys s q) (Observed k e) (mkSys s (q ∪ enqueued (W:=W) k e))
| step_done s q ns nm s' :
    (ns, nm) ∈ q -> Reconcile ns nm s = (Ok tt, s') ->
    step (mkSys s q) (Worked (ns, nm) (Ok tt)) (mkSys s' (q ∖ {[(ns, nm)]}))
| step_again s q ns nm r s' :
    (ns, nm) ∈ q -> Reconcile ns nm s = (r, s') -> r <> Ok tt ->
    step (mkSys s q) (Worked (ns, nm) r) (mkSys s' q)
| step_restart s q q' :
    (forall r, r ∈ q' -> in_scope watch (fst r)) ->
    step (mkSys s q) Restarted (mkSys (fresh s) q').

Inductive steps : Sys W -> list Label -> Sys W -> Prop :=
| steps_refl y : steps y [] y
| steps_step y1 l y2 ls y3 : step y1 l y2 -> steps y2 ls y3 -> steps y1 (l :: ls) y3.
End machine.

(** The calls of the start-up with their results. *)
Definition bootPlan `{Runtime} (o : ManagerOptions) : list (BootCall * Res unit) :=
  [(CallConfig, rt_getConfig); (CallNewManager o, rt_newManager o);
   (CallComplete controllerSpec, rt_complete controllerSpec);
   (CallHealthz "healthz", rt_addHealthzCheck "healthz");
   (CallReadyz "readyz", rt_addReadyzCheck "readyz"); (CallStart, rt_start)].

(** All registrations succeed. *)
Definition registered `{Runtime} : Prop :=
  forall g, g ∈ [ClientGoScheme; Group GroupVersion_v1alpha1; Group GroupVersion_v1] ->
  rt_addToScheme g = Ok tt.

(** Run a plan up to the first call that does not succeed. *)
Fixpoint runPlan (l : list (BootCall * Res unit)) : Boot unit :=
  match l with
  | [] => mret tt
  | (c, r) :: l => orExit1 c r ;; runPlan l
  end.

(** ** Lemmas: start-up *)
Section startup_lemmas.
Context `{!Runtime}.

Lemma init_registered calls : registered -> init calls = (inr tt, calls).
Proof.
  intros Hr. unfold init, Must. rewrite !Hr by set_solver. done.
Qed.

(** A plan stops at its first failure. *)
Lemma runPlan_prefix l calls :
  exists done todo, l = done ++ todo /\ snd (runPlan l calls) = calls ++ done.*1 /\
    match fst (runPlan l calls) with
    | inr _ => todo = [] /\ Forall (fun c => snd c = Ok tt) done
    | inl e => exists before c r, done = before ++ [(c, r)] /\
        Forall (fun c => snd c = Ok tt) before /\
        match r with Ok _ => False | Err _ => e = ExitCode 1 | Panic _ => e = Panicked end
    end.
Proof.
  revert calls. induction l as [|[c r] l IH]; intros calls.
  { exists [], []. simpl. rewrite app_nil_r. split_and!; done. }
  cbn [runPlan]. unfold mbind, Boot_bind, orExit1. destruct r as [[]|e|p].
  - destruct (IH (calls ++ [c])) as (done & todo & -> & Hs & Hm).
    exists ((c, Ok tt) :: done), todo. rewrite Hs. simpl. rewrite <- app_assoc. split_and!; [done..|].
    destruct (fst (runPlan _ _)) as [e|].
    + destruct Hm as (before & c' & r' & -> & Hb & Hr).
      exists ((c, Ok tt) :: before), c', r'. split_and!; [done|by constructor|done].
    + destruct Hm as [-> Hd]. split; [done|by constructor].
  - exists [(c, Err e)], l. split_and!; [done..|]. by exists [], c, (Err e).
  - exists [(c, Panic p)], l. split_and!; [done..|]. by exists [], c, (Panic p).
Qed.

Lemma process_plan args env actual rest ns calls :
  registered -> parseFlags operatorFlags args ∅ = inr (actual, rest) ->
  env !! "WATCH_NAMESPACE" = Some ns ->
  process args env calls = runPlan (bootPlan (managerOptions actual ns)) calls.
Proof.
  intros Hr Hf Hns. unfold process, main, getWatchNamespace. rewrite Hf, Hns.
  unfold mbind at 1, Boot_bind at 1. rewrite init_registered by done.
  unfold bootPlan, SetupWithManager. cbn [runPlan]. cbv zeta.
  unfold mbind, Boot_bind, orExit1, mret, Boot_ret.
  destruct rt_getConfig as [[]| |]; [|done..].
  destruct rt_newManager as [[]| |]; [|done..]. destruct rt_complete as [[]| |]; [|done..].
  destruct rt_addHealthzCheck as [[]| |]; [|done..].
  destruct rt_addReadyzCheck as [[]| |]; [|done..]. by destruct rt_start as [[]| |].
Qed.
End startup_lemmas.

(** ** Properties: start-up *)
Section startup_properties.
Context `{!Runtime}.

(** C21: The start-up is a straight line: with a valid command line and
    WATCH_NAMESPACE set to [ns], the calls made are the configuration, the
    manager with its cache restricted to [ns], the controller, the two probes
    and the start, up to the first one that fails, which ends the process with
    code 1; the process ends well exactly when all of them succeed. *)
Theorem startup_sequence args env actual rest ns :
  registered -> parseFlags operatorFlags args ∅ = inr (actual, rest) ->
  env !! "WATCH_NAMESPACE" = Some ns ->
  exists made todo, bootPlan (managerOptions actual ns) = made ++ todo /\
    snd (process args env []) = made.*1 /\
    mo_DefaultNamespaces (managerOptions actual ns) = [ns] /\
    match fst (process args env []) with
    | inr _ => todo = [] /\ Forall (fun c => snd c = Ok tt) made
    | inl e => exists before c r, made = before ++ [(c, r)] /\
        Forall (fun c => snd c = Ok tt) before /\
        match r with Ok _ => False | Err _ => e = ExitCode 1 | Panic _ => e = Panicked end
    end.
Proof.
  intros Hr Hf Hns. rewrite (process_plan args env actual rest ns []) by done.
  destruct (runPlan_prefix (bootPlan (managerOptions actual ns)) []) as (made & todo & H1 & H2 & H3).
  by exists made, todo.
Qed.

(** Nothing is started on bad input: a command line that does not parse ends
    the process with code 0 (help) or 2, a missing WATCH_NAMESPACE with code
    1, and no call is made. *)
Theorem startup_refused args env :
  registered ->
  (forall e, parseFlags operatorFlags args ∅ = inl e ->
     process args env [] = (inl (ExitCode (flagExit e)), [])) /\
  (forall x, parseFlags operatorFlags args ∅ = inr x -> env !! "WATCH_NAMESPACE" = None ->
     process args env [] = (inl (ExitCode 1), [])).
Proof.
  intros Hr. unfold process, main, mbind, Boot_bind. rewrite init_registered by done. split.
  - by intros e ->.
  - intros [a r] -> Hns. unfold getWatchNamespace. by rewrite Hns.
Qed.

(** C22: The command line round trip: the three settings of the operator, written
    as flags, reach the manager as they were written, whatever the addresses
    are. *)
Theorem operator_flags_roundtrip metrics probe leader ns :
  exists actual, parseFlags operatorFlags
      (setWord <$> [("metrics-bind-address", metrics); ("health-probe-bind-address", probe);
                    ("leader-elect", FormatBool leader)]) ∅ = inr (actual, []) /\
    managerOptions actual ns =
      mkOptions [ns] metrics 9443 probe leader ns
        ("zookeeperservice." +:+ ns +:+ ".netcracker.com").
Proof.
  destruct (parseFlags_set operatorFlags [("metrics-bind-address", metrics);
    ("health-probe-bind-address", probe); ("leader-elect", FormatBool leader)] ∅) as (vs & Hvs & Hp).
  { repeat apply Forall_cons_2; [| | |constructor];
      (split; [done|eexists _, _; split; [reflexivity|]]); [done..|by destruct leader]. }
  apply Forall2_cons_inv_l in Hvs as (v1 & vs1 & (f1 & Hf1 & Hv1) & Hvs & ->).
  apply Forall2_cons_inv_l in Hvs as (v2 & vs2 & (f2 & Hf2 & Hv2) & Hvs & ->).
  apply Forall2_cons_inv_l in Hvs as (v3 & vs3 & (f3 & Hf3 & Hv3) & Hvs & ->).
  apply Forall2_nil_inv_l in Hvs as ->. eexists. split; [exact Hp|].
  injection Hf1 as <-. injection Hf2 as <-. injection Hf3 as <-.
  injection Hv1 as <-. injection Hv2 as <-. destruct leader; by injection Hv3 as <-.
Qed.
End startup_properties.

(** ** Lemmas: the machine *)
Section machine_lemmas.
Context {W : Type} `{!KubeClient W} `{!KubeLaws W} `{!WaitLib W} `{!WaitLaws W}.
Context `{!Quantities} `{!VaultApi W} `{!Passwords W} `{!Encoders}.
Context (watch : string).

(** A write that stays in the namespace [ns] and hits a deployment of some
    resource. *)
Definition contained (ns : string) (e : Event) : Prop :=
  match e with
  | EvCreate k o | EvUpdate k o =>
      m_Namespace (meta_of o) = ns /\
      (k = KDeployment -> exists nm, owned_deployment nm (m_Name (meta_of o)))
  | _ => True
  end.

Lemma confined_contained ns nm e : confined ns nm e -> contained ns e.
Proof. destruct e; simpl; naive_solver. Qed.

(** Only requests of the watched namespace are queued. *)
Definition queue_in_scope (y : Sys W) : Prop := forall r, r ∈ sys_queue y -> in_scope watch (fst r).

Lemma enqueued_in_scope k e r :
  Forall (fun m => in_scope watch (m_Namespace m)) (eventMetas e) ->
  r ∈ enqueued (W:=W) k e -> in_scope watch (fst r).
Proof.
  intros He Hr. rewrite Forall_forall in He. unfold enqueued in Hr.
  destruct (decide (k = _)) as [Hk|Hk].
  - case_match; [|set_solver]. apply elem_of_list_to_set, list_elem_of_fmap in Hr as (m & -> & Hm).
    by apply He.
  - cbn [controllerSpec cs_Owns] in Hr. simpl in Hr.
    destruct (decide (k = KSecret)); [|set_solver]. case_match; [|set_solver].
    rewrite app_nil_r, elem_of_list_to_set, list_elem_of_omap in Hr.
    destruct Hr as (m & Hm & Hreq). unfold ownerRequest in Hreq.
    repeat case_match; simplify_eq/=. by apply He.
Qed.

Lemma step_in_scope y l y' : step watch y l y' -> queue_in_scope y -> queue_in_scope y'.
Proof.
  intros Hstep Hq. destruct Hstep as [|s q k e He|s q ns nm s' Hin Hr|s q ns nm r s' Hin Hr Hne|s q q' Hq'];
    intros r0 Hr0; simpl in *; try by apply Hq.
  - apply elem_of_union in Hr0 as [Hr0|Hr0]; [by apply Hq|by eapply enqueued_in_scope].
  - apply elem_of_difference in Hr0 as [Hr0 _]. by apply Hq.
  - by apply Hq'.
Qed.

(** What a step adds to the trace. *)
Lemma step_trace y l y' :
  watch <> "" -> queue_in_scope y -> step watch y l y' ->
  exists evs, st_trace (sys_op y') = st_trace (sys_op y) ++ evs /\
    Forall (contained watch) evs /\ fresh_updates watch evs.
Proof.
  intros Hw Hq Hstep.
  assert (forall s r s' ns nm, in_scope watch ns -> Reconcile ns nm s = (r, s') ->
    exists evs, st_trace s' = st_trace s ++ evs /\ Forall (contained watch) evs /\
      fresh_updates watch evs) as Hrec.
  { intros s r s' ns nm [?| ->] Hr; [done|].
    destruct (Reconcile_related watch nm (emits (confined watch nm)) s r s') as (e1 & T1 & F1);
      [intros; by apply emits_nil..|done|].
    destruct (Reconcile_related watch nm (adds_fresh watch) s r s') as (e2 & T2 & F2);
      [intros; by apply adds_fresh_same..|done|].
    rewrite T1 in T2. apply app_inv_head in T2 as ->. exists e2. split_and!; [done| |done].
    eapply Forall_impl; [exact F1|]. intros e. apply confined_contained. }
  assert (exists evs, st_trace (sys_op y) = st_trace (sys_op y) ++ evs /\
    Forall (contained watch) evs /\ fresh_updates watch evs) as Hnone.
  { exists []. rewrite app_nil_r. split_and!; [done|constructor|apply fresh_nil]. }
  destruct Hstep as [| |s q ns nm s' Hin Hr|s q ns nm r s' Hin Hr Hne|]; try exact Hnone;
    (eapply Hrec; [|exact Hr]); apply (Hq _ Hin).
Qed.

(** The hash of the spec after a cycle is the one before, or that of the
    resource the cycle read. *)
Lemma Reconcile_spec_hash ns nm (s : St W) r s' :
  Reconcile ns nm s = (r, s') ->
  (exists evs, st_trace s' = st_trace s ++ evs) /\
  (st_hashes s' !! specHashName = st_hashes s !! specHashName \/
   exists inst h, EvGet KCR ns nm (Ok inst) ∈ st_trace s' /\
     Hash marshalSpec (cr_Spec inst) = Ok h /\ st_hashes s' !! specHashName = Some h).
Proof.
  intros Hrun. split.
  { destruct (Reconcile_related ns nm (adds_fresh ns) s r s') as (evs & ? & _);
      [intros; by apply adds_fresh_same..|done|]. by exists evs. }
  apply Reconcile_inv in Hrun as [(inst & s1 & Hget & Hrun)|[(e & Hget & _)|(p & Hget & _)]];
    pose proof (Get_related ns nm (fun _ => True) hashes_kept KCR _ _ _ _ _ Hget) as [Hk1 _];
    try by left.
  unfold reconcileInstance, mbind, M_bind in Hrun.
  destruct (runCycle (set_cr inst s1)) as [r2 s2] eqn:E.
  pose proof (fetched_named _ _ _ _ _ Hget) as Hn.
  destruct (runCycle_ok ns nm (fun _ => True) hashes_kept (fun _ _ => I) _ _ _ Hn E) as (_ & [Hk2 _] & _).
  destruct r2 as [h|e|p]; [|injection Hrun as _ <-; left; by rewrite Hk2..].
  right. exists inst, h. pose proof E as Hh%runCycle_hash.
  destruct (runCycle_ok ns nm (owned_deployment nm) (adds_fresh ns) (fun _ H => H) _ _ _ Hn E)
    as (_ & (evs & Htr & _) & _).
  rewrite recordHashes_run in Hrun. injection Hrun as _ <-. simpl. split_and!; [|done|].
  - rewrite Htr. apply elem_of_app. left. simpl. unfold client_Get in Hget.
    destruct (kc_get KCR ns nm (st_world s)) as [r0 w]. injection Hget as -> <-. simpl. set_solver.
  - by rewrite lookup_insert_ne, lookup_insert_eq.
Qed.
End machine_lemmas.

(** ** Properties: the machine *)
Section machine_properties.
Context {W : Type} `{!KubeClient W} `{!KubeLaws W} `{!WaitLib W} `{!WaitLaws W}.
Context `{!Quantities} `{!VaultApi W} `{!Passwords W} `{!Encoders}.
Context (watch : string).

(** C4: The whole life of the operator: from a queue of the watched namespace,
    over any interleaving of outside changes, events, cycles that succeed,
    fail or panic, and restarts, every object the operator ever creates or
    updates lives in the watched namespace, every deployment it writes belongs
    to a resource, and every update of a deployment comes right after reading
    it at the same version. *)
Theorem operator_confined_for_life y ls y' :
  watch <> "" -> queue_in_scope watch y -> steps watch y ls y' ->
  exists evs, st_trace (sys_op y') = st_trace (sys_op y) ++ evs /\
    Forall (contained watch) evs /\ fresh_updates watch evs.
Proof.
  intros Hw Hq Hsteps. induction Hsteps as [y|y1 l y2 ls y3 Hstep Hsteps IH].
  { exists []. rewrite app_nil_r. split_and!; [done|constructor|apply fresh_nil]. }
  destruct (step_trace watch y1 l y2 Hw Hq Hstep) as (e1 & H1 & F1 & G1).
  destruct IH as (e2 & H2 & F2 & G2); [by eapply step_in_scope|].
  exists (e1 ++ e2). rewrite H2, H1, app_assoc. split_and!; [done| |by apply fresh_app].
  by apply Forall_app.
Qed.


(** C9: The recorded hash of the spec is never invented: from a fresh process, at
    any later point, a recorded hash is the hash of a resource that the
    operator has read. *)
Theorem recorded_hash_was_read y ls y' h :
  st_hashes (sys_op y) = ∅ -> steps watch y ls y' ->
  st_hashes (sys_op y') !! specHashName = Some h ->
  exists ns nm inst, EvGet KCR ns nm (Ok inst) ∈ st_trace (sys_op y') /\
    Hash marshalSpec (cr_Spec inst) = Ok h.
Proof.
  intros Hempty Hsteps. revert h.
  set (P := fun y : Sys W => forall h, st_hashes (sys_op y) !! specHashName = Some h ->
    exists ns nm inst, EvGet KCR ns nm (Ok inst) ∈ st_trace (sys_op y) /\
      Hash marshalSpec (cr_Spec inst) = Ok h).
  assert (P y) as Hy by (intros h; rewrite Hempty; by rewrite lookup_empty).
  change (P y'). clear Hempty. induction Hsteps as [y|y1 l y2 ls y3 Hstep Hsteps IH]; [done|].
  apply IH. clear IH Hsteps.
  assert (forall (s : St W) r s' ns nm (q q' : gset Request), P (mkSys s q) -> Reconcile ns nm s = (r, s') ->
    P (mkSys s' q')) as Hrec.
  { intros s r s' ns nm q q' Hs [[evs Htr] [Hk|(inst & h0 & Hin & Hh & Hk)]]%Reconcile_spec_hash h Hl;
      simpl in *; rewrite Hk in Hl.
    - destruct (Hs h Hl) as (ns' & nm' & inst & Hin & Hh). exists ns', nm', inst.
      split; [|done]. rewrite Htr. apply elem_of_app. by left.
    - exists ns, nm, inst. by simplify_eq. }
  destruct Hstep as [| |s q ns nm s' Hin Hr|s q ns nm r s' Hin Hr Hne|]; try done; by eapply Hrec.
Qed.

End machine_properties.

Section waking.
Context {W : Type} `{!KubeClient W}.

(** C20: What wakes the operator: an update of the resource that changes its
    generation does and a change of its status does not; a new version of a
    secret that a ZooKeeperService controls wakes that resource; events of
    deployments, services, claims and service accounts wake nothing, so a
    change made to them by hand is not observed. *)
Theorem events_enqueue old new :
  (m_Generation old <> m_Generation new -> requestFor new ∈ enqueued (W:=W) KCR (Updated old new)) /\
  (m_Generation old = m_Generation new -> enqueued (W:=W) KCR (Updated old new) = ∅) /\
  (forall r, m_ResourceVersion old <> m_ResourceVersion new -> ownerRequest (W:=W) new = Some r ->
     r ∈ enqueued (W:=W) KSecret (Updated old new)) /\
  (forall k e, k <> KCR -> k <> KSecret -> enqueued (W:=W) k e = ∅).
Proof.
  split_and!.
  - intros Hg. unfold enqueued. rewrite decide_True by done. simpl. unfold statusPredicate_Update.
    simpl. rewrite bool_decide_eq_false_2 by done. set_solver.
  - intros Hg. unfold enqueued. rewrite decide_True by done. simpl. unfold statusPredicate_Update.
    simpl. by rewrite bool_decide_eq_true_2.
  - intros r Hv Ho. unfold enqueued. rewrite decide_False by done. simpl.
    unfold secretPredicate_Update. simpl.
    rewrite bool_decide_eq_false_2 by done. simpl. rewrite Ho. destruct (ownerRequest old); set_solver.
  - intros k e H1 H2. by destruct k.
Qed.
End waking.
