(* ===== verification/Live.v ===== *)
(** * A valid resource is reconciled

    The other side of the safety properties: on a healthy cluster a cycle for
    a valid resource comes to an end without an error or a panic, from whatever
    state the operator's memory is in.  [succeeds] is a total program logic:
    the run returns a value, and the invariant holds again.  [Healthy] says
    what the cluster has to do; [Valid] what the resource has to be. *)

From S2P Require Import Prelude GoStrings Types Util Provider Platform Conditions Reconciler Vault.
From S2P Require Import ZooKeeperProvider MonitoringProvider BackupDaemonProvider.
From S2P Require Import ZooKeeperVault Fragments Frames ZooKeeperReconciler MonitoringReconciler.
From S2P Require Import BackupDaemonReconciler Quiescence Controller.

(** ** The logic *)

(** Every run from the invariant returns a value that satisfies [Q]. *)
Definition succeeds {W A} (I : St W -> Prop) (Q : A -> Prop) (m : M W A) : Prop :=
  forall s, I s -> exists a s', m s = (Ok a, s') /\ I s' /\ Q a.

(** Every run returns a value or an error. *)
Definition settles {W A} (I : St W -> Prop) (Q : A -> Prop) (E : error -> Prop) (m : M W A) : Prop :=
  forall s, I s -> exists r s', m s = (r, s') /\ I s' /\
    match r with Ok a => Q a | Err e => E e | Panic _ => False end.

Section rules.
Context {W : Type} (I : St W -> Prop).

Lemma succeeds_ret {A} (Q : A -> Prop) a : Q a -> succeeds I Q (mret a).
Proof. intros HQ s Hs. by exists a, s. Qed.

Lemma succeeds_bind {A B} (P : A -> Prop) (Q : B -> Prop) (m : M W A) (f : A -> M W B) :
  succeeds I P m -> (forall a, P a -> succeeds I Q (f a)) -> succeeds I Q (m ≫= f).
Proof.
  intros Hm Hf s Hs. destruct (Hm s Hs) as (a & s1 & H1 & Hs1 & Ha).
  rewrite (run_bind _ _ _ _ _ H1). by apply Hf.
Qed.

Lemma succeeds_bind_any {A B} (Q : B -> Prop) (m : M W A) (f : A -> M W B) :
  succeeds I any m -> (forall a, succeeds I Q (f a)) -> succeeds I Q (m ≫= f).
Proof. intros Hm Hf. by eapply succeeds_bind. Qed.

Lemma succeeds_weaken {A} (P Q : A -> Prop) (m : M W A) :
  succeeds I P m -> (forall a, P a -> Q a) -> succeeds I Q m.
Proof. intros Hm HPQ s Hs. destruct (Hm s Hs) as (a & s1 & ? & ? & ?). eauto 10. Qed.

Lemma succeeds_lift {A} (Q : A -> Prop) (r : Res A) a : r = Ok a -> Q a -> succeeds I Q (lift r).
Proof. intros -> HQ s Hs. by exists a, s. Qed.

Lemma succeeds_bind_lift {A B} (Q : B -> Prop) (r : Res A) a (f : A -> M W B) :
  r = Ok a -> succeeds I Q (f a) -> succeeds I Q (lift r ≫= f).
Proof. intros -> Hf s Hs. by apply Hf. Qed.

Lemma succeeds_bind_gets {A B} (Q : B -> Prop) (g : St W -> A) (f : A -> M W B) :
  (forall s, I s -> succeeds I Q (f (g s))) -> succeeds I Q (gets g ≫= f).
Proof. intros Hf s Hs. by apply (Hf s Hs). Qed.

Lemma succeeds_bind_try {A B} (P : A -> Prop) (E : error -> Prop) (Q : B -> Prop) (m : M W A)
    (f : error + A -> M W B) :
  settles I P E m -> (forall a, P a -> succeeds I Q (f (inr a))) ->
  (forall e, E e -> succeeds I Q (f (inl e))) -> succeeds I Q (try_ m ≫= f).
Proof.
  intros Hm Hok Herr s Hs. destruct (Hm s Hs) as (r & s1 & H1 & Hs1 & Hr).
  unfold try_, mbind, M_bind. rewrite H1. destruct r as [a|e|p]; [by apply Hok|by apply Herr|done].
Qed.

Lemma succeeds_settles {A} (Q : A -> Prop) E (m : M W A) : succeeds I Q m -> settles I Q E m.
Proof. intros Hm s Hs. destruct (Hm s Hs) as (a & s1 & ? & ? & ?). by exists (Ok a), s1. Qed.

Lemma succeeds_modify f : (forall s, I s -> I (f s)) -> succeeds I any (modify f).
Proof. intros Hf s Hs. exists tt, (f s). split_and!; auto. Qed.

Lemma succeeds_when b (m : M W unit) :
  (b = true -> succeeds I any m) -> succeeds I any (when b m).
Proof. intros Hm. destruct b; [by apply Hm|by apply succeeds_ret]. Qed.

Lemma succeeds_for_each {A} (l : list A) (body : A -> M W unit) :
  (forall x, x ∈ l -> succeeds I any (body x)) -> succeeds I any (for_each l body).
Proof.
  induction l as [|x l IH]; intros Hb; simpl; [by apply succeeds_ret|].
  apply succeeds_bind_any; [apply Hb; constructor|]. intros _. apply IH. intros y Hy. apply Hb.
  by constructor.
Qed.
End rules.

(** ** A healthy cluster *)

(** Deployments have a number of replicas and claims have annotations. *)
Definition sane (k : Kind) : Obj k -> Prop :=
  match k return Obj k -> Prop with
  | KDeployment => fun d => is_Some (d_Replicas d)
  | KPVC => fun p => is_Some (m_Annotations (pvc_Meta p))
  | _ => fun _ => True
  end.

(** There is a deployment named [n] in the namespace. *)
Definition present {W} `{KubeClient W} (ns : string) (w : W) (n : string) : Prop :=
  exists d, kc_get KDeployment ns n w = (Ok d, w).

(** While the world satisfies [Up]: reads find an object or say that there is
    none, and change nothing; writes at the current version succeed; the
    resource is there with its spec and its secrets; nobody else interferes
    between the calls of the operator, so a retried write needs one attempt;
    polls come to an end, and the pods that the operator waits for start. *)
Class Healthy (W : Type) `{KubeClient W} `{WaitLib W} (ns nm : string)
    (sp : ZooKeeperServiceSpec) (secrets : list string) (Up : W -> Prop) : Prop := {
  hy_get : forall k n' n w, Up w -> exists r, kc_get k n' n w = (r, w) /\
    match r with Ok o => sane k o | Err e => IsNotFound e = true | Panic _ => False end;
  hy_resource : forall w, Up w -> exists c, kc_get KCR ns nm w = (Ok c, w) /\ cr_Spec c = sp;
  hy_secret : forall n w, Up w -> n ∈ secrets -> exists o, kc_get KSecret ns n w = (Ok o, w);
  hy_list : forall k n' sel w, Up w -> exists l, kc_list k n' sel w = (Ok l, w) /\ Forall (sane k) l;
  hy_create : forall k (o : Obj k) w e, Up w -> sane k o ->
    kc_get k (m_Namespace (meta_of o)) (m_Name (meta_of o)) w = (Err e, w) ->
    exists o' w', kc_create k o w = (Ok o', w') /\ Up w';
  hy_update : forall k (o old : Obj k) w, Up w -> sane k o ->
    kc_get k (m_Namespace (meta_of o)) (m_Name (meta_of o)) w = (Ok old, w) ->
    m_ResourceVersion (meta_of o) = m_ResourceVersion (meta_of old) ->
    exists o' w', kc_update k o w = (Ok o', w') /\ Up w' /\
      (forall n, present ns w n -> present ns w' n);
  hy_status : forall cr w, Up w -> cr_Namespace cr = ns -> cr_Name cr = nm ->
    exists c w', kc_status_update cr w = (Ok c, w') /\ cr_Spec c = sp /\ Up w';
  hy_now : forall w, Up w -> Up (snd (kc_now w));
  hy_owner : forall cr m, exists m', kc_setControllerReference cr m = Ok m';
  hy_sleep : forall d w, Up w -> Up (wl_sleep d w);
  hy_retry : forall fn s s', Up (st_world s) -> fn s = (Ok tt, s') -> wl_retry fn s = (Ok tt, s');
  hy_poll : forall i t c s, Up (st_world s) ->
    (forall w s1, Up w -> same_memory s s1 -> exists b s2, c (set_world w s1) = (Ok b, s2) /\
       same_memory s1 s2 /\ Up (st_world s2)) ->
    exists r s', wl_poll i t true c s = (r, s') /\ same_memory s s' /\ Up (st_world s') /\
      match r with Panic _ => False | _ => True end;
  hy_pods : forall i t n s, Up (st_world s) -> cr_Spec (st_cr s) = sp ->
    exists s', wl_poll i t true (isPodRunning n) s = (Ok tt, s') /\
      same_memory s s' /\ Up (st_world s');
  (* the active servers are numbered without gaps *)
  hy_servers : forall w l c i, Up w ->
    kc_list KDeployment ns (GetZooKeeperSelectorLabels nm) w = (Ok l, w) -> countActive l = Ok c ->
    1 <= i <= c -> present ns w (serverName nm i) }.

(** The resource at hand is [ns]/[nm] with the stored spec, on a healthy
    cluster. *)
Definition well {W} (ns nm : string) (sp : ZooKeeperServiceSpec) (Up : W -> Prop) (s : St W) : Prop :=
  named ns nm s /\ cr_Spec (st_cr s) = sp /\ Up (st_world s).

(** ** Lemmas: the shared operations *)
Section operations.
Context {W : Type} `{!KubeClient W} `{!KubeLaws W} `{!WaitLib W} `{!Quantities}.
Context (ns nm : string) (sp : ZooKeeperServiceSpec) (secrets : list string) (Up : W -> Prop).
Context `{!Healthy W ns nm sp secrets Up}.
#[local] Abbreviation I := (well ns nm sp Up).

Lemma well_memory s s' : same_memory s s' -> Up (st_world s') -> I s -> I s'.
Proof. intros (Hc & _) Hw ([Hns Hnm] & Hsp & _). unfold well, named. rewrite Hc. by split_and!. Qed.

Lemma well_status t s : I s -> I (set_cr (set_Status t (st_cr s)) s).
Proof. done. Qed.

(** A read, with the world it leaves unchanged. *)
Lemma get_run k n' n s : I s -> exists r, kc_get k n' n (st_world s) = (r, st_world s) /\
  client_Get k n' n s = (r, log_event (EvGet k n' n r) (set_world (st_world s) s)) /\
  match r with
  | Ok o => sane k o /\ m_Namespace (meta_of o) = n' /\ m_Name (meta_of o) = n
  | Err e => IsNotFound e = true
  | Panic _ => False
  end.
Proof.
  intros (_ & _ & Hw). destruct (hy_get k n' n _ Hw) as (r & Hg & Hr). exists r.
  split; [done|]. split; [unfold client_Get; by rewrite Hg|]. destruct r; try done.
  split; [done|]. by eapply kl_get.
Qed.

Lemma get_settles k n' n : settles I (sane k) (fun e => IsNotFound e = true) (client_Get k n' n).
Proof.
  intros s Hs. destruct (get_run k n' n s Hs) as (r & _ & Hg & Hr). eexists r, _.
  split; [exact Hg|]. split; [exact Hs|]. by destruct r; destruct_and?.
Qed.

(** Writes after the read that justifies them. *)
Lemma create_run k (o : Obj k) s e :
  I s -> sane k o -> kc_get k (m_Namespace (meta_of o)) (m_Name (meta_of o)) (st_world s) = (Err e, st_world s) ->
  exists o' s', client_Create k o s = (Ok o', s') /\ I s'.
Proof.
  intros (Hn & Hsp & Hw) Ho Hg. destruct (hy_create k o _ e Hw Ho Hg) as (o' & w' & Hc & Hw').
  unfold client_Create, emit, modify, on_world, mbind, M_bind. simpl. rewrite Hc.
  eexists _, _. by split; [reflexivity|].
Qed.

Lemma update_run k (o old : Obj k) s :
  I s -> sane k o ->
  kc_get k (m_Namespace (meta_of o)) (m_Name (meta_of o)) (st_world s) = (Ok old, st_world s) ->
  m_ResourceVersion (meta_of o) = m_ResourceVersion (meta_of old) ->
  exists o' s', client_Update k o s = (Ok o', s') /\ I s' /\
    (forall n, present ns (st_world s) n -> present ns (st_world s') n).
Proof.
  intros (Hn & Hsp & Hw) Ho Hg Hv.
  destruct (hy_update k o old _ Hw Ho Hg Hv) as (o' & w' & Hc & Hw' & Hp).
  unfold client_Update, emit, modify, on_world, mbind, M_bind. simpl. rewrite Hc.
  eexists _, _. by split; [reflexivity|].
Qed.

(** Create when absent, else go on with the object found. *)
Lemma get_or_create k (o : Obj k) (f : Obj k -> M W unit) :
  sane k o ->
  (forall old s, I s -> sane k old ->
     kc_get k (m_Namespace (meta_of o)) (m_Name (meta_of o)) (st_world s) = (Ok old, st_world s) ->
     exists s', f old s = (Ok tt, s') /\ I s') ->
  succeeds I any
    (r ← try_ (client_Get k (m_Namespace (meta_of o)) (m_Name (meta_of o)));
     match r with
     | inl err => if IsNotFound err then client_Create k o ;; mret tt else throw err
     | inr old => f old
     end).
Proof.
  intros Ho Hf s Hs. destruct (get_run k (m_Namespace (meta_of o)) (m_Name (meta_of o)) s Hs)
    as (r & Hg & Hrun & Hr). unfold try_, mbind at 1, M_bind at 1. rewrite Hrun.
  destruct r as [old|e|p]; [| |done].
  - destruct Hr as [Hold _]. set (s1 := log_event _ _).
    destruct (Hf old s1 Hs Hold Hg) as (s' & Hrest & Hs'). by exists tt, s'.
  - rewrite Hr. set (s1 := log_event _ _).
    destruct (create_run k o s1 e Hs Ho Hg) as (o' & s' & Hc & Hs'). unfold mbind, M_bind. rewrite Hc. by exists tt, s'.
Qed.

Lemma createOrUpdateService_live svc : succeeds I any (createOrUpdateService svc).
Proof.
  unfold createOrUpdateService. apply (get_or_create KService svc); [done|]. intros old s Hs _ Hg.
  cbv zeta. set (svc' := if bool_decide _ then _ else _).
  destruct (update_run KService svc' old s) as (o' & s' & Hu & Hs' & _); [done..| | |].
  - subst svc'. by case_match.
  - subst svc'. by case_match.
  - unfold mbind, M_bind. rewrite Hu. by exists s'.
Qed.

Lemma createServiceAccount_live sa : succeeds I any (createServiceAccount sa).
Proof.
  unfold createServiceAccount. apply (get_or_create KServiceAccount sa); [done|].
  intros old s Hs _ _. by exists s.
Qed.

Lemma createPersistentVolumeClaim_live claim :
  sane KPVC claim -> succeeds I any (createPersistentVolumeClaim claim).
Proof.
  intros Hc. unfold createPersistentVolumeClaim. apply (get_or_create KPVC claim); [done|].
  intros old s Hs [a Ha] Hg. unfold updatePersistentVolumeClaim.
  rewrite (run_bind _ _ s (st_cr s) s) by done. cbv zeta. case_match; [by exists s|].
  unfold mergePVCAnnotations. rewrite Ha. simpl.
  destruct (delete_stale_lookup (gm (m_Annotations (pvc_Meta claim)))
    (gm (stt_PVCAnnotations (cr_Status (st_cr s)))) (range_insert (gm (m_Annotations (pvc_Meta claim))) a))
    as (m & Hm & _). rewrite Hm.
  unfold lift. rewrite (run_bind _ _ s (Some m) s) by done.
  destruct (update_run KPVC (set_pvc_Meta (set_Annotations (Some m) (pvc_Meta old)) old) old s)
    as (o' & s' & Hu & Hs' & _); [done|by eexists| |done|].
  - apply kl_get in Hg as Hn. destruct Hn as [Hn1 Hn2]. simpl in *. by rewrite Hn1, Hn2.
  - unfold mbind, M_bind. rewrite Hu. by exists s'.
Qed.

(** Read a deployment that exists and write it back changed, with retries. *)
Lemma retried_update n' n (g : Deployment -> Deployment) d0 s :
  I s -> kc_get KDeployment n' n (st_world s) = (Ok d0, st_world s) ->
  (forall d, is_Some (d_Replicas d) -> is_Some (d_Replicas (g d))) ->
  m_Namespace (d_Meta (g d0)) = n' -> m_Name (d_Meta (g d0)) = n ->
  m_ResourceVersion (d_Meta (g d0)) = m_ResourceVersion (d_Meta d0) ->
  exists s', RetryOnConflict (d ← client_Get KDeployment n' n; client_Update KDeployment (g d) ;; mret tt) s
             = (Ok tt, s') /\ I s' /\
    (forall n, present ns (st_world s) n -> present ns (st_world s') n).
Proof.
  intros Hs Hg Hsane Hns Hn Hv.
  destruct (get_run KDeployment n' n s Hs) as (r & Hg' & Hrun & Hr). rewrite Hg in Hg'.
  injection Hg' as <-. destruct Hr as [Hd0 _].
  destruct (update_run KDeployment (g d0) d0
    (log_event (EvGet KDeployment n' n (Ok d0)) (set_world (st_world s) s))) as (o' & s' & Hu & Hs' & Hp);
    [done|by apply Hsane|by simpl; rewrite Hns, Hn|done|].
  exists s'. split; [|done]. apply hy_retry; [apply Hs|].
  etrans; [exact (run_bind _ _ _ _ _ Hrun)|]. exact (run_bind _ _ _ _ _ Hu).
Qed.

Lemma createOrUpdateDeployment_live d :
  is_Some (d_Replicas d) -> succeeds I any (createOrUpdateDeployment d).
Proof.
  intros Hd. unfold createOrUpdateDeployment. cbv zeta.
  apply (get_or_create KDeployment d); [done|]. intros old s Hs _ Hg.
  destruct (retried_update (m_Namespace (d_Meta d)) (m_Name (d_Meta d)) (fun d0 => set_d_Meta
    (set_ResourceVersion (m_ResourceVersion (d_Meta d0)) (d_Meta d)) d) old s)
    as (s' & ? & ? & _); [done..|by exists s'].
Qed.

Lemma scaleDeployment_live n replicas d0 s :
  I s -> kc_get KDeployment ns n (st_world s) = (Ok d0, st_world s) ->
  exists s', scaleDeployment n replicas ns s = (Ok tt, s') /\ I s' /\
    (forall n, present ns (st_world s) n -> present ns (st_world s') n).
Proof.
  intros Hs Hg. pose proof Hg as [Hns Hn]%kl_get.
  by apply (retried_update ns n (set_d_Replicas (Some replicas)) d0).
Qed.

Lemma apply_replicas secs d :
  d_Replicas (snd (applyAutoRestartSecretAnnotations d secs)) = d_Replicas d.
Proof.
  destruct (applyAutoRestartSecretAnnotations d secs) as [b d'] eqn:E. apply annotations_only in E.
  simpl. exact (f_equal d_Replicas E).
Qed.

Lemma refresh_live n' n secs : succeeds I any (updateDeploymentSecretRestartAnnotations n' n secs).
Proof.
  intros s Hs. destruct (get_run KDeployment n' n s Hs) as (r & Hg & Hrun & Hr).
  enough (exists s', (r ← try_ (client_Get KDeployment n' n);
     match r with
     | inl err => if IsNotFound err then mret tt else throw err
     | inr deployment =>
         let '(modified, deployment) := applyAutoRestartSecretAnnotations deployment secs in
         if modified then client_Update KDeployment deployment ;; mret tt else mret tt
     end) s = (Ok tt, s') /\ I s') as (s' & Hone & Hs').
  { exists tt, s'. split_and!; [|done..]. apply hy_retry; [apply Hs|exact Hone]. }
  unfold try_, mbind at 1, M_bind at 1. rewrite Hrun. set (s1 := log_event _ _).
  assert (I s1) as Hs1 by exact Hs. destruct r as [d|e|p]; [| |done].
  2: { rewrite Hr. by exists s1. }
  destruct Hr as (Hd & Hns & Hn). pose proof (apply_replicas secs d) as Hrep.
  pose proof (applyAnnotations_meta d secs) as Hmeta.
  destruct (applyAutoRestartSecretAnnotations d secs) as [[|] d']; [|by exists s1]. simpl in Hrep, Hmeta.
  destruct (update_run KDeployment d' d s1) as (o' & s' & Hu & Hs' & _); [done|..].
  - unfold sane. by rewrite Hrep.
  - simpl. rewrite Hmeta. simpl in Hns, Hn. by rewrite Hns, Hn.
  - simpl. by rewrite Hmeta.
  - exists s'. split; [exact (run_bind _ _ _ _ _ Hu)|done].
Qed.

(** *** Secrets *)
Lemma owner_live cr m :
  succeeds I (fun m' => exists o, m' = set_OwnerReferences o m) (SetControllerReference cr m).
Proof.
  destruct (hy_owner (ns:=ns) (nm:=nm) (sp:=sp) (secrets:=secrets) (Up:=Up) cr m) as [m' Hm].
  eapply succeeds_lift; [exact Hm|]. by eapply kl_owner.
Qed.

Lemma watchSecret_settles n :
  settles I any (fun e => IsNotFound e = true) (watchSecret n) /\
  (n ∈ secrets -> succeeds I any (watchSecret n)).
Proof.
  assert (forall s, I s -> exists r s', watchSecret n s = (r, s') /\ I s' /\
    match r with
    | Ok _ => True
    | Err e => IsNotFound e = true /\ kc_get KSecret ns n (st_world s) = (Err e, st_world s)
    | Panic _ => False
    end) as Hrun.
  { intros s Hs. pose proof Hs as ([Hns _] & _). unfold watchSecret, findSecret.
    rewrite (run_bind _ _ s (st_cr s) s) by done. rewrite Hns.
    destruct (get_run KSecret ns n s Hs) as (r & Hg & Hrun & Hr). set (s1 := log_event _ _) in Hrun.
    unfold mbind at 1, M_bind at 1. rewrite Hrun.
    destruct r as [sec|e|p]; [|by exists (Err e), s1|done]. destruct Hr as (_ & Hsns & Hsn). cbv zeta.
    set (m := match kc_getControllerOf _ with Some _ => _ | None => _ end).
    assert (m_Namespace m = ns /\ m_Name m = n /\
            m_ResourceVersion m = m_ResourceVersion (sec_Meta sec)) as (Hm1 & Hm2 & Hm3)
      by (subst m; repeat case_match; done).
    destruct (owner_live (st_cr s) m s1 Hs) as (m' & s2 & Ho & Hs2 & [o Hm']). injection Ho as Ho <-.
    rewrite (run_bind _ _ s1 m' s1) by (unfold SetControllerReference, lift; by rewrite Ho).
    unfold updateSecret. simpl. rewrite Hm'. simpl. rewrite Hm1, Hm2.
    destruct (get_run KSecret ns n s1 Hs) as (r & Hg1 & Hrun1 & Hr). set (s3 := log_event _ _) in Hrun1.
    simpl in Hg1. rewrite Hg in Hg1. injection Hg1 as <-.
    unfold try_, mbind, M_bind. rewrite Hrun1.
    destruct (update_run KSecret (mkSecret (set_OwnerReferences o m) (sec_Data sec)) sec s3)
      as (o' & s4 & Hu & Hs4 & _); [done..| |done|].
    - simpl. by rewrite Hm1, Hm2.
    - rewrite Hu. by exists (Ok o'), s4. }
  split.
  - intros s Hs. destruct (Hrun s Hs) as (r & s' & H1 & H2 & H3). exists r, s'. split_and!; [done..|].
    by destruct r; destruct_and?.
  - intros Hin s Hs. destruct (Hrun s Hs) as (r & s' & H1 & H2 & H3). destruct r as [o|e|p]; [by exists o, s'| |done].
    destruct H3 as [_ H3]. destruct (hy_secret n (st_world s) (proj2 (proj2 Hs)) Hin) as [o Ho]. congruence.
Qed.

Lemma watchOwnSecret_live n : n ∈ secrets -> succeeds I any (watchOwnSecret n).
Proof.
  intros Hin. unfold watchOwnSecret. eapply (succeeds_bind_try _ any (fun _ => False)).
  - by apply succeeds_settles, watchSecret_settles.
  - intros sec _. by apply succeeds_ret.
  - done.
Qed.

Lemma watchOptionalSecret_live n : succeeds I any (watchOptionalSecret n).
Proof.
  unfold watchOptionalSecret. eapply succeeds_bind_try; [apply watchSecret_settles|..].
  - intros sec _. by apply succeeds_ret.
  - intros e ->. by apply succeeds_ret.
Qed.

(** *** Lists, status, waits *)
Lemma list_run k n' sel s : I s -> exists l s', kc_list k n' sel (st_world s) = (Ok l, st_world s) /\
  client_List k n' sel s = (Ok l, s') /\ I s' /\ st_world s' = st_world s /\ Forall (sane k) l.
Proof.
  intros Hs. destruct (hy_list k n' sel (st_world s) (proj2 (proj2 Hs))) as (l & Hl & Hsane).
  eexists l, _. split; [exact Hl|]. split; [|split; [|split; [|exact Hsane]]].
  - unfold client_List, emit, modify, on_world, mbind, M_bind. simpl. rewrite Hl. reflexivity.
  - exact Hs.
  - done.
Qed.

Lemma list_live k n' sel : succeeds I (Forall (sane k)) (client_List k n' sel).
Proof. intros s Hs. destruct (list_run k n' sel s Hs) as (l & s' & _ & ? & ? & _ & ?). eauto 10. Qed.

Lemma status_live f : (forall c, exists t, f c = set_Status t c) -> succeeds I any (modify_cr f).
Proof.
  intros Hf. apply succeeds_modify. intros s Hs. destruct (Hf (st_cr s)) as [t ->]. exact Hs.
Qed.

Lemma StatusUpdate_live : succeeds I any client_StatusUpdate.
Proof.
  intros s ([Hns Hnm] & Hsp & Hw).
  destruct (hy_status (st_cr s) (st_world s) Hw Hns Hnm) as (c & w' & Hc & Hcs & Hw').
  pose proof Hc as [E1 E2]%kl_status.
  unfold client_StatusUpdate, get_cr, gets, emit, modify, on_world, mbind, M_bind. simpl. rewrite Hc.
  eexists tt, _. split; [reflexivity|]. split; [|done]. unfold well, named. simpl. by rewrite E1, E2.
Qed.

Lemma updateConditions_live c : succeeds I any (updateConditions c).
Proof.
  unfold updateConditions. apply succeeds_bind_gets. intros s0 _. cbv zeta.
  apply succeeds_bind_any.
  - intros s (Hn & Hsp & Hw). unfold now, on_world. pose proof (hy_now _ Hw) as Hw'.
    destruct (kc_now (st_world s)) as [t w]. by eexists _, _.
  - intros t. apply succeeds_bind_any; [apply status_live; by eexists|intros _; apply StatusUpdate_live].
Qed.

Lemma updateNodes_live labels f :
  (forall l c, exists t, f l c = set_Status t c) -> succeeds I any (updateNodes labels f).
Proof.
  intros Hf. unfold updateNodes, findPodList. apply succeeds_bind_gets. intros s0 _.
  eapply succeeds_bind; [apply (list_live KPod)|]. intros pods _.
  apply succeeds_bind_any; [by apply status_live|intros _; apply StatusUpdate_live].
Qed.

(** A condition that reads and always answers. *)
Definition answers (c : M W bool) : Prop :=
  forall s, I s -> exists b s', c s = (Ok b, s') /\ same_memory s s' /\ Up (st_world s').

Lemma reportReadiness_live reason m1 m2 m3 timeout c :
  succeeds I any timeout -> answers c ->
  succeeds I any (reportReadiness reason m1 m2 m3 timeout c).
Proof.
  intros Ht Hc. unfold reportReadiness. apply succeeds_bind_any; [apply updateConditions_live|intros _].
  apply succeeds_bind_any; [done|intros t]. eapply (succeeds_bind_try _ any any).
  - intros s Hs. destruct (hy_poll (10 * second) (seconds t) c s) as (r & s' & Hp & Hm & Hw & Hr).
    + apply Hs.
    + intros w s1 Hw Hm. destruct (Hc (set_world w s1)) as (b & s2 & ? & ? & ?).
      { by apply (well_memory s). }
      exists b, s2. by split_and!.
    + exists r, s'. split; [exact Hp|]. split; [by eapply well_memory|]. by destruct r.
  - intros u _. apply updateConditions_live.
  - intros e _. apply updateConditions_live.
Qed.

Lemma isDeploymentReady_answers n n' : answers (isDeploymentReady n n').
Proof.
  intros s Hs. unfold isDeploymentReady, findDeployment.
  destruct (get_run KDeployment n' n s Hs) as (r & _ & Hrun & Hr).
  unfold try_, mbind, M_bind. rewrite Hrun. destruct r as [d|e|p]; [| |done].
  - destruct Hr as [[rep Hrep] _]. rewrite Hrep. simpl. eexists _, _. split; [reflexivity|].
    split; [by repeat split|apply Hs].
  - eexists _, _. split; [reflexivity|]. split; [by repeat split|apply Hs].
Qed.

Lemma waitForPod_live n : succeeds I any (waitForPod n).
Proof.
  intros s Hs. destruct (hy_pods waitingInterval (seconds 300) n s) as (s' & Hp & Hm & Hw);
    [apply Hs..|]. exists tt, s'. split; [exact Hp|]. split; [by eapply well_memory|done].
Qed.

Lemma Sleep_live d : succeeds I any (Sleep d).
Proof.
  unfold Sleep. apply succeeds_bind_any; [by apply succeeds_modify|intros _].
  intros s (Hn & Hsp & Hw). unfold on_world. eexists tt, _. split; [reflexivity|].
  split; [|done]. split_and!; [apply Hn..|exact Hsp|by apply hy_sleep].
Qed.

(** *** Owning and applying *)
Lemma applyService_live r svc : r = Ok svc -> succeeds I any (applyService r).
Proof.
  intros Hr. unfold applyService. eapply succeeds_bind_lift; [exact Hr|].
  apply succeeds_bind_gets. intros s0 _. eapply succeeds_bind; [apply owner_live|].
  intros m _. apply createOrUpdateService_live.
Qed.

Lemma applyDeployment_live r d secs :
  r = Ok d -> is_Some (d_Replicas d) -> succeeds I any (applyDeployment r secs).
Proof.
  intros Hr Hd. unfold applyDeployment. eapply succeeds_bind_lift; [exact Hr|].
  apply succeeds_bind_gets. intros s0 _. eapply succeeds_bind; [apply owner_live|].
  intros m _. apply createOrUpdateDeployment_live. by rewrite apply_replicas.
Qed.

(** *** Memory *)
Lemma configurationChanged_live k h l : succeeds I any (configurationChanged k h l).
Proof. intros s Hs. eexists _, s. split; [reflexivity|done]. Qed.

Lemma recordVersion_live o : succeeds I any (recordVersion o).
Proof. destruct o; [by apply succeeds_modify|by apply succeeds_ret]. Qed.

Lemma setHash_live k h : succeeds I any (setHash k h).
Proof. by apply succeeds_modify. Qed.
End operations.
