(* ===== verification/LiveCycle.v ===== *)
(** * A valid resource is reconciled: the cycle

    With the operations of [Live]: the three sub-reconcilers, the status
    checks and the whole cycle return on a healthy cluster, for a resource
    that satisfies [Valid]. *)

From S2P Require Import Prelude GoStrings Types Util Provider Platform Conditions Reconciler Vault.
From S2P Require Import ZooKeeperProvider MonitoringProvider BackupDaemonProvider.
From S2P Require Import ZooKeeperVault Fragments Frames ZooKeeperReconciler MonitoringReconciler.
From S2P Require Import BackupDaemonReconciler Quiescence Controller Live.

(** ** A valid resource *)

Definition deployable (r : Res Deployment) : Prop := exists d, r = Ok d /\ is_Some (d_Replicas d).
Definition claimable (r : Res (option PersistentVolumeClaim)) : Prop :=
  exists o, r = Ok o /\ forall p, o = Some p -> sane KPVC p.

(** The resource [ns]/[nm] with the spec [sp], whatever its status. *)
Definition at_spec (ns nm : string) (sp : ZooKeeperServiceSpec) (cr : ZooKeeperService) : Prop :=
  cr_Namespace cr = ns /\ cr_Name cr = nm /\ cr_Spec cr = sp.

(** Shared storage that is not used, or that a storage class provides. *)
Definition storage_ok `{Quantities} (sp : ZooKeeperServiceSpec) (st : SnapshotStorage) : Prop :=
  ss_PersistentVolumeType st = "" \/
  ss_PersistentVolumeType st = "storage_class" /\ is_Some (ParseQuantity (ss_VolumeSize st)) /\
  exists g, sp_Global sp = Some g /\ is_Some (g_PVCAnnotations g).

(** The global section is there, Vault is off, the sections can be hashed,
    the builders succeed, and the secrets are among [secrets]; a rolling
    update is not asked for. *)
Record Valid `{Quantities} `{Encoders} (ns nm : string) (sp : ZooKeeperServiceSpec)
    (secrets : list string) : Prop := {
  v_global : is_Some (sp_Global sp);
  v_vault : forall v, sp_VaultSecretManagement sp = Some v -> v_Enabled v = false;
  v_specHash : is_Ok (Hash marshalSpec sp) = true;
  v_globalHash : is_Ok (Hash marshalGlobal (sp_Global sp)) = true;
  v_zooKeeper : forall zk, sp_ZooKeeper sp = Some zk ->
    zk_RollingUpdate zk = false /\ zk_SecretName zk ∈ secrets /\
    is_Ok (Hash marshalZooKeeper (Some zk)) = true /\ storage_ok sp (zk_SnapshotStorage zk) /\
    forall cr, at_spec ns nm sp cr ->
      let zrp := NewZooKeeperResourceProvider cr in
      is_Ok (ZK.NewZooKeeperClientServiceForCR zrp) = true /\
      is_Ok (ZK.NewZooKeeperDomainServiceForCR zrp) = true /\
      forall i, i ∈ upto 1 (zk_Replicas zk) ->
        is_Ok (ZK.NewZooKeeperServerServiceForCR zrp i) = true /\
        claimable (ZK.NewZooKeeperPersistentVolumeClaimForCR zrp i) /\
        deployable (ZK.NewServerDeploymentForCR zrp i);
  v_monitoring : forall mon, sp_MonitoringSpec sp = Some mon ->
    mon_SecretName mon ∈ secrets /\ is_Ok (Hash marshalMonitoring (Some mon)) = true /\
    forall cr, at_spec ns nm sp cr ->
      is_Ok (Mon.NewMonitoringClientService (NewMonitoringResourceProvider cr)) = true /\
      deployable (Mon.NewMonitoringDeployment (NewMonitoringResourceProvider cr));
  v_backup : forall bd, sp_BackupDaemon sp = Some bd ->
    bd_SecretName bd ∈ secrets /\ is_Ok (Hash marshalBackupDaemon (Some bd)) = true /\
    storage_ok sp (bd_BackupStorage bd) /\
    forall cr, at_spec ns nm sp cr ->
      is_Ok (Backup.NewBackupDaemonClientService (NewBackupDaemonResourceProvider cr)) = true /\
      forall aliases, deployable (Backup.NewBackupDaemonDeployment
                                    (NewBackupDaemonResourceProvider cr) aliases) }.

Lemma is_Ok_Ok {A} (r : Res A) : is_Ok r = true -> exists a, r = Ok a.
Proof. destruct r; [by eexists|done..]. Qed.

Section live.
Context {W : Type} `{!KubeClient W} `{!KubeLaws W} `{!WaitLib W} `{!Quantities}.
Context `{!VaultApi W} `{!Passwords W} `{!Encoders}.
Context (ns nm : string) (sp : ZooKeeperServiceSpec) (secrets : list string) (Up : W -> Prop).
Context `{!Healthy W ns nm sp secrets Up} (HV : Valid ns nm sp secrets).
#[local] Abbreviation I := (well ns nm sp Up).

(** Apply a lemma of [Live] at the cluster at hand. *)
#[local] Tactic Notation "live" uconstr(l) :=
  eapply (l ns nm sp secrets Up);
  try lazymatch goal with
      | |- Healthy _ _ _ _ _ _ => typeclasses eauto
      | |- KubeLaws _ => typeclasses eauto
      end.

Lemma well_at_spec s : I s -> at_spec ns nm sp (st_cr s).
Proof. by intros ([? ?] & ? & _). Qed.

Lemma vault_off cr : cr_Spec cr = sp -> IsVaultSecretManagementEnabled cr = false.
Proof.
  intros Hsp. unfold IsVaultSecretManagementEnabled. rewrite Hsp.
  destruct (sp_VaultSecretManagement sp) eqn:E; [by eapply v_vault|done].
Qed.

Lemma global_ok cr : cr_Spec cr = sp -> exists g, sp_Global sp = Some g /\ globalOf cr = Ok g.
Proof.
  intros Hsp. destruct (v_global _ _ _ _ HV) as [g Hg]. exists g. split; [done|].
  unfold globalOf. by rewrite Hsp, Hg.
Qed.

Lemma storageClaim_live st :
  storage_ok sp st -> ss_PersistentVolumeType st <> "" ->
  succeeds I (fun o => forall p, o = Some p -> sane KPVC p) (processSnapshotsPersistentVolumeClaim st).
Proof.
  intros [|(Ht & [q Hq] & g & Hg & Hann)] Hne; [done|]. unfold processSnapshotsPersistentVolumeClaim.
  apply succeeds_bind_gets. intros s Hs. cbv zeta. pose proof Hs as (_ & Hsp & _).
  eapply succeeds_bind_lift; [unfold globalOf; by rewrite Hsp, Hg|]. rewrite Ht.
  rewrite !bool_decide_eq_false_2 by done. rewrite (bool_decide_eq_true_2 (_ = "storage_class")) by done.
  set (name := if bool_decide (ss_PersistentVolumeClaimName st = "") then _ else _).
  destruct (NewPersistentVolumeClaim_Ok name (cr_Namespace (st_cr s))
    (GetZooKeeperLabels (cr_Name (st_cr s)) (g_DefaultLabels g)) (g_PVCAnnotations g) true "" None
    (ss_StorageClass st) (ss_VolumeSize st) q Hq) as (p & Hp & _).
  eapply succeeds_lift; [rewrite Hp; reflexivity|]. intros ? [= <-].
  apply NewPersistentVolumeClaim_meta in Hp as Hm. unfold sane. by rewrite Hm.
Qed.

Lemma provider_live {A} (New : ZooKeeperService -> A) :
  succeeds I (fun p => exists cr, at_spec ns nm sp cr /\ p = New cr) (cr ← get_cr; mret (New cr)).
Proof.
  apply succeeds_bind_gets. intros s Hs. apply succeeds_ret. exists (st_cr s).
  split; [by apply well_at_spec|done].
Qed.

(** *** The servers *)
Section servers.
Context (zk : ZooKeeper) (Hzk : sp_ZooKeeper sp = Some zk).

(** Without a rolling update asked for, switching it off changes nothing. *)
Lemma rolling_off (s : St W) :
  cr_Spec (st_cr s) = sp -> zk_RollingUpdate zk = false ->
  set_cr (set_RollingUpdate false (st_cr s)) s = s.
Proof.
  intros Hsp Hr. destruct s as [w c h v g va t]. unfold set_cr, set_RollingUpdate. simpl in *. f_equal.
  destruct c as [a k m spec st]. simpl in *. subst spec. destruct sp as [gl z mo bd va' it].
  simpl in *. subst z. unfold set_Spec. simpl. f_equal. f_equal. simpl. f_equal.
  destruct zk. simpl in *. by subst.
Qed.

Lemma deployServer_live sec i :
  i ∈ upto 1 (zk_Replicas zk) -> succeeds I any (deployServer sec i).
Proof.
  intros Hi. destruct (v_zooKeeper _ _ _ _ HV zk Hzk) as (_ & _ & _ & _ & Hb).
  unfold deployServer. eapply succeeds_bind; [apply (provider_live NewZooKeeperResourceProvider)|].
  intros zrp (cr & Hcr & ->). destruct (Hb cr Hcr) as (_ & _ & Hsrv).
  destruct (Hsrv i Hi) as ((svc & Hsvc)%is_Ok_Ok & (o & Ho & Hsane) & _).
  apply succeeds_bind_any; [by live applyService_live|intros _].
  eapply succeeds_bind_lift; [exact Ho|]. apply succeeds_bind_any.
  { destruct o as [p|]; [live createPersistentVolumeClaim_live; by apply Hsane|by apply succeeds_ret]. }
  intros _. apply succeeds_bind_gets. intros s Hs. pose proof Hs as (_ & Hsp & _).
  apply succeeds_bind_any; [live createServiceAccount_live|intros _]. rewrite vault_off by done.
  apply succeeds_bind_any; [by apply succeeds_ret|intros sec'].
  eapply succeeds_bind; [apply (provider_live NewZooKeeperResourceProvider)|].
  intros zrp (cr' & Hcr' & ->). destruct (Hb cr' Hcr') as (_ & _ & Hsrv').
  destruct (Hsrv' i Hi) as (_ & _ & d & Hd & Hrep).
  apply succeeds_bind_any; [by live applyDeployment_live|intros _].
  apply succeeds_bind_any; [live waitForPod_live|intros _; by apply succeeds_ret].
Qed.

Lemma reconcileServer_live sec i :
  i ∈ upto 1 (zk_Replicas zk) -> succeeds I any (reconcileServer sec i).
Proof.
  intros Hi. destruct (v_zooKeeper _ _ _ _ HV zk Hzk) as (Hroll & _).
  unfold reconcileServer. apply succeeds_bind_any; [by apply deployServer_live|intros sec'].
  apply succeeds_bind_gets. intros s (_ & Hsp & _).
  eapply succeeds_bind_lift; [unfold zooKeeperOf; by rewrite Hsp, Hzk|].
  apply succeeds_bind_any; [|intros _; by apply succeeds_ret].
  apply succeeds_when. congruence.
Qed.

Lemma reconcileServers_live sec ids :
  (forall i, i ∈ ids -> i ∈ upto 1 (zk_Replicas zk)) -> succeeds I any (reconcileServers sec ids).
Proof.
  revert sec. induction ids as [|i ids IH]; intros sec Hids; simpl; [by apply succeeds_ret|].
  apply succeeds_bind_any; [apply reconcileServer_live, Hids; constructor|].
  intros sec'. apply IH. intros j Hj. apply Hids. by constructor.
Qed.

Lemma createSnapshotsClaim_live : succeeds I any (createSnapshotsClaim zk).
Proof.
  destruct (v_zooKeeper _ _ _ _ HV zk Hzk) as (_ & _ & _ & Hst & _).
  unfold createSnapshotsClaim. cbv zeta. apply succeeds_when.
  intros [Hne%negb_true_iff%bool_decide_eq_false _]%andb_true_iff.
  eapply succeeds_bind; [by apply storageClaim_live|]. intros [p|] Hp; [|by apply succeeds_ret].
  live createPersistentVolumeClaim_live. by apply Hp.
Qed.

(** Counting the active servers, and taking down the excess. *)
Lemma countActive_ok l : Forall (sane KDeployment) l -> exists c, countActive l = Ok c.
Proof.
  induction 1 as [|d l [r Hr] _ [c IH]]; simpl; [by eexists|]. rewrite Hr, IH. by eexists.
Qed.

Lemma scaleDown_live ids s :
  I s -> (forall i, i ∈ ids -> present ns (st_world s) (serverName nm i)) ->
  exists s', for_each ids (fun i => scaleDeployment (serverName nm i) 0 ns) s = (Ok tt, s') /\ I s'.
Proof.
  revert s. induction ids as [|i ids IH]; intros s Hs Hex; simpl; [by exists s|].
  destruct (Hex i) as [d Hd]; [constructor|].
  destruct (scaleDeployment_live ns nm sp secrets Up (serverName nm i) 0 d s Hs Hd) as (s1 & Hrun & Hs1 & Hp).
  rewrite (run_bind _ _ _ _ _ Hrun). apply IH; [done|]. intros j Hj. apply Hp, Hex. by constructor.
Qed.

Lemma reconcileEnsemble_live sec :
  0 < zk_Replicas zk -> succeeds I any (reconcileEnsemble zk sec).
Proof.
  intros Hpos.
  destruct (v_zooKeeper _ _ _ _ HV zk Hzk) as (Hroll & _ & _ & _ & Hb).
  unfold reconcileEnsemble. apply succeeds_bind_any; [apply createSnapshotsClaim_live|intros _].
  eapply succeeds_bind; [apply (provider_live NewZooKeeperResourceProvider)|].
  intros zrp (cr & Hcr & ->). destruct (Hb cr Hcr) as ((c & Hc)%is_Ok_Ok & (d & Hd)%is_Ok_Ok & _).
  apply succeeds_bind_any; [by live applyService_live|intros _].
  apply succeeds_bind_any; [by live applyService_live|intros _].
  intros s Hs. pose proof Hs as ([Hns Hnm] & Hsp & Hw).
  unfold getCurrentDeploymentsCount, findZookeperDeployments, findDeploymentList.
  destruct (list_run ns nm sp secrets Up KDeployment ns (GetZooKeeperSelectorLabels nm) s Hs)
    as (l & s1 & Hl & Hrun & Hs1 & Hw1 & Hsane). destruct (countActive_ok l Hsane) as [n Hn].
  rewrite (run_bind _ _ s n s1).
  2: { rewrite (run_bind _ _ s l s1); [unfold lift; by rewrite Hn|].
       rewrite (run_bind _ _ s (st_cr s) s), Hns, Hnm by done. exact Hrun. }
  cbv zeta. rewrite (run_bind _ _ s1 tt s1).
  2: { unfold when. case_match; [|done]. unfold modify_cr, modify. f_equal.
       apply (rolling_off s1); [apply Hs1|done]. }
  destruct (scaleDownExcess n (zk_Replicas zk) s1) as [r s2] eqn:Hscale.
  assert (r = Ok tt /\ I s2) as [-> Hs2].
  { unfold scaleDownExcess, when in Hscale. case_bool_decide; [|by injection Hscale as <- <-].
    rewrite (run_bind _ _ s1 (st_cr s1) s1) in Hscale by done.
    pose proof Hs1 as ([E1 E2] & _). rewrite E1, E2 in Hscale.
    destruct (scaleDown_live (upto (zk_Replicas zk + 1) n) s1 Hs1) as (s3 & Hs3 & ?).
    - intros i Hi. apply elem_of_seqZ in Hi. rewrite Hw1. eapply hy_servers; [done..|]. lia.
    - rewrite Hs3 in Hscale. by injection Hscale as <- <-. }
  rewrite (run_bind _ _ _ _ _ Hscale).
  by apply (reconcileServers_live sec (upto 1 (zk_Replicas zk))).
Qed.

Lemma zooKeeperReconcile_live : succeeds I any zooKeeperReconcile.
Proof.
  destruct (v_zooKeeper _ _ _ _ HV zk Hzk) as (_ & Hsec & (h & Hh)%is_Ok_Ok & _).
  unfold zooKeeperReconcile. apply succeeds_bind_gets. intros s (_ & Hsp & _). rewrite Hsp, Hzk.
  eapply succeeds_bind_lift; [unfold zooKeeperOf; by rewrite Hsp, Hzk|].
  apply succeeds_bind_any; [by live watchOwnSecret_live|intros sec].
  eapply succeeds_bind_lift; [exact Hh|].
  apply succeeds_bind_any; [apply configurationChanged_live|intros changed].
  apply succeeds_bind_any.
  { destruct changed; [|by apply succeeds_ret]. unfold reconcileZooKeeper.
    apply succeeds_bind_any; [case_bool_decide; [by apply reconcileEnsemble_live|by apply succeeds_ret]|].
    intros sec'. apply succeeds_bind_any; [|intros _; by apply succeeds_ret].
    unfold updateZooKeeperStatus. apply succeeds_bind_gets. intros s0 _.
    live updateNodes_live. by eexists. }
  intros sec'. apply succeeds_bind_gets. intros s0 (_ & Hsp0 & _).
  eapply succeeds_bind_lift; [unfold zooKeeperOf; by rewrite Hsp0, Hzk|].
  apply succeeds_bind_any; [|intros _].
  { apply succeeds_for_each. intros i _. live refresh_live. }
  apply succeeds_bind_any; [apply recordVersion_live|intros _; apply setHash_live].
Qed.

Lemma serversReady_answers ids : answers ns nm sp Up (serversReady ids).
Proof.
  induction ids as [|i ids IH]; intros s Hs; simpl.
  { exists true, s. split_and!; [done|reflexivity|apply Hs]. }
  rewrite (run_bind _ _ s (st_cr s) s) by done.
  destruct (isDeploymentReady_answers ns nm sp secrets Up (serverName (cr_Name (st_cr s)) i)
    (cr_Namespace (st_cr s)) s Hs) as (b & s1 & Hb & Hm & Hw).
  rewrite (run_bind _ _ _ _ _ Hb). destruct b; [|by exists false, s1].
  destruct (IH s1) as (b & s2 & ? & ? & ?); [by apply (well_memory ns nm sp Up s)|].
  exists b, s2. split_and!; [done|by etrans|done].
Qed.
End servers.

Lemma podsReadyTimeout_live : succeeds I any podsReadyTimeout.
Proof.
  unfold podsReadyTimeout. apply succeeds_bind_gets. intros s (_ & Hsp & _).
  destruct (global_ok (st_cr s) Hsp) as (g & _ & Hg).
  eapply succeeds_bind_lift; [exact Hg|]. by apply succeeds_ret.
Qed.

Lemma deploymentReady_answers n : answers ns nm sp Up (deploymentReady n).
Proof.
  intros s Hs. unfold deploymentReady. rewrite (run_bind _ _ s (st_cr s) s) by done.
  by apply (isDeploymentReady_answers ns nm sp secrets Up).
Qed.

Lemma zooKeeperStatus_live zk :
  sp_ZooKeeper sp = Some zk -> succeeds I any zooKeeperStatus.
Proof.
  intros Hzk. live reportReadiness_live; [apply podsReadyTimeout_live|]. intros s Hs.
  rewrite (run_bind _ _ s (st_cr s) s) by done. pose proof Hs as (_ & Hsp & _).
  rewrite (run_bind _ _ s zk s) by (unfold zooKeeperOf, lift; by rewrite Hsp, Hzk).
  by apply serversReady_answers.
Qed.

(** *** The monitoring component *)
Lemma watchBackupDaemonSecret_live : succeeds I any watchBackupDaemonSecret.
Proof.
  unfold watchBackupDaemonSecret. apply succeeds_bind_gets. intros s _.
  repeat case_match; [by apply succeeds_ret|live watchOptionalSecret_live|by apply succeeds_ret].
Qed.

Lemma monitoringReconcile_live mon :
  sp_MonitoringSpec sp = Some mon -> succeeds I any monitoringReconcile.
Proof.
  intros Hmon. destruct (v_monitoring _ _ _ _ HV mon Hmon) as (Hsec & (h & Hh)%is_Ok_Ok & Hb).
  unfold monitoringReconcile. apply succeeds_bind_gets. intros s (_ & Hsp & _). rewrite Hsp, Hmon.
  eapply succeeds_bind_lift; [unfold monitoringOf; by rewrite Hsp, Hmon|].
  apply succeeds_bind_any; [by live watchOwnSecret_live|intros sec].
  apply succeeds_bind_any; [apply watchBackupDaemonSecret_live|intros bsec].
  eapply succeeds_bind_lift; [exact Hh|].
  apply succeeds_bind_any; [apply configurationChanged_live|intros changed].
  apply succeeds_bind_any.
  { destruct changed; [|by apply succeeds_ret]. unfold reconcileMonitoring.
    eapply succeeds_bind; [apply (provider_live NewMonitoringResourceProvider)|].
    intros mrp (cr & Hcr & ->). destruct (Hb cr Hcr) as [(svc & Hsvc)%is_Ok_Ok _].
    apply succeeds_bind_any; [by live applyService_live|intros _].
    apply succeeds_bind_gets. intros s0 (_ & Hsp0 & _).
    apply succeeds_bind_any; [live createServiceAccount_live|intros _]. rewrite vault_off by done.
    apply succeeds_bind_any; [by apply succeeds_ret|intros sec'].
    eapply succeeds_bind; [apply (provider_live NewMonitoringResourceProvider)|].
    intros mrp (cr' & Hcr' & ->). destruct (Hb cr' Hcr') as [_ (d & Hd & Hrep)].
    apply succeeds_bind_any; [by live applyDeployment_live|intros _].
    apply succeeds_bind_any; [|intros _; by apply succeeds_ret]. unfold updateMonitoringStatus.
    eapply succeeds_bind; [apply (provider_live NewMonitoringResourceProvider)|].
    intros mrp _. live updateNodes_live. by eexists. }
  intros sec'. apply succeeds_bind_gets. intros s0 _.
  eapply succeeds_bind; [apply (provider_live NewMonitoringResourceProvider)|]. intros mrp _.
  apply succeeds_bind_any; [live refresh_live|intros _].
  do 2 (apply succeeds_bind_any; [apply recordVersion_live|intros _]). apply setHash_live.
Qed.

Lemma monitoringStatus_live : succeeds I any monitoringStatus.
Proof.
  unfold monitoringStatus.
  eapply succeeds_bind; [apply (provider_live NewMonitoringResourceProvider)|]. intros mrp _.
  live reportReadiness_live; [apply podsReadyTimeout_live|apply deploymentReady_answers].
Qed.

(** *** The backup daemon *)
Lemma createBackupClaim_live bd :
  storage_ok sp (bd_BackupStorage bd) -> succeeds I any (createBackupClaim bd).
Proof.
  intros Hst. unfold createBackupClaim. apply succeeds_when.
  intros Hne%negb_true_iff%bool_decide_eq_false. apply succeeds_bind_gets. intros s _. cbv zeta.
  eapply succeeds_bind; [apply storageClaim_live; by case_match|].
  intros [p|] Hp; [|by apply succeeds_ret]. live createPersistentVolumeClaim_live. by apply Hp.
Qed.

Lemma findS3AliasesSecret_live : succeeds I any findS3AliasesSecret.
Proof.
  unfold findS3AliasesSecret, findSecret. apply succeeds_bind_gets. intros s _.
  eapply succeeds_bind_try; [eapply (get_settles ns nm sp secrets Up KSecret)|..];
    intros; by apply succeeds_ret.
Qed.

Lemma watchS3Secret_live bd : succeeds I any (watchS3Secret bd).
Proof.
  unfold watchS3Secret. repeat case_match; [live watchOptionalSecret_live|by apply succeeds_ret..].
Qed.

Lemma backupDaemonReconcile_live bd :
  sp_BackupDaemon sp = Some bd -> succeeds I any backupDaemonReconcile.
Proof.
  intros Hbd. destruct (v_backup _ _ _ _ HV bd Hbd) as (Hsec & (h & Hh)%is_Ok_Ok & Hst & Hb).
  unfold backupDaemonReconcile. apply succeeds_bind_gets. intros s (_ & Hsp & _). rewrite Hsp, Hbd.
  eapply succeeds_bind_lift; [unfold backupDaemonOf; by rewrite Hsp, Hbd|].
  apply succeeds_bind_any; [by live watchOwnSecret_live|intros sec].
  apply succeeds_bind_any; [apply watchS3Secret_live|intros s3].
  apply succeeds_bind_any; [apply findS3AliasesSecret_live|intros al].
  eapply succeeds_bind_lift; [exact Hh|].
  apply succeeds_bind_any; [apply configurationChanged_live|intros changed].
  apply succeeds_bind_any.
  { destruct changed; [|by apply succeeds_ret]. unfold reconcileBackupDaemon.
    apply succeeds_bind_any; [by apply createBackupClaim_live|intros _].
    eapply succeeds_bind; [apply (provider_live NewBackupDaemonResourceProvider)|].
    intros b (cr & Hcr & ->). destruct (Hb cr Hcr) as [(svc & Hsvc)%is_Ok_Ok _].
    apply succeeds_bind_any; [by live applyService_live|intros _].
    apply succeeds_bind_gets. intros s0 (_ & Hsp0 & _).
    apply succeeds_bind_any; [live createServiceAccount_live|intros _]. rewrite vault_off by done.
    apply succeeds_bind_any; [by apply succeeds_ret|intros sec'].
    eapply succeeds_bind; [apply (provider_live NewBackupDaemonResourceProvider)|].
    intros b (cr' & Hcr' & ->). destruct (Hb cr' Hcr') as [_ Hd].
    destruct (Hd (snd al)) as (d & Hdep & Hrep).
    apply succeeds_bind_any; [by live applyDeployment_live|intros _].
    apply succeeds_bind_any; [|intros _; by apply succeeds_ret]. unfold updateBackupDaemonStatus.
    eapply succeeds_bind; [apply (provider_live NewBackupDaemonResourceProvider)|].
    intros b _. live updateNodes_live. by eexists. }
  intros sec'. apply succeeds_bind_gets. intros s0 _.
  eapply succeeds_bind; [apply (provider_live NewBackupDaemonResourceProvider)|]. intros b _.
  apply succeeds_bind_any; [live refresh_live|intros _].
  do 3 (apply succeeds_bind_any; [apply recordVersion_live|intros _]). apply setHash_live.
Qed.

Lemma backupDaemonStatus_live : succeeds I any backupDaemonStatus.
Proof.
  unfold backupDaemonStatus.
  eapply succeeds_bind; [apply (provider_live NewBackupDaemonResourceProvider)|]. intros b _.
  live reportReadiness_live; [apply podsReadyTimeout_live|apply deploymentReady_answers].
Qed.

(** *** The cycle *)
Lemma integrationTestsStatus_live it :
  sp_IntegrationTests sp = Some it -> succeeds I any integrationTestsStatus.
Proof.
  intros Hit. unfold integrationTestsStatus. apply succeeds_bind_gets. intros s (_ & Hsp & _).
  eapply succeeds_bind_lift; [unfold integrationTestsOf; by rewrite Hsp, Hit|].
  case_match; [|by apply succeeds_ret]. live reportReadiness_live.
  - apply succeeds_bind_gets. intros s0 (_ & Hsp0 & _).
    eapply succeeds_bind_lift; [unfold integrationTestsOf; by rewrite Hsp0, Hit|].
    by apply succeeds_ret.
  - intros s0 Hs0. rewrite (run_bind _ _ s0 (st_cr s0) s0) by done. pose proof Hs0 as (_ & Hsp0 & _).
    rewrite (run_bind _ _ s0 it s0) by (unfold integrationTestsOf, lift; by rewrite Hsp0, Hit).
    by apply (isDeploymentReady_answers ns nm sp secrets Up).
Qed.

Lemma orWriteFailed_live {A} (m : M W A) msg :
  succeeds I any m -> succeeds I any (orWriteFailed m msg).
Proof.
  intros Hm. unfold orWriteFailed. eapply (succeeds_bind_try _ any (fun _ => False)); [|intros; by apply succeeds_ret|done].
  by apply succeeds_settles.
Qed.

Lemma buildReconcilers_live cr r :
  cr_Spec cr = sp -> r ∈ buildReconcilers cr ->
  succeeds I any (rs_Reconcile r) /\ succeeds I any (rs_Status r).
Proof.
  intros Hsp. unfold buildReconcilers. rewrite Hsp, !elem_of_app.
  intros [Hr|[Hr|[Hr|Hr]]]; case_bool_decide as Hs; case_elem Hr; destruct Hs as [x Hx]; simpl.
  - split; [by eapply zooKeeperReconcile_live|by eapply zooKeeperStatus_live].
  - split; [by eapply monitoringReconcile_live|apply monitoringStatus_live].
  - split; [by eapply backupDaemonReconcile_live|apply backupDaemonStatus_live].
  - split; [by apply succeeds_ret|by eapply integrationTestsStatus_live].
Qed.

Lemma updateStatus_live : succeeds I any updateStatus.
Proof.
  unfold updateStatus. apply succeeds_bind_gets. intros s (_ & Hsp & _).
  destruct (global_ok (st_cr s) Hsp) as (g & _ & Hg). eapply succeeds_bind_lift; [exact Hg|].
  case_match; [by apply succeeds_ret|].
  apply succeeds_bind_any; [apply status_live; by eexists|intros _; live StatusUpdate_live].
Qed.

Lemma runCycle_live : succeeds I any runCycle.
Proof.
  destruct (is_Ok_Ok _ (v_specHash _ _ _ _ HV)) as [h Hh].
  destruct (is_Ok_Ok _ (v_globalHash _ _ _ _ HV)) as [g Hg].
  unfold runCycle. apply succeeds_bind_gets. intros s (_ & Hsp & _). rewrite Hsp.
  eapply succeeds_bind_lift; [exact Hh|]. apply succeeds_bind_any.
  { unfold hashGlobalSection. rewrite Hsp, Hg. by apply succeeds_modify. }
  intros _. apply succeeds_bind_gets. intros s0 _. cbv zeta. apply succeeds_bind_any.
  { unfold startCycle. apply succeeds_when. intros _.
    apply succeeds_bind_any; [apply status_live; by eexists|intros _; live updateConditions_live]. }
  intros _. apply succeeds_bind_any.
  { unfold initVault. apply succeeds_bind_gets. intros s1 (_ & Hsp1 & _).
    rewrite vault_off by done. by apply succeeds_ret. }
  intros _. apply succeeds_bind_gets. intros s1 (_ & Hsp1 & _). apply succeeds_bind_any.
  { unfold runReconcilers. apply succeeds_for_each. intros r Hr. apply orWriteFailed_live.
    by eapply buildReconcilers_live. }
  intros _. apply succeeds_bind_any; [apply updateStatus_live|intros _].
  apply succeeds_bind_any; [|intros _; by apply succeeds_ret].
  unfold finishCycle. apply succeeds_when. intros _. apply succeeds_bind_gets. intros s2 _.
  apply succeeds_bind_any.
  - apply succeeds_when. intros _. unfold checkReadiness.
    apply succeeds_bind_any; [live updateConditions_live|intros _].
    apply succeeds_bind_any; [live Sleep_live|intros _].
    apply succeeds_for_each. intros r Hr. apply orWriteFailed_live. by eapply buildReconcilers_live.
  - intros _. unfold reportOutcome. apply succeeds_bind_gets. intros s3 _.
    case_match; live updateConditions_live.
Qed.

End live.

(** ** Properties *)
Section progress.
Context {W : Type} `{!KubeClient W} `{!KubeLaws W} `{!WaitLib W} `{!Quantities}.
Context `{!VaultApi W} `{!Passwords W} `{!Encoders}.
Context (ns nm : string) (sp : ZooKeeperServiceSpec) (secrets : list string) (Up : W -> Prop).
Context `{!Healthy W ns nm sp secrets Up}.

End progress.
