(* ===== verification/Converge.v ===== *)
(** * A successful cycle is not repeated

    The controller is level-triggered: it may be called any number of times
    for the same resource.  This file proves that when nobody edits the
    resource or its secrets, the cycle after a successful one leaves the
    cluster alone.  [Undisturbed] says that nobody edits them; [calm] is the
    relation, an instance of the contract of [Frames], that shows what one
    sub-reconciler leaves to the others; [settled] is what a sub-reconciler
    that succeeded has recorded. *)

From S2P Require Import Prelude GoStrings Types Util Provider Platform Conditions Reconciler Vault.
From S2P Require Import ZooKeeperProvider MonitoringProvider BackupDaemonProvider.
From S2P Require Import ZooKeeperVault Fragments Frames ZooKeeperReconciler MonitoringReconciler.
From S2P Require Import BackupDaemonReconciler Quiescence Controller.

(** Nobody edits the resource [ns]/[nm], whose spec is [sp]: the API server
    returns it so whenever it is asked, also when it stores the status. *)
Class Stored (W : Type) `{KubeClient W} (ns nm : string) (sp : ZooKeeperServiceSpec) : Prop := {
  sd_spec : forall w c w', kc_get KCR ns nm w = (Ok c, w') -> cr_Spec c = sp;
  sd_exists : forall w e w', kc_get KCR ns nm w = (Err e, w') -> IsNotFound e = false;
  sd_status : forall cr w c w', cr_Namespace cr = ns -> cr_Name cr = nm ->
    kc_status_update cr w = (Ok c, w') -> cr_Spec c = sp }.

(** Nobody edits the secrets of its namespace either, whose versions are [ver]
    ([None]: no such secret): the API server returns them so whenever it is
    asked, also when it stores a secret that was read before. *)
Class Undisturbed (W : Type) `{KubeClient W} (ns nm : string) (sp : ZooKeeperServiceSpec)
    (ver : string -> option string) : Prop := {
  ud_stored :: Stored W ns nm sp;
  ud_read : forall n w (o : Obj KSecret) w', kc_get KSecret ns n w = (Ok o, w') ->
    ver n = Some (m_ResourceVersion (sec_Meta o));
  ud_missing : forall n w e w', kc_get KSecret ns n w = (Err e, w') -> ver n = None;
  ud_written : forall (o : Obj KSecret) w (o' : Obj KSecret) w', m_Namespace (sec_Meta o) = ns ->
    kc_update KSecret o w = (Ok o', w') ->
    ver (m_Name (sec_Meta o')) = Some (m_ResourceVersion (sec_Meta o'));
  ud_deleted : forall (o : Obj KSecret) w e w', m_Namespace (sec_Meta o) = ns ->
    kc_update KSecret o w = (Err e, w') -> IsNotFound e = true -> ver (m_Name (sec_Meta o)) = None;
  ud_owner : forall cr m e, kc_setControllerReference cr m = Err e -> IsNotFound e = false }.

(** The sections that the resource in memory shares with the stored spec; a
    rolling update in progress may have changed the flag of the servers'
    section. *)
Definition same_sections (sp : ZooKeeperServiceSpec) (cr : ZooKeeperService) : Prop :=
  sp_MonitoringSpec (cr_Spec cr) = sp_MonitoringSpec sp /\
  sp_BackupDaemon (cr_Spec cr) = sp_BackupDaemon sp.

(** The recorded version of the secret named [n] is the current one. *)
Definition known (ver : string -> option string) (versions : gmap string string) (n : string)
  : Prop := n <> "" -> forall v, ver n = Some v -> versions !! n = Some v.

(** What a sub-reconciler other than [k]'s finds as it was. *)
Definition calm {W} ns nm sp ver (k : string) (s s' : St W) : Prop :=
  (forall j, j <> k -> st_hashes s' !! j = st_hashes s !! j) /\
  st_globalHash s' = st_globalHash s /\
  (forall n, known ver (st_versions s) n -> known ver (st_versions s') n) /\
  (named ns nm s -> same_sections sp (st_cr s) ->
   named ns nm s' /\ same_sections sp (st_cr s')).

(** A section whose hash and whose secrets' versions are recorded. *)
Definition settled {W} ver (k : string) (h : Res string) (secrets : list string) (s : St W)
  : Prop :=
  (exists v, h = Ok v /\ st_hashes s !! k = Some v) /\ Forall (known ver (st_versions s)) secrets.

(** The secret that stands for the name [n]: the stored one, or none. *)
Definition watched (ver : string -> option string) (n : string) (sec : Secret) : Prop :=
  m_Name (sec_Meta sec) = n /\ ver n = Some (m_ResourceVersion (sec_Meta sec)) \/
  m_Name (sec_Meta sec) = "" /\ ver n = None.
Definition opt_watched ver (n : string) (o : option Secret) : Prop :=
  match o with Some sec => watched ver n sec | None => ver n = None end.

(** The secret [o] is what is stored under the names [l]. *)
Definition covers ver (l : list string) (o : option Secret) : Prop :=
  Forall (fun n => n = "" \/ opt_watched ver n o) l /\
  (o = None \/ exists n, n ∈ l /\ opt_watched ver n o).

(** The versions after [recordVersion o]. *)
Definition record (o : option Secret) (versions : gmap string string) : gmap string string :=
  match o with
  | Some sec => <[m_Name (sec_Meta sec) := m_ResourceVersion (sec_Meta sec)]> versions
  | None => versions
  end.

(** The names of the secrets each section watches. *)
Definition zooKeeperSecrets (zk : ZooKeeper) : list string := [zk_SecretName zk].
Definition backupSecret (o : option BackupDaemon) : list string :=
  match o with Some bd => [bd_SecretName bd] | None => [] end.
Definition monitoringSecrets (mon : Monitoring) (sp : ZooKeeperServiceSpec) : list string :=
  mon_SecretName mon :: backupSecret (sp_BackupDaemon sp).
Definition s3Secrets (bd : BackupDaemon) : list string :=
  match bd_S3 bd with
  | Some s3 => if s3_Enabled s3 then [s3_SecretName s3] else []
  | None => []
  end.
Definition backupSecrets (nm : string) (bd : BackupDaemon) : list string :=
  bd_SecretName bd :: s3Secrets bd ++ [nm +:+ "-backup-daemon-s3-aliases"].

(** ** Lemmas: the records *)
Section converge.
Context {W : Type} `{!KubeClient W} `{!KubeLaws W} `{!WaitLib W} `{!WaitLaws W}.
Context `{!Quantities} `{!VaultApi W} `{!Passwords W} `{!Encoders}.
Context (ns nm : string) (sp : ZooKeeperServiceSpec) (ver : string -> option string).
Context `{!Undisturbed W ns nm sp ver}.
#[local] Abbreviation calm := (calm (W:=W) ns nm sp ver).
#[local] Abbreviation known := (known ver).
#[local] Abbreviation settled := (settled (W:=W) ver).

Lemma server_version sec :
  server_secret W ns sec -> m_Name (sec_Meta sec) <> "" ->
  ver (m_Name (sec_Meta sec)) = Some (m_ResourceVersion (sec_Meta sec)).
Proof.
  intros [?|[Hns (w & w' & [(o & Ho)|(n' & n & Ho)])]] Hn; [done| |].
  - eapply ud_written; [|done]. apply kl_update in Ho as [Ho _]. simpl in Ho. congruence.
  - pose proof Ho as [E1 E2]%kl_get. simpl in E1, E2. rewrite E2.
    assert (n' = ns) as -> by congruence. by eapply ud_read.
Qed.

Lemma known_insert sec versions n :
  server_secret W ns sec -> known versions n ->
  known (<[m_Name (sec_Meta sec) := m_ResourceVersion (sec_Meta sec)]> versions) n.
Proof.
  intros Hsec Hk Hn v Hv. destruct (decide (m_Name (sec_Meta sec) = n)) as [He|Hne].
  - rewrite He, lookup_insert_eq, <- Hv, <- He. symmetry. apply server_version; congruence.
  - rewrite lookup_insert_ne by done. by apply Hk.
Qed.

#[global] Instance calm_preorder k : PreOrder (calm k).
Proof.
  split; [intros s; split_and!; auto|].
  intros s1 s2 s3 (H1 & G1 & K1 & N1) (H2 & G2 & K2 & N2). split_and!; [|congruence|auto..].
  - intros j Hj. by rewrite H2, H1.
  - intros Hn Hs. destruct (N1 Hn Hs). auto.
Qed.

#[global] Instance calm_frame k : ReconcileFrame ns nm (fun _ => True) (calm k).
Proof.
  assert (forall s s' : St W, st_hashes s' = st_hashes s -> st_globalHash s' = st_globalHash s ->
    st_versions s' = st_versions s -> named ns nm s' = named ns nm s ->
    same_sections sp (st_cr s') = same_sections sp (st_cr s) -> calm k s s') as Hsame.
  { intros s s' Hh Hg Hv Hn Hc. split_and!; [by intros; rewrite Hh|done| |by rewrite Hn, Hc].
    intros n Hk Hne v Hver. rewrite Hv. by apply Hk. }
  split; [split|..]; try apply _; try (intros; split; by apply Hsame);
    try (intros; by apply Hsame).
  - intros s sec Hsec. split_and!; try done. intros n Hk. by apply known_insert.
  - intros s c w w' Hc. split_and!; try done. intros [Hns Hnm] _.
    pose proof Hc as [E1 E2]%kl_status. unfold named, same_sections. simpl.
    rewrite E1, E2. apply (sd_status (st_cr s)) in Hc as ->; by repeat split.
Qed.

Lemma calm_records k : records (calm k) k.
Proof.
  intros s h. split_and!; try done. intros j Hj. simpl. by rewrite lookup_insert_ne.
Qed.

Lemma settled_calm k j h l s s' : j <> k -> calm j s s' -> settled k h l s -> settled k h l s'.
Proof.
  intros Hne (Hh & _ & Hk & _) [(v & -> & Hv) Hl]. split.
  - exists v. split; [done|]. by rewrite Hh.
  - eapply Forall_impl; [exact Hl|done].
Qed.

(** *** What watching a secret returns *)

Lemma get_secret_runs n (s : St W) r s' :
  client_Get KSecret ns n s = (r, s') ->
  same_memory s s' /\
  match r with
  | Ok sec => m_Namespace (sec_Meta sec) = ns /\ m_Name (sec_Meta sec) = n /\
              ver n = Some (m_ResourceVersion (sec_Meta sec))
  | Err _ => ver n = None
  | Panic _ => True
  end.
Proof.
  unfold client_Get. destruct (kc_get KSecret ns n (st_world s)) as [r0 w] eqn:E.
  intros [= <- <-]. split; [by repeat split|]. destruct r0 as [sec|e|p]; [| |done].
  - pose proof E as [? ?]%kl_get. by apply ud_read in E.
  - by apply ud_missing in E.
Qed.

Lemma updateSecret_runs sec (s : St W) r s' :
  m_Namespace (sec_Meta sec) = ns -> updateSecret sec s = (r, s') ->
  match r with
  | Ok o => m_Name (sec_Meta o) = m_Name (sec_Meta sec) /\
            ver (m_Name (sec_Meta sec)) = Some (m_ResourceVersion (sec_Meta o))
  | Err e => IsNotFound e = true -> ver (m_Name (sec_Meta sec)) = None
  | Panic _ => True
  end.
Proof.
  intros Hns. unfold updateSecret. rewrite Hns. unfold try_, mbind at 1, M_bind at 1.
  destruct (client_Get KSecret ns _ s) as [[o|e|p] s1] eqn:Hget; apply get_secret_runs in Hget as [_ H1].
  - unfold client_Update, emit, modify, on_world, mbind, M_bind. simpl.
    destruct (kc_update KSecret sec _) as [r0 w] eqn:E. intros [= <- <-].
    destruct r0 as [o'|e|p]; [| |done].
    + pose proof E as [_ Hn]%kl_update. simpl in Hn. split; [done|]. rewrite <- Hn.
      exact (ud_written sec _ o' w Hns E).
    + exact (ud_deleted sec _ e w Hns E).
  - by intros [= <- <-].
  - by intros [= <- <-].
Qed.

Lemma watchSecret_runs n (s : St W) r s' :
  named ns nm s -> watchSecret n s = (r, s') ->
  match r with
  | Ok sec => m_Name (sec_Meta sec) = n /\ ver n = Some (m_ResourceVersion (sec_Meta sec))
  | Err e => IsNotFound e = true -> ver n = None
  | Panic _ => True
  end.
Proof.
  intros [Hns _]. unfold watchSecret. rewrite (run_bind _ _ s (st_cr s) s) by done.
  rewrite Hns. unfold findSecret.
  intros [(sec & s1 & Hget & Hrun)|[(e & Hget & ->)|(p & _ & ->)]]%M_bind_inv; [| |done];
    apply get_secret_runs in Hget as [_ Hget]; [|done].
  destruct Hget as (Hsns & Hsn & _). cbv zeta in Hrun.
  apply M_bind_inv in Hrun as [(m & ? & Hown & Hrun)|[(e & Hown & ->)|(p & _ & ->)]]; [| |done];
    injection Hown as Hown ->.
  - pose proof Hown as [o Hm]%kl_owner.
    assert (m_Namespace m = ns /\ m_Name m = n) as [Hmns Hmn]
      by (rewrite Hm; simpl; repeat case_match; done).
    apply updateSecret_runs in Hrun; [|done]. simpl in Hrun. by rewrite Hmn in Hrun.
  - intros He. apply ud_owner in Hown. congruence.
Qed.

Lemma watchOwnSecret_runs n (s : St W) sec s' :
  named ns nm s -> watchOwnSecret n s = (Ok sec, s') -> watched ver n sec.
Proof.
  intros Hn. unfold watchOwnSecret, try_, mbind, M_bind.
  destruct (watchSecret n s) as [[o|e|p] s1] eqn:E; [| |done]; apply watchSecret_runs in E; try done.
  - intros [= <- <-]. by left.
  - unfold get_cr, gets. destruct (IsVaultSecretManagementEnabled (st_cr s1)); [|done].
    destruct (IsNotFound e); [|done]. intros [= <- <-]. right. auto.
Qed.

Lemma watchOptionalSecret_runs n (s : St W) o s' :
  named ns nm s -> watchOptionalSecret n s = (Ok o, s') -> opt_watched ver n o.
Proof.
  intros Hn. unfold watchOptionalSecret, try_, mbind, M_bind.
  destruct (watchSecret n s) as [[sec|e|p] s1] eqn:E; [| |done]; apply watchSecret_runs in E; try done.
  - intros [= <- <-]. by left.
  - destruct (IsNotFound e); [|done]. intros [= <- <-]. by apply E.
Qed.

(** Recording the secrets makes their versions known; a secret whose version is
    known has not changed. *)
Lemma recordVersion_runs o (s : St W) :
  recordVersion o s = (Ok tt, set_versions (record o (st_versions s)) s).
Proof. destruct o; [done|]. by destruct s. Qed.

Lemma covers_own n sec : watched ver n sec -> covers ver [n] (Some sec).
Proof. intros Hw. split; [apply Forall_singleton; by right|]. right. exists n. split; [constructor|done]. Qed.

Lemma recorded_own n sec sec' versions :
  watched ver n sec -> descends W ns sec sec' -> server_secret W ns sec ->
  Forall (known (record (Some sec') versions)) [n].
Proof.
  intros Hw Hd Hs. constructor; [|constructor]. intros Hne v Hver.
  destruct Hw as [[Hn Hv]|[_ Hv]]; [|congruence]. simpl.
  pose proof (descends_server _ _ _ Hd Hs) as Hs'%server_version; destruct Hd as [Heq _];
    rewrite Heq, Hn in *; [|done]. rewrite lookup_insert_eq. congruence.
Qed.

Lemma recorded_known l o versions :
  covers ver l o -> Forall (known (record o versions)) l.
Proof.
  intros [Hl _]. eapply Forall_impl; [exact Hl|]. intros n [->|Hw] Hne v Hv; [done|].
  destruct o as [sec|]; simpl in *; [|congruence]. destruct Hw as [[Hn Hs]|[_ Hs]]; [|congruence].
  rewrite Hn, lookup_insert_eq. congruence.
Qed.

Lemma known_record l o versions :
  opt_server_secret W ns o -> Forall (known versions) l -> Forall (known (record o versions)) l.
Proof.
  intros Ho Hl. destruct o as [sec|]; [|done]. eapply Forall_impl; [exact Hl|].
  intros n. by apply known_insert.
Qed.

Lemma known_unchanged l o versions :
  covers ver l o -> Forall (known versions) l -> secretVersionChanged versions o = false.
Proof.
  intros [_ [->|(n & Hin & Hw)]] Hl; [done|]. rewrite Forall_forall in Hl. specialize (Hl n Hin).
  destruct o as [sec|]; [|done]. simpl. destruct Hw as [[Hn Hv]|[Hn _]].
  - destruct (decide (n = "")) as [->|Hne]; [by rewrite bool_decide_eq_true_2|].
    rewrite Hn, (Hl Hne _ Hv). simpl. rewrite (bool_decide_eq_true_2 (_ = m_ResourceVersion _)) by done.
    by rewrite andb_false_r.
  - by rewrite bool_decide_eq_true_2.
Qed.

(** *** What a sub-reconciler that succeeded has recorded *)

Lemma calm_ok {A} k (Q : A -> Prop) (m : M W A) s r s' :
  holds (named ns nm) (calm k) Q m -> named ns nm s -> m s = (r, s') ->
  named ns nm s' /\ (forall a, r = Ok a -> Q a).
Proof. intros Hm Hn Hr. by destruct (Hm s r s' Hn Hr) as (? & _ & ?). Qed.

(** The watched secret of a component, with all that is known of it. *)
Lemma own_secret_runs n (s : St W) sec s' :
  named ns nm s -> watchOwnSecret n s = (Ok sec, s') ->
  watched ver n sec /\ server_secret W ns sec /\ named ns nm s' /\ same_memory s s'.
Proof.
  intros Hn Hw. pose proof (watchOwnSecret_runs _ _ _ _ Hn Hw) as Hsec.
  destruct (watchOwnSecret_watched same_memory n s _ s' I Hw) as (_ & Hm & _).
  apply (calm_ok "" _ _ _ _ _ (watchOwnSecret_ok _ _ _ _ _) Hn) in Hw as [Hn1 Hserver].
  split_and!; [done|by apply Hserver|done|done].
Qed.

Lemma settled_intro k h v l (s : St W) :
  h = Ok v -> st_hashes s !! k = Some v -> Forall (known (st_versions s)) l -> settled k h l s.
Proof. intros Hh Hk Hl. split; [by exists v|done]. Qed.

Lemma zookeeper_settles zk (s s' : St W) :
  named ns nm s -> sp_ZooKeeper (cr_Spec (st_cr s)) = Some zk ->
  zooKeeperReconcile s = (Ok tt, s') ->
  settled zooKeeperHashName (Hash marshalZooKeeper (Some zk)) (zooKeeperSecrets zk) s'.
Proof.
  intros Hn Hzk Hrun. unfold zooKeeperReconcile, zooKeeperOf in Hrun.
  apply M_bind_Ok in Hrun as (cr & ? & [= <- <-] & Hrun). rewrite Hzk in Hrun.
  apply M_bind_Ok in Hrun as (zk' & ? & [= <- <-] & Hrun).
  apply M_bind_Ok in Hrun as (sec & s1 & Hw & Hrun).
  apply own_secret_runs in Hw as (Hsec & Hserver & Hn1 & _); [|done].
  apply M_bind_Ok in Hrun as (h & ? & [= Hh <-] & Hrun).
  apply M_bind_Ok in Hrun as (changed & s2 & Hc & Hrun). injection Hc as Hc <-.
  apply M_bind_Ok in Hrun as (sec' & s3 & Hb & Hrun).
  assert (descends W ns sec sec') as Hd.
  { destruct changed; [|injection Hb as <- _; apply descends_refl].
    eapply (calm_ok "") in Hb as [_ Hd]; [by apply Hd| |done].
    apply (reconcileZooKeeper_ok ns nm (fun _ => True)); eauto with zk. }
  do 3 apply M_bind_Ok in Hrun as (? & ? & _ & Hrun).
  rewrite (run_bind _ _ _ _ _ (recordVersion_runs _ _)) in Hrun. injection Hrun as <-.
  eapply settled_intro; [exact Hh|apply lookup_insert_eq|]. by eapply recorded_own.
Qed.

Lemma backup_secret_runs (s : St W) o s' :
  named ns nm s -> sp_BackupDaemon (cr_Spec (st_cr s)) = sp_BackupDaemon sp ->
  watchBackupDaemonSecret s = (Ok o, s') -> covers ver (backupSecret (sp_BackupDaemon sp)) o.
Proof.
  intros Hn Hbd. unfold watchBackupDaemonSecret. rewrite (run_bind _ _ s (st_cr s) s) by done.
  rewrite Hbd. destruct (sp_BackupDaemon sp) as [bd|]; simpl; [|intros [= <- <-]; by split; [|left]].
  case_bool_decide as He.
  - intros [= <- <-]. split; [|by left]. apply Forall_singleton. by left.
  - intros Hw. apply watchOptionalSecret_runs in Hw; [|done].
    split; [apply Forall_singleton; by right|]. right. eexists. split; [constructor|done].
Qed.

Lemma s3_secret_runs bd (s : St W) o s' :
  named ns nm s -> watchS3Secret bd s = (Ok o, s') -> covers ver (s3Secrets bd) o.
Proof.
  intros Hn. unfold watchS3Secret, s3Secrets. destruct (bd_S3 bd) as [s3|];
    [|intros [= <- <-]; by split; [|left]].
  destruct (s3_Enabled s3); simpl; [|intros [= <- <-]; by split; [|left]]. case_bool_decide as He.
  - intros [= <- <-]. split; [|by left]. apply Forall_singleton. by left.
  - intros Hw. apply watchOptionalSecret_runs in Hw; [|done].
    split; [apply Forall_singleton; by right|]. right. eexists. split; [constructor|done].
Qed.

Lemma aliases_secret_runs (s : St W) x s' :
  named ns nm s -> findS3AliasesSecret s = (Ok x, s') ->
  covers ver [nm +:+ "-backup-daemon-s3-aliases"] (Some (fst x)).
Proof.
  intros [Hns Hnm]. unfold findS3AliasesSecret. rewrite (run_bind _ _ s (st_cr s) s) by done.
  rewrite Hns, Hnm. unfold findSecret, try_, mbind, M_bind.
  destruct (client_Get KSecret ns _ s) as [[o|e|p] s1] eqn:Hget; [| |done];
    apply get_secret_runs in Hget as [_ Hget]; intros [= <- <-]; apply covers_own.
  - left. tauto.
  - by right.
Qed.

Lemma monitoring_settles mon (s s' : St W) :
  named ns nm s -> same_sections sp (st_cr s) -> sp_MonitoringSpec sp = Some mon ->
  monitoringReconcile s = (Ok tt, s') ->
  settled monitoringHashName (Hash marshalMonitoring (Some mon)) (monitoringSecrets mon sp) s'.
Proof.
  intros Hn [Hmon Hbd] Hsp Hrun. unfold monitoringReconcile, monitoringOf in Hrun.
  apply M_bind_Ok in Hrun as (cr & ? & [= <- <-] & Hrun). rewrite Hmon, Hsp in Hrun.
  apply M_bind_Ok in Hrun as (mon' & ? & [= <- <-] & Hrun).
  apply M_bind_Ok in Hrun as (sec & s1 & Hw & Hrun).
  apply own_secret_runs in Hw as (Hsec & Hserver & Hn1 & Hm1); [|done].
  apply M_bind_Ok in Hrun as (bsec & s2 & Hb & Hrun).
  pose proof Hb as Hcov%backup_secret_runs; [|done|by rewrite (proj1 Hm1)].
  apply (calm_ok "" _ _ _ _ _ (watchBackupDaemonSecret_ok _ _ _ _) Hn1) in Hb as [Hn2 Hbs].
  specialize (Hbs _ eq_refl).
  apply M_bind_Ok in Hrun as (h & ? & [= Hh <-] & Hrun).
  apply M_bind_Ok in Hrun as (changed & s3 & Hc & Hrun). injection Hc as Hc <-.
  apply M_bind_Ok in Hrun as (sec' & s4 & Hbr & Hrun).
  assert (descends W ns sec sec') as Hd.
  { destruct changed; [|injection Hbr as <- _; apply descends_refl].
    eapply (calm_ok "") in Hbr as [_ Hd]; [by apply Hd| |done].
    apply (reconcileMonitoring_ok ns nm (fun _ => True)); eauto with zk. }
  do 3 apply M_bind_Ok in Hrun as (? & ? & _ & Hrun).
  rewrite !(run_bind _ _ _ _ _ (recordVersion_runs _ _)) in Hrun. injection Hrun as <-.
  eapply settled_intro; [exact Hh|apply lookup_insert_eq|].
  apply (Forall_app _ [_] (backupSecret _)). split; [|by apply recorded_known].
  apply known_record; [done|]. by eapply recorded_own.
Qed.

Lemma backup_settles bd (s s' : St W) :
  named ns nm s -> same_sections sp (st_cr s) -> sp_BackupDaemon sp = Some bd ->
  backupDaemonReconcile s = (Ok tt, s') ->
  settled backupDaemonHashName (Hash marshalBackupDaemon (Some bd)) (backupSecrets nm bd) s'.
Proof.
  intros Hn [_ Hbd] Hsp Hrun. unfold backupDaemonReconcile, backupDaemonOf in Hrun.
  apply M_bind_Ok in Hrun as (cr & ? & [= <- <-] & Hrun). rewrite Hbd, Hsp in Hrun.
  apply M_bind_Ok in Hrun as (bd' & ? & [= <- <-] & Hrun).
  apply M_bind_Ok in Hrun as (sec & s1 & Hw & Hrun).
  apply own_secret_runs in Hw as (Hsec & Hserver & Hn1 & Hm1); [|done].
  apply M_bind_Ok in Hrun as (s3sec & s2 & Hb & Hrun).
  pose proof Hb as Hcov%s3_secret_runs; [|done].
  apply (calm_ok "" _ _ _ _ _ (watchS3Secret_ok _ _ _ _ _) Hn1) in Hb as [Hn2 Hbs].
  specialize (Hbs _ eq_refl).
  apply M_bind_Ok in Hrun as (al & s3 & Ha & Hrun). cbv beta iota zeta in Hrun.
  pose proof Ha as Hcov'%aliases_secret_runs; [|done].
  apply (calm_ok "" _ _ _ _ _ (findS3AliasesSecret_ok _ _ _ _) Hn2) in Ha as [Hn3 Has].
  specialize (Has _ eq_refl).
  apply M_bind_Ok in Hrun as (h & ? & [= Hh <-] & Hrun).
  apply M_bind_Ok in Hrun as (changed & ? & Hc & Hrun). injection Hc as Hc <-.
  apply M_bind_Ok in Hrun as (sec' & s4 & Hbr & Hrun).
  assert (descends W ns sec sec') as Hd.
  { destruct changed; [|injection Hbr as <- _; apply descends_refl].
    eapply (calm_ok "") in Hbr as [_ Hd]; [by apply Hd| |done].
    apply (reconcileBackupDaemon_ok ns nm (fun _ => True)); eauto with zk. }
  do 3 apply M_bind_Ok in Hrun as (? & ? & _ & Hrun).
  rewrite !(run_bind _ _ _ _ _ (recordVersion_runs _ _)) in Hrun. injection Hrun as <-.
  eapply settled_intro; [exact Hh|apply lookup_insert_eq|].
  apply (Forall_app _ [_] (_ ++ _)). split;
    [|apply Forall_app; split; [|by apply (recorded_known _ (Some (fst al)))]];
    apply (known_record _ (Some (fst al))); try done.
  - apply known_record; [done|]. by eapply recorded_own.
  - by apply recorded_known.
Qed.
End converge.
