(* ===== verification/Cycle.v ===== *)
(** * The phases of a cycle

    What the parts of [Reconcile] leave alone: the start of a cycle, the Vault
    client, and the loop over the sub-reconcilers, taken apart for the proofs
    about whole cycles. *)

From S2P Require Import Prelude GoStrings Types Util Provider Platform Conditions Reconciler Vault.
From S2P Require Import ZooKeeperProvider MonitoringProvider BackupDaemonProvider.
From S2P Require Import ZooKeeperVault Fragments Frames ZooKeeperReconciler MonitoringReconciler.
From S2P Require Import BackupDaemonReconciler Quiescence Controller Converge.

(** Nothing but the Vault client and the world. *)
Definition untouched {W} (s s' : St W) : Prop :=
  st_cr s' = st_cr s /\ st_hashes s' = st_hashes s /\ st_globalHash s' = st_globalHash s /\
  st_versions s' = st_versions s /\ st_trace s' = st_trace s.

(** ** Lemmas *)

#[global] Instance untouched_frame {W} : Frame (fun _ : St W => True) untouched.
Proof.
  split; [|by repeat split|done]. split; [by repeat split|].
  intros s1 s2 s3 (? & ? & ? & ? & ?) (? & ? & ? & ? & ?). repeat split; congruence.
Qed.

Lemma orWriteFailed_Ok {W A} `{!KubeClient W} (m : M W A) msg (s : St W) a s' :
  orWriteFailed m msg s = (Ok a, s') -> m s = (Ok a, s').
Proof.
  unfold orWriteFailed. intros (x & s1 & Ht & Hr)%M_bind_Ok. unfold try_ in Ht.
  destruct (m s) as [[b|e|p] s2]; simplify_eq; [by injection Hr as -> ->|].
  apply M_bind_Ok in Hr as (? & ? & _ & [=]).
Qed.

Lemma runReconcilers_app {W} `{!KubeClient W} l1 l2 (s : St W) :
  runReconcilers (l1 ++ l2) s = (runReconcilers l1 ≫= fun _ => runReconcilers l2) s.
Proof.
  unfold runReconcilers. revert s. induction l1 as [|x l1 IH]; intros s; [done|].
  cbn [app for_each]. unfold mbind, M_bind in *.
  destruct (orWriteFailed _ _ s) as [[[]|e|p] s1]; [|done..]. apply IH.
Qed.

Section phases.
Context {W : Type} `{!KubeClient W} `{!KubeLaws W} `{!WaitLib W} `{!WaitLaws W}.
Context `{!Quantities} `{!VaultApi W} `{!Passwords W} `{!Encoders}.

(** One optional sub-reconciler ran and succeeded. *)
Lemma opt_reconciler {A} (o : option A) rc (s s' : St W) :
  runReconcilers (if bool_decide (is_Some o) then [rc] else []) s = (Ok tt, s') ->
  match o with Some _ => rs_Reconcile rc s = (Ok tt, s') | None => s' = s end.
Proof.
  destruct o; [rewrite bool_decide_eq_true_2 by done|rewrite bool_decide_eq_false_2 by (by intros [])].
  - unfold runReconcilers. cbn [for_each]. intros ([] & s1 & H1 & [= <-])%M_bind_Ok.
    by apply orWriteFailed_Ok in H1.
  - by intros [= <-].
Qed.

Lemma InitVaultClient_untouched :
  holds (fun _ : St W => True) untouched any InitVaultClient.
Proof.
  unfold InitVaultClient, login. holds_step. holds_step. holds_step.
  rule holds_bind_any; [by rule holds_on_world|intros _]. rule holds_bind_any.
  - rule holds_bind_any; [by rule holds_on_world|intros jwt]. do 2 holds_step.
    do 2 (rule holds_bind_any; [by rule holds_on_world|intros ?]). holds.
  - intros t. rule holds_modify. by repeat split.
Qed.

Lemma initVault_same (s s' : St W) : initVault s = (Ok tt, s') -> untouched s s'.
Proof.
  unfold initVault. rewrite (run_bind _ _ s (st_cr s) s) by done.
  unfold when. case_match; [|by intros [= <-]]. intros Hv%orWriteFailed_Ok.
  by destruct (InitVaultClient_untouched _ _ _ I Hv) as (_ & ? & _).
Qed.

Context (ns nm : string) (sp : ZooKeeperServiceSpec) `{!Stored W ns nm sp}.

(** The resource that a cycle works on has the stored spec. *)
Lemma startCycle_spec b (s s' : St W) :
  named ns nm s -> cr_Spec (st_cr s) = sp -> startCycle b s = (Ok tt, s') ->
  cr_Spec (st_cr s') = sp.
Proof.
  intros [Hns Hnm] Hsp. destruct b; [|by intros [= <-]]. unfold startCycle, when.
  rewrite (run_bind _ _ s tt (set_cr (set_Conditions [] (st_cr s)) s)) by done.
  unfold updateConditions, client_StatusUpdate, now, modify_cr, get_cr, gets, emit, modify, on_world,
    mbind, M_bind. simpl. destruct (kc_now (st_world s)) as [t w]. simpl.
  destruct (kc_status_update _ _) as [[c|?|?] w'] eqn:E; intros [= <-]. simpl.
  by apply (sd_status (ns:=ns) (nm:=nm) (sp:=sp)) in E.
Qed.

(** A cycle of the resource: it was fetched and ran, or the fetch failed. *)
Lemma Reconcile_fetched (s : St W) r s' :
  Reconcile ns nm s = (r, s') ->
  (exists inst s1, client_Get KCR ns nm s = (Ok inst, s1) /\ named ns nm (set_cr inst s1) /\
     cr_Spec inst = sp /\ reconcileInstance (set_cr inst s1) = (r, s')) \/
  (r <> Ok tt /\ exists r', client_Get KCR ns nm s = (r', s')).
Proof.
  intros [(inst & s1 & Hget & Hrun)|[(e & Hget & ->)|(p & Hget & ->)]]%Reconcile_inv.
  - left. exists inst, s1. split; [done|]. split; [by apply (fetched_named ns nm s)|]. split; [|done].
    unfold client_Get in Hget. destruct (kc_get KCR ns nm (st_world s)) as [r0 w] eqn:E.
    injection Hget as -> _. by apply sd_spec in E.
  - right. split; [|by eexists]. unfold client_Get in Hget.
    destruct (kc_get KCR ns nm (st_world s)) as [r0 w] eqn:E. injection Hget as -> _.
    apply sd_exists in E. by rewrite E.
  - right. split; [done|by eexists].
Qed.
End phases.
