(* ===== verification/Desired.v ===== *)
(** * What a successful cycle has deployed

    The abstract specification of the operator: the spec of a ZooKeeperService
    stands for a set of services and deployments, those that the builders make
    of it ([deployed]).  A cycle that succeeds implements it: every part of
    every section that was not up to date was sent to the API server, which
    accepted it.  [reaches] is the logic of the proof: which requests a run
    that returns has had accepted. *)

From S2P Require Import Prelude GoStrings Types Util Provider Platform Conditions Reconciler Vault.
From S2P Require Import ZooKeeperProvider MonitoringProvider BackupDaemonProvider.
From S2P Require Import ZooKeeperVault Fragments Frames ZooKeeperReconciler MonitoringReconciler.
From S2P Require Import BackupDaemonReconciler Quiescence Controller Converge Cycle.

(** The spec without the rolling update flag, which a cycle may clear. *)
Definition unrolled (sp : ZooKeeperServiceSpec) : ZooKeeperServiceSpec :=
  mkSpec (sp_Global sp) (set_zk_RollingUpdate false <$> sp_ZooKeeper sp) (sp_MonitoringSpec sp)
    (sp_BackupDaemon sp) (sp_VaultSecretManagement sp) (sp_IntegrationTests sp).

(** The resource [ns]/[nm] with the spec [sp]. *)
Definition resource (ns nm : string) (sp : ZooKeeperServiceSpec) : ZooKeeperService :=
  mkCR "" "" (newMeta nm ns None) sp (mkStatus [] [] [] None None []).

(** The resource in memory is that one. *)
Definition stands_for (ns nm : string) (sp : ZooKeeperServiceSpec) (c : ZooKeeperService) : Prop :=
  cr_Namespace c = ns /\ cr_Name c = nm /\ unrolled (cr_Spec c) = unrolled sp.

(** A request for the object, and its success. *)
Definition accepted (W : Type) `{KubeClient W} (k : Kind) (o : Obj k) (evs : list Event) : Prop :=
  exists w o' w' : _, EvCreate k o ∈ evs /\ kc_create (W:=W) k o w = (Ok o', w') \/
                      EvUpdate k o ∈ evs /\ kc_update (W:=W) k o w = (Ok o', w').

(** The same object, up to what the API server or the reconcilers add: the
    version, the owner, restart annotations, and a service's address. *)
Definition same_service (s s' : Service) : Prop :=
  m_Name (svc_Meta s') = m_Name (svc_Meta s) /\
  m_Namespace (svc_Meta s') = m_Namespace (svc_Meta s) /\
  m_Labels (svc_Meta s') = m_Labels (svc_Meta s) /\ svc_Ports s' = svc_Ports s /\
  svc_Selector s' = svc_Selector s /\
  svc_PublishNotReadyAddresses s' = svc_PublishNotReadyAddresses s.
Definition same_deployment (d d' : Deployment) : Prop :=
  m_Name (d_Meta d') = m_Name (d_Meta d) /\ m_Namespace (d_Meta d') = m_Namespace (d_Meta d) /\
  m_Labels (d_Meta d') = m_Labels (d_Meta d) /\ d_Strategy d' = d_Strategy d /\
  d_Replicas d' = d_Replicas d /\ d_Selector d' = d_Selector d /\ d_PodSpec d' = d_PodSpec d /\
  m_Labels (d_TemplateMeta d') = m_Labels (d_TemplateMeta d).

(** The builder succeeds, and what it builds was accepted. *)
Definition provided (W : Type) `{KubeClient W} (build : Res Service) (evs : list Event) : Prop :=
  exists s s', build = Ok s /\ same_service s s' /\ accepted W KService s' evs.
Definition launched (W : Type) `{KubeClient W} (build : Res Deployment) (evs : list Event) : Prop :=
  exists d d', build = Ok d /\ same_deployment d d' /\ accepted W KDeployment d' evs.

Section specification.
Context (W : Type) `{KubeClient W} `{Quantities} `{Encoders}.
Context (ns nm : string) (sp : ZooKeeperServiceSpec).
#[local] Abbreviation zrp := (NewZooKeeperResourceProvider (resource ns nm sp)).
#[local] Abbreviation mrp := (NewMonitoringResourceProvider (resource ns nm sp)).
#[local] Abbreviation brp := (NewBackupDaemonResourceProvider (resource ns nm sp)).

Definition server_deployed (i : Z) (evs : list Event) : Prop :=
  provided W (ZK.NewZooKeeperServerServiceForCR zrp i) evs /\
  launched W (ZK.NewServerDeploymentForCR zrp i) evs.
Definition ensemble_deployed (zk : ZooKeeper) (evs : list Event) : Prop :=
  0 < zk_Replicas zk ->
  provided W (ZK.NewZooKeeperClientServiceForCR zrp) evs /\
  provided W (ZK.NewZooKeeperDomainServiceForCR zrp) evs /\
  forall i, 1 <= i <= zk_Replicas zk -> server_deployed i evs.
Definition monitoring_deployed (evs : list Event) : Prop :=
  provided W (Mon.NewMonitoringClientService mrp) evs /\
  launched W (Mon.NewMonitoringDeployment mrp) evs.
Definition backup_deployed (evs : list Event) : Prop :=
  provided W (Backup.NewBackupDaemonClientService brp) evs /\
  exists aliases, launched W (Backup.NewBackupDaemonDeployment brp aliases) evs.

(** The hash of a section is not the recorded one. *)
Definition stale (s : St W) (k : string) (h : Res string) : Prop :=
  forall v, h = Ok v -> st_hashes s !! k <> Some v.

(** The section changed since it was recorded, or the global section did. *)
Definition outdated (s : St W) (k : string) (h : Res string) : Prop :=
  stale s k h \/ stale s globalHashName (Hash marshalGlobal (sp_Global sp)).

(** Every outdated section of the resource is deployed. *)
Definition deployed (s : St W) (evs : list Event) : Prop :=
  (forall zk, sp_ZooKeeper sp = Some zk ->
     outdated s zooKeeperHashName (Hash marshalZooKeeper (Some zk)) -> ensemble_deployed zk evs) /\
  (forall mon, sp_MonitoringSpec sp = Some mon ->
     outdated s monitoringHashName (Hash marshalMonitoring (Some mon)) -> monitoring_deployed evs) /\
  (forall bd, sp_BackupDaemon sp = Some bd ->
     outdated s backupDaemonHashName (Hash marshalBackupDaemon (Some bd)) -> backup_deployed evs).
End specification.

(** A property of requests that further requests do not undo. *)
Class Lasting (P : list Event -> Prop) : Prop :=
  lasting : forall pre evs post, P evs -> P (pre ++ evs ++ post).

(** What a step of a cycle keeps: the events so far, the resource, the recorded
    hashes but that under [k], and the hash of the global section. *)
Definition onward {W} ns nm sp (k : string) (s s' : St W) : Prop :=
  (exists evs, st_trace s' = st_trace s ++ evs) /\
  (forall j, j <> k -> st_hashes s' !! j = st_hashes s !! j) /\
  st_globalHash s' = st_globalHash s /\
  (stands_for ns nm sp (st_cr s) -> stands_for ns nm sp (st_cr s')).

(** ** Lemmas: the builders read the name, the namespace and the spec *)

Lemma stands_for_cases ns nm sp c :
  stands_for ns nm sp c -> cr_Namespace c = ns /\ cr_Name c = nm /\
  sp_Global (cr_Spec c) = sp_Global sp /\
  sp_MonitoringSpec (cr_Spec c) = sp_MonitoringSpec sp /\
  sp_BackupDaemon (cr_Spec c) = sp_BackupDaemon sp /\
  sp_VaultSecretManagement (cr_Spec c) = sp_VaultSecretManagement sp /\
  (forall zk, sp_ZooKeeper sp = Some zk -> exists b,
     sp_ZooKeeper (cr_Spec c) = Some (set_zk_RollingUpdate b zk)).
Proof.
  intros (Hns & Hnm & Hsp). destruct c as [? ? m [g z mo b v t] st], sp as [g' z' mo' b' v' t'].
  unfold unrolled in Hsp. simpl in *. injection Hsp as -> Hz -> -> -> ->. split_and!; try done.
  intros zk ->. destruct z as [z|]; [|done]. exists (zk_RollingUpdate z). f_equal.
  destruct z, zk. simpl in Hz. by simplify_eq.
Qed.

(** Two resources that stand for the same one have equal parts. *)
Ltac same_resource H :=
  let z := fresh "z" in let z' := fresh "z" in
  match type of H with
  | stands_for _ _ ?sp ?c =>
      destruct c as [? ? [? ? ? ? ? ? ?] [? z ? ? ? ?] ?]; destruct sp as [? z' ? ? ? ?]
  end;
  destruct H as (<- & <- & H); unfold unrolled in H; simpl in H;
  destruct z as [[]|], z' as [[]|]; simpl in H; try discriminate H; injection H; intros; subst.

Section builders.
Context `{!Quantities}.

Lemma server_service_same ns nm sp c i :
  stands_for ns nm sp c ->
  ZK.NewZooKeeperServerServiceForCR (NewZooKeeperResourceProvider c) i
  = ZK.NewZooKeeperServerServiceForCR (NewZooKeeperResourceProvider (resource ns nm sp)) i.
Proof. intros Hc. same_resource Hc; reflexivity. Qed.

Lemma server_deployment_same ns nm sp c i :
  stands_for ns nm sp c ->
  ZK.NewServerDeploymentForCR (NewZooKeeperResourceProvider c) i
  = ZK.NewServerDeploymentForCR (NewZooKeeperResourceProvider (resource ns nm sp)) i.
Proof. intros Hc. same_resource Hc; reflexivity. Qed.

Lemma client_service_same ns nm sp c :
  stands_for ns nm sp c ->
  ZK.NewZooKeeperClientServiceForCR (NewZooKeeperResourceProvider c)
  = ZK.NewZooKeeperClientServiceForCR (NewZooKeeperResourceProvider (resource ns nm sp)).
Proof. intros Hc. same_resource Hc; reflexivity. Qed.

Lemma domain_service_same ns nm sp c :
  stands_for ns nm sp c ->
  ZK.NewZooKeeperDomainServiceForCR (NewZooKeeperResourceProvider c)
  = ZK.NewZooKeeperDomainServiceForCR (NewZooKeeperResourceProvider (resource ns nm sp)).
Proof. intros Hc. same_resource Hc; reflexivity. Qed.

Lemma monitoring_same ns nm sp c :
  stands_for ns nm sp c ->
  let mrp := NewMonitoringResourceProvider c in
  let mrp' := NewMonitoringResourceProvider (resource ns nm sp) in
  Mon.NewMonitoringClientService mrp = Mon.NewMonitoringClientService mrp' /\
  Mon.NewMonitoringDeployment mrp = Mon.NewMonitoringDeployment mrp'.
Proof. intros Hc. same_resource Hc; split; reflexivity. Qed.

Lemma backup_same ns nm sp c b :
  stands_for ns nm sp c ->
  let brp := NewBackupDaemonResourceProvider c in
  let brp' := NewBackupDaemonResourceProvider (resource ns nm sp) in
  Backup.NewBackupDaemonClientService brp = Backup.NewBackupDaemonClientService brp' /\
  Backup.NewBackupDaemonDeployment brp b = Backup.NewBackupDaemonDeployment brp' b.
Proof. intros Hc. same_resource Hc; split; reflexivity. Qed.
End builders.

(** ** Lemmas: lasting properties *)

#[global] Instance lasting_and P Q : Lasting P -> Lasting Q -> Lasting (fun e => P e /\ Q e).
Proof. intros HP HQ pre evs post [? ?]. split; by apply lasting. Qed.
#[global] Instance lasting_true : Lasting (fun _ => True).
Proof. by intros pre evs post. Qed.
#[global] Instance lasting_impl (A : Prop) P : Lasting P -> Lasting (fun e => A -> P e).
Proof. intros HP pre evs post Hi Ha. by apply lasting, Hi. Qed.
#[global] Instance lasting_all {A} (P : A -> list Event -> Prop) :
  (forall a, Lasting (P a)) -> Lasting (fun e => forall a, P a e).
Proof. intros HP pre evs post Hi a. by apply (HP a). Qed.
#[global] Instance lasting_ex {A} (P : A -> list Event -> Prop) :
  (forall a, Lasting (P a)) -> Lasting (fun e => exists a, P a e).
Proof. intros HP pre evs post [a Ha]. exists a. by apply (HP a). Qed.

#[global] Instance lasting_accepted W `{!KubeClient W} k (o : Obj k) : Lasting (accepted W k o).
Proof.
  intros pre evs post (w & o' & w' & [[Hin Ho]|[Hin Ho]]); exists w, o', w'; [left|right];
    (split; [|done]); rewrite !elem_of_app; tauto.
Qed.
#[global] Instance lasting_provided W `{!KubeClient W} build : Lasting (provided W build).
Proof.
  intros pre evs post (s & s' & Hb & Hs & Ha). exists s, s'. split; [done|split; [done|by apply lasting]].
Qed.
#[global] Instance lasting_launched W `{!KubeClient W} build : Lasting (launched W build).
Proof.
  intros pre evs post (s & s' & Hb & Hs & Ha). exists s, s'. split; [done|split; [done|by apply lasting]].
Qed.

(** ** Lemmas: the logic *)
Section reach.
Context {W : Type} `{!KubeClient W} `{!KubeLaws W} `{!WaitLib W} `{!WaitLaws W}.
Context `{!Quantities} `{!VaultApi W} `{!Passwords W} `{!Encoders}.
Context (ns nm : string) (sp : ZooKeeperServiceSpec) `{!Stored W ns nm sp}.
#[local] Abbreviation onward := (onward (W:=W) ns nm sp).
#[local] Abbreviation stands s := (stands_for ns nm sp (st_cr s)).

#[global] Instance onward_preorder k : PreOrder (onward k).
Proof.
  split; [intros s; split_and!; auto; exists []; by rewrite app_nil_r|].
  intros s1 s2 s3 ([e1 E1] & H1 & G1 & S1) ([e2 E2] & H2 & G2 & S2). split_and!; [|..|congruence|auto].
  - exists (e1 ++ e2). by rewrite E2, E1, app_assoc.
  - intros j Hj. by rewrite H2, H1.
Qed.

#[global] Instance onward_frame k : ReconcileFrame ns nm (fun _ => True) (onward k).
Proof.
  assert (forall (s s' : St W) evs, st_hashes s' = st_hashes s -> st_globalHash s' = st_globalHash s ->
    st_trace s' = st_trace s ++ evs -> (stands s -> stands s') -> onward k s s') as Hsame.
  { intros s s' evs Hh Hg Ht Hs. split_and!; [by eexists|by intros; rewrite Hh|done..]. }
  assert (forall s s' : St W, st_hashes s' = st_hashes s -> st_globalHash s' = st_globalHash s ->
    st_trace s' = st_trace s -> (stands s -> stands s') -> onward k s s') as Hsame'.
  { intros s s' ? ? Ht ?. apply (Hsame s s' []); [done..|by rewrite app_nil_r|done]. }
  split; [split|..]; try apply _; try (intros; split; by eapply Hsame);
    try (intros; by eapply Hsame); try (intros; by apply Hsame').
  - intros s d d' _ _ _. by apply (Hsame _ _ [EvGet KDeployment ns (m_Name (d_Meta d')) (Ok d);
      EvUpdate KDeployment d']); [..|simpl; by rewrite <- app_assoc|].
  - intros s c w w' Hc. apply Hsame'; [done..|]. intros (Hns & Hnm & _).
    pose proof Hc as [E1 E2]%kl_status. split_and!; simpl; [congruence..|].
    by apply (sd_status (st_cr s)) in Hc as ->.
  - intros s b. apply Hsame'; [done..|]. intros (Hns & Hnm & Hsp). split_and!; [done..|].
    rewrite <- Hsp. unfold unrolled. simpl. f_equal. by destruct (sp_ZooKeeper _).
Qed.

Lemma onward_records k : records (onward k) k.
Proof.
  intros s h. split_and!; try done; [exists []; by rewrite app_nil_r|].
  intros j Hj. simpl. by rewrite lookup_insert_ne.
Qed.

(** A run that returns has had requests accepted that satisfy [P]. *)
Definition reaches {A} (P : list Event -> Prop) (m : M W A) : Prop :=
  forall s a s', stands s -> m s = (Ok a, s') ->
  exists evs, st_trace s' = st_trace s ++ evs /\ P evs.

Context (key : string).
#[local] Abbreviation onwards := (holds (named ns nm) (onward key)).

Lemma onwards_run {A} (Q : A -> Prop) (m : M W A) s a s' :
  onwards Q m -> stands s -> m s = (Ok a, s') ->
  stands s' /\ Q a /\ exists evs, st_trace s' = st_trace s ++ evs.
Proof.
  intros Hm Hs Hr. destruct (Hm s (Ok a) s') as (_ & (Ht & _ & _ & Hs') & HQ); [|done|].
  - destruct Hs as (? & ? & _). by split.
  - split_and!; [by apply Hs'|by apply HQ|done].
Qed.

Lemma reach_after {A B} (Q : A -> Prop) P (m : M W A) (f : A -> M W B) `{!Lasting P} :
  onwards Q m -> (forall a, Q a -> reaches P (f a)) -> reaches P (m ≫= f).
Proof.
  intros Hm Hf s b s' Hs (a & s1 & H1 & H2)%M_bind_Ok.
  destruct (onwards_run _ _ _ _ _ Hm Hs H1) as (Hs1 & Ha & e1 & E1).
  destruct (Hf a Ha _ _ _ Hs1 H2) as (e2 & E2 & HP). exists (e1 ++ e2).
  split; [by rewrite E2, E1, app_assoc|]. rewrite <- (app_nil_r e2). by apply lasting.
Qed.

Lemma reach_after_any {A B} P (m : M W A) (f : A -> M W B) `{!Lasting P} :
  onwards any m -> (forall a, reaches P (f a)) -> reaches P (m ≫= f).
Proof. intros Hm Hf. eapply reach_after; [done|exact Hm|auto]. Qed.

Lemma reach_both {A B} (Q : A -> Prop) P1 P2 (m : M W A) (f : A -> M W B) `{!Lasting P1, !Lasting P2} :
  onwards Q m -> reaches P1 m -> (forall a, Q a -> reaches P2 (f a)) ->
  reaches (fun e => P1 e /\ P2 e) (m ≫= f).
Proof.
  intros Ho Hm Hf s b s' Hs (a & s1 & H1 & H2)%M_bind_Ok.
  destruct (onwards_run _ _ _ _ _ Ho Hs H1) as (Hs1 & Ha & _).
  destruct (Hm _ _ _ Hs H1) as (e1 & E1 & HP1).
  destruct (Hf a Ha _ _ _ Hs1 H2) as (e2 & E2 & HP2). exists (e1 ++ e2).
  split; [by rewrite E2, E1, app_assoc|]. split; [by apply (lasting [])|].
  rewrite <- (app_nil_r e2). by apply lasting.
Qed.

Lemma reach_read {A B} P (g : ZooKeeperService -> A) (f : A -> M W B) :
  (forall c, stands_for ns nm sp c -> reaches P (f (g c))) ->
  reaches P ((c ← get_cr; mret (g c)) ≫= f).
Proof. intros Hf s b s' Hs Hr. by apply (Hf (st_cr s) Hs s b s'). Qed.

Lemma reach_get {B} P (f : ZooKeeperService -> M W B) :
  (forall c, stands_for ns nm sp c -> reaches P (f c)) -> reaches P (get_cr ≫= f).
Proof. intros Hf s b s' Hs Hr. by apply (Hf (st_cr s) Hs s b s'). Qed.

Lemma reach_lift {A B} P (r : Res A) (f : A -> M W B) :
  (forall a, r = Ok a -> reaches P (f a)) -> reaches P (lift r ≫= f).
Proof.
  intros Hf s b s' Hs (a & s1 & [= Hr <-] & H2)%M_bind_Ok. by apply (Hf a Hr s b s').
Qed.

Lemma reach_done {A} (m : M W A) : onwards any m -> reaches any m.
Proof. intros Hm s a s' Hs Hr. by destruct (onwards_run _ _ _ _ _ Hm Hs Hr) as (_ & _ & e & ?); exists e. Qed.

Lemma reach_weaken {A} (P P' : list Event -> Prop) (m : M W A) :
  (forall e, P e -> P' e) -> reaches P m -> reaches P' m.
Proof. intros HP Hm s a s' Hs Hr. destruct (Hm s a s' Hs Hr) as (e & ? & ?). exists e. auto. Qed.

(** *** Requests *)

Lemma create_reaches k (o : Obj k) : reaches (accepted W k o) (client_Create k o ;; mret tt).
Proof.
  intros s a s' _ (o' & s1 & Hc & [= _ <-])%M_bind_Ok.
  unfold client_Create, emit, modify, on_world, mbind, M_bind in Hc. simpl in Hc.
  destruct (kc_create k o (st_world s)) as [r w] eqn:E. injection Hc as -> <-. simpl.
  eexists; split; [reflexivity|]. exists (st_world s), o', w. left. split; [constructor|done].
Qed.

Lemma update_reaches k (o : Obj k) : reaches (accepted W k o) (client_Update k o ;; mret tt).
Proof.
  intros s a s' _ (o' & s1 & Hc & [= _ <-])%M_bind_Ok.
  unfold client_Update, emit, modify, on_world, mbind, M_bind in Hc. simpl in Hc.
  destruct (kc_update k o (st_world s)) as [r w] eqn:E. injection Hc as -> <-. simpl.
  eexists; split; [reflexivity|]. exists (st_world s), o', w. right. split; [constructor|done].
Qed.

Lemma reach_try {A B} P (m : M W A) (f : error + A -> M W B) `{!Lasting P} :
  onwards any m -> (forall x, reaches P (f x)) -> reaches P (try_ m ≫= f).
Proof.
  intros Hm Hf. apply reach_after_any; [done| |done]. intros s r s' Hs. unfold try_.
  destruct (m s) as [[a|e|p] s1] eqn:E; intros [= <- <-];
    destruct (Hm _ _ _ Hs E) as (? & ? & _); by split_and!.
Qed.

Lemma throw_reaches {A} P e : reaches P (throw (A:=A) (W:=W) e).
Proof. intros s a s' _ [=]. Qed.

Lemma reach_retry P (fn : M W unit) `{!Lasting P} :
  onwards any fn -> reaches P fn -> reaches P (RetryOnConflict fn).
Proof.
  intros Ho Hf s [] s' Hs Hr.
  destruct (retry_success (named ns nm) (onward key) fn s s') as (s1 & _ & HR & Hr1);
    [done|destruct Hs as (? & ? & _); by split|done|].
  destruct HR as ([e1 E1] & _ & _ & Hs1).
  destruct (Hf _ _ _ (Hs1 Hs) Hr1) as (e2 & E2 & HP). exists (e1 ++ e2).
  split; [by rewrite E2, E1, app_assoc|]. rewrite <- (app_nil_r e2). by apply lasting.
Qed.

Lemma get_onwards k n n' : onwards any (client_Get k n n').
Proof. eapply holds_weaken; [apply (get_ok ns nm (fun _ => True) (onward key))|done]. Qed.

Lemma applyService_reaches build :
  (forall svc, build = Ok svc -> m_Namespace (svc_Meta svc) = ns) ->
  reaches (provided W build) (applyService build).
Proof.
  intros Hns. unfold applyService. apply reach_lift. intros svc Hb. apply reach_get. intros c _.
  apply reach_lift. intros m [o ->]%kl_owner. unfold createOrUpdateService.
  apply reach_try; [apply _|apply (get_onwards KService)|]. intros [err|found].
  - case_match; [|apply throw_reaches]. eapply reach_weaken; [|apply create_reaches].
    intros e He. eexists svc, _. split; [done|split; [|exact He]]. by repeat split.
  - cbv zeta. eapply reach_weaken; [|apply update_reaches].
    intros e He. eexists svc, _. split; [done|split; [|exact He]]. case_bool_decide; by repeat split.
Qed.

Lemma annotated_same m d d' :
  m_Name m = m_Name (d_Meta d) -> m_Namespace m = m_Namespace (d_Meta d) ->
  m_Labels m = m_Labels (d_Meta d) ->
  same_but_annotations (set_d_Meta m d) d' ->
  forall v, same_deployment d d' /\ same_deployment d (set_d_Meta (set_ResourceVersion v (d_Meta d')) d').
Proof.
  intros Hn Hns Hl Hs v. unfold same_but_annotations in Hs. destruct d, d'. simpl in *.
  injection Hs; intros; subst. unfold same_deployment. simpl. split_and!; congruence.
Qed.

Lemma applyDeployment_reaches build secrets :
  (forall d, build = Ok d -> m_Namespace (d_Meta d) = ns) ->
  reaches (launched W build) (applyDeployment build secrets).
Proof.
  intros Hns. unfold applyDeployment. apply reach_lift. intros d Hb. apply reach_get. intros c _.
  apply reach_lift. intros m [o ->]%kl_owner.
  destruct (applyAutoRestartSecretAnnotations _ secrets) as [b d'] eqn:E.
  pose proof E as Hmeta%(f_equal snd)%(f_equal d_Meta). rewrite applyAnnotations_meta in Hmeta.
  apply annotations_only in E. simpl in Hmeta. cbn [snd]. unfold createOrUpdateDeployment. cbv zeta.
  assert (m_Namespace (d_Meta d') = ns) as Hd' by (rewrite <- Hmeta; by apply Hns).
  pose proof (annotated_same (set_OwnerReferences o (d_Meta d)) d d' eq_refl eq_refl eq_refl E) as Hsame.
  apply reach_try; [apply _|apply (get_onwards KDeployment)|]. intros [err|_].
  - case_match; [|apply throw_reaches]. eapply reach_weaken; [|apply create_reaches].
    intros e He. exists d, d'. by destruct (Hsame EmptyString).
  - apply reach_retry; [apply _|rewrite Hd'; by apply (replace_attempt_ok ns nm (fun _ => True) (onward key))|].
    apply reach_after_any; [apply _|apply (get_onwards KDeployment)|]. intros found.
    eapply reach_weaken; [|apply update_reaches].
    intros e He. eexists d, _. split; [done|]. split; [|exact He]. apply Hsame.
Qed.

(** The service first, then the rest. *)
Lemma reach_service {B} build P (m : M W B) `{!Lasting P} :
  (forall svc, build = Ok svc -> m_Namespace (svc_Meta svc) = ns) -> reaches P m ->
  reaches (fun e => provided W build e /\ P e) (applyService build ;; m).
Proof.
  intros Hns Hm. apply (reach_both any); [apply _..| |by apply applyService_reaches|done].
  by apply (applyService_ok ns nm (fun _ => True) _).
Qed.

(** The deployment last. *)
Lemma reach_deployment {B} build secrets (m : M W B) :
  (forall d, build = Ok d -> m_Namespace (d_Meta d) = ns) -> onwards any m ->
  reaches (launched W build) (applyDeployment build secrets ;; m).
Proof.
  intros Hns Hm. eapply (reach_weaken (fun e => launched W build e /\ True)); [by intros e []|].
  apply (reach_both any _ (fun _ => True)); [apply _..| |by apply applyDeployment_reaches|].
  - apply (applyDeployment_ok ns nm (fun _ => True) _). auto.
  - intros _ _. by apply reach_done.
Qed.

(** *** The sections *)

Lemma server_reaches sec i :
  secret_in ns sec -> reaches (server_deployed W ns nm sp i) (deployServer sec i).
Proof.
  intros Hsec. unfold deployServer, zkProvider, server_deployed. apply reach_read. intros c Hc.
  rewrite <- (server_service_same _ _ _ _ i Hc). destruct Hc as (Hns & _ & _).
  apply reach_service; [apply _|intros svc Hs; by apply server_service_ns in Hs as ->|].
  apply reach_lift. intros claim Hclaim. apply reach_after_any; [apply _|..|intros _].
  { destruct claim as [claim|]; [|by rule holds_ret].
    apply (createPersistentVolumeClaim_ok ns nm (fun _ => True) _).
    by apply server_claim_ns in Hclaim as ->. }
  apply reach_get. intros c' (Hns' & _ & _). apply reach_after_any; [apply _|..|intros _].
  { by apply (createServiceAccount_ok ns nm (fun _ => True) _). }
  apply (reach_after (descends W ns sec)); [apply _|..|intros sec' _].
  { case_match; [by apply (processVaultSecrets_ok ns nm (fun _ => True) _)|rule holds_ret; apply descends_refl]. }
  apply reach_read. intros c2 Hc2. rewrite <- (server_deployment_same _ _ _ _ i Hc2).
  apply reach_deployment; [intros d Hd; apply server_deployment_name in Hd as [-> _]; apply Hc2|].
  rule holds_bind_any; [by apply (waitForPod_ok ns nm (fun _ => True) _)|intros _; by rule holds_ret].
Qed.

Lemma servers_reach sec ids :
  secret_in ns sec ->
  reaches (fun e => forall i, i ∈ ids -> server_deployed W ns nm sp i e) (reconcileServers sec ids).
Proof.
  revert sec. induction ids as [|j ids IH]; intros sec Hsec; simpl.
  { eapply (reach_weaken (fun _ => True)); [intros e _ i Hi; by apply elem_of_nil in Hi|].
    apply reach_done. by rule holds_ret. }
  eapply (reach_weaken (fun e => server_deployed W ns nm sp j e /\
    forall i, i ∈ ids -> server_deployed W ns nm sp i e)).
  { intros e [Hj Hids] i [->|Hi]%elem_of_cons; auto. }
  apply (reach_both (descends W ns sec)); [apply _..| | |].
  - by apply (reconcileServer_ok ns nm (fun _ => True) _).
  - unfold reconcileServer. eapply (reach_weaken (fun e => server_deployed W ns nm sp j e /\ True));
      [by intros e []|].
    apply (reach_both any _ (fun _ => True)); [apply _..| |by apply server_reaches|].
    + eapply holds_weaken; [by apply (deployServer_ok ns nm (fun _ => True) _)|done].
    + intros sec' _. apply reach_done. holds. apply (waitForDeployment_ok ns nm (fun _ => True) _).
  - intros sec' Hsec'. apply IH. by eapply descends_in.
Qed.

Lemma ensemble_reaches zk sec :
  secret_in ns sec -> reaches (ensemble_deployed W ns nm sp zk) (reconcileEnsemble zk sec).
Proof.
  intros Hsec. eapply (reach_weaken (fun e =>
    provided W (ZK.NewZooKeeperClientServiceForCR (NewZooKeeperResourceProvider (resource ns nm sp))) e /\
    provided W (ZK.NewZooKeeperDomainServiceForCR (NewZooKeeperResourceProvider (resource ns nm sp))) e /\
    forall i, i ∈ upto 1 (zk_Replicas zk) -> server_deployed W ns nm sp i e)).
  { intros e (Hc & Hd & Hs) _. split_and!; [done..|]. intros i Hi. apply Hs. by apply upto_lookup. }
  unfold reconcileEnsemble, zkProvider. apply reach_after_any; [apply _|..|intros _].
  { unfold createSnapshotsClaim. holds. apply (createPersistentVolumeClaim_ok ns nm (fun _ => True) _).
    naive_solver. }
  apply reach_read. intros c Hc. rewrite <- (client_service_same _ _ _ _ Hc), <- (domain_service_same _ _ _ _ Hc).
  destruct Hc as (Hns & _ & _).
  apply reach_service; [apply _|intros svc Hs; by apply client_service_ns in Hs as ->|].
  apply reach_service; [apply _|intros svc Hs; by apply domain_service_ns in Hs as ->|].
  apply reach_after_any; [apply _|..|intros current].
  { unfold getCurrentDeploymentsCount, findZookeperDeployments. rule holds_bind_any; [|intros l]; holds. }
  apply reach_after_any; [apply _|..|intros _].
  { holds. rule holds_modify. intros s Hs. split; [exact Hs|by eapply rf_rolling]. }
  apply reach_after_any; [apply _|by apply (scaleDownExcess_ok ns nm (fun _ => True) _)|intros _].
  by apply servers_reach.
Qed.

Lemma zookeeper_reaches zk sec :
  secret_in ns sec -> reaches (ensemble_deployed W ns nm sp zk) (reconcileZooKeeper zk sec).
Proof.
  intros Hsec. unfold reconcileZooKeeper.
  assert (forall sec', onwards any (updateZooKeeperStatus ;; mret sec' : M W Secret)) as Hup.
  { intros sec'. rule holds_bind_any; [|intros _; by rule holds_ret].
    unfold updateZooKeeperStatus. holds. apply (updateNodes_ok ns nm (fun _ => True) _). by eexists. }
  case_bool_decide as Hr.
  - eapply (reach_weaken (fun e => ensemble_deployed W ns nm sp zk e /\ True)); [by intros e []|].
    apply (reach_both any _ (fun _ => True)); [apply _..| |by apply ensemble_reaches|].
    + eapply holds_weaken; [by apply (reconcileEnsemble_ok ns nm (fun _ => True) _)|done].
    + intros sec' _. by apply reach_done.
  - eapply (reach_weaken (fun _ => True)); [intros e _ Hp; by destruct Hr|]. apply reach_done, Hup.
Qed.

Lemma monitoring_reaches sec bsec :
  secret_in ns sec -> reaches (monitoring_deployed W ns nm sp) (reconcileMonitoring sec bsec).
Proof.
  intros Hsec. unfold reconcileMonitoring, monitoringProvider, monitoring_deployed.
  apply reach_read. intros c Hc. destruct (monitoring_same _ _ _ _ Hc) as [<- _], Hc as (Hns & _ & _).
  apply reach_service; [apply _|intros svc Hs; by apply monitoring_service_ns in Hs as ->|].
  apply reach_get. intros c' (Hns' & _ & _). apply reach_after_any; [apply _|..|intros _].
  { by apply (createServiceAccount_ok ns nm (fun _ => True) _). }
  apply (reach_after (descends W ns sec)); [apply _|..|intros sec' _].
  { case_match; [by apply (monitoringVaultSecrets_ok ns nm (fun _ => True) _)|rule holds_ret; apply descends_refl]. }
  apply reach_read. intros c2 Hc2. destruct (monitoring_same _ _ _ _ Hc2) as [_ <-].
  apply reach_deployment; [intros d Hd; apply monitoring_deployment_name in Hd as [-> _]; apply Hc2|].
  rule holds_bind_any; [by apply (updateMonitoringStatus_ok ns nm (fun _ => True) _)|intros _; by rule holds_ret].
Qed.

Lemma backup_reaches spec sec s3 al b :
  secret_in ns sec -> reaches (backup_deployed W ns nm sp) (reconcileBackupDaemon spec sec s3 al b).
Proof.
  intros Hsec. unfold reconcileBackupDaemon, backupDaemonProvider, backup_deployed.
  apply reach_after_any; [apply _|..|intros _].
  { unfold createBackupClaim. holds. apply (createPersistentVolumeClaim_ok ns nm (fun _ => True) _).
    naive_solver. }
  apply reach_read. intros c Hc. destruct (backup_same _ _ _ _ b Hc) as [<- _], Hc as (Hns & _ & _).
  apply reach_service; [apply _|intros svc Hs; by apply backup_service_ns in Hs as ->|].
  apply reach_get. intros c' (Hns' & _ & _). apply reach_after_any; [apply _|..|intros _].
  { by apply (createServiceAccount_ok ns nm (fun _ => True) _). }
  apply (reach_after (descends W ns sec)); [apply _|..|intros sec' _].
  { case_match; [by apply (backupDaemonVaultSecrets_ok ns nm (fun _ => True) _)|rule holds_ret; apply descends_refl]. }
  apply reach_read. intros c2 Hc2. eapply reach_weaken; [intros e He; by exists b|].
  destruct (backup_same _ _ _ _ b Hc2) as [_ <-].
  apply reach_deployment; [intros d Hd; apply backup_deployment_name in Hd as [-> _]; apply Hc2|].
  rule holds_bind_any; [by apply (updateBackupDaemonStatus_ok ns nm (fun _ => True) _)|intros _; by rule holds_ret].
Qed.
End reach.

(** ** Lemmas: a cycle *)
Section cycle.
Context {W : Type} `{!KubeClient W} `{!KubeLaws W} `{!WaitLib W} `{!WaitLaws W}.
Context `{!Quantities} `{!VaultApi W} `{!Passwords W} `{!Encoders}.
Context (ns nm : string) (sp : ZooKeeperServiceSpec) `{!Stored W ns nm sp}.
#[local] Abbreviation onward := (onward (W:=W) ns nm sp).
#[local] Abbreviation onwards key := (holds (named ns nm) (onward key)).
#[local] Abbreviation stands s := (stands_for ns nm sp (st_cr s)).
#[local] Abbreviation outdated := (outdated W sp).
#[local] Abbreviation reaches := (reaches (W:=W) ns nm sp).

(** The hash of the global section is the one of this cycle. *)
Definition current (s : St W) : Prop := Hash marshalGlobal (sp_Global sp) = Ok (st_globalHash s).

Lemma stale_differs (s : St W) k h v :
  stale W s k h -> h = Ok v -> v <> "" -> negb (bool_decide (default "" (st_hashes s !! k) = v)) = true.
Proof.
  intros Hs Hv Hne. apply negb_true_iff, bool_decide_eq_false. specialize (Hs v Hv).
  destruct (st_hashes s !! k); simpl; congruence.
Qed.

Lemma outdated_changed {A} (marshal : A -> Res string) (o : A) (s : St W) k v secrets :
  outdated s k (Hash marshal o) -> current s -> Hash marshal o = Ok v ->
  configurationChanged k v secrets s = (Ok true, s).
Proof.
  intros Hout Hc Hv. unfold configurationChanged, hashOf, gets, mbind, M_bind, mret, M_ret.
  destruct Hout as [Hs|Hs].
  - by rewrite (stale_differs s k _ v Hs Hv (Hash_not_empty _ _ _ Hv)).
  - rewrite (stale_differs s globalHashName _ (st_globalHash s) Hs Hc (Hash_not_empty _ _ _ Hc)).
    by rewrite orb_true_r.
Qed.

(** Watching a secret leaves an outdated section outdated. *)
Lemma onwards_outdated {A} (Q : A -> Prop) (m : M W A) (s : St W) a s' k h :
  onwards "" Q m -> k <> "" -> stands s -> m s = (Ok a, s') -> outdated s k h -> current s ->
  stands s' /\ Q a /\ (exists evs, st_trace s' = st_trace s ++ evs) /\ outdated s' k h /\ current s'.
Proof.
  intros Hm Hk Hs Hr Hout Hc. destruct (onwards_run ns nm sp "" _ _ _ _ _ Hm Hs Hr) as (Hs' & HQ & Ht).
  split_and!; [done..| |].
  - destruct (Hm s (Ok a) s') as (_ & (_ & Hh & _) & _); [destruct Hs as (? & ? & _); by split|done|].
    unfold Desired.outdated, stale in *. by rewrite !Hh.
  - destruct (Hm s (Ok a) s') as (_ & (_ & _ & Hg & _) & _); [destruct Hs as (? & ? & _); by split|done|].
    unfold current. by rewrite Hg.
Qed.

(** The branch ran and the rest of the sub-reconciler kept its events. *)
Lemma branch_reaches {A} key (Q : A -> Prop) P (m : M W A) (f : A -> M W unit) (s s1 s' : St W) e1
    `{!Lasting P} :
  onwards key Q m -> reaches P m -> (forall a, Q a -> onwards key any (f a)) ->
  st_trace s1 = st_trace s ++ e1 -> stands s1 -> (m ≫= f) s1 = (Ok tt, s') ->
  exists evs, st_trace s' = st_trace s ++ evs /\ P evs.
Proof.
  intros Ho Hm Hf E1 Hs1 Hrun.
  assert (reaches (fun e => P e /\ True) (m ≫= f)) as Hreach.
  { apply (reach_both ns nm sp key Q P (fun _ => True)); [apply _..|done|done|].
    intros a Ha. apply (reach_done ns nm sp key). by apply Hf. }
  destruct (Hreach s1 tt s' Hs1 Hrun) as (e2 & E2 & HP & _). exists (e1 ++ e2).
  split; [by rewrite E2, E1, app_assoc|]. rewrite <- (app_nil_r e2). by apply lasting.
Qed.

Lemma zookeeper_deploys zk (s s' : St W) :
  stands s -> cr_Spec (st_cr s) = sp -> sp_ZooKeeper sp = Some zk -> current s ->
  outdated s zooKeeperHashName (Hash marshalZooKeeper (Some zk)) ->
  zooKeeperReconcile s = (Ok tt, s') ->
  exists evs, st_trace s' = st_trace s ++ evs /\ ensemble_deployed W ns nm sp zk evs.
Proof.
  intros Hs Hsp Hzk Hcur Hout Hrun. unfold zooKeeperReconcile in Hrun.
  apply M_bind_Ok in Hrun as (cr & ? & [= <- <-] & Hrun).
  assert (zooKeeperOf (st_cr s) = Ok zk) as Hof by (unfold zooKeeperOf; by rewrite Hsp, Hzk).
  rewrite Hof, Hsp, Hzk in Hrun.
  apply M_bind_Ok in Hrun as (zk' & ? & [= <- <-] & Hrun).
  apply M_bind_Ok in Hrun as (sec & s1 & Hw & Hrun).
  pose proof (onwards_outdated _ _ s sec s1 zooKeeperHashName _
    (watchOwnSecret_ok ns nm (fun _ => True) (onward "") _) ltac:(done) Hs Hw Hout Hcur)
    as (Hs1 & Hsec & [e1 E1] & Hout1 & Hcur1).
  apply M_bind_Ok in Hrun as (h & ? & [= Hh <-] & Hrun).
  rewrite (run_bind _ _ _ _ _ (outdated_changed _ _ _ _ _ _ Hout1 Hcur1 Hh)) in Hrun.
  pose proof (onward_records (W:=W) ns nm sp zooKeeperHashName) as Hrec.
  eapply (branch_reaches zooKeeperHashName (descends W ns sec)); [apply _|..|exact E1|exact Hs1|exact Hrun].
  - apply (reconcileZooKeeper_ok ns nm (fun _ => True) _); [done|by apply server_secret_in].
  - by apply (zookeeper_reaches ns nm sp zooKeeperHashName), server_secret_in.
  - intros sec' Hsec'. eapply (zooKeeperFinish_ok ns nm (fun _ => True) (onward zooKeeperHashName) sec' h); [exact Hrec|done|].
    by apply (descends_server _ sec).
Qed.

Lemma monitoring_deploys mon (s s' : St W) :
  stands s -> sp_MonitoringSpec sp = Some mon -> current s ->
  outdated s monitoringHashName (Hash marshalMonitoring (Some mon)) ->
  monitoringReconcile s = (Ok tt, s') ->
  exists evs, st_trace s' = st_trace s ++ evs /\ monitoring_deployed W ns nm sp evs.
Proof.
  intros Hs Hmon Hcur Hout Hrun. unfold monitoringReconcile in Hrun.
  apply M_bind_Ok in Hrun as (cr & ? & [= <- <-] & Hrun).
  destruct (stands_for_cases _ _ _ _ Hs) as (_ & _ & _ & Hsp & _).
  assert (monitoringOf (st_cr s) = Ok mon) as Hof by (unfold monitoringOf; by rewrite Hsp, Hmon).
  rewrite Hof, Hsp, Hmon in Hrun.
  apply M_bind_Ok in Hrun as (mon' & ? & [= <- <-] & Hrun).
  apply M_bind_Ok in Hrun as (sec & s1 & Hw & Hrun).
  pose proof (onwards_outdated _ _ s sec s1 monitoringHashName _
    (watchOwnSecret_ok ns nm (fun _ => True) (onward "") _) ltac:(done) Hs Hw Hout Hcur)
    as (Hs1 & Hsec & [e1 E1] & Hout1 & Hcur1).
  apply M_bind_Ok in Hrun as (bsec & s2 & Hb & Hrun).
  pose proof (onwards_outdated _ _ s1 bsec s2 monitoringHashName _
    (watchBackupDaemonSecret_ok ns nm (fun _ => True) (onward "")) ltac:(done) Hs1 Hb Hout1 Hcur1)
    as (Hs2 & Hbsec & [e2 E2] & Hout2 & Hcur2).
  rewrite E1, <- app_assoc in E2.
  apply M_bind_Ok in Hrun as (h & ? & [= Hh <-] & Hrun).
  rewrite (run_bind _ _ _ _ _ (outdated_changed _ _ _ _ _ _ Hout2 Hcur2 Hh)) in Hrun.
  pose proof (onward_records (W:=W) ns nm sp monitoringHashName) as Hrec.
  eapply (branch_reaches monitoringHashName (descends W ns sec)); [apply _|..|exact E2|exact Hs2|exact Hrun].
  - apply (reconcileMonitoring_ok ns nm (fun _ => True) _); [done|by apply server_secret_in].
  - by apply (monitoring_reaches ns nm sp monitoringHashName), server_secret_in.
  - intros sec' Hsec'. eapply (monitoringFinish_ok ns nm (fun _ => True) (onward monitoringHashName) sec' bsec h); [exact Hrec|done|exact Hbsec|].
    by apply (descends_server _ sec).
Qed.

Lemma backup_deploys bd (s s' : St W) :
  stands s -> sp_BackupDaemon sp = Some bd -> current s ->
  outdated s backupDaemonHashName (Hash marshalBackupDaemon (Some bd)) ->
  backupDaemonReconcile s = (Ok tt, s') ->
  exists evs, st_trace s' = st_trace s ++ evs /\ backup_deployed W ns nm sp evs.
Proof.
  intros Hs Hbd Hcur Hout Hrun. unfold backupDaemonReconcile in Hrun.
  apply M_bind_Ok in Hrun as (cr & ? & [= <- <-] & Hrun).
  destruct (stands_for_cases _ _ _ _ Hs) as (_ & _ & _ & _ & Hsp & _).
  assert (backupDaemonOf (st_cr s) = Ok bd) as Hof by (unfold backupDaemonOf; by rewrite Hsp, Hbd).
  rewrite Hof, Hsp, Hbd in Hrun.
  apply M_bind_Ok in Hrun as (bd' & ? & [= <- <-] & Hrun).
  apply M_bind_Ok in Hrun as (sec & s1 & Hw & Hrun).
  pose proof (onwards_outdated _ _ s sec s1 backupDaemonHashName _
    (watchOwnSecret_ok ns nm (fun _ => True) (onward "") _) ltac:(done) Hs Hw Hout Hcur)
    as (Hs1 & Hsec & [e1 E1] & Hout1 & Hcur1).
  apply M_bind_Ok in Hrun as (s3sec & s2 & Hb & Hrun).
  pose proof (onwards_outdated _ _ s1 s3sec s2 backupDaemonHashName _
    (watchS3Secret_ok ns nm (fun _ => True) (onward "") _) ltac:(done) Hs1 Hb Hout1 Hcur1)
    as (Hs2 & Hs3 & [e2 E2] & Hout2 & Hcur2).
  apply M_bind_Ok in Hrun as (al & s3 & Ha & Hrun). cbv beta iota zeta in Hrun.
  pose proof (onwards_outdated _ _ s2 al s3 backupDaemonHashName _
    (findS3AliasesSecret_ok ns nm (fun _ => True) (onward "")) ltac:(done) Hs2 Ha Hout2 Hcur2)
    as (Hs3' & Hal & [e3 E3] & Hout3 & Hcur3).
  rewrite E2, E1, <- !app_assoc in E3.
  apply M_bind_Ok in Hrun as (h & ? & [= Hh <-] & Hrun).
  rewrite (run_bind _ _ _ _ _ (outdated_changed _ _ _ _ _ _ Hout3 Hcur3 Hh)) in Hrun.
  pose proof (onward_records (W:=W) ns nm sp backupDaemonHashName) as Hrec.
  eapply (branch_reaches backupDaemonHashName (descends W ns sec)); [apply _|..|exact E3|exact Hs3'|exact Hrun].
  - apply (reconcileBackupDaemon_ok ns nm (fun _ => True) _); [done|by apply server_secret_in].
  - by apply (backup_reaches ns nm sp backupDaemonHashName), server_secret_in.
  - intros sec' Hsec'. eapply (backupDaemonFinish_ok ns nm (fun _ => True) (onward backupDaemonHashName) sec' s3sec (fst al) h); [exact Hrec|done|exact Hs3|exact Hal|].
    by apply (descends_server _ sec).
Qed.

Lemma zookeeper_onwards : onwards zooKeeperHashName any zooKeeperReconcile.
Proof. apply (zooKeeperReconcile_ok ns nm (fun _ => True) _); [apply onward_records|done]. Qed.
Lemma monitoring_onwards : onwards monitoringHashName any monitoringReconcile.
Proof. apply (monitoringReconcile_ok ns nm (fun _ => True) _); [apply onward_records|done]. Qed.
Lemma backup_onwards : onwards backupDaemonHashName any backupDaemonReconcile.
Proof. apply (backupDaemonReconcile_ok ns nm (fun _ => True) _); [apply onward_records|done]. Qed.

(** A sub-reconciler keeps the other sections' business. *)
Lemma opt_onward {A} key (o : option A) (m : M W unit) (s s' : St W) :
  onwards key any m -> stands s -> (match o with Some _ => m s = (Ok tt, s') | None => s' = s end) ->
  (exists evs, st_trace s' = st_trace s ++ evs) /\ stands s' /\ (current s -> current s') /\
  (forall k h, k <> key -> globalHashName <> key -> outdated s k h -> outdated s' k h).
Proof.
  intros Hm Hs Hr. destruct o as [a|]; [|subst; split_and!; auto; exists []; by rewrite app_nil_r].
  destruct (Hm s (Ok tt) s') as (_ & (Ht & Hh & Hg & Hs') & _);
    [destruct Hs as (? & ? & _); by split|done|].
  split_and!; [done|auto|unfold current; by rewrite Hg|].
  intros k h Hk Hgl. unfold Desired.outdated, stale. by rewrite !Hh.
Qed.

#[local] Instance lasting_deployed s : Lasting (deployed W ns nm sp s).
Proof. unfold deployed. apply _. Qed.

Lemma reconcilers_deploy cr (s s' : St W) :
  cr_Spec cr = sp -> stands s -> cr_Spec (st_cr s) = sp -> current s ->
  runReconcilers (buildReconcilers cr) s = (Ok tt, s') ->
  stands s' /\ exists evs, st_trace s' = st_trace s ++ evs /\ deployed W ns nm sp s evs.
Proof.
  intros Hcr Hs Hsp Hcur Hrun. unfold buildReconcilers in Hrun. rewrite Hcr, !runReconcilers_app in Hrun.
  apply M_bind_Ok in Hrun as ([] & s1 & H1%opt_reconciler & Hrun).
  rewrite runReconcilers_app in Hrun.
  apply M_bind_Ok in Hrun as ([] & s2 & H2%opt_reconciler & Hrun).
  rewrite runReconcilers_app in Hrun.
  apply M_bind_Ok in Hrun as ([] & s3 & H3%opt_reconciler & H4%opt_reconciler).
  assert (s' = s3) as -> by (destruct (sp_IntegrationTests sp); [by injection H4|done]). clear H4.
  destruct (opt_onward zooKeeperHashName (sp_ZooKeeper sp) zooKeeperReconcile s s1)
    as ([e1 E1] & Hs1 & Hc1 & Ho1); [apply zookeeper_onwards|done|done|].
  destruct (opt_onward monitoringHashName (sp_MonitoringSpec sp) monitoringReconcile s1 s2)
    as ([e2 E2] & Hs2 & Hc2 & Ho2); [apply monitoring_onwards|done|done|].
  destruct (opt_onward backupDaemonHashName (sp_BackupDaemon sp) backupDaemonReconcile s2 s3)
    as ([e3 E3] & Hs3 & Hc3 & _); [apply backup_onwards|done|done|].
  split; [done|]. exists (e1 ++ e2 ++ e3). split; [by rewrite E3, E2, E1, !app_assoc|].
  split_and!; [intros zk Hzk Hout|intros mon Hmon Hout|intros bd Hbd Hout].
  - rewrite Hzk in H1. destruct (zookeeper_deploys zk s s1) as (e & E & HP); [done..|].
    rewrite E in E1. apply app_inv_head in E1 as ->. by apply (lasting [] e1).
  - rewrite Hmon in H2. destruct (monitoring_deploys mon s1 s2) as (e & E & HP); [auto..|].
    rewrite E in E2. apply app_inv_head in E2 as ->. by apply lasting.
  - rewrite Hbd in H3. destruct (backup_deploys bd s2 s3) as (e & E & HP); [auto..|].
    rewrite E in E3. apply app_inv_head in E3 as ->. rewrite <- (app_nil_r (e1 ++ e2 ++ e3)), <- !app_assoc, app_assoc.
    by apply lasting.
Qed.

Lemma runCycle_deploys (s : St W) h s' :
  named ns nm s -> cr_Spec (st_cr s) = sp -> runCycle s = (Ok h, s') ->
  exists evs, st_trace s' = st_trace s ++ evs /\ deployed W ns nm sp s evs.
Proof.
  intros Hn Hsp Hrun.
  unfold runCycle in Hrun. apply M_bind_Ok in Hrun as (? & ? & [= <- <-] & Hrun).
  apply M_bind_Ok in Hrun as (? & ? & [= _ <-] & Hrun).
  apply M_bind_Ok in Hrun as (? & s1 & Hg & Hrun).
  unfold hashGlobalSection in Hg. rewrite Hsp in Hg.
  destruct (Hash marshalGlobal (sp_Global sp)) as [hg|e|p] eqn:Hgl; [|done..].
  injection Hg as _ <-. apply M_bind_Ok in Hrun as (? & ? & [= _ <-] & Hrun). cbv zeta in Hrun.
  assert (stands (set_globalHash hg s)) as Hs1 by (destruct Hn; split_and!; [done..|by simpl; rewrite Hsp]).
  assert (current (set_globalHash hg s)) as Hc1 by done.
  apply M_bind_Ok in Hrun as ([] & s2 & Hst & Hrun).
  pose proof (startCycle_spec ns nm sp _ (set_globalHash hg s) _ Hn Hsp Hst) as Hsp2.
  destruct (startCycle_ok ns nm (fun _ => True) (onward "") _ (set_globalHash hg s) _ _ Hn Hst)
    as (Hn2 & ([e2 E2] & Hh2 & Hg2 & Hs2) & _). specialize (Hs2 Hs1).
  apply M_bind_Ok in Hrun as ([] & s3 & Hv & Hrun).
  apply initVault_same in Hv as (Hc3 & Hh3 & Hg3 & _ & Ht3).
  apply M_bind_Ok in Hrun as (? & ? & [= <- <-] & Hrun).
  apply M_bind_Ok in Hrun as ([] & s4 & Hrec & Hrun).
  apply reconcilers_deploy in Hrec as (Hs4 & e4 & E4 & HP);
    [|by rewrite Hc3..|unfold current; by rewrite Hg3, Hg2].
  apply M_bind_Ok in Hrun as ([] & s5 & Hup & Hrun).
  assert (named ns nm s4) as Hn4 by (destruct Hs4 as (? & ? & _); by split).
  destruct (updateStatus_ok ns nm (fun _ => True) (onward "") _ _ _ Hn4 Hup) as (Hn5 & ([e5 E5] & _) & _).
  apply M_bind_Ok in Hrun as ([] & s6 & Hfin & [= -> ->]).
  destruct (finishCycle_ok ns nm (fun _ => True) (onward "") _ _ _ _ _ Hn5 Hfin) as (_ & ([e6 E6] & _) & _).
  exists (e2 ++ e4 ++ (e5 ++ e6)). split; [rewrite E6, E5, E4, Ht3, E2; simpl; by rewrite !app_assoc|].
  apply lasting. unfold deployed, Desired.outdated, stale in *. rewrite Hh3 in HP.
  rewrite !Hh2 in HP by done. exact HP.
Qed.

(** C1: A successful cycle implements the specification: for every section of
    the resource that changed since its hash was recorded (or that was never
    recorded, as after a start of the operator), and for all sections when the
    global section changed, it has sent every service and every deployment
    that the builders make of the stored spec to the API server, for each
    server of the ensemble, the monitoring and the backup daemon, with the
    name, labels, ports, selector, replicas, strategy and pod spec that were
    built, and the API server has accepted each of them. *)
Theorem spec_implemented (s s' : St W) :
  Reconcile ns nm s = (Ok tt, s') ->
  exists evs, st_trace s' = st_trace s ++ evs /\ deployed W ns nm sp s evs.
Proof.
  intros [(inst & s1 & Hget & Hn & Hsp & Hrun)|[? _]]%(Reconcile_fetched ns nm sp); [|done].
  unfold reconcileInstance in Hrun. apply M_bind_Ok in Hrun as (h & s2 & Hrun & Hrec).
  rewrite recordHashes_run in Hrec. injection Hrec as <-.
  apply runCycle_deploys in Hrun as (e2 & E2 & HP); [|done..].
  unfold client_Get in Hget. destruct (kc_get KCR ns nm (st_world s)) as [r0 w].
  injection Hget as _ <-. eexists (_ :: e2). simpl. rewrite E2. simpl. rewrite <- app_assoc. split; [done|].
  rewrite <- (app_nil_r e2). by apply (lasting [_]).
Qed.
End cycle.
