(* ===== verification/Steady.v ===== *)
(** * The cycles after a successful one

    With the records of [Converge]: a cycle that starts from settled records
    creates nothing, writes nothing to Vault, and updates nothing but the
    secrets it watches, the restart annotations of the deployments and the
    status; and it keeps the records settled, whatever its result. *)

From S2P Require Import Prelude GoStrings Types Util Provider Platform Conditions Reconciler Vault.
From S2P Require Import ZooKeeperProvider MonitoringProvider BackupDaemonProvider.
From S2P Require Import ZooKeeperVault Fragments Frames ZooKeeperReconciler MonitoringReconciler.
From S2P Require Import BackupDaemonReconciler Quiescence Controller Converge Cycle.

(** Calls that leave the cluster as it is, up to the secrets' owners and the
    status of the resource. *)
Definition harmless (e : Event) : Prop :=
  match e with
  | EvGet _ _ _ _ | EvList _ _ _ | EvUpdate KSecret _ | EvStatusUpdate _ => True
  | _ => False
  end.

(** Harmless calls and refreshes of restart annotations. *)
Inductive steady : list Event -> Prop :=
| steady_nil : steady []
| steady_call e evs : harmless e -> steady evs -> steady (e :: evs)
| steady_annotations ns n d d' evs : same_but_annotations d d' -> steady evs ->
    steady (EvGet KDeployment ns n (Ok d) :: EvUpdate KDeployment d' :: evs).

Definition steadies {W} (s s' : St W) : Prop :=
  exists evs, st_trace s' = st_trace s ++ evs /\ steady evs.

(** Steady calls that also leave the recorded hashes and the resource. *)
Definition leaves {W} (s s' : St W) : Prop :=
  steadies s s' /\ st_hashes s' = st_hashes s /\ st_cr s' = st_cr s.

(** Every section of the resource is settled, and so are the hashes of the
    whole spec and of the global section. *)
Definition converged {W} `{Encoders} (nm : string) (sp : ZooKeeperServiceSpec)
    (ver : string -> option string) (s : St W) : Prop :=
  (forall zk, sp_ZooKeeper sp = Some zk ->
     settled ver zooKeeperHashName (Hash marshalZooKeeper (Some zk)) (zooKeeperSecrets zk) s) /\
  (forall mon, sp_MonitoringSpec sp = Some mon ->
     settled ver monitoringHashName (Hash marshalMonitoring (Some mon)) (monitoringSecrets mon sp) s) /\
  (forall bd, sp_BackupDaemon sp = Some bd ->
     settled ver backupDaemonHashName (Hash marshalBackupDaemon (Some bd)) (backupSecrets nm bd) s) /\
  settled ver specHashName (Hash marshalSpec sp) [] s /\
  settled ver globalHashName (Hash marshalGlobal (sp_Global sp)) [] s.

(** Time passes and the resource is reconciled once more. *)
Definition next_cycle {W} `{KubeClient W} `{WaitLib W} `{Quantities} `{VaultApi W} `{Passwords W}
    `{Encoders} (ns nm : string) (s s' : St W) : Prop :=
  exists w r, Reconcile ns nm (set_world w s) = (r, s').

(** ** Lemmas *)

Lemma steady_app e1 e2 : steady e1 -> steady e2 -> steady (e1 ++ e2).
Proof. intros H1 H2. induction H1; simpl; [done|by constructor|by constructor]. Qed.

Lemma steadies_same {W} (s s' : St W) : st_trace s' = st_trace s -> steadies s s'.
Proof. intros Ht. exists []. rewrite app_nil_r. split; [done|constructor]. Qed.

Lemma steadies_one {W} e (s s' : St W) :
  harmless e -> st_trace s' = st_trace s ++ [e] -> steadies s s'.
Proof. intros He Ht. exists [e]. split; [done|by repeat constructor]. Qed.

#[global] Instance steadies_preorder {W} : PreOrder (steadies (W:=W)).
Proof.
  split; [by intros s; apply steadies_same|].
  intros s1 s2 s3 (e1 & H1 & F1) (e2 & H2 & F2). exists (e1 ++ e2).
  rewrite H2, H1, app_assoc. split; [done|by apply steady_app].
Qed.

#[global] Instance leaves_frame {W} : WatchFrame (W:=W) leaves.
Proof.
  split; [split; [split|intros; by repeat split; try apply steadies_same|done]|..].
  - intros s. by split; [apply steadies_same|].
  - intros s1 s2 s3 (? & ? & ?) (? & ? & ?). split_and!; [by etrans|congruence..].
  - intros. split; [|done]. by eapply steadies_one; [|reflexivity].
  - intros. split; [|done]. by eapply steadies_one; [|reflexivity].
Qed.

Lemma idle_leaves {W} (s s' : St W) : idle s s' -> leaves s s'.
Proof.
  intros (Hc & Hh & evs & Ht & Hr). split_and!; [|done..]. exists evs. split; [done|]. clear Ht.
  induction Hr; by constructor.
Qed.

(** A watch that returned, or the end of a run in which it failed. *)
Lemma watch_leaves {W A} (m : M W A) s r s' :
  holds (fun _ : St W => True) leaves any m -> m s = (r, s') -> leaves s s'.
Proof. intros Hm Hr. by destruct (Hm s r s' I Hr) as (_ & ? & _). Qed.

Lemma updateConditions_steadies {W} `{!KubeClient W} c (s : St W) r s' :
  updateConditions c s = (r, s') -> steadies s s'.
Proof. intros [t Ht]%updateConditions_run. by eapply steadies_one; [|exact Ht]. Qed.

(** The report of a failure is one status update. *)
Lemma orWriteFailed_steadies {W A} `{!KubeClient W} (m : M W A) msg (s : St W) r s' r1 s1 :
  m s = (r1, s1) -> steadies s s1 -> orWriteFailed m msg s = (r, s') -> steadies s s'.
Proof.
  intros Hm Hs. unfold orWriteFailed, writeFailedStatus, throw, try_, mbind, M_bind. rewrite Hm.
  destruct r1 as [a|e|p]; [by intros [= _ <-]| |by intros [= _ <-]].
  destruct (updateConditions _ s1) as [r2 s2] eqn:E. apply updateConditions_steadies in E.
  destruct r2; intros [= _ <-]; by etrans.
Qed.


Section cycles.
Context {W : Type} `{!KubeClient W} `{!KubeLaws W} `{!WaitLib W} `{!WaitLaws W}.
Context `{!Quantities} `{!VaultApi W} `{!Passwords W} `{!Encoders}.
Context (ns nm : string) (sp : ZooKeeperServiceSpec) (ver : string -> option string).
Context `{!Undisturbed W ns nm sp ver}.
#[local] Abbreviation calm := (calm (W:=W) ns nm sp ver).
#[local] Abbreviation converged := (converged (W:=W) nm sp ver).

Lemma converged_calm s s' : calm "" s s' -> converged s -> converged s'.
Proof.
  intros Hc (Hz & Hm & Hb & Hs & Hg). split_and!; [intros zk Hzk|intros mon Hmon|intros bd Hbd|..];
    eapply (settled_calm ns nm sp ver); by eauto.
Qed.

(** The same hashes, and no version forgotten. *)
Lemma converged_kept k s s' :
  calm k s s' -> st_hashes s' = st_hashes s -> converged s -> converged s'.
Proof.
  intros (_ & Hg & Hk & Hn) Hh. apply converged_calm. split_and!; [|done..]. intros j _. by rewrite Hh.
Qed.

(** *** The first cycle *)

(** The report of a failure changes nothing that is recorded. *)
Lemma orWriteFailed_kept {A} (m : M W A) msg s r s' r1 s1 :
  m s = (r1, s1) -> named ns nm s1 -> orWriteFailed m msg s = (r, s') -> calm "" s1 s'.
Proof.
  intros Hm Hn. unfold orWriteFailed, try_, mbind, M_bind. rewrite Hm.
  destruct r1 as [a|e|p]; [intros [= _ <-]; reflexivity| |intros [= _ <-]; reflexivity].
  destruct (writeFailedStatus (msg e) s1) as [r2 s2] eqn:E.
  destruct (writeFailedStatus_ok ns nm (fun _ => True) (calm "") _ s1 r2 s2 Hn E) as (_ & ? & _).
  destruct r2; intros [= _ <-]; done.
Qed.

Lemma section_calm k (m : M W unit) s r s' :
  holds (named ns nm) (calm k) any m -> named ns nm s -> m s = (r, s') -> calm k s s'.
Proof. intros Hm Hn Hr. by destruct (Hm s r s' Hn Hr) as (_ & ? & _). Qed.

Lemma zookeeper_calm s r s' :
  named ns nm s -> zooKeeperReconcile s = (r, s') -> calm zooKeeperHashName s s'.
Proof.
  apply section_calm, (zooKeeperReconcile_ok ns nm (fun _ => True) (calm zooKeeperHashName));
    [apply calm_records|done].
Qed.

Lemma monitoring_calm s r s' :
  named ns nm s -> monitoringReconcile s = (r, s') -> calm monitoringHashName s s'.
Proof.
  apply section_calm, (monitoringReconcile_ok ns nm (fun _ => True) (calm monitoringHashName));
    [apply calm_records|done].
Qed.

Lemma backup_calm s r s' :
  named ns nm s -> backupDaemonReconcile s = (r, s') -> calm backupDaemonHashName s s'.
Proof.
  apply section_calm, (backupDaemonReconcile_ok ns nm (fun _ => True) (calm backupDaemonHashName));
    [apply calm_records|done].
Qed.

(** The sections that a successful run of all sub-reconcilers settles. *)
Lemma reconcilers_settle cr (s s' : St W) :
  cr_Spec cr = sp -> named ns nm s -> cr_Spec (st_cr s) = sp ->
  runReconcilers (buildReconcilers cr) s = (Ok tt, s') ->
  (forall zk, sp_ZooKeeper sp = Some zk ->
     settled ver zooKeeperHashName (Hash marshalZooKeeper (Some zk)) (zooKeeperSecrets zk) s') /\
  (forall mon, sp_MonitoringSpec sp = Some mon ->
     settled ver monitoringHashName (Hash marshalMonitoring (Some mon)) (monitoringSecrets mon sp) s') /\
  (forall bd, sp_BackupDaemon sp = Some bd ->
     settled ver backupDaemonHashName (Hash marshalBackupDaemon (Some bd)) (backupSecrets nm bd) s') /\
  named ns nm s' /\ st_globalHash s' = st_globalHash s.
Proof.
  intros Hcr Hn Hsp Hrun. unfold buildReconcilers in Hrun. rewrite Hcr, !runReconcilers_app in Hrun.
  apply M_bind_Ok in Hrun as ([] & s1 & H1%opt_reconciler & Hrun).
  rewrite runReconcilers_app in Hrun.
  apply M_bind_Ok in Hrun as ([] & s2 & H2%opt_reconciler & Hrun).
  rewrite runReconcilers_app in Hrun.
  apply M_bind_Ok in Hrun as ([] & s3 & H3%opt_reconciler & H4%opt_reconciler).
  assert (s' = s3) as -> by (destruct (sp_IntegrationTests sp); [by injection H4|done]). clear H4.
  assert (calm zooKeeperHashName s s1) as C1.
  { destruct (sp_ZooKeeper sp); [by eapply zookeeper_calm|subst; reflexivity]. }
  destruct (proj2 (proj2 (proj2 C1)) Hn) as [Hn1 Hs1]; [by rewrite <- Hsp|].
  assert (calm monitoringHashName s1 s2) as C2.
  { destruct (sp_MonitoringSpec sp); [by eapply monitoring_calm|subst; reflexivity]. }
  destruct (proj2 (proj2 (proj2 C2)) Hn1 Hs1) as [Hn2 Hs2].
  assert (calm backupDaemonHashName s2 s3) as C3.
  { destruct (sp_BackupDaemon sp); [by eapply backup_calm|subst; reflexivity]. }
  destruct (proj2 (proj2 (proj2 C3)) Hn2 Hs2) as [Hn3 Hs3].
  split_and!; [intros zk Hzk|intros mon Hmon|intros bd Hbd|done|].
  - rewrite Hzk in H1. eapply settled_calm; [|exact C3|]; [done|].
    eapply settled_calm; [|exact C2|]; [done|]. eapply (zookeeper_settles ns nm sp _ _ s); [done..| |done]. by rewrite Hsp.
  - rewrite Hmon in H2. eapply settled_calm; [|exact C3|]; [done|]. by eapply (monitoring_settles ns nm sp _ _ s1).
  - rewrite Hbd in H3. by eapply (backup_settles ns nm sp _ _ s2).
  - destruct C1 as (_ & ? & _), C2 as (_ & ? & _), C3 as (_ & ? & _). congruence.
Qed.

Lemma initVault_steadies (s : St W) r s' : initVault s = (r, s') -> steadies s s'.
Proof.
  unfold initVault. rewrite (run_bind _ _ s (st_cr s) s) by done.
  unfold when. case_match; [|intros [= <- <-]; by apply steadies_same]. intros Hv.
  destruct (InitVaultClient s) as [r1 s1] eqn:E.
  destruct (InitVaultClient_untouched s r1 s1 I E) as (_ & Hu & _).
  eapply orWriteFailed_steadies; [exact E|apply steadies_same, Hu|exact Hv].
Qed.

Lemma runCycle_converges (s : St W) h s' :
  named ns nm s -> cr_Spec (st_cr s) = sp -> runCycle s = (Ok h, s') ->
  converged (set_hashes (<[globalHashName := st_globalHash s']>
                           (<[specHashName := h]> (st_hashes s'))) s').
Proof.
  intros Hn Hsp Hrun. pose proof Hrun as Hh%runCycle_hash. rewrite Hsp in Hh.
  unfold runCycle in Hrun. apply M_bind_Ok in Hrun as (? & ? & [= <- <-] & Hrun).
  apply M_bind_Ok in Hrun as (? & ? & [= _ <-] & Hrun).
  apply M_bind_Ok in Hrun as (? & s1 & Hg & Hrun).
  unfold hashGlobalSection in Hg. rewrite Hsp in Hg.
  destruct (Hash marshalGlobal (sp_Global sp)) as [hg|e|p] eqn:Hgl; [|done..].
  injection Hg as _ <-. apply M_bind_Ok in Hrun as (? & ? & [= _ <-] & Hrun). cbv zeta in Hrun.
  apply M_bind_Ok in Hrun as ([] & s2 & Hst & Hrun).
  pose proof (startCycle_spec ns nm sp _ (set_globalHash hg s) _ Hn Hsp Hst) as Hsp2.
  destruct (startCycle_ok ns nm (fun _ => True) (calm "") _ (set_globalHash hg s) _ _ Hn Hst)
    as (Hn2 & C2 & _).
  apply M_bind_Ok in Hrun as ([] & s3 & Hv & Hrun).
  apply initVault_same in Hv as (Hc3 & Hh3 & Hg3 & _).
  apply M_bind_Ok in Hrun as (? & ? & [= <- <-] & Hrun).
  apply M_bind_Ok in Hrun as ([] & s4 & Hrec & Hrun).
  apply reconcilers_settle in Hrec as (Hz & Hm & Hb & Hn4 & Hg4);
    [|by rewrite Hc3|by unfold named; rewrite Hc3|by rewrite Hc3].
  apply M_bind_Ok in Hrun as ([] & s5 & Hup & Hrun).
  destruct (updateStatus_ok ns nm (fun _ => True) (calm "") _ _ _ Hn4 Hup) as (Hn5 & C5 & _).
  apply M_bind_Ok in Hrun as ([] & s6 & Hfin & [= -> ->]).
  destruct (finishCycle_ok ns nm (fun _ => True) (calm "") _ _ _ _ _ Hn5 Hfin) as (_ & C6 & _).
  assert (calm "" s4 s') as C by by etrans.
  assert (st_globalHash s' = hg) as ->.
  { destruct C as (_ & -> & _). rewrite Hg4, Hg3. by destruct C2 as (_ & -> & _). }
  assert (forall k hk l, k <> "" -> k <> specHashName -> k <> globalHashName ->
    settled ver k hk l s4 -> settled ver k hk l (set_hashes (<[globalHashName := hg]>
      (<[specHashName := h]> (st_hashes s'))) s')) as Hkeep.
  { intros k hk l H1 H2 H3 Hk. eapply (settled_calm ns nm sp ver) in Hk; [|..|exact C]; [|done..].
    destruct Hk as [(v & -> & Hkv) Hl]. split; [|done]. exists v. split; [done|]. simpl.
    by rewrite !lookup_insert_ne. }
  split_and!; [intros zk Hzk|intros mon Hmon|intros bd Hbd|..]; try (by apply Hkeep; auto).
  - split; [|done]. exists h. split; [done|]. simpl. by rewrite lookup_insert_ne, lookup_insert_eq.
  - split; [|done]. exists hg. split; [done|]. apply lookup_insert_eq.
Qed.

(** *** A further cycle *)

(** The state in which a sub-reconciler has nothing to do. *)
Definition ready (s : St W) : Prop :=
  named ns nm s /\ cr_Spec (st_cr s) = sp /\ converged s /\
  Hash marshalGlobal (sp_Global sp) = Ok (st_globalHash s).

Lemma ready_kept k s s' :
  calm k s s' -> st_hashes s' = st_hashes s -> st_cr s' = st_cr s -> ready s -> ready s'.
Proof.
  intros Hc Hh Hcr (Hn & Hsp & Hcv & Hg). unfold ready, named. rewrite Hcr.
  refine (conj Hn (conj Hsp (conj _ _))); [by eapply converged_kept|]. by destruct Hc as (_ & -> & _).
Qed.

Lemma ready_untouched s s' : untouched s s' -> ready s -> ready s'.
Proof.
  intros (Hc & Hh & Hg & Hv & _). apply (ready_kept ""); [|done..].
  split_and!; [intros; by rewrite Hh|done|by rewrite Hv|]. unfold named. by rewrite Hc.
Qed.

(** A settled section is up to date for the secrets that stand for its names. *)
Lemma settled_up_to_date k h v l secrets (s : St W) :
  ready s -> settled ver k h l s -> h = Ok v ->
  Forall (fun o => exists l', l' ⊆ l /\ covers ver l' o) secrets -> up_to_date k v secrets s.
Proof.
  intros (_ & _ & (_ & _ & _ & _ & [(g & Hg1 & Hg2) _]) & Hg) [(v' & Hv1 & Hv2) Hl] Hv Hsec.
  rewrite Forall_forall in Hl. split_and!; [congruence|congruence|].
  eapply Forall_impl; [exact Hsec|]. intros o (l' & Hsub & Hcov).
  eapply known_unchanged; [exact Hcov|]. apply Forall_forall. intros n Hn. by apply Hl, Hsub.
Qed.

Lemma zookeeper_steady zk s r s' :
  ready s -> sp_ZooKeeper sp = Some zk -> zooKeeperReconcile s = (r, s') -> leaves s s'.
Proof.
  intros Hready Hzk Hrun. pose proof Hready as (Hn & Hsp & (Hset & _) & _).
  specialize (Hset zk Hzk). destruct (Hset) as [(h & Hh & _) _].
  pose proof Hrun as Hpre. unfold zooKeeperReconcile, zooKeeperOf in Hpre.
  rewrite (run_bind _ _ s (st_cr s) s), Hsp, Hzk in Hpre by done.
  rewrite (run_bind _ _ s zk s) in Hpre by done.
  apply M_bind_inv in Hpre as [(sec & s1 & Hw & _)|[(e & Hw & _)|(p & Hw & _)]];
    [|by apply (watch_leaves _ _ _ _ (watchOwnSecret_watched _ _) Hw)..].
  etrans; [by apply (watch_leaves _ _ _ _ (watchOwnSecret_watched _ _) Hw)|].
  apply idle_leaves, (zookeeper_quiescent zk sec h s s1 r s'); [by rewrite Hsp|done..| |done].
  eapply settled_up_to_date; [done|exact Hset|done|].
  apply Forall_singleton. exists [zk_SecretName zk]. split; [done|].
  by eapply covers_own, (watchOwnSecret_runs ns nm sp).
Qed.

Lemma monitoring_steady mon s r s' :
  ready s -> sp_MonitoringSpec sp = Some mon -> monitoringReconcile s = (r, s') -> leaves s s'.
Proof.
  intros Hready Hmon Hrun. pose proof Hready as (Hn & Hsp & (_ & Hset & _) & _).
  specialize (Hset mon Hmon). destruct (Hset) as [(h & Hh & _) _].
  pose proof Hrun as Hpre. unfold monitoringReconcile, monitoringOf in Hpre.
  rewrite (run_bind _ _ s (st_cr s) s), Hsp, Hmon in Hpre by done.
  rewrite (run_bind _ _ s mon s) in Hpre by done.
  apply M_bind_inv in Hpre as [(sec & s1 & Hw & Hpre)|[(e & Hw & _)|(p & Hw & _)]];
    pose proof (watch_leaves _ _ _ _ (watchOwnSecret_watched _ _) Hw) as H1; try done.
  pose proof Hw as (Hsec & _ & Hn1 & Hm1)%(own_secret_runs ns nm sp ver); [|done].
  etrans; [exact H1|].
  apply M_bind_inv in Hpre as [(bsec & s2 & Hb & _)|[(e & Hb & _)|(p & Hb & _)]];
    pose proof (watch_leaves _ _ _ _ (watchBackupDaemonSecret_watched _) Hb) as H2; try done.
  etrans; [exact H2|].
  apply idle_leaves, (monitoring_quiescent mon sec bsec h s s1 s2 r s'); [by rewrite Hsp|done..| |done].
  eapply settled_up_to_date; [done|exact Hset|done|].
  apply Forall_cons; split; [|apply Forall_singleton].
  - exists [mon_SecretName mon]. split; [|by apply covers_own].
    intros x Hx. apply elem_of_cons in Hx as [->|Hx]; [constructor|by apply elem_of_nil in Hx].
  - exists (backupSecret (sp_BackupDaemon sp)). split; [intros x Hx; by constructor|].
    eapply (backup_secret_runs ns nm sp ver s1); [done| |done].
    by rewrite (proj1 Hm1), Hsp.
Qed.

Lemma backup_steady bd s r s' :
  ready s -> sp_BackupDaemon sp = Some bd -> backupDaemonReconcile s = (r, s') -> leaves s s'.
Proof.
  intros Hready Hbd Hrun. pose proof Hready as (Hn & Hsp & (_ & _ & Hset & _) & _).
  specialize (Hset bd Hbd). destruct (Hset) as [(h & Hh & _) _].
  pose proof Hrun as Hpre. unfold backupDaemonReconcile, backupDaemonOf in Hpre.
  rewrite (run_bind _ _ s (st_cr s) s), Hsp, Hbd in Hpre by done.
  rewrite (run_bind _ _ s bd s) in Hpre by done.
  apply M_bind_inv in Hpre as [(sec & s1 & Hw & Hpre)|[(e & Hw & _)|(p & Hw & _)]];
    pose proof (watch_leaves _ _ _ _ (watchOwnSecret_watched _ _) Hw) as H1; try done.
  pose proof Hw as (Hsec & _ & Hn1 & Hm1)%(own_secret_runs ns nm sp ver); [|done].
  etrans; [exact H1|].
  apply M_bind_inv in Hpre as [(s3 & s2 & Hb & Hpre)|[(e & Hb & _)|(p & Hb & _)]];
    pose proof (watch_leaves _ _ _ _ (watchS3Secret_watched _ _) Hb) as H2; try done.
  assert (named ns nm s2) as Hn2 by (unfold named; by rewrite (proj2 (proj2 H2))).
  etrans; [exact H2|].
  apply M_bind_inv in Hpre as [(al & s3' & Ha & _)|[(e & Ha & _)|(p & Ha & _)]];
    pose proof (watch_leaves _ _ _ _ (findS3AliasesSecret_watched _) Ha) as H3; try done.
  etrans; [exact H3|].
  apply idle_leaves, (backup_quiescent bd sec s3 al h s s1 s2 s3' r s'); [by rewrite Hsp|done..| |done].
  eapply settled_up_to_date; [done|exact Hset|done|]. unfold backupSecrets.
  apply Forall_cons; split; [|apply Forall_cons; split; [|apply Forall_singleton]].
  - exists [bd_SecretName bd]. split; [|by apply covers_own].
    intros x Hx. apply elem_of_cons in Hx as [->|Hx]; [constructor|by apply elem_of_nil in Hx].
  - exists (s3Secrets bd). split; [intros x Hx; set_solver|].
    by eapply (s3_secret_runs ns nm sp ver bd s1).
  - exists [nm +:+ "-backup-daemon-s3-aliases"]. split; [intros x Hx; set_solver|].
    by eapply (aliases_secret_runs ns nm sp ver s2).
Qed.

Lemma reconcilers_steady cr rc s r s' :
  cr_Spec cr = sp -> rc ∈ buildReconcilers cr -> ready s -> rs_Reconcile rc s = (r, s') ->
  steadies s s' /\ ready s'.
Proof.
  intros Hcr Hin Hready Hrun. pose proof Hready as (Hn & _).
  enough (leaves s s' /\ exists k, calm k s s') as [(Hs & Hh & Hc) [k Hk]]
    by (split; [done|by eapply ready_kept]).
  unfold buildReconcilers in Hin. rewrite Hcr in Hin. rewrite !elem_of_app in Hin.
  destruct Hin as [Hin|[Hin|[Hin|Hin]]]; case_bool_decide as Hsome; case_elem Hin; simpl in Hrun.
  - destruct Hsome as [zk Hzk]. split; [by eapply zookeeper_steady|]. eexists. by eapply zookeeper_calm.
  - destruct Hsome as [m Hm]. split; [by eapply monitoring_steady|]. eexists. by eapply monitoring_calm.
  - destruct Hsome as [b Hb]. split; [by eapply backup_steady|]. eexists. by eapply backup_calm.
  - injection Hrun as _ <-. split; [reflexivity|]. exists "". reflexivity.
Qed.

Lemma runReconcilers_steady cr s r s' :
  cr_Spec cr = sp -> ready s -> runReconcilers (buildReconcilers cr) s = (r, s') ->
  steadies s s' /\ converged s' /\ (r = Ok tt -> ready s').
Proof.
  intros Hcr. unfold runReconcilers.
  assert (forall rc, rc ∈ buildReconcilers cr -> forall s r s', ready s ->
    rs_Reconcile rc s = (r, s') -> steadies s s' /\ ready s') as Hall
    by (intros; by eapply reconcilers_steady).
  revert s. induction (buildReconcilers cr) as [|rc l IH]; intros s Hready Hrun.
  { injection Hrun as <- <-. split_and!; [reflexivity|apply Hready|done]. }
  cbn [for_each] in Hrun. destruct (rs_Reconcile rc s) as [r1 s1] eqn:E.
  destruct (Hall rc (list_elem_of_here _ _) _ _ _ Hready E) as [Hst Hr1].
  apply M_bind_inv in Hrun as [([] & s2 & Hone & Hrun)|Hfail].
  - pose proof Hone as H2%orWriteFailed_Ok. rewrite E in H2. injection H2 as -> ->.
    destruct (IH (fun rc H => Hall rc (list_elem_of_further _ _ _ H)) s2 Hr1 Hrun) as (? & ? & ?).
    split_and!; [by etrans|done|done].
  - assert (exists r2, r2 <> Ok tt /\ r = r2 /\ orWriteFailed (rs_Reconcile rc) (fun err =>
      "Reconciliation cycle failed for " +:+ rs_Name rc +:+ " due to: " +:+ err_msg err) s = (r2, s'))
      as (r2 & Hne & -> & Hone).
    { destruct Hfail as [(e & H1 & ->)|(p & H1 & ->)]; eexists;
        (split; [|split; [reflexivity|exact H1]]); done. }
    split; [eapply orWriteFailed_steadies; [exact E|exact Hst|exact Hone]|]. split; [|done].
    apply (orWriteFailed_kept _ _ _ _ _ _ _ E) in Hone; [|apply Hr1].
    eapply converged_calm; [exact Hone|apply Hr1].
Qed.

Lemma updateStatus_steadies (s : St W) r s' : updateStatus s = (r, s') -> steadies s s'.
Proof.
  unfold updateStatus. rewrite (run_bind _ _ s (st_cr s) s) by done. unfold lift, mbind, M_bind.
  destruct (globalOf (st_cr s)) as [g|e|p]; [|by intros [= _ <-]; apply steadies_same..].
  case_match; [by intros [= _ <-]; apply steadies_same|].
  unfold client_StatusUpdate, modify_cr, get_cr, gets, emit, modify, on_world, mbind, M_bind. simpl.
  destruct (kc_status_update _ _) as [[c|?|?] w']; intros [= _ <-];
    by eapply steadies_one; [|reflexivity].
Qed.

(** A part that is steady and keeps the records, and then the rest. *)
Lemma steady_bind {A B} (m : M W A) (f : A -> M W B) (Q : B -> St W -> Prop) s r1 s1 r s' :
  m s = (r1, s1) -> steadies s s1 -> converged s1 ->
  (forall a, r1 = Ok a -> f a s1 = (r, s') ->
     steadies s1 s' /\ converged s' /\ (forall b, r = Ok b -> Q b s')) ->
  (m ≫= f) s = (r, s') ->
  steadies s s' /\ converged s' /\ (forall b, r = Ok b -> Q b s').
Proof.
  intros Hm Hs Hc Hf. unfold mbind, M_bind. rewrite Hm. destruct r1 as [a|e|p].
  - intros (? & ? & ?)%Hf; [|done]. split_and!; [by etrans|done..].
  - by intros [= <- <-].
  - by intros [= <- <-].
Qed.

(** From settled records a cycle takes the branch of an unchanged resource. *)
Lemma runCycle_steady (s : St W) r s' :
  named ns nm s -> cr_Spec (st_cr s) = sp -> converged s -> runCycle s = (r, s') ->
  steadies s s' /\ converged s' /\
  (forall h, r = Ok h -> Hash marshalSpec sp = Ok h /\
     Hash marshalGlobal (sp_Global sp) = Ok (st_globalHash s')).
Proof.
  intros Hn Hsp Hcv Hrun. pose proof Hcv as (_ & _ & _ & [(h & Hh & Hhk) _] & [(g & Hg & _) _]).
  unfold runCycle in Hrun. rewrite (run_bind _ _ s (st_cr s) s), Hsp in Hrun by done.
  rewrite (run_bind _ _ s h s) in Hrun by (unfold lift; by rewrite Hh).
  rewrite (run_bind _ _ s tt (set_globalHash g s)) in Hrun
    by (unfold hashGlobalSection; by rewrite Hsp, Hg).
  rewrite (run_bind _ _ _ h (set_globalHash g s)) in Hrun
    by (unfold hashOf, gets; simpl; by rewrite Hhk).
  rewrite bool_decide_eq_true_2 in Hrun by done. cbn [negb] in Hrun.
  rewrite (run_bind _ _ _ tt (set_globalHash g s)) in Hrun by done.
  assert (ready (set_globalHash g s)) as Hready by exact (conj Hn (conj Hsp (conj Hcv Hg))).
  destruct (initVault (set_globalHash g s)) as [rv s1] eqn:Hv.
  pose proof Hv as (_ & C1 & _)%(initVault_ok ns nm (fun _ => True) (calm ""));
    [|intros; split_and!; auto|exact Hn].
  pose proof Hv as St1%initVault_steadies.
  revert Hrun. apply (steady_bind _ _ (fun h s' => Hash marshalSpec sp = Ok h /\ _) _ _ _ _ _ Hv);
    [exact St1|by eapply converged_calm|]. intros [] -> Hrun.
  pose proof (ready_untouched _ _ (initVault_same _ _ Hv) Hready) as R1. pose proof R1 as (_ & Hsp1 & _).
  rewrite (run_bind _ _ s1 (st_cr s1) s1) in Hrun by done.
  destruct (runReconcilers (buildReconcilers (st_cr s1)) s1) as [rr s2] eqn:Hr.
  pose proof Hr as (St2 & C2 & R2)%runReconcilers_steady; [|done..].
  revert Hrun. apply (steady_bind _ _ (fun h s' => Hash marshalSpec sp = Ok h /\ _) _ _ _ _ _ Hr);
    [exact St2|exact C2|]. intros [] -> Hrun.
  destruct (R2 eq_refl) as (Hn2 & _ & _ & Hg2).
  destruct (updateStatus s2) as [ru s3] eqn:Hu.
  destruct (updateStatus_ok ns nm (fun _ => True) (calm "") s2 ru s3 Hn2 Hu) as (_ & C3 & _).
  revert Hrun. apply (steady_bind _ _ (fun h s' => Hash marshalSpec sp = Ok h /\ _) _ _ _ _ _ Hu);
    [by apply updateStatus_steadies in Hu|by eapply converged_calm|]. intros [] -> [= <- <-].
  split; [reflexivity|]. split; [by eapply converged_calm|]. intros ? [= <-].
  split; [done|]. by destruct C3 as (_ & -> & _).
Qed.

(** A cycle of the resource: it was fetched and ran, or the fetch failed. *)
Lemma Reconcile_runs (s : St W) r s' :
  Reconcile ns nm s = (r, s') ->
  (exists inst s1, named ns nm (set_cr inst s1) /\ cr_Spec inst = sp /\ leaves s s1 /\
     st_versions s1 = st_versions s /\ reconcileInstance (set_cr inst s1) = (r, s')) \/
  (r <> Ok tt /\ leaves s s' /\ st_versions s' = st_versions s).
Proof.
  assert (forall r1 s1, client_Get KCR ns nm s = (r1, s1) ->
    leaves s s1 /\ st_versions s1 = st_versions s) as Hget.
  { intros r1 s1 Hg. split; [by apply (watch_leaves _ _ _ _ (get_watched leaves KCR ns nm) Hg)|].
    by destruct (get_watched same_memory KCR ns nm s _ _ I Hg) as (_ & (_ & _ & ? & _) & _). }
  intros [(inst & s1 & Hg & Hn & Hsp & Hrun)|(Hne & r' & Hg)]%(Reconcile_fetched ns nm sp);
    apply Hget in Hg as [Hl Hv].
  - left. by exists inst, s1.
  - by right.
Qed.

Lemma Reconcile_converges (s s' : St W) : Reconcile ns nm s = (Ok tt, s') -> converged s'.
Proof.
  intros [(inst & s1 & Hn & Hsp & _ & _ & Hrun)|(? & _)]%Reconcile_runs; [|done].
  unfold reconcileInstance in Hrun. apply M_bind_Ok in Hrun as (h & s2 & Hrun & Hrec).
  rewrite recordHashes_run in Hrec. injection Hrec as <-. by eapply runCycle_converges.
Qed.

Lemma converged_memory s s' :
  st_hashes s' = st_hashes s -> st_versions s' = st_versions s -> converged s -> converged s'.
Proof.
  intros Hh Hv Hcv. unfold converged, settled. rewrite Hh, Hv. exact Hcv.
Qed.

Lemma Reconcile_steady (s : St W) r s' :
  converged s -> Reconcile ns nm s = (r, s') -> steadies s s' /\ converged s'.
Proof.
  intros Hcv [(inst & s1 & Hn & Hsp & (Hst & Hh & _) & Hv & Hrun)|(_ & (Hst & Hh & _) & Hv)]%Reconcile_runs.
  2: { split; [done|]. by eapply converged_memory. }
  apply (converged_memory s (set_cr inst s1)) in Hcv; [|done..].
  unfold reconcileInstance, mbind, M_bind in Hrun.
  destruct (runCycle (set_cr inst s1)) as [r2 s2] eqn:E.
  apply runCycle_steady in E as (Hst2 & Hcv2 & Hhash); [|done..].
  assert (steadies s s2) as Hall by (etrans; [exact Hst|exact Hst2]).
  destruct r2 as [h|e|p]; [|by injection Hrun as <- <-..].
  rewrite recordHashes_run in Hrun. injection Hrun as <- <-. split; [exact Hall|].
  destruct (Hhash h eq_refl) as [H1 H2]. pose proof Hcv2 as (_ & _ & _ & [(h' & E1 & E2) _] & [(g & E3 & E4) _]).
  apply (converged_memory s2); [|done..]. simpl.
  rewrite (insert_id _ specHashName) by congruence. apply insert_id. congruence.
Qed.

(** ** Properties *)

End cycles.

(** *** Two resources *)
Section two_resources.
Context {W : Type} `{!KubeClient W} `{!KubeLaws W} `{!WaitLib W} `{!WaitLaws W}.
Context `{!Quantities} `{!VaultApi W} `{!Passwords W} `{!Encoders}.

End two_resources.
