(* ===== verification/Sim.v ===== *)
(** * A concrete platform

    An in-memory instance of every parameter of the model: an API server with
    resource versions and conflicts, in which a deployment is ready as soon as
    it is written and an update that changes nothing keeps the version of a
    secret; a Vault with a key-value store, policies and roles; a password
    generator; waiting helpers that try a bounded number of times.  It shows
    that the laws assumed of the platform can hold together, and the witnesses
    of the properties run on it. *)

From S2P Require Import Prelude GoStrings Types Util Provider Platform Reconciler Vault Fragments Frames.

Abbreviation key := (string * string)%type.

Record World : Type := mkWorld {
  w_services : gmap key Service;
  w_accounts : gmap key ServiceAccount;
  w_claims : gmap key PersistentVolumeClaim;
  w_deployments : gmap key Deployment;
  w_secrets : gmap key Secret;
  w_pods : gmap key Pod;
  w_resources : gmap key ZooKeeperService;
  w_clock : Z;
  w_kv : gmap string (list (string * iface));
  w_policies : gmap string string;
  w_roles : gmap string (list (string * iface)) }.

Definition emptyWorld : World := mkWorld ∅ ∅ ∅ ∅ ∅ ∅ ∅ 1 ∅ ∅ ∅.

Definition tick (w : World) : World :=
  mkWorld (w_services w) (w_accounts w) (w_claims w) (w_deployments w) (w_secrets w) (w_pods w)
    (w_resources w) (w_clock w + 1) (w_kv w) (w_policies w) (w_roles w).

Definition set_kv (kv : gmap string (list (string * iface))) (w : World) : World :=
  mkWorld (w_services w) (w_accounts w) (w_claims w) (w_deployments w) (w_secrets w) (w_pods w)
    (w_resources w) (w_clock w) kv (w_policies w) (w_roles w).
Definition set_policies (p : gmap string string) (w : World) : World :=
  mkWorld (w_services w) (w_accounts w) (w_claims w) (w_deployments w) (w_secrets w) (w_pods w)
    (w_resources w) (w_clock w) (w_kv w) p (w_roles w).
Definition set_roles (r : gmap string (list (string * iface))) (w : World) : World :=
  mkWorld (w_services w) (w_accounts w) (w_claims w) (w_deployments w) (w_secrets w) (w_pods w)
    (w_resources w) (w_clock w) (w_kv w) (w_policies w) r.

(** The objects of a kind, and storing one. *)
Definition store (k : Kind) (w : World) : gmap key (Obj k) :=
  match k with
  | KService => w_services w
  | KServiceAccount => w_accounts w
  | KPVC => w_claims w
  | KDeployment => w_deployments w
  | KSecret => w_secrets w
  | KPod => w_pods w
  | KCR => w_resources w
  end.

Definition keyOf (m : ObjectMeta) : key := (m_Namespace m, m_Name m).

Definition put (k : Kind) : Obj k -> World -> World :=
  match k return Obj k -> World -> World with
  | KService => fun o w => mkWorld (<[keyOf (svc_Meta o) := o]> (w_services w)) (w_accounts w)
      (w_claims w) (w_deployments w) (w_secrets w) (w_pods w) (w_resources w) (w_clock w) (w_kv w)
      (w_policies w) (w_roles w)
  | KServiceAccount => fun o w => mkWorld (w_services w) (<[keyOf (sa_Meta o) := o]> (w_accounts w))
      (w_claims w) (w_deployments w) (w_secrets w) (w_pods w) (w_resources w) (w_clock w) (w_kv w)
      (w_policies w) (w_roles w)
  | KPVC => fun o w => mkWorld (w_services w) (w_accounts w)
      (<[keyOf (pvc_Meta o) := o]> (w_claims w)) (w_deployments w) (w_secrets w) (w_pods w)
      (w_resources w) (w_clock w) (w_kv w) (w_policies w) (w_roles w)
  | KDeployment => fun o w => mkWorld (w_services w) (w_accounts w) (w_claims w)
      (<[keyOf (d_Meta o) := o]> (w_deployments w)) (w_secrets w) (w_pods w) (w_resources w)
      (w_clock w) (w_kv w) (w_policies w) (w_roles w)
  | KSecret => fun o w => mkWorld (w_services w) (w_accounts w) (w_claims w) (w_deployments w)
      (<[keyOf (sec_Meta o) := o]> (w_secrets w)) (w_pods w) (w_resources w) (w_clock w) (w_kv w)
      (w_policies w) (w_roles w)
  | KPod => fun o w => mkWorld (w_services w) (w_accounts w) (w_claims w) (w_deployments w)
      (w_secrets w) (<[keyOf (pod_Meta o) := o]> (w_pods w)) (w_resources w) (w_clock w) (w_kv w)
      (w_policies w) (w_roles w)
  | KCR => fun o w => mkWorld (w_services w) (w_accounts w) (w_claims w) (w_deployments w)
      (w_secrets w) (w_pods w) (<[keyOf (cr_Meta o) := o]> (w_resources w)) (w_clock w) (w_kv w)
      (w_policies w) (w_roles w)
  end.

(** A new resource version; a deployment becomes ready at once. *)
Definition stamp (k : Kind) (rv : string) : Obj k -> Obj k :=
  match k return Obj k -> Obj k with
  | KService => fun o => set_svc_Meta (set_ResourceVersion rv (svc_Meta o)) o
  | KServiceAccount => fun o => mkServiceAccount (set_ResourceVersion rv (sa_Meta o))
  | KPVC => fun o => set_pvc_Meta (set_ResourceVersion rv (pvc_Meta o)) o
  | KDeployment => fun o =>
      mkDeployment (set_ResourceVersion rv (d_Meta o)) (d_Strategy o) (d_Replicas o)
        (d_Selector o) (d_TemplateMeta o) (d_PodSpec o)
        (default 1 (d_Replicas o)) (default 1 (d_Replicas o))
  | KSecret => fun o => mkSecret (set_ResourceVersion rv (sec_Meta o)) (sec_Data o)
  | KPod => fun o => mkPod (set_ResourceVersion rv (pod_Meta o)) (pod_Phase o)
  | KCR => fun o => mkCR (cr_APIVersion o) (cr_Kind o) (set_ResourceVersion rv (cr_Meta o))
                      (cr_Spec o) (cr_Status o)
  end.

Definition apiError (r : Reason) (n : string) : error := mkError r n.

Definition lookupObj (k : Kind) (ns n : string) (w : World) : option (Obj k) :=
  match store k w !! (ns, n) with
  | Some o => if decide (m_Namespace (meta_of o) = ns /\ m_Name (meta_of o) = n)
              then Some o else None
  | None => None
  end.

Definition sim_get (k : Kind) (ns n : string) (w : World) : Res (Obj k) * World :=
  match lookupObj k ns n w with
  | Some o => (Ok o, w)
  | None => (Err (apiError NotFound n), w)
  end.

(** The objects of a namespace (of any, for the empty one) with the labels. *)
Definition sim_list (k : Kind) (ns : string) (sel : gmap string string) (w : World)
  : Res (list (Obj k)) * World :=
  (Ok (filter (fun o : Obj k => (ns = "" \/ m_Namespace (meta_of o) = ns) /\
                 sel ⊆ gm (m_Labels (meta_of o)))
         (snd <$> map_to_list (store k w))), w).

Definition sim_create (k : Kind) (o : Obj k) (w : World) : Res (Obj k) * World :=
  match store k w !! keyOf (meta_of o) with
  | Some _ => (Err (apiError AlreadyExists (m_Name (meta_of o))), w)
  | None => let o := stamp k (Itoa (w_clock w)) o in (Ok o, tick (put k o w))
  end.

(** Does the update leave the secret as it is? *)
Definition unchanged (k : Kind) : Obj k -> Obj k -> bool :=
  match k return Obj k -> Obj k -> bool with
  | KSecret => fun a b => bool_decide (sec_Meta a = sec_Meta b) && bool_decide (sec_Data a = sec_Data b)
  | _ => fun _ _ => false
  end.

Definition sim_update (k : Kind) (o : Obj k) (w : World) : Res (Obj k) * World :=
  match store k w !! keyOf (meta_of o) with
  | None => (Err (apiError NotFound (m_Name (meta_of o))), w)
  | Some old =>
      if negb (bool_decide (m_ResourceVersion (meta_of o) = ""))
         && negb (bool_decide (m_ResourceVersion (meta_of o) = m_ResourceVersion (meta_of old)))
      then (Err (apiError Conflict (m_Name (meta_of o))), w)
      else if unchanged k o old then (Ok o, w)
      else let o := stamp k (Itoa (w_clock w)) o in (Ok o, tick (put k o w))
  end.

(** The status subresource: the stored spec stays. *)
Definition sim_status_update (cr : ZooKeeperService) (w : World) : Res ZooKeeperService * World :=
  match lookupObj KCR (cr_Namespace cr) (cr_Name cr) w with
  | Some old => let c := set_Status (cr_Status cr) old in (Ok c, tick (put KCR c w))
  | None => (Err (apiError NotFound (cr_Name cr)), w)
  end.

Definition controllerRef (cr : ZooKeeperService) : OwnerReference :=
  mkOwner (cr_APIVersion cr) (cr_Kind cr) (cr_Name cr) true.

#[global] Instance sim_KubeClient : KubeClient World := {|
  kc_get := sim_get;
  kc_list := sim_list;
  kc_create := sim_create;
  kc_update := sim_update;
  kc_status_update := sim_status_update;
  kc_now w := ("t" +:+ Itoa (w_clock w), w);
  kc_getControllerOf m := head (filter (fun o => or_Controller o = true) (m_OwnerReferences m));
  kc_setControllerReference cr m := Ok (set_OwnerReferences [controllerRef cr] m);
  kc_parseGroupVersion s := Ok (s, "") |}.

(** At most [n] tries. *)
Fixpoint sim_poll (n : nat) (c : M World bool) (s : St World) : Res unit * St World :=
  match n with
  | O => (Err (mkError Timeout "timed out"), s)
  | S n => match c s with
           | (Ok true, s') => (Ok tt, s')
           | (Ok false, s') => sim_poll n c (set_world (tick (st_world s')) s')
           | (Err e, s') => (Err e, s')
           | (Panic p, s') => (Panic p, s')
           end
  end.

Fixpoint sim_retry (n : nat) (fn : M World unit) (s : St World) : Res unit * St World :=
  match fn s with
  | (Err e, s') =>
      if decide (err_reason e = Conflict) then
        match n with O => (Err e, s') | S n => sim_retry n fn s' end
      else (Err e, s')
  | r => r
  end.

#[global] Instance sim_WaitLib : WaitLib World := {|
  wl_poll _ _ _ c := sim_poll 3 c;
  wl_retry fn := sim_retry 3 fn;
  wl_sleep _ w := tick w |}.

#[global] Instance sim_VaultApi : VaultApi World := {|
  va_newClient _ w := (Ok tt, w);
  va_bearerToken w := (Ok "jwt", w);
  va_login _ _ _ w := (Ok (Some "token"), w);
  va_read _ path w := (Ok ((fun d => [("data", IMap d)]) <$> w_kv w !! path), w);
  va_write _ path data w :=
    match im_get data "data" with
    | IMap d => (Ok (Some [("version", INumber (Itoa (w_clock w)))]),
                 tick (set_kv (<[path := d]> (w_kv w)) w))
    | _ => (Err (apiError OtherReason path), w)
    end;
  va_getPolicy _ name w := (Ok (default "" (w_policies w !! name)), w);
  va_putPolicy _ name policy w := (Ok tt, set_policies (<[name := policy]> (w_policies w)) w);
  va_setJSONBody _ := Ok tt;
  va_raw _ method path body w :=
    match body with
    | Some b => ((Some (mkResponse 204 (Ok [])), None), set_roles (<[path := b]> (w_roles w)) w)
    | None => match w_roles w !! path with
              | Some r => ((Some (mkResponse 200 (Ok r)), None), w)
              | None => ((Some (mkResponse 404 (Ok [])), Some (apiError NotFound path)), w)
              end
    end |}.

#[global] Instance sim_Passwords : Passwords World := {|
  pw_newGenerator _ := Ok tt;
  pw_generate _ _ _ _ _ w := (Ok ("pw" +:+ Itoa (w_clock w)), tick w) |}.

#[global] Instance sim_Quantities : Quantities := {| ParseQuantity s := Some (mkQuantity s) |}.

(** Encodings that tell apart what the runs below change. *)
#[global] Instance sim_Encoders : Encoders := {|
  marshalSpec s := Ok (match sp_ZooKeeper s with Some z => Itoa (zk_Replicas z) | None => "" end);
  marshalGlobal g := Ok (match g with Some g => Itoa (g_PodsReadyTimeout g) | None => "null" end);
  marshalZooKeeper z := Ok (match z with Some z => zk_DockerImage z +:+ Itoa (zk_Replicas z)
                                       | None => "null" end);
  marshalMonitoring m := Ok (match m with Some m => mon_DockerImage m | None => "null" end);
  marshalBackupDaemon b := Ok (match b with Some b => bd_DockerImage b | None => "null" end) |}.

(** ** A resource and a cluster *)
Definition simAffinity : Affinity := mkAffinity None "" "".

Definition simStorage : Storage := mkStorage [] [] [] ["standard"] "1Gi".
Definition noSnapshots : SnapshotStorage := mkSnapshotStorage "" "" "" "" "" "" None "" "".

Definition simZooKeeper (replicas : Z) (rolling : bool) : ZooKeeper :=
  mkZooKeeper "zk:1" simAffinity [] "" replicas simStorage noSnapshots 512 "" "zk-secret" true
    (mkSsl [] false false) "" 9087 ["A=b"] rolling None (mkDiagnostics "" "") false.

Definition simMonitoring : Monitoring :=
  mkMonitoring "mon:1" simAffinity [] "" "" "prometheus" "zk" "zk-backup" "mon-secret" 9087 ""
    None "" false "" "".

Definition simBackup : BackupDaemon :=
  mkBackupDaemon "bd:1" simAffinity [] "" noSnapshots "" "" None "" false "zk" 2181 "bd-secret" ""
    None (mkSslSecret false "").

Definition simVault (enabled : bool) : VaultSecretManagement :=
  mkVaultSM "vault:1" enabled "secret" "http://vault" "operator" "kubernetes" "operator" true
    (mkSecretPaths None).

Definition simGlobal : Global :=
  mkGlobal true 60 None None (mkSslSecret false "") (Some {["a" := "1"]}).

Definition simSpec (replicas : Z) (rolling vault : bool) : ZooKeeperServiceSpec :=
  mkSpec (Some simGlobal) (Some (simZooKeeper replicas rolling)) (Some simMonitoring)
    (Some simBackup) (Some (simVault vault)) None.

Definition simCR (replicas : Z) (rolling vault : bool) : ZooKeeperService :=
  mkCR "netcracker.com/v1" "ZooKeeperService" (newMeta "zk" "ns" None)
    (simSpec replicas rolling vault) (mkStatus [] [] [] None None []).

Definition simSecret (name : string) (annotations : gmap string string)
    (data : gomap string) : Secret :=
  mkSecret (set_ResourceVersion "1" (set_Annotations (Some annotations) (newMeta name "ns" None))) data.

Definition simUsers : gomap string :=
  Some {["admin-username" := "admin"; "client-username" := "client";
         "additional-users" := "bob:x,eve:y"; "username" := "backup"]}.

(** Secrets present, the resource stored, nothing deployed. *)
Definition simWorld (cr : ZooKeeperService) (annotations : gmap string string) : World :=
  put KCR cr (put KSecret (simSecret "bd-secret" annotations simUsers)
    (put KSecret (simSecret "mon-secret" annotations simUsers)
      (put KSecret (simSecret "zk-secret" annotations simUsers) emptyWorld))).

Definition simState (cr : ZooKeeperService) (annotations : gmap string string) : St World :=
  mkSt (tick (simWorld cr annotations)) cr ∅ ∅ "" None [].

(** ** The laws hold *)
#[global] Instance sim_KubeLaws : KubeLaws World.
Proof.
  split.
  - intros k ns n w o w'. simpl. unfold sim_get, lookupObj.
    destruct (store k w !! (ns, n)); [|done]. case_decide; [|done]. by intros [= <- <-].
  - intros k o w o' w'. simpl. unfold sim_update.
    destruct (store k w !! _); [|done]. repeat case_match; intros [= <- <-]; by destruct k.
  - intros cr m m' [= <-]. by eexists.
  - intros cr w cr' w'. simpl. unfold sim_status_update, lookupObj.
    destruct (store KCR w !! _) as [old|]; [|done]. case_decide as Hd; [|done].
    intros [= <- <-]. exact Hd.
Qed.

Lemma set_world_twice {W} (w w' : W) s : set_world w' (set_world w s) = set_world w' s.
Proof. done. Qed.

#[global] Instance sim_WaitLaws : WaitLaws World.
Proof.
  assert (forall s : St World, set_world (st_world s) s = s) as Hsame by by intros [].
  split.
  - intros i t im c s r s'. cbn [wl_poll sim_WaitLib]. generalize 3%nat as n. intros n. revert s.
    induction n as [|n IH]; intros s; simpl.
    + intros [= <- <-]. rewrite <- (Hsame s) at 2. by apply poll_timeout.
    + destruct (c s) as [[[|]|e|p] s1] eqn:E; rewrite <- (Hsame s) in E.
      * intros [= <- <-]. by eapply poll_done.
      * intros Hr. eapply poll_again; [exact E|]. apply IH in Hr.
        inversion Hr; subst;
          [by eapply poll_done|by eapply poll_error|by eapply poll_panic|by eapply poll_again|].
        rewrite set_world_twice. by apply poll_timeout.
      * intros [= <- <-]. by eapply poll_error.
      * intros [= <- <-]. by eapply poll_panic.
  - intros fn s r s'. cbn [wl_retry sim_WaitLib].
    change 4%nat with (S 3). generalize 3%nat as n.
    intros n. revert s. induction n as [|n IH]; intros s; simpl;
      destruct (fn s) as [[u|e|p] s1] eqn:E; rewrite <- (Hsame s) in E;
      try (intros [= <- <-]; by eapply retry_stop); case_decide.
    + intros [= <- <-]. by eapply retry_last.
    + intros [= <- <-]. eapply retry_stop; [exact E|]. by intros ? [= <-].
    + intros Hr. eapply retry_again; [exact E|done|by apply IH].
    + intros [= <- <-]. eapply retry_stop; [exact E|]. by intros ? [= <-].
Qed.
