(* ===== verification/Pinned.v ===== *)
(** * A cluster that nobody edits

    The platform of [Sim] with the resource and its secrets pinned: whatever
    is stored, the API server returns the spec [simSpec 3 true false] and the
    three secrets at version 1.  It shows that the assumptions of [Converge]
    can hold, and the witness of the idempotence runs on it. *)

From S2P Require Import Prelude GoStrings Types Util Provider Platform Conditions Reconciler Vault.
From S2P Require Import ZooKeeperProvider ZooKeeperReconciler Fragments Frames Controller Converge.
From S2P Require Import Desired Steady Sim.

Definition pinnedSpec : ZooKeeperServiceSpec := simSpec 3 true false.

Definition pinnedVersion (n : string) : option string :=
  if decide (n ∈ ["zk-secret"; "mon-secret"; "bd-secret"]) then Some "1" else None.
Arguments pinnedVersion : simpl never.

Definition pinnedResource (ns n : string) (w : World) : ZooKeeperService :=
  mkCR "netcracker.com/v1" "ZooKeeperService" (newMeta n ns None) pinnedSpec
    match w_resources w !! (ns, n) with
    | Some c => cr_Status c
    | None => mkStatus [] [] [] None None []
    end.

Definition pinned_get (k : Kind) : string -> string -> World -> Res (Obj k) * World :=
  match k return string -> string -> World -> Res (Obj k) * World with
  | KCR => fun ns n w => (Ok (pinnedResource ns n w), w)
  | KSecret => fun ns n w =>
      match pinnedVersion n with
      | Some v => (Ok (mkSecret (set_ResourceVersion v (newMeta n ns None)) simUsers), w)
      | None => (Err (apiError NotFound n), w)
      end
  | k => sim_get k
  end.

Definition pinned_update (k : Kind) : Obj k -> World -> Res (Obj k) * World :=
  match k return Obj k -> World -> Res (Obj k) * World with
  | KSecret => fun o w =>
      match pinnedVersion (m_Name (sec_Meta o)) with
      | Some v => (Ok (mkSecret (set_ResourceVersion v (sec_Meta o)) (sec_Data o)), w)
      | None => (Err (apiError NotFound (m_Name (sec_Meta o))), w)
      end
  | k => sim_update k
  end.

Definition pinned_status_update (cr : ZooKeeperService) (w : World) : Res ZooKeeperService * World :=
  let c := set_Spec pinnedSpec cr in (Ok c, tick (put KCR c w)).

Definition pinned : KubeClient World := {|
  kc_get := pinned_get;
  kc_list := sim_list;
  kc_create := sim_create;
  kc_update := pinned_update;
  kc_status_update := pinned_status_update;
  kc_now w := ("t" +:+ Itoa (w_clock w), w);
  kc_getControllerOf m := head (filter (fun o => or_Controller o = true) (m_OwnerReferences m));
  kc_setControllerReference cr m := Ok (set_OwnerReferences [controllerRef cr] m);
  kc_parseGroupVersion s := Ok (s, "") |}.

(** ** The laws hold *)
Lemma pinned_KubeLaws : @KubeLaws World pinned.
Proof.
  assert (forall k ns n (w : World) (o : Obj k) w', sim_get k ns n w = (Ok o, w') ->
    m_Namespace (meta_of o) = ns /\ m_Name (meta_of o) = n) as Hsim by exact (kl_get (W:=World)).
  assert (forall k (o : Obj k) (w : World) (o' : Obj k) w', sim_update k o w = (Ok o', w') ->
    m_Namespace (meta_of o') = m_Namespace (meta_of o) /\
    m_Name (meta_of o') = m_Name (meta_of o)) as Hsim' by exact (kl_update (W:=World)).
  split.
  - intros k ns n w o w' Hget. destruct k; try by apply (Hsim _ _ _ w _ w' Hget).
    + simpl in Hget. destruct (pinnedVersion n); by simplify_eq/=.
    + by injection Hget as <- <-.
  - intros k o w o' w' Hup. destruct k; try by apply (Hsim' _ _ w _ w' Hup).
    simpl in Hup. destruct (pinnedVersion _); by simplify_eq/=.
  - intros cr m m' [= <-]. by eexists.
  - intros cr w cr' w' [= <- <-]. done.
Qed.

Lemma pinned_Undisturbed ns nm : @Undisturbed World pinned ns nm pinnedSpec pinnedVersion.
Proof.
  split; simpl.
  - split; simpl.
    + by intros w c w' [= <- <-].
    + by intros w e w' [=].
    + by intros cr w c w' _ _ [= <- <-].
  - intros n w o w'. by destruct (pinnedVersion n); intros [= <- <-].
  - intros n w e w'. by destruct (pinnedVersion n).
  - intros o w o' w' _. destruct (pinnedVersion _) eqn:E; intros [= <- <-]. exact E.
  - intros o w e w' _. by destruct (pinnedVersion _).
  - by intros cr m e [=].
Qed.

(** ** Two cycles *)
Definition pinnedStart : St World := mkSt emptyWorld (simCR 3 true false) ∅ ∅ "" None [].
Definition pinnedCycle (s : St World) : Res unit * St World :=
  @Reconcile World pinned _ _ _ _ _ "ns" "zk" s.
Definition pinnedOnce : St World := snd (pinnedCycle pinnedStart).
Definition pinnedTwice : St World := snd (pinnedCycle pinnedOnce).

Lemma completed (run : Res unit * St World) : is_Ok (fst run) = true -> run = (Ok tt, snd run).
Proof. by destruct run as [[[]|e|p] s]. Qed.


(** Witness: nothing is recorded when the operator starts, so the first cycle
    has everything accepted, such as the deployment of the second server. *)
Lemma spec_implemented_witness :
  exists evs, st_trace pinnedOnce = st_trace pinnedStart ++ evs /\
    @deployed World pinned _ _ "ns" "zk" pinnedSpec pinnedStart evs /\
    @launched World pinned (ZK.NewServerDeploymentForCR
      (NewZooKeeperResourceProvider (resource "ns" "zk" pinnedSpec)) 2) evs.
Proof.
  destruct (@spec_implemented World pinned pinned_KubeLaws sim_WaitLib sim_WaitLaws
    sim_Quantities sim_VaultApi sim_Passwords sim_Encoders "ns" "zk" pinnedSpec
    (ud_stored (Undisturbed:=pinned_Undisturbed "ns" "zk")) pinnedStart pinnedOnce) as (evs & Hevs & HP).
  { unfold pinnedOnce. apply completed. vm_compute; reflexivity. }
  exists evs. split; [exact Hevs|]. split; [exact HP|]. destruct HP as [Hzk _].
  destruct (Hzk (simZooKeeper 3 true) eq_refl) as (_ & _ & Hservers); [|simpl; lia|].
  { left. by intros v _. }
  apply (Hservers 2). simpl. lia.
Defined.

(** Witness: a second resource with the same spec, after the first one was
    deployed: its cycle succeeds, and no deployment has its name. *)
Definition pinnedOther : St World := snd (@Reconcile World pinned _ _ _ _ _ "ns" "other" pinnedOnce).

