(* ===== verification/Ideal.v ===== *)
(** * An ideal cluster

    A cluster in which what is asked for is there, what is missing can be
    created, and every write succeeds: it satisfies [Healthy], and the witness
    of the progress theorem runs on it with a three-server resource. *)

From S2P Require Import Prelude GoStrings Types Util Provider Platform Conditions Reconciler Vault.
From S2P Require Import ZooKeeperProvider MonitoringProvider BackupDaemonProvider.
From S2P Require Import Fragments Frames ZooKeeperReconciler Quiescence Controller Live LiveCycle Sim.

(** The number of calls that changed something. *)
Abbreviation Calls := nat.

Definition idealSpec : ZooKeeperServiceSpec := simSpec 3 false false.
Definition idealSecrets : list string := ["zk-secret"; "mon-secret"; "bd-secret"].

Definition idealDeployment (ns n : string) : Deployment :=
  mkDeployment (newMeta n ns None) RecreateStrategy (Some 1) None (newMeta n ns None)
    (mkPodSpec [] [] [] "" n "" "" None [] "") 1 1.

(** Deployments, secrets and the resource exist; services, accounts, claims
    and pods do not. *)
Definition ideal_get (k : Kind) : string -> string -> Calls -> Res (Obj k) * Calls :=
  match k return string -> string -> Calls -> Res (Obj k) * Calls with
  | KDeployment => fun ns n w => (Ok (idealDeployment ns n), w)
  | KSecret => fun ns n w =>
      (if decide (n ∈ idealSecrets) then Ok (mkSecret (newMeta n ns None) simUsers)
       else Err (apiError NotFound n), w)
  | KCR => fun ns n w =>
      (Ok (mkCR "netcracker.com/v1" "ZooKeeperService" (newMeta n ns None) idealSpec
             (mkStatus [] [] [] None None [])), w)
  | k => fun ns n w => (Err (apiError NotFound n), w)
  end.

Definition ideal : KubeClient Calls := {|
  kc_get := ideal_get;
  kc_list k ns sel w := (Ok [], w);
  kc_create k o w := (Ok o, S w);
  kc_update k o w := (Ok o, S w);
  kc_status_update cr w := (Ok (set_Spec idealSpec cr), S w);
  kc_now w := ("now", w);
  kc_getControllerOf m := None;
  kc_setControllerReference cr m := Ok (set_OwnerReferences [controllerRef cr] m);
  kc_parseGroupVersion s := Ok (s, "") |}.

(** The first look decides. *)
Definition ideal_poll (c : M Calls bool) (s : St Calls) : Res unit * St Calls :=
  match c s with
  | (Ok true, s') => (Ok tt, s')
  | (Ok false, s') => (Err (mkError Timeout "timed out"), s')
  | (Err e, s') => (Err e, s')
  | (Panic p, s') => (Panic p, s')
  end.

Definition ideal_Wait : WaitLib Calls := {|
  wl_poll _ _ _ c := ideal_poll c;
  wl_retry fn := fn;
  wl_sleep _ w := w |}.

(** There is no Vault. *)
Definition noVault {A} (w : Calls) : Res A * Calls := (Err (Errorf "no Vault"), w).
Definition ideal_Vault : VaultApi Calls := {|
  va_newClient _ := noVault;
  va_bearerToken := noVault;
  va_login _ _ _ := noVault;
  va_read _ _ := noVault;
  va_write _ _ _ := noVault;
  va_getPolicy _ _ := noVault;
  va_putPolicy _ _ _ := noVault;
  va_setJSONBody _ := Err (Errorf "no Vault");
  va_raw _ _ _ _ w := ((None, Some (Errorf "no Vault")), w) |}.

Definition ideal_Passwords : Passwords Calls := {|
  pw_newGenerator _ := Ok tt;
  pw_generate _ _ _ _ _ w := (Ok "secret", w) |}.

(** ** The laws hold *)
Lemma ideal_KubeLaws : @KubeLaws Calls ideal.
Proof.
  split; simpl.
  - intros k ns n w o w'. destruct k; simpl; try done; try (by intros [= <- <-]).
    destruct (decide _); [by intros [= <- <-]|done].
  - by intros k o w o' w' [= <- <-].
  - intros cr m m' [= <-]. by eexists.
  - by intros cr w cr' w' [= <- <-].
Qed.

Lemma ideal_Healthy :
  @Healthy Calls ideal ideal_Wait "ns" "zk" idealSpec idealSecrets (fun _ => True).
Proof.
  assert (forall s : St Calls, set_world (st_world s) s = s) as Hsame by by intros [].
  split; try done.
  - intros k n' n w _. destruct k; simpl; try (eexists; split; [reflexivity|done]).
    + eexists. split; [reflexivity|]. by eexists.
    + destruct (decide _); (eexists; split; [reflexivity|done]).
  - intros w _. by eexists.
  - intros n w _ Hn. simpl. rewrite decide_True by done. by eexists.
  - intros k n' sel w _. exists []. split; [done|constructor].
  - intros k o w e _ _ _. by exists o, (S w).
  - intros k o old w _ _ _ _. exists o, (S w). split_and!; [done..|]. intros n _. by eexists.
  - intros cr w _ _ _. by exists (set_Spec idealSpec cr), (S w).
  - intros cr m. by eexists.
  - intros i t c s _ Hc. destruct (Hc (st_world s) s I) as (b & s' & Hb & Hm & _); [by repeat split|].
    rewrite Hsame in Hb. simpl. unfold ideal_poll. rewrite Hb.
    destruct b; eexists _, s'; (split; [reflexivity|]); done.
  - intros i t n s _ Hsp. simpl. unfold ideal_poll, isPodRunning, getPodsForDeployment.
    unfold get_cr, gets, lift, globalOf, findPodList, client_List, emit, modify, on_world, mbind, M_bind.
    rewrite Hsp. simpl. eexists. split; [reflexivity|]. by repeat split.
  - intros w l c i _ [= <-] [= <-] Hi. lia.
Qed.

(** ** The resource is valid *)
Definition deployable_b (r : Res Deployment) : bool :=
  match r with Ok d => bool_decide (is_Some (d_Replicas d)) | _ => false end.
Definition claimable_b (r : Res (option PersistentVolumeClaim)) : bool :=
  match r with
  | Ok (Some p) => bool_decide (is_Some (m_Annotations (pvc_Meta p)))
  | Ok None => true
  | _ => false
  end.

Lemma deployable_b_ok r : deployable_b r = true -> deployable r.
Proof. destruct r as [d|e|p]; [|done..]. intros Hd%bool_decide_eq_true. by exists d. Qed.

Lemma claimable_b_ok r : claimable_b r = true -> claimable r.
Proof.
  destruct r as [[p|]|e|p]; try done.
  - intros Hp%bool_decide_eq_true. exists (Some p). split; [done|]. by intros ? [= <-].
  - intros _. by exists None.
Qed.

Lemma ideal_Valid : Valid "ns" "zk" idealSpec idealSecrets.
Proof.
  split.
  - by eexists.
  - by intros v [= <-].
  - vm_compute; reflexivity.
  - vm_compute; reflexivity.
  - intros zk [= <-]. split; [done|]. split; [set_solver|]. split; [vm_compute; reflexivity|].
    split; [by left|]. intros cr (Hns & Hnm & Hsp) zrp. subst zrp.
    destruct cr as [a k m spec st]. simpl in Hsp. subst spec.
    split; [vm_compute; reflexivity|]. split; [vm_compute; reflexivity|].
    intros i Hi. assert (i = 1 \/ i = 2 \/ i = 3) as [->|[-> | ->]]
      by (apply elem_of_seqZ in Hi; simpl in Hi; lia);
      (split; [vm_compute; reflexivity|split; [apply claimable_b_ok|apply deployable_b_ok]];
       vm_compute; reflexivity).
  - intros mon [= <-]. split; [set_solver|]. split; [vm_compute; reflexivity|].
    intros cr (Hns & Hnm & Hsp). destruct cr as [a k m spec st]. simpl in Hsp. subst spec.
    split; [vm_compute; reflexivity|apply deployable_b_ok; vm_compute; reflexivity].
  - intros bd [= <-]. split; [set_solver|]. split; [vm_compute; reflexivity|].
    split; [by left|]. intros cr (Hns & Hnm & Hsp). destruct cr as [a k m spec st].
    simpl in Hsp. subst spec. split; [vm_compute; reflexivity|].
    intros [|]; apply deployable_b_ok; vm_compute; reflexivity.
Qed.

(** Witness: the first cycle of an operator that knows nothing. *)
Definition idealStart : St Calls := mkSt 0%nat (simCR 3 false false) ∅ ∅ "" None [].

