(* ===== verification/OperatorRuns.v ===== *)
(** * Runs of the operator process

    A runtime whose calls succeed, and a life of the operator on the platform
    of [Sim]: the resource is created, its cycle succeeds, the process
    restarts.  The properties of [Operator] are applied to them. *)

From S2P Require Import Prelude GoStrings GoFlags Types Util Provider Platform Conditions Reconciler.
From S2P Require Import Vault Fragments Frames Controller Operator Sim.

(** ** Start-up *)
#[global] Instance sim_Runtime : Runtime := {|
  rt_addToScheme _ := Ok tt;
  rt_getConfig := Ok tt;
  rt_newManager _ := Ok tt;
  rt_complete _ := Ok tt;
  rt_addHealthzCheck _ := Ok tt;
  rt_addReadyzCheck _ := Err (Errorf "readyz");
  rt_start := Ok tt;
  rt_zapFlags := [BoolVar "zap-devel"] |}.

Definition simArgs : list string :=
  ["--leader-elect"; "-metrics-bind-address"; ":9090"; "--zap-devel=false"].
Definition simEnv : gmap string string := {["WATCH_NAMESPACE" := "ns"]}.
Definition simActual : gmap string string :=
  {["leader-elect" := "true"; "metrics-bind-address" := ":9090"; "zap-devel" := "false"]}.

Lemma sim_registered : registered.
Proof. done. Qed.

(** Witness: the readiness probe cannot be added; the process ends with code 1
    after five calls. *)
Lemma startup_sequence_witness :
  fst (process simArgs simEnv []) = inl (ExitCode 1) /\
  length (snd (process simArgs simEnv [])) = 5%nat /\
  exists made todo, bootPlan (managerOptions simActual "ns") = made ++ todo /\
    snd (process simArgs simEnv []) = made.*1.
Proof.
  split; [vm_compute; reflexivity|]. split; [vm_compute; reflexivity|].
  destruct (startup_sequence simArgs simEnv simActual [] "ns" sim_registered)
    as (made & todo & H1 & H2 & _); [vm_compute; reflexivity..|]. by exists made, todo.
Defined.

(** Witness: an unknown flag, and no namespace. *)
Lemma startup_refused_witness :
  process ["-x"] simEnv [] = (inl (ExitCode 2), []) /\
  process [] ∅ [] = (inl (ExitCode 1), []).
Proof.
  split.
  - apply (proj1 (startup_refused ["-x"] simEnv sim_registered) (NotDefined "x")).
    vm_compute; reflexivity.
  - apply (proj2 (startup_refused [] ∅ sim_registered) (∅, [])); vm_compute; reflexivity.
Defined.

(** ** A life *)
Definition born : St World := simState (simCR 3 true false) ∅.
Definition deployed : St World := snd (Reconcile "ns" "zk" born).
Definition creation : WatchEvent := Created (newMeta "zk" "ns" None).

Definition asleep : Sys World := mkSys born ∅.
Definition pending : gset Request := ∅ ∪ enqueued (W:=World) KCR creation.
Definition rested : gset Request := pending ∖ {[("ns", "zk")]}.
Definition reborn : Sys World := mkSys (fresh deployed) {[("ns", "zk")]}.

Lemma pending_zk : ("ns", "zk") ∈ pending.
Proof. apply (bool_decide_unpack _). vm_compute; exact I. Qed.

Lemma deployed_ran : Reconcile "ns" "zk" born = (Ok tt, deployed).
Proof.
  assert (forall run : Res unit * St World, is_Ok (fst run) = true -> run = (Ok tt, snd run)) as Hok
    by by intros [[[]|e|p] s].
  apply Hok. vm_compute; reflexivity.
Qed.

Lemma lived : steps "ns" asleep [Observed KCR creation; Worked ("ns", "zk") (Ok tt)]
  (mkSys deployed rested).
Proof.
  eapply steps_step; [apply step_event; repeat constructor; by right|].
  eapply steps_step; [apply step_done; [exact pending_zk|exact deployed_ran]|constructor].
Qed.

(** Witness: the cycle of the new resource. *)
Lemma operator_confined_for_life_witness :
  exists evs, st_trace deployed = st_trace born ++ evs /\
    Forall (contained "ns") evs /\ fresh_updates "ns" evs.
Proof.
  apply (operator_confined_for_life "ns" asleep [Observed KCR creation; Worked ("ns", "zk") (Ok tt)]
    (mkSys deployed rested)); [done| |exact lived].
  intros r Hr. by apply elem_of_empty in Hr.
Defined.


(** Witness: the hash recorded by the cycle. *)
Definition recordedHash : string := default "" (st_hashes deployed !! specHashName).

Lemma recorded_hash_was_read_witness :
  recordedHash <> "" /\
  exists ns nm inst, EvGet KCR ns nm (Ok inst) ∈ st_trace deployed /\
    Hash marshalSpec (cr_Spec inst) = Ok recordedHash.
Proof.
  split; [vm_compute; discriminate|].
  apply (recorded_hash_was_read "ns" asleep [Observed KCR creation; Worked ("ns", "zk") (Ok tt)]
    (mkSys deployed rested) recordedHash); [reflexivity|exact lived|].
  vm_compute; reflexivity.
Defined.
