(* ===== verification/BackupServer.v ===== *)
(** * The assistant inside the ZooKeeper container

    [src/docker-zookeeper/main.go]: the health check, the TLS connection it
    uses, and the backup server that copies the transaction logs.  The
    operating system, the ZooKeeper client, the TLS library and the JSON
    encoder are parameters over an abstract host [F]; [HostLaws] states what
    the file operations promise, seen through [tree], the content of a
    directory. *)

From S2P Require Import Prelude GoStrings GoFlags.

Record State : Set := mkState { state_Status : string }.
Record Data : Set := mkData { Source : string; Destination : string }.
Record Result : Set := mkResult { Status : string; Message : string }.

Definition zkSessionTimeout : Z := 10 * second.
Definition certFilePath : string := "/opt/zookeeper/tls/tls.crt".
Definition keyFilePath : string := "/opt/zookeeper/tls/tls.key".
Definition caCertFilePath : string := "/opt/zookeeper/tls/ca.crt".

(** An [http.ResponseWriter]: the header that was set, the status, written at
    most once, and the body. *)
Record ResponseWriter : Type := mkWriter {
  rw_Header : gmap string string; rw_Status : option Z; rw_Body : string }.

Definition newWriter : ResponseWriter := mkWriter ∅ None "".
Definition Header_Set (k v : string) (w : ResponseWriter) : ResponseWriter :=
  mkWriter (<[k := v]> (rw_Header w)) (rw_Status w) (rw_Body w).
Definition WriteHeader (code : Z) (w : ResponseWriter) : ResponseWriter :=
  mkWriter (rw_Header w) (Some (default code (rw_Status w))) (rw_Body w).
Definition Write (body : string) (w : ResponseWriter) : ResponseWriter :=
  mkWriter (rw_Header w) (Some (default 200 (rw_Status w))) (rw_Body w +:+ body).

Record Request : Set := mkRequest { req_Method : string; req_Path : string }.

(** A dialer: the address and the files its TLS configuration uses. *)
Record Dialer : Set := mkDialer {
  dl_Addr : string; dl_RootCA : string; dl_Certificate : option (string * string) }.

Inductive Conn : Set :=
| PlainConn (servers : list string)
| TlsConn (servers : list string) (dialer : Dialer).

(** The host: environment, files, processes, the ZooKeeper client and the
    encoders. *)
Class Host (F : Type) : Type := {
  os_LookupEnv : string -> F -> option string;
  os_ReadFile : string -> F -> Res string;
  os_Stat : string -> F -> Res unit;
  os_RemoveAll : string -> F -> Res unit * F;
  os_Mkdir : string -> Z -> F -> Res unit * F;
  exec_Run : string -> list string -> F -> Res unit * F;
  pool_AppendCertsFromPEM : string -> bool;
  tls_LoadX509KeyPair : string -> string -> F -> Res unit;
  zk_Connect : Conn -> Z -> F -> Res unit;
  zk_AddAuth : Conn -> string -> string -> F -> Res unit;
  zk_ChildrenW : Conn -> string -> F -> Res unit;
  (* ListenAndServe of an http.Server with an address and a handler: returns
     when the server ends *)
  http_ListenAndServe : string -> (Request -> ResponseWriter -> F -> ResponseWriter * F) ->
    F -> Res unit * F;
  (* gorilla/mux on a request that no route takes *)
  mux_Reject : Request -> ResponseWriter -> ResponseWriter;
  json_State : State -> string;
  json_Result : Result -> string }.

Section assistant.
Context {F : Type} `{Host F}.

Definition GetEnv (key fallback : string) (f : F) : string :=
  match os_LookupEnv key f with Some value => value | None => fallback end.

Definition getBoolEnv (key defaultValue : string) (f : F) : bool :=
  bool_decide (ToLower (GetEnv key defaultValue f) = "true").

Definition sslEnabled (f : F) : bool := getBoolEnv "ENABLE_SSL" "false" f.
Definition twoWaySslEnabled (f : F) : bool := getBoolEnv "ENABLE_2WAY_SSL" "false" f.

(** ** The connection *)
Definition newTLSDialer (addr caCert certFile keyFile : string) (f : F) : Res Dialer :=
  if negb (pool_AppendCertsFromPEM caCert) then Err (Errorf "failed to add root certificate")
  else if decide (0 < String.length certFile)%nat then
    if decide (0 < String.length keyFile)%nat then
      match tls_LoadX509KeyPair certFile keyFile f with
      | Ok _ => mret (mkDialer addr caCert (Some (certFile, keyFile)))
      | Err e => Err (Errorf ("cannot read TLS certificate or key file: " +:+ err_msg e))
      | Panic p => Panic p
      end
    else mret (mkDialer addr caCert None)
  else mret (mkDialer addr caCert None).

Definition zookeeperConnectTLS (servers : list string) (sessionTimeout : Z) (f : F) : Res Conn :=
  caCert ← os_ReadFile caCertFilePath f;
  let certFile := if twoWaySslEnabled f then certFilePath else "" in
  let keyFile := if twoWaySslEnabled f then keyFilePath else "" in
  addr ← index servers 0;
  dialer ← newTLSDialer addr caCert certFile keyFile f;
  zk_Connect (TlsConn servers dialer) sessionTimeout f ;;
  mret (TlsConn servers dialer).

Definition zookeeperConnect (servers : list string) (sessionTimeout : Z) (f : F) : Res Conn :=
  if sslEnabled f then zookeeperConnectTLS servers sessionTimeout f
  else zk_Connect (PlainConn servers) sessionTimeout f ;; mret (PlainConn servers).

(** [log.Fatal] ends the process. *)
Definition orFatal {A} (r : Res A) : Res A :=
  match r with Err _ => Panic ProcessExit | r => r end.

(** The branch [health] of [main]; the credentials flag is never nil. *)
Definition health (credentials : string) (f : F) : Res unit :=
  c ← orFatal (zookeeperConnect ["127.0.0.1:2181"] zkSessionTimeout f);
  orFatal (zk_AddAuth c "digest" credentials f) ;;
  orFatal (zk_ChildrenW c "/" f).

(** ** The backup server *)
Definition storeZooKeeperFiles (data : Data) (f : F) : Res Result * F :=
  let create (f : F) :=
    match os_Mkdir (Destination data) 493 f with
    | (Err e, f) => (Ok (mkResult "Error" ("Creation of '" +:+ Destination data
                                   +:+ "' folder is failed: " +:+ err_msg e)), f)
    | (Panic p, f) => (Panic p, f)
    | (Ok _, f) =>
        match exec_Run "cp" ["-rp"; Source data +:+ "/."; Destination data] f with
        | (Err e, f) => (Ok (mkResult "Error" ("Copying command is failed: " +:+ err_msg e)), f)
        | (Panic p, f) => (Panic p, f)
        | (Ok _, f) => (Ok (mkResult "Ok" "The files are copied successfully!"), f)
        end
    end in
  match os_Stat (Destination data) f with
  | Ok _ =>
      match os_RemoveAll (Destination data) f with
      | (Err e, f) => (Ok (mkResult "Error" ("Remove of '" +:+ Destination data
                                     +:+ "' folder is failed: " +:+ err_msg e)), f)
      | (Panic p, f) => (Panic p, f)
      | (Ok _, f) => create f
      end
  | Err _ => create f
  | Panic p => (Panic p, f)
  end.

(** A handler answers a request and may change the host. *)
Definition Handler : Type := Request -> ResponseWriter -> F -> ResponseWriter * F.

(** The handlers; a panic is recovered and answered with status 500. *)
Definition GetState : Handler := fun _ w f =>
  (Write (json_State (mkState "Running")) (WriteHeader 200 w), f).

Definition Store (data : Data) : Handler := fun _ w f =>
  match storeZooKeeperFiles data f with
  | (Ok response, f) => (Write (json_Result response) (WriteHeader 200 w), f)
  | (_, f) => (Write (json_Result (mkResult "Error" "")) (WriteHeader 500 w), f)
  end.

Definition JsonContentType (h : Handler) : Handler := fun r w f =>
  h r (Header_Set "Content-Type" "application/json" w) f.

(** The routes: method, path, handler. *)
Definition routes (data : Data) : list (string * string * Handler) :=
  [("GET", "/", GetState); ("POST", "/store", Store data)].

(** The router: the handler of the route that has the method and the path. *)
Definition router (data : Data) : Handler := fun r w f =>
  match head (filter (fun t => fst t = (req_Method r, req_Path r)) (routes data)) with
  | Some (_, h) => h r w f
  | None => (mux_Reject r w, f)
  end.

(** The compression of the answers is transparent and left out. *)
Definition BackupHandlers (data : Data) : Handler := JsonContentType (router data).

(** ** The process *)
Definition assistantFlags : list Flag :=
  [StringVar "c"; StringVar "s"; StringVar "d"; StringVar "u"].

Definition serverAddr : string := ":8081".

(** The branch [backup] of [main]: serve until the server ends. *)
Definition backup (data : Data) (f : F) : Res unit :=
  orFatal (fst (http_ListenAndServe serverAddr (BackupHandlers data) f)).

(** How the process ends: code 1 after [log.Fatal], 0 when [main] returns. *)
Definition exitOf (r : Res unit) : Exit :=
  match r with
  | Ok _ => ExitCode 0
  | Err _ | Panic ProcessExit => ExitCode 1
  | Panic _ => Panicked
  end.

Definition main (args : list string) (f : F) : Exit :=
  match parseFlags assistantFlags args ∅ with
  | inl e => ExitCode (flagExit e)
  | inr (actual, _) =>
      let command := flagValue actual "c" "" in
      exitOf (if decide (command = "health") then health (flagValue actual "u" "") f
              else if decide (command = "backup")
              then backup (mkData (flagValue actual "s" "") (flagValue actual "d" "")) f
              else Panic ProcessExit)
  end.
End assistant.

(** ** What the file operations promise

    [tree f p] is the content of the directory [p], [None] when [p] does not
    exist; [apart p q] says that neither path lies inside the other. *)
Class HostLaws (F : Type) `{Host F} (tree : F -> string -> option (gmap string string))
    (apart : string -> string -> Prop) : Prop := {
  hl_stat : forall p f, os_Stat p f = Ok tt <-> is_Some (tree f p);
  hl_remove : forall p f f', os_RemoveAll p f = (Ok tt, f') ->
    tree f' p = None /\ forall q, apart p q -> tree f' q = tree f q;
  hl_mkdir : forall p m f f', os_Mkdir p m f = (Ok tt, f') ->
    tree f p = None /\ tree f' p = Some ∅ /\ forall q, apart p q -> tree f' q = tree f q;
  hl_copy : forall src dst f f', exec_Run "cp" ["-rp"; src +:+ "/."; dst] f = (Ok tt, f') ->
    exists a b, tree f src = Some a /\ tree f dst = Some b /\ tree f' dst = Some (a ∪ b) /\
      (apart dst src -> tree f' src = Some a) }.

(** ** Properties *)
Section properties.
Context {F : Type} `{Host F} (tree : F -> string -> option (gmap string string))
  (apart : string -> string -> Prop) `{!HostLaws F tree apart}.

(** C29: A backup is exact: when the store request answers Ok, the destination
    holds exactly the files of the source as they were before the request,
    with nothing left of an older backup, and the source is untouched. *)
Theorem backup_is_exact data f r f' :
  apart (Destination data) (Source data) ->
  storeZooKeeperFiles data f = (Ok r, f') -> Status r = "Ok" ->
  exists files, tree f (Source data) = Some files /\
    tree f' (Destination data) = Some files /\ tree f' (Source data) = Some files.
Proof.
  intros Hap Hrun Hok.
  assert (exists f1, (tree f1 (Source data) = tree f (Source data)) /\ exists f2,
    os_Mkdir (Destination data) 493 f1 = (Ok tt, f2) /\
    exec_Run "cp" ["-rp"; Source data +:+ "/."; Destination data] f2 = (Ok tt, f'))
    as (f1 & Hsrc & f2 & Hmk & Hcp).
  { unfold storeZooKeeperFiles in Hrun.
    destruct (os_Stat (Destination data) f) as [[]|e|p]; [| |done].
    - destruct (os_RemoveAll (Destination data) f) as [[[]|e|p] f1] eqn:Hrm; [|by simplify_eq/=|done].
      destruct (os_Mkdir (Destination data) 493 f1) as [[[]|e|p] f2] eqn:Hmk; [|by simplify_eq/=|done].
      destruct (exec_Run _ _ f2) as [[[]|e|p] f3] eqn:Hcp; [|by simplify_eq/=|done].
      apply hl_remove in Hrm as [_ Hrm]. exists f1. split; [by apply Hrm|].
      exists f2. by simplify_eq/=.
    - destruct (os_Mkdir (Destination data) 493 f) as [[[]|e'|p] f2] eqn:Hmk; [|by simplify_eq/=|done].
      destruct (exec_Run _ _ f2) as [[[]|e'|p] f3] eqn:Hcp; [|by simplify_eq/=|done].
      exists f. split; [done|]. exists f2. by simplify_eq/=. }
  apply hl_mkdir in Hmk as (_ & Hd & Hq). apply hl_copy in Hcp as (a & b & Ha & Hb & Hc & Hs).
  rewrite Hd in Hb. injection Hb as <-. rewrite (right_id_L ∅ (∪)) in Hc.
  exists a. rewrite <- Hsrc, <- Hq by done. split_and!; auto.
Qed.

(** C33: The old backup goes first: when the destination existed and the copy then
    fails, the answer says Error but carries the HTTP status 200, and the
    destination no longer holds what it held. *)
Theorem failed_backup_loses_the_old_one data f f1 f2 f3 e old :
  tree f (Destination data) = Some old ->
  os_RemoveAll (Destination data) f = (Ok tt, f1) ->
  os_Mkdir (Destination data) 493 f1 = (Ok tt, f2) ->
  exec_Run "cp" ["-rp"; Source data +:+ "/."; Destination data] f2 = (Err e, f3) ->
  BackupHandlers data (mkRequest "POST" "/store") newWriter f =
    (mkWriter {["Content-Type" := "application/json"]} (Some 200)
       (json_Result (mkResult "Error" ("Copying command is failed: " +:+ err_msg e))), f3) /\
  tree f1 (Destination data) = None /\ tree f2 (Destination data) = Some ∅.
Proof.
  intros Hold Hrm Hmk Hcp. split.
  - unfold BackupHandlers, JsonContentType, router. simpl. unfold Store, storeZooKeeperFiles.
    rewrite (proj2 (hl_stat _ _)) by (by eexists). by rewrite Hrm, Hmk, Hcp.
  - apply hl_remove in Hrm as [? _]. apply hl_mkdir in Hmk as (_ & ? & _). done.
Qed.

(** C30: What the backup server does on a request: [POST /store] runs one backup
    and answers in JSON, with status 200 and the result when the backup came
    to an end, well or badly, and with 500 when it panicked; every other
    request leaves the files alone. *)
Theorem server_answers data r (f : F) :
  (r = mkRequest "POST" "/store" ->
     exists w, BackupHandlers data r newWriter f = (w, snd (storeZooKeeperFiles data f)) /\
       rw_Header w !! "Content-Type" = Some "application/json" /\
       (rw_Status w, rw_Body w) = match fst (storeZooKeeperFiles data f) with
                                  | Ok res => (Some 200, json_Result res)
                                  | _ => (Some 500, json_Result (mkResult "Error" ""))
                                  end) /\
  (r <> mkRequest "POST" "/store" -> snd (BackupHandlers data r newWriter f) = f).
Proof.
  unfold BackupHandlers, JsonContentType, router. split.
  - intros ->. simpl. unfold Store. destruct (storeZooKeeperFiles data f) as [[res|e|p] f'];
      eexists; (split; [reflexivity|]); done.
  - intros Hr. destruct r as [m p]. destruct (decide ((m, p) = ("GET", "/"))) as [[= -> ->]|H1]; [done|].
    unfold routes. rewrite filter_cons_False by (simpl; congruence).
    rewrite filter_cons_False; [done|]. simpl. congruence.
Qed.

(** C31: The exit code of the assistant: [-c health] ends with 0 exactly when the
    check passes with the given credentials, [-c backup] serves the backups of
    the given directories until the server ends, an unknown command ends with
    1, and a bad command line with 2 (0 for help). *)
Theorem assistant_exit_code command source destination user (f : F) :
  main (setWord <$> [("c", command); ("s", source); ("d", destination); ("u", user)]) f =
    (if decide (command = "health") then exitOf (health user f)
     else if decide (command = "backup") then exitOf (backup (mkData source destination) f)
     else ExitCode 1) /\
  (forall args e, parseFlags assistantFlags args ∅ = inl e ->
     main args f = ExitCode (match e with ErrHelp => 0 | _ => 2 end)) /\
  (health user f = Ok tt <-> exitOf (health user f) = ExitCode 0).
Proof.
  split; [|split].
  - destruct (parseFlags_set assistantFlags
      [("c", command); ("s", source); ("d", destination); ("u", user)] ∅) as (vs & Hvs & Hp).
    { repeat apply Forall_cons_2; [..|constructor];
        (split; [done|eexists _, _; split; [reflexivity|done]]). }
    do 4 (apply Forall2_cons_inv_l in Hvs as (? & ? & (? & Hf & Hv) & Hvs & ->);
          injection Hf as <-; injection Hv as <-).
    apply Forall2_nil_inv_l in Hvs as ->. unfold main. rewrite Hp. cbv zeta. simpl foldl.
    unfold flagValue. repeat (rewrite lookup_insert_ne by done). rewrite !lookup_insert_eq.
    repeat (rewrite lookup_insert_ne by done). rewrite !lookup_insert_eq. simpl.
    by repeat case_decide.
  - intros args e He. unfold main. by rewrite He.
  - destruct (health user f) as [[]|e|[]]; naive_solver.
Qed.

(** C32: The health check passes only over a connection of the configured kind:
    plain when SSL is off; with SSL on, a TLS connection with the root
    certificate that was read, and with a client certificate exactly when
    two-way SSL is on. *)
Theorem health_uses_configured_tls credentials (f : F) :
  health credentials f = Ok tt ->
  exists c, zk_Connect c zkSessionTimeout f = Ok tt /\ zk_AddAuth c "digest" credentials f = Ok tt /\
    zk_ChildrenW c "/" f = Ok tt /\
    (if sslEnabled f then
       exists ca, os_ReadFile caCertFilePath f = Ok ca /\
         c = TlsConn ["127.0.0.1:2181"] (mkDialer "127.0.0.1:2181" ca
               (if twoWaySslEnabled f then Some (certFilePath, keyFilePath) else None))
     else c = PlainConn ["127.0.0.1:2181"]).
Proof.
  intros Hh. unfold health in Hh. apply bind_Ok in Hh as (c & Hc & Hh).
  apply bind_Ok in Hh as ([] & Hauth & Hch).
  assert (forall A (r : Res A) a, orFatal r = Ok a -> r = Ok a) as Hfatal by by intros ? [].
  apply Hfatal in Hc, Hauth, Hch. exists c. unfold zookeeperConnect, zookeeperConnectTLS in Hc.
  destruct (sslEnabled f).
  - apply bind_Ok in Hc as (ca & Hca & Hc). cbv zeta in Hc. apply bind_Ok in Hc as (a & [= <-] & Hc).
    apply bind_Ok in Hc as (d & Hd & Hc). apply bind_Ok in Hc as ([] & Hconn & Hc).
    apply Ok_inj in Hc as <-. split_and!; try done. exists ca. split; [done|]. f_equal.
    unfold newTLSDialer in Hd. destruct (pool_AppendCertsFromPEM ca); [|done].
    destruct (twoWaySslEnabled f); simpl in Hd; [|by apply Ok_inj in Hd].
    destruct (tls_LoadX509KeyPair _ _ f); [by apply Ok_inj in Hd|done..].
  - apply bind_Ok in Hc as ([] & Hconn & Hc). apply Ok_inj in Hc as <-. by split_and!.
Qed.
End properties.
