(* ===== verification/Memory.v ===== *)
(** * The memory of a Go program, as far as a deep copy uses it

    A map, the array behind a slice and the target of a pointer are cells of a
    heap; a struct holds locations of cells.  The structs are parametric in
    how a reference is represented ([Rep]): in memory ([memory]) it is a
    location or nil, in a value ([contents]) it is what it leads to.  [value]
    reads the value of a struct in a heap.

    [copies]: an operation makes an independent copy when, of any struct that
    has a value, it makes one with the same value whose cells are all new;
    [independent] is what this means for the two structs.
    The rules for struct fields, pointers, slices and maps are proved here
    once for the two versions of the resource. *)

From S2P Require Import Prelude.

Abbreviation loc := positive.

(** The structs of k8s.io/api that the resources embed. *)
Inductive External : Set :=
| Affinity | Toleration | ResourceRequirements | PodSecurityContext | ObjectMeta | ListMeta.

(** The representation of references and of embedded Kubernetes structs. *)
Record Rep : Type := mkRep { ref : Type -> Type; ext : External -> Type }.

(** The Kubernetes structs: in memory and as values. *)
Class KubeTypes : Type := {
  MemExt : External -> Type;
  ValExt : External -> Type;
  KubeCell : Type }.

(** [metav1.TypeMeta], which has no references. *)
Record TypeMeta : Set := mkTypeMeta { tm_Kind : string; tm_APIVersion : string }.

Definition memory `{KubeTypes} : Rep := mkRep (fun _ => option loc) MemExt.
Definition contents `{KubeTypes} : Rep := mkRep option ValExt.

Section heap.
Context {Cell : Type}.
#[local] Abbreviation Heap := (gmap loc Cell).

(** Code that allocates. *)
Definition Alloc (A : Type) : Type := Heap -> A * Heap.

Definition new (c : Cell) : Alloc loc := fun h =>
  let l := fresh (dom h) in (l, <[l := c]> h).
Definition load (l : loc) : Alloc (option Cell) := fun h => (h !! l, h).
End heap.
Arguments Alloc : clear implicits.

#[global] Instance Alloc_ret {Cell} : MRet (Alloc Cell) := fun A a h => (a, h).
#[global] Instance Alloc_bind {Cell} : MBind (Alloc Cell) := fun A B f m h =>
  let '(a, h) := m h in f a h.

Section copying.
Context {Cell : Type}.
#[local] Abbreviation Heap := (gmap loc Cell).
#[local] Abbreviation Alloc := (Alloc Cell).

(** A kind of cell: how its content is stored and found again. *)
Class Stores (A : Type) : Type := { put : A -> Cell; get : Cell -> option A }.
Class StoresLaw (A : Type) `{Stores A} : Prop := get_put : forall a : A, get (put a) = Some a.

(** [if in.X != nil { *out = new(T); copy of the content }]: the same for a
    pointer, a slice and a map, up to the way [f] copies the content.  A
    location that does not hold a [A] cannot occur in a typed program. *)
Definition copyRef {A} `{Stores A} (f : A -> Alloc A) (p : option loc) : Alloc (option loc) :=
  match p with
  | None => mret None
  | Some l =>
      c ← load l;
      match c ≫= get with
      | None => mret (Some l)
      | Some a => a' ← f a; l' ← new (put a'); mret (Some l')
      end
  end.

(** [make([]T, len(in)); copy(out, in)]: the built-in [copy] overwrites the
    first elements. *)
Definition copy_ {A} (dst src : list A) : list A :=
  take (length dst) src ++ drop (length src) dst.
Definition copySlice {A} (zero : A) (l : list A) : Alloc (list A) :=
  mret (copy_ (replicate (length l) zero) l).

(** [for i := range in { in[i].DeepCopyInto(&out[i]) }]. *)
Fixpoint copyElements {A} (f : A -> Alloc A) (l : list A) : Alloc (list A) :=
  match l with
  | [] => mret []
  | a :: l => a' ← f a; l' ← copyElements f l; mret (a' :: l')
  end.

(** [make(map[string]T); for key, val := range in { out[key] = val }]. *)
Definition copyMap {A} (m : gmap string A) : Alloc (gmap string A) :=
  mret (map_fold (fun key val out => <[key := val]> out) ∅ m).

(** ** Values *)
Class Value (A V : Type) : Type := value : Heap -> A -> option V.

(** Reading needs the cells that are there, and more do not matter. *)
Class Readable (A V : Type) `{Value A V} : Prop :=
  value_mono : forall (h h' : Heap) (a : A) (v : V), h ⊆ h' -> value h a = Some v -> value h' a = Some v.

#[global] Instance ref_value {A V} `{Stores A} `{Value A V} : Value (option loc) (option V) :=
  fun h p =>
    match p with
    | None => Some None
    | Some l => c ← h !! l; a ← get c; Some <$> value h a
    end.

#[global] Instance list_value {A V} `{Value A V} : Value (list A) (list V) :=
  fix go h l :=
    match l with
    | [] => Some []
    | a :: l => v ← value h a; vs ← go h l; Some (v :: vs)
    end.

(** A content without references is its own value. *)
Definition plain_value {A} : Value A A := fun _ a => Some a.

(** A run from [h] only adds cells and ends with [P]. *)
Definition yields {A} (h : Heap) (m : Alloc A) (P : Heap -> A -> Prop) : Prop :=
  exists a h', m h = (a, h') /\ h ⊆ h' /\ P h' a.

(** The operation makes an independent copy: started in [h0], it makes of what
    has the value [v] something that has it in the new cells alone. *)
Definition copies {A V} `{Value A V} (f : A -> Alloc A) : Prop :=
  forall h0 a h (v : V), h0 ⊆ h -> value h a = Some v ->
  yields h (f a) (fun h' a' => value (h' ∖ h0) a' = Some v).

(** ** Lemmas *)

Lemma copy_all {A} (zero : A) l : copy_ (replicate (length l) zero) l = l.
Proof.
  unfold copy_. rewrite length_replicate, firstn_all, drop_ge by (by rewrite length_replicate).
  by rewrite app_nil_r.
Qed.

Lemma range_copy {A} (m : gmap string A) : map_fold (fun k v out => <[k := v]> out) ∅ m = m.
Proof.
  apply (map_fold_weak_ind (fun r m => r = m)); [done|].
  by intros k v m' r _ ->.
Qed.

Lemma added_mono (h0 h h' : Heap) : h ⊆ h' -> h ∖ h0 ⊆ h' ∖ h0.
Proof.
  intros Hh. apply map_subseteq_spec. intros l c [Hc Hn]%lookup_difference_Some.
  apply lookup_difference_Some. split; [by eapply lookup_weaken|done].
Qed.

Lemma yields_ret {A} h (a : A) (P : Heap -> A -> Prop) : P h a -> yields h (mret a) P.
Proof. intros HP. exists a, h. by repeat split. Qed.

Lemma yields_bind {A B} h (m : Alloc A) (k : A -> Alloc B) P1 P :
  yields h m P1 -> (forall a h', h ⊆ h' -> P1 h' a -> yields h' (k a) P) -> yields h (m ≫= k) P.
Proof.
  intros (a & h1 & E1 & Hh1 & HP1) Hk. destruct (Hk a h1 Hh1 HP1) as (b & h2 & E2 & Hh2 & HP).
  exists b, h2. split; [|split; [by etrans|done]]. unfold mbind, Alloc_bind. by rewrite E1.
Qed.

Lemma yields_new h0 h c :
  h0 ⊆ h -> yields h (new c) (fun h' l => (h' ∖ h0) !! l = Some c).
Proof.
  intros Hh. set (l := fresh (dom h)).
  assert (h !! l = None) as Hl by apply not_elem_of_dom, is_fresh.
  exists l, (<[l := c]> h). split; [done|]. split; [by apply insert_subseteq|].
  apply lookup_difference_Some. split; [apply lookup_insert_eq|by eapply lookup_weaken_None].
Qed.

(** A field: copied in its turn, with what is known so far. *)
Lemma yields_field {A V B} `{Value A V} (f : A -> Alloc A) (k : A -> Alloc B) a h0 h v P :
  copies f -> h0 ⊆ h -> value h a = Some v ->
  (forall a' h', h ⊆ h' -> value (h' ∖ h0) a' = Some v -> yields h' (k a') P) ->
  yields h (f a ≫= k) P.
Proof. intros Hf Hh Hv Hk. eapply yields_bind; [by apply Hf|done]. Qed.

#[global] Instance ref_mono {A V} `{!Stores A} `{Readable A V} : Readable (option loc) (option V).
Proof.
  intros h h' [l|] v Hh; [|done]. unfold value, ref_value.
  rewrite !bind_Some. intros (c & Hc & Hv). exists c. split; [by eapply lookup_weaken|].
  rewrite !bind_Some in *. destruct Hv as (a & Ha & Hv). exists a. split; [done|].
  apply fmap_Some in Hv as (v' & Hv & ->). by rewrite (value_mono h h' a v').
Qed.

#[global] Instance list_mono {A V} `{Readable A V} : Readable (list A) (list V).
Proof.
  intros h h' l. induction l as [|a l IH]; intros v Hh; [done|]. unfold value. simpl.
  rewrite !bind_Some. intros (x & Hx & Hv). exists x. split; [by eapply value_mono|].
  rewrite !bind_Some in *. destruct Hv as (xs & Hxs & Hv). exists xs. split; [by apply IH|done].
Qed.

Lemma copyRef_copies {A V} `{!Stores A} `{!StoresLaw A} `{Readable A V} (f : A -> Alloc A) :
  copies f -> copies (copyRef f).
Proof.
  intros Hf h0 p h v Hh Hv. destruct p as [l|]; [|injection Hv as <-; by apply yields_ret].
  unfold value, ref_value in Hv. apply bind_Some in Hv as (c & Hc & Hv).
  apply bind_Some in Hv as (a & Ha & (v' & Hv & ->)%fmap_Some). unfold copyRef.
  eapply (yields_bind _ _ _ (fun h' c' => h' = h /\ c' = Some c)).
  { exists (Some c), h. unfold load. by rewrite Hc. }
  intros ? ? _ [-> ->]. simpl. rewrite Ha. eapply yields_field; [exact Hf|done..|].
  intros a' h1 H1 Ha'. eapply yields_bind; [apply (yields_new h0); by etrans|].
  intros l' h2 H2 Hl'. apply yields_ret. unfold value, ref_value. rewrite Hl'. simpl.
  rewrite get_put. simpl. by rewrite (value_mono _ _ _ _ (added_mono h0 h1 h2 H2) Ha').
Qed.

Lemma copyElements_copies {A V} `{Readable A V} (f : A -> Alloc A) :
  copies f -> copies (copyElements f).
Proof.
  intros Hf h0 l. induction l as [|a l IH]; intros h v Hh Hv; [injection Hv as <-; by apply yields_ret|].
  unfold value in Hv. simpl in Hv. apply bind_Some in Hv as (x & Hx & Hv).
  apply bind_Some in Hv as (xs & Hxs & [= <-]). cbn [copyElements].
  eapply yields_field; [done..|]. intros a' h1 H1 Ha'.
  eapply yields_bind; [apply IH; [by etrans|by apply (list_mono h h1)]|].
  intros l' h2 H2 Hl'. apply yields_ret. unfold value. simpl.
  rewrite (value_mono _ _ _ _ (added_mono h0 h1 h2 H2) Ha'). simpl.
  by rewrite (Hl' : list_value _ _ = _).
Qed.
End copying.

(** What a deep copy promises of a pointer: it is nil exactly when the original
    is, it leads to the same value, no cell is changed; the original is not
    affected by any change of new cells, nor the copy by any change of old
    ones. *)
Definition independent {Cell V} `{!Value (Cell:=Cell) (option loc) V}
    (deepCopy : option loc -> Alloc Cell (option loc)) : Prop :=
  forall p h v, value h p = Some v ->
  exists p' h', deepCopy p h = (p', h') /\ (p' = None <-> p = None) /\ h ⊆ h' /\
    (forall h2 : gmap loc Cell, h ⊆ h2 -> value h2 p = Some v) /\
    (forall h2 : gmap loc Cell, h' ∖ h ⊆ h2 -> value h2 p' = Some v).

Lemma copies_independent {Cell A V} `{!Stores (Cell:=Cell) A} `{!StoresLaw A}
    `{!Value (Cell:=Cell) A V} `{!Readable A V}
    (f : A -> Alloc Cell A) :
  copies f -> independent (V:=option V) (Value0:=ref_value (A:=A)) (copyRef f).
Proof.
  intros Hf p h v Hv. pose proof (copyRef_copies f Hf h p h v (reflexivity h) Hv) as (p' & h' & E & Hh & Hp').
  exists p', h'. split_and!; [done| |done|intros h2 H2; by eapply value_mono|intros h2 H2; by eapply value_mono].
  destruct p as [l|]; [|by injection E as <- _]. split; [|done]. intros ->.
  injection Hp' as <-. unfold value, ref_value in Hv.
  apply bind_Some in Hv as (c & _ & (a & _ & (? & _ & [=])%fmap_Some)%bind_Some).
Qed.

(** *** Contents without references *)
Section plain.
Context {Cell : Type} {A : Type}.
#[local] Existing Instance plain_value.

Lemma plain_readable : Readable (Cell:=Cell) A A.
Proof. by intros h h' a v _. Qed.

Lemma plain_copies (f : A -> Alloc Cell A) : (forall a h, f a h = (a, h)) -> copies f.
Proof. intros Hf h0 a h v Hh [= <-]. exists a, h. by rewrite Hf. Qed.
End plain.

(** ** The Kubernetes structs

    Their own deep copies are generated code of k8s.io/api: a parameter. *)
Class KubeCopies (Cell : Type) `{KubeTypes} : Type := {
  ext_value : forall k, Value (Cell:=Cell) (MemExt k) (ValExt k);
  ext_DeepCopyInto : forall k, MemExt k -> Alloc Cell (MemExt k) }.

Class KubeCopyLaws (Cell : Type) `{KubeCopies Cell} : Prop := {
  ext_readable : forall k, Readable (MemExt k) (ValExt k) (H:=ext_value k);
  ext_copies : forall k, copies (H:=ext_value k) (ext_DeepCopyInto k) }.
#[global] Existing Instance ext_value.
#[global] Existing Instance ext_readable.

(** ** Automation *)
Create HintDb copying.
#[export] Hint Extern 1 (copies (copyRef _)) => apply copyRef_copies : copying.
#[export] Hint Extern 1 (copies (copyElements _)) => apply copyElements_copies : copying.
#[export] Hint Extern 1 (copies (ext_DeepCopyInto _)) => apply ext_copies : copying.

(** The fields of a struct that has a value have values. *)
Ltac read_fields H :=
  repeat (let v := fresh "v" in let Hv := fresh "Hv" in apply bind_Some in H as (v & Hv & H)).

Tactic Notation "readable" reference(value_) :=
  let Hh := fresh in let Hr := fresh in
  intros ? ? ? ? Hh Hr; unfold value, value_ in *; revert Hr;
  repeat (rewrite !bind_Some; intros (? & ? & Hr); eexists; split; [by eapply value_mono|revert Hr]);
  auto.

(** What is known of the smaller heap holds in the larger one. *)
Ltac lift_facts h0 Hs :=
  repeat match type of Hs with
  | ?h ⊆ ?h1 =>
      match goal with
      | H : value (h ∖ h0) _ = Some _ |- _ => apply (value_mono _ _ _ _ (added_mono h0 _ _ Hs)) in H
      | H : value h _ = Some _ |- _ => apply (value_mono _ _ _ _ Hs) in H
      | H : h0 ⊆ h |- _ => apply (fun x => transitivity x Hs) in H
      end
  end; clear Hs.

(** The next field, with the value that was read of it. *)
Ltac copy_field h0 Hh :=
  match goal with
  | H : @value ?C ?A ?V ?I ?h ?a = Some ?v |- yields ?h (?f ?a ≫= ?k) ?P =>
      apply (@yields_field C A V _ I f k a h0 h v P); [|exact Hh|exact H|]
  end.

(** Copy the fields one by one; the copy has the values that were read. *)
Tactic Notation "copying" reference(value_) reference(code) :=
  let h0 := fresh "h0" in let s := fresh "s" in let h := fresh "h" in let Hr := fresh "Hr" in
  let Hh := fresh "Hh" in
  intros h0 s h ? Hh Hr; unfold value, value_ in Hr; read_fields Hr; injection Hr as <-;
  unfold code;
  repeat (copy_field h0 Hh; [solve [auto 6 with copying]|];
          let Hs := fresh "Hs" in intros ? ? Hs ?; lift_facts h0 Hs);
  apply yields_ret; unfold value at 1, value_;
  repeat (apply bind_Some; eexists; split; [eassumption|]); reflexivity.
