(* ===== verification/DeepCopyV1.v ===== *)
(** * Deep copies of the resource (api/v1)

    [src/operator/api/v1/zz_generated.deepcopy.go] over the types of
    [zookeeperservice_types.go].  The clients of the API server hand out
    objects from a cache that others share; they rely on these copies.  Every
    struct is a record over a representation of references ([Memory]), so the
    Go struct in memory and its value are two instances of one record.  A
    [DeepCopyInto] starts from [*out = *in] and replaces the fields that hold
    references. *)

From S2P Require Import Prelude Memory.

(** ** The types *)
Set Implicit Arguments.

Record Storage (r : Rep) : Type := mkStorage {
  st_Volumes : ref r (list string);
  st_Nodes : ref r (list string);
  st_Labels : ref r (list string);
  st_ClassName : ref r (list string);
  st_Size : string }.
Arguments mkStorage {r}.

Record SnapshotStorage (r : Rep) : Type := mkSnapshotStorage {
  ss_PersistentVolumeType : string;
  ss_PersistentVolumeName : string;
  ss_PersistentVolumeClaimName : string;
  ss_NodeName : string;
  ss_VolumeSize : string;
  ss_PersistentVolumeLabel : string;
  ss_StorageClass : ref r string;
  ss_NfsServer : string;
  ss_NfsPath : string }.
Arguments mkSnapshotStorage {r}.

Record Ssl (r : Rep) : Type := mkSsl {
  ssl_CipherSuites : ref r (list string);
  ssl_EnableTwoWaySsl : bool;
  ssl_AllowNonencryptedAccess : bool }.
Arguments mkSsl {r}.

Record Diagnostics : Set := mkDiagnostics {
  dg_Mode : string;
  dg_AgentService : string }.

Record ZooKeeper (r : Rep) : Type := mkZooKeeper {
  zk_DockerImage : string;
  zk_Affinity : ext r Affinity;
  zk_Tolerations : ref r (list (ext r Toleration));
  zk_PriorityClassName : string;
  zk_Replicas : Z;
  zk_Storage : Storage r;
  zk_SnapshotStorage : SnapshotStorage r;
  zk_HeapSize : Z;
  zk_Resources : ext r ResourceRequirements;
  zk_SecretName : string;
  zk_QuorumAuthEnabled : bool;
  zk_Ssl : Ssl r;
  zk_SecurityContext : ext r PodSecurityContext;
  zk_JolokiaPort : Z;
  zk_EnvironmentVariables : ref r (list string);
  zk_RollingUpdate : bool;
  zk_CustomLabels : ref r (gmap string string);
  zk_Diagnostics : Diagnostics;
  zk_AuditEnabled : bool }.
Arguments mkZooKeeper {r}.

Record S3 : Set := mkS3 {
  s3_Enabled : bool;
  s3_Url : string;
  s3_Bucket : string;
  s3_SecretName : string;
  s3_SslVerify : bool;
  s3_SslSecretName : string;
  s3_SslCert : string }.

Record Monitoring (r : Rep) : Type := mkMonitoring {
  mon_DockerImage : string;
  mon_Affinity : ext r Affinity;
  mon_Tolerations : ref r (list (ext r Toleration));
  mon_PriorityClassName : string;
  mon_Resources : ext r ResourceRequirements;
  mon_MonitoringType : string;
  mon_ZooKeeperHost : string;
  mon_ZooKeeperBackupDaemonHost : string;
  mon_SecretName : string;
  mon_ZooKeeperJolokiaPort : Z;
  mon_SecurityContext : ext r PodSecurityContext;
  mon_CustomLabels : ref r (gmap string string);
  mon_ZooKeeperVolumes : string;
  mon_NeedToCleanInfluxDb : bool;
  mon_SmDbHost : string;
  mon_SmDbName : string }.
Arguments mkMonitoring {r}.

Record SecretPaths (r : Rep) : Type := mkSecretPaths {
  sp_Monitoring : ref r (gmap string string) }.
Arguments mkSecretPaths {r}.

Record VaultSecretManagement (r : Rep) : Type := mkVaultSecretManagement {
  vsm_DockerImage : string;
  vsm_Enabled : bool;
  vsm_Path : string;
  vsm_Url : string;
  vsm_Role : string;
  vsm_Method : string;
  vsm_PasswordGenerationMechanism : string;
  vsm_WritePolicies : bool;
  vsm_SecretPaths : SecretPaths r }.
Arguments mkVaultSecretManagement {r}.

Record ZooKeeperSsl : Set := mkZooKeeperSsl {
  zssl_Enabled : bool;
  zssl_SecretName : string }.

Record PVCMetadata (r : Rep) : Type := mkPVCMetadata {
  pm_Annotations : ref r (gmap string string) }.
Arguments mkPVCMetadata {r}.

Record PVC (r : Rep) : Type := mkPVC {
  pvc_PVCMetadata : PVCMetadata r }.
Arguments mkPVC {r}.

Record Global (r : Rep) : Type := mkGlobal {
  g_WaitForPodsReady : bool;
  g_PodsReadyTimeout : Z;
  g_CustomLabels : ref r (gmap string string);
  g_DefaultLabels : ref r (gmap string string);
  g_ZooKeeperSsl : ZooKeeperSsl;
  g_PVC : PVC r }.
Arguments mkGlobal {r}.

Record BackupDaemonSsl : Set := mkBackupDaemonSsl {
  bssl_Enabled : bool;
  bssl_SecretName : string }.

Record IntegrationTests : Set := mkIntegrationTests {
  it_ServiceName : string;
  it_WaitForResult : bool;
  it_Timeout : Z;
  it_RandomRunTrigger : string }.

Record BackupDaemon (r : Rep) : Type := mkBackupDaemon {
  bd_DockerImage : string;
  bd_Affinity : ext r Affinity;
  bd_Tolerations : ref r (list (ext r Toleration));
  bd_PriorityClassName : string;
  bd_BackupStorage : SnapshotStorage r;
  bd_Resources : ext r ResourceRequirements;
  bd_BackupSchedule : string;
  bd_S3 : ref r S3;
  bd_EvictionPolicy : string;
  bd_IPv6 : bool;
  bd_ZooKeeperHost : string;
  bd_ZooKeeperPort : Z;
  bd_SecretName : string;
  bd_SecurityContext : ext r PodSecurityContext;
  bd_CustomLabels : ref r (gmap string string);
  bd_BackupDaemonSsl : BackupDaemonSsl }.
Arguments mkBackupDaemon {r}.

Record ZooKeeperServiceSpec (r : Rep) : Type := mkZooKeeperServiceSpec {
  spec_Global : ref r (Global r);
  spec_ZooKeeper : ref r (ZooKeeper r);
  spec_Monitoring : ref r (Monitoring r);
  spec_BackupDaemon : ref r (BackupDaemon r);
  spec_VaultSecretManagement : ref r (VaultSecretManagement r);
  spec_IntegrationTests : ref r IntegrationTests }.
Arguments mkZooKeeperServiceSpec {r}.

Record ZooKeeperStatus (r : Rep) : Type := mkZooKeeperStatus {
  zs_Servers : ref r (list string) }.
Arguments mkZooKeeperStatus {r}.

Record MonitoringStatus (r : Rep) : Type := mkMonitoringStatus {
  ms_Nodes : ref r (list string) }.
Arguments mkMonitoringStatus {r}.

Record BackupDaemonStatus (r : Rep) : Type := mkBackupDaemonStatus {
  bs_Nodes : ref r (list string) }.
Arguments mkBackupDaemonStatus {r}.

Record PVCStatus (r : Rep) : Type := mkPVCStatus {
  ps_Annotations : ref r (gmap string string) }.
Arguments mkPVCStatus {r}.

Record VaultSecretManagementStatus (r : Rep) : Type := mkVaultSecretManagementStatus {
  vs_SecretVersions : ref r (gmap string Z) }.
Arguments mkVaultSecretManagementStatus {r}.

Record StatusCondition : Set := mkStatusCondition {
  cond_Type : string;
  cond_Status : string;
  cond_Reason : string;
  cond_Message : string;
  cond_LastTransitionTime : string }.

Record ZooKeeperServiceStatus (r : Rep) : Type := mkZooKeeperServiceStatus {
  status_ZooKeeperStatus : ZooKeeperStatus r;
  status_MonitoringStatus : MonitoringStatus r;
  status_BackupDaemonStatus : BackupDaemonStatus r;
  status_PVCStatus : PVCStatus r;
  status_VaultSecretManagementStatus : VaultSecretManagementStatus r;
  status_Conditions : ref r (list StatusCondition) }.
Arguments mkZooKeeperServiceStatus {r}.

Record ZooKeeperService (r : Rep) : Type := mkZooKeeperService {
  cr_TypeMeta : TypeMeta;
  cr_ObjectMeta : ext r ObjectMeta;
  cr_Spec : ZooKeeperServiceSpec r;
  cr_Status : ZooKeeperServiceStatus r }.
Arguments mkZooKeeperService {r}.

Record ZooKeeperServiceList (r : Rep) : Type := mkZooKeeperServiceList {
  crs_TypeMeta : TypeMeta;
  crs_ListMeta : ext r ListMeta;
  crs_Items : ref r (list (ZooKeeperService r)) }.
Arguments mkZooKeeperServiceList {r}.

Unset Implicit Arguments.

(** ** The memory *)

(** What a cell can hold. *)

Inductive Cell `{KubeTypes} : Type :=
| CellStrings (x : list string)
| CellStringMap (x : gmap string string)
| CellString (x : string)
| CellInts (x : gmap string Z)
| CellTolerations (x : list (MemExt Toleration))
| CellConditions (x : list StatusCondition)
| CellItems (x : list (ZooKeeperService memory))
| CellStorage (x : Storage memory)
| CellSnapshotStorage (x : SnapshotStorage memory)
| CellSsl (x : Ssl memory)
| CellDiagnostics (x : Diagnostics)
| CellZooKeeper (x : ZooKeeper memory)
| CellS3 (x : S3)
| CellMonitoring (x : Monitoring memory)
| CellSecretPaths (x : SecretPaths memory)
| CellVaultSecretManagement (x : VaultSecretManagement memory)
| CellZooKeeperSsl (x : ZooKeeperSsl)
| CellPVCMetadata (x : PVCMetadata memory)
| CellPVC (x : PVC memory)
| CellGlobal (x : Global memory)
| CellBackupDaemonSsl (x : BackupDaemonSsl)
| CellIntegrationTests (x : IntegrationTests)
| CellBackupDaemon (x : BackupDaemon memory)
| CellZooKeeperServiceSpec (x : ZooKeeperServiceSpec memory)
| CellZooKeeperStatus (x : ZooKeeperStatus memory)
| CellMonitoringStatus (x : MonitoringStatus memory)
| CellBackupDaemonStatus (x : BackupDaemonStatus memory)
| CellPVCStatus (x : PVCStatus memory)
| CellVaultSecretManagementStatus (x : VaultSecretManagementStatus memory)
| CellStatusCondition (x : StatusCondition)
| CellZooKeeperServiceStatus (x : ZooKeeperServiceStatus memory)
| CellZooKeeperService (x : ZooKeeperService memory)
| CellZooKeeperServiceList (x : ZooKeeperServiceList memory)
| CellKube (x : KubeCell).

Section memory.
Context `{KubeTypes}.

#[global] Instance stores_Strings : Stores (Cell:=Cell) (list string) :=
  {| put := CellStrings; get c := match c with CellStrings x => Some x | _ => None end |}.
#[global] Instance stores_Strings_law : StoresLaw (Cell:=Cell) (list string).
Proof. done. Qed.

#[global] Instance stores_StringMap : Stores (Cell:=Cell) (gmap string string) :=
  {| put := CellStringMap; get c := match c with CellStringMap x => Some x | _ => None end |}.
#[global] Instance stores_StringMap_law : StoresLaw (Cell:=Cell) (gmap string string).
Proof. done. Qed.

#[global] Instance stores_String : Stores (Cell:=Cell) string :=
  {| put := CellString; get c := match c with CellString x => Some x | _ => None end |}.
#[global] Instance stores_String_law : StoresLaw (Cell:=Cell) string.
Proof. done. Qed.

#[global] Instance stores_Ints : Stores (Cell:=Cell) (gmap string Z) :=
  {| put := CellInts; get c := match c with CellInts x => Some x | _ => None end |}.
#[global] Instance stores_Ints_law : StoresLaw (Cell:=Cell) (gmap string Z).
Proof. done. Qed.

#[global] Instance stores_Tolerations : Stores (Cell:=Cell) (list (MemExt Toleration)) :=
  {| put := CellTolerations; get c := match c with CellTolerations x => Some x | _ => None end |}.
#[global] Instance stores_Tolerations_law : StoresLaw (Cell:=Cell) (list (MemExt Toleration)).
Proof. done. Qed.

#[global] Instance stores_Conditions : Stores (Cell:=Cell) (list StatusCondition) :=
  {| put := CellConditions; get c := match c with CellConditions x => Some x | _ => None end |}.
#[global] Instance stores_Conditions_law : StoresLaw (Cell:=Cell) (list StatusCondition).
Proof. done. Qed.

#[global] Instance stores_Items : Stores (Cell:=Cell) (list (ZooKeeperService memory)) :=
  {| put := CellItems; get c := match c with CellItems x => Some x | _ => None end |}.
#[global] Instance stores_Items_law : StoresLaw (Cell:=Cell) (list (ZooKeeperService memory)).
Proof. done. Qed.

#[global] Instance stores_Storage : Stores (Cell:=Cell) (Storage memory) :=
  {| put := CellStorage; get c := match c with CellStorage x => Some x | _ => None end |}.
#[global] Instance stores_Storage_law : StoresLaw (Cell:=Cell) (Storage memory).
Proof. done. Qed.

#[global] Instance stores_SnapshotStorage : Stores (Cell:=Cell) (SnapshotStorage memory) :=
  {| put := CellSnapshotStorage; get c := match c with CellSnapshotStorage x => Some x | _ => None end |}.
#[global] Instance stores_SnapshotStorage_law : StoresLaw (Cell:=Cell) (SnapshotStorage memory).
Proof. done. Qed.

#[global] Instance stores_Ssl : Stores (Cell:=Cell) (Ssl memory) :=
  {| put := CellSsl; get c := match c with CellSsl x => Some x | _ => None end |}.
#[global] Instance stores_Ssl_law : StoresLaw (Cell:=Cell) (Ssl memory).
Proof. done. Qed.

#[global] Instance stores_Diagnostics : Stores (Cell:=Cell) Diagnostics :=
  {| put := CellDiagnostics; get c := match c with CellDiagnostics x => Some x | _ => None end |}.
#[global] Instance stores_Diagnostics_law : StoresLaw (Cell:=Cell) Diagnostics.
Proof. done. Qed.

#[global] Instance stores_ZooKeeper : Stores (Cell:=Cell) (ZooKeeper memory) :=
  {| put := CellZooKeeper; get c := match c with CellZooKeeper x => Some x | _ => None end |}.
#[global] Instance stores_ZooKeeper_law : StoresLaw (Cell:=Cell) (ZooKeeper memory).
Proof. done. Qed.

#[global] Instance stores_S3 : Stores (Cell:=Cell) S3 :=
  {| put := CellS3; get c := match c with CellS3 x => Some x | _ => None end |}.
#[global] Instance stores_S3_law : StoresLaw (Cell:=Cell) S3.
Proof. done. Qed.

#[global] Instance stores_Monitoring : Stores (Cell:=Cell) (Monitoring memory) :=
  {| put := CellMonitoring; get c := match c with CellMonitoring x => Some x | _ => None end |}.
#[global] Instance stores_Monitoring_law : StoresLaw (Cell:=Cell) (Monitoring memory).
Proof. done. Qed.

#[global] Instance stores_SecretPaths : Stores (Cell:=Cell) (SecretPaths memory) :=
  {| put := CellSecretPaths; get c := match c with CellSecretPaths x => Some x | _ => None end |}.
#[global] Instance stores_SecretPaths_law : StoresLaw (Cell:=Cell) (SecretPaths memory).
Proof. done. Qed.

#[global] Instance stores_VaultSecretManagement : Stores (Cell:=Cell) (VaultSecretManagement memory) :=
  {| put := CellVaultSecretManagement; get c := match c with CellVaultSecretManagement x => Some x | _ => None end |}.
#[global] Instance stores_VaultSecretManagement_law : StoresLaw (Cell:=Cell) (VaultSecretManagement memory).
Proof. done. Qed.

#[global] Instance stores_ZooKeeperSsl : Stores (Cell:=Cell) ZooKeeperSsl :=
  {| put := CellZooKeeperSsl; get c := match c with CellZooKeeperSsl x => Some x | _ => None end |}.
#[global] Instance stores_ZooKeeperSsl_law : StoresLaw (Cell:=Cell) ZooKeeperSsl.
Proof. done. Qed.

#[global] Instance stores_PVCMetadata : Stores (Cell:=Cell) (PVCMetadata memory) :=
  {| put := CellPVCMetadata; get c := match c with CellPVCMetadata x => Some x | _ => None end |}.
#[global] Instance stores_PVCMetadata_law : StoresLaw (Cell:=Cell) (PVCMetadata memory).
Proof. done. Qed.

#[global] Instance stores_PVC : Stores (Cell:=Cell) (PVC memory) :=
  {| put := CellPVC; get c := match c with CellPVC x => Some x | _ => None end |}.
#[global] Instance stores_PVC_law : StoresLaw (Cell:=Cell) (PVC memory).
Proof. done. Qed.

#[global] Instance stores_Global : Stores (Cell:=Cell) (Global memory) :=
  {| put := CellGlobal; get c := match c with CellGlobal x => Some x | _ => None end |}.
#[global] Instance stores_Global_law : StoresLaw (Cell:=Cell) (Global memory).
Proof. done. Qed.

#[global] Instance stores_BackupDaemonSsl : Stores (Cell:=Cell) BackupDaemonSsl :=
  {| put := CellBackupDaemonSsl; get c := match c with CellBackupDaemonSsl x => Some x | _ => None end |}.
#[global] Instance stores_BackupDaemonSsl_law : StoresLaw (Cell:=Cell) BackupDaemonSsl.
Proof. done. Qed.

#[global] Instance stores_IntegrationTests : Stores (Cell:=Cell) IntegrationTests :=
  {| put := CellIntegrationTests; get c := match c with CellIntegrationTests x => Some x | _ => None end |}.
#[global] Instance stores_IntegrationTests_law : StoresLaw (Cell:=Cell) IntegrationTests.
Proof. done. Qed.

#[global] Instance stores_BackupDaemon : Stores (Cell:=Cell) (BackupDaemon memory) :=
  {| put := CellBackupDaemon; get c := match c with CellBackupDaemon x => Some x | _ => None end |}.
#[global] Instance stores_BackupDaemon_law : StoresLaw (Cell:=Cell) (BackupDaemon memory).
Proof. done. Qed.

#[global] Instance stores_ZooKeeperServiceSpec : Stores (Cell:=Cell) (ZooKeeperServiceSpec memory) :=
  {| put := CellZooKeeperServiceSpec; get c := match c with CellZooKeeperServiceSpec x => Some x | _ => None end |}.
#[global] Instance stores_ZooKeeperServiceSpec_law : StoresLaw (Cell:=Cell) (ZooKeeperServiceSpec memory).
Proof. done. Qed.

#[global] Instance stores_ZooKeeperStatus : Stores (Cell:=Cell) (ZooKeeperStatus memory) :=
  {| put := CellZooKeeperStatus; get c := match c with CellZooKeeperStatus x => Some x | _ => None end |}.
#[global] Instance stores_ZooKeeperStatus_law : StoresLaw (Cell:=Cell) (ZooKeeperStatus memory).
Proof. done. Qed.

#[global] Instance stores_MonitoringStatus : Stores (Cell:=Cell) (MonitoringStatus memory) :=
  {| put := CellMonitoringStatus; get c := match c with CellMonitoringStatus x => Some x | _ => None end |}.
#[global] Instance stores_MonitoringStatus_law : StoresLaw (Cell:=Cell) (MonitoringStatus memory).
Proof. done. Qed.

#[global] Instance stores_BackupDaemonStatus : Stores (Cell:=Cell) (BackupDaemonStatus memory) :=
  {| put := CellBackupDaemonStatus; get c := match c with CellBackupDaemonStatus x => Some x | _ => None end |}.
#[global] Instance stores_BackupDaemonStatus_law : StoresLaw (Cell:=Cell) (BackupDaemonStatus memory).
Proof. done. Qed.

#[global] Instance stores_PVCStatus : Stores (Cell:=Cell) (PVCStatus memory) :=
  {| put := CellPVCStatus; get c := match c with CellPVCStatus x => Some x | _ => None end |}.
#[global] Instance stores_PVCStatus_law : StoresLaw (Cell:=Cell) (PVCStatus memory).
Proof. done. Qed.

#[global] Instance stores_VaultSecretManagementStatus : Stores (Cell:=Cell) (VaultSecretManagementStatus memory) :=
  {| put := CellVaultSecretManagementStatus; get c := match c with CellVaultSecretManagementStatus x => Some x | _ => None end |}.
#[global] Instance stores_VaultSecretManagementStatus_law : StoresLaw (Cell:=Cell) (VaultSecretManagementStatus memory).
Proof. done. Qed.

#[global] Instance stores_StatusCondition : Stores (Cell:=Cell) StatusCondition :=
  {| put := CellStatusCondition; get c := match c with CellStatusCondition x => Some x | _ => None end |}.
#[global] Instance stores_StatusCondition_law : StoresLaw (Cell:=Cell) StatusCondition.
Proof. done. Qed.

#[global] Instance stores_ZooKeeperServiceStatus : Stores (Cell:=Cell) (ZooKeeperServiceStatus memory) :=
  {| put := CellZooKeeperServiceStatus; get c := match c with CellZooKeeperServiceStatus x => Some x | _ => None end |}.
#[global] Instance stores_ZooKeeperServiceStatus_law : StoresLaw (Cell:=Cell) (ZooKeeperServiceStatus memory).
Proof. done. Qed.

#[global] Instance stores_ZooKeeperService : Stores (Cell:=Cell) (ZooKeeperService memory) :=
  {| put := CellZooKeeperService; get c := match c with CellZooKeeperService x => Some x | _ => None end |}.
#[global] Instance stores_ZooKeeperService_law : StoresLaw (Cell:=Cell) (ZooKeeperService memory).
Proof. done. Qed.

#[global] Instance stores_ZooKeeperServiceList : Stores (Cell:=Cell) (ZooKeeperServiceList memory) :=
  {| put := CellZooKeeperServiceList; get c := match c with CellZooKeeperServiceList x => Some x | _ => None end |}.
#[global] Instance stores_ZooKeeperServiceList_law : StoresLaw (Cell:=Cell) (ZooKeeperServiceList memory).
Proof. done. Qed.

#[global] Instance stores_kube : Stores (Cell:=Cell) KubeCell :=
  {| put := CellKube; get c := match c with CellKube x => Some x | _ => None end |}.
#[global] Instance stores_kube_law : StoresLaw (Cell:=Cell) KubeCell.
Proof. done. Qed.

(** Contents without references. *)

#[global] Instance plain_Strings : Value (Cell:=Cell) (list string) (list string) := plain_value.
#[global] Instance plain_Strings_readable : Readable (Cell:=Cell) (list string) (list string) := plain_readable.

#[global] Instance plain_StringMap : Value (Cell:=Cell) (gmap string string) (gmap string string) := plain_value.
#[global] Instance plain_StringMap_readable : Readable (Cell:=Cell) (gmap string string) (gmap string string) := plain_readable.

#[global] Instance plain_String : Value (Cell:=Cell) string string := plain_value.
#[global] Instance plain_String_readable : Readable (Cell:=Cell) string string := plain_readable.

#[global] Instance plain_Ints : Value (Cell:=Cell) (gmap string Z) (gmap string Z) := plain_value.
#[global] Instance plain_Ints_readable : Readable (Cell:=Cell) (gmap string Z) (gmap string Z) := plain_readable.

#[global] Instance plain_Conditions : Value (Cell:=Cell) (list StatusCondition) (list StatusCondition) := plain_value.
#[global] Instance plain_Conditions_readable : Readable (Cell:=Cell) (list StatusCondition) (list StatusCondition) := plain_readable.

#[global] Instance plain_Diagnostics : Value (Cell:=Cell) Diagnostics Diagnostics := plain_value.
#[global] Instance plain_Diagnostics_readable : Readable (Cell:=Cell) Diagnostics Diagnostics := plain_readable.

#[global] Instance plain_S3 : Value (Cell:=Cell) S3 S3 := plain_value.
#[global] Instance plain_S3_readable : Readable (Cell:=Cell) S3 S3 := plain_readable.

#[global] Instance plain_ZooKeeperSsl : Value (Cell:=Cell) ZooKeeperSsl ZooKeeperSsl := plain_value.
#[global] Instance plain_ZooKeeperSsl_readable : Readable (Cell:=Cell) ZooKeeperSsl ZooKeeperSsl := plain_readable.

#[global] Instance plain_BackupDaemonSsl : Value (Cell:=Cell) BackupDaemonSsl BackupDaemonSsl := plain_value.
#[global] Instance plain_BackupDaemonSsl_readable : Readable (Cell:=Cell) BackupDaemonSsl BackupDaemonSsl := plain_readable.

#[global] Instance plain_IntegrationTests : Value (Cell:=Cell) IntegrationTests IntegrationTests := plain_value.
#[global] Instance plain_IntegrationTests_readable : Readable (Cell:=Cell) IntegrationTests IntegrationTests := plain_readable.

#[global] Instance plain_StatusCondition : Value (Cell:=Cell) StatusCondition StatusCondition := plain_value.
#[global] Instance plain_StatusCondition_readable : Readable (Cell:=Cell) StatusCondition StatusCondition := plain_readable.

End memory.

Section copies.
Context `{KubeTypes} `{!KubeCopies Cell}.
#[local] Abbreviation Alloc := (Alloc Cell).
#[local] Abbreviation refValue A V := (@value Cell (option loc) (option V) (ref_value (A:=A) (V:=V))).

Definition zeroCondition : StatusCondition := mkStatusCondition "" "" "" "" "".

(** ** The value of a struct in a heap *)

#[global] Instance Storage_value : Value (Cell:=Cell) (Storage memory) (Storage contents) := fun h s =>
  volumes ← refValue (list string) (list string) h (st_Volumes s);
  nodes ← refValue (list string) (list string) h (st_Nodes s);
  labels ← refValue (list string) (list string) h (st_Labels s);
  className ← refValue (list string) (list string) h (st_ClassName s);
  Some (mkStorage (r:=contents) volumes nodes labels className (st_Size s)).

#[global] Instance SnapshotStorage_value : Value (Cell:=Cell) (SnapshotStorage memory) (SnapshotStorage contents) := fun h s =>
  storageClass ← refValue string string h (ss_StorageClass s);
  Some (mkSnapshotStorage (r:=contents) (ss_PersistentVolumeType s) (ss_PersistentVolumeName s) (ss_PersistentVolumeClaimName s) (ss_NodeName s) (ss_VolumeSize s) (ss_PersistentVolumeLabel s) storageClass (ss_NfsServer s) (ss_NfsPath s)).

#[global] Instance Ssl_value : Value (Cell:=Cell) (Ssl memory) (Ssl contents) := fun h s =>
  cipherSuites ← refValue (list string) (list string) h (ssl_CipherSuites s);
  Some (mkSsl (r:=contents) cipherSuites (ssl_EnableTwoWaySsl s) (ssl_AllowNonencryptedAccess s)).

#[global] Instance ZooKeeper_value : Value (Cell:=Cell) (ZooKeeper memory) (ZooKeeper contents) := fun h s =>
  affinity ← value (A:=MemExt Affinity) (V:=ValExt Affinity) h (zk_Affinity s);
  tolerations ← refValue (list (MemExt Toleration)) (list (ValExt Toleration)) h (zk_Tolerations s);
  storage ← value h (zk_Storage s);
  snapshotStorage ← value h (zk_SnapshotStorage s);
  resources ← value (A:=MemExt ResourceRequirements) (V:=ValExt ResourceRequirements) h (zk_Resources s);
  ssl ← value h (zk_Ssl s);
  securityContext ← value (A:=MemExt PodSecurityContext) (V:=ValExt PodSecurityContext) h (zk_SecurityContext s);
  environmentVariables ← refValue (list string) (list string) h (zk_EnvironmentVariables s);
  customLabels ← refValue (gmap string string) (gmap string string) h (zk_CustomLabels s);
  Some (mkZooKeeper (r:=contents) (zk_DockerImage s) affinity tolerations (zk_PriorityClassName s) (zk_Replicas s) storage snapshotStorage (zk_HeapSize s) resources (zk_SecretName s) (zk_QuorumAuthEnabled s) ssl securityContext (zk_JolokiaPort s) environmentVariables (zk_RollingUpdate s) customLabels (zk_Diagnostics s) (zk_AuditEnabled s)).

#[global] Instance Monitoring_value : Value (Cell:=Cell) (Monitoring memory) (Monitoring contents) := fun h s =>
  affinity ← value (A:=MemExt Affinity) (V:=ValExt Affinity) h (mon_Affinity s);
  tolerations ← refValue (list (MemExt Toleration)) (list (ValExt Toleration)) h (mon_Tolerations s);
  resources ← value (A:=MemExt ResourceRequirements) (V:=ValExt ResourceRequirements) h (mon_Resources s);
  securityContext ← value (A:=MemExt PodSecurityContext) (V:=ValExt PodSecurityContext) h (mon_SecurityContext s);
  customLabels ← refValue (gmap string string) (gmap string string) h (mon_CustomLabels s);
  Some (mkMonitoring (r:=contents) (mon_DockerImage s) affinity tolerations (mon_PriorityClassName s) resources (mon_MonitoringType s) (mon_ZooKeeperHost s) (mon_ZooKeeperBackupDaemonHost s) (mon_SecretName s) (mon_ZooKeeperJolokiaPort s) securityContext customLabels (mon_ZooKeeperVolumes s) (mon_NeedToCleanInfluxDb s) (mon_SmDbHost s) (mon_SmDbName s)).

#[global] Instance SecretPaths_value : Value (Cell:=Cell) (SecretPaths memory) (SecretPaths contents) := fun h s =>
  monitoring ← refValue (gmap string string) (gmap string string) h (sp_Monitoring s);
  Some (mkSecretPaths (r:=contents) monitoring).

#[global] Instance VaultSecretManagement_value : Value (Cell:=Cell) (VaultSecretManagement memory) (VaultSecretManagement contents) := fun h s =>
  secretPaths ← value h (vsm_SecretPaths s);
  Some (mkVaultSecretManagement (r:=contents) (vsm_DockerImage s) (vsm_Enabled s) (vsm_Path s) (vsm_Url s) (vsm_Role s) (vsm_Method s) (vsm_PasswordGenerationMechanism s) (vsm_WritePolicies s) secretPaths).

#[global] Instance PVCMetadata_value : Value (Cell:=Cell) (PVCMetadata memory) (PVCMetadata contents) := fun h s =>
  annotations ← refValue (gmap string string) (gmap string string) h (pm_Annotations s);
  Some (mkPVCMetadata (r:=contents) annotations).

#[global] Instance PVC_value : Value (Cell:=Cell) (PVC memory) (PVC contents) := fun h s =>
  pVCMetadata ← value h (pvc_PVCMetadata s);
  Some (mkPVC (r:=contents) pVCMetadata).

#[global] Instance Global_value : Value (Cell:=Cell) (Global memory) (Global contents) := fun h s =>
  customLabels ← refValue (gmap string string) (gmap string string) h (g_CustomLabels s);
  defaultLabels ← refValue (gmap string string) (gmap string string) h (g_DefaultLabels s);
  pVC ← value h (g_PVC s);
  Some (mkGlobal (r:=contents) (g_WaitForPodsReady s) (g_PodsReadyTimeout s) customLabels defaultLabels (g_ZooKeeperSsl s) pVC).

#[global] Instance BackupDaemon_value : Value (Cell:=Cell) (BackupDaemon memory) (BackupDaemon contents) := fun h s =>
  affinity ← value (A:=MemExt Affinity) (V:=ValExt Affinity) h (bd_Affinity s);
  tolerations ← refValue (list (MemExt Toleration)) (list (ValExt Toleration)) h (bd_Tolerations s);
  backupStorage ← value h (bd_BackupStorage s);
  resources ← value (A:=MemExt ResourceRequirements) (V:=ValExt ResourceRequirements) h (bd_Resources s);
  s3 ← refValue S3 S3 h (bd_S3 s);
  securityContext ← value (A:=MemExt PodSecurityContext) (V:=ValExt PodSecurityContext) h (bd_SecurityContext s);
  customLabels ← refValue (gmap string string) (gmap string string) h (bd_CustomLabels s);
  Some (mkBackupDaemon (r:=contents) (bd_DockerImage s) affinity tolerations (bd_PriorityClassName s) backupStorage resources (bd_BackupSchedule s) s3 (bd_EvictionPolicy s) (bd_IPv6 s) (bd_ZooKeeperHost s) (bd_ZooKeeperPort s) (bd_SecretName s) securityContext customLabels (bd_BackupDaemonSsl s)).

#[global] Instance ZooKeeperServiceSpec_value : Value (Cell:=Cell) (ZooKeeperServiceSpec memory) (ZooKeeperServiceSpec contents) := fun h s =>
  global ← refValue (Global memory) (Global contents) h (spec_Global s);
  zooKeeper ← refValue (ZooKeeper memory) (ZooKeeper contents) h (spec_ZooKeeper s);
  monitoring ← refValue (Monitoring memory) (Monitoring contents) h (spec_Monitoring s);
  backupDaemon ← refValue (BackupDaemon memory) (BackupDaemon contents) h (spec_BackupDaemon s);
  vaultSecretManagement ← refValue (VaultSecretManagement memory) (VaultSecretManagement contents) h (spec_VaultSecretManagement s);
  integrationTests ← refValue IntegrationTests IntegrationTests h (spec_IntegrationTests s);
  Some (mkZooKeeperServiceSpec (r:=contents) global zooKeeper monitoring backupDaemon vaultSecretManagement integrationTests).

#[global] Instance ZooKeeperStatus_value : Value (Cell:=Cell) (ZooKeeperStatus memory) (ZooKeeperStatus contents) := fun h s =>
  servers ← refValue (list string) (list string) h (zs_Servers s);
  Some (mkZooKeeperStatus (r:=contents) servers).

#[global] Instance MonitoringStatus_value : Value (Cell:=Cell) (MonitoringStatus memory) (MonitoringStatus contents) := fun h s =>
  nodes ← refValue (list string) (list string) h (ms_Nodes s);
  Some (mkMonitoringStatus (r:=contents) nodes).

#[global] Instance BackupDaemonStatus_value : Value (Cell:=Cell) (BackupDaemonStatus memory) (BackupDaemonStatus contents) := fun h s =>
  nodes ← refValue (list string) (list string) h (bs_Nodes s);
  Some (mkBackupDaemonStatus (r:=contents) nodes).

#[global] Instance PVCStatus_value : Value (Cell:=Cell) (PVCStatus memory) (PVCStatus contents) := fun h s =>
  annotations ← refValue (gmap string string) (gmap string string) h (ps_Annotations s);
  Some (mkPVCStatus (r:=contents) annotations).

#[global] Instance VaultSecretManagementStatus_value : Value (Cell:=Cell) (VaultSecretManagementStatus memory) (VaultSecretManagementStatus contents) := fun h s =>
  secretVersions ← refValue (gmap string Z) (gmap string Z) h (vs_SecretVersions s);
  Some (mkVaultSecretManagementStatus (r:=contents) secretVersions).

#[global] Instance ZooKeeperServiceStatus_value : Value (Cell:=Cell) (ZooKeeperServiceStatus memory) (ZooKeeperServiceStatus contents) := fun h s =>
  zooKeeperStatus ← value h (status_ZooKeeperStatus s);
  monitoringStatus ← value h (status_MonitoringStatus s);
  backupDaemonStatus ← value h (status_BackupDaemonStatus s);
  pVCStatus ← value h (status_PVCStatus s);
  vaultSecretManagementStatus ← value h (status_VaultSecretManagementStatus s);
  conditions ← refValue (list StatusCondition) (list StatusCondition) h (status_Conditions s);
  Some (mkZooKeeperServiceStatus (r:=contents) zooKeeperStatus monitoringStatus backupDaemonStatus pVCStatus vaultSecretManagementStatus conditions).

#[global] Instance ZooKeeperService_value : Value (Cell:=Cell) (ZooKeeperService memory) (ZooKeeperService contents) := fun h s =>
  objectMeta ← value (A:=MemExt ObjectMeta) (V:=ValExt ObjectMeta) h (cr_ObjectMeta s);
  spec ← value h (cr_Spec s);
  status ← value h (cr_Status s);
  Some (mkZooKeeperService (r:=contents) (cr_TypeMeta s) objectMeta spec status).

#[global] Instance ZooKeeperServiceList_value : Value (Cell:=Cell) (ZooKeeperServiceList memory) (ZooKeeperServiceList contents) := fun h s =>
  listMeta ← value (A:=MemExt ListMeta) (V:=ValExt ListMeta) h (crs_ListMeta s);
  items ← refValue (list (ZooKeeperService memory)) (list (ZooKeeperService contents)) h (crs_Items s);
  Some (mkZooKeeperServiceList (r:=contents) (crs_TypeMeta s) listMeta items).

(** ** The generated code *)

Definition Storage_DeepCopyInto (s : Storage memory) : Alloc (Storage memory) :=
  volumes ← copyRef (copySlice "") (st_Volumes s);
  nodes ← copyRef (copySlice "") (st_Nodes s);
  labels ← copyRef (copySlice "") (st_Labels s);
  className ← copyRef (copySlice "") (st_ClassName s);
  mret (mkStorage (r:=memory) volumes nodes labels className (st_Size s)).

Definition SnapshotStorage_DeepCopyInto (s : SnapshotStorage memory) : Alloc (SnapshotStorage memory) :=
  storageClass ← copyRef (A:=string) mret (ss_StorageClass s);
  mret (mkSnapshotStorage (r:=memory) (ss_PersistentVolumeType s) (ss_PersistentVolumeName s) (ss_PersistentVolumeClaimName s) (ss_NodeName s) (ss_VolumeSize s) (ss_PersistentVolumeLabel s) storageClass (ss_NfsServer s) (ss_NfsPath s)).

Definition Ssl_DeepCopyInto (s : Ssl memory) : Alloc (Ssl memory) :=
  cipherSuites ← copyRef (copySlice "") (ssl_CipherSuites s);
  mret (mkSsl (r:=memory) cipherSuites (ssl_EnableTwoWaySsl s) (ssl_AllowNonencryptedAccess s)).

Definition Diagnostics_DeepCopyInto (s : Diagnostics) : Alloc Diagnostics := mret s.

Definition ZooKeeper_DeepCopyInto (s : ZooKeeper memory) : Alloc (ZooKeeper memory) :=
  affinity ← ext_DeepCopyInto Affinity (zk_Affinity s);
  tolerations ← copyRef (copyElements (ext_DeepCopyInto Toleration)) (zk_Tolerations s);
  storage ← Storage_DeepCopyInto (zk_Storage s);
  snapshotStorage ← SnapshotStorage_DeepCopyInto (zk_SnapshotStorage s);
  resources ← ext_DeepCopyInto ResourceRequirements (zk_Resources s);
  ssl ← Ssl_DeepCopyInto (zk_Ssl s);
  securityContext ← ext_DeepCopyInto PodSecurityContext (zk_SecurityContext s);
  environmentVariables ← copyRef (copySlice "") (zk_EnvironmentVariables s);
  customLabels ← copyRef (A:=gmap string string) copyMap (zk_CustomLabels s);
  mret (mkZooKeeper (r:=memory) (zk_DockerImage s) affinity tolerations (zk_PriorityClassName s) (zk_Replicas s) storage snapshotStorage (zk_HeapSize s) resources (zk_SecretName s) (zk_QuorumAuthEnabled s) ssl securityContext (zk_JolokiaPort s) environmentVariables (zk_RollingUpdate s) customLabels (zk_Diagnostics s) (zk_AuditEnabled s)).

Definition S3_DeepCopyInto (s : S3) : Alloc S3 := mret s.

Definition Monitoring_DeepCopyInto (s : Monitoring memory) : Alloc (Monitoring memory) :=
  affinity ← ext_DeepCopyInto Affinity (mon_Affinity s);
  tolerations ← copyRef (copyElements (ext_DeepCopyInto Toleration)) (mon_Tolerations s);
  resources ← ext_DeepCopyInto ResourceRequirements (mon_Resources s);
  securityContext ← ext_DeepCopyInto PodSecurityContext (mon_SecurityContext s);
  customLabels ← copyRef (A:=gmap string string) copyMap (mon_CustomLabels s);
  mret (mkMonitoring (r:=memory) (mon_DockerImage s) affinity tolerations (mon_PriorityClassName s) resources (mon_MonitoringType s) (mon_ZooKeeperHost s) (mon_ZooKeeperBackupDaemonHost s) (mon_SecretName s) (mon_ZooKeeperJolokiaPort s) securityContext customLabels (mon_ZooKeeperVolumes s) (mon_NeedToCleanInfluxDb s) (mon_SmDbHost s) (mon_SmDbName s)).

Definition SecretPaths_DeepCopyInto (s : SecretPaths memory) : Alloc (SecretPaths memory) :=
  monitoring ← copyRef (A:=gmap string string) copyMap (sp_Monitoring s);
  mret (mkSecretPaths (r:=memory) monitoring).

Definition VaultSecretManagement_DeepCopyInto (s : VaultSecretManagement memory) : Alloc (VaultSecretManagement memory) :=
  secretPaths ← SecretPaths_DeepCopyInto (vsm_SecretPaths s);
  mret (mkVaultSecretManagement (r:=memory) (vsm_DockerImage s) (vsm_Enabled s) (vsm_Path s) (vsm_Url s) (vsm_Role s) (vsm_Method s) (vsm_PasswordGenerationMechanism s) (vsm_WritePolicies s) secretPaths).

Definition ZooKeeperSsl_DeepCopyInto (s : ZooKeeperSsl) : Alloc ZooKeeperSsl := mret s.

Definition PVCMetadata_DeepCopyInto (s : PVCMetadata memory) : Alloc (PVCMetadata memory) :=
  annotations ← copyRef (A:=gmap string string) copyMap (pm_Annotations s);
  mret (mkPVCMetadata (r:=memory) annotations).

Definition PVC_DeepCopyInto (s : PVC memory) : Alloc (PVC memory) :=
  pVCMetadata ← PVCMetadata_DeepCopyInto (pvc_PVCMetadata s);
  mret (mkPVC (r:=memory) pVCMetadata).

Definition Global_DeepCopyInto (s : Global memory) : Alloc (Global memory) :=
  customLabels ← copyRef (A:=gmap string string) copyMap (g_CustomLabels s);
  defaultLabels ← copyRef (A:=gmap string string) copyMap (g_DefaultLabels s);
  pVC ← PVC_DeepCopyInto (g_PVC s);
  mret (mkGlobal (r:=memory) (g_WaitForPodsReady s) (g_PodsReadyTimeout s) customLabels defaultLabels (g_ZooKeeperSsl s) pVC).

Definition BackupDaemonSsl_DeepCopyInto (s : BackupDaemonSsl) : Alloc BackupDaemonSsl := mret s.

Definition IntegrationTests_DeepCopyInto (s : IntegrationTests) : Alloc IntegrationTests := mret s.

Definition BackupDaemon_DeepCopyInto (s : BackupDaemon memory) : Alloc (BackupDaemon memory) :=
  affinity ← ext_DeepCopyInto Affinity (bd_Affinity s);
  tolerations ← copyRef (copyElements (ext_DeepCopyInto Toleration)) (bd_Tolerations s);
  backupStorage ← SnapshotStorage_DeepCopyInto (bd_BackupStorage s);
  resources ← ext_DeepCopyInto ResourceRequirements (bd_Resources s);
  s3 ← copyRef (A:=S3) mret (bd_S3 s);
  securityContext ← ext_DeepCopyInto PodSecurityContext (bd_SecurityContext s);
  customLabels ← copyRef (A:=gmap string string) copyMap (bd_CustomLabels s);
  mret (mkBackupDaemon (r:=memory) (bd_DockerImage s) affinity tolerations (bd_PriorityClassName s) backupStorage resources (bd_BackupSchedule s) s3 (bd_EvictionPolicy s) (bd_IPv6 s) (bd_ZooKeeperHost s) (bd_ZooKeeperPort s) (bd_SecretName s) securityContext customLabels (bd_BackupDaemonSsl s)).

Definition ZooKeeperServiceSpec_DeepCopyInto (s : ZooKeeperServiceSpec memory) : Alloc (ZooKeeperServiceSpec memory) :=
  global ← copyRef Global_DeepCopyInto (spec_Global s);
  zooKeeper ← copyRef ZooKeeper_DeepCopyInto (spec_ZooKeeper s);
  monitoring ← copyRef Monitoring_DeepCopyInto (spec_Monitoring s);
  backupDaemon ← copyRef BackupDaemon_DeepCopyInto (spec_BackupDaemon s);
  vaultSecretManagement ← copyRef VaultSecretManagement_DeepCopyInto (spec_VaultSecretManagement s);
  integrationTests ← copyRef (A:=IntegrationTests) mret (spec_IntegrationTests s);
  mret (mkZooKeeperServiceSpec (r:=memory) global zooKeeper monitoring backupDaemon vaultSecretManagement integrationTests).

Definition ZooKeeperStatus_DeepCopyInto (s : ZooKeeperStatus memory) : Alloc (ZooKeeperStatus memory) :=
  servers ← copyRef (copySlice "") (zs_Servers s);
  mret (mkZooKeeperStatus (r:=memory) servers).

Definition MonitoringStatus_DeepCopyInto (s : MonitoringStatus memory) : Alloc (MonitoringStatus memory) :=
  nodes ← copyRef (copySlice "") (ms_Nodes s);
  mret (mkMonitoringStatus (r:=memory) nodes).

Definition BackupDaemonStatus_DeepCopyInto (s : BackupDaemonStatus memory) : Alloc (BackupDaemonStatus memory) :=
  nodes ← copyRef (copySlice "") (bs_Nodes s);
  mret (mkBackupDaemonStatus (r:=memory) nodes).

Definition PVCStatus_DeepCopyInto (s : PVCStatus memory) : Alloc (PVCStatus memory) :=
  annotations ← copyRef (A:=gmap string string) copyMap (ps_Annotations s);
  mret (mkPVCStatus (r:=memory) annotations).

Definition VaultSecretManagementStatus_DeepCopyInto (s : VaultSecretManagementStatus memory) : Alloc (VaultSecretManagementStatus memory) :=
  secretVersions ← copyRef (A:=gmap string Z) copyMap (vs_SecretVersions s);
  mret (mkVaultSecretManagementStatus (r:=memory) secretVersions).

Definition StatusCondition_DeepCopyInto (s : StatusCondition) : Alloc StatusCondition := mret s.

Definition ZooKeeperServiceStatus_DeepCopyInto (s : ZooKeeperServiceStatus memory) : Alloc (ZooKeeperServiceStatus memory) :=
  zooKeeperStatus ← ZooKeeperStatus_DeepCopyInto (status_ZooKeeperStatus s);
  monitoringStatus ← MonitoringStatus_DeepCopyInto (status_MonitoringStatus s);
  backupDaemonStatus ← BackupDaemonStatus_DeepCopyInto (status_BackupDaemonStatus s);
  pVCStatus ← PVCStatus_DeepCopyInto (status_PVCStatus s);
  vaultSecretManagementStatus ← VaultSecretManagementStatus_DeepCopyInto (status_VaultSecretManagementStatus s);
  conditions ← copyRef (copySlice zeroCondition) (status_Conditions s);
  mret (mkZooKeeperServiceStatus (r:=memory) zooKeeperStatus monitoringStatus backupDaemonStatus pVCStatus vaultSecretManagementStatus conditions).

Definition ZooKeeperService_DeepCopyInto (s : ZooKeeperService memory) : Alloc (ZooKeeperService memory) :=
  objectMeta ← ext_DeepCopyInto ObjectMeta (cr_ObjectMeta s);
  spec ← ZooKeeperServiceSpec_DeepCopyInto (cr_Spec s);
  status ← ZooKeeperServiceStatus_DeepCopyInto (cr_Status s);
  mret (mkZooKeeperService (r:=memory) (cr_TypeMeta s) objectMeta spec status).

Definition ZooKeeperServiceList_DeepCopyInto (s : ZooKeeperServiceList memory) : Alloc (ZooKeeperServiceList memory) :=
  listMeta ← ext_DeepCopyInto ListMeta (crs_ListMeta s);
  items ← copyRef (copyElements ZooKeeperService_DeepCopyInto) (crs_Items s);
  mret (mkZooKeeperServiceList (r:=memory) (crs_TypeMeta s) listMeta items).

Definition Storage_DeepCopy (p : option loc) : Alloc (option loc) :=
  copyRef Storage_DeepCopyInto p.

Definition SnapshotStorage_DeepCopy (p : option loc) : Alloc (option loc) :=
  copyRef SnapshotStorage_DeepCopyInto p.

Definition Ssl_DeepCopy (p : option loc) : Alloc (option loc) :=
  copyRef Ssl_DeepCopyInto p.

Definition Diagnostics_DeepCopy (p : option loc) : Alloc (option loc) :=
  copyRef Diagnostics_DeepCopyInto p.

Definition ZooKeeper_DeepCopy (p : option loc) : Alloc (option loc) :=
  copyRef ZooKeeper_DeepCopyInto p.

Definition S3_DeepCopy (p : option loc) : Alloc (option loc) :=
  copyRef S3_DeepCopyInto p.

Definition Monitoring_DeepCopy (p : option loc) : Alloc (option loc) :=
  copyRef Monitoring_DeepCopyInto p.

Definition SecretPaths_DeepCopy (p : option loc) : Alloc (option loc) :=
  copyRef SecretPaths_DeepCopyInto p.

Definition VaultSecretManagement_DeepCopy (p : option loc) : Alloc (option loc) :=
  copyRef VaultSecretManagement_DeepCopyInto p.

Definition ZooKeeperSsl_DeepCopy (p : option loc) : Alloc (option loc) :=
  copyRef ZooKeeperSsl_DeepCopyInto p.

Definition PVCMetadata_DeepCopy (p : option loc) : Alloc (option loc) :=
  copyRef PVCMetadata_DeepCopyInto p.

Definition PVC_DeepCopy (p : option loc) : Alloc (option loc) :=
  copyRef PVC_DeepCopyInto p.

Definition Global_DeepCopy (p : option loc) : Alloc (option loc) :=
  copyRef Global_DeepCopyInto p.

Definition BackupDaemonSsl_DeepCopy (p : option loc) : Alloc (option loc) :=
  copyRef BackupDaemonSsl_DeepCopyInto p.

Definition IntegrationTests_DeepCopy (p : option loc) : Alloc (option loc) :=
  copyRef IntegrationTests_DeepCopyInto p.

Definition BackupDaemon_DeepCopy (p : option loc) : Alloc (option loc) :=
  copyRef BackupDaemon_DeepCopyInto p.

Definition ZooKeeperServiceSpec_DeepCopy (p : option loc) : Alloc (option loc) :=
  copyRef ZooKeeperServiceSpec_DeepCopyInto p.

Definition ZooKeeperStatus_DeepCopy (p : option loc) : Alloc (option loc) :=
  copyRef ZooKeeperStatus_DeepCopyInto p.

Definition MonitoringStatus_DeepCopy (p : option loc) : Alloc (option loc) :=
  copyRef MonitoringStatus_DeepCopyInto p.

Definition BackupDaemonStatus_DeepCopy (p : option loc) : Alloc (option loc) :=
  copyRef BackupDaemonStatus_DeepCopyInto p.

Definition PVCStatus_DeepCopy (p : option loc) : Alloc (option loc) :=
  copyRef PVCStatus_DeepCopyInto p.

Definition VaultSecretManagementStatus_DeepCopy (p : option loc) : Alloc (option loc) :=
  copyRef VaultSecretManagementStatus_DeepCopyInto p.

Definition StatusCondition_DeepCopy (p : option loc) : Alloc (option loc) :=
  copyRef StatusCondition_DeepCopyInto p.

Definition ZooKeeperServiceStatus_DeepCopy (p : option loc) : Alloc (option loc) :=
  copyRef ZooKeeperServiceStatus_DeepCopyInto p.

Definition ZooKeeperService_DeepCopy (p : option loc) : Alloc (option loc) :=
  copyRef ZooKeeperService_DeepCopyInto p.

Definition ZooKeeperServiceList_DeepCopy (p : option loc) : Alloc (option loc) :=
  copyRef ZooKeeperServiceList_DeepCopyInto p.

Definition ZooKeeperService_DeepCopyObject (p : option loc) : Alloc (option loc) :=
  c ← ZooKeeperService_DeepCopy p;
  match c with Some l => mret (Some l) | None => mret None end.

Definition ZooKeeperServiceList_DeepCopyObject (p : option loc) : Alloc (option loc) :=
  c ← ZooKeeperServiceList_DeepCopy p;
  match c with Some l => mret (Some l) | None => mret None end.

End copies.

(** ** Lemmas *)
Section lemmas.
Context `{KubeTypes} `{!KubeCopies Cell} `{!KubeCopyLaws Cell}.

#[global] Instance Storage_readable : Readable (Cell:=Cell) (Storage memory) (Storage contents).
Proof. readable Storage_value. Qed.

#[global] Instance SnapshotStorage_readable : Readable (Cell:=Cell) (SnapshotStorage memory) (SnapshotStorage contents).
Proof. readable SnapshotStorage_value. Qed.

#[global] Instance Ssl_readable : Readable (Cell:=Cell) (Ssl memory) (Ssl contents).
Proof. readable Ssl_value. Qed.

#[global] Instance ZooKeeper_readable : Readable (Cell:=Cell) (ZooKeeper memory) (ZooKeeper contents).
Proof. readable ZooKeeper_value. Qed.

#[global] Instance Monitoring_readable : Readable (Cell:=Cell) (Monitoring memory) (Monitoring contents).
Proof. readable Monitoring_value. Qed.

#[global] Instance SecretPaths_readable : Readable (Cell:=Cell) (SecretPaths memory) (SecretPaths contents).
Proof. readable SecretPaths_value. Qed.

#[global] Instance VaultSecretManagement_readable : Readable (Cell:=Cell) (VaultSecretManagement memory) (VaultSecretManagement contents).
Proof. readable VaultSecretManagement_value. Qed.

#[global] Instance PVCMetadata_readable : Readable (Cell:=Cell) (PVCMetadata memory) (PVCMetadata contents).
Proof. readable PVCMetadata_value. Qed.

#[global] Instance PVC_readable : Readable (Cell:=Cell) (PVC memory) (PVC contents).
Proof. readable PVC_value. Qed.

#[global] Instance Global_readable : Readable (Cell:=Cell) (Global memory) (Global contents).
Proof. readable Global_value. Qed.

#[global] Instance BackupDaemon_readable : Readable (Cell:=Cell) (BackupDaemon memory) (BackupDaemon contents).
Proof. readable BackupDaemon_value. Qed.

#[global] Instance ZooKeeperServiceSpec_readable : Readable (Cell:=Cell) (ZooKeeperServiceSpec memory) (ZooKeeperServiceSpec contents).
Proof. readable ZooKeeperServiceSpec_value. Qed.

#[global] Instance ZooKeeperStatus_readable : Readable (Cell:=Cell) (ZooKeeperStatus memory) (ZooKeeperStatus contents).
Proof. readable ZooKeeperStatus_value. Qed.

#[global] Instance MonitoringStatus_readable : Readable (Cell:=Cell) (MonitoringStatus memory) (MonitoringStatus contents).
Proof. readable MonitoringStatus_value. Qed.

#[global] Instance BackupDaemonStatus_readable : Readable (Cell:=Cell) (BackupDaemonStatus memory) (BackupDaemonStatus contents).
Proof. readable BackupDaemonStatus_value. Qed.

#[global] Instance PVCStatus_readable : Readable (Cell:=Cell) (PVCStatus memory) (PVCStatus contents).
Proof. readable PVCStatus_value. Qed.

#[global] Instance VaultSecretManagementStatus_readable : Readable (Cell:=Cell) (VaultSecretManagementStatus memory) (VaultSecretManagementStatus contents).
Proof. readable VaultSecretManagementStatus_value. Qed.

#[global] Instance ZooKeeperServiceStatus_readable : Readable (Cell:=Cell) (ZooKeeperServiceStatus memory) (ZooKeeperServiceStatus contents).
Proof. readable ZooKeeperServiceStatus_value. Qed.

#[global] Instance ZooKeeperService_readable : Readable (Cell:=Cell) (ZooKeeperService memory) (ZooKeeperService contents).
Proof. readable ZooKeeperService_value. Qed.

#[global] Instance ZooKeeperServiceList_readable : Readable (Cell:=Cell) (ZooKeeperServiceList memory) (ZooKeeperServiceList contents).
Proof. readable ZooKeeperServiceList_value. Qed.

Lemma strings_copies : copies (Cell:=Cell) (A:=list string) (copySlice "").
Proof. apply plain_copies. intros l h. unfold copySlice. by rewrite copy_all. Qed.
Lemma map_copies : copies (Cell:=Cell) (A:=gmap string string) copyMap.
Proof. apply plain_copies. intros m h. unfold copyMap. by rewrite range_copy. Qed.
Lemma string_copies : copies (Cell:=Cell) (A:=string) mret.
Proof. by apply plain_copies. Qed.
#[local] Hint Resolve strings_copies map_copies string_copies : copying.

Lemma ints_copies : copies (Cell:=Cell) (A:=gmap string Z) copyMap.
Proof. apply plain_copies. intros m h. unfold copyMap. by rewrite range_copy. Qed.
#[local] Hint Resolve ints_copies : copying.

Lemma conditions_copies : copies (Cell:=Cell) (copySlice zeroCondition).
Proof. apply plain_copies. intros l h. unfold copySlice. by rewrite copy_all. Qed.
#[local] Hint Resolve conditions_copies : copying.

Lemma Storage_copies : copies Storage_DeepCopyInto.
Proof. copying Storage_value Storage_DeepCopyInto. Qed.
#[local] Hint Resolve Storage_copies : copying.

Lemma SnapshotStorage_copies : copies SnapshotStorage_DeepCopyInto.
Proof. copying SnapshotStorage_value SnapshotStorage_DeepCopyInto. Qed.
#[local] Hint Resolve SnapshotStorage_copies : copying.

Lemma Ssl_copies : copies Ssl_DeepCopyInto.
Proof. copying Ssl_value Ssl_DeepCopyInto. Qed.
#[local] Hint Resolve Ssl_copies : copying.

Lemma Diagnostics_copies : copies Diagnostics_DeepCopyInto.
Proof. by apply plain_copies. Qed.
Lemma Diagnostics_assigned : copies (Cell:=Cell) (A:=Diagnostics) mret.
Proof. by apply plain_copies. Qed.
#[local] Hint Resolve Diagnostics_copies Diagnostics_assigned : copying.

Lemma ZooKeeper_copies : copies ZooKeeper_DeepCopyInto.
Proof. copying ZooKeeper_value ZooKeeper_DeepCopyInto. Qed.
#[local] Hint Resolve ZooKeeper_copies : copying.

Lemma S3_copies : copies S3_DeepCopyInto.
Proof. by apply plain_copies. Qed.
Lemma S3_assigned : copies (Cell:=Cell) (A:=S3) mret.
Proof. by apply plain_copies. Qed.
#[local] Hint Resolve S3_copies S3_assigned : copying.

Lemma Monitoring_copies : copies Monitoring_DeepCopyInto.
Proof. copying Monitoring_value Monitoring_DeepCopyInto. Qed.
#[local] Hint Resolve Monitoring_copies : copying.

Lemma SecretPaths_copies : copies SecretPaths_DeepCopyInto.
Proof. copying SecretPaths_value SecretPaths_DeepCopyInto. Qed.
#[local] Hint Resolve SecretPaths_copies : copying.

Lemma VaultSecretManagement_copies : copies VaultSecretManagement_DeepCopyInto.
Proof. copying VaultSecretManagement_value VaultSecretManagement_DeepCopyInto. Qed.
#[local] Hint Resolve VaultSecretManagement_copies : copying.

Lemma ZooKeeperSsl_copies : copies ZooKeeperSsl_DeepCopyInto.
Proof. by apply plain_copies. Qed.
Lemma ZooKeeperSsl_assigned : copies (Cell:=Cell) (A:=ZooKeeperSsl) mret.
Proof. by apply plain_copies. Qed.
#[local] Hint Resolve ZooKeeperSsl_copies ZooKeeperSsl_assigned : copying.

Lemma PVCMetadata_copies : copies PVCMetadata_DeepCopyInto.
Proof. copying PVCMetadata_value PVCMetadata_DeepCopyInto. Qed.
#[local] Hint Resolve PVCMetadata_copies : copying.

Lemma PVC_copies : copies PVC_DeepCopyInto.
Proof. copying PVC_value PVC_DeepCopyInto. Qed.
#[local] Hint Resolve PVC_copies : copying.

Lemma Global_copies : copies Global_DeepCopyInto.
Proof. copying Global_value Global_DeepCopyInto. Qed.
#[local] Hint Resolve Global_copies : copying.

Lemma BackupDaemonSsl_copies : copies BackupDaemonSsl_DeepCopyInto.
Proof. by apply plain_copies. Qed.
Lemma BackupDaemonSsl_assigned : copies (Cell:=Cell) (A:=BackupDaemonSsl) mret.
Proof. by apply plain_copies. Qed.
#[local] Hint Resolve BackupDaemonSsl_copies BackupDaemonSsl_assigned : copying.

Lemma IntegrationTests_copies : copies IntegrationTests_DeepCopyInto.
Proof. by apply plain_copies. Qed.
Lemma IntegrationTests_assigned : copies (Cell:=Cell) (A:=IntegrationTests) mret.
Proof. by apply plain_copies. Qed.
#[local] Hint Resolve IntegrationTests_copies IntegrationTests_assigned : copying.

Lemma BackupDaemon_copies : copies BackupDaemon_DeepCopyInto.
Proof. copying BackupDaemon_value BackupDaemon_DeepCopyInto. Qed.
#[local] Hint Resolve BackupDaemon_copies : copying.

Lemma ZooKeeperServiceSpec_copies : copies ZooKeeperServiceSpec_DeepCopyInto.
Proof. copying ZooKeeperServiceSpec_value ZooKeeperServiceSpec_DeepCopyInto. Qed.
#[local] Hint Resolve ZooKeeperServiceSpec_copies : copying.

Lemma ZooKeeperStatus_copies : copies ZooKeeperStatus_DeepCopyInto.
Proof. copying ZooKeeperStatus_value ZooKeeperStatus_DeepCopyInto. Qed.
#[local] Hint Resolve ZooKeeperStatus_copies : copying.

Lemma MonitoringStatus_copies : copies MonitoringStatus_DeepCopyInto.
Proof. copying MonitoringStatus_value MonitoringStatus_DeepCopyInto. Qed.
#[local] Hint Resolve MonitoringStatus_copies : copying.

Lemma BackupDaemonStatus_copies : copies BackupDaemonStatus_DeepCopyInto.
Proof. copying BackupDaemonStatus_value BackupDaemonStatus_DeepCopyInto. Qed.
#[local] Hint Resolve BackupDaemonStatus_copies : copying.

Lemma PVCStatus_copies : copies PVCStatus_DeepCopyInto.
Proof. copying PVCStatus_value PVCStatus_DeepCopyInto. Qed.
#[local] Hint Resolve PVCStatus_copies : copying.

Lemma VaultSecretManagementStatus_copies : copies VaultSecretManagementStatus_DeepCopyInto.
Proof. copying VaultSecretManagementStatus_value VaultSecretManagementStatus_DeepCopyInto. Qed.
#[local] Hint Resolve VaultSecretManagementStatus_copies : copying.

Lemma StatusCondition_copies : copies StatusCondition_DeepCopyInto.
Proof. by apply plain_copies. Qed.
Lemma StatusCondition_assigned : copies (Cell:=Cell) (A:=StatusCondition) mret.
Proof. by apply plain_copies. Qed.
#[local] Hint Resolve StatusCondition_copies StatusCondition_assigned : copying.

Lemma ZooKeeperServiceStatus_copies : copies ZooKeeperServiceStatus_DeepCopyInto.
Proof. copying ZooKeeperServiceStatus_value ZooKeeperServiceStatus_DeepCopyInto. Qed.
#[local] Hint Resolve ZooKeeperServiceStatus_copies : copying.

Lemma ZooKeeperService_copies : copies ZooKeeperService_DeepCopyInto.
Proof. copying ZooKeeperService_value ZooKeeperService_DeepCopyInto. Qed.
#[local] Hint Resolve ZooKeeperService_copies : copying.

Lemma ZooKeeperServiceList_copies : copies ZooKeeperServiceList_DeepCopyInto.
Proof. copying ZooKeeperServiceList_value ZooKeeperServiceList_DeepCopyInto. Qed.
#[local] Hint Resolve ZooKeeperServiceList_copies : copying.

Lemma object_copies (f : option loc -> Alloc Cell (option loc)) p h :
  (c ← f p; match c with Some l => mret (Some l) | None => mret None end) h = f p h.
Proof. unfold mbind, Alloc_bind. by destruct (f p h) as [[l|] h']. Qed.

#[local] Abbreviation copied_as A V f := (independent (Cell:=Cell) (V:=option V) (Value0:=ref_value (A:=A) (V:=V)) f).

(** C15: The generated deep copies of the resource and of all its parts are
    independent copies: whatever the structs share, a copy has the value of the
    original, nil where the original is nil, every cell it uses is new, no
    existing cell is changed; so no later edit of the copy shows in the
    original, nor the other way round.  In particular the generated code
    covers every map, slice and pointer of the types. *)
Theorem deep_copies_independent :
  copied_as (ZooKeeperService memory) (ZooKeeperService contents) ZooKeeperService_DeepCopyObject /\
  copied_as (ZooKeeperServiceList memory) (ZooKeeperServiceList contents) ZooKeeperServiceList_DeepCopyObject /\
  copied_as (Storage memory) (Storage contents) Storage_DeepCopy /\
  copied_as (SnapshotStorage memory) (SnapshotStorage contents) SnapshotStorage_DeepCopy /\
  copied_as (Ssl memory) (Ssl contents) Ssl_DeepCopy /\
  copied_as (Diagnostics) (Diagnostics) Diagnostics_DeepCopy /\
  copied_as (ZooKeeper memory) (ZooKeeper contents) ZooKeeper_DeepCopy /\
  copied_as (S3) (S3) S3_DeepCopy /\
  copied_as (Monitoring memory) (Monitoring contents) Monitoring_DeepCopy /\
  copied_as (SecretPaths memory) (SecretPaths contents) SecretPaths_DeepCopy /\
  copied_as (VaultSecretManagement memory) (VaultSecretManagement contents) VaultSecretManagement_DeepCopy /\
  copied_as (ZooKeeperSsl) (ZooKeeperSsl) ZooKeeperSsl_DeepCopy /\
  copied_as (PVCMetadata memory) (PVCMetadata contents) PVCMetadata_DeepCopy /\
  copied_as (PVC memory) (PVC contents) PVC_DeepCopy /\
  copied_as (Global memory) (Global contents) Global_DeepCopy /\
  copied_as (BackupDaemonSsl) (BackupDaemonSsl) BackupDaemonSsl_DeepCopy /\
  copied_as (IntegrationTests) (IntegrationTests) IntegrationTests_DeepCopy /\
  copied_as (BackupDaemon memory) (BackupDaemon contents) BackupDaemon_DeepCopy /\
  copied_as (ZooKeeperServiceSpec memory) (ZooKeeperServiceSpec contents) ZooKeeperServiceSpec_DeepCopy /\
  copied_as (ZooKeeperStatus memory) (ZooKeeperStatus contents) ZooKeeperStatus_DeepCopy /\
  copied_as (MonitoringStatus memory) (MonitoringStatus contents) MonitoringStatus_DeepCopy /\
  copied_as (BackupDaemonStatus memory) (BackupDaemonStatus contents) BackupDaemonStatus_DeepCopy /\
  copied_as (PVCStatus memory) (PVCStatus contents) PVCStatus_DeepCopy /\
  copied_as (VaultSecretManagementStatus memory) (VaultSecretManagementStatus contents) VaultSecretManagementStatus_DeepCopy /\
  copied_as (StatusCondition) (StatusCondition) StatusCondition_DeepCopy /\
  copied_as (ZooKeeperServiceStatus memory) (ZooKeeperServiceStatus contents) ZooKeeperServiceStatus_DeepCopy /\
  copied_as (ZooKeeperService memory) (ZooKeeperService contents) ZooKeeperService_DeepCopy /\
  copied_as (ZooKeeperServiceList memory) (ZooKeeperServiceList contents) ZooKeeperServiceList_DeepCopy.
Proof.
  assert (forall A V (sA : Stores (Cell:=Cell) A) (vA : Value (Cell:=Cell) A V) f g,
    copied_as A V f -> (forall p h, g p h = f p h) -> copied_as A V g) as Heq.
  { intros A V ? ? f g Hf Hg p h v Hv. rewrite Hg. by apply Hf. }
  split_and!; try (eapply Heq; [|intros; apply object_copies]);
    (apply copies_independent; auto with copying).
Qed.

End lemmas.
