(* ===== verification/DeepCopyV1alpha1.v ===== *)
(** * Deep copies of the old resource (api/v1alpha1)

    The types of [src/operator/api/v1alpha1/zookeeperservice_types.go] and the
    copies of [zz_generated.deepcopy.go], in the same way as [DeepCopyV1]. *)

From S2P Require Import Prelude Memory.

(** ** The types *)
Set Implicit Arguments.

Record Storage (r : Rep) : Type := mkStorage {
  st_Volumes : ref r (list string);
  st_Nodes : ref r (list string);
  st_Labels : ref r (list string);
  st_ClassName : ref r (list string);
  st_Size : string }.
Arguments mkStorage {r}.

Record SnapshotStorage : Set := mkSnapshotStorage {
  ss_PersistentVolumeType : string;
  ss_PersistentVolumeName : string;
  ss_PersistentVolumeClaimName : string;
  ss_VolumeSize : string;
  ss_NfsServer : string;
  ss_NfsPath : string }.

Record ZooKeeper (r : Rep) : Type := mkZooKeeper {
  zk_DockerImage : string;
  zk_Affinity : ext r Affinity;
  zk_Replicas : Z;
  zk_Storage : Storage r;
  zk_SnapshotStorage : SnapshotStorage;
  zk_HeapSize : Z;
  zk_Resources : ext r ResourceRequirements;
  zk_SecretName : string;
  zk_QuorumAuthEnabled : bool;
  zk_SecurityContext : ext r PodSecurityContext;
  zk_JolokiaPort : Z;
  zk_EnvironmentVariables : ref r (list string) }.
Arguments mkZooKeeper {r}.

Record Monitoring (r : Rep) : Type := mkMonitoring {
  mon_DockerImage : string;
  mon_Affinity : ext r Affinity;
  mon_Resources : ext r ResourceRequirements;
  mon_ZooKeeperHost : string;
  mon_ZooKeeperVolumes : string;
  mon_NeedToCleanInfluxDb : bool;
  mon_ZooKeeperBackupDaemonHost : string;
  mon_SecretName : string;
  mon_SmDbHost : string;
  mon_SmDbName : string;
  mon_ZooKeeperJolokiaPort : Z;
  mon_SecurityContext : ext r PodSecurityContext }.
Arguments mkMonitoring {r}.

Record BackupStorage (r : Rep) : Type := mkBackupStorage {
  bks_PersistentVolumeType : string;
  bks_PersistentVolumeName : string;
  bks_PersistentVolumeClaimName : string;
  bks_NodeName : string;
  bks_VolumeSize : string;
  bks_PersistentVolumeLabel : string;
  bks_StorageClass : ref r string;
  bks_NfsServer : string;
  bks_NfsPath : string }.
Arguments mkBackupStorage {r}.

Record BackupDaemon (r : Rep) : Type := mkBackupDaemon {
  bd_DockerImage : string;
  bd_Affinity : ext r Affinity;
  bd_BackupStorage : BackupStorage r;
  bd_Resources : ext r ResourceRequirements;
  bd_BackupSchedule : string;
  bd_EvictionPolicy : string;
  bd_IPv6 : bool;
  bd_ZooKeeperHost : string;
  bd_ZooKeeperPort : Z;
  bd_SecretName : string;
  bd_SecurityContext : ext r PodSecurityContext }.
Arguments mkBackupDaemon {r}.

Record ZooKeeperServiceSpec (r : Rep) : Type := mkZooKeeperServiceSpec {
  spec_ZooKeeper : ref r (ZooKeeper r);
  spec_Monitoring : ref r (Monitoring r);
  spec_BackupDaemon : ref r (BackupDaemon r) }.
Arguments mkZooKeeperServiceSpec {r}.

Record ZooKeeperStatus (r : Rep) : Type := mkZooKeeperStatus {
  zs_Servers : ref r (list string) }.
Arguments mkZooKeeperStatus {r}.

Record MonitoringStatus (r : Rep) : Type := mkMonitoringStatus {
  ms_Nodes : ref r (list string) }.
Arguments mkMonitoringStatus {r}.

Record BackupDaemonStatus (r : Rep) : Type := mkBackupDaemonStatus {
  bs_Nodes : ref r (list string) }.
Arguments mkBackupDaemonStatus {r}.

Record ZooKeeperServiceStatus (r : Rep) : Type := mkZooKeeperServiceStatus {
  status_ZooKeeperStatus : ZooKeeperStatus r;
  status_MonitoringStatus : MonitoringStatus r;
  status_BackupDaemonStatus : BackupDaemonStatus r }.
Arguments mkZooKeeperServiceStatus {r}.

Record ZooKeeperService (r : Rep) : Type := mkZooKeeperService {
  cr_TypeMeta : TypeMeta;
  cr_ObjectMeta : ext r ObjectMeta;
  cr_Spec : ZooKeeperServiceSpec r;
  cr_Status : ZooKeeperServiceStatus r }.
Arguments mkZooKeeperService {r}.

Record ZooKeeperServiceList (r : Rep) : Type := mkZooKeeperServiceList {
  crs_TypeMeta : TypeMeta;
  crs_ListMeta : ext r ListMeta;
  crs_Items : ref r (list (ZooKeeperService r)) }.
Arguments mkZooKeeperServiceList {r}.

Unset Implicit Arguments.

(** ** The memory *)

(** What a cell can hold. *)

Inductive Cell `{KubeTypes} : Type :=
| CellStrings (x : list string)
| CellStringMap (x : gmap string string)
| CellString (x : string)
| CellItems (x : list (ZooKeeperService memory))
| CellStorage (x : Storage memory)
| CellSnapshotStorage (x : SnapshotStorage)
| CellZooKeeper (x : ZooKeeper memory)
| CellMonitoring (x : Monitoring memory)
| CellBackupStorage (x : BackupStorage memory)
| CellBackupDaemon (x : BackupDaemon memory)
| CellZooKeeperServiceSpec (x : ZooKeeperServiceSpec memory)
| CellZooKeeperStatus (x : ZooKeeperStatus memory)
| CellMonitoringStatus (x : MonitoringStatus memory)
| CellBackupDaemonStatus (x : BackupDaemonStatus memory)
| CellZooKeeperServiceStatus (x : ZooKeeperServiceStatus memory)
| CellZooKeeperService (x : ZooKeeperService memory)
| CellZooKeeperServiceList (x : ZooKeeperServiceList memory)
| CellKube (x : KubeCell).

Section memory.
Context `{KubeTypes}.

#[global] Instance stores_Strings : Stores (Cell:=Cell) (list string) :=
  {| put := CellStrings; get c := match c with CellStrings x => Some x | _ => None end |}.
#[global] Instance stores_Strings_law : StoresLaw (Cell:=Cell) (list string).
Proof. done. Qed.

#[global] Instance stores_StringMap : Stores (Cell:=Cell) (gmap string string) :=
  {| put := CellStringMap; get c := match c with CellStringMap x => Some x | _ => None end |}.
#[global] Instance stores_StringMap_law : StoresLaw (Cell:=Cell) (gmap string string).
Proof. done. Qed.

#[global] Instance stores_String : Stores (Cell:=Cell) string :=
  {| put := CellString; get c := match c with CellString x => Some x | _ => None end |}.
#[global] Instance stores_String_law : StoresLaw (Cell:=Cell) string.
Proof. done. Qed.

#[global] Instance stores_Items : Stores (Cell:=Cell) (list (ZooKeeperService memory)) :=
  {| put := CellItems; get c := match c with CellItems x => Some x | _ => None end |}.
#[global] Instance stores_Items_law : StoresLaw (Cell:=Cell) (list (ZooKeeperService memory)).
Proof. done. Qed.

#[global] Instance stores_Storage : Stores (Cell:=Cell) (Storage memory) :=
  {| put := CellStorage; get c := match c with CellStorage x => Some x | _ => None end |}.
#[global] Instance stores_Storage_law : StoresLaw (Cell:=Cell) (Storage memory).
Proof. done. Qed.

#[global] Instance stores_SnapshotStorage : Stores (Cell:=Cell) SnapshotStorage :=
  {| put := CellSnapshotStorage; get c := match c with CellSnapshotStorage x => Some x | _ => None end |}.
#[global] Instance stores_SnapshotStorage_law : StoresLaw (Cell:=Cell) SnapshotStorage.
Proof. done. Qed.

#[global] Instance stores_ZooKeeper : Stores (Cell:=Cell) (ZooKeeper memory) :=
  {| put := CellZooKeeper; get c := match c with CellZooKeeper x => Some x | _ => None end |}.
#[global] Instance stores_ZooKeeper_law : StoresLaw (Cell:=Cell) (ZooKeeper memory).
Proof. done. Qed.

#[global] Instance stores_Monitoring : Stores (Cell:=Cell) (Monitoring memory) :=
  {| put := CellMonitoring; get c := match c with CellMonitoring x => Some x | _ => None end |}.
#[global] Instance stores_Monitoring_law : StoresLaw (Cell:=Cell) (Monitoring memory).
Proof. done. Qed.

#[global] Instance stores_BackupStorage : Stores (Cell:=Cell) (BackupStorage memory) :=
  {| put := CellBackupStorage; get c := match c with CellBackupStorage x => Some x | _ => None end |}.
#[global] Instance stores_BackupStorage_law : StoresLaw (Cell:=Cell) (BackupStorage memory).
Proof. done. Qed.

#[global] Instance stores_BackupDaemon : Stores (Cell:=Cell) (BackupDaemon memory) :=
  {| put := CellBackupDaemon; get c := match c with CellBackupDaemon x => Some x | _ => None end |}.
#[global] Instance stores_BackupDaemon_law : StoresLaw (Cell:=Cell) (BackupDaemon memory).
Proof. done. Qed.

#[global] Instance stores_ZooKeeperServiceSpec : Stores (Cell:=Cell) (ZooKeeperServiceSpec memory) :=
  {| put := CellZooKeeperServiceSpec; get c := match c with CellZooKeeperServiceSpec x => Some x | _ => None end |}.
#[global] Instance stores_ZooKeeperServiceSpec_law : StoresLaw (Cell:=Cell) (ZooKeeperServiceSpec memory).
Proof. done. Qed.

#[global] Instance stores_ZooKeeperStatus : Stores (Cell:=Cell) (ZooKeeperStatus memory) :=
  {| put := CellZooKeeperStatus; get c := match c with CellZooKeeperStatus x => Some x | _ => None end |}.
#[global] Instance stores_ZooKeeperStatus_law : StoresLaw (Cell:=Cell) (ZooKeeperStatus memory).
Proof. done. Qed.

#[global] Instance stores_MonitoringStatus : Stores (Cell:=Cell) (MonitoringStatus memory) :=
  {| put := CellMonitoringStatus; get c := match c with CellMonitoringStatus x => Some x | _ => None end |}.
#[global] Instance stores_MonitoringStatus_law : StoresLaw (Cell:=Cell) (MonitoringStatus memory).
Proof. done. Qed.

#[global] Instance stores_BackupDaemonStatus : Stores (Cell:=Cell) (BackupDaemonStatus memory) :=
  {| put := CellBackupDaemonStatus; get c := match c with CellBackupDaemonStatus x => Some x | _ => None end |}.
#[global] Instance stores_BackupDaemonStatus_law : StoresLaw (Cell:=Cell) (BackupDaemonStatus memory).
Proof. done. Qed.

#[global] Instance stores_ZooKeeperServiceStatus : Stores (Cell:=Cell) (ZooKeeperServiceStatus memory) :=
  {| put := CellZooKeeperServiceStatus; get c := match c with CellZooKeeperServiceStatus x => Some x | _ => None end |}.
#[global] Instance stores_ZooKeeperServiceStatus_law : StoresLaw (Cell:=Cell) (ZooKeeperServiceStatus memory).
Proof. done. Qed.

#[global] Instance stores_ZooKeeperService : Stores (Cell:=Cell) (ZooKeeperService memory) :=
  {| put := CellZooKeeperService; get c := match c with CellZooKeeperService x => Some x | _ => None end |}.
#[global] Instance stores_ZooKeeperService_law : StoresLaw (Cell:=Cell) (ZooKeeperService memory).
Proof. done. Qed.

#[global] Instance stores_ZooKeeperServiceList : Stores (Cell:=Cell) (ZooKeeperServiceList memory) :=
  {| put := CellZooKeeperServiceList; get c := match c with CellZooKeeperServiceList x => Some x | _ => None end |}.
#[global] Instance stores_ZooKeeperServiceList_law : StoresLaw (Cell:=Cell) (ZooKeeperServiceList memory).
Proof. done. Qed.

#[global] Instance stores_kube : Stores (Cell:=Cell) KubeCell :=
  {| put := CellKube; get c := match c with CellKube x => Some x | _ => None end |}.
#[global] Instance stores_kube_law : StoresLaw (Cell:=Cell) KubeCell.
Proof. done. Qed.

(** Contents without references. *)

#[global] Instance plain_Strings : Value (Cell:=Cell) (list string) (list string) := plain_value.
#[global] Instance plain_Strings_readable : Readable (Cell:=Cell) (list string) (list string) := plain_readable.

#[global] Instance plain_StringMap : Value (Cell:=Cell) (gmap string string) (gmap string string) := plain_value.
#[global] Instance plain_StringMap_readable : Readable (Cell:=Cell) (gmap string string) (gmap string string) := plain_readable.

#[global] Instance plain_String : Value (Cell:=Cell) string string := plain_value.
#[global] Instance plain_String_readable : Readable (Cell:=Cell) string string := plain_readable.

#[global] Instance plain_SnapshotStorage : Value (Cell:=Cell) SnapshotStorage SnapshotStorage := plain_value.
#[global] Instance plain_SnapshotStorage_readable : Readable (Cell:=Cell) SnapshotStorage SnapshotStorage := plain_readable.

End memory.

Section copies.
Context `{KubeTypes} `{!KubeCopies Cell}.
#[local] Abbreviation Alloc := (Alloc Cell).
#[local] Abbreviation refValue A V := (@value Cell (option loc) (option V) (ref_value (A:=A) (V:=V))).

(** ** The value of a struct in a heap *)

#[global] Instance Storage_value : Value (Cell:=Cell) (Storage memory) (Storage contents) := fun h s =>
  volumes ← refValue (list string) (list string) h (st_Volumes s);
  nodes ← refValue (list string) (list string) h (st_Nodes s);
  labels ← refValue (list string) (list string) h (st_Labels s);
  className ← refValue (list string) (list string) h (st_ClassName s);
  Some (mkStorage (r:=contents) volumes nodes labels className (st_Size s)).

#[global] Instance ZooKeeper_value : Value (Cell:=Cell) (ZooKeeper memory) (ZooKeeper contents) := fun h s =>
  affinity ← value (A:=MemExt Affinity) (V:=ValExt Affinity) h (zk_Affinity s);
  storage ← value h (zk_Storage s);
  resources ← value (A:=MemExt ResourceRequirements) (V:=ValExt ResourceRequirements) h (zk_Resources s);
  securityContext ← value (A:=MemExt PodSecurityContext) (V:=ValExt PodSecurityContext) h (zk_SecurityContext s);
  environmentVariables ← refValue (list string) (list string) h (zk_EnvironmentVariables s);
  Some (mkZooKeeper (r:=contents) (zk_DockerImage s) affinity (zk_Replicas s) storage (zk_SnapshotStorage s) (zk_HeapSize s) resources (zk_SecretName s) (zk_QuorumAuthEnabled s) securityContext (zk_JolokiaPort s) environmentVariables).

#[global] Instance Monitoring_value : Value (Cell:=Cell) (Monitoring memory) (Monitoring contents) := fun h s =>
  affinity ← value (A:=MemExt Affinity) (V:=ValExt Affinity) h (mon_Affinity s);
  resources ← value (A:=MemExt ResourceRequirements) (V:=ValExt ResourceRequirements) h (mon_Resources s);
  securityContext ← value (A:=MemExt PodSecurityContext) (V:=ValExt PodSecurityContext) h (mon_SecurityContext s);
  Some (mkMonitoring (r:=contents) (mon_DockerImage s) affinity resources (mon_ZooKeeperHost s) (mon_ZooKeeperVolumes s) (mon_NeedToCleanInfluxDb s) (mon_ZooKeeperBackupDaemonHost s) (mon_SecretName s) (mon_SmDbHost s) (mon_SmDbName s) (mon_ZooKeeperJolokiaPort s) securityContext).

#[global] Instance BackupStorage_value : Value (Cell:=Cell) (BackupStorage memory) (BackupStorage contents) := fun h s =>
  storageClass ← refValue string string h (bks_StorageClass s);
  Some (mkBackupStorage (r:=contents) (bks_PersistentVolumeType s) (bks_PersistentVolumeName s) (bks_PersistentVolumeClaimName s) (bks_NodeName s) (bks_VolumeSize s) (bks_PersistentVolumeLabel s) storageClass (bks_NfsServer s) (bks_NfsPath s)).

#[global] Instance BackupDaemon_value : Value (Cell:=Cell) (BackupDaemon memory) (BackupDaemon contents) := fun h s =>
  affinity ← value (A:=MemExt Affinity) (V:=ValExt Affinity) h (bd_Affinity s);
  backupStorage ← value h (bd_BackupStorage s);
  resources ← value (A:=MemExt ResourceRequirements) (V:=ValExt ResourceRequirements) h (bd_Resources s);
  securityContext ← value (A:=MemExt PodSecurityContext) (V:=ValExt PodSecurityContext) h (bd_SecurityContext s);
  Some (mkBackupDaemon (r:=contents) (bd_DockerImage s) affinity backupStorage resources (bd_BackupSchedule s) (bd_EvictionPolicy s) (bd_IPv6 s) (bd_ZooKeeperHost s) (bd_ZooKeeperPort s) (bd_SecretName s) securityContext).

#[global] Instance ZooKeeperServiceSpec_value : Value (Cell:=Cell) (ZooKeeperServiceSpec memory) (ZooKeeperServiceSpec contents) := fun h s =>
  zooKeeper ← refValue (ZooKeeper memory) (ZooKeeper contents) h (spec_ZooKeeper s);
  monitoring ← refValue (Monitoring memory) (Monitoring contents) h (spec_Monitoring s);
  backupDaemon ← refValue (BackupDaemon memory) (BackupDaemon contents) h (spec_BackupDaemon s);
  Some (mkZooKeeperServiceSpec (r:=contents) zooKeeper monitoring backupDaemon).

#[global] Instance ZooKeeperStatus_value : Value (Cell:=Cell) (ZooKeeperStatus memory) (ZooKeeperStatus contents) := fun h s =>
  servers ← refValue (list string) (list string) h (zs_Servers s);
  Some (mkZooKeeperStatus (r:=contents) servers).

#[global] Instance MonitoringStatus_value : Value (Cell:=Cell) (MonitoringStatus memory) (MonitoringStatus contents) := fun h s =>
  nodes ← refValue (list string) (list string) h (ms_Nodes s);
  Some (mkMonitoringStatus (r:=contents) nodes).

#[global] Instance BackupDaemonStatus_value : Value (Cell:=Cell) (BackupDaemonStatus memory) (BackupDaemonStatus contents) := fun h s =>
  nodes ← refValue (list string) (list string) h (bs_Nodes s);
  Some (mkBackupDaemonStatus (r:=contents) nodes).

#[global] Instance ZooKeeperServiceStatus_value : Value (Cell:=Cell) (ZooKeeperServiceStatus memory) (ZooKeeperServiceStatus contents) := fun h s =>
  zooKeeperStatus ← value h (status_ZooKeeperStatus s);
  monitoringStatus ← value h (status_MonitoringStatus s);
  backupDaemonStatus ← value h (status_BackupDaemonStatus s);
  Some (mkZooKeeperServiceStatus (r:=contents) zooKeeperStatus monitoringStatus backupDaemonStatus).

#[global] Instance ZooKeeperService_value : Value (Cell:=Cell) (ZooKeeperService memory) (ZooKeeperService contents) := fun h s =>
  objectMeta ← value (A:=MemExt ObjectMeta) (V:=ValExt ObjectMeta) h (cr_ObjectMeta s);
  spec ← value h (cr_Spec s);
  status ← value h (cr_Status s);
  Some (mkZooKeeperService (r:=contents) (cr_TypeMeta s) objectMeta spec status).

#[global] Instance ZooKeeperServiceList_value : Value (Cell:=Cell) (ZooKeeperServiceList memory) (ZooKeeperServiceList contents) := fun h s =>
  listMeta ← value (A:=MemExt ListMeta) (V:=ValExt ListMeta) h (crs_ListMeta s);
  items ← refValue (list (ZooKeeperService memory)) (list (ZooKeeperService contents)) h (crs_Items s);
  Some (mkZooKeeperServiceList (r:=contents) (crs_TypeMeta s) listMeta items).

(** ** The generated code *)

Definition Storage_DeepCopyInto (s : Storage memory) : Alloc (Storage memory) :=
  volumes ← copyRef (copySlice "") (st_Volumes s);
  nodes ← copyRef (copySlice "") (st_Nodes s);
  labels ← copyRef (copySlice "") (st_Labels s);
  className ← copyRef (copySlice "") (st_ClassName s);
  mret (mkStorage (r:=memory) volumes nodes labels className (st_Size s)).

Definition SnapshotStorage_DeepCopyInto (s : SnapshotStorage) : Alloc SnapshotStorage := mret s.

Definition ZooKeeper_DeepCopyInto (s : ZooKeeper memory) : Alloc (ZooKeeper memory) :=
  affinity ← ext_DeepCopyInto Affinity (zk_Affinity s);
  storage ← Storage_DeepCopyInto (zk_Storage s);
  resources ← ext_DeepCopyInto ResourceRequirements (zk_Resources s);
  securityContext ← ext_DeepCopyInto PodSecurityContext (zk_SecurityContext s);
  environmentVariables ← copyRef (copySlice "") (zk_EnvironmentVariables s);
  mret (mkZooKeeper (r:=memory) (zk_DockerImage s) affinity (zk_Replicas s) storage (zk_SnapshotStorage s) (zk_HeapSize s) resources (zk_SecretName s) (zk_QuorumAuthEnabled s) securityContext (zk_JolokiaPort s) environmentVariables).

Definition Monitoring_DeepCopyInto (s : Monitoring memory) : Alloc (Monitoring memory) :=
  affinity ← ext_DeepCopyInto Affinity (mon_Affinity s);
  resources ← ext_DeepCopyInto ResourceRequirements (mon_Resources s);
  securityContext ← ext_DeepCopyInto PodSecurityContext (mon_SecurityContext s);
  mret (mkMonitoring (r:=memory) (mon_DockerImage s) affinity resources (mon_ZooKeeperHost s) (mon_ZooKeeperVolumes s) (mon_NeedToCleanInfluxDb s) (mon_ZooKeeperBackupDaemonHost s) (mon_SecretName s) (mon_SmDbHost s) (mon_SmDbName s) (mon_ZooKeeperJolokiaPort s) securityContext).

Definition BackupStorage_DeepCopyInto (s : BackupStorage memory) : Alloc (BackupStorage memory) :=
  storageClass ← copyRef (A:=string) mret (bks_StorageClass s);
  mret (mkBackupStorage (r:=memory) (bks_PersistentVolumeType s) (bks_PersistentVolumeName s) (bks_PersistentVolumeClaimName s) (bks_NodeName s) (bks_VolumeSize s) (bks_PersistentVolumeLabel s) storageClass (bks_NfsServer s) (bks_NfsPath s)).

Definition BackupDaemon_DeepCopyInto (s : BackupDaemon memory) : Alloc (BackupDaemon memory) :=
  affinity ← ext_DeepCopyInto Affinity (bd_Affinity s);
  backupStorage ← BackupStorage_DeepCopyInto (bd_BackupStorage s);
  resources ← ext_DeepCopyInto ResourceRequirements (bd_Resources s);
  securityContext ← ext_DeepCopyInto PodSecurityContext (bd_SecurityContext s);
  mret (mkBackupDaemon (r:=memory) (bd_DockerImage s) affinity backupStorage resources (bd_BackupSchedule s) (bd_EvictionPolicy s) (bd_IPv6 s) (bd_ZooKeeperHost s) (bd_ZooKeeperPort s) (bd_SecretName s) securityContext).

Definition ZooKeeperServiceSpec_DeepCopyInto (s : ZooKeeperServiceSpec memory) : Alloc (ZooKeeperServiceSpec memory) :=
  zooKeeper ← copyRef ZooKeeper_DeepCopyInto (spec_ZooKeeper s);
  monitoring ← copyRef Monitoring_DeepCopyInto (spec_Monitoring s);
  backupDaemon ← copyRef BackupDaemon_DeepCopyInto (spec_BackupDaemon s);
  mret (mkZooKeeperServiceSpec (r:=memory) zooKeeper monitoring backupDaemon).

Definition ZooKeeperStatus_DeepCopyInto (s : ZooKeeperStatus memory) : Alloc (ZooKeeperStatus memory) :=
  servers ← copyRef (copySlice "") (zs_Servers s);
  mret (mkZooKeeperStatus (r:=memory) servers).

Definition MonitoringStatus_DeepCopyInto (s : MonitoringStatus memory) : Alloc (MonitoringStatus memory) :=
  nodes ← copyRef (copySlice "") (ms_Nodes s);
  mret (mkMonitoringStatus (r:=memory) nodes).

Definition BackupDaemonStatus_DeepCopyInto (s : BackupDaemonStatus memory) : Alloc (BackupDaemonStatus memory) :=
  nodes ← copyRef (copySlice "") (bs_Nodes s);
  mret (mkBackupDaemonStatus (r:=memory) nodes).

Definition ZooKeeperServiceStatus_DeepCopyInto (s : ZooKeeperServiceStatus memory) : Alloc (ZooKeeperServiceStatus memory) :=
  zooKeeperStatus ← ZooKeeperStatus_DeepCopyInto (status_ZooKeeperStatus s);
  monitoringStatus ← MonitoringStatus_DeepCopyInto (status_MonitoringStatus s);
  backupDaemonStatus ← BackupDaemonStatus_DeepCopyInto (status_BackupDaemonStatus s);
  mret (mkZooKeeperServiceStatus (r:=memory) zooKeeperStatus monitoringStatus backupDaemonStatus).

Definition ZooKeeperService_DeepCopyInto (s : ZooKeeperService memory) : Alloc (ZooKeeperService memory) :=
  objectMeta ← ext_DeepCopyInto ObjectMeta (cr_ObjectMeta s);
  spec ← ZooKeeperServiceSpec_DeepCopyInto (cr_Spec s);
  status ← ZooKeeperServiceStatus_DeepCopyInto (cr_Status s);
  mret (mkZooKeeperService (r:=memory) (cr_TypeMeta s) objectMeta spec status).

Definition ZooKeeperServiceList_DeepCopyInto (s : ZooKeeperServiceList memory) : Alloc (ZooKeeperServiceList memory) :=
  listMeta ← ext_DeepCopyInto ListMeta (crs_ListMeta s);
  items ← copyRef (copyElements ZooKeeperService_DeepCopyInto) (crs_Items s);
  mret (mkZooKeeperServiceList (r:=memory) (crs_TypeMeta s) listMeta items).

Definition Storage_DeepCopy (p : option loc) : Alloc (option loc) :=
  copyRef Storage_DeepCopyInto p.

Definition SnapshotStorage_DeepCopy (p : option loc) : Alloc (option loc) :=
  copyRef SnapshotStorage_DeepCopyInto p.

Definition ZooKeeper_DeepCopy (p : option loc) : Alloc (option loc) :=
  copyRef ZooKeeper_DeepCopyInto p.

Definition Monitoring_DeepCopy (p : option loc) : Alloc (option loc) :=
  copyRef Monitoring_DeepCopyInto p.

Definition BackupStorage_DeepCopy (p : option loc) : Alloc (option loc) :=
  copyRef BackupStorage_DeepCopyInto p.

Definition BackupDaemon_DeepCopy (p : option loc) : Alloc (option loc) :=
  copyRef BackupDaemon_DeepCopyInto p.

Definition ZooKeeperServiceSpec_DeepCopy (p : option loc) : Alloc (option loc) :=
  copyRef ZooKeeperServiceSpec_DeepCopyInto p.

Definition ZooKeeperStatus_DeepCopy (p : option loc) : Alloc (option loc) :=
  copyRef ZooKeeperStatus_DeepCopyInto p.

Definition MonitoringStatus_DeepCopy (p : option loc) : Alloc (option loc) :=
  copyRef MonitoringStatus_DeepCopyInto p.

Definition BackupDaemonStatus_DeepCopy (p : option loc) : Alloc (option loc) :=
  copyRef BackupDaemonStatus_DeepCopyInto p.

Definition ZooKeeperServiceStatus_DeepCopy (p : option loc) : Alloc (option loc) :=
  copyRef ZooKeeperServiceStatus_DeepCopyInto p.

Definition ZooKeeperService_DeepCopy (p : option loc) : Alloc (option loc) :=
  copyRef ZooKeeperService_DeepCopyInto p.

Definition ZooKeeperServiceList_DeepCopy (p : option loc) : Alloc (option loc) :=
  copyRef ZooKeeperServiceList_DeepCopyInto p.

Definition ZooKeeperService_DeepCopyObject (p : option loc) : Alloc (option loc) :=
  c ← ZooKeeperService_DeepCopy p;
  match c with Some l => mret (Some l) | None => mret None end.

Definition ZooKeeperServiceList_DeepCopyObject (p : option loc) : Alloc (option loc) :=
  c ← ZooKeeperServiceList_DeepCopy p;
  match c with Some l => mret (Some l) | None => mret None end.

End copies.

(** ** Lemmas *)
Section lemmas.
Context `{KubeTypes} `{!KubeCopies Cell} `{!KubeCopyLaws Cell}.

#[global] Instance Storage_readable : Readable (Cell:=Cell) (Storage memory) (Storage contents).
Proof. readable Storage_value. Qed.

#[global] Instance ZooKeeper_readable : Readable (Cell:=Cell) (ZooKeeper memory) (ZooKeeper contents).
Proof. readable ZooKeeper_value. Qed.

#[global] Instance Monitoring_readable : Readable (Cell:=Cell) (Monitoring memory) (Monitoring contents).
Proof. readable Monitoring_value. Qed.

#[global] Instance BackupStorage_readable : Readable (Cell:=Cell) (BackupStorage memory) (BackupStorage contents).
Proof. readable BackupStorage_value. Qed.

#[global] Instance BackupDaemon_readable : Readable (Cell:=Cell) (BackupDaemon memory) (BackupDaemon contents).
Proof. readable BackupDaemon_value. Qed.

#[global] Instance ZooKeeperServiceSpec_readable : Readable (Cell:=Cell) (ZooKeeperServiceSpec memory) (ZooKeeperServiceSpec contents).
Proof. readable ZooKeeperServiceSpec_value. Qed.

#[global] Instance ZooKeeperStatus_readable : Readable (Cell:=Cell) (ZooKeeperStatus memory) (ZooKeeperStatus contents).
Proof. readable ZooKeeperStatus_value. Qed.

#[global] Instance MonitoringStatus_readable : Readable (Cell:=Cell) (MonitoringStatus memory) (MonitoringStatus contents).
Proof. readable MonitoringStatus_value. Qed.

#[global] Instance BackupDaemonStatus_readable : Readable (Cell:=Cell) (BackupDaemonStatus memory) (BackupDaemonStatus contents).
Proof. readable BackupDaemonStatus_value. Qed.

#[global] Instance ZooKeeperServiceStatus_readable : Readable (Cell:=Cell) (ZooKeeperServiceStatus memory) (ZooKeeperServiceStatus contents).
Proof. readable ZooKeeperServiceStatus_value. Qed.

#[global] Instance ZooKeeperService_readable : Readable (Cell:=Cell) (ZooKeeperService memory) (ZooKeeperService contents).
Proof. readable ZooKeeperService_value. Qed.

#[global] Instance ZooKeeperServiceList_readable : Readable (Cell:=Cell) (ZooKeeperServiceList memory) (ZooKeeperServiceList contents).
Proof. readable ZooKeeperServiceList_value. Qed.

Lemma old_strings_copies : copies (Cell:=Cell) (A:=list string) (copySlice "").
Proof. apply plain_copies. intros l h. unfold copySlice. by rewrite copy_all. Qed.
Lemma old_map_copies : copies (Cell:=Cell) (A:=gmap string string) copyMap.
Proof. apply plain_copies. intros m h. unfold copyMap. by rewrite range_copy. Qed.
Lemma old_string_copies : copies (Cell:=Cell) (A:=string) mret.
Proof. by apply plain_copies. Qed.
#[local] Hint Resolve old_strings_copies old_map_copies old_string_copies : copying.

Lemma old_Storage_copies : copies Storage_DeepCopyInto.
Proof. copying Storage_value Storage_DeepCopyInto. Qed.
#[local] Hint Resolve old_Storage_copies : copying.

Lemma old_SnapshotStorage_copies : copies SnapshotStorage_DeepCopyInto.
Proof. by apply plain_copies. Qed.
Lemma old_SnapshotStorage_assigned : copies (Cell:=Cell) (A:=SnapshotStorage) mret.
Proof. by apply plain_copies. Qed.
#[local] Hint Resolve old_SnapshotStorage_copies old_SnapshotStorage_assigned : copying.

Lemma old_ZooKeeper_copies : copies ZooKeeper_DeepCopyInto.
Proof. copying ZooKeeper_value ZooKeeper_DeepCopyInto. Qed.
#[local] Hint Resolve old_ZooKeeper_copies : copying.

Lemma old_Monitoring_copies : copies Monitoring_DeepCopyInto.
Proof. copying Monitoring_value Monitoring_DeepCopyInto. Qed.
#[local] Hint Resolve old_Monitoring_copies : copying.

Lemma old_BackupStorage_copies : copies BackupStorage_DeepCopyInto.
Proof. copying BackupStorage_value BackupStorage_DeepCopyInto. Qed.
#[local] Hint Resolve old_BackupStorage_copies : copying.

Lemma old_BackupDaemon_copies : copies BackupDaemon_DeepCopyInto.
Proof. copying BackupDaemon_value BackupDaemon_DeepCopyInto. Qed.
#[local] Hint Resolve old_BackupDaemon_copies : copying.

Lemma old_ZooKeeperServiceSpec_copies : copies ZooKeeperServiceSpec_DeepCopyInto.
Proof. copying ZooKeeperServiceSpec_value ZooKeeperServiceSpec_DeepCopyInto. Qed.
#[local] Hint Resolve old_ZooKeeperServiceSpec_copies : copying.

Lemma old_ZooKeeperStatus_copies : copies ZooKeeperStatus_DeepCopyInto.
Proof. copying ZooKeeperStatus_value ZooKeeperStatus_DeepCopyInto. Qed.
#[local] Hint Resolve old_ZooKeeperStatus_copies : copying.

Lemma old_MonitoringStatus_copies : copies MonitoringStatus_DeepCopyInto.
Proof. copying MonitoringStatus_value MonitoringStatus_DeepCopyInto. Qed.
#[local] Hint Resolve old_MonitoringStatus_copies : copying.

Lemma old_BackupDaemonStatus_copies : copies BackupDaemonStatus_DeepCopyInto.
Proof. copying BackupDaemonStatus_value BackupDaemonStatus_DeepCopyInto. Qed.
#[local] Hint Resolve old_BackupDaemonStatus_copies : copying.

Lemma old_ZooKeeperServiceStatus_copies : copies ZooKeeperServiceStatus_DeepCopyInto.
Proof. copying ZooKeeperServiceStatus_value ZooKeeperServiceStatus_DeepCopyInto. Qed.
#[local] Hint Resolve old_ZooKeeperServiceStatus_copies : copying.

Lemma old_ZooKeeperService_copies : copies ZooKeeperService_DeepCopyInto.
Proof. copying ZooKeeperService_value ZooKeeperService_DeepCopyInto. Qed.
#[local] Hint Resolve old_ZooKeeperService_copies : copying.

Lemma old_ZooKeeperServiceList_copies : copies ZooKeeperServiceList_DeepCopyInto.
Proof. copying ZooKeeperServiceList_value ZooKeeperServiceList_DeepCopyInto. Qed.
#[local] Hint Resolve old_ZooKeeperServiceList_copies : copying.

Lemma old_object_copies (f : option loc -> Alloc Cell (option loc)) p h :
  (c ← f p; match c with Some l => mret (Some l) | None => mret None end) h = f p h.
Proof. unfold mbind, Alloc_bind. by destruct (f p h) as [[l|] h']. Qed.

#[local] Abbreviation copied_as A V f := (independent (Cell:=Cell) (V:=option V) (Value0:=ref_value (A:=A) (V:=V)) f).

(** C23: The same for the old version of the resource: all its deep copies are
    independent of the original and have its value. *)
Theorem old_deep_copies_independent :
  copied_as (ZooKeeperService memory) (ZooKeeperService contents) ZooKeeperService_DeepCopyObject /\
  copied_as (ZooKeeperServiceList memory) (ZooKeeperServiceList contents) ZooKeeperServiceList_DeepCopyObject /\
  copied_as (Storage memory) (Storage contents) Storage_DeepCopy /\
  copied_as (SnapshotStorage) (SnapshotStorage) SnapshotStorage_DeepCopy /\
  copied_as (ZooKeeper memory) (ZooKeeper contents) ZooKeeper_DeepCopy /\
  copied_as (Monitoring memory) (Monitoring contents) Monitoring_DeepCopy /\
  copied_as (BackupStorage memory) (BackupStorage contents) BackupStorage_DeepCopy /\
  copied_as (BackupDaemon memory) (BackupDaemon contents) BackupDaemon_DeepCopy /\
  copied_as (ZooKeeperServiceSpec memory) (ZooKeeperServiceSpec contents) ZooKeeperServiceSpec_DeepCopy /\
  copied_as (ZooKeeperStatus memory) (ZooKeeperStatus contents) ZooKeeperStatus_DeepCopy /\
  copied_as (MonitoringStatus memory) (MonitoringStatus contents) MonitoringStatus_DeepCopy /\
  copied_as (BackupDaemonStatus memory) (BackupDaemonStatus contents) BackupDaemonStatus_DeepCopy /\
  copied_as (ZooKeeperServiceStatus memory) (ZooKeeperServiceStatus contents) ZooKeeperServiceStatus_DeepCopy /\
  copied_as (ZooKeeperService memory) (ZooKeeperService contents) ZooKeeperService_DeepCopy /\
  copied_as (ZooKeeperServiceList memory) (ZooKeeperServiceList contents) ZooKeeperServiceList_DeepCopy.
Proof.
  assert (forall A V (sA : Stores (Cell:=Cell) A) (vA : Value (Cell:=Cell) A V) f g,
    copied_as A V f -> (forall p h, g p h = f p h) -> copied_as A V g) as Heq.
  { intros A V ? ? f g Hf Hg p h v Hv. rewrite Hg. by apply Hf. }
  split_and!; try (eapply Heq; [|intros; apply old_object_copies]);
    (apply copies_independent; auto with copying).
Qed.

End lemmas.
