(* ===== verification/DeepCopyRuns.v ===== *)
(** * A resource in memory and its copy

    A concrete memory for the Kubernetes structs (each holds one pointer), and
    the deep copies of a resource whose status shares a map with its spec, as
    [updateStatus] of the controller leaves it. *)

From S2P Require Import Prelude Memory DeepCopyV1alpha1 DeepCopyV1.

(** An embedded struct is a pointer to a text. *)
#[local] Instance simTypes : KubeTypes :=
  {| MemExt _ := option loc; ValExt _ := option string; KubeCell := string |}.

Section sim.
Context {Cell : Type} `{!Stores (Cell:=Cell) string} `{!StoresLaw (Cell:=Cell) string}.

#[local] Instance text_value : Value (Cell:=Cell) string string := plain_value.
#[local] Instance text_readable : Readable (Cell:=Cell) string string := plain_readable.

Definition simCopies : KubeCopies Cell := {|
  ext_value _ := ref_value (A:=string) (V:=string);
  ext_DeepCopyInto _ := copyRef (A:=string) mret |}.

Lemma simCopyLaws : KubeCopyLaws Cell (H0:=simCopies).
Proof.
  split; intros k; simpl.
  - apply ref_mono.
  - apply (copyRef_copies (A:=string)). by apply plain_copies.
Qed.
End sim.

(** ** The current version *)

#[local] Instance simV1 : KubeCopies DeepCopyV1.Cell :=
  simCopies (Stores0:=DeepCopyV1.stores_kube).
Definition simV1_laws : KubeCopyLaws DeepCopyV1.Cell :=
  simCopyLaws (Stores0:=DeepCopyV1.stores_kube) (StoresLaw0:=DeepCopyV1.stores_kube_law).

(** The annotations of the claims at 1, the global section at 2, the resource
    at 3: its status shares the map at 1. *)
Definition annotations : gmap string string := {["owner" := "team"]}.
Definition simGlobal : Global memory :=
  mkGlobal (r:=memory) true 300 None None (mkZooKeeperSsl false "") (mkPVC (r:=memory) (mkPVCMetadata (r:=memory) (Some 1%positive))).
Definition simService : ZooKeeperService memory :=
  mkZooKeeperService (r:=memory) (mkTypeMeta "ZooKeeperService" "netcracker.com/v1") None
    (mkZooKeeperServiceSpec (r:=memory) (Some 2%positive) None None None None None)
    (mkZooKeeperServiceStatus (r:=memory) (mkZooKeeperStatus (r:=memory) None)
       (mkMonitoringStatus (r:=memory) None) (mkBackupDaemonStatus (r:=memory) None)
       (mkPVCStatus (r:=memory) (Some 1%positive)) (mkVaultSecretManagementStatus (r:=memory) None) None).
Definition simHeap : gmap loc DeepCopyV1.Cell :=
  {[1%positive := put annotations; 2%positive := put simGlobal; 3%positive := put simService]}.

(** The map of the status, and that of the spec, behind a resource. *)
Definition serviceAt (p : option loc) (h : gmap loc DeepCopyV1.Cell) : option (ZooKeeperService memory) :=
  l ← p; c ← h !! l; get c.
Definition statusMap (p : option loc) (h : gmap loc DeepCopyV1.Cell) : option loc :=
  match serviceAt p h with
  | Some s => ps_Annotations (status_PVCStatus (cr_Status s))
  | None => None
  end.
Definition globalAt (p : option loc) (h : gmap loc DeepCopyV1.Cell) : option (Global memory) :=
  match serviceAt p h with
  | Some s => l ← (spec_Global (cr_Spec s) : option loc); c ← h !! l; get c
  | None => None
  end.
Definition specMap (p : option loc) (h : gmap loc DeepCopyV1.Cell) : option loc :=
  match globalAt p h with
  | Some g => pm_Annotations (pvc_PVCMetadata (g_PVC g))
  | None => None
  end.

Definition simCopy : option loc * gmap loc DeepCopyV1.Cell :=
  ZooKeeperService_DeepCopyObject (Some 3%positive) simHeap.

(** Witness: the two maps are one in the original and two in the copy, which
    keeps its value in every memory that keeps the new cells. *)
Lemma deep_copies_independent_witness :
  statusMap (Some 3%positive) simHeap = specMap (Some 3%positive) simHeap /\
  bool_decide (statusMap (fst simCopy) (snd simCopy) = specMap (fst simCopy) (snd simCopy)) = false /\
  exists p' h', ZooKeeperService_DeepCopyObject (Some 3%positive) simHeap = (p', h') /\
    forall h2, h' ∖ simHeap ⊆ h2 ->
    @value _ _ (option (ZooKeeperService contents)) (ref_value (A:=ZooKeeperService memory)) h2 p'
    = @value _ _ (option (ZooKeeperService contents)) (ref_value (A:=ZooKeeperService memory))
        simHeap (Some 3%positive).
Proof.
  split; [vm_compute; reflexivity|]. split; [vm_compute; reflexivity|].
  destruct (@deep_copies_independent simTypes simV1 simV1_laws) as [Hcopy _].
  destruct (@value _ _ (option (ZooKeeperService contents)) (ref_value (A:=ZooKeeperService memory))
        simHeap (Some 3%positive)) as [v|] eqn:Hv; [|vm_compute in Hv; discriminate Hv].
  destruct (Hcopy (Some 3%positive) simHeap v Hv) as (p' & h' & Hrun & _ & _ & _ & Hp').
  exists p', h'. split; [exact Hrun|exact Hp'].
Defined.

(** ** The old version *)

#[local] Instance simOld : KubeCopies DeepCopyV1alpha1.Cell :=
  simCopies (Stores0:=DeepCopyV1alpha1.stores_kube).
Definition simOld_laws : KubeCopyLaws DeepCopyV1alpha1.Cell :=
  simCopyLaws (Stores0:=DeepCopyV1alpha1.stores_kube) (StoresLaw0:=DeepCopyV1alpha1.stores_kube_law).

(** A storage with one volume, at 2. *)
Definition oldStorage : DeepCopyV1alpha1.Storage memory :=
  DeepCopyV1alpha1.mkStorage (r:=memory) (Some 1%positive) None None None "1Gi".
Definition oldHeap : gmap loc DeepCopyV1alpha1.Cell :=
  {[1%positive := put (Stores:=DeepCopyV1alpha1.stores_Strings) ["pv-1"]; 2%positive := put oldStorage]}.

Lemma old_deep_copies_independent_witness :
  exists p' h', DeepCopyV1alpha1.Storage_DeepCopy (Some 2%positive) oldHeap = (p', h') /\
    (p' = None <-> Some 2%positive = None) /\ oldHeap ⊆ h'.
Proof.
  destruct (@old_deep_copies_independent simTypes simOld simOld_laws) as (_ & _ & Hcopy & _).
  destruct (@value _ _ (option (DeepCopyV1alpha1.Storage contents))
    (ref_value (A:=DeepCopyV1alpha1.Storage memory)) oldHeap (Some 2%positive)) as [v|] eqn:Hv;
    [|vm_compute in Hv; discriminate Hv].
  destruct (Hcopy (Some 2%positive) oldHeap v Hv) as (p' & h' & Hrun & Hnil & Hh & _).
  exists p', h'. exact (conj Hrun (conj Hnil Hh)).
Defined.
