(* ===== verification/Scenarios.v ===== *)
(** * Runs on the concrete platform

    Every property with hypotheses is applied here to a concrete run on the
    platform of [Sim], where its hypotheses are checked by computation.  The
    last part is a scenario: a credentials refresh of the backup daemon's
    secret that is lost. *)

From S2P Require Import Prelude GoStrings Types Util Provider Platform Conditions Reconciler Vault.
From S2P Require Import ZooKeeperProvider MonitoringProvider BackupDaemonProvider.
From S2P Require Import ZooKeeperVault Fragments Frames ZooKeeperReconciler MonitoringReconciler.
From S2P Require Import BackupDaemonReconciler Quiescence Controller Sim BackupServer.

(** ** States *)
Definition plain : St World := simState (simCR 3 true false) ∅.
Definition refreshing : gmap string string := {[refreshCredentialsAnnotation := "true"]}.
Definition vaulted : St World := simState (simCR 3 true true) refreshing.

(** The cycle of the resource, its state after one, and its result. *)
Definition cycle (s : St World) : Res unit * St World := Reconcile "ns" "zk" s.
Definition after (s : St World) : St World := snd (cycle s).

(** The value of a run that returned. *)
Definition value {A} (d : A) (r : Res A * St World) : A :=
  match r with (Ok a, _) => a | _ => d end.

Definition resOr {A} (d : A) (r : Res A) : A := match r with Ok a => a | _ => d end.

(** The hashes of the sections. *)
Definition zkHash : string := resOr "" (Hash marshalZooKeeper (Some (simZooKeeper 3 true))).
Definition monHash : string := resOr "" (Hash marshalMonitoring (Some simMonitoring)).
Definition bdHash : string := resOr "" (Hash marshalBackupDaemon (Some simBackup)).

Definition zkSecret : Secret := simSecret "zk-secret" ∅ simUsers.

(** No global section. *)
Definition headless : ZooKeeperService :=
  mkCR "netcracker.com/v1" "ZooKeeperService" (newMeta "zk" "ns" None)
    (mkSpec None None None None None None) (mkStatus [] [] [] None None []).

(** The resource names a secret that does not exist. *)
Definition orphan : St World :=
  mkSt (put KCR (simCR 3 true false) emptyWorld) (simCR 3 true false) ∅ ∅ "" None [].

(** A secret changed by its owner: new annotations, a new version. *)
Definition touchSecret (name : string) (annotations : gmap string string) (s : St World) : St World :=
  let w := st_world s in
  match store KSecret w !! ("ns", name) with
  | Some sec =>
      let sec := mkSecret (set_Annotations (Some annotations) (sec_Meta sec)) simUsers in
      set_world (tick (put KSecret (stamp KSecret (Itoa (w_clock w)) sec) w)) s
  | None => s
  end.

(** Vault writes among the events added since [s]. *)
Definition vaultWrites (s s' : St World) : list string :=
  omap (fun e => match e with EvVaultWrite p _ => Some p | _ => None end)
    (drop (length (st_trace s)) (st_trace s')).

(** A resource without a monitoring section. *)
Definition unmonitored : ZooKeeperService :=
  mkCR "netcracker.com/v1" "ZooKeeperService" (newMeta "zk" "ns" None)
    (mkSpec (Some simGlobal) (Some (simZooKeeper 3 true)) None (Some simBackup)
       (Some (simVault true)) None) (mkStatus [] [] [] None None []).

(** ** A host for the assistant *)
Abbreviation Disk := (gmap string (gmap string string)).

(** The path of a copy argument without its trailing [/.]. *)
Definition dropDot (s : string) : string := String.substring 0 (String.length s - 2) s.

Definition disk_cp (args : list string) (f : Disk) : Res unit * Disk :=
  match args with
  | [_; src; dst] =>
      match f !! dropDot src, f !! dst with
      | Some a, Some b => (Ok tt, <[dst := a ∪ b]> f)
      | _, _ => (Err (Errorf "exit status 1"), f)
      end
  | _ => (Err (Errorf "usage"), f)
  end.

#[global] Instance disk_Host : Host Disk := {|
  os_LookupEnv k _ := if decide (k = "ENABLE_SSL") then Some "TRUE" else None;
  os_ReadFile _ _ := Ok "pem";
  os_Stat p f := match f !! p with Some _ => Ok tt | None => Err (Errorf "no such file") end;
  os_RemoveAll p f := (Ok tt, delete p f);
  os_Mkdir p _ f := match f !! p with
                    | Some _ => (Err (Errorf "file exists"), f)
                    | None => (Ok tt, <[p := ∅]> f)
                    end;
  exec_Run _ args f := disk_cp args f;
  pool_AppendCertsFromPEM _ := true;
  tls_LoadX509KeyPair _ _ _ := Ok tt;
  zk_Connect _ _ _ := Ok tt;
  zk_AddAuth _ _ _ _ := Ok tt;
  zk_ChildrenW _ _ _ := Ok tt;
  http_ListenAndServe _ _ f := (Err (Errorf "server closed"), f);
  mux_Reject _ w := WriteHeader 404 w;
  json_State := state_Status;
  json_Result r := Status r +:+ ": " +:+ Message r |}.

Definition diskTree (f : Disk) (p : string) : option (gmap string string) := f !! p.
Definition diskApart (p q : string) : Prop := p <> q.

Definition oldBackup : Disk :=
  {["/data" := {["log.1" := "new"]}; "/backup" := {["log.0" := "old"]}]}.
Definition jobData : Data := mkData "/data" "/backup".

Lemma dropDot_app s : dropDot (s +:+ "/.") = s.
Proof.
  unfold dropDot. rewrite app_length'. simpl.
  replace (String.length s + 2 - 2)%nat with (String.length s) by lia.
  induction s as [|a s IH]; [done|]. rewrite app_cons. simpl. by rewrite IH.
Qed.

#[global] Instance disk_HostLaws : HostLaws Disk diskTree diskApart.
Proof.
  split; unfold diskTree, diskApart; simpl.
  - intros p f. destruct (f !! p); naive_solver.
  - intros p f f' [= <-]. split; [by rewrite lookup_delete_eq|]. intros q Hq.
    by rewrite lookup_delete_ne.
  - intros p m f f'. destruct (f !! p) eqn:E; [done|]. intros [= <-].
    split_and!; [done|by rewrite lookup_insert_eq|]. intros q Hq. by rewrite lookup_insert_ne.
  - intros src dst f f'. rewrite dropDot_app.
    destruct (f !! src) as [a|] eqn:Ea; [|done]. destruct (f !! dst) as [b|] eqn:Eb; [|done].
    intros [= <-]. exists a, b. split_and!; [done..|by rewrite lookup_insert_eq|].
    intros Hne. by rewrite lookup_insert_ne.
Qed.

(** A run that returned, without its normal form. *)
Lemma ran {A} (d : A) (run : Res A * St World) :
  is_Ok (fst run) = true -> run = (Ok (value d run), snd run).
Proof. by destruct run as [[a|e|p] s]. Qed.

Lemma ran_some {A} (d : A) (run : Res (option A) * St World) :
  match run with (Ok (Some _), _) => true | _ => false end = true ->
  run = (Ok (Some (default d (value None run))), snd run).
Proof. by destruct run as [[[a|]|e|p] s]. Qed.

Lemma ran_unit (run : Res unit * St World) : is_Ok (fst run) = true -> run = (Ok tt, snd run).
Proof. by destruct run as [[[]|e|p] s]. Qed.

(** ** The cycle *)

(** Witness: the first cycle of a three-server ensemble succeeds, and all its
    writes are in its namespace. *)
Lemma reconcile_writes_confined_witness :
  fst (cycle plain) = Ok tt /\
  exists evs, st_trace (after plain) = st_trace plain ++ evs /\
    forall k (o : Obj k), EvCreate k o ∈ evs \/ EvUpdate k o ∈ evs ->
      m_Namespace (meta_of o) = "ns" /\
      (k = KDeployment -> owned_deployment "zk" (m_Name (meta_of o))).
Proof.
  split; [vm_compute; reflexivity|].
  apply (reconcile_writes_confined "ns" "zk" plain (fst (cycle plain)) (after plain)).
  apply surjective_pairing.
Defined.

(** Witness: a second cycle over changed secrets updates deployments, fresh. *)
Lemma reconcile_updates_fresh_witness :
  fst (cycle (set_hashes ∅ (after plain))) = Ok tt /\
  exists evs, st_trace (after (set_hashes ∅ (after plain)))
    = st_trace (set_hashes ∅ (after plain)) ++ evs /\ fresh_updates "ns" evs.
Proof.
  split; [vm_compute; reflexivity|].
  apply (reconcile_updates_fresh "ns" "zk" (set_hashes ∅ (after plain))
           (fst (cycle (set_hashes ∅ (after plain))))).
  apply surjective_pairing.
Defined.

(** Witness: three servers, rolled one after another. *)
Lemma rolling_update_order_witness :
  let run := reconcileServers zkSecret (upto 1 3) plain in
  is_Ok (fst run) = true /\
  exists segs, st_trace (snd run) = st_trace plain ++ concat segs /\ length segs = 3%nat /\
    forall j seg i, segs !! j = Some seg -> upto 1 3 !! j = Some i ->
      Forall (writes_only (serverName "zk" i)) seg /\
      exists pre d, deployment_ready d /\
        seg = pre ++ [EvGet KDeployment "ns" (serverName "zk" i) (Ok d)].
Proof.
  intros run. assert (is_Ok (fst run) = true) as Hok by (vm_compute; reflexivity).
  split; [exact Hok|].
  destruct (rolling_update_order "ns" "zk" zkSecret (upto 1 3) (simZooKeeper 3 true) plain
              (fst run) (snd run)) as (segs & Htr & _ & Hlen & Hsegs).
  - split; reflexivity.
  - right. reflexivity.
  - reflexivity.
  - reflexivity.
  - apply surjective_pairing.
  - exists segs. split; [exact Htr|]. split; [exact (Hlen Hok)|].
    intros j seg i Hj Hi. destruct (Hsegs j seg i Hj Hi) as [Hw Hr]. auto.
Defined.


(** Witness: with no secret to watch, the servers' reconciler fails first and
    the last call reports it. *)
Lemma failed_reconciler_reported_witness :
  let rcs := buildReconcilers (W := World) (simCR 3 true false) in
  let run := runReconcilers rcs orphan in
  exists e, fst run = Err e /\
  exists tr cr' c, st_trace (snd run) = tr ++ [EvStatusUpdate cr'] /\
    c ∈ stt_Conditions (cr_Status cr') /\ cond_Type c = typeFailed.
Proof.
  intros rcs run. exists (apiError NotFound "zk-secret"). split; [vm_compute; reflexivity|].
  destruct (failed_reconciler_reported rcs orphan (apiError NotFound "zk-secret") (snd run))
    as (before & rc & rest & s1 & s2 & cr' & c & _ & _ & _ & Htr & Hc & _ & Ht & _).
  - vm_compute. reflexivity.
  - exists (st_trace s2), cr', c. split; [exact Htr|]. split; [exact Hc|exact Ht].
Defined.

(** Witness: the readiness check after the first cycle. *)
Lemma readiness_report_sound_witness :
  let run := zooKeeperStatus (after plain) in
  fst run = Ok tt /\
  exists pre cr' c, st_trace (snd run) = pre ++ [EvStatusUpdate cr'] /\
    c ∈ stt_Conditions (cr_Status cr') /\
    (cond_Type c = typeFailed \/ cond_Type c = typeReady).
Proof.
  intros run. assert (fst run = Ok tt) as Hok by (vm_compute; reflexivity).
  split; [exact Hok|].
  destruct (readiness_report_sound "ns" "zk" (after plain) (snd run))
    as (pre & cr' & c & Htr & Hc & _ & Ht).
  - split; vm_compute; reflexivity.
  - apply ran_unit. vm_compute; reflexivity.
  - exists pre, cr', c. split; [exact Htr|]. split; [exact Hc|].
    destruct Ht as [Ht|[Ht _]]; [left|right]; exact Ht.
Defined.

(** Witness: three servers deployed, one wanted: servers 2 and 3 are scaled to
    zero. *)
Lemma downscale_zeroes_excess_witness :
  let run := scaleDownExcess 3 1 (after plain) in
  fst run = Ok tt /\ scaling "zk" [2; 3] [2; 3] (fst run) (after plain) (snd run).
Proof.
  intros run. split; [vm_compute; reflexivity|].
  destruct (downscale_zeroes_excess "ns" "zk" 3 1 (after plain) (fst run) (snd run)) as (Hs & _).
  - split; vm_compute; reflexivity.
  - apply surjective_pairing.
  - exact Hs.
Defined.

(** Witness: the outcome reported after the first cycle. *)
Lemma outcome_matches_conditions_witness :
  let run := reportOutcome (W := World) (after plain) in
  hasFailedConditions (st_cr (after plain)) = false /\
  exists cr', st_trace (snd run) = st_trace (after plain) ++ [EvStatusUpdate cr'] /\
    hasFailedConditions cr' = false.
Proof.
  intros run.
  assert (hasFailedConditions (st_cr (after plain)) = false) as Hf by (vm_compute; reflexivity).
  split; [exact Hf|].
  destruct (outcome_matches_conditions (after plain) (fst run) (snd run))
    as (cr' & c & Htr & Hc & _); [apply surjective_pairing|].
  exists cr'. split; [exact Htr|]. by rewrite Hc.
Defined.

(** ** Quiescence *)

(** Witness: a fresh operator does not skip the servers. *)
Lemma skip_exactly_when_up_to_date_witness :
  configurationChanged (W := World) zooKeeperHashName zkHash [Some zkSecret] plain
  = (Ok true, plain).
Proof.
  destruct (skip_exactly_when_up_to_date marshalZooKeeper (Some (simZooKeeper 3 true))
    zooKeeperHashName zkHash [Some zkSecret] plain) as (changed & Hrun & _ & Hfirst).
  - vm_compute; reflexivity.
  - rewrite (Hfirst eq_refl) in Hrun. exact Hrun.
Defined.

(** The watches of the second cycle. *)
Definition zkWatch : Res Secret * St World := watchOwnSecret "zk-secret" (after plain).
Definition monWatch : Res Secret * St World := watchOwnSecret "mon-secret" (after plain).
Definition monBackupWatch : Res (option Secret) * St World := watchBackupDaemonSecret (snd monWatch).
Definition bdWatch : Res Secret * St World := watchOwnSecret "bd-secret" (after plain).
Definition bdS3Watch : Res (option Secret) * St World := watchS3Secret simBackup (snd bdWatch).
Definition bdAliases : Res (Secret * bool) * St World := findS3AliasesSecret (snd bdS3Watch).

(** Witness: in the second cycle the servers' reconciler is idle. *)
Lemma zookeeper_quiescent_witness :
  fst (zooKeeperReconcile (after plain)) = Ok tt /\
  idle (snd zkWatch) (snd (zooKeeperReconcile (after plain))).
Proof.
  split; [vm_compute; reflexivity|].
  apply (zookeeper_quiescent (simZooKeeper 3 true) (value emptySecret zkWatch) zkHash (after plain)
            (snd zkWatch) (fst (zooKeeperReconcile (after plain)))).
  - vm_compute; reflexivity.
  - vm_compute; reflexivity.
  - apply ran. vm_compute; reflexivity.
  - split; [vm_compute; reflexivity|]. split; [vm_compute; reflexivity|].
    rewrite Forall_singleton. vm_compute; reflexivity.
  - apply surjective_pairing.
Defined.

(** Witness: so is the monitoring's. *)
Lemma monitoring_quiescent_witness :
  fst (monitoringReconcile (after plain)) = Ok tt /\
  idle (snd monBackupWatch) (snd (monitoringReconcile (after plain))).
Proof.
  split; [vm_compute; reflexivity|].
  apply (monitoring_quiescent simMonitoring (value emptySecret monWatch)
            (value None monBackupWatch) monHash (after plain) (snd monWatch) (snd monBackupWatch)
            (fst (monitoringReconcile (after plain)))).
  - vm_compute; reflexivity.
  - vm_compute; reflexivity.
  - apply ran. vm_compute; reflexivity.
  - apply ran. vm_compute; reflexivity.
  - split; [vm_compute; reflexivity|]. split; [vm_compute; reflexivity|].
    rewrite !Forall_cons. split; [vm_compute; reflexivity|].
    split; [vm_compute; reflexivity|constructor].
  - apply surjective_pairing.
Defined.

(** Witness: and the backup daemon's. *)
Lemma backup_quiescent_witness :
  fst (backupDaemonReconcile (after plain)) = Ok tt /\
  idle (snd bdAliases) (snd (backupDaemonReconcile (after plain))).
Proof.
  split; [vm_compute; reflexivity|].
  apply (backup_quiescent simBackup (value emptySecret bdWatch) (value None bdS3Watch)
            (value (emptySecret, false) bdAliases) bdHash (after plain) (snd bdWatch)
            (snd bdS3Watch) (snd bdAliases) (fst (backupDaemonReconcile (after plain)))).
  - vm_compute; reflexivity.
  - vm_compute; reflexivity.
  - exact (ran emptySecret bdWatch ltac:(vm_compute; reflexivity)).
  - exact (ran None bdS3Watch ltac:(vm_compute; reflexivity)).
  - unfold bdAliases. apply ran. vm_compute; reflexivity.
  - split; [vm_compute; reflexivity|]. split; [vm_compute; reflexivity|].
    rewrite !Forall_cons. split; [vm_compute; reflexivity|]. split; [vm_compute; reflexivity|].
    split; [vm_compute; reflexivity|constructor].
  - apply surjective_pairing.
Defined.

(** In the first cycle, before the backup daemon's turn. *)
Definition freshMon : Res Secret * St World := watchOwnSecret "mon-secret" plain.
Definition freshBackup : Res (option Secret) * St World := watchBackupDaemonSecret (snd freshMon).
Definition freshBackupSecret : Secret := default emptySecret (value None freshBackup).

Lemma monitoring_masks_backup_secret_witness :
  secretVersionChanged (st_versions plain) (Some freshBackupSecret) = true /\
  secretVersionChanged (st_versions (snd (monitoringReconcile plain))) (Some freshBackupSecret)
  = false.
Proof.
  split; [vm_compute; reflexivity|].
  apply (monitoring_masks_backup_secret simMonitoring (value emptySecret freshMon) freshBackupSecret
           plain (snd freshMon) (snd freshBackup) (snd (monitoringReconcile plain))).
  - reflexivity.
  - unfold freshMon. apply ran. vm_compute; reflexivity.
  - unfold freshBackupSecret, freshBackup. apply ran_some. vm_compute; reflexivity.
  - apply ran_unit. vm_compute; reflexivity.
Defined.

(** ** Credentials *)
Definition vaultReady : St World :=
  set_vault (Some (mkVaultClient "http://vault" "token"))
    (set_cr (set_SecretVersions (Some ∅) (simCR 3 true true)) vaulted).
Definition refreshSecret : Secret := simSecret "zk-secret" refreshing simUsers.
Definition adminRead : Res (option (list (string * iface))) * St World :=
  ReadVaultSecret "secret" "zk.ns/admin-credentials" vaultReady.


(** Witness: bob and eve get new passwords and keep their names. *)
Lemma rotated_users_keep_names_witness :
  let names := extractUserNames "bob:x,,eve:y" in
  let run := generateUsers OperatorPasswordGenerator names vaulted in
  is_Ok (fst run) = true /\
  named_users (extractUserNames (Join "," (value [] run))) = ["bob"; "eve"].
Proof.
  intros names run. split; [vm_compute; reflexivity|].
  change ["bob"; "eve"] with (named_users names).
  apply (rotated_users_keep_names OperatorPasswordGenerator names vaulted (value [] run) (snd run)).
  - repeat constructor.
  - apply ran. vm_compute; reflexivity.
  - repeat (constructor; [vm_compute; reflexivity|]). constructor.
Defined.

(** Witness: the secret that asks for a refresh is cleaned once. *)
Lemma cleaned_secret_is_settled_witness :
  let run := cleanSecret refreshSecret vaulted in
  needToCleanSecret refreshSecret = true /\
  needToCleanSecret (value emptySecret run) = false /\
  secretVersionChanged (st_versions (snd run)) (Some (value emptySecret run)) = false.
Proof.
  intros run. split; [vm_compute; reflexivity|].
  destruct (cleaned_secret_is_settled refreshSecret vaulted (value emptySecret run) (snd run))
    as (H1 & _ & H3).
  - intros o w o' w'. cbn. unfold sim_update. destruct (store KSecret w !! _); [|done].
    repeat case_match; intros [= <- <-]; split; reflexivity.
  - vm_compute; reflexivity.
  - apply ran. vm_compute; reflexivity.
  - split; [exact H1|exact H3].
Defined.

(** ** A lost refresh *)

(** The owner asks for new credentials of the backup daemon after a first
    cycle that set everything up. *)
Definition asked (s : St World) : St World := touchSecret "bd-secret" refreshing (after s).

(** The secret of the backup daemon still asks for a refresh. *)
Definition stillAsking (s : St World) : bool :=
  match store KSecret (st_world s) !! ("ns", "bd-secret") with
  | Some sec => needToCleanSecret sec
  | None => false
  end.

