(* ===== verification/Witnesses.v ===== *)
(** * The builders and the services on concrete inputs

    Applications of the properties of the resource builders, the conditions,
    the Vault client and the assistant, with their hypotheses checked by
    computation. *)

From S2P Require Import Prelude GoStrings Types Util Provider Platform Conditions Reconciler Bounds Vault.
From S2P Require Import ZooKeeperProvider MonitoringProvider BackupDaemonProvider.
From S2P Require Import ZooKeeperVault Sim BackupServer Scenarios.

Definition zrp : ZooKeeperResourceProvider := NewZooKeeperResourceProvider (simCR 3 true false).
Definition mrp : MonitoringResourceProvider := NewMonitoringResourceProvider (simCR 3 true false).
Definition brp : BackupDaemonResourceProvider := NewBackupDaemonResourceProvider (simCR 3 true false).

(** Two nodes for three servers. *)
Definition twoNodes : ZooKeeper :=
  mkZooKeeper "zk:1" simAffinity [] "" 3 (mkStorage [] ["n1"; "n2"] [] ["standard"] "1Gi")
    noSnapshots 512 "" "zk-secret" true (mkSsl [] false false) "" 9087 ["A=b"] true None
    (mkDiagnostics "" "") false.

Definition emptyDeployment : Deployment :=
  mkDeployment (newMeta "d" "ns" None) RecreateStrategy None None (newMeta "" "" None)
    (mkPodSpec [] [] [] "" "" "" "" None [] "") 0 0.
Definition emptyService : Service := mkService (newMeta "s" "ns" None) [] None "" "" [] false.

Definition serverDeployment (id : Z) : Deployment :=
  resOr emptyDeployment (ZK.NewServerDeploymentForCR zrp id).

Definition autoRestartSecret : Secret :=
  simSecret "zk-secret" {[AutoRestartAnnotation := "true"]} None.

(** ** Bounds, annotations and conditions *)

(** Witness: applying the deployment of the first server. *)
Lemma deployment_writes_bounded_witness :
  let run := createOrUpdateDeployment (serverDeployment 1) (simState (simCR 3 true false) ∅) in
  fst run = Ok tt /\ adds 9 4 (simState (simCR 3 true false) ∅) (snd run).
Proof.
  split; [vm_compute; reflexivity|].
  destruct deployment_writes_bounded as [Hcreate _].
  eapply (Hcreate (serverDeployment 1)). apply surjective_pairing.
Defined.

(** Witness: a component that starts, fails and is ready again. *)
Definition reports : list StatusCondition :=
  [mkCondition typeInProgress statusFalse "Ready" "started" "t1";
   mkCondition typeFailed statusFalse "Ready" "not ready" "t2";
   mkCondition typeReady statusTrue "Ready" "ready" "t3"].

Lemma conditions_refine_map_witness :
  length (stt_Conditions (cr_Status (set_Conditions (foldl addCondition [] reports) (simCR 3 true false)))) = 1%nat /\
  conditionMap (foldl addCondition [] reports) = foldl report ∅ reports.
Proof.
  split; [vm_compute; reflexivity|].
  destruct (conditions_refine_map
    (set_Conditions (foldl addCondition [] reports) (simCR 3 true false)) reports eq_refl) as (_ & Hmap & _).
  exact Hmap.
Defined.

(** Witness: a secret marked for restarts. *)
Lemma restart_annotations_settle_witness :
  let '(modified, d') := applyAutoRestartSecretAnnotations (serverDeployment 1) [Some autoRestartSecret] in
  modified = true /\ template_annotation d' "zk-secret" = "1" /\
  fst (applyAutoRestartSecretAnnotations d' [Some autoRestartSecret]) = false.
Proof.
  assert (consistent_versions [Some autoRestartSecret]) as Hc.
  { intros a b Ha Hb _. apply list_elem_of_singleton in Ha, Hb. congruence. }
  pose proof (restart_annotations_settle [Some autoRestartSecret] (serverDeployment 1) Hc) as H.
  assert (fst (applyAutoRestartSecretAnnotations (serverDeployment 1) [Some autoRestartSecret])
          = true) as Hm by (vm_compute; reflexivity).
  destruct (applyAutoRestartSecretAnnotations (serverDeployment 1) [Some autoRestartSecret])
    as [m d']. destruct H as (Hset & _ & Hagain). split; [exact Hm|]. split; [|exact Hagain].
  apply (Hset autoRestartSecret); [by constructor|]. split; [discriminate|vm_compute; reflexivity].
Defined.

(** Witness: an update of one of two reasons and a new reason. *)
Definition twoReasons : list StatusCondition :=
  [mkCondition "Ready" "True" "a" "m" "t1"; mkCondition "Failed" "False" "b" "m" "t1"].

Lemma addCondition_unique_reasons_witness :
  addCondition twoReasons (mkCondition "Failed" "False" "c" "m" "t2")
  = twoReasons ++ [mkCondition "Failed" "False" "c" "m" "t2"] /\
  NoDup (cond_Reason <$> addCondition twoReasons (mkCondition "Ready" "True" "b" "m" "t2")).
Proof.
  split; [reflexivity|].
  apply (addCondition_unique_reasons twoReasons (mkCondition "Ready" "True" "b" "m" "t2")).
  apply (bool_decide_unpack _). reflexivity.
Defined.

Lemma addCondition_transition_time_witness :
  let c := mkCondition "Ready" "True" "b" "m" "t2" in
  addCondition (addCondition twoReasons c) (set_LastTransitionTime "t3" c)
  = [mkCondition "Ready" "True" "a" "m" "t1"; mkCondition "Ready" "True" "b" "m" "t2"].
Proof.
  apply (addCondition_transition_time twoReasons (mkCondition "Ready" "True" "b" "m" "t2") "t3").
  apply (bool_decide_unpack _). reflexivity.
Defined.

(** ** Resources *)
Definition serverService (id : Z) : Service :=
  resOr emptyService (ZK.NewZooKeeperServerServiceForCR zrp id).
Definition clientService : Service := resOr emptyService (ZK.NewZooKeeperClientServiceForCR zrp).
Definition domainService : Service := resOr emptyService (ZK.NewZooKeeperDomainServiceForCR zrp).

(** Witness: the service of server 2 does not reach server 1. *)
Lemma services_select_servers_witness :
  ~ selects (svc_Selector (serverService 2)) (template_labels (serverDeployment 1)) /\
  selects (svc_Selector clientService) (template_labels (serverDeployment 1)).
Proof.
  destruct (services_select_servers zrp 2 1 (serverService 2) clientService domainService
              (serverDeployment 1) simGlobal) as (Hs & Hc & _).
  1-5: vm_compute; reflexivity.
  - split; vm_compute; reflexivity.
  - split; [|exact Hc]. rewrite Hs. discriminate.
Defined.

Lemma server_selector_matches_template_witness :
  selects (d_Selector (serverDeployment 3)) (template_labels (serverDeployment 3)).
Proof.
  apply (server_selector_matches_template zrp 3 _ simGlobal).
  - vm_compute; reflexivity.
  - reflexivity.
  - split; vm_compute; reflexivity.
Defined.

(** Witness: a claim by storage class. *)
Definition serverClaim : option PersistentVolumeClaim :=
  resOr None (ZK.NewZooKeeperPersistentVolumeClaimForCR zrp 2).

Lemma server_data_volume_is_its_claim_witness :
  exists p, serverClaim = Some p /\
  head (ps_Volumes (d_PodSpec (serverDeployment 2)))
  = Some (mkVolume "data" (VPersistentVolumeClaim (m_Name (pvc_Meta p)))).
Proof.
  destruct (server_data_volume_is_its_claim zrp 2 (serverDeployment 2) serverClaim
    (simZooKeeper 3 true)) as [Hp _]; [vm_compute; reflexivity..|].
  assert (is_Some serverClaim) as [p Hclaim] by (vm_compute; eexists; reflexivity).
  exists p. split; [exact Hclaim|exact (Hp p Hclaim)].
Defined.

Lemma server_mounts_match_volumes_witness :
  exists c, ps_Containers (d_PodSpec (serverDeployment 1)) = [c] /\
    vm_Name <$> c_VolumeMounts c = vol_Name <$> ps_Volumes (d_PodSpec (serverDeployment 1)).
Proof. apply (server_mounts_match_volumes zrp 1). vm_compute; reflexivity. Defined.

(** Witness: the third server has no node. *)
Lemma server_deployment_bounds_witness :
  ZK.NewServerDeploymentForCR (mkZRP (simCR 3 true false) (Some twoNodes)) 3
  = Panic IndexOutOfRange.
Proof.
  exact (server_deployment_bounds (mkZRP (simCR 3 true false) (Some twoNodes)) 3 simGlobal twoNodes
    (mkQuantity "32Mi") eq_refl eq_refl eq_refl).
Defined.

Definition monitoringDeployment : Deployment := resOr emptyDeployment (Mon.NewMonitoringDeployment mrp).
Definition monitoringService : Service := resOr emptyService (Mon.NewMonitoringClientService mrp).

Lemma monitoring_deployment_consistent_witness :
  selects (svc_Selector monitoringService) (template_labels monitoringDeployment).
Proof.
  apply (monitoring_deployment_consistent mrp monitoringDeployment monitoringService simGlobal).
  - vm_compute; reflexivity.
  - vm_compute; reflexivity.
  - reflexivity.
  - split; vm_compute; reflexivity.
Defined.

Definition backupDeployment : Deployment :=
  resOr emptyDeployment (Backup.NewBackupDaemonDeployment brp true).
Definition backupService : Service := resOr emptyService (Backup.NewBackupDaemonClientService brp).

Lemma backup_deployment_consistent_witness :
  selects (svc_Selector backupService) (template_labels backupDeployment).
Proof.
  apply (backup_deployment_consistent brp true backupDeployment backupService simGlobal).
  - vm_compute; reflexivity.
  - vm_compute; reflexivity.
  - reflexivity.
  - split; vm_compute; reflexivity.
Defined.

(** Witness: a label without an equals sign. *)
Lemma nonshared_claim_outcome_witness :
  ProcessNonSharedPersistentVolumeClaim "pvc" "" "disk" None "1Gi" "ns" ∅ None
  = Panic IndexOutOfRange.
Proof.
  apply (nonshared_claim_outcome "pvc" "" "disk" None "1Gi" "ns" ∅ None (mkQuantity "1Gi")).
  - reflexivity.
  - split; [reflexivity|]. split; [discriminate|reflexivity].
Defined.

(** ** Vault *)
Lemma vault_reference_roundtrip_witness :
  GetVaultSecretForPath (Some {["admin" := "vault:/secret/data/zk.ns/admin#password"]}) "admin"
  = "secret/data/zk.ns/admin".
Proof.
  apply (vault_reference_roundtrip "zk" (simCR 3 true true) "admin" "password"
    "vault:/secret/data/zk.ns/admin#password" "admin" (simVault true)); reflexivity.
Defined.

(** Witness: no Vault address. *)
Definition addressless : St World :=
  set_cr (mkCR "netcracker.com/v1" "ZooKeeperService" (newMeta "zk" "ns" None)
    (mkSpec None None None None
       (Some (mkVaultSM "vault:1" true "secret" "" "operator" "kubernetes" "operator" true
                (mkSecretPaths None))) None) (mkStatus [] [] [] None None [])) vaulted.

Lemma vault_init_requires_parameters_witness :
  exists e, InitVaultClient addressless = (Err e, addressless).
Proof.
  apply (vault_init_requires_parameters addressless
    (mkVaultSM "vault:1" true "secret" "" "operator" "kubernetes" "operator" true (mkSecretPaths None))).
  - reflexivity.
  - left. reflexivity.
Defined.

Lemma password_policy_write_error_lost_witness :
  exists s', WriteVaultPasswordPolicy "policy" [("policy", IString "length = 8")] vaultReady = (Ok tt, s').
Proof.
  apply password_policy_write_error_lost; [reflexivity|]. vm_compute. eexists. reflexivity.
Defined.

(** Witness: a secret that was never annotated. *)
Definition bareSecret : Secret := mkSecret (newMeta "zk-secret" "ns" None) simUsers.

Lemma clean_secret_nil_annotations_witness :
  cleanSecret bareSecret vaulted = (Panic NilMapWrite, vaulted).
Proof.
  apply clean_secret_nil_annotations; [discriminate|eexists; reflexivity|reflexivity].
Defined.

(** ** The assistant *)
Lemma backup_is_exact_witness :
  exists f', storeZooKeeperFiles jobData oldBackup
    = (Ok (mkResult "Ok" "The files are copied successfully!"), f') /\
  diskTree f' "/backup" = Some {["log.1" := "new"]}.
Proof.
  set (run := storeZooKeeperFiles jobData oldBackup).
  assert (run = (Ok (mkResult "Ok" "The files are copied successfully!"), snd run)) as Hrun
    by (vm_compute; reflexivity).
  exists (snd run). split; [exact Hrun|].
  destruct (backup_is_exact diskTree diskApart jobData oldBackup _ (snd run)
              ltac:(discriminate) Hrun eq_refl) as (files & Hsrc & Hdst & _).
  transitivity (Some files); [exact Hdst|].
  transitivity (diskTree oldBackup "/data"); [symmetry; exact Hsrc|vm_compute; reflexivity].
Defined.

(** Witness: one-way TLS. *)
Lemma health_uses_configured_tls_witness :
  exists c ca, zk_Connect c zkSessionTimeout oldBackup = Ok tt /\
    c = TlsConn ["127.0.0.1:2181"] (mkDialer "127.0.0.1:2181" ca None).
Proof.
  destruct (health_uses_configured_tls "user:password" oldBackup) as (c & Hc & _ & _ & Htls).
  - vm_compute; reflexivity.
  - destruct Htls as (ca & _ & ->). exists (TlsConn ["127.0.0.1:2181"]
      (mkDialer "127.0.0.1:2181" ca None)), ca. split; [exact Hc|reflexivity].
Defined.

(** Witness: the data directory is missing. *)
Definition noData : Disk := {["/backup" := {["log.0" := "old"]}]}.
Definition removed : Disk := snd (os_RemoveAll "/backup" noData).
Definition recreated : Disk := snd (os_Mkdir "/backup" 493 removed).

Lemma failed_backup_loses_the_old_one_witness :
  rw_Status (fst (BackupHandlers jobData (mkRequest "POST" "/store") newWriter noData)) = Some 200 /\
  diskTree (snd (BackupHandlers jobData (mkRequest "POST" "/store") newWriter noData)) "/backup"
  = Some ∅.
Proof.
  destruct (failed_backup_loses_the_old_one diskTree diskApart jobData noData removed recreated
    recreated (Errorf "exit status 1") {["log.0" := "old"]}) as (Hs & _ & Ht).
  - vm_compute; reflexivity.
  - vm_compute; reflexivity.
  - vm_compute; reflexivity.
  - vm_compute; reflexivity.
  - rewrite Hs. split; [reflexivity|exact Ht].
Defined.
